(* ===== verification/_CoqProject ===== *)
-Q . S2P
Prelude.v
Bitmap.v
PhysMem.v
VirtPages.v
FsBlocks.v
PageEntry.v
Paging.v
MapPage.v
KHeap.v
NodeHeap.v
Slob.v
Queues.v
Kthread.v
Timer.v
CString.v
Memory.v
TarFs.v
Tree.v
UserHeap.v
Shell.v
ShellMain.v
Process.v
PageFault.v
CopyTables.v
UserBytes.v
AddressSpace.v
Image.v
Growth.v
Exec.v
Fork.v
Execve.v
Libc.v
Ahci.v
DiskText.v
FileSys.v
FileSysProps.v
Screen.v
Keyboard.v
Input.v
Interrupts.v
Boot.v
Syscalls.v
FileCalls.v
Start.v
ListHead.v
