(* ===== verification/Prelude.v ===== *)
(** * SBUNIX: a verification of the kernel under src/SBUNIX-C-H

    SBUNIX is a small 64-bit kernel in C: physical and virtual memory, threads
    with a round-robin scheduler, user processes with fork, exec and copy on
    write, a file system on an AHCI disk, a read-only archive of the boot files,
    a text console with a keyboard, and a C library and shell for programs.
    This development translates its functions into Gallina, one definition per
    function under the function's name, and proves what they do, where they go
    wrong included.

    ** Conventions

    A pointer is an address, a [Z]; a machine integer is a [Z] with its
    wrap-around written out ([u8], [u16], [u32], [u64], [s8], [s32] below).  A
    function that can fail returns an [outcome]: [Ret] of its result, [Panic]
    for sys/stdfns.c's PANIC (in UserHeap.v, for the end of the process), [Undef] for an access C leaves undefined, [Loops]
    for a loop that used up its fuel.  State is a record that functions take and
    return: one record per group of C globals.  Memory appears in the form a
    component uses it in: 64-bit words by physical address for page tables
    ([Paging.vmm]), bytes for strings, disk structures, the archive and the
    screen ([CString.bytes], with little-endian fields in Memory.v), maps from
    addresses to records for threads, heap headers and memory areas.  What the
    compiler, linker, boot loader and devices decide is a parameter: addresses
    of globals ([Kthread.image], [FileSys.layout], [TarFs.tar_layout]), memory
    maps, scan codes, the disk (the class [Ahci.Drive]), which pages of a
    process can be touched (UserHeap.v), and whether the array of a function
    that has returned keeps its bytes ([Shell.eval]).

    ** Files

    - Prelude.v: outcomes, machine integers, loops, arrays, list lemmas.
    - Bitmap.v: sys/mm/mmgr.c, the bitmap allocator: [bitmap] is the map with
      its two counters.  Theorems: no frame is handed out twice, searches find
      the least block or run of blocks, and the int shift that halves capacity.
    - PhysMem.v: start-up of sys/mm/mmgr.c: the loader's memory map, the
      kernel's frames are never allocated.
    - VirtPages.v, FsBlocks.v: the copies of the bitmap in
      sys/mm/vmmgr_page_allocator.c and sys/fs_mmgr.c.
    - PageEntry.v: sys/mm/vmmgr_{pte,pde,pdpe,pml4}.c, flags and frames.
    - Paging.v, MapPage.v: sys/mm/vmmgr_virtual.c.  [translate] is the
      processor's walk of four tables; [tree] the invariant of a table tree.
      vmmgr_map_page makes exactly its page translate, vmmgr_init maps the
      kernel, the recursive slot finds the entries, pages of the bump
      allocator are disjoint.
    - KHeap.v, NodeHeap.v: sys/mm/myalloc.c (Module [MyAlloc]): first fit, the
      chunks that are handed out twice, and the addresses a sequence of calls of
      one size returns.
    - Slob.v: sys/mm/slob.c.  The ring of free blocks is a set of free bytes:
      taking and giving back a block removes and adds exactly its bytes, and
      where rings of one block go wrong.
    - Queues.v, Kthread.v: sys/kthread.c and kthread.s.  The doubly linked lists
      once, for the class [LinkField] of link fields; [rep] relates them to
      lists, on which the scheduler is stated abstractly ([pick]) and refined
      by Schedule and Yield: round robin, no starvation.
    - Timer.v: sys/timer.c: sleepers wake, the clock and its drift.
    - CString.v, Memory.v: the string functions of sys/stdfns.c and
      libc/stdlib.c; fields of structures in byte memory.
    - TarFs.v: sys/elf.c: lookup, open and listing in the archive against a
      description of its entries ([archive]); the directory tree; cd; ELF
      headers.
    - Tree.v: init_tarfs of sys/elf.c against a finite map of nodes ([grow]): the
      structures in memory are that tree, and its first directory is lost.
    - UserHeap.v, Libc.v: libc/malloc.c, where an access may fault, as a program
      that starts with any values in .bss uses it; the calls of libc/ as the registers they
      trap with, matched with the kernel's dispatch, and printf.
    - Shell.v, ShellMain.v: bin/shell/shell.c, its parser and commands, and its
      loop as the calls it makes, round after round.
    - Process.v: sys/mmap.c, sys/exec.c and the calls on processes of
      sys/isr.c.  [system] adds the memory areas to the [kernel] of Kthread.v.
      The area list is kept well-formed and is freed to the end; the frame a
      forked child starts from; process numbers of live processes are reused.
    - PageFault.v: page faults of sys/isr.c and the dispatch in sys/idt.c.  A
      fault on a copy-on-write page ends with a private, writable, equal copy
      and nothing else changed; which faults are taken for stack growth.
    - CopyTables.v, Fork.v: fork of sys/isr.c.  The copy of page tables in
      sys/mm/vmmgr_virtual.c, and with it the whole call: the child's tables
      translate every page as the parent's did, no page of either is writable,
      and the child's thread returns to where the parent trapped.
    - UserBytes.v, AddressSpace.v: mapping a page of a process with paging on,
      whichever tables are missing.  The user half of the tables represents a
      finite map from pages to frames ([space]), and mapping inserts into it.
    - Image.v, Exec.v: mmap and do_exec on such a map: a program's segments,
      stack and heap are mapped and filled, and its thread is started.
    - Growth.v: a fault taken for stack growth maps a page below the area mapped
      last.
    - Execve.v: execve: the areas and page tables of the current process are
      cleared, and its thread starts over as another program.
    - Ahci.v, DiskText.v, FileSys.v, FileSysProps.v: sys/ahci.c and sys/fs.c.
      What is written is read back; what rsync keeps and loses; an error bit
      that is never cleared.
    - Screen.v, Keyboard.v, Input.v: console output of sys/stdfns.c, sys/kb.c,
      and read from the terminal: typing a line, with its echo, through to the
      bytes the process gets.
    - Interrupts.v: sys/idt.c, sys/irq.c, sys/irq.s, sys/gdt.c.
    - Boot.v: boot of sys/main.c, from the cold machine to the first thread,
      and how the pages of the kernel run into its page tables.
    - Start.v: init_ahci of sys/ahci.c, which maps the controller and makes it
      ready, and start of sys/main.c, which the first thread runs.
    - Syscalls.v, FileCalls.v: all of these in one state, [world], with
      fault_handler of sys/idt.c over it: the calls on files, the terminal, the
      listings and, handed on, those on processes.  Theorems start from the
      registers a function of Libc.v traps with: create, write and read bring a
      text back from the disk; open, read and close on the archive; descriptors
      and names that do not exist.
    - ListHead.v: include/sys/list.h.  The operations on a store of list cells
      implement lists: any sequence of them, on any number of heads.

    A file requires those it calls into: Kthread.v the heap, which holds the
    pages, which hold the frames; Process.v threads, tables and the archive;
    FileSys.v the disk and its own bitmap; Input.v the keyboard and the screen;
    Syscalls.v all of them.

    ** Fuel

    Every loop whose bound the code does not state takes a number of
    iterations, and the theorems show it is enough: the length of an array or
    the size of a map for lists threaded through it ([find_ready],
    [find_block], [near_area], [clear_from]: a list without repetition has no
    more nodes than the map); the range of a 16-bit counter ([COUNTER_RANGE],
    [INDEX_RANGE]), past which C's loop repeats itself; [STRING_BOUND], 65536,
    for strings, which the theorems assume shorter; [WALK_BOUND], one iteration
    for each 512 bytes of the archive, since headers are that far apart; 65
    digits of a number.

    ** Not modelled

    Busy waits on devices and on other threads: a wait appears as the sequence
    of interrupts that ends it (Input.v), as a condition (wait), or as a
    parameter (the drive).  The translation look-aside buffer: a translation is
    the walk of the tables as they are.  Register contents across a switch
    other than the stack pointer and cr3.  Assembly glue, debugging output,
    sys/fork.c, which is a comment, and the demonstration programs under bin/.

    Page tables hold 64-bit words by physical address, the strings and
    structures of files bytes by virtual address; [world] keeps both and does
    not relate them.  A program's image is stated for segments within a page
    each, the only ones mmap, which maps one page whatever the length, makes
    room for. *)

From stdpp Require Export base tactics list numbers gmap.
From Stdlib Require Export ZArith Lia.

#[global] Open Scope Z_scope.

(** ** C outcomes

    A C function either returns, stops in [PANIC] (sys/stdfns.c: an endless
    loop after a message) or performs an access the language leaves
    undefined (an index outside an array, a dereference of a null or dangling
    pointer).  [loops] is a run that used up the number of iterations a
    definition allows it; the termination theorems show where it cannot
    occur. *)

Inductive outcome (A : Type) : Type :=
  | Ret (a : A)
  | Panic
  | Undef
  | Loops.

Arguments Ret {A} a.
Arguments Panic {A}.
Arguments Undef {A}.
Arguments Loops {A}.

#[global] Instance outcome_ret : MRet outcome := fun A x => Ret x.
#[global] Instance outcome_bind : MBind outcome := fun A B k m =>
  match m with
  | Ret a => k a
  | Panic => Panic
  | Undef => Undef
  | Loops => Loops
  end.
#[global] Instance outcome_fmap : FMap outcome := fun A B f m =>
  match m with
  | Ret a => Ret (f a)
  | Panic => Panic
  | Undef => Undef
  | Loops => Loops
  end.

#[global] Instance outcome_eq_dec `{EqDecision A} : EqDecision (outcome A).
Proof. solve_decision. Defined.

(** A C read that is undefined outside the object. *)
Definition defined {A} (o : option A) : outcome A :=
  match o with Some a => Ret a | None => Undef end.

(** The value a run returned, for evaluating concrete runs. *)
Definition returned {A} (d : A) (o : outcome A) : A :=
  match o with Ret a => a | _ => d end.

Lemma bind_Ret_inv {A B} (m : outcome A) (k : A -> outcome B) b :
  (m ≫= k) = Ret b -> exists a, m = Ret a /\ k a = Ret b.
Proof. destruct m; simpl; [eauto | done..]. Qed.

(** Runs a first step that returns [a], without evaluating the rest. *)
Lemma bind_step {A B} (m : outcome A) (k : A -> outcome B) a (P : B -> Prop) :
  m = Ret a -> (exists b, k a = Ret b /\ P b) -> exists b, (m ≫= k) = Ret b /\ P b.
Proof. by intros ->. Qed.

Lemma bind_Ret {A B} (a : A) (k : A -> outcome B) : (Ret a ≫= k) = k a.
Proof. done. Qed.

(** Rewrites a step of a run by its result and moves on, leaving the
    remaining steps as they are. *)
Ltac step E := rewrite E, bind_Ret; cbv beta.

Lemma defined_Ret_inv {A} (o : option A) a : defined o = Ret a -> o = Some a.
Proof. destruct o; simpl; congruence. Qed.

(** ** Machine integers

    Unsigned values of width [w] are the [Z]s of [0, 2^w); signed values are
    represented by themselves. *)

Definition uwrap (w z : Z) : Z := z mod 2 ^ w.
Definition swrap (w z : Z) : Z := (z + 2 ^ (w - 1)) mod 2 ^ w - 2 ^ (w - 1).

Abbreviation u8 := (uwrap 8).
Abbreviation u16 := (uwrap 16).
Abbreviation u32 := (uwrap 32).
Abbreviation u64 := (uwrap 64).
Abbreviation s8 := (swrap 8).
Abbreviation s32 := (swrap 32).

Lemma uwrap_range w z : 0 <= w -> 0 <= uwrap w z < 2 ^ w.
Proof. intros. apply Z.mod_pos_bound. by apply Z.pow_pos_nonneg. Qed.

Lemma uwrap_small w z : 0 <= z < 2 ^ w -> uwrap w z = z.
Proof. apply Z.mod_small. Qed.

Lemma uwrap_idemp w z : 0 <= w -> uwrap w (uwrap w z) = uwrap w z.
Proof. intros. unfold uwrap. rewrite Z.mod_mod; [done|]. apply Z.pow_nonzero; lia. Qed.

Lemma uwrap_testbit w z i :
  0 <= w -> Z.testbit (uwrap w z) i = (i <? w) && Z.testbit z i.
Proof.
  intros Hw. unfold uwrap. destruct (Z.ltb_spec i w) as [Hi|Hi]; simpl.
  - destruct (Z.neg_nonneg_cases i) as [Hn|Hn].
    + by rewrite !Z.testbit_neg_r.
    + by apply Z.mod_pow2_bits_low.
  - apply Z.mod_pow2_bits_high; lia.
Qed.

Lemma swrap_range w z : 0 < w -> - 2 ^ (w - 1) <= swrap w z < 2 ^ (w - 1).
Proof.
  intros Hw. unfold swrap.
  assert (2 ^ w = 2 * 2 ^ (w - 1)) as E by (rewrite <- Z.pow_succ_r by lia; f_equal; lia).
  pose proof (Z.mod_pos_bound (z + 2 ^ (w - 1)) (2 ^ w)) as B.
  assert (0 < 2 ^ (w - 1)) by (apply Z.pow_pos_nonneg; lia).
  lia.
Qed.

Lemma swrap_small w z : 0 < w -> - 2 ^ (w - 1) <= z < 2 ^ (w - 1) -> swrap w z = z.
Proof.
  intros Hw Hz. unfold swrap.
  assert (2 ^ w = 2 * 2 ^ (w - 1)) as E by (rewrite <- Z.pow_succ_r by lia; f_equal; lia).
  rewrite Z.mod_small; lia.
Qed.

(** A signed value differs from the one it wraps by a multiple of [2^w]. *)
Lemma swrap_mod w z : 0 < w -> exists k, swrap w z = z + k * 2 ^ w.
Proof.
  intros Hw. unfold swrap.
  exists (- ((z + 2 ^ (w - 1)) / 2 ^ w)).
  pose proof (Z.div_mod (z + 2 ^ (w - 1)) (2 ^ w)).
  assert (2 ^ w <> 0) by (apply Z.pow_nonzero; lia). lia.
Qed.

Lemma swrap_testbit_low w z i :
  0 <= i < w -> Z.testbit (swrap w z) i = Z.testbit z i.
Proof.
  intros Hi. destruct (swrap_mod w z) as [k ->]; [lia|].
  rewrite <- (Z.mod_pow2_bits_low (z + k * 2 ^ w) w) by lia.
  rewrite Z_mod_plus_full. apply Z.mod_pow2_bits_low; lia.
Qed.

Lemma swrap_testbit_high w z i :
  0 < w -> w <= i -> Z.testbit (swrap w z) i = Z.testbit z (w - 1).
Proof.
  intros Hw Hi. rewrite <- (swrap_testbit_low w z (w - 1)) by lia.
  pose proof (swrap_range w z Hw) as [Hlo Hhi].
  set (y := swrap w z) in *.
  destruct (Z.neg_nonneg_cases y) as [Hn|Hn].
  - assert (forall j, w - 1 <= j -> Z.testbit y j = true) as Hall.
    { intros j Hj. rewrite <- (negb_involutive (Z.testbit y j)).
      rewrite <- Z.lnot_spec by lia.
      rewrite Z.testbit_eqb by lia. rewrite Z.div_small; [done|].
      unfold Z.lnot. split; [lia|].
      apply Z.lt_le_trans with (2 ^ (w - 1)); [lia|].
      apply Z.pow_le_mono_r; lia. }
    rewrite !Hall; [done|lia..].
  - assert (forall j, w - 1 <= j -> Z.testbit y j = false) as Hall.
    { intros j Hj. rewrite Z.testbit_eqb by lia. rewrite Z.div_small; [done|].
      split; [lia|]. apply Z.lt_le_trans with (2 ^ (w - 1)); [lia|].
      apply Z.pow_le_mono_r; lia. }
    rewrite !Hall; [done|lia..].
Qed.

(** Bitwise reasoning: compare two integers bit by bit. *)
Create Rewrite HintDb bits.
#[export] Hint Rewrite Z.lor_spec Z.land_spec Z.lxor_spec Z.ldiff_spec
  Z.bits_0 uwrap_testbit Z.shiftl_spec Z.shiftr_spec Z.lnot_spec
  using lia : bits.

Ltac bitwise i Hi := apply Z.bits_inj'; intros i Hi; autorewrite with bits.

(** A nonnegative value all of whose bits above [w] are clear is below [2^w]. *)
Lemma bits_below w z :
  0 <= w -> 0 <= z -> (forall i, w <= i -> Z.testbit z i = false) -> z < 2 ^ w.
Proof.
  intros Hw Hz Hb. apply Z.le_lt_trans with (uwrap w z); [|apply uwrap_range; lia].
  apply Z.eq_le_incl. bitwise i Hi.
  destruct (Z.ltb_spec i w); simpl; [done|]. by apply Hb.
Qed.

Lemma uwrap_lor w a b : 0 <= w -> uwrap w (Z.lor a b) = Z.lor (uwrap w a) (uwrap w b).
Proof. intros. bitwise i Hi. by destruct (i <? w). Qed.

Lemma testbit_one_shift n i : 0 <= n -> Z.testbit (Z.shiftl 1 n) i = (i =? n).
Proof.
  intros Hn. rewrite Z.shiftl_1_l. destruct (Z.eqb_spec i n) as [->|Hne].
  - by apply Z.pow2_bits_true.
  - apply Z.pow2_bits_false; lia.
Qed.

Lemma pow2_testbit k i : 0 <= k -> Z.testbit (2 ^ k) i = (i =? k).
Proof. intros. rewrite <- Z.shiftl_1_l. by apply testbit_one_shift. Qed.

Lemma pow2_land_testbit e k : 0 <= k -> (Z.land e (2 ^ k) =? 0) = negb (Z.testbit e k).
Proof.
  intros Hk. destruct (Z.testbit e k) eqn:E; simpl.
  - apply Z.eqb_neq. intros H.
    assert (Z.testbit (Z.land e (2 ^ k)) k = true) as F
      by (rewrite Z.land_spec, pow2_testbit, Z.eqb_refl, E; done).
    by rewrite H, Z.bits_0 in F.
  - apply Z.eqb_eq. bitwise i Hi. rewrite pow2_testbit by done.
    destruct (Z.eqb_spec i k) as [->|]; by rewrite ?E, ?andb_false_r.
Qed.

(** ** Loops and lists *)

(** Iterate a stateful body over [n] consecutive indices, as
    [for (i = lo; i < lo + n; i++)]. *)
Fixpoint for_loop {St} (n : nat) (i : Z) (body : Z -> St -> outcome St) (s : St) : outcome St :=
  match n with
  | O => Ret s
  | S n => body i s ≫= for_loop n (i + 1) body
  end.

(** Invariant rule: a loop whose body is defined and preserves an indexed
    invariant terminates in the invariant. *)
Lemma for_loop_ind {St} (I : Z -> St -> Prop) (body : Z -> St -> outcome St) n lo s :
  I lo s ->
  (forall i s, lo <= i < lo + Z.of_nat n -> I i s ->
    exists s', body i s = Ret s' /\ I (i + 1) s') ->
  exists s', for_loop n lo body s = Ret s' /\ I (lo + Z.of_nat n) s'.
Proof.
  revert lo s. induction n as [|n IH]; intros lo s HI Hstep; simpl for_loop.
  - exists s. split; [done|]. by replace (lo + Z.of_nat 0) with lo by lia.
  - destruct (Hstep lo s) as (s1 & -> & HI1); [lia|done|]. simpl.
    destruct (IH (lo + 1) s1 HI1) as (s' & E & HI').
    { intros i s2 Hi. apply Hstep. lia. }
    exists s'. split; [done|]. by replace (lo + Z.of_nat (S n)) with (lo + 1 + Z.of_nat n) by lia.
Qed.

(** An array access; C leaves an index outside the array undefined. *)
Definition array_get {A} (l : list A) (i : Z) : outcome A :=
  if 0 <=? i then defined (l !! Z.to_nat i) else Undef.

Definition array_set {A} (l : list A) (i : Z) (x : A) : outcome (list A) :=
  if (0 <=? i) && (i <? Z.of_nat (length l)) then Ret (<[Z.to_nat i := x]> l) else Undef.

Lemma array_get_Some {A} (l : list A) i x :
  0 <= i -> l !! Z.to_nat i = Some x -> array_get l i = Ret x.
Proof. intros Hi E. unfold array_get. by rewrite (proj2 (Z.leb_le 0 i) Hi), E. Qed.

Lemma array_get_Ret {A} (l : list A) i x :
  array_get l i = Ret x -> 0 <= i /\ l !! Z.to_nat i = Some x.
Proof.
  unfold array_get. destruct (Z.leb_spec 0 i); [|done].
  by intros E%defined_Ret_inv.
Qed.

Lemma array_get_lt {A} (l : list A) i :
  0 <= i < Z.of_nat (length l) -> exists x, array_get l i = Ret x /\ l !! Z.to_nat i = Some x.
Proof.
  intros Hi. destruct (lookup_lt_is_Some_2 l (Z.to_nat i)) as [x Hx]; [lia|].
  exists x. split; [|done]. apply array_get_Some; [lia|done].
Qed.

Lemma array_set_lt {A} (l : list A) i x :
  0 <= i < Z.of_nat (length l) -> array_set l i x = Ret (<[Z.to_nat i := x]> l).
Proof.
  intros Hi. unfold array_set.
  by rewrite (proj2 (Z.leb_le _ _) (proj1 Hi)), (proj2 (Z.ltb_lt _ _) (proj2 Hi)).
Qed.

(** Two filters that differ in one element of a duplicate-free list. *)
Lemma filter_length_one `{EqDecision A} (P Q : A -> Prop) `{!forall x, Decision (P x), !forall x, Decision (Q x)}
    (l : list A) x :
  NoDup l -> x ∈ l -> P x -> (forall y, y ∈ l -> Q y <-> P y /\ y <> x) ->
  length (filter P l) = S (length (filter Q l)).
Proof.
  intros Hnd Hx HP HQ.
  assert (filter P l ≡ₚ x :: filter Q l) as ->; [|done].
  apply NoDup_Permutation.
  - by apply NoDup_filter.
  - apply NoDup_cons. split; [|by apply NoDup_filter].
    intros [Hq _]%list_elem_of_filter. apply HQ in Hq; [tauto|done].
  - intros y. rewrite elem_of_cons, !list_elem_of_filter. split.
    + intros [HPy Hy]. destruct (decide (y = x)) as [->|Hne]; [by left|].
      right. split; [|done]. by apply HQ.
    + intros [->|[HQy Hy]]; [done|]. apply HQ in HQy; tauto.
Qed.

(** Discharge a decidable proposition on closed data by evaluation. *)
Ltac by_computation :=
  intros; match goal with |- ?P => refine (proj1 (bool_decide_eq_true P) _) end;
  vm_compute; reflexivity.

Lemma length_filter_fmap {A B} (f : A -> B) (P : B -> Prop) `{!forall x, Decision (P x)} (l : list A) :
  length (filter P (f <$> l)) = length (filter (fun x => P (f x)) l).
Proof.
  induction l as [|x l IH]; [done|]. rewrite fmap_cons, !filter_cons.
  destruct (decide (P (f x))); simpl; by rewrite IH.
Qed.

Lemma filter_all {A} (P : A -> Prop) `{!forall x, Decision (P x)} (l : list A) :
  (forall x, x ∈ l -> P x) -> filter P l = l.
Proof.
  induction l as [|x l IH]; intros Hall; [done|]. rewrite filter_cons_True by set_solver.
  f_equal. apply IH. set_solver.
Qed.

(** Invariant rule for a loop known to return. *)
Lemma for_loop_partial {St} (I : Z -> St -> Prop) (body : Z -> St -> outcome St) n lo s s' :
  I lo s ->
  (forall i s s', lo <= i < lo + Z.of_nat n -> I i s -> body i s = Ret s' -> I (i + 1) s') ->
  for_loop n lo body s = Ret s' -> I (lo + Z.of_nat n) s'.
Proof.
  revert lo s. induction n as [|n IH]; intros lo s HI Hstep E; simpl for_loop in E.
  - injection E as <-. by replace (lo + Z.of_nat 0) with lo by lia.
  - apply bind_Ret_inv in E as (s1 & E1 & E2).
    replace (lo + Z.of_nat (S n)) with (lo + 1 + Z.of_nat n) by lia.
    eapply IH; [by eapply Hstep; [lia| |]| |done].
    intros i s2 s3 Hi. apply Hstep. lia.
Qed.

Lemma array_set_Ret {A} (l l' : list A) i x :
  array_set l i x = Ret l' -> 0 <= i < Z.of_nat (length l) /\ l' = <[Z.to_nat i := x]> l.
Proof.
  unfold array_set. destruct (Z.leb_spec 0 i), (Z.ltb_spec i (Z.of_nat (length l))); simpl; try done.
  by intros [= <-].
Qed.

Lemma last_cons_default {A} (p : A) l d : List.last (p :: l) d = List.last l p.
Proof. revert p d. induction l as [|a l IH]; intros p d; [done|]. by rewrite (IH a p), <- (IH a d). Qed.

Lemma last_behind (l1 l2 : list Z) p d : List.last (l1 ++ p :: l2) d = List.last l2 p.
Proof.
  revert d. induction l1 as [|x l1 IH]; intros d; cbn [app]; rewrite last_cons_default; [done|apply IH].
Qed.

(** ** Writing over the start of a buffer *)

(** What writing [l] leaves of a buffer that held [old]. *)
Definition overlay {A} (l old : list A) : list A := l ++ drop (length l) old.

Lemma overlay_nth (l old : list Z) i :
  List.nth i (overlay l old) 0 = if decide (i < length l)%nat then List.nth i l 0 else List.nth i old 0.
Proof.
  unfold overlay. destruct (decide _) as [Hi|Hi].
  - by rewrite List.app_nth1 by lia.
  - rewrite List.app_nth2 by lia. rewrite !nth_lookup, lookup_drop. do 2 f_equal. lia.
Qed.

Lemma overlay_length {A} (l old : list A) n :
  (length l < n)%nat -> (length old < n)%nat -> (length (overlay l old) < n)%nat.
Proof. intros H1 H2. unfold overlay. rewrite length_app, length_drop. lia. Qed.

Lemma Forall_overlay {A} (P : A -> Prop) l old : Forall P l -> Forall P old -> Forall P (overlay l old).
Proof. intros H1 H2. apply Forall_app. split; [done|by apply Forall_drop]. Qed.

Lemma inserts_overlay {A} (l b : list A) : (length l <= length b)%nat -> list_inserts 0 l b = overlay l b.
Proof.
  intros H. apply list_eq. intros i. unfold overlay. destruct (decide (i < length l)%nat) as [Hi|Hi].
  - rewrite lookup_app_l by done. rewrite list_lookup_inserts by lia. by rewrite Nat.sub_0_r.
  - rewrite lookup_app_r, lookup_drop by lia. rewrite list_lookup_inserts_ge by lia. f_equal. lia.
Qed.
