(* ===== verification/Bitmap.v ===== *)
(** * Block bitmaps

    The bit-array block managers of sys/mm/mmgr.c, sys/mm/vmmgr_page_allocator.c
    and sys/fs_mmgr.c are three copies of one algorithm over three arrays.
    This file translates the algorithm once, from sys/mm/mmgr.c, over a record
    that holds the array and its two counters; the component files give the
    copies their own names. *)

From S2P Require Import Prelude.

Record bitmap := Bitmap {
  memory_map : list Z;
  used_blocks : Z;
  max_blocks : Z
}.

#[export] Instance bitmap_eq_dec : EqDecision bitmap.
Proof. solve_decision. Defined.

Definition with_map (st : bitmap) (m : list Z) : bitmap :=
  Bitmap m (used_blocks st) (max_blocks st).
Definition with_used (st : bitmap) (u : Z) : bitmap :=
  Bitmap (memory_map st) u (max_blocks st).

Definition BLOCK_SIZE : Z := 4096.
Definition all_ones : Z := 0xFFFFFFFFFFFFFFFF.

(** The value of the [int] expression [1 << n] as the kernel's target computes
    it: SHL on a 32-bit register takes the count modulo 32, and the result is
    a signed 32-bit value. *)
Definition shl1 (n : Z) : Z := s32 (Z.shiftl 1 (n mod 32)).

Definition total_usable (st : bitmap) : Z := u64 (max_blocks st - used_blocks st).

(** ** Single bits *)

Definition set_block (st : bitmap) (bit : Z) : outcome bitmap :=
  let i := Z.quot bit 64 in
  w ← array_get (memory_map st) i;
  m ← array_set (memory_map st) i (Z.lor w (u64 (shl1 (Z.rem bit 64))));
  Ret (with_map st m).

(** The value is converted to the [bool] enumeration, a 32-bit integer. *)
Definition is_block_free (st : bitmap) (bit : Z) : outcome Z :=
  w ← array_get (memory_map st) (Z.quot bit 64);
  Ret (u32 (Z.land w (u64 (shl1 (Z.rem bit 64))))).

Definition unset_block (st : bitmap) (bit : Z) : outcome bitmap :=
  let i := Z.quot bit 64 in
  w ← array_get (memory_map st) i;
  m ← array_set (memory_map st) i (Z.land w (u64 (Z.lnot (shl1 (Z.rem bit 64)))));
  Ret (with_map st m).

(** ** Searches *)

(** The [j] loop of [get_first_free]: the first [j] below 64 whose mask
    misses the word. *)
Fixpoint first_clear (w j : Z) (n : nat) : option Z :=
  match n with
  | O => None
  | S n => if Z.land w (u64 (shl1 j)) =? 0 then Some j else first_clear w (j + 1) n
  end.

Fixpoint scan_words (m : list Z) (i : Z) (n : nat) : outcome Z :=
  match n with
  | O => Ret (-1)
  | S n =>
    w ← array_get m i;
    if w =? all_ones then scan_words m (i + 1) n
    else match first_clear w 0 64 with
         | Some j => Ret (i * 64 + j)
         | None => scan_words m (i + 1) n
         end
  end.

Definition get_first_free (st : bitmap) : outcome Z :=
  scan_words (memory_map st) 0 (Z.to_nat (max_blocks st / 64)).

(** Result of the [count] loop of [get_first_range_free]. *)
Inductive probe_result := Found | Break (count : Z) | Exhausted.

Fixpoint probe (st : bitmap) (temp_bit size count free : Z) (n : nat) : outcome probe_result :=
  match n with
  | O => Ret Exhausted
  | S n =>
    f ← is_block_free st (s32 (u32 (temp_bit + count)));
    if f =? 0
    then if free + 1 =? size then Ret Found
         else probe st temp_bit size (count + 1) (free + 1) n
    else Ret (Break count)
  end.

(** The [j] loop; a failed probe skips [j] to the occupied block. *)
Fixpoint range_bits (st : bitmap) (i w size j : Z) (n : nat) : outcome (option Z) :=
  if negb (j <? 64) then Ret None else
  match n with
  | O => Loops
  | S n =>
    if Z.land w (u64 (shl1 j)) =? 0 then
      r ← probe st (u32 (i * 64 + j)) size 0 0 (Z.to_nat size);
      match r with
      | Found => Ret (Some (i * 64 + j))
      | Break count => range_bits st i w size (j + count + 1) n
      | Exhausted => range_bits st i w size (j + 1) n
      end
    else range_bits st i w size (j + 1) n
  end.

Fixpoint range_words (st : bitmap) (size i : Z) (n : nat) : outcome Z :=
  match n with
  | O => Ret (-1)
  | S n =>
    w ← array_get (memory_map st) i;
    if w =? all_ones then range_words st size (i + 1) n
    else r ← range_bits st i w size 0 64;
         match r with
         | Some b => Ret b
         | None => range_words st size (i + 1) n
         end
  end.

(** [size] is an [int]; the loop compares it as an unsigned 32-bit value. *)
Definition get_first_range_free (st : bitmap) (size : Z) : outcome Z :=
  range_words st (u32 size) 0 (Z.to_nat (max_blocks st / 64)).

(** ** Allocation and release *)

(** Returns the new state and the address, 0 standing for [NULL]. *)
Definition alloc_block (st : bitmap) : outcome (bitmap * Z) :=
  if total_usable st <=? 0 then Ret (st, 0) else
  page_frame ← get_first_free st;
  if page_frame =? -1 then Ret (st, 0) else
  st' ← set_block st page_frame;
  Ret (with_used st' (u64 (used_blocks st' + 1)), u64 (page_frame * BLOCK_SIZE)).

Definition alloc_size_blocks (st : bitmap) (size : Z) : outcome (bitmap * Z) :=
  if total_usable st <=? u64 size then Ret (st, 0) else
  page_frame ← get_first_range_free st size;
  if page_frame =? -1 then Ret (st, 0) else
  st' ← for_loop (Z.to_nat size) 0 (fun i s => set_block s (s32 (page_frame + i))) st;
  Ret (with_used st' (u64 (used_blocks st' + size)), u64 (page_frame * BLOCK_SIZE)).

Definition free_block (st : bitmap) (p : Z) : outcome bitmap :=
  let page_frame := s32 (p / BLOCK_SIZE) in
  if p =? 0 then Ret st else
  st' ← unset_block st page_frame;
  Ret (with_used st' (u64 (used_blocks st' - 1))).

Definition free_size_blocks (st : bitmap) (p size : Z) : outcome bitmap :=
  let page_frame := s32 (p / BLOCK_SIZE) in
  if p =? 0 then Ret st else
  st' ← for_loop (Z.to_nat size) 0 (fun i s => unset_block s (s32 (page_frame + i))) st;
  Ret (with_used st' (u64 (used_blocks st' - size))).

(** ** Cells

    Because [shl1] takes its count modulo 32 and sign-extends, the blocks
    [64 w + b] and [64 w + b + 32] share one cell of the array: bit [b] of
    word [w] (bit 31 standing for the whole upper half).  [marked] reads the
    cell of a block; a word is well formed when its upper half repeats
    bit 31. *)

Definition marked (m : list Z) (bit : Z) : bool :=
  match m !! Z.to_nat (bit / 64) with
  | Some w => Z.testbit w (bit mod 32)
  | None => false
  end.

Definition same_cell (a b : Z) : bool := (a / 64 =? b / 64) && (a mod 32 =? b mod 32).

Definition wf_word (w : Z) : Prop := u64 (s32 w) = w.
Definition wf_map (m : list Z) : Prop := Forall wf_word m.

#[export] Instance wf_word_dec w : Decision (wf_word w).
Proof. unfold wf_word. apply _. Defined.
#[export] Instance wf_map_dec m : Decision (wf_map m).
Proof. unfold wf_map. apply _. Defined.

(** Bits of a sign-extended 32-bit value. *)
Lemma sext_testbit v i :
  0 <= i -> Z.testbit (u64 (s32 v)) i = (i <? 64) && Z.testbit v (Z.min i 31).
Proof.
  intros Hi. rewrite uwrap_testbit by lia. f_equal.
  destruct (Z.le_gt_cases 32 i).
  - rewrite swrap_testbit_high by lia. f_equal. lia.
  - rewrite swrap_testbit_low by lia. f_equal. lia.
Qed.

Lemma wf_word_testbit w i :
  wf_word w -> 0 <= i -> Z.testbit w i = (i <? 64) && Z.testbit w (Z.min i 31).
Proof. intros Hw Hi. unfold wf_word in Hw. rewrite <- Hw at 1. by apply sext_testbit. Qed.

Lemma wf_word_intro w :
  (forall i, 0 <= i -> Z.testbit w i = (i <? 64) && Z.testbit w (Z.min i 31)) -> wf_word w.
Proof.
  intros H. unfold wf_word. apply Z.bits_inj'. intros i Hi.
  rewrite sext_testbit by done. symmetry. by apply H.
Qed.

Lemma mask_testbit n i :
  0 <= i -> Z.testbit (u64 (shl1 n)) i = (i <? 64) && (Z.min i 31 =? n mod 32).
Proof.
  intros Hi. unfold shl1. rewrite sext_testbit by done. f_equal.
  rewrite testbit_one_shift; [done|]. pose proof (Z.mod_pos_bound n 32). lia.
Qed.

Lemma lnot_mask_testbit n i :
  0 <= i -> Z.testbit (u64 (Z.lnot (shl1 n))) i = (i <? 64) && negb (Z.min i 31 =? n mod 32).
Proof.
  intros Hi. rewrite uwrap_testbit, Z.lnot_spec by lia.
  destruct (Z.ltb_spec i 64); [|done]. simpl. f_equal.
  pose proof (mask_testbit n i Hi) as E. rewrite uwrap_testbit in E by lia.
  rewrite (proj2 (Z.ltb_lt i 64)) in E by done. by simpl in E.
Qed.

Lemma wf_word_set w n : wf_word w -> wf_word (Z.lor w (u64 (shl1 n))).
Proof.
  intros Hw. apply wf_word_intro. intros i Hi. rewrite !Z.lor_spec, !mask_testbit by lia.
  rewrite (wf_word_testbit w i) by done.
  replace (Z.min (Z.min i 31) 31) with (Z.min i 31) by lia.
  replace (Z.min i 31 <? 64) with true by (symmetry; apply Z.ltb_lt; lia).
  by destruct (i <? 64).
Qed.

Lemma wf_word_unset w n : wf_word w -> wf_word (Z.land w (u64 (Z.lnot (shl1 n)))).
Proof.
  intros Hw. apply wf_word_intro. intros i Hi. rewrite !Z.land_spec, !lnot_mask_testbit by lia.
  rewrite (wf_word_testbit w i) by done.
  replace (Z.min (Z.min i 31) 31) with (Z.min i 31) by lia.
  replace (Z.min i 31 <? 64) with true by (symmetry; apply Z.ltb_lt; lia).
  by destruct (i <? 64), (Z.testbit w (Z.min i 31)).
Qed.

(** The mask test of the searches reads exactly the block's cell. *)
Lemma mask_test_cell w n :
  wf_word w -> (Z.land w (u64 (shl1 n)) =? 0) = negb (Z.testbit w (n mod 32)).
Proof.
  intros Hw. pose proof (Z.mod_pos_bound n 32 ltac:(lia)) as Hn.
  destruct (Z.testbit w (n mod 32)) eqn:E; simpl.
  - apply Z.eqb_neq. intros H. assert (Z.testbit (Z.land w (u64 (shl1 n))) (n mod 32) = false) as F.
    { by rewrite H, Z.bits_0. }
    rewrite Z.land_spec, mask_testbit, E in F by lia.
    rewrite (proj2 (Z.ltb_lt _ _)), (proj2 (Z.eqb_eq _ _)) in F by lia. done.
  - apply Z.eqb_eq, Z.bits_inj'. intros i Hi.
    rewrite Z.land_spec, Z.bits_0, mask_testbit by lia.
    rewrite (wf_word_testbit w i) by done.
    destruct (Z.eqb_spec (Z.min i 31) (n mod 32)) as [->|].
    + rewrite E. by destruct (i <? 64).
    + by rewrite !andb_false_r.
Qed.

(** ** Functional behaviour of the bit operations *)

(** The words the searches look at. *)
Definition words_in_use (st : bitmap) : Z := max_blocks st / 64.

Definition wf (st : bitmap) : Prop :=
  wf_map (memory_map st) /\ 0 <= max_blocks st /\
  words_in_use st <= Z.of_nat (length (memory_map st)) <= 2 ^ 24.

Lemma quot_rem_nonneg bit :
  0 <= bit -> Z.quot bit 64 = bit / 64 /\ Z.rem bit 64 mod 32 = bit mod 32.
Proof.
  intros Hb. split; [by apply Z.quot_div_nonneg|].
  rewrite Z.rem_mod_nonneg by lia. rewrite Z.mod_mod_divide; [done|].
  by exists 2.
Qed.

(** Overwriting word [bit / 64] changes no cell of another word and gives the
    cells of that word their new value. *)
Lemma marked_insert m i v b :
  0 <= i < Z.of_nat (length m) -> 0 <= b ->
  marked (<[Z.to_nat i := v]> m) b =
    if b / 64 =? i then Z.testbit v (b mod 32) else marked m b.
Proof.
  intros Hi Hb. unfold marked. assert (0 <= b / 64) by (apply Z.div_pos; lia).
  destruct (Z.eqb_spec (b / 64) i) as [->|Hne].
  - rewrite list_lookup_insert_eq by lia. done.
  - rewrite list_lookup_insert_ne by lia. done.
Qed.

Lemma marked_lookup m i w b :
  m !! Z.to_nat i = Some w -> b / 64 = i -> marked m b = Z.testbit w (b mod 32).
Proof. intros E <-. unfold marked. by rewrite E. Qed.

Lemma wf_map_lookup m n w : wf_map m -> m !! n = Some w -> wf_word w.
Proof. intros H E. by apply (Forall_lookup_1 _ _ _ _ H E). Qed.

(** A word in the range of [uint64_t]. *)
Definition word_ok (w : Z) : Prop := 0 <= w < 2 ^ 64.

Lemma shl1_rem bit : 0 <= bit -> shl1 (Z.rem bit 64) = shl1 bit.
Proof. intros. unfold shl1. by rewrite (proj2 (quot_rem_nonneg bit H)). Qed.

Lemma word_ok_high w i : word_ok w -> 64 <= i -> Z.testbit w i = false.
Proof.
  intros Hw Hi. rewrite <- (uwrap_small 64 w) by done. rewrite uwrap_testbit by lia.
  by rewrite (proj2 (Z.ltb_ge _ _)).
Qed.

Lemma word_ok_intro w : (forall i, 64 <= i -> Z.testbit w i = false) -> 0 <= w -> word_ok w.
Proof. intros H Hw. split; [done|]. by apply bits_below; [lia| |]. Qed.

Lemma wf_word_ok w : wf_word w -> word_ok w.
Proof. unfold wf_word. intros <-. apply (uwrap_range 64). lia. Qed.

Lemma word_ok_lor w v : word_ok w -> word_ok v -> word_ok (Z.lor w v).
Proof.
  intros Hw Hv. apply word_ok_intro.
  - intros i Hi. by rewrite Z.lor_spec, !word_ok_high.
  - apply Z.lor_nonneg. unfold word_ok in *. lia.
Qed.

Lemma word_ok_land w v : word_ok w -> word_ok (Z.land w v).
Proof.
  intros Hw. apply word_ok_intro.
  - intros i Hi. by rewrite Z.land_spec, word_ok_high.
  - apply Z.land_nonneg. unfold word_ok in *. lia.
Qed.

(** Setting or clearing the 31st cell overwrites the whole upper half, so it
    repairs an ill-formed word. *)
Lemma wf_word_set31 w n : word_ok w -> n mod 32 = 31 -> wf_word (Z.lor w (u64 (shl1 n))).
Proof.
  intros Hw Hn. apply wf_word_intro. intros i Hi. rewrite !Z.lor_spec, !mask_testbit, Hn by lia.
  destruct (Z.ltb_spec i 64); simpl.
  - destruct (Z.le_gt_cases i 31).
    + rewrite (Z.min_l i 31) by lia. rewrite (Z.min_l i 31) by lia.
      by rewrite (proj2 (Z.ltb_lt i 64)) by lia.
    + rewrite (Z.min_r i 31) by lia. simpl. by rewrite !orb_true_r.
  - by rewrite word_ok_high.
Qed.

Lemma wf_word_unset31 w n :
  word_ok w -> n mod 32 = 31 -> wf_word (Z.land w (u64 (Z.lnot (shl1 n)))).
Proof.
  intros Hw Hn. apply wf_word_intro. intros i Hi.
  rewrite !Z.land_spec, !lnot_mask_testbit, Hn by lia.
  destruct (Z.ltb_spec i 64); simpl.
  - destruct (Z.le_gt_cases i 31).
    + rewrite (Z.min_l i 31) by lia. rewrite (Z.min_l i 31) by lia.
      by rewrite (proj2 (Z.ltb_lt i 64)) by lia.
    + rewrite (Z.min_r i 31) by lia. simpl. by rewrite !andb_false_r.
  - by rewrite andb_false_r.
Qed.

Section bit_operations.
Context (st : bitmap) (bit : Z).
Hypothesis Hbit : 0 <= bit < 64 * Z.of_nat (length (memory_map st)).

Let Hdiv : 0 <= bit / 64 < Z.of_nat (length (memory_map st)).
Proof. split; [apply Z.div_pos; lia|apply Z.div_lt_upper_bound; lia]. Qed.

(** Both operations rewrite the one word [bit / 64]. *)
Lemma set_block_eq :
  exists w, memory_map st !! Z.to_nat (bit / 64) = Some w /\
    set_block st bit = Ret (with_map st (<[Z.to_nat (bit / 64) :=
      Z.lor w (u64 (shl1 bit))]> (memory_map st))).
Proof.
  destruct (array_get_lt (memory_map st) (bit / 64) Hdiv) as (w & Eg & El).
  exists w. split; [done|]. unfold set_block.
  rewrite (proj1 (quot_rem_nonneg bit (proj1 Hbit))), Eg, shl1_rem by lia. simpl.
  by rewrite array_set_lt.
Qed.

Lemma unset_block_eq :
  exists w, memory_map st !! Z.to_nat (bit / 64) = Some w /\
    unset_block st bit = Ret (with_map st (<[Z.to_nat (bit / 64) :=
      Z.land w (u64 (Z.lnot (shl1 bit)))]> (memory_map st))).
Proof.
  destruct (array_get_lt (memory_map st) (bit / 64) Hdiv) as (w & Eg & El).
  exists w. split; [done|]. unfold unset_block.
  rewrite (proj1 (quot_rem_nonneg bit (proj1 Hbit))), Eg, shl1_rem by lia. simpl.
  by rewrite array_set_lt.
Qed.

(** The cells of a rewritten word, given the new value of each. *)
Lemma marked_update f w v b :
  memory_map st !! Z.to_nat (bit / 64) = Some w ->
  (forall k, 0 <= k < 32 -> Z.testbit v k = f (Z.testbit w k) (k =? bit mod 32)) ->
  (forall x, f x false = x) -> 0 <= b ->
  marked (<[Z.to_nat (bit / 64) := v]> (memory_map st)) b =
    f (marked (memory_map st) b) (same_cell bit b).
Proof.
  intros El Hv Hf Hb. rewrite marked_insert by done. unfold same_cell.
  rewrite (Z.eqb_sym (bit / 64)), (Z.eqb_sym (bit mod 32)).
  destruct (Z.eqb_spec (b / 64) (bit / 64)) as [E|]; simpl; [|by rewrite Hf].
  rewrite (marked_lookup _ _ _ _ El E). apply Hv, Z.mod_pos_bound. lia.
Qed.

Lemma set_block_marked :
  exists st', set_block st bit = Ret st' /\
    (wf_map (memory_map st) -> wf_map (memory_map st')) /\
    length (memory_map st') = length (memory_map st) /\
    used_blocks st' = used_blocks st /\ max_blocks st' = max_blocks st /\
    forall b, 0 <= b -> marked (memory_map st') b = marked (memory_map st) b || same_cell bit b.
Proof.
  destruct set_block_eq as (w & El & ->). eexists. split; [done|]. simpl.
  rewrite length_insert. split_and!; [|done..|].
  - intros Hwf. apply Forall_insert; [done|]. eauto using wf_word_set, wf_map_lookup.
  - intros b Hb. apply (marked_update orb w); [done| |by destruct x|done].
    intros k Hk. rewrite Z.lor_spec, mask_testbit by lia.
    by rewrite (proj2 (Z.ltb_lt k 64)), Z.min_l by lia.
Qed.

Lemma unset_block_marked :
  exists st', unset_block st bit = Ret st' /\
    (wf_map (memory_map st) -> wf_map (memory_map st')) /\
    length (memory_map st') = length (memory_map st) /\
    used_blocks st' = used_blocks st /\ max_blocks st' = max_blocks st /\
    forall b, 0 <= b ->
      marked (memory_map st') b = marked (memory_map st) b && negb (same_cell bit b).
Proof.
  destruct unset_block_eq as (w & El & ->). eexists. split; [done|]. simpl.
  rewrite length_insert. split_and!; [|done..|].
  - intros Hwf. apply Forall_insert; [done|]. eauto using wf_word_unset, wf_map_lookup.
  - intros b Hb. apply (marked_update (fun x y => x && negb y) w); [done| |by destruct x|done].
    intros k Hk. rewrite Z.land_spec, lnot_mask_testbit by lia.
    by rewrite (proj2 (Z.ltb_lt k 64)), Z.min_l by lia.
Qed.

(** [is_block_free] answers with a nonzero value when the block is used. *)
Lemma is_block_free_marked :
  wf_map (memory_map st) ->
  exists v, is_block_free st bit = Ret v /\ (v =? 0) = negb (marked (memory_map st) bit).
Proof.
  intros Hwf. destruct (quot_rem_nonneg bit) as [Eq Er]; [lia|].
  destruct (array_get_lt (memory_map st) (bit / 64) Hdiv) as (w & Eg & El).
  unfold is_block_free. rewrite Eq, Eg. simpl. eexists. split; [done|].
  assert (wf_word w) by eauto using wf_map_lookup.
  rewrite (marked_lookup _ _ _ _ El eq_refl), <- Er, <- mask_test_cell by done.
  destruct (Z.eqb_spec (Z.land w (u64 (shl1 (Z.rem bit 64)))) 0) as [->|Hne]; [done|].
  apply Z.eqb_neq. intros F. apply Hne.
  apply Z.bits_inj'. intros i Hi. rewrite Z.bits_0, Z.land_spec, mask_testbit by done.
  destruct (Z.eqb_spec (Z.min i 31) (Z.rem bit 64 mod 32)) as [E|]; [|by rewrite !andb_false_r].
  assert (Z.testbit (u32 (Z.land w (u64 (shl1 (Z.rem bit 64))))) (Z.min i 31) = false) as G.
  { by rewrite F, Z.bits_0. }
  rewrite uwrap_testbit, Z.land_spec, mask_testbit in G by lia.
  rewrite !(proj2 (Z.ltb_lt (Z.min i 31) _)) in G by lia.
  replace (Z.min (Z.min i 31) 31) with (Z.min i 31) in G by lia.
  rewrite (proj2 (Z.eqb_eq _ _) E), !andb_true_r in G. simpl in G.
  rewrite (wf_word_testbit w i), G by done. by destruct (i <? 64).
Qed.
End bit_operations.

(** ** The first-free search *)

Lemma first_clear_spec w n j :
  wf_word w ->
  match first_clear w j n with
  | Some r => j <= r < j + Z.of_nat n /\ Z.testbit w (r mod 32) = false /\
              forall k, j <= k < r -> Z.testbit w (k mod 32) = true
  | None => forall k, j <= k < j + Z.of_nat n -> Z.testbit w (k mod 32) = true
  end.
Proof.
  intros Hw. revert j. induction n as [|n IH]; intros j; cbn [first_clear]; [intros; lia|].
  rewrite mask_test_cell by done. destruct (Z.testbit w (j mod 32)) eqn:E; simpl.
  - specialize (IH (j + 1)). destruct (first_clear w (j + 1) n) as [r|].
    + destruct IH as (H1 & H2 & H3). split_and!; [lia|lia|done|].
      intros k Hk. destruct (decide (k = j)) as [->|]; [done|apply H3; lia].
    + intros k Hk. destruct (decide (k = j)) as [->|]; [done|apply IH; lia].
  - split_and!; [lia|lia|done|lia].
Qed.

Arguments first_clear : simpl never.

Lemma all_ones_cell b : Z.testbit all_ones (b mod 32) = true.
Proof.
  pose proof (Z.mod_pos_bound b 32 ltac:(lia)). change all_ones with (Z.ones 64).
  apply Z.ones_spec_low. lia.
Qed.

Lemma block_mod32 i b : (i * 64 + b) mod 32 = b mod 32.
Proof. replace (i * 64 + b) with (b + (2 * i) * 32) by lia. apply Z_mod_plus_full. Qed.

Lemma block_div64 i b : 0 <= b < 64 -> (i * 64 + b) / 64 = i.
Proof. intros. rewrite Z.add_comm, Z.div_add, Z.div_small; lia. Qed.

(** Blocks of word [i], as [i * 64 + k]. *)
Lemma block_split i b : 64 * i <= b < 64 * (i + 1) -> exists k, b = i * 64 + k /\ 0 <= k < 64.
Proof. intros. exists (b - i * 64). lia. Qed.

Lemma marked_in_word m i w k :
  m !! Z.to_nat i = Some w -> 0 <= k < 64 ->
  marked m (i * 64 + k) = Z.testbit w (k mod 32).
Proof.
  intros E Hk. rewrite (marked_lookup _ _ _ _ E) by (by apply block_div64).
  by rewrite block_mod32.
Qed.

Lemma word_all_marked m i w :
  m !! Z.to_nat i = Some w ->
  (forall k, 0 <= k < 64 -> Z.testbit w (k mod 32) = true) ->
  forall b, 64 * i <= b < 64 * (i + 1) -> marked m b = true.
Proof.
  intros E H b Hb. destruct (block_split i b Hb) as (k & -> & Hk).
  rewrite (marked_in_word _ _ _ _ E) by done. auto.
Qed.

Definition least_unmarked (m : list Z) (lo hi r : Z) : Prop :=
  lo <= r < hi /\ marked m r = false /\ forall b, lo <= b < r -> marked m b = true.

Lemma scan_words_spec m n i :
  wf_map m -> 0 <= i -> i + Z.of_nat n <= Z.of_nat (length m) ->
  exists r, scan_words m i n = Ret r /\
    ((r = -1 /\ forall b, 64 * i <= b < 64 * (i + Z.of_nat n) -> marked m b = true) \/
     least_unmarked m (64 * i) (64 * (i + Z.of_nat n)) r).
Proof.
  intros Hwf. revert i. induction n as [|n IH]; intros i Hi Hn; simpl scan_words.
  { exists (-1). split; [done|]. left. split; [done|lia]. }
  destruct (array_get_lt m i) as (w & -> & E); [lia|]. simpl.
  assert (forall (P : Prop), (forall b, 64 * i <= b < 64 * (i + 1) -> marked m b = true) ->
    exists r, scan_words m (i + 1) n = Ret r /\
    ((r = -1 /\ forall b, 64 * i <= b < 64 * (i + Z.of_nat (S n)) -> marked m b = true) \/
     least_unmarked m (64 * i) (64 * (i + Z.of_nat (S n))) r)) as Hskip.
  { intros _ Hall. destruct (IH (i + 1)) as (r & Hr & Hcase); [lia|lia|].
    exists r. split; [done|].
    assert (forall b, 64 * i <= b -> b < 64 * (i + 1) \/ 64 * (i + 1) <= b) as Hsplit by lia.
    destruct Hcase as [[-> H]|(H1 & H2 & H3)]; [left|right].
    - split; [done|]. intros b Hb. destruct (Hsplit b) as [|]; [lia| |]; [apply Hall|apply H]; lia.
    - split; [lia|]. split; [done|]. intros b Hb.
      destruct (Hsplit b) as [|]; [lia| |]; [apply Hall|apply H3]; lia. }
  destruct (Z.eqb_spec w all_ones) as [->|_].
  { apply (Hskip True). apply (word_all_marked _ _ _ E). intros. apply all_ones_cell. }
  pose proof (first_clear_spec w 64 0 (wf_map_lookup _ _ _ Hwf E)) as Hfc.
  destruct (first_clear w 0 64) as [j|].
  - destruct Hfc as (Hj & Hc & Hlt). exists (i * 64 + j). split; [done|]. right.
    split; [lia|]. rewrite (marked_in_word _ _ _ _ E) by lia. split; [done|].
    intros b Hb. destruct (block_split i b) as (k & -> & Hk); [lia|].
    rewrite (marked_in_word _ _ _ _ E) by lia. apply Hlt. lia.
  - apply (Hskip True). apply (word_all_marked _ _ _ E). intros k Hk. apply Hfc. lia.
Qed.

(** A block in the upper half of a word shares its cell with the block 32
    below it, so the least unmarked block is never one of them. *)
Lemma least_unmarked_low m hi r : least_unmarked m 0 hi r -> r mod 64 < 32.
Proof.
  intros (Hr & Hc & Hlt). destruct (Z.lt_ge_cases (r mod 64) 32) as [|Hge]; [done|].
  pose proof (Z.mod_pos_bound r 64 ltac:(lia)) as Hm. pose proof (Z.div_mod r 64 ltac:(lia)) as Hd.
  assert (0 <= r / 64) by (apply Z.div_pos; lia).
  assert (marked m (r - 32) = marked m r) as E.
  { unfold marked.
    replace ((r - 32) / 64) with (r / 64).
    2:{ replace (r - 32) with (r / 64 * 64 + (r mod 64 - 32)) by lia.
        by rewrite block_div64 by lia. }
    replace ((r - 32) mod 32) with (r mod 32); [done|].
    replace (r - 32) with (r + (-1) * 32) by lia. by rewrite Z_mod_plus_full. }
  rewrite Hlt in E by lia. congruence.
Qed.

Lemma get_first_free_spec st :
  wf st ->
  exists r, get_first_free st = Ret r /\
    ((r = -1 /\ forall b, 0 <= b < 64 * words_in_use st -> marked (memory_map st) b = true) \/
     least_unmarked (memory_map st) 0 (64 * words_in_use st) r).
Proof.
  intros (Hm & Hmax & Hlen & _). unfold get_first_free, words_in_use in *.
  assert (0 <= max_blocks st / 64) by (apply Z.div_pos; lia).
  destruct (scan_words_spec (memory_map st) (Z.to_nat (max_blocks st / 64)) 0)
    as (r & -> & Hr); [done|lia|lia|].
  exists r. split; [done|]. by rewrite !Z2Nat.id, Z.add_0_l in Hr by lia.
Qed.

(** ** Allocation and release *)

Lemma same_cell_refl b : same_cell b b = true.
Proof. unfold same_cell. by rewrite !Z.eqb_refl. Qed.

(** Two blocks of lower halves share a cell only when they are equal. *)
Lemma same_cell_low a b :
  a mod 64 < 32 -> b mod 64 < 32 -> same_cell a b = true -> a = b.
Proof.
  unfold same_cell. intros Ha Hb [E1%Z.eqb_eq E2%Z.eqb_eq]%andb_true_iff.
  pose proof (Z.mod_pos_bound a 64). pose proof (Z.mod_pos_bound b 64).
  assert (forall x, x mod 64 < 32 -> x mod 32 = x mod 64) as Hx.
  { intros x Hx. rewrite <- (Z.mod_mod_divide x 64 32) by (by exists 2).
    apply Z.mod_small. pose proof (Z.mod_pos_bound x 64). lia. }
  rewrite !Hx in E2 by done.
  rewrite (Z.div_mod a 64), (Z.div_mod b 64) by lia. congruence.
Qed.

Lemma wf_block_range st b :
  wf st -> 0 <= b < 64 * words_in_use st -> 0 <= b < 64 * Z.of_nat (length (memory_map st)).
Proof. intros (_ & _ & H & _). lia. Qed.

(** What one call of [alloc_block] does, on each of its three branches. *)
Inductive alloc_result (st : bitmap) : bitmap -> Z -> Prop :=
  | alloc_no_usable : total_usable st = 0 -> alloc_result st st 0
  | alloc_no_frame :
      (forall b, 0 <= b < 64 * words_in_use st -> marked (memory_map st) b = true) ->
      alloc_result st st 0
  | alloc_frame r st' :
      total_usable st <> 0 ->
      least_unmarked (memory_map st) 0 (64 * words_in_use st) r ->
      wf st' -> words_in_use st' = words_in_use st -> max_blocks st' = max_blocks st ->
      used_blocks st' = u64 (used_blocks st + 1) ->
      (forall b, 0 <= b -> marked (memory_map st') b = marked (memory_map st) b || same_cell r b) ->
      alloc_result st st' (r * BLOCK_SIZE).

Lemma alloc_block_cases st :
  wf st -> exists st' p, alloc_block st = Ret (st', p) /\ alloc_result st st' p.
Proof.
  intros Hwf. unfold alloc_block.
  assert (0 <= total_usable st) by (apply uwrap_range; lia).
  destruct (Z.leb_spec (total_usable st) 0).
  { exists st, 0. split; [done|]. apply alloc_no_usable. lia. }
  destruct (get_first_free_spec st Hwf) as (r & -> & [[-> Hall]|Hr]); simpl.
  { exists st, 0. split; [done|]. by apply alloc_no_frame. }
  pose proof Hr as ([Hr0 Hr1] & _ & _). destruct Hwf as (Hm & Hmax & Hlen & Hsz).
  destruct (Z.eqb_spec r (-1)); [lia|].
  destruct (set_block_marked st r) as (st1 & -> & Hm1 & Hl1 & Hu1 & Hx1 & Hmk); [lia|].
  simpl. eexists _, _. split; [done|].
  rewrite (uwrap_small 64 (r * BLOCK_SIZE)) by (unfold BLOCK_SIZE; lia).
  apply alloc_frame; [lia|done| | | | |]; simpl; unfold wf, words_in_use in *; simpl;
    rewrite ?Hu1, ?Hx1, ?Hl1; auto.
Qed.

Lemma free_block_cases st p b :
  wf st -> p = b * BLOCK_SIZE -> 0 < b < 64 * words_in_use st ->
  exists st', free_block st p = Ret st' /\ wf st' /\
    words_in_use st' = words_in_use st /\ max_blocks st' = max_blocks st /\
    used_blocks st' = u64 (used_blocks st - 1) /\
    forall c, 0 <= c ->
      marked (memory_map st') c = marked (memory_map st) c && negb (same_cell b c).
Proof.
  intros (Hm & Hmax & Hlen & Hsz) -> Hb. unfold free_block, BLOCK_SIZE.
  destruct (Z.eqb_spec (b * 4096) 0); [lia|].
  rewrite Z.div_mul by lia. rewrite swrap_small by lia.
  destruct (unset_block_marked st b) as (st1 & -> & Hm1 & Hl1 & Hu1 & Hx1 & Hmk); [lia|].
  simpl. eexists. split; [done|]. simpl.
  unfold wf, words_in_use in *; simpl; rewrite ?Hu1, ?Hx1, ?Hl1; auto.
Qed.

(** ** Ownership traces

    A client allocates blocks and releases blocks it holds, in any order;
    [own] is the set of addresses it holds. *)

Inductive step : bitmap * gset Z -> bitmap * gset Z -> Prop :=
  | step_alloc st own st' p :
      alloc_block st = Ret (st', p) -> p <> 0 -> step (st, own) (st', {[p]} ∪ own)
  | step_alloc_null st own st' :
      alloc_block st = Ret (st', 0) -> step (st, own) (st', own)
  | step_free st own st' p :
      p ∈ own -> free_block st p = Ret st' -> step (st, own) (st', own ∖ {[p]}).

(** A held address is the start of a marked block of a lower half. *)
Definition held (st : bitmap) (p : Z) : Prop :=
  exists b, p = b * BLOCK_SIZE /\ 0 < b < 64 * words_in_use st /\
    b mod 64 < 32 /\ marked (memory_map st) b = true.

Definition trace_inv (s : bitmap * gset Z) : Prop :=
  wf s.1 /\ forall p, p ∈ s.2 -> held s.1 p.

Lemma alloc_result_fresh st st' p :
  wf st -> alloc_result st st' p -> p <> 0 -> held st' p /\ ~ held st p.
Proof.
  intros Hwf Hres Hp. inversion Hres as [| |r st2 _ Hr Hwf' Hw _ _ Hmk]; subst; [done..|].
  pose proof (least_unmarked_low _ _ _ Hr) as Hlow. destruct Hr as (Hr & Hc & _).
  split.
  - exists r. split_and!; [done| |lia|done|].
    + unfold BLOCK_SIZE in Hp. lia.
    + rewrite Hmk, same_cell_refl by lia. by rewrite orb_true_r.
  - intros (b & E & _ & _ & Hb). assert (b = r) as -> by (unfold BLOCK_SIZE in E; lia).
    congruence.
Qed.

Lemma alloc_result_held st st' p q :
  wf st -> alloc_result st st' p -> held st q -> held st' q.
Proof.
  intros Hwf Hres Hq. inversion Hres as [| |r st2 _ _ _ Hw _ _ Hmk]; subst; [done..|].
  destruct Hq as (b & -> & Hb & Hl & Hm). exists b. rewrite Hw. split_and!; [done|lia..|].
  rewrite Hmk, Hm by lia. done.
Qed.

Lemma alloc_result_wf st st' p : wf st -> alloc_result st st' p -> wf st'.
Proof. intros Hwf Hres. by inversion Hres; subst. Qed.

Lemma step_trace_inv s s' : step s s' -> trace_inv s -> trace_inv s'.
Proof.
  intros Hstep [Hwf Hown].
  destruct Hstep as [st own st' p Ha Hp|st own st' Ha|st own st' p Hin Hf]; simpl in *.
  - destruct (alloc_block_cases st Hwf) as (st2 & p2 & E & Hres).
    rewrite Ha in E. simplify_eq/=.
    split; simpl; [eauto using alloc_result_wf|]. intros q Hq. apply elem_of_union in Hq as [->%elem_of_singleton|Hq].
    + eapply alloc_result_fresh; eauto.
    + eapply alloc_result_held; eauto.
  - destruct (alloc_block_cases st Hwf) as (st2 & p2 & E & Hres).
    rewrite Ha in E. simplify_eq/=.
    split; [eauto using alloc_result_wf|]. intros q Hq. eapply alloc_result_held; eauto.
  - destruct (Hown p Hin) as (b & -> & Hb & Hlow & Hm).
    destruct (free_block_cases st _ b Hwf eq_refl Hb) as (st2 & E & Hwf2 & Hw & _ & _ & Hmk).
    rewrite Hf in E. simplify_eq/=. split; simpl; [done|]. intros q Hq. apply elem_of_difference in Hq as [Hq Hne].
    destruct (Hown q Hq) as (c & -> & Hc & Hlow' & Hm'). exists c. simpl. rewrite Hw.
    split_and!; [done|lia..|]. rewrite Hmk, Hm' by lia. simpl.
    destruct (same_cell b c) eqn:Ec; [|done].
    apply same_cell_low in Ec; [|done..]. set_solver.
Qed.

Lemma rtc_trace_inv s s' : rtc step s s' -> trace_inv s -> trace_inv s'.
Proof. induction 1; eauto using step_trace_inv. Qed.

(** ** Capacity

    [free_low] counts the unmarked blocks of the lower halves: the blocks the
    allocator can still hand out. *)

Definition low_blocks (W : Z) : list Z := filter (fun b => b mod 64 < 32) (seqZ 0 (64 * W)).

Definition free_low (st : bitmap) : nat :=
  length (filter (fun b => marked (memory_map st) b = false) (low_blocks (words_in_use st))).

Lemma elem_of_low_blocks W b : b ∈ low_blocks W <-> b mod 64 < 32 /\ 0 <= b < 64 * W.
Proof. unfold low_blocks. rewrite list_elem_of_filter, elem_of_seqZ. intuition lia. Qed.

Lemma NoDup_low_blocks W : NoDup (low_blocks W).
Proof. apply NoDup_filter, NoDup_seqZ. Qed.

Lemma free_low_zero st :
  (forall b, 0 <= b < 64 * words_in_use st -> marked (memory_map st) b = true) ->
  free_low st = 0%nat.
Proof.
  intros Hall. unfold free_low.
  destruct (filter _ _) as [|b l] eqn:E; [done|].
  assert (b ∈ b :: l) as Hb by set_solver. rewrite <- E in Hb.
  apply list_elem_of_filter in Hb as [Hm [_ Hb]%elem_of_low_blocks].
  rewrite Hall in Hm by lia. done.
Qed.

(** Each successful allocation uses up one block of a lower half; the others
    are left as they were. *)
Lemma alloc_frame_free_low st st' r :
  least_unmarked (memory_map st) 0 (64 * words_in_use st) r ->
  words_in_use st' = words_in_use st ->
  (forall b, 0 <= b -> marked (memory_map st') b = marked (memory_map st) b || same_cell r b) ->
  free_low st = S (free_low st').
Proof.
  intros Hr Hw Hmk. pose proof (least_unmarked_low _ _ _ Hr) as Hlow.
  destruct Hr as (Hr & Hc & _). unfold free_low. rewrite Hw.
  apply filter_length_one with r; [apply NoDup_low_blocks|by apply elem_of_low_blocks|done|].
  intros b [Hb1 Hb2]%elem_of_low_blocks. rewrite Hmk, orb_false_iff by lia. split.
  - intros [H1 H2]. split; [done|]. intros ->. by rewrite same_cell_refl in H2.
  - intros [H1 H2]. split; [done|]. destruct (same_cell r b) eqn:E; [|done].
    apply same_cell_low in E; congruence.
Qed.

(** ** Range search *)

(** Blocks [a .. a + n - 1] all have unmarked cells. *)
Definition range_unmarked (m : list Z) (a n : Z) : Prop :=
  forall k, 0 <= k < n -> marked m (a + k) = false.

Lemma probe_spec st temp size n count :
  wf_map (memory_map st) -> 0 <= temp -> 0 <= count -> size = count + Z.of_nat n ->
  temp + size <= 64 * Z.of_nat (length (memory_map st)) -> temp + size < 2 ^ 31 ->
  range_unmarked (memory_map st) temp count ->
  exists r, probe st temp size count count n = Ret r /\
    match r with
    | Found => range_unmarked (memory_map st) temp size
    | Break c => 0 <= c < size
    | Exhausted => True
    end.
Proof.
  intros Hm Ht. revert count. induction n as [|n IH]; intros count Hc Hn Hl Hsz Hu; simpl probe.
  { by exists Exhausted. }
  rewrite (uwrap_small 32) by lia. rewrite swrap_small by lia.
  destruct (is_block_free_marked st (temp + count)) as (v & -> & Hv); [lia|done|]. simpl.
  rewrite Hv. destruct (marked (memory_map st) (temp + count)) eqn:E; simpl.
  { exists (Break count). split; [done|lia]. }
  assert (range_unmarked (memory_map st) temp (count + 1)) as Hu'.
  { intros k Hk. destruct (decide (k = count)) as [->|]; [done|apply Hu; lia]. }
  destruct (Z.eqb_spec (count + 1) size) as [<-|]; [by exists Found|].
  apply IH; (done || lia).
Qed.

Lemma range_bits_spec st i w size n j :
  wf_map (memory_map st) -> memory_map st !! Z.to_nat i = Some w ->
  0 <= i -> 0 <= j -> 0 <= size -> 64 - j <= Z.of_nat n ->
  64 * (i + 1) + size <= 64 * Z.of_nat (length (memory_map st)) ->
  64 * (i + 1) + size < 2 ^ 31 ->
  exists r, range_bits st i w size j n = Ret r /\
    match r with
    | Some b => 64 * i <= b < 64 * (i + 1) /\ range_unmarked (memory_map st) b size
    | None => True
    end.
Proof.
  intros Hm E Hi. revert j. induction n as [|n IH]; intros j Hj Hs Hn Hl Hsz;
    cbn [range_bits]; destruct (Z.ltb_spec j 64); simpl; try (by exists None); [lia|].
  destruct (Z.land w (u64 (shl1 j)) =? 0); [|apply IH; lia].
  rewrite uwrap_small by lia.
  destruct (probe_spec st (i * 64 + j) size (Z.to_nat size) 0) as (r & -> & Hr); [done|lia..| |].
  { intros k Hk. lia. }
  destruct r as [|c|]; simpl; [|apply IH; lia..].
  eexists. split; [done|]. simpl. split; [lia|done].
Qed.

Arguments range_bits : simpl never.
Arguments probe : simpl never.

Lemma range_words_spec st size n i :
  wf_map (memory_map st) -> 0 <= i -> 0 <= size ->
  64 * (i + Z.of_nat n) + size <= 64 * Z.of_nat (length (memory_map st)) ->
  64 * (i + Z.of_nat n) + size < 2 ^ 31 ->
  exists r, range_words st size i n = Ret r /\
    (r = -1 \/ 64 * i <= r < 64 * (i + Z.of_nat n) /\ range_unmarked (memory_map st) r size).
Proof.
  intros Hm. revert i. induction n as [|n IH]; intros i Hi Hs Hl Hsz; cbn [range_words].
  { exists (-1). auto. }
  destruct (array_get_lt (memory_map st) i) as (w & -> & E); [lia|]. simpl.
  assert (exists r, range_words st size (i + 1) n = Ret r /\
    (r = -1 \/ 64 * i <= r < 64 * (i + Z.of_nat (S n)) /\ range_unmarked (memory_map st) r size))
    as Hnext.
  { destruct (IH (i + 1)) as (r & Hr & Hc); [lia..|]. exists r. split; [done|].
    destruct Hc as [|[]]; [by left|right]. split; [lia|done]. }
  destruct (w =? all_ones); [done|].
  destruct (range_bits_spec st i w size 64 0) as (r & -> & Hr); [done|done|lia..|]. simpl.
  destruct r as [b|]; [|done]. exists b. split; [done|]. right. split; [lia|tauto].
Qed.

(** ** Properties *)

#[export] Instance wf_dec st : Decision (wf st).
Proof. unfold wf. apply _. Defined.

(** C1: from any well-formed state, whatever allocations and releases its
    client performs, [alloc_block] returns: either [NULL], or the address of a
    whole 4 KiB block inside the managed range that the client does not
    already hold.  No block is ever handed out twice. *)
Theorem no_double_allocation st0 st own :
  wf st0 -> rtc step (st0, ∅) (st, own) ->
  exists st' p, alloc_block st = Ret (st', p) /\
    (p = 0 \/ (p ∉ own) /\ p mod BLOCK_SIZE = 0 /\ 0 < p < 64 * words_in_use st * BLOCK_SIZE).
Proof.
  intros Hwf Hrtc. destruct (rtc_trace_inv _ _ Hrtc) as [Hwf' Hown].
  { split; [done|]. simpl. set_solver. }
  destruct (alloc_block_cases st Hwf') as (st' & p & E & Hres). exists st', p. split; [done|].
  destruct (decide (p = 0)) as [|Hp]; [by left|right].
  destruct (alloc_result_fresh _ _ _ Hwf' Hres Hp) as [(b & -> & Hb & _) Hnew].
  split_and!; [intros Hin; by apply Hnew, Hown| |unfold BLOCK_SIZE in *; lia|].
  - by apply Z.mod_mul.
  - inversion Hres as [| |r st2 _ _ _ Hw]; subst; [done..|]. unfold BLOCK_SIZE in *. lia.
Qed.

Example no_double_allocation_witness :
  let st := Bitmap [3; 0] 2 128 in
  exists st' p, alloc_block st = Ret (st', p) /\
    (p = 0 \/ (p ∉ ({[4096]} ∪ ∅ : gset Z)) /\ p mod BLOCK_SIZE = 0 /\
     0 < p < 64 * words_in_use st * BLOCK_SIZE).
Proof.
  apply (no_double_allocation (Bitmap [1; 0] 1 128)); [by_computation|].
  apply rtc_once, step_alloc; [vm_compute; reflexivity|lia].
Defined.

(** [get_first_free] returns the least block whose cell is unmarked among
    the words in use, which always lies in the lower half of its word, or -1
    when every cell is marked; it never reads outside the array. *)
Theorem get_first_free_least st :
  wf st ->
  exists r, get_first_free st = Ret r /\
    ((r = -1 /\ forall b, 0 <= b < 64 * words_in_use st -> marked (memory_map st) b = true) \/
     (0 <= r < 64 * words_in_use st /\ r mod 64 < 32 /\ marked (memory_map st) r = false /\
      forall b, 0 <= b < r -> marked (memory_map st) b = true)).
Proof.
  intros Hwf. destruct (get_first_free_spec st Hwf) as (r & E & [H|H]); exists r; auto.
  split; [done|]. right. pose proof (least_unmarked_low _ _ _ H).
  destruct H as (H1 & H2 & H3). auto.
Qed.

Example get_first_free_least_witness :
  let st := Bitmap [all_ones; 7] 35 128 in
  (get_first_free st = Ret 67) /\
  exists r, get_first_free st = Ret r /\
    ((r = -1 /\ forall b, 0 <= b < 64 * words_in_use st -> marked (memory_map st) b = true) \/
     (0 <= r < 64 * words_in_use st /\ r mod 64 < 32 /\ marked (memory_map st) r = false /\
      forall b, 0 <= b < r -> marked (memory_map st) b = true)).
Proof.
  split; [vm_compute; reflexivity|].
  apply (get_first_free_least (Bitmap [all_ones; 7] 35 128)). by_computation.
Defined.

(** C36: [get_first_range_free] terminates and, when the array extends at least
    [size] blocks past the words in use, returns -1 or the first block of a run
    of [size] blocks whose cells are all unmarked. *)
Theorem get_first_range_free_correct st size :
  wf st -> 0 <= size < 2 ^ 24 ->
  64 * words_in_use st + size <= 64 * Z.of_nat (length (memory_map st)) ->
  exists r, get_first_range_free st size = Ret r /\
    (r = -1 \/ 0 <= r < 64 * words_in_use st /\ range_unmarked (memory_map st) r size).
Proof.
  intros (Hm & Hmax & Hlen & Hsz) Hs Hroom. unfold get_first_range_free, words_in_use in *.
  assert (0 <= max_blocks st / 64) by (apply Z.div_pos; lia).
  rewrite uwrap_small by lia.
  destruct (range_words_spec st size (Z.to_nat (max_blocks st / 64)) 0) as (r & -> & Hr);
    [done|lia..|].
  exists r. split; [done|]. by rewrite !Z2Nat.id, Z.mul_0_r, Z.add_0_l in Hr by lia.
Qed.

Example get_first_range_free_correct_witness :
  let st := Bitmap [7; 0; 0] 3 128 in
  (get_first_range_free st 4 = Ret 3) /\
  exists r, get_first_range_free st 4 = Ret r /\
    (r = -1 \/ 0 <= r < 64 * words_in_use st /\ range_unmarked (memory_map st) r 4).
Proof.
  split; [vm_compute; reflexivity|].
  apply (get_first_range_free_correct (Bitmap [7; 0; 0] 3 128) 4); [by_computation|lia|].
  vm_compute. discriminate.
Defined.

(** ** Half of the blocks are out of reach *)

Definition fresh (W : Z) : bitmap := Bitmap (replicate (Z.to_nat W) 0) 0 (64 * W).

(** [n] allocations in a row. *)
Definition alloc_many (n : nat) (st : bitmap) : outcome bitmap :=
  for_loop n 0 (fun _ st => fst <$> alloc_block st) st.

Lemma fresh_wf W : 0 <= W <= 2 ^ 24 -> wf (fresh W) /\ words_in_use (fresh W) = W.
Proof.
  intros HW. unfold wf, words_in_use. simpl. rewrite length_replicate.
  rewrite (Z.mul_comm 64), Z.div_mul by lia. split_and!; try lia.
  apply Forall_replicate. by vm_compute.
Qed.

Lemma low_blocks_word W :
  0 <= W -> List.length (filter (fun b => b mod 64 < 32) (seqZ (64 * W) 64)) = 32%nat.
Proof.
  intros HW. rewrite <- (Z.add_0_r (64 * W)), <- fmap_add_seqZ, length_filter_fmap.
  rewrite (list_filter_iff _ (fun b => b mod 64 < 32)); [by vm_compute|].
  intros b. by rewrite Z.add_comm, (Z.mul_comm 64), Z_mod_plus_full.
Qed.

Lemma length_low_blocks (n : nat) : List.length (low_blocks (Z.of_nat n)) = (32 * n)%nat.
Proof.
  induction n as [|n IH]; [done|]. unfold low_blocks in *.
  replace (64 * Z.of_nat (S n)) with (64 * Z.of_nat n + 64) by lia.
  rewrite seqZ_app, filter_app, length_app, IH, Z.add_0_l, low_blocks_word; lia.
Qed.

Lemma fresh_free_low W : 0 <= W <= 2 ^ 24 -> free_low (fresh W) = Z.to_nat (32 * W).
Proof.
  intros HW. unfold free_low. rewrite (proj2 (fresh_wf W HW)).
  rewrite filter_all.
  2:{ intros b _. unfold marked, fresh. simpl.
      destruct (replicate _ _ !! _) as [w|] eqn:E; [|done].
      apply lookup_replicate in E as [-> _]. by rewrite Z.bits_0. }
  rewrite <- (Z2Nat.id W) by lia. rewrite length_low_blocks. lia.
Qed.

(** Of the 64 blocks each word stands for, 32 are out of reach: after
    [32 * W] allocations from an empty map of [W] words every further
    allocation returns [NULL], although [32 * W] blocks still count as
    usable. *)
Theorem capacity_half W :
  0 < W <= 2 ^ 24 ->
  exists st, alloc_many (Z.to_nat (32 * W)) (fresh W) = Ret st /\
    total_usable st = 32 * W /\ alloc_block st = Ret (st, 0).
Proof.
  intros HW. pose (I := fun i st => wf st /\ words_in_use st = W /\ max_blocks st = 64 * W /\
    used_blocks st = i /\ Z.of_nat (free_low st) = 32 * W - i).
  assert (forall i st, 0 <= i < 64 * W -> I i st -> total_usable st <> 0) as Husable.
  { intros i st Hi (_ & _ & Hx & Hu & _). unfold total_usable. rewrite uwrap_small; lia. }
  destruct (for_loop_ind I (fun _ st => fst <$> alloc_block st) (Z.to_nat (32 * W)) 0 (fresh W))
    as (st & E & Hwf & HW' & Hmax & Hu & Hf).
  - pose proof (fresh_free_low W). destruct (fresh_wf W) as [Hw1 Hw2]; [lia|].
    unfold I. split_and!; [done|done|done|done|]. rewrite H; lia.
  - intros i st Hi HI. pose proof (Husable i st ltac:(lia) HI) as Hus.
    destruct HI as (Hwf & Hw & Hmax & Hu & Hf).
    destruct (alloc_block_cases st Hwf) as (st' & p & -> & Hres).
    exists st'. split; [done|]. inversion Hres as [|Hall|r st2 _ Hr Hwf' Hw' Hx' Hu' Hmk]; subst.
    + done.
    + rewrite free_low_zero in Hf by done. lia.
    + pose proof (alloc_frame_free_low _ _ _ Hr Hw' Hmk) as Hdec.
      unfold I. rewrite Hw', Hu', uwrap_small by lia. split_and!; [done|lia..].
  - exists st. split; [done|]. rewrite Z2Nat.id, Z.add_0_l in * by lia.
    assert (total_usable st = 32 * W) as Ht.
    { unfold total_usable. rewrite uwrap_small; lia. }
    split; [done|]. destruct (alloc_block_cases st Hwf) as (st' & p & -> & Hres).
    inversion Hres as [|Hall|r st2 _ Hr Hwf' Hw' Hx' Hu' Hmk]; subst; [done..|].
    pose proof (alloc_frame_free_low _ _ _ Hr Hw' Hmk). lia.
Qed.

Example capacity_half_witness :
  exists st, alloc_many 64 (fresh 2) = Ret st /\
    total_usable st = 64 /\ alloc_block st = Ret (st, 0).
Proof. apply (capacity_half 2). lia. Defined.
