(* ===== verification/PhysMem.v ===== *)
(** * Physical memory manager (sys/mm/mmgr.c)

    The boot memory map, the block bitmap of physical memory and the
    operations that hand out 4 KiB frames. *)

From S2P Require Import Prelude Bitmap.

(** ** State *)

(** An e820 entry of the boot loader ([struct smap_t], 20 packed bytes). *)
Record smap_t := Smap { base : Z; length : Z; type : Z }.

#[export] Instance smap_t_eq_dec : EqDecision smap_t.
Proof. solve_decision. Defined.

Definition MM_PHY_USABLE : Z := 1.
Definition MEGA_BYTE : Z := 1024 * 1024.
Definition MY_KERNEL_SIZE : Z := 40.

(** The file's globals.  The two region tables hold ten entries, the bit
    array 1200 words. *)
Record mmgr := Mmgr {
  sys_total_memory : list smap_t;
  total_mem_counter : Z;
  sys_usable_memory : list smap_t;
  usable_mem_counter : Z;
  mmgr_usable_memory_size : Z;
  mmgr_memory : bitmap
}.

(** The array as the loader leaves it: zero-filled. *)
Definition blank_map : list Z := replicate 1200 0.
Arguments blank_map : simpl never.

Definition mmgr_start : mmgr :=
  Mmgr (replicate 10 (Smap 0 0 0)) 0 (replicate 10 (Smap 0 0 0)) 0 0 (Bitmap blank_map 0 0).

Definition with_memory (g : mmgr) (b : bitmap) : mmgr :=
  Mmgr (sys_total_memory g) (total_mem_counter g) (sys_usable_memory g)
       (usable_mem_counter g) (mmgr_usable_memory_size g) b.

(** ** Bitmap operations under their own names *)

Definition get_total_blocks (b : bitmap) : Z := max_blocks b.
Definition get_used_blocks (b : bitmap) : Z := used_blocks b.
Definition get_total_usable_memory (g : mmgr) : Z := mmgr_usable_memory_size g.
Definition get_total_usable_blocks (b : bitmap) : Z :=
  u64 (get_total_blocks b - get_used_blocks b).

(** [mmgr_set_block(i); mmgr_used_blocks += 1], the body of two loops. *)
Definition reserve_block (i : Z) (b : bitmap) : outcome bitmap :=
  b' ← set_block b (s32 i);
  Ret (with_used b' (u64 (used_blocks b' + 1))).

Definition release_block (i : Z) (b : bitmap) : outcome bitmap :=
  b' ← unset_block b (s32 i);
  Ret (with_used b' (u64 (used_blocks b' - 1))).

Definition mmgr_phy_init_regions (b : bitmap) (base length : Z) : outcome bitmap :=
  for_loop (Z.to_nat (length / BLOCK_SIZE)) (base / BLOCK_SIZE) release_block b.

Definition mmgr_phy_deinit_regions (b : bitmap) (base length : Z) : outcome bitmap :=
  b' ← for_loop (Z.to_nat (length / BLOCK_SIZE)) (base / BLOCK_SIZE) reserve_block b;
  set_block b' 0.

(** [for (i = 512; i < MY_KERNEL_SIZE*256; i++)] *)
Definition mmgr_syncwith_kernel (b : bitmap) : outcome bitmap :=
  for_loop (Z.to_nat (MY_KERNEL_SIZE * 256 - 512)) 512 reserve_block b.

(** ** Start-up *)

(** [memset(mmgr_memory_map, c, n)]: the first [n] bytes of the array, eight to
    a little-endian word. *)
Fixpoint memset_words (m : list Z) (c n : Z) : list Z :=
  match m with
  | [] => []
  | w :: m =>
    if n <=? 0 then w :: m else
    let k := Z.min n 8 in
    let filled := uwrap (8 * k) (0x0101010101010101 * c) in
    Z.lor filled (Z.shiftl (Z.shiftr w (8 * k)) (8 * k)) :: memset_words m c (n - 8)
  end.

(** [while (modulep[0] != 0x9001) modulep += modulep[1]+2;] over the loader's
    32-bit words.  Every round moves forward by at least two words. *)
Fixpoint find_smap (words : list Z) (p : Z) (n : nat) : outcome Z :=
  w ← array_get words p;
  if w =? 0x9001 then Ret p else
  match n with
  | O => Loops
  | S n =>
    len ← array_get words (p + 1);
    find_smap words (p + u32 (len + 2)) n
  end.

(** The entry whose first word is at index [p]: two 64-bit fields and a 32-bit
    one. *)
Definition read_smap (words : list Z) (p : Z) : outcome smap_t :=
  b0 ← array_get words p;
  b1 ← array_get words (p + 1);
  l0 ← array_get words (p + 2);
  l1 ← array_get words (p + 3);
  t ← array_get words (p + 4);
  Ret (Smap (b0 + Z.shiftl b1 32) (l0 + Z.shiftl l1 32) t).

(** The body of the loop over the entries. *)
Definition record_smap (s : smap_t) (g : mmgr) : outcome mmgr :=
  if length s =? 0 then Ret g else
  tot ← array_set (sys_total_memory g) (total_mem_counter g) s;
  if type s =? MM_PHY_USABLE then
    us ← array_set (sys_usable_memory g) (usable_mem_counter g) s;
    Ret (Mmgr tot (u64 (total_mem_counter g + 1)) us (u64 (usable_mem_counter g + 1))
              (u64 (mmgr_usable_memory_size g + length s)) (mmgr_memory g))
  else
    Ret (Mmgr tot (u64 (total_mem_counter g + 1)) (sys_usable_memory g) (usable_mem_counter g)
              (mmgr_usable_memory_size g) (mmgr_memory g)).

(** The loop runs while the entry's address is below the module's end. *)
Definition read_entries (words : list Z) (p : Z) (g : mmgr) : outcome mmgr :=
  size ← array_get words (p + 1);
  for_loop (Z.to_nat ((size + 19) / 20)) 0
    (fun k g => s ← read_smap words (p + 2 + 5 * k); record_smap s g) g.

Definition init_usable_regions (g : mmgr) (b : bitmap) : outcome bitmap :=
  for_loop (Z.to_nat (usable_mem_counter g)) 0
    (fun i b => s ← array_get (sys_usable_memory g) i;
                mmgr_phy_init_regions b (base s) (length s)) b.

Definition mm_phy_init (words : list Z) (g : mmgr) : outcome mmgr :=
  p ← find_smap words 0 (List.length words);
  g ← read_entries words p g;
  let max := mmgr_usable_memory_size g / BLOCK_SIZE in
  let b := mmgr_memory g in
  let n := u32 (max / 64) in
  if 8 * Z.of_nat (List.length (memory_map b)) <? n then Undef else
  b ← init_usable_regions g (Bitmap (memset_words (memory_map b) 0xF n) max max);
  b ← for_loop 1024 0 reserve_block b;
  Ret (Mmgr (sys_total_memory g) (total_mem_counter g) (sys_usable_memory g)
            (usable_mem_counter g) (mmgr_usable_memory_size g / MEGA_BYTE) b).

(** ** Word-level view of the start-up loops

    [memset] leaves words that are not sign extensions; a word becomes well
    formed once its 31st cell is written and stays so. *)

Definition sound_at (m : list Z) (k : nat) : Prop := forall w, m !! k = Some w -> wf_word w.

Definition words_ok (m : list Z) : Prop := Forall word_ok m.

Lemma words_ok_lookup m k w : words_ok m -> m !! k = Some w -> word_ok w.
Proof. intros H E. by apply (Forall_lookup_1 _ _ _ _ H E). Qed.

Lemma mask_ok n : word_ok (u64 (shl1 n)).
Proof. apply (uwrap_range 64). lia. Qed.

Section rewritten_word.
Context (m : list Z) (q : nat) (w v : Z).
Hypothesis Hq : m !! q = Some w.

Lemma sound_at_insert k : (wf_word w -> wf_word v) -> sound_at m k -> sound_at (<[q := v]> m) k.
Proof.
  intros Hv Hk x. destruct (decide (q = k)) as [->|].
  - rewrite list_lookup_insert_eq by (by eapply lookup_lt_Some). intros [= <-]. eauto.
  - rewrite list_lookup_insert_ne by done. apply Hk.
Qed.

Lemma sound_at_written : wf_word v -> sound_at (<[q := v]> m) q.
Proof.
  intros Hv x. rewrite list_lookup_insert_eq by (by eapply lookup_lt_Some). by intros [= <-].
Qed.
End rewritten_word.

Lemma set_block_inv b i b' :
  set_block b i = Ret b' ->
  exists w, memory_map b !! Z.to_nat (Z.quot i 64) = Some w /\
    b' = with_map b (<[Z.to_nat (Z.quot i 64) := Z.lor w (u64 (shl1 (Z.rem i 64)))]> (memory_map b)).
Proof.
  unfold set_block. intros E. apply bind_Ret_inv in E as (w & [_ Ew]%array_get_Ret & E).
  apply bind_Ret_inv in E as (m & [_ ->]%array_set_Ret & [= <-]). eauto.
Qed.

Lemma unset_block_inv b i b' :
  unset_block b i = Ret b' ->
  exists w, memory_map b !! Z.to_nat (Z.quot i 64) = Some w /\
    b' = with_map b (<[Z.to_nat (Z.quot i 64) :=
           Z.land w (u64 (Z.lnot (shl1 (Z.rem i 64))))]> (memory_map b)).
Proof.
  unfold unset_block. intros E. apply bind_Ret_inv in E as (w & [_ Ew]%array_get_Ret & E).
  apply bind_Ret_inv in E as (m & [_ ->]%array_set_Ret & [= <-]). eauto.
Qed.

(** What reserving or releasing block [i] keeps, and what it repairs. *)
Definition keeps (b b' : bitmap) (i : Z) : Prop :=
  List.length (memory_map b') = List.length (memory_map b) /\
  max_blocks b' = max_blocks b /\
  (words_ok (memory_map b) -> words_ok (memory_map b')) /\
  (forall k, sound_at (memory_map b) k -> sound_at (memory_map b') k) /\
  (words_ok (memory_map b) -> 0 <= i < 2 ^ 31 -> i mod 64 = 31 ->
   sound_at (memory_map b') (Z.to_nat (i / 64))).

Lemma last_cell i : 0 <= i -> i mod 64 = 31 -> Z.rem i 64 mod 32 = 31.
Proof.
  intros Hi E. rewrite (proj2 (quot_rem_nonneg i Hi)).
  rewrite <- (Z.mod_mod_divide i 64 32) by (by exists 2). by rewrite E.
Qed.

Lemma reserve_block_keeps i b b' : reserve_block i b = Ret b' -> keeps b b' i.
Proof.
  unfold reserve_block. intros E. apply bind_Ret_inv in E as (b1 & E & [= <-]).
  apply set_block_inv in E as (w & Hw & ->). unfold keeps. simpl. rewrite length_insert.
  split_and!; [done|done| | |].
  - intros Hok. apply Forall_insert; [done|].
    eauto using word_ok_lor, words_ok_lookup, mask_ok.
  - intros k. eapply sound_at_insert; eauto using wf_word_set.
  - intros Hok Hi Hm. rewrite swrap_small in * by lia.
    rewrite Z.quot_div_nonneg in * by lia. eapply sound_at_written; [done|].
    apply wf_word_set31; [by eapply words_ok_lookup|apply last_cell; [lia|done]].
Qed.

Lemma release_block_keeps i b b' : release_block i b = Ret b' -> keeps b b' i.
Proof.
  unfold release_block. intros E. apply bind_Ret_inv in E as (b1 & E & [= <-]).
  apply unset_block_inv in E as (w & Hw & ->). unfold keeps. simpl. rewrite length_insert.
  split_and!; [done|done| | |].
  - intros Hok. apply Forall_insert; [done|].
    eauto using word_ok_land, words_ok_lookup.
  - intros k. eapply sound_at_insert; eauto using wf_word_unset.
  - intros Hok Hi Hm. rewrite swrap_small in * by lia.
    rewrite Z.quot_div_nonneg in * by lia. eapply sound_at_written; [done|].
    apply wf_word_unset31; [by eapply words_ok_lookup|apply last_cell; [lia|done]].
Qed.

(** A loop of such steps over [lo, lo + n) keeps the same and repairs every
    word whose 31st block it visits. *)
Definition keeps_range (b b' : bitmap) (lo hi : Z) : Prop :=
  List.length (memory_map b') = List.length (memory_map b) /\
  max_blocks b' = max_blocks b /\
  (words_ok (memory_map b) -> words_ok (memory_map b')) /\
  (forall k, sound_at (memory_map b) k -> sound_at (memory_map b') k) /\
  (words_ok (memory_map b) -> forall k, 0 <= k < 2 ^ 24 -> lo <= 64 * k + 31 < hi ->
   sound_at (memory_map b') (Z.to_nat k)).

Lemma keeps_range_refl b lo : keeps_range b b lo lo.
Proof. unfold keeps_range. split_and!; auto. intros; lia. Qed.

Lemma keeps_range_step b b1 b2 lo i :
  keeps_range b b1 lo i -> keeps b1 b2 i -> keeps_range b b2 lo (i + 1).
Proof.
  intros (L1 & M1 & O1 & S1 & R1) (L2 & M2 & O2 & S2 & R2).
  unfold keeps_range. split_and!; [congruence|congruence|auto|auto|].
  intros Hok k Hk Hr. destruct (decide (64 * k + 31 = i)) as [<-|].
  - specialize (R2 (O1 Hok)). rewrite (Z.mul_comm 64), block_div64 in R2 by lia.
    apply R2; [lia|]. rewrite Z.add_comm, Z_mod_plus_full. done.
  - apply S2, R1; [done|done|lia].
Qed.

Lemma keeps_range_loop body n lo b b' :
  (forall i b b', body i b = Ret b' -> keeps b b' i) ->
  for_loop n lo body b = Ret b' -> keeps_range b b' lo (lo + Z.of_nat n).
Proof.
  intros Hbody. apply (for_loop_partial (fun i s => keeps_range b s lo i)).
  - apply keeps_range_refl.
  - intros i s s' _ HI Hs. eauto using keeps_range_step.
Qed.

(** ** The state [mm_phy_init] leaves *)

Lemma length_memset_words m c n : List.length (memset_words m c n) = List.length m.
Proof.
  revert n. induction m as [|w m IH]; intros n; simpl; [done|].
  destruct (n <=? 0); simpl; [done|]. by rewrite IH.
Qed.

Lemma memset_words_past m c n k : n <= 8 * Z.of_nat k -> memset_words m c n !! k = m !! k.
Proof.
  revert n k. induction m as [|w m IH]; intros n k Hk; simpl; [done|].
  destruct (Z.leb_spec n 0); [done|]. destruct k as [|k]; simpl; [lia|]. apply IH. lia.
Qed.

Lemma memset_words_ok m c n : words_ok m -> words_ok (memset_words m c n).
Proof.
  intros Hm. revert n. induction Hm as [|w m Hw Hm IH]; intros n; simpl; [constructor|].
  destruct (Z.leb_spec n 0); constructor; [done|done| |apply IH].
  set (k := Z.min n 8). assert (0 < k <= 8) by lia.
  assert (word_ok (uwrap (8 * k) (0x0101010101010101 * c))).
  { pose proof (uwrap_range (8 * k) (0x0101010101010101 * c)). split; [lia|].
    apply Z.lt_le_trans with (2 ^ (8 * k)); [lia|]. apply Z.pow_le_mono_r; lia. }
  apply word_ok_lor; [done|]. rewrite <- Z.ldiff_ones_r by lia.
  apply word_ok_intro.
  - intros i Hi. by rewrite Z.ldiff_spec, word_ok_high.
  - apply Z.ldiff_nonneg. left. apply Hw.
Qed.

Lemma read_entries_memory words p g g' :
  read_entries words p g = Ret g' -> mmgr_memory g' = mmgr_memory g.
Proof.
  unfold read_entries. intros E. apply bind_Ret_inv in E as (size & _ & E).
  eapply (for_loop_partial (fun _ s => mmgr_memory s = mmgr_memory g)); [done| |exact E].
  intros k s s' _ HI Eb. apply bind_Ret_inv in Eb as (e & _ & Eb). unfold record_smap in Eb.
  destruct (length e =? 0); [by simplify_eq|]. apply bind_Ret_inv in Eb as (tot & _ & Eb).
  destruct (type e =? MM_PHY_USABLE); [|by simplify_eq].
  by apply bind_Ret_inv in Eb as (us & _ & [= <-]).
Qed.

(** Block [c] belongs to one of the recorded usable regions. *)
Definition in_usable_region (g : mmgr) (c : Z) : Prop :=
  exists i s, 0 <= i < usable_mem_counter g /\ sys_usable_memory g !! Z.to_nat i = Some s /\
    0 <= length s /\
    base s / BLOCK_SIZE <= c < base s / BLOCK_SIZE + length s / BLOCK_SIZE.

Lemma init_usable_regions_spec g b b' :
  init_usable_regions g b = Ret b' -> words_ok (memory_map b) ->
  List.length (memory_map b') = List.length (memory_map b) /\ max_blocks b' = max_blocks b /\
  words_ok (memory_map b') /\
  (forall k, sound_at (memory_map b) k -> sound_at (memory_map b') k) /\
  (forall k, 0 <= k < 2 ^ 24 -> in_usable_region g (64 * k + 31) ->
   sound_at (memory_map b') (Z.to_nat k)).
Proof.
  intros E Hok.
  pose (I := fun i c => List.length (memory_map c) = List.length (memory_map b) /\
    max_blocks c = max_blocks b /\ words_ok (memory_map c) /\
    (forall k, sound_at (memory_map b) k -> sound_at (memory_map c) k) /\
    (forall k j s, 0 <= k < 2 ^ 24 -> 0 <= j < i -> sys_usable_memory g !! Z.to_nat j = Some s ->
      0 <= length s ->
      base s / BLOCK_SIZE <= 64 * k + 31 < base s / BLOCK_SIZE + length s / BLOCK_SIZE ->
      sound_at (memory_map c) (Z.to_nat k))).
  assert (I (0 + Z.of_nat (Z.to_nat (usable_mem_counter g))) b') as (L & M & O & S & R).
  { eapply (for_loop_partial I); [|clear b' E|exact E].
    - unfold I. split_and!; auto. intros; lia.
    - intros i c c' Hi (L & M & O & S & R) Ec.
      apply bind_Ret_inv in Ec as (s & [_ Es]%array_get_Ret & Ec).
      apply (keeps_range_loop release_block) in Ec as (L' & M' & O' & S' & R');
        [|apply release_block_keeps].
      unfold I. split_and!; [congruence|congruence|auto|auto|].
      intros k j s' Hk Hj Hs' Hl Hr. destruct (decide (j = i)) as [->|].
      + rewrite Es in Hs'. simplify_eq. apply R'; [done|done|].
        rewrite Z2Nat.id; [done|]. by apply Z.div_pos.
      + apply S'. eapply R; eauto. lia. }
  split_and!; [done..|]. intros k Hk (i & s & Hi & Hs & Hl & Hr).
  eapply R; eauto. lia.
Qed.

(** Reserving a range of blocks inside the array marks them and unmarks
    nothing. *)
Lemma reserve_loop n lo b :
  0 <= lo -> lo + Z.of_nat n <= 64 * Z.of_nat (List.length (memory_map b)) ->
  lo + Z.of_nat n < 2 ^ 31 ->
  exists b', for_loop n lo reserve_block b = Ret b' /\
    List.length (memory_map b') = List.length (memory_map b) /\
    max_blocks b' = max_blocks b /\
    (wf_map (memory_map b) -> wf_map (memory_map b')) /\
    (forall c, 0 <= c -> marked (memory_map b) c = true -> marked (memory_map b') c = true) /\
    (forall c, lo <= c < lo + Z.of_nat n -> marked (memory_map b') c = true).
Proof.
  intros Hlo Hlen Hhi.
  apply (for_loop_ind (fun i c => List.length (memory_map c) = List.length (memory_map b) /\
    max_blocks c = max_blocks b /\ (wf_map (memory_map b) -> wf_map (memory_map c)) /\
    (forall d, 0 <= d -> marked (memory_map b) d = true -> marked (memory_map c) d = true) /\
    (forall d, lo <= d < i -> marked (memory_map c) d = true))).
  { split_and!; auto. lia. }
  intros i c Hi (L & M & W & K & R). unfold reserve_block. rewrite swrap_small by lia.
  destruct (set_block_marked c i) as (c' & -> & W' & L' & _ & M' & K'); [rewrite L; lia|].
  eexists. split; [done|]. simpl. split_and!; [congruence|congruence|auto| |].
  - intros d Hd Hm. by rewrite K', K.
  - intros d Hd. rewrite K' by lia. destruct (decide (d = i)) as [->|].
    + by rewrite same_cell_refl, orb_true_r.
    + by rewrite R by lia.
Qed.

Lemma blank_map_length : List.length blank_map = 1200%nat.
Proof. apply length_replicate. Qed.

Lemma blank_map_lookup k w : blank_map !! k = Some w -> w = 0.
Proof. by intros [-> _]%lookup_replicate. Qed.

Lemma mm_phy_init_spec words g :
  mm_phy_init words mmgr_start = Ret g ->
  List.length (memory_map (mmgr_memory g)) = 1200%nat /\
  (forall c, 0 <= c < 1024 -> marked (memory_map (mmgr_memory g)) c = true) /\
  ((forall k, 16 <= k -> 8 * k < max_blocks (mmgr_memory g) / 64 ->
              in_usable_region g (64 * k + 31)) ->
   0 <= max_blocks (mmgr_memory g) < 64 * 1201 -> wf (mmgr_memory g)).
Proof.
  unfold mm_phy_init. intros E. apply bind_Ret_inv in E as (p & _ & E).
  apply bind_Ret_inv in E as (g1 & E1 & E). apply read_entries_memory in E1.
  rewrite E1 in E. cbn [mmgr_start mmgr_memory memory_map] in E. cbv zeta in E.
  destruct (_ <? _); [done|].
  apply bind_Ret_inv in E as (b1 & Eb1 & E). apply bind_Ret_inv in E as (b2 & Eb2 & [= <-]).
  cbn [mmgr_memory].
  apply init_usable_regions_spec in Eb1 as (L1 & M1 & O1 & S1 & R1).
  2:{ apply memset_words_ok, Forall_replicate. by vm_compute. }
  cbn [memory_map max_blocks] in L1, M1, S1. rewrite length_memset_words, blank_map_length in L1.
  destruct (reserve_loop 1024 0 b1) as (b3 & Eb3 & L3 & M3 & _ & _ & K3); [lia|rewrite L1; lia|lia|].
  rewrite Eb3 in Eb2. simplify_eq. split; [by rewrite L3, L1|]. split; [intros c Hc; apply K3; lia|].
  apply (keeps_range_loop reserve_block) in Eb3 as (_ & M2 & O2 & S2 & R2);
    [|apply reserve_block_keeps].
  rewrite M2, M1. intros Hcover Hmax. unfold wf, words_in_use. rewrite L3, L1, M2, M1.
  split_and!; [|lia|apply Z.lt_succ_r, Z.div_lt_upper_bound; lia|lia].
  apply Forall_lookup. intros k w Hw. assert (k < 1200)%nat as Hk.
  { rewrite <- L1, <- L3. by eapply lookup_lt_Some. }
  enough (sound_at (memory_map b2) k) by eauto.
  destruct (decide (Z.of_nat k < 16)).
  { rewrite <- (Nat2Z.id k). apply R2; [done|lia|lia]. }
  set (max := mmgr_usable_memory_size g1 / BLOCK_SIZE) in *.
  apply S2. destruct (decide (8 * Z.of_nat k < max / 64)).
  - rewrite <- (Nat2Z.id k). apply R1; [lia|]. apply Hcover; lia.
  - apply S1. intros w'. rewrite memset_words_past.
    + intros ->%blank_map_lookup. by vm_compute.
    + pose proof (Z.div_pos max 64). rewrite uwrap_small; lia.
Qed.

(** C35: whatever memory map the boot loader passes, if [mm_phy_init] returns
    then blocks 0 .. 1023 (the first 4 MiB) are marked used; and if the usable
    sizes add up to at most 1200 words of the bitmap, 64 blocks of 4 KiB each
    (about 300 MiB), and every word that [memset] filled beyond the first 16 has
    its 31st block in a usable region, the map is well formed, so the allocator
    theorems apply to it. *)
Theorem mm_phy_init_state words g :
  mm_phy_init words mmgr_start = Ret g ->
  (forall c, 0 <= c < 1024 -> marked (memory_map (mmgr_memory g)) c = true) /\
  ((forall k, 16 <= k -> 8 * k < max_blocks (mmgr_memory g) / 64 ->
              in_usable_region g (64 * k + 31)) ->
   0 <= max_blocks (mmgr_memory g) < 64 * 1201 -> wf (mmgr_memory g)).
Proof. intros E. apply (mm_phy_init_spec words g E). Qed.

(** A 48 MiB machine, as QEMU's firmware describes it to the loader. *)
Definition smap_words (b l t : Z) : list Z := [u32 b; b / 2 ^ 32; u32 l; l / 2 ^ 32; t].
Definition qemu_48M : list Z :=
  [0x1; 1; 7; 0x9001; 100] ++ smap_words 0 0x9fc00 1 ++ smap_words 0x9fc00 0x400 2 ++
  smap_words 0xf0000 0x10000 2 ++ smap_words 0x100000 0x2ee0000 1 ++ smap_words 0x2fe0000 0x20000 2.

Definition qemu_state : mmgr := returned mmgr_start (mm_phy_init qemu_48M mmgr_start).

Example mm_phy_init_state_witness :
  mm_phy_init qemu_48M mmgr_start = Ret qemu_state /\
  (forall c, 0 <= c < 1024 -> marked (memory_map (mmgr_memory qemu_state)) c = true) /\
  wf (mmgr_memory qemu_state).
Proof.
  assert (mm_phy_init qemu_48M mmgr_start = Ret qemu_state) as E by (vm_compute; reflexivity).
  split; [exact E|]. destruct (mm_phy_init_state _ _ E) as [H1 H2]. split; [exact H1|].
  assert (max_blocks (mmgr_memory qemu_state) = 12159) as Hmax by (vm_compute; reflexivity).
  apply H2; [|rewrite Hmax; lia].
  intros k Hk1 Hk2. exists 1, (Smap 0x100000 0x2ee0000 1).
  rewrite Hmax in Hk2. change (12159 / 64) with 189 in Hk2.
  split; [vm_compute; split; congruence|]. split; [vm_compute; reflexivity|].
  cbn [length base]. split; [lia|]. change (0x100000 / BLOCK_SIZE) with 256.
  change (0x2ee0000 / BLOCK_SIZE) with 12000. lia.
Defined.

(** ** The kernel's frames *)

Definition KERNEL_BLOCKS : Z := MY_KERNEL_SIZE * 256.

Definition reserved (b : bitmap) : Prop :=
  forall c, 0 <= c < KERNEL_BLOCKS -> marked (memory_map b) c = true.

Definition kernel_inv (s : bitmap * gset Z) : Prop :=
  trace_inv s /\ reserved s.1 /\ forall p, p ∈ s.2 -> KERNEL_BLOCKS * BLOCK_SIZE <= p.

Lemma alloc_result_reserved b b' p : alloc_result b b' p -> reserved b -> reserved b'.
Proof.
  intros Hres Hr c Hc. inversion Hres as [| |r b2 _ _ _ _ _ _ Hmk]; subst; [by apply Hr..|].
  rewrite Hmk, Hr; [done|done|lia].
Qed.

(** A frame handed out while the kernel's blocks are marked lies above them. *)
Lemma alloc_result_above b b' p :
  alloc_result b b' p -> reserved b -> p <> 0 -> KERNEL_BLOCKS * BLOCK_SIZE <= p.
Proof.
  intros Hres Hr Hp. inversion Hres as [| |r b2 _ Hl _ _ _ _ _]; subst; [done..|].
  destruct Hl as (Hb & Hm & _). destruct (decide (r < KERNEL_BLOCKS)).
  - rewrite Hr in Hm by lia. done.
  - unfold BLOCK_SIZE. lia.
Qed.

Lemma step_kernel_inv s s' : step s s' -> kernel_inv s -> kernel_inv s'.
Proof.
  intros Hstep (Htr & Hres & Hab). pose proof (step_trace_inv _ _ Hstep Htr) as Htr'.
  split; [done|]. destruct Htr as [Hwf Hown].
  destruct Hstep as [b own b' p Ha Hp|b own b' Ha|b own b' p Hin Hf]; simpl in *.
  - destruct (alloc_block_cases b Hwf) as (b2 & p2 & E & Hr). rewrite Ha in E. simplify_eq/=.
    split; [eauto using alloc_result_reserved|]. intros q [->%elem_of_singleton|Hq]%elem_of_union.
    + eauto using alloc_result_above.
    + auto.
  - destruct (alloc_block_cases b Hwf) as (b2 & p2 & E & Hr). rewrite Ha in E. simplify_eq/=.
    eauto using alloc_result_reserved.
  - destruct (Hown p Hin) as (d & -> & Hd & _). pose proof (Hab _ Hin) as Hge.
    destruct (free_block_cases b _ d Hwf eq_refl Hd) as (b2 & E & _ & _ & _ & _ & Hmk).
    rewrite Hf in E. injection E as ->. split; [|set_solver]. intros c Hc.
    rewrite Hmk, Hres by lia. unfold same_cell, KERNEL_BLOCKS, MY_KERNEL_SIZE, BLOCK_SIZE in *.
    destruct (Z.eqb_spec (d / 64) (c / 64)) as [Heq|]; [|done].
    assert (c / 64 < 160) by (apply Z.div_lt_upper_bound; lia).
    assert (160 <= d / 64) by (apply Z.div_le_lower_bound; lia). lia.
Qed.

Lemma syncwith_kernel_spec b :
  wf b -> 64 * 160 <= 64 * Z.of_nat (List.length (memory_map b)) ->
  (forall c, 0 <= c < 512 -> marked (memory_map b) c = true) ->
  exists b', mmgr_syncwith_kernel b = Ret b' /\ wf b' /\ reserved b'.
Proof.
  intros (Hm & Hmax & Hw) Hlen H512. unfold mmgr_syncwith_kernel, MY_KERNEL_SIZE.
  destruct (reserve_loop (Z.to_nat (40 * 256 - 512)) 512 b)
    as (b' & -> & L & M & W & K & R); [lia..|].
  exists b'. split; [done|]. split.
  - unfold wf, words_in_use in *. rewrite L, M. auto.
  - intros c Hc. destruct (decide (c < 512)).
    + apply K; [lia|]. apply H512. lia.
    + apply R. unfold KERNEL_BLOCKS, MY_KERNEL_SIZE in *. lia.
Qed.

(** Once [mmgr_syncwith_kernel] has run on a map whose first 512 blocks
    are marked (as [mm_phy_init] leaves it), no sequence of allocations and
    releases ever hands out a frame of the kernel's 40 MiB. *)
Theorem kernel_frames_never_allocated b :
  wf b -> 160 <= Z.of_nat (List.length (memory_map b)) ->
  (forall c, 0 <= c < 512 -> marked (memory_map b) c = true) ->
  exists b1, mmgr_syncwith_kernel b = Ret b1 /\
    forall b2 own p, rtc step (b1, ∅) (b2, own) -> p ∈ own -> 40 * MEGA_BYTE <= p.
Proof.
  intros Hwf Hlen H512. destruct (syncwith_kernel_spec b) as (b1 & E & Hwf1 & Hr); [done|lia|done|].
  exists b1. split; [done|]. intros b2 own p Hrtc Hp.
  assert (kernel_inv (b2, own)) as (_ & _ & Hab); [|by apply Hab].
  assert (kernel_inv (b1, ∅)) as Hinit by (split_and!; [split; set_solver|done|set_solver]).
  clear Hp. induction Hrtc; eauto using step_kernel_inv.
Qed.

Example kernel_frames_never_allocated_witness :
  exists b1, mmgr_syncwith_kernel (Bitmap (replicate 8 all_ones ++ replicate 160 0) 512 10752) = Ret b1 /\
    forall b2 own p, rtc step (b1, ∅) (b2, own) -> p ∈ own -> 40 * MEGA_BYTE <= p.
Proof.
  apply kernel_frames_never_allocated; [by_computation|vm_compute; congruence|].
  intros c Hc. unfold marked. cbn [memory_map]. rewrite lookup_app_l.
  - rewrite lookup_replicate_2; [apply all_ones_cell|].
    assert (c / 64 < 8) by (apply Z.div_lt_upper_bound; lia).
    assert (0 <= c / 64) by (apply Z.div_pos; lia). lia.
  - rewrite length_replicate. assert (c / 64 < 8) by (apply Z.div_lt_upper_bound; lia). lia.
Defined.
