(* ===== verification/VirtPages.v ===== *)
(** * Kernel virtual page allocator (sys/mm/vmmgr_page_allocator.c)

    A second copy of the bitmap algorithm, over the kernel's virtual window
    0xFFFFFFFF81400000 .. 0xFFFFFFFF82C00000. *)

From S2P Require Import Prelude Bitmap.

Definition VIRT_BASE : Z := 0xFFFFFFFF81400000.
Definition VIRT_END : Z := 0xFFFFFFFF82C00000.
Definition MY_KERNEL_SIZE : Z := 40.
Definition KILO_BYTE : Z := 1024.

(** [static uint64_t vmmgr_memory_map[(MY_KERNEL_SIZE*1024*1024)/(4096*64*10)]] *)
Definition vmmgr_words : Z := (MY_KERNEL_SIZE * 1024 * 1024) / (4096 * 64 * 10).

Record vmmgr := Vmmgr { vmmgr_map : bitmap; vmmgr_usable_memory_size : Z }.

Definition vmmgr_start : vmmgr := Vmmgr (Bitmap (replicate (Z.to_nat vmmgr_words) 0) 0 0) 0.

Definition vmmgr_get_total_blocks (b : bitmap) : Z := max_blocks b.
Definition vmmgr_get_used_blocks (b : bitmap) : Z := used_blocks b.
Definition vmmgr_get_total_usable_memory (v : vmmgr) : Z := vmmgr_usable_memory_size v.
Definition vmmgr_get_total_usable_blocks (b : bitmap) : Z :=
  u64 (vmmgr_get_total_blocks b - vmmgr_get_used_blocks b).
Definition vmmgr_set_block := set_block.
Definition vmmgr_is_block_free := is_block_free.
Definition vmmgr_unset_block := unset_block.
Definition vmmgr_get_first_free := get_first_free.
Definition vmmgr_alloc_block := alloc_block.
Definition vmmgr_free_block := free_block.

(** The block's offset is added to the window's start even when it is [NULL]. *)
Definition vmmgr_page_alloc (b : bitmap) : outcome (bitmap * Z) :=
  r ← vmmgr_alloc_block b;
  Ret (r.1, u64 (r.2 + VIRT_BASE)).

(** [for (i = VIRT_BASE; i < VIRT_END; i += BLOCK_SIZE) vmmgr_max_blocks++;] *)
Definition count_blocks (m : Z) : Z :=
  Nat.iter (Z.to_nat ((VIRT_END - VIRT_BASE + BLOCK_SIZE - 1) / BLOCK_SIZE))
           (fun m => u64 (m + 1)) m.

Definition vmmgr_page_allocator_init (v : vmmgr) : vmmgr :=
  let b := vmmgr_map v in
  let m := count_blocks (max_blocks b) in
  Vmmgr (Bitmap (memory_map b) (used_blocks b) m)
        (u64 (m * 4096) / (KILO_BYTE * KILO_BYTE)).

(** ** Properties *)

Definition vmmgr_ready : vmmgr := vmmgr_page_allocator_init vmmgr_start.

(** The window has 6144 pages but the array holds 16 words, enough for the
    cells of 512 of them: the first 512 allocations succeed, and the next one
    reads past the end of [vmmgr_memory_map]. *)
Theorem vmmgr_map_too_short :
  max_blocks (vmmgr_map vmmgr_ready) = 6144 /\
  64 * Z.of_nat (length (memory_map (vmmgr_map vmmgr_ready))) = 1024 /\
  exists b, alloc_many 512 (vmmgr_map vmmgr_ready) = Ret b /\ vmmgr_page_alloc b = Undef.
Proof.
  split; [by vm_compute|]. split; [by vm_compute|].
  exists (Bitmap (replicate 16 all_ones) 512 6144). split; vm_compute; reflexivity.
Qed.
