(* ===== verification/FsBlocks.v ===== *)
(** * Disk block manager (sys/fs_mmgr.c)

    The third copy of the bitmap algorithm: 65536 disk blocks in an array of
    1100 words.  [file_mmgr_alloc_block] returns the block number itself, and
    -1 on failure. *)

From S2P Require Import Prelude Bitmap.

Definition file_mmgr_words : nat := 1100.
Definition file_blank_map : list Z := replicate file_mmgr_words 0.
Arguments file_blank_map : simpl never.

Definition file_mmgr_start : bitmap := Bitmap file_blank_map 0 65536.

Definition file_mmgr_get_total_blocks (b : bitmap) : Z := max_blocks b.
Definition file_mmgr_get_used_blocks (b : bitmap) : Z := used_blocks b.
Definition file_mmgr_get_total_usable_blocks (b : bitmap) : Z :=
  u64 (file_mmgr_get_total_blocks b - file_mmgr_get_used_blocks b).
Definition file_mmgr_set_block := set_block.
Definition file_mmgr_is_block_free := is_block_free.
Definition file_mmgr_unset_block := unset_block.
Definition file_mmgr_get_first_free := get_first_free.
Definition file_mmgr_get_first_range_free := get_first_range_free.
Definition file_mmgr_alloc_size_blocks := alloc_size_blocks.
Definition file_mmgr_free_block := free_block.
Definition file_mmgr_free_size_blocks := free_size_blocks.

Definition file_mmgr_alloc_block (st : bitmap) : outcome (bitmap * Z) :=
  if file_mmgr_get_total_usable_blocks st <=? 0 then Ret (st, -1) else
  page_frame ← file_mmgr_get_first_free st;
  if page_frame =? -1 then Ret (st, -1) else
  st' ← file_mmgr_set_block st page_frame;
  Ret (with_used st' (u64 (used_blocks st' + 1)), page_frame).

(** [memset(file_mmgr_memory_map, 0, sizeof(file_mmgr_memory_map))] *)
Definition file_mmgr_phy_init (st : bitmap) : bitmap :=
  with_map st (replicate (length (memory_map st)) 0).

(** ** Properties *)

Lemma file_mmgr_alloc_cases st :
  wf st ->
  exists st' r, file_mmgr_alloc_block st = Ret (st', r) /\
    ((r = -1 /\ st' = st) \/
     (least_unmarked (memory_map st) 0 (64 * words_in_use st) r /\ wf st' /\
      words_in_use st' = words_in_use st /\ used_blocks st' = u64 (used_blocks st + 1) /\
      length (memory_map st') = length (memory_map st) /\
      forall b, 0 <= b -> marked (memory_map st') b = marked (memory_map st) b || same_cell r b)).
Proof.
  intros Hwf. unfold file_mmgr_alloc_block, file_mmgr_get_first_free, file_mmgr_set_block.
  destruct (_ <=? 0); [by exists st, (-1); auto|].
  destruct (get_first_free_spec st Hwf) as (r & -> & [[-> _]|Hr]); simpl.
  { by exists st, (-1); auto. }
  pose proof Hr as ([Hr0 Hr1] & _ & _). destruct Hwf as (Hm & Hmax & Hlen & Hsz).
  destruct (Z.eqb_spec r (-1)); [lia|].
  destruct (set_block_marked st r) as (st1 & -> & Hm1 & Hl1 & Hu1 & Hx1 & Hmk); [lia|].
  simpl. eexists _, _. split; [done|]. right. unfold wf, words_in_use in *. simpl.
  rewrite Hu1, Hx1, Hl1. split_and!; auto.
Qed.

(** [file_mmgr_alloc_block] returns -1 and changes nothing, or returns the
    least block whose cell is free (in the lower half of its word), marks it
    and counts it; blocks that were marked stay marked. *)
Theorem file_mmgr_alloc_block_fresh st :
  wf st ->
  exists st' r, file_mmgr_alloc_block st = Ret (st', r) /\
    ((r = -1 /\ st' = st) \/
     (0 <= r < 64 * words_in_use st /\ r mod 64 < 32 /\
      marked (memory_map st) r = false /\ marked (memory_map st') r = true /\ wf st' /\
      used_blocks st' = u64 (used_blocks st + 1) /\
      forall b, 0 <= b -> marked (memory_map st) b = true -> marked (memory_map st') b = true)).
Proof.
  intros Hwf. destruct (file_mmgr_alloc_cases st Hwf)
    as (st' & r & E & [H|(Hr & Hwf' & _ & Hu & _ & Hmk)]); exists st', r; split; auto; right.
  pose proof (least_unmarked_low _ _ _ Hr). destruct Hr as (H1 & H2 & _).
  split_and!; try lia; auto.
  - rewrite Hmk, same_cell_refl by lia. by rewrite orb_true_r.
  - intros b Hb Hm. by rewrite Hmk, Hm.
Qed.

Example file_mmgr_alloc_block_fresh_witness :
  wf (Bitmap [63; 0] 6 128) /\
  exists st' r, file_mmgr_alloc_block (Bitmap [63; 0] 6 128) = Ret (st', r) /\
    ((r = -1 /\ st' = Bitmap [63; 0] 6 128) \/
     (0 <= r < 64 * words_in_use (Bitmap [63; 0] 6 128) /\ r mod 64 < 32 /\
      marked [63; 0] r = false /\ marked (memory_map st') r = true /\ wf st' /\
      used_blocks st' = u64 (6 + 1) /\
      forall b, 0 <= b -> marked [63; 0] b = true -> marked (memory_map st') b = true)).
Proof.
  split; [by_computation|]. apply (file_mmgr_alloc_block_fresh (Bitmap [63; 0] 6 128)).
  by_computation.
Defined.
