(* ===== verification/PageEntry.v ===== *)
(** * Page-table entries (sys/mm/vmmgr_pte.c, vmmgr_pde.c, vmmgr_pdpe.c,
      vmmgr_pml4.c and their headers)

    The four files define the same operations on 64-bit entries; each keeps
    its own names below. *)

From S2P Require Import Prelude.

(** ** Flags *)

Definition PTE_PRESENT : Z := 1.
Definition PTE_WRITABLE : Z := 2.
Definition PTE_USER : Z := 4.
Definition PTE_ACCESSED : Z := 0x20.
Definition PTE_DIRTY : Z := 0x40.
Definition PTE_COW : Z := 0x4000000000000000.
Definition PTE_FRAME : Z := 0x00000FFFFFFFF000.
Definition PDE_4MB : Z := 0x80.

(** ** Page tables (vmmgr_pte.c) *)

Definition pt_entry_add_attrib (e attrib : Z) : Z := Z.lor e attrib.
Definition pt_entry_del_attrib (e attrib : Z) : Z := Z.land e (u64 (Z.lnot attrib)).
Definition pt_entry_set_frame (e addr : Z) : Z := Z.lor (Z.land e (u64 (Z.lnot PTE_FRAME))) addr.
(** The tests return the [bool] enumeration, a 32-bit integer. *)
Definition pt_entry_is_present (e : Z) : Z := u32 (Z.land e PTE_PRESENT).
Definition pt_entry_is_writable (e : Z) : Z := u32 (Z.land e PTE_WRITABLE).
Definition pt_entry_pfn (e : Z) : Z := u32 (Z.land e PTE_FRAME).
Definition pt_entry_is_accessed (e : Z) : Z := u32 (Z.land e PTE_ACCESSED).
Definition pt_entry_is_user (e : Z) : Z := u32 (Z.land e PTE_USER).
Definition pt_entry_is_dirty (e : Z) : Z := u32 (Z.land e PTE_DIRTY).

(** ** Page directories (vmmgr_pde.c) *)

Definition pd_entry_add_attrib := pt_entry_add_attrib.
Definition pd_entry_del_attrib := pt_entry_del_attrib.
Definition pd_entry_set_frame := pt_entry_set_frame.
Definition pd_entry_is_present := pt_entry_is_present.
Definition pd_entry_is_writable := pt_entry_is_writable.
Definition pd_entry_pfn := pt_entry_pfn.
Definition pd_entry_is_user := pt_entry_is_user.
Definition pd_entry_is_4mb (e : Z) : Z := u32 (Z.land e PDE_4MB).

(** ** Page directory pointers (vmmgr_pdpe.c) *)

Definition pdpe_entry_add_attrib := pt_entry_add_attrib.
Definition pdpe_entry_del_attrib := pt_entry_del_attrib.
Definition pdpe_entry_set_frame := pt_entry_set_frame.
Definition pdpe_entry_is_present := pt_entry_is_present.
Definition pdpe_entry_is_writable := pt_entry_is_writable.
Definition pdpe_entry_pfn := pt_entry_pfn.
Definition pdpe_entry_is_user := pt_entry_is_user.
Definition pdpe_entry_is_4mb := pd_entry_is_4mb.

(** ** Top-level entries (vmmgr_pml4.c) *)

Definition pml4e_entry_add_attrib := pt_entry_add_attrib.
Definition pml4e_entry_del_attrib := pt_entry_del_attrib.
Definition pml4e_entry_set_frame := pt_entry_set_frame.
Definition pml4e_entry_is_present := pt_entry_is_present.
Definition pml4e_entry_is_writable := pt_entry_is_writable.
Definition pml4e_entry_pfn := pt_entry_pfn.
Definition pml4e_entry_is_user := pt_entry_is_user.
Definition pml4e_entry_is_4mb := pd_entry_is_4mb.

(** ** Installing an entry (vmmgr_virtual.c)

    [set_page_entry], [set_pml4_entry], [set_pdpe_entry], [set_pde_entry] and
    [set_pml4_entry_recurs] have one body. *)

Definition set_page_entry (e phys : Z) (is_user : bool) : Z :=
  let e := pml4e_entry_add_attrib e PTE_PRESENT in
  let e := pml4e_entry_add_attrib e PTE_WRITABLE in
  let e := if is_user then pml4e_entry_add_attrib e PTE_USER else e in
  pml4e_entry_set_frame e phys.
Definition set_pml4_entry (e pdpe_dir : Z) (is_user : bool) : Z :=
  let e := pml4e_entry_add_attrib e PTE_PRESENT in
  let e := pml4e_entry_add_attrib e PTE_WRITABLE in
  let e := if is_user then pml4e_entry_add_attrib e PTE_USER else e in
  pml4e_entry_set_frame e pdpe_dir.
Definition set_pml4_entry_recurs (e pml4_dir : Z) (is_user : bool) : Z :=
  let e := pml4e_entry_add_attrib e PTE_PRESENT in
  let e := pml4e_entry_add_attrib e PTE_WRITABLE in
  let e := if is_user then pml4e_entry_add_attrib e PTE_USER else e in
  pml4e_entry_set_frame e pml4_dir.
Definition set_pdpe_entry (e pde_dir : Z) (is_user : bool) : Z :=
  let e := pdpe_entry_add_attrib e PTE_PRESENT in
  let e := pdpe_entry_add_attrib e PTE_WRITABLE in
  let e := if is_user then pdpe_entry_add_attrib e PTE_USER else e in
  pdpe_entry_set_frame e pde_dir.
Definition set_pde_entry (e pte_dir : Z) (is_user : bool) : Z :=
  let e := pd_entry_add_attrib e PTE_PRESENT in
  let e := pd_entry_add_attrib e PTE_WRITABLE in
  let e := if is_user then pd_entry_add_attrib e PTE_USER else e in
  pd_entry_set_frame e pte_dir.

(** [#define PAGE_PHYSICAL_ADDRESS(x) ( *x & ~0xFFF0000000000FFF)] *)
Definition PAGE_PHYSICAL_ADDRESS (e : Z) : Z := Z.land e (u64 (Z.lnot 0xFFF0000000000FFF)).

Definition present (e : Z) : bool := negb (Z.land e PTE_PRESENT =? 0).

(** ** Bit-level facts *)

(** [mask lo hi]: bits [lo .. hi-1]. *)
Definition in_bits (lo hi i : Z) : bool := (lo <=? i) && (i <? hi).

Lemma mask_bits m lo hi i :
  0 <= lo <= hi -> m = Z.shiftl (Z.ones (hi - lo)) lo -> 0 <= i ->
  Z.testbit m i = in_bits lo hi i.
Proof.
  intros Hlo -> Hi. rewrite Z.shiftl_spec by lia. unfold in_bits.
  destruct (Z.leb_spec lo i); simpl.
  - rewrite Z.testbit_ones_nonneg by lia. destruct (Z.ltb_spec i hi), (Z.ltb_spec (i - lo) (hi - lo)); lia.
  - by rewrite Z.testbit_neg_r by lia.
Qed.

Lemma PTE_FRAME_bits i : 0 <= i -> Z.testbit PTE_FRAME i = in_bits 12 44 i.
Proof. by apply mask_bits. Qed.

Lemma phys_mask_bits i : 0 <= i -> Z.testbit (u64 (Z.lnot 0xFFF0000000000FFF)) i = in_bits 12 52 i.
Proof. apply mask_bits; [lia|]. by vm_compute. Qed.

Lemma frame_clear_bits i :
  0 <= i -> Z.testbit (u64 (Z.lnot PTE_FRAME)) i = (i <? 64) && negb (in_bits 12 44 i).
Proof.
  intros Hi. rewrite uwrap_testbit, Z.lnot_spec, PTE_FRAME_bits by lia. done.
Qed.

(** A page-aligned address the frame field can hold. *)
Definition frame_addr (a : Z) : Prop := 0 <= a < 2 ^ 44 /\ a mod 4096 = 0.

#[export] Instance frame_addr_dec a : Decision (frame_addr a).
Proof. unfold frame_addr. apply _. Defined.

Lemma frame_addr_bits a i : frame_addr a -> 0 <= i -> in_bits 12 44 i = false -> Z.testbit a i = false.
Proof.
  intros [Ha Hm] Hi Hb. unfold in_bits in Hb.
  destruct (Z.leb_spec 12 i); simpl in Hb.
  - rewrite <- (Z.mod_small a (2 ^ 44)) by done. apply Z.mod_pow2_bits_high.
    apply Z.ltb_ge in Hb. lia.
  - rewrite <- (Z.mod_pow2_bits_low a 12 i) by lia. change (2 ^ 12) with 4096. by rewrite Hm, Z.bits_0.
Qed.

Lemma present_bit e : present e = Z.testbit e 0.
Proof.
  unfold present. change PTE_PRESENT with (2 ^ 0).
  by rewrite pow2_land_testbit, negb_involutive by lia.
Qed.

(** Every bit of an installed entry. *)
Lemma set_page_entry_bits e a u i :
  0 <= e < 2 ^ 64 -> frame_addr a -> 0 <= i ->
  Z.testbit (set_page_entry e a u) i =
    if in_bits 12 44 i then Z.testbit a i
    else Z.testbit e i || (i =? 0) || (i =? 1) || (u && (i =? 2)).
Proof.
  intros He Ha Hi. unfold set_page_entry, pml4e_entry_add_attrib, pml4e_entry_set_frame,
    pt_entry_add_attrib, pt_entry_set_frame.
  change PTE_PRESENT with (2 ^ 0). change PTE_WRITABLE with (2 ^ 1). change PTE_USER with (2 ^ 2).
  rewrite Z.lor_spec, Z.land_spec, frame_clear_bits by lia.
  assert (Z.testbit (if u then Z.lor (Z.lor (Z.lor e (2 ^ 0)) (2 ^ 1)) (2 ^ 2)
                     else Z.lor (Z.lor e (2 ^ 0)) (2 ^ 1)) i =
          Z.testbit e i || (i =? 0) || (i =? 1) || (u && (i =? 2))) as ->.
  { destruct u; rewrite !Z.lor_spec, !pow2_testbit by lia; by rewrite ?orb_false_r. }
  destruct (in_bits 12 44 i) eqn:Hb; simpl.
  - by rewrite !andb_false_r.
  - rewrite (frame_addr_bits a i) by done.
    destruct (Z.ltb_spec i 64); simpl; rewrite ?andb_true_r, ?andb_false_r, ?orb_false_r; [done|].
    rewrite <- (Z.mod_small e (2 ^ 64)), Z.mod_pow2_bits_high by lia.
    destruct (Z.eqb_spec i 0), (Z.eqb_spec i 1), (Z.eqb_spec i 2); try lia; by rewrite ?andb_false_r.
Qed.

(** The bits the frame mask does not cover but [PAGE_PHYSICAL_ADDRESS] reads. *)
Definition frame_gap_clear (e : Z) : Prop := Z.land e 0x000FF00000000000 = 0.

Lemma frame_gap_bits e i : frame_gap_clear e -> in_bits 44 52 i = true -> Z.testbit e i = false.
Proof.
  unfold frame_gap_clear. intros H Hi. apply andb_true_iff in Hi as Hi'.
  destruct Hi' as [H1%Z.leb_le H2%Z.ltb_lt].
  assert (Z.testbit (Z.land e 0x000FF00000000000) i = false) as F by (by rewrite H, Z.bits_0).
  rewrite Z.land_spec, (mask_bits 0x000FF00000000000 44 52) in F by (done || lia).
  by rewrite Hi, andb_true_r in F.
Qed.

Definition entry_ok (e : Z) : Prop := 0 <= e < 2 ^ 64 /\ frame_gap_clear e.

#[export] Instance entry_ok_dec e : Decision (entry_ok e).
Proof. unfold entry_ok, frame_gap_clear. apply _. Defined.

Lemma set_page_entry_phys e a u :
  entry_ok e -> frame_addr a -> PAGE_PHYSICAL_ADDRESS (set_page_entry e a u) = a.
Proof.
  intros [He Hg] Ha. unfold PAGE_PHYSICAL_ADDRESS. apply Z.bits_inj'. intros i Hi.
  rewrite Z.land_spec, phys_mask_bits, set_page_entry_bits by done.
  destruct (in_bits 12 44 i) eqn:H1.
  - replace (in_bits 12 52 i) with true; [by rewrite andb_true_r|].
    unfold in_bits in *. destruct (Z.leb_spec 12 i), (Z.ltb_spec i 44), (Z.ltb_spec i 52); done || lia.
  - rewrite (frame_addr_bits a i) by done. destruct (in_bits 12 52 i) eqn:H2; [|by rewrite andb_false_r].
    rewrite andb_true_r. assert (in_bits 44 52 i = true) as H3.
    { unfold in_bits in *. destruct (Z.leb_spec 12 i), (Z.leb_spec 44 i), (Z.ltb_spec i 44), (Z.ltb_spec i 52); done || lia. }
    rewrite (frame_gap_bits e i) by done. unfold in_bits in H3.
    destruct (Z.leb_spec 44 i); [|done].
    destruct (Z.eqb_spec i 0), (Z.eqb_spec i 1), (Z.eqb_spec i 2); try lia; by rewrite ?andb_false_r.
Qed.

Lemma set_page_entry_present e a u : 0 <= e < 2 ^ 64 -> frame_addr a -> present (set_page_entry e a u) = true.
Proof.
  intros He Ha. rewrite present_bit, set_page_entry_bits by (done || lia). simpl. by rewrite orb_true_r.
Qed.

Lemma set_page_entry_ok e a u : entry_ok e -> frame_addr a -> entry_ok (set_page_entry e a u).
Proof.
  intros [He Hg] Ha. assert (0 <= set_page_entry e a u) as Hpos.
  { unfold set_page_entry, pml4e_entry_set_frame, pt_entry_set_frame. apply Z.lor_nonneg.
    split; [apply Z.land_nonneg; right; apply (uwrap_range 64); lia|destruct Ha; lia]. }
  split; [split; [done|]|].
  - apply bits_below; [lia|done|]. intros i Hi. rewrite set_page_entry_bits by (done || lia).
    replace (in_bits 12 44 i) with false.
    2:{ unfold in_bits. destruct (Z.ltb_spec i 44); [lia|]. by rewrite andb_false_r. }
    rewrite <- (Z.mod_small e (2 ^ 64)), Z.mod_pow2_bits_high by lia.
    destruct (Z.eqb_spec i 0), (Z.eqb_spec i 1), (Z.eqb_spec i 2); try lia; by rewrite ?andb_false_r.
  - unfold frame_gap_clear. apply Z.bits_inj'. intros i Hi.
    rewrite Z.land_spec, Z.bits_0, (mask_bits 0x000FF00000000000 44 52) by (done || lia).
    destruct (in_bits 44 52 i) eqn:Hb; [|by rewrite andb_false_r].
    rewrite set_page_entry_bits by (done || lia).
    rewrite (frame_gap_bits e i) by done. unfold in_bits in *.
    destruct (Z.leb_spec 44 i); [|done].
    destruct (Z.ltb_spec i 44); [lia|]. rewrite andb_false_r. simpl.
    destruct (Z.eqb_spec i 0), (Z.eqb_spec i 1), (Z.eqb_spec i 2); try lia; by rewrite ?andb_false_r.
Qed.

(** Installing an entry over any old one makes it present, writable and
    (when asked) user-accessible, points it at the given frame, and keeps every
    other bit of the old entry: in particular a copy-on-write mark stays. *)
Theorem set_page_entry_spec e a u :
  entry_ok e -> frame_addr a ->
  let e' := set_page_entry e a u in
  PAGE_PHYSICAL_ADDRESS e' = a /\ present e' = true /\ Z.testbit e' 1 = true /\
  Z.testbit e' 2 = Z.testbit e 2 || u /\
  (forall i, 3 <= i < 12 \/ 52 <= i -> Z.testbit e' i = Z.testbit e i) /\
  Z.testbit e' 62 = Z.testbit e 62.
Proof.
  intros He Ha e'. subst e'. pose proof He as [He1 _].
  assert (forall i, 3 <= i < 12 \/ 52 <= i ->
    Z.testbit (set_page_entry e a u) i = Z.testbit e i) as Hkeep.
  { intros i Hi. rewrite set_page_entry_bits by (done || lia).
    replace (in_bits 12 44 i) with false.
    - destruct (Z.eqb_spec i 0), (Z.eqb_spec i 1), (Z.eqb_spec i 2); try lia.
      by rewrite ?andb_false_r, ?orb_false_r.
    - unfold in_bits. destruct (Z.leb_spec 12 i), (Z.ltb_spec i 44); done || lia. }
  split_and!; [by apply set_page_entry_phys|by apply set_page_entry_present| | |done|apply Hkeep; lia].
  - rewrite set_page_entry_bits by (done || lia). simpl. by rewrite orb_true_r.
  - rewrite set_page_entry_bits by (done || lia). simpl. by rewrite andb_true_r, !orb_false_r.
Qed.

Example set_page_entry_spec_witness :
  let e' := set_page_entry 0x4000000000007025 0x9000 false in
  e' = 0x4000000000009027 /\ PAGE_PHYSICAL_ADDRESS e' = 0x9000 /\ present e' = true.
Proof.
  destruct (set_page_entry_spec 0x4000000000007025 0x9000 false) as (H1 & H2 & _);
    [by_computation|by_computation|].
  split; [vm_compute; reflexivity|]. split; [exact H1|exact H2].
Defined.
