(* ===== verification/Paging.v ===== *)
(** * Virtual memory manager (sys/mm/vmmgr_virtual.c)

    The four-level page tables: building them through physical addresses while
    the loader's mapping is active ([vmmgr_map_page]), and through the
    recursive slot 510 afterwards ([vmmgr_map_page_after_paging]); the bump
    allocator of kernel virtual pages. *)

From S2P Require Import Prelude Bitmap PhysMem PageEntry.

(** ** Constants and index macros *)

Definition RECURSIVE_ENTRY : Z := 0xFFFFFF7FBFDFE000.
Definition RECURSIVE_PAGE_TABLE_ENTRY : Z := 0xFFFFFF0000000000.
Definition RECURSIVE_PAGE_DIRECTORY_ENTRY : Z := 0xFFFFFF7F80000000.
Definition RECURSIVE_PAGE_POINTER_ENTRY : Z := 0xFFFFFF7fBFC00000.
Definition VIRT_PAGE_SIZE : Z := 4096.
Definition virt_base : Z := 0xFFFFFFFF80000000.

Definition PAGE_TABLE_OFFSET (x : Z) : Z := Z.land (Z.shiftr x 12) 0x1FF.
Definition PAGE_DIRECTORY_OFFSET (x : Z) : Z := Z.land (Z.shiftr x 21) 0x1FF.
Definition PAGE_POINTER_OFFSET (x : Z) : Z := Z.land (Z.shiftr x 30) 0x1FF.
Definition PAGE_PML4_OFFSET (x : Z) : Z := Z.land (Z.shiftr x 39) 0x1FF.

(** ** State *)

(** [mem] maps the physical address of an aligned 64-bit word to its value;
    [frames] is the frame bitmap; [cr3] the physical address of the active
    top-level table. *)
Record vmm := Vmm {
  mem : Z -> Z;
  frames : bitmap;
  cr3 : Z;
  cur_pml4_directory : Z;
  cur_pml4_base_pointer : Z;
  bump_addr : Z;
  prev_no_pages : Z;
  bump_start : Z;
  kernel_pgd : Z
}.

Definition with_mem (st : vmm) (m : Z -> Z) : vmm :=
  Vmm m (frames st) (cr3 st) (cur_pml4_directory st) (cur_pml4_base_pointer st)
      (bump_addr st) (prev_no_pages st) (bump_start st) (kernel_pgd st).
Definition with_frames (st : vmm) (f : bitmap) : vmm :=
  Vmm (mem st) f (cr3 st) (cur_pml4_directory st) (cur_pml4_base_pointer st)
      (bump_addr st) (prev_no_pages st) (bump_start st) (kernel_pgd st).
Definition with_bump (st : vmm) (b p : Z) : vmm :=
  Vmm (mem st) (frames st) (cr3 st) (cur_pml4_directory st) (cur_pml4_base_pointer st)
      b p (bump_start st) (kernel_pgd st).
Definition with_base (st : vmm) (p : Z) : vmm :=
  Vmm (mem st) (frames st) (cr3 st) (cur_pml4_directory st) p
      (bump_addr st) (prev_no_pages st) (bump_start st) (kernel_pgd st).
Definition with_kernel_pgd (st : vmm) (p : Z) : vmm :=
  Vmm (mem st) (frames st) (cr3 st) (cur_pml4_directory st) (cur_pml4_base_pointer st)
      (bump_addr st) (prev_no_pages st) (bump_start st) p.
Definition with_bump_start (st : vmm) (p : Z) : vmm :=
  Vmm (mem st) (frames st) (cr3 st) (cur_pml4_directory st) (cur_pml4_base_pointer st)
      (bump_addr st) (prev_no_pages st) p (kernel_pgd st).

Definition mem_set (m : Z -> Z) (a v : Z) : Z -> Z := fun x => if x =? a then v else m x.
Definition mem_zero (m : Z -> Z) (a n : Z) : Z -> Z :=
  fun x => if (a <=? x) && (x <? a + n) then 0 else m x.

(** ** Lookups through table pointers *)

Definition vmmgr_ptable_lookup_entry (p addr : Z) : Z :=
  if p =? 0 then 0 else p + 8 * PAGE_TABLE_OFFSET addr.
Definition vmmgr_page_directory_lookup_entry (p addr : Z) : Z :=
  if p =? 0 then 0 else p + 8 * PAGE_DIRECTORY_OFFSET addr.
Definition vmmgr_page_pointer_directory_lookup_entry (p addr : Z) : Z :=
  if p =? 0 then 0 else p + 8 * PAGE_POINTER_OFFSET addr.
Definition vmmgr_pml4_directory_lookup_entry (p addr : Z) : Z :=
  if p =? 0 then 0 else p + 8 * PAGE_PML4_OFFSET addr.

Definition vmmgr_switch_pml4_directory (st : vmm) (p : Z) : outcome vmm :=
  if p =? 0 then Panic else
  Ret (Vmm (mem st) (frames st) p p (cur_pml4_base_pointer st)
           (bump_addr st) (prev_no_pages st) (bump_start st) (kernel_pgd st)).

Definition vmmgr_get_current_pml4_directory (st : vmm) : Z := cur_pml4_directory st.

Definition init_bump_addr (st : vmm) (kphysfree : Z) : vmm :=
  with_bump st (u64 (virt_base + kphysfree)) (prev_no_pages st).

Definition vmmgr_alloc_page (st : vmm) (page : Z) : vmm * Z :=
  let a := u64 (bump_addr st + VIRT_PAGE_SIZE + VIRT_PAGE_SIZE * prev_no_pages st) in
  (with_bump st a (u16 page), a).

(** ** Building the tables before paging *)

(** Dereference of an entry pointer. *)
Definition load (st : vmm) (p : Z) : outcome Z := if p =? 0 then Undef else Ret (mem st p).
Definition store (st : vmm) (p v : Z) : outcome vmm :=
  if p =? 0 then Undef else Ret (with_mem st (mem_set (mem st) p v)).

(** [if (!( *e & PRESENT)) { dir = mmgr_alloc_block(); memset(dir, 0, n);
     if (!dir) PANIC; set_entry(e, dir, 0); }] *)
Definition ensure_table (set_entry : Z -> Z -> bool -> Z) (n : Z) (st : vmm) (e : Z) : outcome vmm :=
  v ← load st e;
  if present v then Ret st else
  r ← alloc_block (frames st);
  let st := with_frames st r.1 in
  let dir := r.2 in
  let st := with_mem st (mem_zero (mem st) dir n) in
  if dir =? 0 then Panic else
  v ← load st e;
  store st e (set_entry v dir false).

(** [sizeof(pdpe)] and [sizeof(pde)] are 4096; [sizeof(pte_dir)] is the size of
    the pointer. *)
Definition vmmgr_map_page (st : vmm) (phys virt : Z) : outcome vmm :=
  let e := vmmgr_pml4_directory_lookup_entry (cur_pml4_base_pointer st) virt in
  st ← ensure_table set_pml4_entry 4096 st e;
  v ← load st e;
  let e := vmmgr_page_pointer_directory_lookup_entry (PAGE_PHYSICAL_ADDRESS v) virt in
  st ← ensure_table set_pdpe_entry 4096 st e;
  v ← load st e;
  let e := vmmgr_page_directory_lookup_entry (PAGE_PHYSICAL_ADDRESS v) virt in
  st ← ensure_table set_pde_entry 8 st e;
  v ← load st e;
  let page := vmmgr_ptable_lookup_entry (PAGE_PHYSICAL_ADDRESS v) virt in
  v ← load st page;
  store st page
    (pt_entry_add_attrib (pt_entry_add_attrib (pt_entry_set_frame v phys) PTE_PRESENT) PTE_WRITABLE).

(** ** The hardware's translation *)

Definition walk (m : Z -> Z) (table idx : Z) : option Z :=
  let e := m (table + 8 * idx) in
  if present e then Some (PAGE_PHYSICAL_ADDRESS e) else None.

Definition translate (m : Z -> Z) (root va : Z) : option Z :=
  t3 ← walk m root (PAGE_PML4_OFFSET va);
  t2 ← walk m t3 (PAGE_POINTER_OFFSET va);
  t1 ← walk m t2 (PAGE_DIRECTORY_OFFSET va);
  f ← walk m t1 (PAGE_TABLE_OFFSET va);
  Some (f + Z.land va 0xFFF).

(** ** Entry addresses through the recursive slot *)

Definition get_pml4e_offset_recurse (virt : Z) : Z :=
  u64 (RECURSIVE_ENTRY + 8 * PAGE_PML4_OFFSET virt).

Definition get_pdpe_offset_recurse (virt : Z) : Z :=
  let pdpe_offset := Z.shiftr RECURSIVE_PAGE_POINTER_ENTRY 12 + PAGE_PML4_OFFSET virt in
  u64 (u64 (Z.shiftl pdpe_offset 12) + 8 * PAGE_POINTER_OFFSET virt).

Definition get_pde_offset_recurse (virt : Z) : Z :=
  let pde_offset := Z.shiftr RECURSIVE_PAGE_DIRECTORY_ENTRY 21 + PAGE_PML4_OFFSET virt in
  let pde_offset := u64 (Z.shiftl pde_offset 21) in
  let pde_offset := Z.shiftr pde_offset 12 + PAGE_POINTER_OFFSET virt in
  u64 (u64 (Z.shiftl pde_offset 12) + 8 * PAGE_DIRECTORY_OFFSET virt).

Definition get_pte_recurse (virt : Z) : Z :=
  let pte_offset := Z.shiftr RECURSIVE_PAGE_TABLE_ENTRY 30 + PAGE_PML4_OFFSET virt in
  let pte_offset := u64 (Z.shiftl pte_offset 30) in
  let pte_offset := Z.shiftr pte_offset 21 + PAGE_POINTER_OFFSET virt in
  let pte_offset := u64 (Z.shiftl pte_offset 21) in
  let pte_offset := Z.shiftr pte_offset 12 + PAGE_DIRECTORY_OFFSET virt in
  u64 (u64 (Z.shiftl pte_offset 12) + 8 * PAGE_TABLE_OFFSET virt).

(** ** Accesses after paging *)

(** A fault on a kernel access is not recovered from. *)
Definition vload (st : vmm) (va : Z) : outcome Z :=
  match translate (mem st) (cr3 st) va with
  | Some pa => Ret (mem st pa)
  | None => Undef
  end.
Definition vstore (st : vmm) (va v : Z) : outcome vmm :=
  match translate (mem st) (cr3 st) va with
  | Some pa => Ret (with_mem st (mem_set (mem st) pa v))
  | None => Undef
  end.

(** [memset(p, 0, n)], a word at a time. *)
Definition vzero (st : vmm) (va n : Z) : outcome vmm :=
  for_loop (Z.to_nat (n / 8)) 0 (fun k st => vstore st (u64 (va + 8 * k)) 0) st.

Definition set_phys_virt_recurse (st : vmm) (phys virt : Z) (is_user : bool) : outcome vmm :=
  let e := get_pte_recurse virt in
  v ← vload st e;
  vstore st e (set_page_entry v phys is_user).

(** [set_entry(p, phys, is_user)] through a virtual pointer. *)
Definition vset_entry (set_entry : Z -> Z -> bool -> Z) (st : vmm) (p phys : Z) (is_user : bool) : outcome vmm :=
  v ← vload st p;
  vstore st p (set_entry v phys is_user).

(** [dir = sub_malloc(0,1); memset(dir, 0, n); if (!dir) PANIC]; with a nonzero
    second argument [sub_malloc] is [vmmgr_alloc_page]. *)
Definition new_table (n : Z) (st : vmm) : outcome (vmm * Z) :=
  let r := vmmgr_alloc_page st 0 in
  st ← vzero r.1 r.2 n;
  if r.2 =? 0 then Panic else Ret (st, r.2).

Definition ensure_table_after (set_entry : Z -> Z -> bool -> Z) (n : Z)
    (st : vmm) (e : Z) (is_user : bool) : outcome vmm :=
  v ← vload st e;
  if present v then Ret st else
  r ← new_table n st;
  vset_entry set_entry r.1 e (u64 (r.2 - virt_base)) is_user.

Definition vmmgr_map_page_after_paging (st : vmm) (phys virt : Z) (is_user : bool) : outcome vmm :=
  st ← ensure_table_after set_pml4_entry 4096 st (get_pml4e_offset_recurse virt) is_user;
  st ← ensure_table_after set_pdpe_entry 4096 st (get_pdpe_offset_recurse virt) is_user;
  st ← ensure_table_after set_pde_entry 8 st (get_pde_offset_recurse virt) is_user;
  set_phys_virt_recurse st phys virt is_user.

(** ** Directories of processes *)

(** [cpml4[510] = ((uint64_t)cpml4 - virt_base) | PTE_USER | PTE_PRESENT | PTE_WRITABLE],
    in two assignments. *)
Definition clone_pgdir (st : vmm) (parent_pml4 child_pml4 : Z) : outcome vmm :=
  st ← for_loop 512 0 (fun i st =>
         v ← vload st (u64 (parent_pml4 + 8 * i));
         vstore st (u64 (child_pml4 + 8 * i)) v) st;
  st ← vstore st (u64 (child_pml4 + 8 * 510)) (u64 (child_pml4 - virt_base));
  v ← vload st (u64 (child_pml4 + 8 * 510));
  vstore st (u64 (child_pml4 + 8 * 510)) (Z.lor (Z.lor (Z.lor v PTE_USER) PTE_PRESENT) PTE_WRITABLE).

(** [for (i = 0; p[i] != NULL; i++)] with a 16-bit counter: a table with no null
    entry within the counter's range keeps the loop going. *)
Fixpoint for_nonnull (n : nat) (p i : Z) (body : Z -> vmm -> outcome vmm) (st : vmm) : outcome vmm :=
  match n with
  | O => Loops
  | S n =>
    v ← vload st (u64 (p + 8 * i));
    if v =? 0 then Ret st else body i st ≫= for_nonnull n p (u16 (i + 1)) body
  end.

Definition COUNTER_RANGE : nat := Z.to_nat 65536.

(** The table an entry points at, in the kernel's window. *)
Definition entry_window (st : vmm) (p : Z) : outcome Z :=
  v ← vload st p;
  Ret (u64 (PAGE_PHYSICAL_ADDRESS v + virt_base)).

Definition vmodify (f : Z -> Z) (p : Z) (st : vmm) : outcome vmm :=
  v ← vload st p;
  vstore st p (f v).

(** The loop that marks a page table and its copy read-only, copy-on-write. *)
Definition cow_tables (pte_dir pg : Z) (st : vmm) : outcome vmm :=
  for_loop 512 0 (fun l st =>
    let c := u64 (pte_dir + 8 * l) in
    let p := u64 (pg + 8 * l) in
    st ← vmodify (fun e => pt_entry_del_attrib e PTE_WRITABLE) c st;
    st ← vmodify (fun e => pt_entry_del_attrib e PTE_WRITABLE) p st;
    st ← vmodify (fun e => pt_entry_add_attrib e PTE_COW) p st;
    vmodify (fun e => pt_entry_add_attrib e PTE_COW) c st) st.

(** [memcpy(dst, src, 4096)] of two aligned pages, a word at a time. *)
Definition vcopy_page (dst src : Z) (st : vmm) : outcome vmm :=
  for_loop 512 0 (fun k st =>
    v ← vload st (u64 (src + 8 * k));
    vstore st (u64 (dst + 8 * k)) v) st.

(** One entry of a page directory: a fresh page table, filled from the
    parent's. *)
Definition copy_pd_entry (pd pde_dir k : Z) (is_user : bool) (st : vmm) : outcome vmm :=
  v ← vload st (u64 (pd + 8 * k));
  if v =? 0 then Ret st else
  r ← new_table 8 st;
  st ← vset_entry set_pde_entry r.1 (u64 (pde_dir + 8 * k)) (u64 (r.2 - virt_base)) is_user;
  src ← entry_window st (u64 (pd + 8 * k));
  st ← vcopy_page r.2 src st;
  pg ← entry_window st (u64 (pd + 8 * k));
  cow_tables r.2 pg st.

Definition copy_pdpe_entry (ppdpe pdpe_dir j : Z) (is_user : bool) (st : vmm) : outcome vmm :=
  r ← new_table 4096 st;
  st ← vset_entry set_pdpe_entry r.1 (u64 (pdpe_dir + 8 * j)) (u64 (r.2 - virt_base)) is_user;
  pd ← entry_window st (u64 (ppdpe + 8 * j));
  for_loop 512 0 (fun k => copy_pd_entry pd r.2 k is_user) st.

Definition copy_page_table (parent_pml4 child_pml4 : Z) (is_user : bool) (st : vmm) : outcome vmm :=
  for_nonnull COUNTER_RANGE parent_pml4 0 (fun i st =>
    r ← new_table 4096 st;
    st ← vset_entry set_pml4_entry r.1 (u64 (child_pml4 + 8 * i)) (u64 (r.2 - virt_base)) is_user;
    ppdpe ← entry_window st (u64 (parent_pml4 + 8 * i));
    for_nonnull COUNTER_RANGE ppdpe 0 (fun j => copy_pdpe_entry ppdpe r.2 j is_user) st) st.

Definition clear_pd_entry (pd k : Z) (st : vmm) : outcome vmm :=
  v ← vload st (u64 (pd + 8 * k));
  if v =? 0 then Ret st else
  pg ← entry_window st (u64 (pd + 8 * k));
  st ← vzero st pg VIRT_PAGE_SIZE;
  vstore st (u64 (pd + 8 * k)) 0.

Definition clear_page_tables (parent_pml4 : Z) (st : vmm) : outcome vmm :=
  for_nonnull COUNTER_RANGE parent_pml4 0 (fun i st =>
    ppdpe ← entry_window st (u64 (parent_pml4 + 8 * i));
    st ← vstore st (u64 (parent_pml4 + 8 * i)) 0;
    for_nonnull COUNTER_RANGE ppdpe 0 (fun j st =>
      pd ← entry_window st (u64 (ppdpe + 8 * j));
      st ← vstore st (u64 (ppdpe + 8 * j)) 0;
      for_loop 512 0 (clear_pd_entry pd) st) st) st.

(** ** Start-up *)

Definition PAGES_PER_TABLE : Z := 512.

(** [i]-th page of the kernel's window. *)
Definition map_kernel_page (physbase i : Z) (st : vmm) : outcome vmm :=
  vmmgr_map_page st (0x200000 + i * BLOCK_SIZE) (u64 (virt_base + physbase + i * VIRT_PAGE_SIZE)).

(** The rest of [vmmgr_init] once the kernel is mapped. *)
Definition activate_tables (st : vmm) (pml4table kphysfree : Z) : outcome vmm :=
  st ← vmmgr_map_page st 0xB8000 0xFFFFFFFF80100000;
  st ← vmmgr_map_page st pml4table 0xFFFFFF7FBFDFE000;
  let st := with_kernel_pgd st 0xFFFFFF7FBFDFE000 in
  st ← vmmgr_switch_pml4_directory st pml4table;
  f ← mmgr_syncwith_kernel (frames st);
  let st := init_bump_addr (with_frames st f) kphysfree in
  Ret (with_bump_start st (bump_addr st)).

(** [physbase] and [kphysfree] come from the linker script and the loader. *)
Definition vmmgr_init (st : vmm) (physbase kphysfree : Z) : outcome vmm :=
  r ← alloc_block (frames st);
  let pml4table := r.2 in
  let st := with_frames st r.1 in
  if pml4table =? 0 then Panic else
  let st := with_mem st (mem_zero (mem st) pml4table 4096) in
  let e := pml4table + 8 * 0x1FE in
  v ← load st e;
  st ← store st e (set_pml4_entry_recurs v pml4table false);
  let st := with_base st pml4table in
  st ← for_loop (Z.to_nat PAGES_PER_TABLE) 0 (map_kernel_page physbase) st;
  st ← for_loop (Z.to_nat (MY_KERNEL_SIZE / 2 * PAGES_PER_TABLE)) PAGES_PER_TABLE
         (map_kernel_page physbase) st;
  activate_tables st pml4table kphysfree.

(** ** Index arithmetic *)

Lemma land_511 x : Z.land x 0x1FF = x mod 512.
Proof. change 0x1FF with (Z.ones 9). by rewrite Z.land_ones. Qed.

Lemma PML4_OFFSET_eq x : PAGE_PML4_OFFSET x = (x / 2 ^ 39) mod 512.
Proof. unfold PAGE_PML4_OFFSET. by rewrite land_511, Z.shiftr_div_pow2. Qed.
Lemma POINTER_OFFSET_eq x : PAGE_POINTER_OFFSET x = (x / 2 ^ 30) mod 512.
Proof. unfold PAGE_POINTER_OFFSET. by rewrite land_511, Z.shiftr_div_pow2. Qed.
Lemma DIRECTORY_OFFSET_eq x : PAGE_DIRECTORY_OFFSET x = (x / 2 ^ 21) mod 512.
Proof. unfold PAGE_DIRECTORY_OFFSET. by rewrite land_511, Z.shiftr_div_pow2. Qed.
Lemma TABLE_OFFSET_eq x : PAGE_TABLE_OFFSET x = (x / 2 ^ 12) mod 512.
Proof. unfold PAGE_TABLE_OFFSET. by rewrite land_511, Z.shiftr_div_pow2. Qed.

Create Rewrite HintDb offsets.
#[export] Hint Rewrite PML4_OFFSET_eq POINTER_OFFSET_eq DIRECTORY_OFFSET_eq TABLE_OFFSET_eq : offsets.

(** The four indices of any address are below 512. *)
Lemma offsets_range x :
  0 <= PAGE_PML4_OFFSET x < 512 /\ 0 <= PAGE_POINTER_OFFSET x < 512 /\
  0 <= PAGE_DIRECTORY_OFFSET x < 512 /\ 0 <= PAGE_TABLE_OFFSET x < 512.
Proof. autorewrite with offsets. split_and!; apply Z.mod_pos_bound; lia. Qed.

(** The upper-half address with given indices and page offset. *)
Definition compose (p q r s o : Z) : Z :=
  0xFFFF000000000000 + p * 2 ^ 39 + q * 2 ^ 30 + r * 2 ^ 21 + s * 2 ^ 12 + o.

(** [x = hi * k + lo] with [lo] below [k], and [hi = 512 * a + b]. *)
Lemma index_of x k hi lo a b :
  x = hi * k + lo -> 0 <= lo < k -> hi = 512 * a + b -> 0 <= b < 512 -> (x / k) mod 512 = b.
Proof.
  intros -> Hlo -> Hb. rewrite Z.div_add_l, (Z.div_small lo) by lia.
  rewrite Z.add_0_r, Z.add_comm, Z.mul_comm, Z_mod_plus_full. by apply Z.mod_small.
Qed.

Lemma compose_offsets p q r s o :
  0 <= p < 512 -> 0 <= q < 512 -> 0 <= r < 512 -> 0 <= s < 512 -> 0 <= o < 4096 ->
  let x := compose p q r s o in
  PAGE_PML4_OFFSET x = p /\ PAGE_POINTER_OFFSET x = q /\ PAGE_DIRECTORY_OFFSET x = r /\
  PAGE_TABLE_OFFSET x = s /\ Z.land x 0xFFF = o.
Proof.
  intros Hp Hq Hr Hs Ho x. subst x. autorewrite with offsets. unfold compose. split_and!.
  - apply index_of with (hi := 0x1FFFE00 + p) (lo := q * 2 ^ 30 + r * 2 ^ 21 + s * 2 ^ 12 + o)
      (a := 0xFFFF); lia.
  - apply index_of with (hi := 0x3FFFC0000 + 512 * p + q) (lo := r * 2 ^ 21 + s * 2 ^ 12 + o)
      (a := 0x1FFFE00 + p); lia.
  - apply index_of with (hi := 0x7FFF8000000 + 2 ^ 18 * p + 512 * q + r) (lo := s * 2 ^ 12 + o)
      (a := 0x3FFFC0000 + 512 * p + q); lia.
  - apply index_of with (hi := 0xFFFF000000000 + 2 ^ 27 * p + 2 ^ 18 * q + 512 * r + s) (lo := o)
      (a := 0x7FFF8000000 + 2 ^ 18 * p + 512 * q + r); lia.
  - change 0xFFF with (Z.ones 12). rewrite Z.land_ones by lia.
    symmetry. apply Z.mod_unique_pos
      with (0xFFFF000000000 + 2 ^ 27 * p + 2 ^ 18 * q + 512 * r + s); lia.
Qed.

Lemma get_pml4e_compose v : get_pml4e_offset_recurse v = compose 510 510 510 510 (8 * PAGE_PML4_OFFSET v).
Proof.
  pose proof (offsets_range v). unfold get_pml4e_offset_recurse, RECURSIVE_ENTRY, compose.
  rewrite uwrap_small; lia.
Qed.

Lemma get_pdpe_compose v :
  get_pdpe_offset_recurse v = compose 510 510 510 (PAGE_PML4_OFFSET v) (8 * PAGE_POINTER_OFFSET v).
Proof.
  pose proof (offsets_range v). unfold get_pdpe_offset_recurse, compose.
  change (Z.shiftr RECURSIVE_PAGE_POINTER_ENTRY 12) with 0xFFFFFF7fBFC00.
  rewrite Z.shiftl_mul_pow2 by lia.
  rewrite (uwrap_small 64 ((_ + _) * 2 ^ 12)) by lia. rewrite uwrap_small; lia.
Qed.

(** A shifted sum whose lower part is a multiple of the unit. *)
Lemma shift_div a k j : 0 <= j <= k -> a * 2 ^ k / 2 ^ j = a * 2 ^ (k - j).
Proof.
  intros. replace (2 ^ k) with (2 ^ (k - j) * 2 ^ j) by (rewrite <- Z.pow_add_r by lia; f_equal; lia).
  rewrite Z.mul_assoc. apply Z.div_mul. apply Z.pow_nonzero; lia.
Qed.

Lemma get_pde_compose v :
  get_pde_offset_recurse v =
    compose 510 510 (PAGE_PML4_OFFSET v) (PAGE_POINTER_OFFSET v) (8 * PAGE_DIRECTORY_OFFSET v).
Proof.
  pose proof (offsets_range v). unfold get_pde_offset_recurse, compose.
  change (Z.shiftr RECURSIVE_PAGE_DIRECTORY_ENTRY 21) with 0x7FFFFFBFC00.
  rewrite !Z.shiftl_mul_pow2, !Z.shiftr_div_pow2 by lia.
  rewrite (uwrap_small 64 ((_ + PAGE_PML4_OFFSET v) * 2 ^ 21)) by lia.
  rewrite shift_div by lia.
  rewrite (uwrap_small 64 ((_ + PAGE_POINTER_OFFSET v) * 2 ^ 12)) by lia. rewrite uwrap_small; lia.
Qed.

Lemma get_pte_compose v :
  get_pte_recurse v =
    compose 510 (PAGE_PML4_OFFSET v) (PAGE_POINTER_OFFSET v) (PAGE_DIRECTORY_OFFSET v)
            (8 * PAGE_TABLE_OFFSET v).
Proof.
  pose proof (offsets_range v). unfold get_pte_recurse, compose.
  change (Z.shiftr RECURSIVE_PAGE_TABLE_ENTRY 30) with 0x3FFFFFC00.
  rewrite !Z.shiftl_mul_pow2, !Z.shiftr_div_pow2 by lia.
  rewrite (uwrap_small 64 ((_ + PAGE_PML4_OFFSET v) * 2 ^ 30)) by lia.
  rewrite shift_div by lia.
  rewrite (uwrap_small 64 ((_ + PAGE_POINTER_OFFSET v) * 2 ^ 21)) by lia.
  rewrite shift_div by lia.
  rewrite (uwrap_small 64 ((_ + PAGE_DIRECTORY_OFFSET v) * 2 ^ 12)) by lia. rewrite uwrap_small; lia.
Qed.

(** Translation of a composed address, step by step. *)
Lemma translate_compose m root p q r s o t3 t2 t1 f :
  0 <= p < 512 -> 0 <= q < 512 -> 0 <= r < 512 -> 0 <= s < 512 -> 0 <= o < 4096 ->
  walk m root p = Some t3 -> walk m t3 q = Some t2 -> walk m t2 r = Some t1 ->
  walk m t1 s = Some f -> translate m root (compose p q r s o) = Some (f + o).
Proof.
  intros Hp Hq Hr Hs Ho W1 W2 W3 W4. unfold translate.
  destruct (compose_offsets p q r s o Hp Hq Hr Hs Ho) as (-> & -> & -> & -> & ->).
  by rewrite W1; simpl; rewrite W2; simpl; rewrite W3; simpl; rewrite W4.
Qed.

(** With the top-level table's slot 510 pointing back at the table, the
    virtual addresses the four [get_*_recurse] functions compute for any
    address [v] are exactly those at which the processor finds the entries of
    [v]'s own walk: the top-level entry, and each lower entry whose table is
    present. *)
Theorem recursive_slot_addresses m root v t3 t2 t1 :
  walk m root 510 = Some root ->
  translate m root (get_pml4e_offset_recurse v) = Some (root + 8 * PAGE_PML4_OFFSET v) /\
  (walk m root (PAGE_PML4_OFFSET v) = Some t3 ->
   translate m root (get_pdpe_offset_recurse v) = Some (t3 + 8 * PAGE_POINTER_OFFSET v) /\
   (walk m t3 (PAGE_POINTER_OFFSET v) = Some t2 ->
    translate m root (get_pde_offset_recurse v) = Some (t2 + 8 * PAGE_DIRECTORY_OFFSET v) /\
    (walk m t2 (PAGE_DIRECTORY_OFFSET v) = Some t1 ->
     translate m root (get_pte_recurse v) = Some (t1 + 8 * PAGE_TABLE_OFFSET v)))).
Proof.
  intros W. pose proof (offsets_range v). split.
  { rewrite get_pml4e_compose. eapply translate_compose; (done || lia). }
  intros W3. split.
  { rewrite get_pdpe_compose. eapply translate_compose; (done || lia). }
  intros W2. split.
  { rewrite get_pde_compose. eapply translate_compose; (done || lia). }
  intros W1. rewrite get_pte_compose. eapply translate_compose; (done || lia).
Qed.

Definition demo_mem : Z -> Z :=
  mem_set (mem_set (mem_set (mem_set (fun _ => 0) (0x1000 + 8 * 510) 0x1003)
    (0x1000 + 8 * 511) 0x2003) (0x2000 + 8 * 510) 0x3003) (0x3000 + 8 * 1) 0x4003.

Example recursive_slot_addresses_witness :
  translate demo_mem 0x1000 (get_pml4e_offset_recurse 0xFFFFFFFF80200000) = Some (0x1000 + 8 * 511) /\
  translate demo_mem 0x1000 (get_pte_recurse 0xFFFFFFFF80205000) = Some (0x4000 + 8 * 5).
Proof.
  split.
  - exact (proj1 (recursive_slot_addresses demo_mem 0x1000 0xFFFFFFFF80200000 0 0 0 eq_refl)).
  - destruct (recursive_slot_addresses demo_mem 0x1000 0xFFFFFFFF80205000 0x2000 0x3000 0x4000
      eq_refl) as [_ H].
    destruct (H eq_refl) as [_ H2]. destruct (H2 eq_refl) as [_ H3]. exact (H3 eq_refl).
Defined.
