(* ===== verification/MapPage.v ===== *)
(** * Correctness of the page-table construction (sys/mm/vmmgr_virtual.c)

    [vmmgr_map_page] and [vmmgr_init] of Paging.v against the processor's
    translation.  The invariant assigns a level to every table frame; the
    bump allocator's pages are shown disjoint at the end. *)

From S2P Require Import Prelude Bitmap PhysMem PageEntry Paging.

(** ** Table trees *)

Definition root (st : vmm) : Z := cur_pml4_base_pointer st.

(** The word of entry [i] of the table at [t]. *)
Definition slot (m : Z -> Z) (t i : Z) : Z := m (t + 8 * i).

(** An entry that the tree follows: not a leaf's, not the recursive one. *)
Definition branch (lev : Z -> Z) (st : vmm) (t i : Z) : Prop :=
  2 <= lev t /\ 0 <= i < 512 /\ ~ (t = root st /\ i = 510) /\ present (slot (mem st) t i) = true.

(** [lev t] is 4 for the top-level table, 3, 2 and 1 below, 0 for a frame that
    is no table. *)
Record tree (lev : Z -> Z) (st : vmm) : Prop := {
  tree_frames : wf (frames st);
  tree_root : lev (root st) = 4;
  tree_held : forall t, 0 < lev t -> held (frames st) t;
  tree_words : forall a, entry_ok (mem st a);
  tree_child : forall t i, branch lev st t i ->
    lev (PAGE_PHYSICAL_ADDRESS (slot (mem st) t i)) = lev t - 1;
  tree_inj : forall t i t' i', branch lev st t i -> branch lev st t' i' ->
    PAGE_PHYSICAL_ADDRESS (slot (mem st) t i) = PAGE_PHYSICAL_ADDRESS (slot (mem st) t' i') ->
    t = t' /\ i = i';
  tree_recursive : walk (mem st) (root st) 510 = Some (root st)
}.

(** ** Arithmetic of slots *)

Lemma held_frame b p : wf b -> held b p -> frame_addr p /\ 0 < p /\ exists k, p = k * 4096.
Proof.
  intros (_ & _ & H1 & H2) (k & -> & Hk & _). unfold frame_addr, words_in_use, BLOCK_SIZE in *.
  split_and!; [lia|lia|apply Z_mod_mult|lia|by exists k].
Qed.

(** Slots of two table frames coincide only when they are the same slot. *)
Lemma slot_inj b t t' i i' :
  wf b -> held b t -> held b t' -> 0 <= i < 512 -> 0 <= i' < 512 ->
  t + 8 * i = t' + 8 * i' -> t = t' /\ i = i'.
Proof.
  intros Hb (_ & _ & k & ->)%held_frame (_ & _ & k' & ->)%held_frame Hi Hi' E; [|done..].
  assert (k = k') by lia. lia.
Qed.

Lemma slot_mem_set b m t t' i i' v :
  wf b -> held b t -> held b t' -> 0 <= i < 512 -> 0 <= i' < 512 ->
  slot (mem_set m (t + 8 * i) v) t' i' =
    if decide (t' = t /\ i' = i) then v else slot m t' i'.
Proof.
  intros Hb Ht Ht' Hi Hi'. unfold slot, mem_set. destruct (Z.eqb_spec (t' + 8 * i') (t + 8 * i)) as [E|E].
  - apply (slot_inj b) in E as [-> ->]; [|done..]. by rewrite decide_True.
  - rewrite decide_False; [done|]. intros [-> ->]. done.
Qed.

(** Zeroing a prefix of one frame leaves the slots of the others. *)
Lemma slot_mem_zero b m p t i n :
  wf b -> held b p -> held b t -> t <> p -> n <= 4096 -> 0 <= i < 512 ->
  slot (mem_zero m p n) t i = slot m t i.
Proof.
  intros Hb (_ & _ & k & ->)%held_frame (_ & _ & k' & ->)%held_frame Hne Hn Hi; [|done..].
  unfold slot, mem_zero. destruct (Z.leb_spec (k * 4096) (k' * 4096 + 8 * i)),
    (Z.ltb_spec (k' * 4096 + 8 * i) (k * 4096 + n)); simpl; try done. lia.
Qed.

Lemma slot_zeroed m p i : 0 <= i < 512 -> slot (mem_zero m p 4096) p i = 0.
Proof.
  intros Hi. unfold slot, mem_zero.
  destruct (Z.leb_spec p (p + 8 * i)), (Z.ltb_spec (p + 8 * i) (p + 4096)); simpl; lia.
Qed.

Lemma entry_ok_0 : entry_ok 0.
Proof. by_computation. Qed.

Lemma mem_zero_ok m p n : (forall a, entry_ok (m a)) -> forall a, entry_ok (mem_zero m p n a).
Proof. intros H a. unfold mem_zero. destruct (_ && _); [apply entry_ok_0|apply H]. Qed.

Lemma mem_set_ok m p v : (forall a, entry_ok (m a)) -> entry_ok v -> forall a, entry_ok (mem_set m p v a).
Proof. intros H Hv a. unfold mem_set. by destruct (_ =? _). Qed.

Lemma walk_slot m t i :
  walk m t i = if present (slot m t i) then Some (PAGE_PHYSICAL_ADDRESS (slot m t i)) else None.
Proof. done. Qed.

(** ** Room for more tables *)

(** [n] more allocations succeed; block 0, whose address is null, is taken. *)
Definition room (n : nat) (b : bitmap) : Prop :=
  (n <= free_low b)%nat /\ Z.of_nat n <= total_usable b /\ marked (memory_map b) 0 = true.

#[export] Instance room_dec n b : Decision (room n b).
Proof. unfold room. apply _. Defined.

Lemma room_alloc n b b' p :
  wf b -> room (S n) b -> alloc_result b b' p -> p <> 0 /\ room n b'.
Proof.
  intros Hwf (Hf & Hu & H0) Hr. inversion Hr as [E|Hall|r b2 _ Hl Hwf' Hw Hmax Hused Hmk]; subst.
  - lia.
  - rewrite free_low_zero in Hf by done. lia.
  - split.
    + unfold BLOCK_SIZE. destruct Hl as (Hr0 & Hc & _). destruct (decide (r = 0)) as [->|]; [congruence|lia].
    + pose proof (alloc_frame_free_low b b' r Hl Hw Hmk). split_and!; [lia| |by rewrite Hmk, H0].
      unfold total_usable in *. rewrite Hmax, Hused. unfold uwrap in *.
      rewrite Zminus_mod_idemp_r. replace (max_blocks b - (used_blocks b + 1)) with
        ((max_blocks b - used_blocks b) - 1) by lia.
      rewrite <- Zminus_mod_idemp_l. rewrite (Z.mod_small (_ - 1)); [lia|].
      pose proof (Z.mod_pos_bound (max_blocks b - used_blocks b) (2 ^ 64)). lia.
Qed.

Lemma room_weaken n n' b : (n' <= n)%nat -> room n b -> room n' b.
Proof. intros H (? & ? & ?). split_and!; [lia|lia|done]. Qed.

(** ** Growing a tree *)

(** Tables keep their levels; present entries of tables and all entries of the
    lowest tables keep their values. *)
Record extends (lev : Z -> Z) (st : vmm) (lev' : Z -> Z) (st' : vmm) : Prop := {
  ext_root : root st' = root st;
  ext_lev : forall t, 0 < lev t -> lev' t = lev t;
  ext_slot : forall t i, 0 < lev t -> 0 <= i < 512 ->
    present (slot (mem st) t i) = true \/ lev t = 1 -> slot (mem st') t i = slot (mem st) t i;
  ext_words : words_in_use (frames st') = words_in_use (frames st)
}.

Lemma extends_refl lev st : extends lev st lev st.
Proof. by split. Qed.

Lemma extends_trans l1 s1 l2 s2 l3 s3 :
  extends l1 s1 l2 s2 -> extends l2 s2 l3 s3 -> extends l1 s1 l3 s3.
Proof.
  intros [R1 L1 S1 K1] [R2 L2 S2 K2]. split; [congruence| | |congruence].
  - intros t Ht. rewrite L2, L1; rewrite ?L1; done.
  - intros t i Ht Hi Hp. rewrite S2, S1; rewrite ?S1, ?L1; done.
Qed.

(** A walk of the tree goes one level down. *)
Lemma walk_down lev st t i t' :
  tree lev st -> 2 <= lev t -> 0 <= i < 512 -> ~ (t = root st /\ i = 510) ->
  walk (mem st) t i = Some t' -> lev t' = lev t - 1.
Proof.
  intros HT Ht Hi Hr. rewrite walk_slot. destruct (present _) eqn:E; [|done].
  intros [= <-]. by apply (tree_child _ _ HT).
Qed.

Lemma walk_extends lev st lev' st' t i t' :
  extends lev st lev' st' -> 0 < lev t -> 0 <= i < 512 ->
  walk (mem st) t i = Some t' -> walk (mem st') t i = Some t'.
Proof.
  intros [_ _ HS _] Ht Hi. rewrite !walk_slot. destruct (present (slot (mem st) t i)) eqn:E; [|done].
  rewrite HS by auto. by rewrite E.
Qed.

Section grow.
Context (lev : Z -> Z) (st : vmm) (t i p n : Z) (f : bitmap).
Context (HT : tree lev st) (Ht : 2 <= lev t) (Hi : 0 <= i < 512)
  (Hr : ~ (t = root st /\ i = 510)) (Habs : present (slot (mem st) t i) = false)
  (Hn : n = 4096 \/ lev t = 2 /\ n <= 4096)
  (Ha : alloc_result (frames st) f p) (Hp : p <> 0).

Let m0 := mem_zero (mem st) p n.
Let v := set_page_entry (slot m0 t i) p false.
Let st' := with_mem (with_frames st f) (mem_set m0 (t + 8 * i) v).
Let lev' := fun x => if x =? p then lev t - 1 else lev x.

Lemma grow_wf : wf f.
Proof. eapply alloc_result_wf; [apply (tree_frames _ _ HT)|done]. Qed.

Lemma grow_fresh x : 0 < lev x -> x <> p.
Proof.
  intros Hx ->. apply (alloc_result_fresh _ _ _ (tree_frames _ _ HT) Ha Hp).
  by apply (tree_held _ _ HT).
Qed.

Lemma grow_new : held f p.
Proof. by apply (alloc_result_fresh _ _ _ (tree_frames _ _ HT) Ha Hp). Qed.

Lemma grow_held x : 0 < lev x -> held f x.
Proof.
  intros Hx. eapply alloc_result_held; [apply (tree_frames _ _ HT)|done|].
  by apply (tree_held _ _ HT).
Qed.

Lemma grow_lev x : 0 < lev x -> lev' x = lev x.
Proof. intros Hx. unfold lev'. destruct (Z.eqb_spec x p); [by apply grow_fresh in Hx|done]. Qed.

Lemma grow_lev_inv x : 0 < lev' x -> x = p \/ x <> p /\ 0 < lev x.
Proof. unfold lev'. destruct (Z.eqb_spec x p); auto. Qed.

Lemma grow_entry : entry_ok v /\ present v = true /\ PAGE_PHYSICAL_ADDRESS v = p.
Proof.
  pose proof (held_frame f p grow_wf grow_new) as (Hf & _).
  assert (entry_ok (slot m0 t i)) as Hok by apply (mem_zero_ok _ _ _ (tree_words _ _ HT)).
  split_and!; [by apply set_page_entry_ok|apply set_page_entry_present; [apply Hok|done]|
    by apply set_page_entry_phys].
Qed.

(** The slots of the grown memory. *)
Lemma grow_slot x j :
  0 < lev x -> 0 <= j < 512 ->
  slot (mem st') x j = if decide (x = t /\ j = i) then v else slot (mem st) x j.
Proof.
  intros Hx Hj. unfold st'. cbn [mem with_mem].
  rewrite (slot_mem_set f) by (apply grow_wf || (apply grow_held; lia) || done).
  destruct (decide _); [done|]. unfold m0.
  apply (slot_mem_zero f); [apply grow_wf|apply grow_new|by apply grow_held|by apply grow_fresh|lia|done].
Qed.

Lemma grow_slot_new j : n = 4096 -> 0 <= j < 512 -> slot (mem st') p j = 0.
Proof.
  intros En Hj. unfold st'. cbn [mem with_mem].
  rewrite (slot_mem_set f) by (apply grow_wf || apply grow_new || (apply grow_held; lia) || done).
  rewrite decide_False; [|intros [E _]; symmetry in E; revert E; apply grow_fresh; lia].
  unfold m0. rewrite En. by apply slot_zeroed.
Qed.

(** A branch of the grown tree is a branch of the old one or the new entry. *)
Lemma grow_branch x j :
  branch lev' st' x j ->
  (x = t /\ j = i /\ slot (mem st') x j = v) \/
  (branch lev st x j /\ slot (mem st') x j = slot (mem st) x j).
Proof.
  intros (Hx & Hj & Hnr & Hpr). change (root st') with (root st) in Hnr.
  destruct (grow_lev_inv x) as [->|[Hne Hx']]; [lia| |].
  - exfalso. assert (lev' p = lev t - 1) as E by (unfold lev'; by rewrite Z.eqb_refl).
    rewrite grow_slot_new in Hpr by (done || lia). by vm_compute in Hpr.
  - rewrite grow_slot in Hpr |- * by done. rewrite grow_lev in Hx by done.
    destruct (decide (x = t /\ j = i)) as [[-> ->]|Hd]; [by left|right]. done.
Qed.

Lemma grow_tree : tree lev' st'.
Proof.
  pose proof grow_entry as (Hv & Hvp & Hva).
  assert (forall x j, branch lev st x j -> PAGE_PHYSICAL_ADDRESS (slot (mem st) x j) <> p) as Hnp.
  { intros x j Hb. apply grow_fresh. rewrite (tree_child _ _ HT) by done. destruct Hb. lia. }
  split.
  - apply grow_wf.
  - change (root st') with (root st). rewrite grow_lev; rewrite (tree_root _ _ HT); lia.
  - intros x [->|[_ Hx]]%grow_lev_inv; [apply grow_new|by apply grow_held].
  - unfold st'. cbn [mem with_mem]. apply mem_set_ok; [|done].
    apply mem_zero_ok, (tree_words _ _ HT).
  - intros x j [(-> & -> & ->)|[Hb ->]]%grow_branch.
    + rewrite Hva, (grow_lev t) by lia. unfold lev'. by rewrite Z.eqb_refl.
    + pose proof (tree_child _ _ HT _ _ Hb) as E. destruct Hb as (Hx & _).
      rewrite (grow_lev x), grow_lev; rewrite ?E; lia.
  - intros x j x' j' [(-> & -> & ->)|[Hb ->]]%grow_branch [(-> & -> & ->)|[Hb' ->]]%grow_branch E.
    + done.
    + rewrite Hva in E. by apply Hnp in Hb'.
    + rewrite Hva in E. by apply Hnp in Hb.
    + by apply (tree_inj _ _ HT).
  - change (root st') with (root st). pose proof (tree_recursive _ _ HT) as W.
    rewrite walk_slot in W |- *. rewrite grow_slot by (rewrite ?(tree_root _ _ HT); lia).
    rewrite decide_False; [done|]. intros [E1 E2]. by apply Hr.
Qed.

Lemma grow_extends : extends lev st lev' st'.
Proof.
  split; [done|apply grow_lev| |by inversion Ha]. intros x j Hx Hj Hor. rewrite grow_slot by done.
  rewrite decide_False; [done|]. intros [-> ->]. destruct Hor; [congruence|lia].
Qed.

Lemma grow_walk : walk (mem st') t i = Some p /\ lev' p = lev t - 1.
Proof.
  pose proof grow_entry as (_ & Hvp & Hva). split.
  - rewrite walk_slot, grow_slot by (done || lia). by rewrite decide_True, Hvp, Hva.
  - unfold lev'. by rewrite Z.eqb_refl.
Qed.
End grow.

(** The number of tables an entry lacks. *)
Definition missing (st : vmm) (t i : Z) : nat :=
  match walk (mem st) t i with Some _ => 0 | None => 1 end.

(** What one call of [ensure_table] does: it leaves a present entry alone,
    and otherwise links a fresh table one level down, or stops for lack of
    memory. *)
Lemma ensure_table_spec set lev st t i n :
  (forall e a u, set e a u = set_page_entry e a u) ->
  tree lev st -> 2 <= lev t -> 0 <= i < 512 -> ~ (t = root st /\ i = 510) ->
  n = 4096 \/ lev t = 2 /\ n <= 4096 ->
  (ensure_table set n st (t + 8 * i) = Panic /\ walk (mem st) t i = None /\ ~ room 1 (frames st)) \/
  exists lev' st' t', ensure_table set n st (t + 8 * i) = Ret st' /\
    tree lev' st' /\ extends lev st lev' st' /\ walk (mem st') t i = Some t' /\
    lev' t' = lev t - 1 /\ (forall k, room (missing st t i + k) (frames st) -> room k (frames st')).
Proof.
  intros Hset HT Ht Hi Hr Hn. unfold ensure_table, load.
  assert (0 < lev t) as Ht0 by lia.
  destruct (held_frame _ _ (tree_frames _ _ HT) (tree_held _ _ HT t Ht0)) as (_ & Htpos & _).
  destruct (Z.eqb_spec (t + 8 * i) 0); [lia|]. cbn [mbind outcome_bind].
  change (mem st (t + 8 * i)) with (slot (mem st) t i).
  destruct (present (slot (mem st) t i)) eqn:E.
  { right. exists lev, st, (PAGE_PHYSICAL_ADDRESS (slot (mem st) t i)).
    split_and!; [done|done|apply extends_refl|by rewrite walk_slot, E| |].
    - by apply (tree_child _ _ HT).
    - intros k. apply room_weaken. lia. }
  destruct (alloc_block_cases _ (tree_frames _ _ HT)) as (f & p & -> & Ha).
  cbn [mbind outcome_bind fst snd]. destruct (Z.eqb_spec p 0) as [->|Hp].
  { left. split; [done|]. split; [by rewrite walk_slot, E|]. intros Hroom.
    by apply (room_alloc 0) with (b' := f) (p := 0) in Hroom as [H _]; [|apply (tree_frames _ _ HT)|]. }
  right. unfold store. destruct (Z.eqb_spec (t + 8 * i) 0); [lia|]. cbn [mbind outcome_bind].
  rewrite Hset. eexists _, _, p. split_and!; [done|by apply (grow_tree lev st t i p n f)|
    by apply (grow_extends lev st t i p n f)|by apply (grow_walk lev st t i p n f)|
    by apply (grow_walk lev st t i p n f)|].
  unfold missing. rewrite walk_slot, E. intros k Hk. by eapply (room_alloc k) in Hk as [_ ?]; [|apply (tree_frames _ _ HT)|].
Qed.

(** ** Writing a leaf *)

Section leaf.
Context (lev : Z -> Z) (st : vmm) (t i v : Z).
Context (HT : tree lev st) (Ht : lev t = 1) (Hi : 0 <= i < 512) (Hv : entry_ok v).

Let st' := with_mem st (mem_set (mem st) (t + 8 * i) v).

Lemma leaf_slot x j :
  0 < lev x -> 0 <= j < 512 ->
  slot (mem st') x j = if decide (x = t /\ j = i) then v else slot (mem st) x j.
Proof.
  intros Hx Hj. apply (slot_mem_set (frames st)); try done; [apply (tree_frames _ _ HT)|..];
    apply (tree_held _ _ HT); lia.
Qed.

Lemma leaf_slot_upper x j : 2 <= lev x -> 0 <= j < 512 -> slot (mem st') x j = slot (mem st) x j.
Proof. intros Hx Hj. rewrite leaf_slot by lia. rewrite decide_False; [done|]. intros [-> _]. lia. Qed.

Lemma leaf_branch x j : branch lev st' x j -> branch lev st x j.
Proof. intros (Hx & Hj & Hr & Hp). rewrite leaf_slot_upper in Hp by done. done. Qed.

Lemma leaf_tree : tree lev st'.
Proof.
  assert (forall x j, branch lev st x j -> slot (mem st') x j = slot (mem st) x j) as Hsl.
  { intros x j (Hx & Hj & _). by apply leaf_slot_upper. }
  split; try apply HT.
  - apply mem_set_ok; [apply (tree_words _ _ HT)|done].
  - intros x j Hb%leaf_branch. rewrite Hsl by done. by apply (tree_child _ _ HT).
  - intros x j x' j' Hb%leaf_branch Hb'%leaf_branch. rewrite !Hsl by done.
    by apply (tree_inj _ _ HT).
  - rewrite walk_slot. change (root st') with (root st).
    rewrite leaf_slot_upper by (rewrite ?(tree_root _ _ HT); lia). apply (tree_recursive _ _ HT).
Qed.
End leaf.

(** The leaf's three updates amount to [set_page_entry]. *)
Lemma leaf_entry v phys :
  pt_entry_add_attrib (pt_entry_add_attrib (pt_entry_set_frame v phys) PTE_PRESENT) PTE_WRITABLE =
  set_page_entry v phys false.
Proof.
  unfold set_page_entry, pml4e_entry_add_attrib, pml4e_entry_set_frame, pt_entry_add_attrib,
    pt_entry_set_frame.
  rewrite !Z.land_lor_distr_l.
  change (Z.land PTE_PRESENT (u64 (Z.lnot PTE_FRAME))) with PTE_PRESENT.
  change (Z.land PTE_WRITABLE (u64 (Z.lnot PTE_FRAME))) with PTE_WRITABLE.
  rewrite <- !Z.lor_assoc. f_equal. rewrite (Z.lor_comm phys). by rewrite <- Z.lor_assoc.
Qed.

(** ** Translations through a tree *)

(** The tables a translation goes through. *)
Record path (lev : Z -> Z) (st : vmm) (v t3 t2 t1 : Z) : Prop := {
  path3 : walk (mem st) (root st) (PAGE_PML4_OFFSET v) = Some t3;
  path2 : walk (mem st) t3 (PAGE_POINTER_OFFSET v) = Some t2;
  path1 : walk (mem st) t2 (PAGE_DIRECTORY_OFFSET v) = Some t1;
  path_levels : lev t3 = 3 /\ lev t2 = 2 /\ lev t1 = 1
}.

Lemma not_root lev st t i : tree lev st -> lev t < 4 -> ~ (t = root st /\ i = 510).
Proof. intros HT Ht [-> _]. rewrite (tree_root _ _ HT) in Ht. lia. Qed.

Lemma path_intro lev st v t3 t2 t1 :
  tree lev st -> PAGE_PML4_OFFSET v <> 510 ->
  walk (mem st) (root st) (PAGE_PML4_OFFSET v) = Some t3 ->
  walk (mem st) t3 (PAGE_POINTER_OFFSET v) = Some t2 ->
  walk (mem st) t2 (PAGE_DIRECTORY_OFFSET v) = Some t1 -> path lev st v t3 t2 t1.
Proof.
  intros HT Hv W3 W2 W1. pose proof (offsets_range v) as (? & ? & ? & ?).
  pose proof (tree_root _ _ HT) as L4.
  assert (lev t3 = lev (root st) - 1) as L3 by (eapply walk_down; [done| | | |exact W3]; lia).
  assert (lev t2 = lev t3 - 1) as L2
    by (eapply walk_down; [done| | |eapply not_root; [done|]|exact W2]; lia).
  assert (lev t1 = lev t2 - 1) as L1
    by (eapply walk_down; [done| | |eapply not_root; [done|]|exact W1]; lia).
  split; try done. lia.
Qed.

Lemma translate_path lev st v pa :
  tree lev st -> PAGE_PML4_OFFSET v <> 510 -> translate (mem st) (root st) v = Some pa ->
  exists t3 t2 t1 f, path lev st v t3 t2 t1 /\ walk (mem st) t1 (PAGE_TABLE_OFFSET v) = Some f /\
    pa = f + Z.land v 0xFFF.
Proof.
  intros HT Hv. unfold translate. destruct (walk _ (root st) _) as [t3|] eqn:W3; [|done]. simpl.
  destruct (walk _ t3 _) as [t2|] eqn:W2; [|done]. simpl.
  destruct (walk _ t2 _) as [t1|] eqn:W1; [|done]. simpl.
  destruct (walk _ t1 _) as [f|] eqn:W0; [|done]. simpl. intros [= <-].
  exists t3, t2, t1, f. split; [by apply path_intro|done].
Qed.

Lemma path_translate lev st v t3 t2 t1 f :
  path lev st v t3 t2 t1 -> walk (mem st) t1 (PAGE_TABLE_OFFSET v) = Some f ->
  translate (mem st) (root st) v = Some (f + Z.land v 0xFFF).
Proof.
  intros [W3 W2 W1 _] W0. unfold translate. rewrite W3. simpl. rewrite W2. simpl. rewrite W1. simpl.
  by rewrite W0.
Qed.

Lemma path_extends lev st lev' st' v t3 t2 t1 :
  tree lev st -> extends lev st lev' st' -> path lev st v t3 t2 t1 -> path lev' st' v t3 t2 t1.
Proof.
  intros HT HE [W3 W2 W1 (L3 & L2 & L1)]. pose proof (offsets_range v) as (? & ? & ? & ?).
  split; rewrite ?(ext_root _ _ _ _ HE).
  - eapply walk_extends; [done| |lia|done]. rewrite (tree_root _ _ HT). lia.
  - eapply walk_extends; [done|lia|lia|done].
  - eapply walk_extends; [done|lia|lia|done].
  - rewrite !(ext_lev _ _ _ _ HE) by lia. done.
Qed.

(** Growing a tree keeps every translation. *)
Lemma translate_extends lev st lev' st' v pa :
  tree lev st -> extends lev st lev' st' -> PAGE_PML4_OFFSET v <> 510 ->
  translate (mem st) (root st) v = Some pa -> translate (mem st') (root st') v = Some pa.
Proof.
  intros HT HE Hv (t3 & t2 & t1 & f & HP & W & ->)%(translate_path lev); [|done..].
  pose proof (offsets_range v) as (? & ? & ? & ?). pose proof (path_levels _ _ _ _ _ _ HP) as (_ & _ & L1).
  eapply path_translate; [by eapply path_extends|]. eapply walk_extends; [done|lia|lia|done].
Qed.

(** ** Mapping a page *)

Definition same_page (v w : Z) : Prop :=
  PAGE_PML4_OFFSET v = PAGE_PML4_OFFSET w /\ PAGE_POINTER_OFFSET v = PAGE_POINTER_OFFSET w /\
  PAGE_DIRECTORY_OFFSET v = PAGE_DIRECTORY_OFFSET w /\ PAGE_TABLE_OFFSET v = PAGE_TABLE_OFFSET w.

(** Two paths that end in the same lowest table take the same turns. *)
Lemma path_inj lev st v w t3 t2 t1 u3 u2 :
  tree lev st -> PAGE_PML4_OFFSET v <> 510 -> PAGE_PML4_OFFSET w <> 510 ->
  path lev st v t3 t2 t1 -> path lev st w u3 u2 t1 ->
  PAGE_PML4_OFFSET v = PAGE_PML4_OFFSET w /\ PAGE_POINTER_OFFSET v = PAGE_POINTER_OFFSET w /\
  PAGE_DIRECTORY_OFFSET v = PAGE_DIRECTORY_OFFSET w.
Proof.
  intros HT Hv Hw [W3 W2 W1 (L3 & L2 & L1)] [X3 X2 X1 (M3 & M2 & _)].
  pose proof (offsets_range v) as (? & ? & ? & ?). pose proof (offsets_range w) as (? & ? & ? & ?).
  assert (forall t i u j x, 2 <= lev t -> 2 <= lev u -> 0 <= i < 512 -> 0 <= j < 512 ->
    ~ (t = root st /\ i = 510) -> ~ (u = root st /\ j = 510) ->
    walk (mem st) t i = Some x -> walk (mem st) u j = Some x -> t = u /\ i = j) as Hinj.
  { intros t i u j x ? ? ? ? ? ?. rewrite !walk_slot.
    destruct (present (slot (mem st) t i)) eqn:E1, (present (slot (mem st) u j)) eqn:E2; try done.
    intros [= A] [= B]. apply (tree_inj _ _ HT); [done..|congruence]. }
  pose proof (tree_root _ _ HT) as L4.
  destruct (Hinj t2 (PAGE_DIRECTORY_OFFSET v) u2 (PAGE_DIRECTORY_OFFSET w) t1) as [<- E1];
    try (done || lia); try (eapply not_root; [done|lia]).
  destruct (Hinj t3 (PAGE_POINTER_OFFSET v) u3 (PAGE_POINTER_OFFSET w) t2) as [<- E2];
    try (done || lia); try (eapply not_root; [done|lia]).
  destruct (Hinj (root st) (PAGE_PML4_OFFSET v) (root st) (PAGE_PML4_OFFSET w) t3) as [_ E3];
    try (done || lia).
Qed.

Lemma tree_pos lev st t : tree lev st -> 0 < lev t -> 0 < t.
Proof. intros HT Ht. apply (held_frame (frames st)); [apply (tree_frames _ _ HT)|by apply (tree_held _ _ HT)]. Qed.

(** The entry's address, and the table behind the entry once it is present. *)
Lemma load_walk lev st t i t' :
  tree lev st -> 0 < lev t -> 0 <= i < 512 -> walk (mem st) t i = Some t' ->
  exists v, load st (t + 8 * i) = Ret v /\ PAGE_PHYSICAL_ADDRESS v = t'.
Proof.
  intros HT Ht Hi. pose proof (tree_pos _ _ _ HT Ht). rewrite walk_slot. unfold load, slot.
  destruct (Z.eqb_spec (t + 8 * i) 0); [lia|]. destruct (present _); [|done].
  intros [= <-]. by eexists.
Qed.

Section mapped.
Context (lev : Z -> Z) (st : vmm) (phys virt t3 t2 t1 : Z).
Context (HT : tree lev st) (HP : path lev st virt t3 t2 t1) (Hphys : frame_addr phys)
  (Hv : PAGE_PML4_OFFSET virt <> 510).

Let e := set_page_entry (slot (mem st) t1 (PAGE_TABLE_OFFSET virt)) phys false.
Let st' := with_mem st (mem_set (mem st) (t1 + 8 * PAGE_TABLE_OFFSET virt) e).

Lemma mapped_tree : tree lev st'.
Proof.
  pose proof (offsets_range virt). destruct (path_levels _ _ _ _ _ _ HP) as (_ & _ & L1).
  apply leaf_tree; [done|done|lia|]. apply set_page_entry_ok; [apply (tree_words _ _ HT)|done].
Qed.

Lemma mapped_walk_upper t i : 2 <= lev t -> 0 <= i < 512 -> walk (mem st') t i = walk (mem st) t i.
Proof.
  intros Ht Hi. destruct (path_levels _ _ _ _ _ _ HP) as (_ & _ & L1). pose proof (offsets_range virt).
  rewrite !walk_slot. unfold st'. rewrite (leaf_slot_upper lev); (done || lia).
Qed.

Lemma mapped_path v u3 u2 u1 : path lev st v u3 u2 u1 -> path lev st' v u3 u2 u1.
Proof.
  intros [W3 W2 W1 (L3 & L2 & L1)]. pose proof (offsets_range v). pose proof (tree_root _ _ HT).
  split; [..|done]; rewrite mapped_walk_upper by (change (root st') with (root st); lia); done.
Qed.

Lemma mapped_walk_leaf t i :
  lev t = 1 -> 0 <= i < 512 ->
  walk (mem st') t i = if decide (t = t1 /\ i = PAGE_TABLE_OFFSET virt) then Some phys else walk (mem st) t i.
Proof.
  intros Ht Hi. destruct (path_levels _ _ _ _ _ _ HP) as (_ & _ & L1). pose proof (offsets_range virt).
  rewrite !walk_slot. unfold st'. rewrite (leaf_slot lev) by (done || lia).
  destruct (decide _); [|done]. unfold e.
  pose proof (tree_words _ _ HT (t1 + 8 * PAGE_TABLE_OFFSET virt)) as Hw.
  by rewrite set_page_entry_present, set_page_entry_phys by (apply Hw || done).
Qed.

Lemma mapped_here : translate (mem st') (root st') virt = Some (phys + Z.land virt 0xFFF).
Proof.
  destruct (path_levels _ _ _ _ _ _ HP) as (_ & _ & L1). pose proof (offsets_range virt).
  eapply path_translate; [by apply mapped_path|]. by rewrite mapped_walk_leaf, decide_True by (done || lia).
Qed.

Lemma mapped_elsewhere v pa :
  PAGE_PML4_OFFSET v <> 510 -> ~ same_page v virt ->
  translate (mem st) (root st) v = Some pa -> translate (mem st') (root st') v = Some pa.
Proof.
  intros Hv' Hne (u3 & u2 & u1 & f & HP' & W & ->)%(translate_path lev); [|done..].
  destruct (path_levels _ _ _ _ _ _ HP') as (_ & _ & L1). pose proof (offsets_range v).
  eapply path_translate; [by apply mapped_path|]. rewrite mapped_walk_leaf by (done || lia).
  rewrite decide_False; [done|]. intros [-> Ei]. apply Hne.
  destruct (path_inj lev st v virt u3 u2 t1 t3 t2) as (A & B & C); try done.
Qed.
End mapped.

Lemma lookup_nonnull lev st t i :
  tree lev st -> 0 < lev t -> (if t =? 0 then 0 else t + 8 * i) = t + 8 * i.
Proof. intros HT Ht. pose proof (tree_pos _ _ _ HT Ht). by destruct (Z.eqb_spec t 0); [lia|]. Qed.

(** One level of the descent: [ensure_table] on the entry, then the reload. *)
Lemma descend set lev st t i n lvl :
  (forall e a u, set e a u = set_page_entry e a u) ->
  tree lev st -> lev t = lvl -> 2 <= lvl -> 0 <= i < 512 -> ~ (t = root st /\ i = 510) ->
  n = 4096 \/ lvl = 2 /\ n <= 4096 ->
  (ensure_table set n st (t + 8 * i) = Panic /\ walk (mem st) t i = None /\ ~ room 1 (frames st)) \/
  exists lev' st' t' v, ensure_table set n st (t + 8 * i) = Ret st' /\
    load st' (t + 8 * i) = Ret v /\ PAGE_PHYSICAL_ADDRESS v = t' /\
    tree lev' st' /\ extends lev st lev' st' /\ walk (mem st') t i = Some t' /\
    lev' t' = lvl - 1 /\ (forall k, room (missing st t i + k) (frames st) -> room k (frames st')).
Proof.
  intros Hset HT Ht Hl Hi Hr Hn. subst lvl.
  destruct (ensure_table_spec set lev st t i n) as [[-> H]|(lev' & st' & t' & -> & HT' & HE & W & L & R)];
    try done; [by left|right].
  assert (0 < lev' t) as Hp by (rewrite (ext_lev _ _ _ _ HE) by lia; lia).
  destruct (load_walk lev' st' t i t') as (v & E & Ev); try done.
  by exists lev', st', t', v.
Qed.

(** The number of tables the walk for [v] lacks. *)
Definition absent (st : vmm) (v : Z) : nat :=
  match walk (mem st) (root st) (PAGE_PML4_OFFSET v) with
  | None => 3
  | Some t3 =>
    match walk (mem st) t3 (PAGE_POINTER_OFFSET v) with
    | None => 2
    | Some t2 => missing st t2 (PAGE_DIRECTORY_OFFSET v)
    end
  end.

Lemma missing_le_1 st t i : (missing st t i <= 1)%nat.
Proof. unfold missing. destruct (walk _ _ _); lia. Qed.

Lemma missing_extends lev st lev' st' t i :
  extends lev st lev' st' -> 0 < lev t -> 0 <= i < 512 -> (missing st' t i <= missing st t i)%nat.
Proof.
  intros HE Ht Hi. unfold missing. destruct (walk (mem st) t i) eqn:W.
  - by rewrite (walk_extends lev st lev' st' t i z).
  - destruct (walk (mem st') t i); lia.
Qed.

(** The descent allocates at most [absent] tables. *)
Lemma absent_bound lev st l3 s3 l2 s2 v t3 t2 :
  tree lev st -> extends lev st l3 s3 -> extends l3 s3 l2 s2 -> PAGE_PML4_OFFSET v <> 510 ->
  walk (mem s3) (root st) (PAGE_PML4_OFFSET v) = Some t3 ->
  (missing st (root st) (PAGE_PML4_OFFSET v) + missing s3 t3 (PAGE_POINTER_OFFSET v) <= absent st v)%nat /\
  (walk (mem s2) t3 (PAGE_POINTER_OFFSET v) = Some t2 ->
   missing st (root st) (PAGE_PML4_OFFSET v) + missing s3 t3 (PAGE_POINTER_OFFSET v) +
   missing s2 t2 (PAGE_DIRECTORY_OFFSET v) <= absent st v)%nat.
Proof.
  intros HT X3 X2 Hv W3. pose proof (offsets_range v) as (? & ? & ? & ?). pose proof (tree_root _ _ HT).
  unfold absent. destruct (walk (mem st) (root st) _) as [t3'|] eqn:E3.
  - rewrite (walk_extends lev st l3 s3 _ _ t3') in W3 by (done || lia). injection W3 as <-.
    assert (missing st (root st) (PAGE_PML4_OFFSET v) = 0%nat) as -> by (unfold missing; by rewrite E3).
    assert (lev t3' = lev (root st) - 1) as L3 by (eapply walk_down; [done| | | |exact E3]; lia).
    pose proof (missing_extends _ _ _ _ t3' (PAGE_POINTER_OFFSET v) X3).
    destruct (walk (mem st) t3' _) as [t2'|] eqn:E2.
    + assert (missing st t3' (PAGE_POINTER_OFFSET v) = 0%nat) as Hz by (unfold missing; by rewrite E2).
      assert (lev t2' = lev t3' - 1) as L2
        by (eapply walk_down; [done| | |eapply not_root; [done|]|exact E2]; lia).
      pose proof (extends_trans _ _ _ _ _ _ X3 X2) as X. split; [lia|].
      rewrite (walk_extends lev st l2 s2 _ _ t2') by (done || lia). intros [= <-].
      pose proof (missing_extends _ _ _ _ t2' (PAGE_DIRECTORY_OFFSET v) X). lia.
    + split; [|intros _].
      * pose proof (missing_le_1 s3 t3' (PAGE_POINTER_OFFSET v)). lia.
      * pose proof (missing_le_1 s3 t3' (PAGE_POINTER_OFFSET v)).
        pose proof (missing_le_1 s2 t2 (PAGE_DIRECTORY_OFFSET v)). lia.
  - pose proof (missing_le_1 st (root st) (PAGE_PML4_OFFSET v)).
    pose proof (missing_le_1 s3 t3 (PAGE_POINTER_OFFSET v)).
    pose proof (missing_le_1 s2 t2 (PAGE_DIRECTORY_OFFSET v)). lia.
Qed.

(** What a call of [vmmgr_map_page] does. *)
Definition map_page_result (st : vmm) (phys virt : Z) (st' : vmm) : Prop :=
  (exists lev', tree lev' st') /\ root st' = root st /\
  translate (mem st') (root st) virt = Some (phys + Z.land virt 0xFFF) /\
  (forall v pa, PAGE_PML4_OFFSET v <> 510 -> ~ same_page v virt ->
    translate (mem st) (root st) v = Some pa -> translate (mem st') (root st) v = Some pa) /\
  (forall k, room (absent st virt + k) (frames st) -> room k (frames st')) /\
  words_in_use (frames st') = words_in_use (frames st).

Lemma vmmgr_map_page_cases lev st phys virt :
  tree lev st -> frame_addr phys -> PAGE_PML4_OFFSET virt <> 510 ->
  (vmmgr_map_page st phys virt = Panic /\ ~ room (absent st virt) (frames st)) \/
  exists st', vmmgr_map_page st phys virt = Ret st' /\ map_page_result st phys virt st'.
Proof.
  intros HT Hphys Hv. pose proof (offsets_range virt) as (O4 & O3 & O2 & O1).
  unfold vmmgr_map_page, vmmgr_pml4_directory_lookup_entry. fold (root st).
  pose proof (tree_root _ _ HT) as L4. rewrite (lookup_nonnull lev st) by (done || lia).
  destruct (descend set_pml4_entry lev st (root st) (PAGE_PML4_OFFSET virt) 4096 4)
    as [(-> & Hw & Hm)|(l3 & s3 & t3 & v3 & -> & E3 & P3 & T3 & X3 & W3 & L3 & R3)]; try (done || lia).
  { left. split; [done|]. intros H. apply Hm. eapply room_weaken; [|done].
    unfold absent. rewrite Hw. lia. }
  cbn [mbind outcome_bind]. rewrite E3. cbn [mbind outcome_bind]. rewrite P3.
  unfold vmmgr_page_pointer_directory_lookup_entry. rewrite (lookup_nonnull l3 s3) by (done || lia).
  destruct (descend set_pdpe_entry l3 s3 t3 (PAGE_POINTER_OFFSET virt) 4096 3)
    as [(-> & Hw & Hm)|(l2 & s2 & t2 & v2 & -> & E2 & P2 & T2 & X2 & W2 & L2 & R2)];
    try (done || lia); try (eapply not_root; [done|lia]).
  { left. split; [done|]. intros H. apply Hm, R3. eapply room_weaken; [|done].
    destruct (absent_bound lev st l3 s3 l3 s3 virt t3 0) as [B _]; try (done || apply extends_refl).
    unfold missing in B at 2. rewrite Hw in B. lia. }
  cbn [mbind outcome_bind]. rewrite E2. cbn [mbind outcome_bind]. rewrite P2.
  unfold vmmgr_page_directory_lookup_entry. rewrite (lookup_nonnull l2 s2) by (done || lia).
  destruct (descend set_pde_entry l2 s2 t2 (PAGE_DIRECTORY_OFFSET virt) 8 2)
    as [(-> & Hw & Hm)|(l1 & s1 & t1 & v1 & -> & E1 & P1 & T1 & X1 & W1 & L1 & R1)];
    try (done || lia); try (eapply not_root; [done|lia]).
  { left. split; [done|]. intros H. apply Hm, R2, R3. eapply room_weaken; [|done].
    destruct (absent_bound lev st l3 s3 l2 s2 virt t3 t2) as [_ B]; try done. specialize (B W2).
    unfold missing in B at 3. rewrite Hw in B. lia. }
  cbn [mbind outcome_bind]. rewrite E1. cbn [mbind outcome_bind]. rewrite P1.
  unfold vmmgr_ptable_lookup_entry. rewrite (lookup_nonnull l1 s1) by (done || lia).
  assert (load s1 (t1 + 8 * PAGE_TABLE_OFFSET virt) = Ret (slot (mem s1) t1 (PAGE_TABLE_OFFSET virt))) as ->.
  { unfold load. pose proof (tree_pos l1 s1 t1 T1). destruct (Z.eqb_spec (t1 + 8 * PAGE_TABLE_OFFSET virt) 0); [lia|done]. }
  cbn [mbind outcome_bind]. rewrite leaf_entry. unfold store.
  pose proof (tree_pos l1 s1 t1 T1). destruct (Z.eqb_spec (t1 + 8 * PAGE_TABLE_OFFSET virt) 0); [lia|].
  pose proof (extends_trans _ _ _ _ _ _ X3 (extends_trans _ _ _ _ _ _ X2 X1)) as X.
  pose proof (ext_root _ _ _ _ X) as HR.
  assert (path l1 s1 virt t3 t2 t1) as HP.
  { apply path_intro; [done|done| | |done]; rewrite ?HR.
    - eapply (walk_extends l3 s3); [by eapply extends_trans| |lia|done].
      rewrite (ext_lev _ _ _ _ X3); lia.
    - eapply (walk_extends l2 s2); [done| |lia|done]. rewrite (ext_lev _ _ _ _ X2); lia. }
  right. eexists. split; [done|]. unfold map_page_result. rewrite <- HR. split_and!; [|done| | | |apply (ext_words _ _ _ _ X)].
  - exists l1. by eapply mapped_tree.
  - by eapply (mapped_here l1).
  - intros v pa Hv' Hne Htr. eapply (mapped_elsewhere l1); try done.
    rewrite HR in Htr. by apply (translate_extends lev st l1 s1).
  - intros k Hk. apply R1, R2, R3. eapply room_weaken; [|done].
    destruct (absent_bound lev st l3 s3 l2 s2 virt t3 t2) as [_ B]; try done. specialize (B W2). lia.
Qed.

(** ** The top-level table of [vmmgr_init] *)

Definition boot_level (p x : Z) : Z := if x =? p then 4 else 0.

Lemma boot_tree st p v :
  wf (frames st) -> held (frames st) p -> cur_pml4_base_pointer st = p ->
  (forall a, entry_ok (mem st a)) -> (forall i, 0 <= i < 512 -> i <> 510 -> slot (mem st) p i = 0) ->
  slot (mem st) p 510 = v -> present v = true -> PAGE_PHYSICAL_ADDRESS v = p ->
  tree (boot_level p) st.
Proof.
  intros Hwf Hp HR Hok Hz Hv Hpr Hpa.
  assert (forall x, 0 < boot_level p x -> x = p) as Hlev.
  { intros x. unfold boot_level. destruct (Z.eqb_spec x p); [done|lia]. }
  assert (forall x i, ~ branch (boot_level p) st x i) as Hnb.
  { intros x i (Hx & Hi & Hnr & Hpres). assert (x = p) as -> by (apply Hlev; lia).
    rewrite Hz in Hpres by (done || (intros ->; by apply Hnr)). by vm_compute in Hpres. }
  split; try done.
  - unfold root, boot_level. by rewrite HR, Z.eqb_refl.
  - intros x ->%Hlev. done.
  - by intros x i ?%Hnb.
  - by intros x i x' i' ?%Hnb.
  - unfold root. rewrite HR, walk_slot, Hv, Hpr. by f_equal.
Qed.

(** ** Mapping at the recursive address *)

Lemma rec_offsets :
  PAGE_PML4_OFFSET RECURSIVE_ENTRY = 510 /\ PAGE_POINTER_OFFSET RECURSIVE_ENTRY = 510 /\
  PAGE_DIRECTORY_OFFSET RECURSIVE_ENTRY = 510 /\ PAGE_TABLE_OFFSET RECURSIVE_ENTRY = 510.
Proof. by vm_compute. Qed.

Lemma ensure_present set n lev st t i t' :
  tree lev st -> 0 < lev t -> 0 <= i < 512 -> walk (mem st) t i = Some t' ->
  ensure_table set n st (t + 8 * i) = Ret st.
Proof.
  intros HT Ht Hi. rewrite walk_slot. unfold ensure_table, load.
  pose proof (tree_pos _ _ _ HT Ht). destruct (Z.eqb_spec (t + 8 * i) 0); [lia|].
  cbn [mbind outcome_bind]. unfold slot. by destruct (present _).
Qed.

Section recursive.
Context (lev : Z -> Z) (st : vmm) (HT : tree lev st).

Let r := root st.
Let e := set_page_entry (slot (mem st) r 510) r false.
Let st' := with_mem st (mem_set (mem st) (r + 8 * 510) e).

Lemma rec_held : held (frames st) r.
Proof. apply (tree_held _ _ HT). unfold r. rewrite (tree_root _ _ HT). lia. Qed.

Lemma rec_frame : frame_addr r.
Proof. by apply (held_frame _ _ (tree_frames _ _ HT)), rec_held. Qed.

Lemma rec_slot t i : 0 < lev t -> 0 <= i < 512 -> ~ (t = r /\ i = 510) ->
  slot (mem st') t i = slot (mem st) t i.
Proof.
  intros Ht Hi Hne. unfold st'. cbn [mem with_mem].
  rewrite (slot_mem_set (frames st)); [by rewrite decide_False|apply (tree_frames _ _ HT)|
    apply rec_held|by apply (tree_held _ _ HT)|lia|done].
Qed.

Lemma rec_walk : walk (mem st') r 510 = Some r.
Proof.
  unfold st'. cbn [mem with_mem]. rewrite walk_slot.
  rewrite (slot_mem_set (frames st)) by (apply (tree_frames _ _ HT) || apply rec_held || lia).
  rewrite decide_True by done. pose proof (tree_words _ _ HT (r + 8 * 510)) as Hw.
  unfold e. by rewrite set_page_entry_present, set_page_entry_phys by (apply Hw || apply rec_frame).
Qed.

Lemma rec_tree : tree lev st'.
Proof.
  assert (forall t i, branch lev st' t i -> branch lev st t i /\ slot (mem st') t i = slot (mem st) t i) as Hb.
  { intros t i (Ht & Hi & Hr & Hp). rewrite rec_slot in Hp |- * by (done || lia). done. }
  split; try apply HT.
  - apply mem_set_ok; [apply (tree_words _ _ HT)|].
    apply set_page_entry_ok; [apply (tree_words _ _ HT)|apply rec_frame].
  - intros t i [H ->]%Hb. by apply (tree_child _ _ HT).
  - intros t i t' i' [H ->]%Hb [H' ->]%Hb. by apply (tree_inj _ _ HT).
  - apply rec_walk.
Qed.

Lemma rec_translate v pa :
  PAGE_PML4_OFFSET v <> 510 -> translate (mem st) r v = Some pa -> translate (mem st') r v = Some pa.
Proof.
  intros Hv (t3 & t2 & t1 & f & [W3 W2 W1 (L3 & L2 & L1)] & W0 & ->)%(translate_path lev); [|done..].
  pose proof (offsets_range v) as (? & ? & ? & ?). pose proof (tree_root _ _ HT) as L4.
  assert (forall t i x, 0 < lev t -> 0 <= i < 512 -> ~ (t = r /\ i = 510) ->
    walk (mem st) t i = Some x -> walk (mem st') t i = Some x) as Hw.
  { intros t i x ? ? ?. rewrite !walk_slot. by rewrite rec_slot. }
  eapply (path_translate lev st'); [split; [..|done]|]; apply Hw;
    try (done || lia || (eapply not_root; [done|lia])).
  change (root st') with (root st). lia.
Qed.

(** The call leaves the tree and the bitmap as they are. *)
Lemma map_recursive : vmmgr_map_page st r RECURSIVE_ENTRY = Ret st'.
Proof.
  pose proof rec_offsets as (O4 & O3 & O2 & O1). pose proof (tree_root _ _ HT) as L4.
  pose proof (tree_recursive _ _ HT) as W.
  unfold vmmgr_map_page, vmmgr_pml4_directory_lookup_entry, vmmgr_page_pointer_directory_lookup_entry,
    vmmgr_page_directory_lookup_entry, vmmgr_ptable_lookup_entry. rewrite O4, O3, O2, O1.
  fold (root st) r. fold r in W, L4. rewrite (lookup_nonnull lev st) by (done || lia).
  rewrite (ensure_present _ _ lev st r 510 r) by (done || lia). cbn [mbind outcome_bind].
  destruct (load_walk lev st r 510 r) as (v & E & Ev); [done|lia|lia|done|].
  rewrite E. cbn [mbind outcome_bind]. rewrite Ev, (lookup_nonnull lev st) by (done || lia).
  rewrite (ensure_present _ _ lev st r 510 r) by (done || lia). cbn [mbind outcome_bind].
  rewrite E. cbn [mbind outcome_bind]. rewrite Ev, (lookup_nonnull lev st) by (done || lia).
  rewrite (ensure_present _ _ lev st r 510 r) by (done || lia). cbn [mbind outcome_bind].
  rewrite E. cbn [mbind outcome_bind]. rewrite Ev, (lookup_nonnull lev st) by (done || lia).
  rewrite E. cbn [mbind outcome_bind]. rewrite leaf_entry. unfold store, load in *.
  destruct (Z.eqb_spec (r + 8 * 510) 0); [done|]. by injection E as <-.
Qed.
End recursive.

(** ** The kernel's window *)

(** Indices of the addresses of the first GiB above [virt_base]. *)
Lemma window_offsets a :
  0 <= a < 2 ^ 30 ->
  PAGE_PML4_OFFSET (virt_base + a) = 511 /\ PAGE_POINTER_OFFSET (virt_base + a) = 510 /\
  PAGE_DIRECTORY_OFFSET (virt_base + a) = a / 2 ^ 21 /\
  PAGE_TABLE_OFFSET (virt_base + a) = (a / 2 ^ 12) mod 512 /\
  Z.land (virt_base + a) 0xFFF = a mod 4096.
Proof.
  intros Ha. autorewrite with offsets. unfold virt_base.
  assert (0 <= a / 2 ^ 21 < 512) by (split; [apply Z.div_pos|apply Z.div_lt_upper_bound]; lia).
  split_and!.
  - apply index_of with (hi := 0x1FFFFFF) (lo := 0x7F80000000 + a) (a := 0xFFFF); lia.
  - apply index_of with (hi := 0x3FFFFFFFE) (lo := a) (a := 0x1FFFFFF); lia.
  - pose proof (Z.div_mod a (2 ^ 21)). pose proof (Z.mod_pos_bound a (2 ^ 21)).
    apply index_of with (hi := 0x7FFFFFFFC00 + a / 2 ^ 21) (lo := a mod 2 ^ 21) (a := 0x3FFFFFFFE); lia.
  - replace (0xFFFFFFFF80000000 + a) with (0xFFFFFFFF80000 * 2 ^ 12 + a) by lia.
    rewrite Z.div_add_l by lia. rewrite <- Zplus_mod_idemp_l. done.
  - change 0xFFF with (Z.ones 12). rewrite Z.land_ones by lia.
    replace (0xFFFFFFFF80000000 + a) with (a + 0xFFFFFFFF80000 * 2 ^ 12) by lia.
    apply Z_mod_plus_full.
Qed.

Lemma window_same_page a b :
  0 <= a < 2 ^ 30 -> 0 <= b < 2 ^ 30 ->
  same_page (virt_base + a) (virt_base + b) <-> a / 2 ^ 12 = b / 2 ^ 12.
Proof.
  intros Ha Hb. unfold same_page.
  destruct (window_offsets a Ha) as (-> & -> & -> & -> & _).
  destruct (window_offsets b Hb) as (-> & -> & -> & -> & _).
  change (2 ^ 21) with (2 ^ 12 * 512). rewrite <- !Z.div_div by lia. split.
  - intros (_ & _ & E1 & E2).
    rewrite (Z.div_mod (a / 2 ^ 12) 512), (Z.div_mod (b / 2 ^ 12) 512) by lia. congruence.
  - by intros ->.
Qed.

Lemma translate_same_page m r v w pa :
  same_page v w -> translate m r v = Some pa ->
  translate m r w = Some (pa - Z.land v 0xFFF + Z.land w 0xFFF).
Proof.
  unfold translate. intros (<- & <- & <- & <-).
  destruct (walk m r _) as [t3|]; [|done]. simpl. destruct (walk m t3 _) as [t2|]; [|done]. simpl.
  destruct (walk m t2 _) as [t1|]; [|done]. simpl. destruct (walk m t1 _) as [f|]; [|done]. simpl.
  intros [= <-]. f_equal. lia.
Qed.

(** A mapped page of the window leaves at most one table to be added for any
    other, and none for a page of the same 2 MiB. *)
Lemma window_absent st a b pa :
  0 <= a < 2 ^ 30 -> 0 <= b < 2 ^ 30 -> translate (mem st) (root st) (virt_base + a) = Some pa ->
  (absent st (virt_base + b)%Z <= if decide (a / 2 ^ 21 = b / 2 ^ 21)%Z then 0 else 1)%nat.
Proof.
  intros Ha Hb. unfold translate, absent, missing.
  destruct (window_offsets a Ha) as (-> & -> & -> & _).
  destruct (window_offsets b Hb) as (-> & -> & -> & _).
  destruct (walk _ (root st) _) as [t3|]; [|done]. simpl. destruct (walk _ t3 _) as [t2|]; [|done]. simpl.
  destruct (decide _) as [<-|].
  - by destruct (walk _ t2 _) as [t1|]; [|done].
  - intros _. destruct (walk _ t2 (b / _)); lia.
Qed.

Section kernel_window.
Context (r physbase W : Z).
Context (Hpage : physbase mod 4096 = 0) (Hlow : 0x101000 <= physbase)
  (Hhigh : physbase + 10752 * 4096 <= 2 ^ 30).

Definition window_addr (k : Z) : Z := physbase + k * 4096.

(** Page tables added after the first page, when [i] pages are mapped. *)
Definition crossings (i : Z) : Z := window_addr (i - 1) / 2 ^ 21 - physbase / 2 ^ 21.

Definition window_inv (i : Z) (st : vmm) : Prop :=
  (exists lev, tree lev st) /\ root st = r /\
  (forall k, 0 <= k < i ->
    translate (mem st) r (virt_base + window_addr k) = Some (0x200000 + k * 4096)) /\
  room (if decide (i = 0) then 25 else Z.to_nat (22 - crossings i)) (frames st) /\
  words_in_use (frames st) = W.

Lemma window_range k : 0 <= k < 10752 -> 0 <= window_addr k < 2 ^ 30.
Proof. unfold window_addr. lia. Qed.

Lemma window_addr_mod k : window_addr k mod 4096 = 0.
Proof. unfold window_addr. by rewrite Z_mod_plus_full. Qed.

Lemma window_addr_page k : window_addr k / 2 ^ 12 = physbase / 2 ^ 12 + k.
Proof. unfold window_addr. change (2 ^ 12) with 4096. by rewrite Z.div_add. Qed.

Lemma crossings_step i :
  0 < i ->
  crossings (i + 1) = crossings i + (if decide (window_addr (i - 1) / 2 ^ 21 = window_addr i / 2 ^ 21) then 0 else 1).
Proof.
  intros Hi. unfold crossings. replace (i + 1 - 1) with i by lia.
  destruct (decide _); [lia|].
  assert (window_addr i = window_addr (i - 1) + 4096) as E by (unfold window_addr; lia).
  rewrite E in *. change (2 ^ 21) with 2097152 in *. Z.to_euclidean_division_equations. lia.
Qed.

Lemma crossings_bound i : 0 < i <= 10752 -> 0 <= crossings i <= 21.
Proof. intros Hi. unfold crossings, window_addr. change (2 ^ 21) with 2097152. Z.to_euclidean_division_equations. lia. Qed.

Lemma window_step i st :
  0 <= i < 10752 -> window_inv i st ->
  exists st', map_kernel_page physbase i st = Ret st' /\ window_inv (i + 1) st'.
Proof.
  intros Hi ([lev HT] & HR & Hmap & Hroom & HW). unfold map_kernel_page, BLOCK_SIZE, VIRT_PAGE_SIZE.
  pose proof (window_range i Hi) as Hrange. unfold window_addr in Hrange.
  rewrite uwrap_small by (unfold virt_base; lia).
  replace (virt_base + physbase + i * 4096) with (virt_base + window_addr i) by (unfold window_addr; lia).
  destruct (window_offsets (window_addr i)) as (O4 & _ & _ & _ & Oo); [done|].
  assert (exists k, room (absent st (virt_base + window_addr i)%Z + k) (frames st) /\
    (k >= Z.to_nat (22 - crossings (i + 1)))%nat) as (k & Hk & Hkge).
  { destruct (decide (i = 0)) as [->|Hi0].
    - exists 22%nat. split; [|unfold crossings, window_addr; replace (physbase + (0 + 1 - 1) * 4096) with physbase by lia; lia].
      eapply room_weaken; [|done]. unfold absent, missing. repeat case_match; lia.
    - assert (absent st (virt_base + window_addr i)%Z <=
        if decide (window_addr (i - 1) / 2 ^ 21 = window_addr i / 2 ^ 21)%Z then 0 else 1)%nat as Hab.
      { eapply (window_absent _ _ _ (0x200000 + (i - 1) * 4096)); [apply window_range; lia|done|].
        rewrite HR. apply Hmap. lia. }
      exists (Z.to_nat (22 - crossings (i + 1))). split; [|lia]. eapply room_weaken; [|done].
      rewrite crossings_step by lia. pose proof (crossings_bound (i + 1)) as B.
      rewrite crossings_step in B by lia. destruct (decide _); lia. }
  destruct (vmmgr_map_page_cases lev st (0x200000 + i * 4096) (virt_base + window_addr i))
    as [[_ Hno]|(st' & E & HT' & HR' & Htr & Hkeep & Hrm & HW')]; [done| |lia| |].
  { split; [lia|]. replace (0x200000 + i * 4096) with ((512 + i) * 4096) by lia. apply Z_mod_mult. }
  { exfalso. apply Hno. eapply room_weaken; [|done]. lia. }
  exists st'. split; [done|]. split_and!; [done|congruence| | |congruence].
  - intros j Hj. rewrite <- HR. destruct (decide (j = i)) as [->|Hne].
    + rewrite Htr, Oo, window_addr_mod. f_equal. lia.
    + destruct (window_offsets (window_addr j)) as (P4 & _); [apply window_range; lia|].
      apply Hkeep; [lia| |rewrite HR; apply Hmap; lia].
      rewrite window_same_page by (apply window_range; lia). rewrite !window_addr_page. lia.
  - rewrite decide_False by lia. eapply room_weaken; [|by apply Hrm]. lia.
Qed.
End kernel_window.

(** The state in which the mapping loops start. *)
Lemma boot_state_inv st f p physbase :
  wf (frames st) -> (forall a, entry_ok (mem st a)) -> room 26 (frames st) ->
  alloc_result (frames st) f p -> p <> 0 ->
  let m := mem_zero (mem st) p 4096 in
  window_inv p physbase (words_in_use (frames st)) 0
    (with_base (with_mem (with_mem (with_frames st f) m)
      (mem_set m (p + 8 * 510) (set_pml4_entry_recurs (m (p + 8 * 510)) p false))) p).
Proof.
  intros Hwf Hok Hroom Ha Hp m. pose proof (alloc_result_wf _ _ _ Hwf Ha) as Hwf'.
  pose proof (alloc_result_fresh _ _ _ Hwf Ha Hp) as [Hheld _].
  destruct (held_frame _ _ Hwf' Hheld) as (Hfa & _).
  change (set_pml4_entry_recurs (m (p + 8 * 510)) p false) with (set_page_entry (m (p + 8 * 510)) p false).
  assert (forall a, entry_ok (m a)) as Hm by by apply mem_zero_ok.
  split_and!; [|done|lia| |by inversion Ha].
  - exists (boot_level p). apply boot_tree with (set_page_entry (m (p + 8 * 510)) p false).
    + done.
    + done.
    + done.
    + apply mem_set_ok; [done|by apply set_page_entry_ok].
    + intros i Hi Hne. cbn [mem with_base with_mem]. rewrite (slot_mem_set f) by (done || lia).
      rewrite decide_False by lia. by apply slot_zeroed.
    + cbn [mem with_base with_mem]. rewrite (slot_mem_set f) by (done || lia). by rewrite decide_True.
    + apply set_page_entry_present; [apply Hm|done].
    + by apply set_page_entry_phys.
  - rewrite decide_True by done. by apply (room_alloc 25 (frames st) f p).
Qed.

Definition init_result (st' : vmm) (physbase kphysfree : Z) : Prop :=
  walk (mem st') (cr3 st') 510 = Some (cr3 st') /\
  (forall k, 0 <= k < 10752 ->
    translate (mem st') (cr3 st') (virt_base + window_addr physbase k) = Some (0x200000 + k * 4096)) /\
  translate (mem st') (cr3 st') 0xFFFFFFFF80100000 = Some 0xB8000 /\
  bump_addr st' = u64 (virt_base + kphysfree).

Lemma activate_tables_returns st2 p W physbase kphysfree :
  physbase mod 4096 = 0 -> 0x101000 <= physbase -> physbase + 10752 * 4096 <= 2 ^ 30 ->
  0 < p -> 160 <= W -> window_inv p physbase W 10752 st2 ->
  exists st', activate_tables st2 p kphysfree = Ret st' /\ init_result st' physbase kphysfree /\ cr3 st' = p.
Proof.
  intros Hpage Hlow Hhigh Hpos HW ([lev HT] & HR & Hmap & Hrm & HW2). unfold activate_tables.
  destruct (window_offsets 0x100000) as (O4 & _); [lia|].
  change 0xFFFFFFFF80100000 with (virt_base + 0x100000) in *.
  assert (absent st2 (virt_base + 0x100000) <= 1)%nat as Hab.
  { pose proof (window_absent st2 (window_addr physbase 0) 0x100000 (0x200000 + 0 * 4096)) as B.
    specialize (B (window_range physbase Hlow Hhigh 0 ltac:(lia)) ltac:(lia)). rewrite HR in B.
    specialize (B (Hmap 0 ltac:(lia))). etransitivity; [exact B|]. case_decide; lia. }
  destruct (vmmgr_map_page_cases lev st2 0xB8000 (virt_base + 0x100000))
    as [[_ Hno]|(st3 & -> & [lev3 HT3] & HR3 & Htr & Hkeep & _ & HW3)]; [done|by_computation|lia| |].
  { exfalso. apply Hno. eapply room_weaken; [|done]. rewrite decide_False by lia.
    pose proof (crossings_bound physbase Hpage 10752). lia. }
  cbn [mbind outcome_bind].
  change 0xFFFFFF7FBFDFE000 with RECURSIVE_ENTRY. rewrite HR in HR3. rewrite <- HR3.
  rewrite (map_recursive lev3 st3 HT3). cbn [mbind outcome_bind].
  pose proof (rec_tree lev3 st3 HT3) as HT4. pose proof (rec_translate lev3 st3 HT3) as Htr4.
  pose proof (rec_walk lev3 st3 HT3) as W4.
  set (st4 := with_mem st3 _) in *. unfold vmmgr_switch_pml4_directory.
  destruct (Z.eqb_spec (root st3) 0); [lia|]. cbn [mbind outcome_bind frames with_kernel_pgd].
  destruct (reserve_loop (Z.to_nat (MY_KERNEL_SIZE * 256 - 512)) 512 (frames st4)) as (f5 & E5 & _).
  { lia. }
  { destruct (tree_frames _ _ HT4) as (_ & _ & Hl & _). change (frames st4) with (frames st3) in *.
    change (Z.to_nat (MY_KERNEL_SIZE * 256 - 512)) with (Z.to_nat 9728). lia. }
  { change (Z.to_nat (MY_KERNEL_SIZE * 256 - 512)) with (Z.to_nat 9728). lia. }
  unfold mmgr_syncwith_kernel. rewrite E5. cbn [mbind outcome_bind].
  eexists. split; [done|]. split; [|by cbn; congruence]. unfold init_result.
  change 0xFFFFFFFF80100000 with (virt_base + 0x100000).
  cbn [mem cr3 bump_addr with_bump_start init_bump_addr with_bump with_frames with_kernel_pgd].
  split_and!; [done| | |done].
  - intros k Hk. pose proof (window_range physbase Hlow Hhigh k Hk).
    destruct (window_offsets (window_addr physbase k)) as (P4 & _); [done|].
    apply Htr4; [lia|]. rewrite HR3, <- HR. apply Hkeep; [lia| |by rewrite HR; apply Hmap].
    rewrite window_same_page by lia. rewrite window_addr_page by done.
    change (0x100000 / 2 ^ 12) with 256. intros E.
    assert (257 <= physbase / 2 ^ 12) by (apply Z.div_le_lower_bound; lia). lia.
  - apply Htr4; [lia|]. rewrite HR3, <- HR, Htr. by vm_compute.
Qed.

Lemma vmmgr_init_returns st physbase kphysfree :
  wf (frames st) -> 160 <= words_in_use (frames st) -> (forall a, entry_ok (mem st a)) ->
  room 26 (frames st) ->
  physbase mod 4096 = 0 -> 0x101000 <= physbase -> physbase + 10752 * 4096 <= 2 ^ 30 ->
  exists st' f, vmmgr_init st physbase kphysfree = Ret st' /\ init_result st' physbase kphysfree /\
    alloc_block (frames st) = Ret (f, cr3 st').
Proof.
  intros Hwf HW Hok Hroom Hpage Hlow Hhigh. unfold vmmgr_init.
  destruct (alloc_block_cases _ Hwf) as (f & p & E0 & Ha). rewrite E0. cbn [mbind outcome_bind fst snd].
  destruct (room_alloc 25 _ _ _ Hwf Hroom Ha) as [Hp _].
  destruct (Z.eqb_spec p 0); [done|].
  pose proof (alloc_result_fresh _ _ _ Hwf Ha Hp) as [Hheld _].
  destruct (held_frame f p (alloc_result_wf _ _ _ Hwf Ha) Hheld) as (_ & Hpos & _).
  unfold load, store. change (8 * 0x1FE) with (8 * 510).
  destruct (Z.eqb_spec (p + 8 * 510) 0); [lia|]. cbn [mbind outcome_bind].
  pose proof (boot_state_inv st f p physbase Hwf Hok Hroom Ha Hp) as I0. cbv zeta in I0.
  destruct (for_loop_ind (window_inv p physbase (words_in_use (frames st))) (map_kernel_page physbase)
    (Z.to_nat PAGES_PER_TABLE) 0 _ I0) as (st1 & E1 & I1).
  { intros i s Hi. apply window_step; try done. unfold PAGES_PER_TABLE in Hi. lia. }
  cbn [mem with_mem with_frames]. rewrite E1. cbn [mbind outcome_bind]. clear I0 E1.
  destruct (for_loop_ind (window_inv p physbase (words_in_use (frames st))) (map_kernel_page physbase)
    (Z.to_nat (MY_KERNEL_SIZE / 2 * PAGES_PER_TABLE)) PAGES_PER_TABLE _ I1) as (st2 & -> & I2).
  { intros i s Hi. apply window_step; try done.
    change (Z.to_nat (MY_KERNEL_SIZE / 2 * PAGES_PER_TABLE)) with (Z.to_nat 10240) in Hi.
    unfold PAGES_PER_TABLE in Hi. lia. }
  cbn [mbind outcome_bind]. clear I1.
  change (PAGES_PER_TABLE + Z.of_nat (Z.to_nat (MY_KERNEL_SIZE / 2 * PAGES_PER_TABLE))) with 10752 in I2.
  destruct (activate_tables_returns st2 p (words_in_use (frames st)) physbase kphysfree) as (st' & E & HI & <-); [done..|].
  by exists st', f.
Qed.

(** ** Claims *)

(** C2: on a well-formed table tree, in a memory whose words have bits 44 to 51
    clear, with three free frames, [vmmgr_map_page] returns, and afterwards the
    processor translates the virtual address, which is outside the slot 510 the
    root uses for itself, to the given frame plus the page offset, the tables
    still form such a tree under the same root, and every other page outside
    that slot that had a translation keeps it. *)
Theorem vmmgr_map_page_translates lev st phys virt :
  tree lev st -> frame_addr phys -> PAGE_PML4_OFFSET virt <> 510 -> room 3 (frames st) ->
  exists lev' st', vmmgr_map_page st phys virt = Ret st' /\ tree lev' st' /\ root st' = root st /\
    translate (mem st') (root st) virt = Some (phys + Z.land virt 0xFFF) /\
    (forall v pa, PAGE_PML4_OFFSET v <> 510 -> ~ same_page v virt ->
      translate (mem st) (root st) v = Some pa -> translate (mem st') (root st) v = Some pa).
Proof.
  intros HT Hphys Hv Hroom.
  destruct (vmmgr_map_page_cases lev st phys virt HT Hphys Hv) as
    [[_ Hno]|(st' & E & [lev' HT'] & HR & Htr & Hkeep & _)].
  - exfalso. apply Hno. eapply room_weaken; [|done]. unfold absent, missing. repeat case_match; lia.
  - by exists lev', st'.
Qed.

(** A machine whose frames 0 and 1 are taken, frame 1 being the top-level
    table. *)
Definition small_machine : vmm :=
  Vmm (mem_set (fun _ => 0) (0x1000 + 8 * 510) 0x1003) (Bitmap [3; 0] 2 128) 0 0 0x1000 0 0 0 0.

Lemma small_machine_tree : tree (boot_level 0x1000) small_machine.
Proof.
  apply boot_tree with 0x1003; [by_computation| |done| | |done|done|done].
  - exists 1. split_and!; vm_compute; congruence.
  - intros a. unfold small_machine, mem_set. cbn [mem]. destruct (_ =? _); by_computation.
  - intros i Hi Hne. unfold slot, small_machine, mem_set. cbn [mem].
    destruct (Z.eqb_spec (0x1000 + 8 * i) (0x1000 + 8 * 510)); [lia|done].
Qed.

Example vmmgr_map_page_translates_witness :
  exists lev' st', vmmgr_map_page small_machine 0x7000 0x400123 = Ret st' /\ tree lev' st' /\
    translate (mem st') 0x1000 0x400123 = Some 0x7123.
Proof.
  destruct (vmmgr_map_page_translates (boot_level 0x1000) small_machine 0x7000 0x400123)
    as (lev' & st' & E & HT & _ & Htr & _);
    [exact small_machine_tree|by_computation|by_computation|by_computation|].
  exists lev', st'. split; [exact E|]. split; [exact HT|]. exact Htr.
Defined.

(** Byte by byte, from the pages of the window. *)
Lemma window_maps st' physbase :
  physbase mod 4096 = 0 -> 0x101000 <= physbase -> physbase + 10752 * 4096 <= 2 ^ 30 ->
  (forall k, 0 <= k < 10752 ->
    translate (mem st') (cr3 st') (virt_base + window_addr physbase k) = Some (0x200000 + k * 4096)) ->
  forall x, 0 <= x < 10752 * 4096 ->
    translate (mem st') (cr3 st') (virt_base + physbase + x) = Some (0x200000 + x).
Proof.
  intros Hpage Hlow Hhigh Hmap x Hx. pose proof (Z.mod_pos_bound x 4096). pose proof (Z.div_mod x 4096).
  assert (0 <= x / 4096 < 10752) as Hk by (split; [apply Z.div_pos|apply Z.div_lt_upper_bound]; lia).
  assert (physbase + x = window_addr physbase (x / 4096) + x mod 4096) as Ex
    by (unfold window_addr; lia).
  assert (same_page (virt_base + window_addr physbase (x / 4096)) (virt_base + (physbase + x))) as Hsp.
  { apply window_same_page; [by apply window_range|lia|].
    rewrite Ex, window_addr_page by done. unfold window_addr. change (2 ^ 12) with 4096.
    replace (physbase + x / 4096 * 4096 + x mod 4096) with (physbase + x mod 4096 + x / 4096 * 4096) by lia.
    rewrite Z.div_add by lia. f_equal.
    apply Z.div_unique_pos with (x mod 4096); [lia|]. pose proof (Z.div_mod physbase 4096). lia. }
  rewrite <- Z.add_assoc, (translate_same_page _ _ _ _ _ Hsp (Hmap _ Hk)).
  destruct (window_offsets (physbase + x)) as (_ & _ & _ & _ & ->); [lia|].
  destruct (window_offsets (window_addr physbase (x / 4096))) as (_ & _ & _ & _ & ->);
    [by apply window_range|].
  rewrite window_addr_mod by done. rewrite <- Zplus_mod_idemp_l, Hpage. change (0 + x) with x.
  apply (f_equal Some). lia.
Qed.

(** C3: on a machine with 26 free frames, a frame bitmap of at least 40 MiB,
    whose memory words all have bits 44 to 51 clear ([entry_ok]: what a table
    frame held before is read as entries, because only its first 8 bytes are
    cleared), and with a kernel loaded at a page-aligned [physbase] from
    0x101000 (so that its window does not contain the page of the video memory)
    that leaves room for 42 MiB below 1 GiB, [vmmgr_init] returns with its table
    active: every byte of the 42 MiB window at [0xFFFFFFFF80000000 + physbase]
    translates to the frames from 2 MiB upwards, the video memory page to
    0xB8000, slot 510 leads back to the table, and the bump allocator starts at
    the end of the loaded image. *)
Theorem vmmgr_init_maps_kernel st physbase kphysfree :
  wf (frames st) -> 160 <= words_in_use (frames st) -> (forall a, entry_ok (mem st a)) ->
  room 26 (frames st) ->
  physbase mod 4096 = 0 -> 0x101000 <= physbase -> physbase + 10752 * 4096 <= 2 ^ 30 ->
  exists st', vmmgr_init st physbase kphysfree = Ret st' /\
    (forall x, 0 <= x < 10752 * 4096 ->
      translate (mem st') (cr3 st') (virt_base + physbase + x) = Some (0x200000 + x)) /\
    (forall o, 0 <= o < 4096 ->
      translate (mem st') (cr3 st') (0xFFFFFFFF80100000 + o) = Some (0xB8000 + o)) /\
    walk (mem st') (cr3 st') 510 = Some (cr3 st') /\ bump_addr st' = u64 (virt_base + kphysfree).
Proof.
  intros Hwf HW Hok Hroom Hpage Hlow Hhigh.
  destruct (vmmgr_init_returns st physbase kphysfree) as (st' & f & E & (Hrec & Hmap & Hvga & Hbump) & _); [done..|].
  exists st'. split_and!; try done.
  - by apply window_maps.
  - intros o Ho. change 0xFFFFFFFF80100000 with (virt_base + 0x100000) in Hvga |- *.
    assert (same_page (virt_base + 0x100000) (virt_base + (0x100000 + o))) as Hsp.
    { apply window_same_page; [lia..|]. change (0x100000 / 2 ^ 12) with 256.
      apply Z.div_unique_pos with o; lia. }
    rewrite <- Z.add_assoc, (translate_same_page _ _ _ _ _ Hsp Hvga).
    destruct (window_offsets (0x100000 + o)) as (_ & _ & _ & _ & ->); [lia|].
    destruct (window_offsets 0x100000) as (_ & _ & _ & _ & ->); [lia|].
    change (0x100000 mod 4096) with 0. rewrite <- Zplus_mod_idemp_l.
    change (0x100000 mod 4096) with 0. change (0 + o) with o. rewrite (Z.mod_small o) by lia. apply (f_equal Some). lia.
Qed.

Definition boot_machine : vmm :=
  Vmm (fun _ => 0) (Bitmap (1 :: replicate 167 0) 1 10752) 0 0 0 0 0 0 0.

Example vmmgr_init_maps_kernel_witness :
  exists st', vmmgr_init boot_machine 0x200000 0x2C00000 = Ret st' /\
    (forall x, 0 <= x < 10752 * 4096 ->
      translate (mem st') (cr3 st') (virt_base + 0x200000 + x) = Some (0x200000 + x)).
Proof.
  destruct (vmmgr_init_maps_kernel boot_machine 0x200000 0x2C00000) as (st' & E & H & _);
    [by_computation|vm_compute; congruence|intros a; exact entry_ok_0|by_computation|reflexivity|
     vm_compute; congruence|vm_compute; congruence|].
  exists st'. split; [exact E|exact H].
Defined.

(** A machine whose free frames still hold an old page table. *)
Definition stale_machine : vmm :=
  Vmm (fun a => if a =? 0x1000 + 8 * 510 then 0x1003
                else if a =? 0x4000 + 8 * 5 then 0x9003 else 0)
      (Bitmap [3; 0] 2 128) 0 0 0x1000 0 0 0 0.

(** The page table that [vmmgr_map_page] adds is cleared for the size of a
    pointer only, so words left in the frame become translations: after one
    page is mapped, another page that was never mapped translates to a stale
    frame. *)
Theorem map_page_stale_entries :
  exists st', vmmgr_map_page stale_machine 0x7000 0x400000 = Ret st' /\
    translate (mem stale_machine) 0x1000 0x405000 = None /\
    translate (mem st') 0x1000 0x405000 = Some 0x9000.
Proof.
  assert (translate (mem stale_machine) 0x1000 0x405000 = None) as H0 by (vm_compute; reflexivity).
  assert ((fun st => translate (mem st) 0x1000 0x405000) <$>
    vmmgr_map_page stale_machine 0x7000 0x400000 = Ret (Some 0x9000)) as H by (vm_compute; reflexivity).
  destruct (vmmgr_map_page stale_machine 0x7000 0x400000) as [st'| | |]; try done.
  exists st'. split; [done|]. split; [done|]. by injection H.
Qed.

(** ** The bump allocator *)

(** The pages handed out by a sequence of [sub_malloc(pages, 1)] calls, each
    with the number of pages asked for. *)
Fixpoint bump_run (st : vmm) (asks : list Z) : list (Z * Z) :=
  match asks with
  | [] => []
  | n :: asks => let r := vmmgr_alloc_page st n in (r.2, n) :: bump_run r.1 asks
  end.

(** The first address after everything handed out so far. *)
Definition bump_next (st : vmm) : Z := bump_addr st + 4096 * (1 + prev_no_pages st).

Fixpoint bump_total (asks : list Z) : Z :=
  match asks with [] => 0 | n :: asks => 4096 * (1 + n) + bump_total asks end.

Lemma bump_run_above st asks a n :
  0 <= bump_addr st -> 0 <= prev_no_pages st < 2 ^ 16 -> Forall (fun n => 0 <= n < 2 ^ 16) asks ->
  bump_next st + bump_total asks < 2 ^ 64 -> (a, n) ∈ bump_run st asks ->
  bump_next st <= a /\ a + 4096 * (1 + n) <= bump_next st + bump_total asks.
Proof.
  revert st. induction asks as [|k asks IH]; intros st Hb Hp Hall Hfit Hin; cbn [bump_run] in Hin.
  - set_solver.
  - apply Forall_cons in Hall as [Hk Hall]. cbn [bump_total] in *.
    assert (0 <= bump_total asks) as Ht.
    { clear -Hall. induction Hall; simpl bump_total; lia. }
    unfold bump_next in *. unfold vmmgr_alloc_page, VIRT_PAGE_SIZE in Hin. cbn [fst snd] in Hin.
    rewrite (uwrap_small 64) in Hin by lia. rewrite (uwrap_small 16) in Hin by lia.
    apply elem_of_cons in Hin as [[= -> ->]|Hin]; [lia|].
    apply IH in Hin; [|cbn [bump_addr prev_no_pages with_bump] in *; (done || lia)..].
    cbn [bump_addr prev_no_pages with_bump] in Hin. lia.
Qed.

(** The ranges of kernel pages that successive [vmmgr_alloc_page] calls
    hand out, each call's page plus the pages it asked for beyond it, follow
    one another without overlap, as long as the addresses do not wrap. *)
Theorem vmmgr_alloc_page_disjoint st asks i j a n b k :
  0 <= bump_addr st -> 0 <= prev_no_pages st < 2 ^ 16 -> Forall (fun n => 0 <= n < 2 ^ 16) asks ->
  bump_next st + bump_total asks < 2 ^ 64 -> (i < j)%nat ->
  bump_run st asks !! i = Some (a, n) -> bump_run st asks !! j = Some (b, k) ->
  bump_next st <= a /\ a + 4096 * (1 + n) <= b.
Proof.
  revert st i j. induction asks as [|c asks IH]; intros st i j Hb Hp Hall Hfit Hij Hi Hj; [done|].
  assert (bump_next st <= a) as Ha.
  { eapply bump_run_above; [exact Hb|exact Hp|exact Hall|exact Hfit|].
    by apply list_elem_of_lookup_2 in Hi. }
  split; [done|].
  apply Forall_cons in Hall as [Hc Hall]. cbn [bump_total] in *.
  assert (0 <= bump_total asks) as Ht.
  { clear -Hall. induction Hall; simpl bump_total; lia. }
  cbn [bump_run] in Hi, Hj. unfold bump_next in *. unfold vmmgr_alloc_page, VIRT_PAGE_SIZE in Hi, Hj.
  cbn [fst snd] in Hi, Hj. rewrite (uwrap_small 64), (uwrap_small 16) in Hi, Hj by lia.
  destruct j as [|j]; [lia|]. cbn [lookup list_lookup] in Hj. destruct i as [|i].
  - injection Hi as <- <-. apply list_elem_of_lookup_2, bump_run_above in Hj;
      [|cbn [bump_addr prev_no_pages with_bump bump_next] in *; unfold bump_next; cbn [bump_addr prev_no_pages with_bump]; (done || lia)..].
    unfold bump_next in Hj. cbn [bump_addr prev_no_pages with_bump] in Hj. lia.
  - cbn [lookup list_lookup] in Hi. eapply IH in Hi as [_ ?]; [done|..|exact Hj];
      unfold bump_next; cbn [bump_addr prev_no_pages with_bump]; (done || lia).
Qed.

Example vmmgr_alloc_page_disjoint_witness :
  bump_next boot_machine <= 0x3000 /\ 0x3000 + 4096 * (1 + 0) <= 0x4000.
Proof.
  apply (vmmgr_alloc_page_disjoint boot_machine [1; 0; 2] 1 2 0x3000 0 0x4000 2);
    [by_computation..|lia|reflexivity|reflexivity].
Defined.
