(* ===== verification/KHeap.v ===== *)
(** * The kernel heap (sys/mm/myalloc.c)

    First-fit chunks threaded through 16-byte headers, carved out of pages of
    the bump allocator.  The theorems give the chunk search, the rounding of
    sizes and the geometry of a split, and what the missing updates of the
    [free] flag lead to. *)

From S2P Require Import Prelude Bitmap PageEntry Paging.

Module MyAlloc.

(** ** State *)

(** [struct metadata_block]: a pointer and two 16-bit fields, padded to 16
    bytes. *)
Record metadata_block := Block { next : Z; size : Z; free : Z }.

#[export] Instance metadata_block_eq_dec : EqDecision metadata_block.
Proof. solve_decision. Defined.

Definition ALLOC_BLOCK_SIZE : Z := 16.

(** [blocks] holds the headers written so far, by address. *)
Record kheap := KHeap {
  blocks : gmap Z metadata_block;
  base : Z;
  last : Z;
  vm : vmm
}.

Definition with_blocks (h : kheap) (b : gmap Z metadata_block) : kheap :=
  KHeap b (base h) (last h) (vm h).
Definition with_last (h : kheap) (p : Z) : kheap := KHeap (blocks h) (base h) p (vm h).
Definition with_base (h : kheap) (p : Z) : kheap := KHeap (blocks h) p (last h) (vm h).
Definition with_vm (h : kheap) (v : vmm) : kheap := KHeap (blocks h) (base h) (last h) v.

Definition header (h : kheap) (p : Z) : outcome metadata_block := defined (blocks h !! p).
Definition put (h : kheap) (p : Z) (b : metadata_block) : kheap :=
  with_blocks h (<[p := b]> (blocks h)).
Definition put_free (h : kheap) (p v : Z) : outcome kheap :=
  b ← header h p; Ret (put h p (Block (next b) (size b) v)).
Definition put_next (h : kheap) (p v : Z) : outcome kheap :=
  b ← header h p; Ret (put h p (Block v (size b) (free b))).

(** ** Operations *)

(** [#define align(x) (((x-1)>>3)<<3)+8], stored in 16 bits. *)
Definition align (x : Z) : Z := u16 (Z.shiftl (Z.shiftr (x - 1) 3) 3 + 8).

(** [while (b && !(b->free && b->size >= size)) { *last = b; b = b->next; }] *)
Fixpoint find_block_from (n : nat) (h : kheap) (b sz : Z) : outcome (kheap * Z) :=
  if b =? 0 then Ret (h, 0) else
  m ← header h b;
  if negb (free m =? 0) && (sz <=? size m) then Ret (h, b) else
  match n with
  | O => Loops
  | S n => find_block_from n (with_last h b) (next m) sz
  end.

Definition find_block (h : kheap) (sz : Z) : outcome (kheap * Z) :=
  find_block_from (stdpp.base.size (blocks h)) h (base h) sz.

(** The argument [size] is not used. *)
Definition extend_heap (h : kheap) (last sz : Z) : outcome (kheap * Z) :=
  let r := vmmgr_alloc_page (vm h) 0 in
  let b := r.2 in
  if b =? 0 then Panic else
  let h := put (with_vm h r.1) b (Block 0 0x1000 0) in
  h ← (if last =? 0 then Ret h else put_next h last b);
  h ← put_free h b 1;
  Ret (h, b).

Definition sub_free (h : kheap) (p : Z) : outcome kheap :=
  put_free h (u64 (p - ALLOC_BLOCK_SIZE)) 1.

Definition split_block (h : kheap) (b sz : Z) : outcome kheap :=
  let tot_size := u16 (sz + ALLOC_BLOCK_SIZE) in
  let new := u64 (b + ALLOC_BLOCK_SIZE * (1 + tot_size / ALLOC_BLOCK_SIZE)) in
  m ← header h b;
  let h := put h new (Block (next m) (u16 (size m - tot_size)) 1) in
  m ← header h b;
  Ret (put h b (Block new sz (free m))).

(** [sub_malloc(size, align)]; the results of [extend_heap] are never null. *)
Definition sub_malloc (h : kheap) (sz : Z) (aligned : bool) : outcome (kheap * Z) :=
  if aligned then
    let r := vmmgr_alloc_page (vm h) sz in Ret (with_vm h r.1, r.2)
  else
    let s := align sz in
    if negb (base h =? 0) then
      r ← find_block (with_last h (base h)) s;
      let h := r.1 in
      let b := r.2 in
      if negb (b =? 0) then
        m ← header h b;
        h ← (if ALLOC_BLOCK_SIZE + 4 <=? size m - s then split_block h b s else Ret h);
        h ← put_free h b 0;
        Ret (h, u64 (b + ALLOC_BLOCK_SIZE))
      else
        h ← put_free h (last h) 0;
        r ← extend_heap h (last h) s;
        h ← split_block r.1 r.2 s;
        Ret (h, u64 (r.2 + ALLOC_BLOCK_SIZE))
    else
      r ← extend_heap h (last h) s;
      h ← split_block (with_base r.1 r.2) r.2 s;
      Ret (h, u64 (r.2 + ALLOC_BLOCK_SIZE)).

(** ** Rounding *)

(** Sizes are rounded up to a multiple of 8, except that those within seven of
    65536 wrap to 0. *)
Lemma align_eq x : 0 <= x < 2 ^ 16 -> align x = u16 (8 * ((x + 7) / 8)).
Proof.
  intros Hx. unfold align. f_equal. rewrite Z.shiftl_mul_pow2, Z.shiftr_div_pow2 by lia.
  replace (x + 7) with (x - 1 + 1 * 8) by lia. rewrite Z.div_add by lia. change (2 ^ 3) with 8. lia.
Qed.

(** ** Chains of headers *)

(** [chain h b l]: following [next] from [b] visits the headers [l] and ends in
    a null pointer. *)
Fixpoint chain (h : kheap) (b : Z) (l : list Z) : Prop :=
  match l with
  | [] => b = 0
  | p :: l => b = p /\ p <> 0 /\ exists m, blocks h !! p = Some m /\ chain h (next m) l
  end.

Definition fits (h : kheap) (sz p : Z) : bool :=
  match blocks h !! p with
  | Some m => negb (free m =? 0) && (sz <=? size m)
  | None => false
  end.

(** The first header of the chain that fits, with the ones before it. *)
Fixpoint first_fit (h : kheap) (sz : Z) (l : list Z) : option (list Z * Z) :=
  match l with
  | [] => None
  | p :: l =>
    if fits h sz p then Some ([], p) else
    match first_fit h sz l with Some (l1, q) => Some (p :: l1, q) | None => None end
  end.

Lemma chain_blocks h h' b l : blocks h' = blocks h -> chain h b l -> chain h' b l.
Proof.
  intros E. revert b. induction l as [|p l IH]; intros b; simpl; [done|].
  intros (-> & Hp & m & Hm & Hc). split_and!; [done..|]. exists m. rewrite E. eauto.
Qed.

Lemma chain_elem h b l p : chain h b l -> p ∈ l -> is_Some (blocks h !! p).
Proof.
  revert b. induction l as [|q l IH]; intros b Hc Hin; [set_solver|].
  destruct Hc as (-> & _ & m & Hm & Hc). apply elem_of_cons in Hin as [->|Hin]; [by eexists|eauto].
Qed.

Lemma chain_length h b l : chain h b l -> NoDup l -> (length l <= stdpp.base.size (blocks h))%nat.
Proof.
  intros Hc Hnd. rewrite <- size_dom. rewrite <- (size_list_to_set (C := gset Z) l Hnd).
  apply subseteq_size. intros p Hp%elem_of_list_to_set. apply elem_of_dom. by eapply chain_elem.
Qed.

Lemma first_fit_split h sz l l1 q :
  first_fit h sz l = Some (l1, q) ->
  fits h sz q = true /\ Forall (fun p => fits h sz p = false) l1 /\ exists l2, l = l1 ++ q :: l2.
Proof.
  revert l1. induction l as [|p l IH]; intros l1; simpl; [done|].
  destruct (fits h sz p) eqn:E; [intros [= <- <-]; split_and!; [done|done|by exists l]|].
  destruct (first_fit h sz l) as [[l1' q']|]; [|done]. intros [= <- <-].
  destruct (IH l1' eq_refl) as (Hq & Hl & l2 & ->). split_and!; [done|by constructor|by exists l2].
Qed.

Lemma fits_blocks h h' sz p : blocks h' = blocks h -> fits h' sz p = fits h sz p.
Proof. intros E. unfold fits. by rewrite E. Qed.

Lemma first_fit_blocks h h' sz l : blocks h' = blocks h -> first_fit h' sz l = first_fit h sz l.
Proof.
  intros E. induction l as [|p l IH]; [done|]. simpl. by rewrite (fits_blocks h h') by done; rewrite IH.
Qed.

(** The search along a chain. *)
Lemma find_block_from_spec n h b sz l :
  chain h b l -> (length l <= n)%nat ->
  find_block_from n h b sz =
    match first_fit h sz l with
    | Some (l1, q) => Ret (with_last h (List.last l1 (last h)), q)
    | None => Ret (with_last h (List.last l (last h)), 0)
    end.
Proof.
  revert h b n. induction l as [|p l IH]; intros h b n Hc Hn.
  - simpl in Hc. subst b. destruct n; simpl; by destruct h.
  - destruct Hc as (-> & Hp & m & Hm & Hc). simpl length in Hn. destruct n as [|n]; [lia|].
    simpl find_block_from. destruct (Z.eqb_spec p 0); [done|].
    unfold header. rewrite Hm. cbn [defined mbind outcome_bind]. simpl first_fit. unfold fits at 1.
    rewrite Hm. destruct (negb (free m =? 0) && (sz <=? size m)); [by destruct h|].
    rewrite (IH (with_last h p)) by ((by apply (chain_blocks h)) || lia).
    rewrite (first_fit_blocks h (with_last h p)) by done.
    destruct (first_fit h sz l) as [[l1 q]|]; by rewrite last_cons_default.
Qed.

(** ** One call *)

Lemma header_put h p b : header (put h p b) p = Ret b.
Proof. unfold header, put. cbn [blocks with_blocks]. by rewrite lookup_insert_eq. Qed.

Lemma header_put_ne h p q b : p <> q -> header (put h q b) p = header h p.
Proof. intros. unfold header, put. cbn [blocks with_blocks]. by rewrite lookup_insert_ne. Qed.

(** Where a split of the chunk at [b] puts the next header. *)
Definition split_point (b sz : Z) : Z := b + 16 * (1 + (sz + 16) / 16).

Lemma split_block_spec h b sz m :
  blocks h !! b = Some m -> 0 <= b -> 0 <= sz -> sz + 16 < 2 ^ 16 -> b + 2 ^ 17 < 2 ^ 64 ->
  split_block h b sz =
    Ret (put (put h (split_point b sz) (Block (next m) (u16 (size m - (sz + 16))) 1))
             b (Block (split_point b sz) sz (free m))) /\
  b < split_point b sz.
Proof.
  intros Hm Hb Hsz Hs Hfit. unfold split_block, ALLOC_BLOCK_SIZE.
  rewrite (uwrap_small 16 (sz + 16)) by lia.
  assert (1 <= (sz + 16) / 16 < 2 ^ 12) as Hd.
  { split; [apply Z.div_le_lower_bound|apply Z.div_lt_upper_bound]; lia. }
  rewrite (uwrap_small 64) by lia. fold (split_point b sz).
  assert (b < split_point b sz) as Hlt by (unfold split_point; lia).
  split; [|done]. assert (header h b = Ret m) as Hh by (unfold header; by rewrite Hm).
  rewrite Hh. cbn [mbind outcome_bind]. rewrite header_put_ne, Hh by lia. done.
Qed.

Lemma align_range x : 0 <= align x < 2 ^ 16.
Proof. apply uwrap_range. lia. Qed.

(** The branch of [sub_malloc] on which a chunk is found. *)
Lemma sub_malloc_found h sz l l1 q m :
  chain h (base h) l -> NoDup l -> base h <> 0 -> align sz + 16 < 2 ^ 16 ->
  first_fit h (align sz) l = Some (l1, q) -> blocks h !! q = Some m ->
  0 <= q -> q + 2 ^ 17 < 2 ^ 64 ->
  exists h' m', sub_malloc h sz false = Ret (h', u64 (q + 16)) /\
    blocks h' !! q = Some m' /\ free m' = 0 /\ align sz <= size m' /\
    (forall p, p <> q -> p <> split_point q (align sz) -> blocks h' !! p = blocks h !! p).
Proof.
  intros Hc Hnd Hb Hs Hff Hm Hq Hfit. pose proof (align_range sz) as Hal.
  pose proof (first_fit_split _ _ _ _ _ Hff) as (Hfits & _ & l2 & Hl).
  unfold fits in Hfits. rewrite Hm in Hfits. apply andb_true_iff in Hfits as [Hfree Hsize%Z.leb_le].
  unfold sub_malloc. destruct (Z.eqb_spec (base h) 0); [done|]. cbn [negb].
  unfold find_block. cbn [blocks base with_last].
  rewrite (find_block_from_spec _ _ _ _ l);
    [|by apply (chain_blocks h)|by apply (chain_length h (base h))].
  rewrite (first_fit_blocks h) by done. rewrite Hff. cbn [mbind outcome_bind fst snd].
  set (h1 := with_last _ _). assert (blocks h1 = blocks h) as E1 by done.
  assert (q <> 0) as Hq0.
  { assert (q ∈ l) as Hin by (rewrite Hl; set_solver).
    clear -Hc Hin. revert Hc. generalize (base h) as b. induction l as [|p l IH]; [set_solver|].
    intros b (-> & Hp & mm & _ & Hc). apply elem_of_cons in Hin as [->|Hin]; [done|eauto]. }
  destruct (Z.eqb_spec q 0); [done|]. cbn [negb].
  assert (header h1 q = Ret m) as Hh by (unfold header; by rewrite E1, Hm).
  rewrite Hh. cbn [mbind outcome_bind]. unfold ALLOC_BLOCK_SIZE.
  destruct (Z.leb_spec (16 + 4) (size m - align sz)).
  - destruct (split_block_spec h1 q (align sz) m) as [-> Hlt]; try (done || lia).
    cbn [mbind outcome_bind]. unfold put_free. rewrite header_put. cbn [mbind outcome_bind].
    eexists _, _. split; [done|]. split; [cbn; by rewrite lookup_insert_eq|].
    split; [done|]. split; [simpl; lia|]. intros p Hp1 Hp2. cbn. by rewrite !lookup_insert_ne.
  - cbn [mbind outcome_bind]. unfold put_free. rewrite Hh. cbn [mbind outcome_bind].
    eexists _, _. split; [done|]. split; [cbn; by rewrite lookup_insert_eq|].
    split; [done|]. split; [simpl; lia|]. intros p Hp1 Hp2. cbn. by rewrite lookup_insert_ne.
Qed.

(** ** Claims *)

(** On a chain of headers without repetition, [find_block] stops and returns
    the first free chunk that is large enough, or null when none is; no header
    changes, and [last] is left at the header before it. *)
Theorem find_block_first_fit h sz l :
  chain h (base h) l -> NoDup l ->
  exists h', blocks h' = blocks h /\
    match first_fit h sz l with
    | Some (l1, q) => find_block h sz = Ret (h', q) /\ last h' = List.last l1 (last h) /\
        fits h sz q = true /\ Forall (fun p => fits h sz p = false) l1 /\ exists l2, l = l1 ++ q :: l2
    | None => find_block h sz = Ret (h', 0) /\ Forall (fun p => fits h sz p = false) l
    end.
Proof.
  intros Hc Hnd. unfold find_block.
  rewrite (find_block_from_spec _ _ _ _ l) by (done || by apply (chain_length h (base h))).
  destruct (first_fit h sz l) as [[l1 q]|] eqn:E.
  - eexists. split; [|split; [done|]]; [done|]. split; [done|]. by apply first_fit_split.
  - eexists. split; [|split; [done|]]; [done|].
    clear Hc Hnd. induction l as [|p l IH]; [done|]. simpl in E.
    destruct (fits h sz p) eqn:Ep; [done|].
    destruct (first_fit h sz l) as [[? ?]|]; [done|]. constructor; auto.
Qed.

Definition demo_vm : vmm := Vmm (fun _ => 0) (Bitmap [] 0 0) 0 0 0 0xFFFFFFFF82C00000 0 0 0.
Definition demo_heap : kheap :=
  KHeap (<[0x1000 := Block 0x1040 40 0]> (<[0x1040 := Block 0x1080 24 1]>
        (<[0x1080 := Block 0 3000 1]> ∅))) 0x1000 0 demo_vm.

Example find_block_first_fit_witness :
  exists h', find_block demo_heap 64 = Ret (h', 0x1080) /\ last h' = 0x1040.
Proof.
  destruct (find_block_first_fit demo_heap 64 [0x1000; 0x1040; 0x1080]) as (h' & _ & H & Hl & _).
  - split; [reflexivity|]. split; [lia|]. eexists. split; [reflexivity|].
    split; [reflexivity|]. split; [lia|]. eexists. split; [reflexivity|].
    split; [reflexivity|]. split; [lia|]. eexists. split; [reflexivity|]. reflexivity.
  - by_computation.
  - exists h'. split; [exact H|exact Hl].
Defined.

(** When the search succeeds, [sub_malloc] returns the address behind the
    first fitting header, which is then no longer free and still large enough,
    and no other header changes except the one the split may write. *)
Theorem sub_malloc_takes_first_fit h sz l l1 q m :
  chain h (base h) l -> NoDup l -> base h <> 0 -> align sz + 16 < 2 ^ 16 ->
  first_fit h (align sz) l = Some (l1, q) -> blocks h !! q = Some m ->
  0 <= q -> q + 2 ^ 17 < 2 ^ 64 ->
  exists h' m', sub_malloc h sz false = Ret (h', u64 (q + 16)) /\
    blocks h' !! q = Some m' /\ free m' = 0 /\ align sz <= size m' /\ fits h' (align sz) q = false /\
    (forall p, p <> q -> p <> split_point q (align sz) -> blocks h' !! p = blocks h !! p).
Proof.
  intros Hc Hnd Hb Hs Hff Hm Hq Hfit.
  destruct (sub_malloc_found h sz l l1 q m) as (h' & m' & E & Hm' & Hf & Hz & Hk); [done..|].
  exists h', m'. split_and!; try done. unfold fits. by rewrite Hm', Hf.
Qed.

Example sub_malloc_takes_first_fit_witness :
  exists h' m', sub_malloc demo_heap 61 false = Ret (h', 0x1090) /\
    blocks h' !! 0x1080 = Some m' /\ free m' = 0.
Proof.
  destruct (sub_malloc_takes_first_fit demo_heap 61 [0x1000; 0x1040; 0x1080] [0x1000; 0x1040] 0x1080
    (Block 0 3000 1)) as (h' & m' & E & Hm & Hf & _);
    [|by_computation|by_computation|by_computation|reflexivity|reflexivity|by_computation|by_computation|].
  - split; [reflexivity|]. split; [lia|]. eexists. split; [reflexivity|].
    split; [reflexivity|]. split; [lia|]. eexists. split; [reflexivity|].
    split; [reflexivity|]. split; [lia|]. eexists. split; [reflexivity|]. reflexivity.
  - exists h', m'. split; [exact E|]. split; [exact Hm|exact Hf].
Defined.

(** The chunk made from a fresh page is returned while its header still says
    free, so the next request of the same size gets the same address: two live
    allocations share their memory. *)
Theorem sub_malloc_hands_out_twice h sz :
  base h = 0 -> last h = 0 -> 0 < sz <= 4080 ->
  0 < bump_addr (vm h) -> 0 <= prev_no_pages (vm h) < 2 ^ 16 -> bump_addr (vm h) + 2 ^ 30 < 2 ^ 64 ->
  exists h1 h2 a, sub_malloc h sz false = Ret (h1, a) /\ sub_malloc h1 sz false = Ret (h2, a) /\ a <> 0.
Proof.
  intros Hb Hl Hsz Hba Hp Hfit.
  assert (0 <= align sz < 2 ^ 15) as Hs.
  { rewrite align_eq by lia. assert (0 <= (sz + 7) / 8 < 2 ^ 10)
      by (split; [apply Z.div_pos|apply Z.div_lt_upper_bound]; lia). rewrite uwrap_small; lia. }
  assert (exists h1 b, sub_malloc h sz false = Ret (h1, u64 (b + 16)) /\ base h1 = b /\
    0 < b < 2 ^ 64 - 2 ^ 20 /\ blocks h1 !! b = Some (Block (split_point b (align sz)) (align sz) 1))
    as (h1 & b & E1 & Hb1 & Hb0 & Hm1).
  { unfold sub_malloc at 1. rewrite Hb. cbn [negb Z.eqb]. unfold extend_heap, vmmgr_alloc_page.
    cbn [fst snd]. set (b := u64 _).
    assert (b = bump_addr (vm h) + 4096 + 4096 * prev_no_pages (vm h)) as Eb
      by (unfold b, VIRT_PAGE_SIZE; apply uwrap_small; lia).
    destruct (Z.eqb_spec b 0); [lia|]. rewrite Hl. cbn [Z.eqb mbind outcome_bind].
    unfold put_free. rewrite header_put. cbn [mbind outcome_bind fst snd next size].
    destruct (split_block_spec (with_base (put (put (with_vm h (with_bump (vm h) b (u16 0))) b
      (Block 0 4096 0)) b (Block 0 4096 1)) b) b (align sz) (Block 0 4096 1)) as [-> Hlt];
      [cbn; by rewrite lookup_insert_eq|lia..|].
    cbn [mbind outcome_bind]. eexists _, b. split; [done|]. split; [done|]. split; [lia|].
    cbn. by rewrite lookup_insert_eq. }
  exists h1. unfold sub_malloc at 2. rewrite Hb1. destruct (Z.eqb_spec b 0); [lia|]. cbn [negb].
  unfold find_block. cbn [base with_last].
  assert (forall n, find_block_from n (with_last h1 b) b (align sz) = Ret (with_last h1 b, b)) as Hf.
  { intros n'. destruct n'; simpl; (destruct (Z.eqb_spec b 0); [lia|]); unfold header; simpl;
      rewrite Hm1; simpl; by rewrite Z.leb_refl. }
  rewrite Hb1, Hf. cbn [mbind outcome_bind fst snd]. destruct (Z.eqb_spec b 0); [lia|]. cbn [negb].
  unfold header, put_free, header. cbn [blocks with_last]. rewrite Hm1. cbn [defined mbind outcome_bind size].
  rewrite Z.sub_diag. cbn [Z.leb mbind outcome_bind]. change (ALLOC_BLOCK_SIZE + 4 <=? 0) with false.
  cbn [mbind outcome_bind]. unfold header. cbn [blocks with_last]. rewrite Hm1.
  cbn [defined mbind outcome_bind]. eexists _, _. split; [exact E1|]. split; [done|].
  rewrite uwrap_small; lia.
Qed.

Example sub_malloc_hands_out_twice_witness :
  exists h1 h2 a, sub_malloc (KHeap ∅ 0 0 demo_vm) 24 false = Ret (h1, a) /\
    sub_malloc h1 24 false = Ret (h2, a) /\ a <> 0.
Proof. apply sub_malloc_hands_out_twice; by_computation. Defined.

(** Splitting a chunk of [size] bytes at an 8-aligned [sz] puts the new
    header behind the [sz] bytes, but the new chunk ends 8 or 16 bytes after the
    end of the chunk that was split. *)
Theorem split_block_overruns h b sz m :
  blocks h !! b = Some m -> 0 <= b -> b + 2 ^ 17 < 2 ^ 64 ->
  0 <= sz -> sz mod 8 = 0 -> sz + 20 <= size m -> size m < 2 ^ 16 ->
  exists h' mb mn, split_block h b sz = Ret h' /\
    blocks h' !! b = Some mb /\ blocks h' !! (next mb) = Some mn /\ next mn = next m /\
    size mb = sz /\ b + 16 + sz <= next mb /\
    (next mb + 16 + size mn = b + 16 + size m + (if sz mod 16 =? 0 then 16 else 8)).
Proof.
  intros Hm Hb Hfit Hsz Hal Hle Hlt.
  destruct (split_block_spec h b sz m) as [E Hn]; [done|lia..|].
  eexists _, _, _. split; [exact E|]. split; [cbn; by rewrite lookup_insert_eq|].
  cbn [next]. split; [cbn; rewrite lookup_insert_ne by lia; by rewrite lookup_insert_eq|].
  cbn [next size]. rewrite uwrap_small by lia. unfold split_point. split; [done|]. split; [done|].
  destruct (Z.eqb_spec (sz mod 16) 0) as [E16|E16];
    pose proof (Z.div_mod (sz + 16) 16); pose proof (Z.mod_pos_bound (sz + 16) 16).
  - assert ((sz + 16) mod 16 = 0) by (rewrite <- Zplus_mod_idemp_l, E16; done). lia.
  - assert (sz mod 16 = 8) as E8.
    { rewrite <- (Z.mod_mod_divide sz 16 8) in Hal by (exists 2; lia).
      pose proof (Z.mod_pos_bound sz 16). pose proof (Z.div_mod (sz mod 16) 8). lia. }
    assert ((sz + 16) mod 16 = 8) by (rewrite <- Zplus_mod_idemp_l, E8; done). lia.
Qed.

Example split_block_overruns_witness :
  exists h' mb mn, split_block demo_heap 0x1080 24 = Ret h' /\
    blocks h' !! 0x1080 = Some mb /\ blocks h' !! (next mb) = Some mn /\
    next mb + 16 + size mn = 0x1080 + 16 + 3000 + 8.
Proof.
  destruct (split_block_overruns demo_heap 0x1080 24 (Block 0 3000 1))
    as (h' & mb & mn & H1 & H2 & H3 & _ & _ & _ & H4); [reflexivity|by_computation..|].
  exists h', mb, mn. split; [exact H1|]. split; [exact H2|]. split; [exact H3|exact H4].
Defined.

End MyAlloc.
