(* ===== verification/NodeHeap.v ===== *)
(** * The heap under the directory tree (sub_malloc as init_tarfs calls it)

    Every node of the tree is one chunk of 304 bytes.  On a heap that has given
    out nothing the calls return fixed addresses: twelve nodes to a page, and the
    first node of every page twice, since a page's first chunk is handed out
    without being marked. *)

From S2P Require Import Prelude Bitmap PageEntry Paging KHeap.
Import MyAlloc.

(** ** First fit along a list *)

Lemma first_fit_app h sz l1 q l2 :
  Forall (fun p => fits h sz p = false) l1 -> fits h sz q = true -> first_fit h sz (l1 ++ q :: l2) = Some (l1, q).
Proof.
  intros Hl Hq. induction Hl as [|p l1 Hp Hl IH]; simpl; [by rewrite Hq|]. by rewrite Hp, IH.
Qed.

Lemma first_fit_none h sz l : Forall (fun p => fits h sz p = false) l -> first_fit h sz l = None.
Proof. induction 1 as [|p l Hp Hl IH]; [done|]. simpl. by rewrite Hp, IH. Qed.

Lemma seqZ_last u k : 0 <= k -> seqZ u (k + 1) = seqZ u k ++ [u + k].
Proof. intros Hk. rewrite seqZ_app by lia. done. Qed.

(** ** Chunks *)

Section nodes.
Context (v : vmm).

(** The headers of one page are 336 bytes apart; the thirteenth is left with too
    little. *)
Definition slot (u : Z) : Z := bump_addr v + 4096 * (1 + u / 13) + 336 * (u mod 13).

(** Header [u] when [e] is the last; [b] tells that the one before it is the
    first of its page and still free. *)
Definition chunk (e : Z) (b : bool) (u : Z) : metadata_block :=
  if u =? e then Block 0 (4096 - 320 * (e mod 13)) 1
  else Block (slot (u + 1)) (if u mod 13 =? 12 then 256 else 304) (if b && (u =? e - 1) then 1 else 0).

Record node_heap (h : kheap) (e : Z) (b : bool) : Prop := {
  nh_base : base h = slot 0;
  nh_blocks : forall u, 0 <= u <= e -> blocks h !! slot u = Some (chunk e b u);
  nh_vm : vm h = with_bump v (bump_addr v + 4096 * (1 + e / 13)) 0;
  nh_end : 0 <= e /\ 1 <= e mod 13;
  nh_first : b = true -> e mod 13 = 1
}.

(** Room for the page behind header [e]. *)
Definition room (e : Z) : Prop := 0 < bump_addr v /\ bump_addr v + 4096 * (2 + e / 13) + 2 ^ 17 < 2 ^ 64.

Lemma node_slot_inj u w : 0 <= u -> 0 <= w -> slot u = slot w -> u = w.
Proof. unfold slot. intros. Z.to_euclidean_division_equations. lia. Qed.

Lemma slot_next e : 0 <= e -> e mod 13 <> 12 -> slot (e + 1) = slot e + 336.
Proof. unfold slot. intros. Z.to_euclidean_division_equations. lia. Qed.

Lemma slot_bound e u : room e -> 0 <= u <= e -> 0 < slot u /\ slot u + 2 ^ 17 < 2 ^ 64.
Proof. unfold room, slot. intros. Z.to_euclidean_division_equations. lia. Qed.

Lemma node_chain h e b k u :
  node_heap h e b -> room e -> 0 <= u -> 0 <= k -> u + k = e -> chain h (slot u) (slot <$> seqZ u (k + 1)).
Proof.
  intros [_ Hb _ _ _] Hr Hu Hk. revert u Hu. pattern k. apply natlike_ind; [| |done]; clear k Hk.
  - intros u Hu Hue. rewrite (seqZ_cons u (0 + 1)) by lia. rewrite seqZ_nil by lia. cbn [fmap list_fmap chain].
    split; [done|]. split; [pose proof (slot_bound e u Hr); lia|]. exists (chunk e b u). split; [apply Hb; lia|].
    unfold chunk. rewrite (proj2 (Z.eqb_eq u e)) by lia. done.
  - intros k Hk IH u Hu Hue. rewrite seqZ_cons by lia. cbn [fmap list_fmap chain].
    split; [done|]. split; [pose proof (slot_bound e u Hr); lia|]. exists (chunk e b u). split; [apply Hb; lia|].
    unfold chunk. rewrite (proj2 (Z.eqb_neq u e)) by lia. cbn [next].
    replace (Z.pred (Z.succ k + 1)) with (k + 1) by lia. rewrite <- Z.add_1_r. apply IH; lia.
Qed.

Lemma slots_nodup u n : 0 <= u -> NoDup (slot <$> seqZ u n).
Proof.
  intros Hu. apply NoDup_fmap_2_strong; [|apply NoDup_seqZ].
  intros x y Hx%elem_of_seqZ Hy%elem_of_seqZ. apply node_slot_inj; lia.
Qed.

(** The search: the first chunk of the page when it is still free, else the
    last chunk unless it is too small. *)
Lemma node_search h e b :
  node_heap h e b -> room e ->
  exists h', blocks h' = blocks h /\ base h' = base h /\ vm h' = vm h /\
    if b then find_block (with_last h (base h)) 304 = Ret (h', slot (e - 1))
    else if e mod 13 =? 12 then find_block (with_last h (base h)) 304 = Ret (h', 0) /\ last h' = slot e
    else find_block (with_last h (base h)) 304 = Ret (h', slot e).
Proof.
  intros HN Hr. pose proof HN as [Hb Hbl _ He Hf]. destruct (He) as [He0 He1].
  assert (1 <= e) as Hpos by (destruct (decide (e = 0)) as [->|]; [done|lia]).
  pose proof (node_chain h e b e 0 HN Hr ltac:(lia) He0 ltac:(lia)) as Hc.
  assert (forall u, 0 <= u < e -> fits h 304 (slot u) = b && (u =? e - 1)) as Hfit.
  { intros u Hu. unfold fits. rewrite Hbl by lia. unfold chunk. rewrite (proj2 (Z.eqb_neq u e)) by lia. cbn [free size].
    destruct b; simpl; [|done]. destruct (Z.eqb_spec u (e - 1)) as [->|]; simpl; [|done].
    rewrite (proj2 (Z.eqb_neq _ _)); [done|]. specialize (Hf eq_refl). Z.to_euclidean_division_equations. lia. }
  assert (fits h 304 (slot e) = negb (e mod 13 =? 12)) as Hfe.
  { unfold fits. rewrite Hbl by lia. unfold chunk. rewrite Z.eqb_refl. cbn [free size]. simpl.
    destruct (Z.eqb_spec (e mod 13) 12) as [->|]; [done|]. apply Z.leb_le. pose proof (Z.mod_pos_bound e 13). lia. }
  assert (forall n, n <= e - (if b then 1 else 0) -> Forall (fun p => fits h 304 p = false) (slot <$> seqZ 0 n)) as Hno.
  { intros n Hn. apply Forall_fmap, Forall_forall. intros u Hu%elem_of_seqZ. simpl. rewrite Hfit by (destruct b; lia).
    destruct b; [|done]. simpl. apply Z.eqb_neq. lia. }
  unfold find_block. cbn [base blocks with_last]. rewrite Hb.
  erewrite find_block_from_spec; [|eapply chain_blocks; [|exact Hc]; done|
    eapply chain_length; [exact Hc|apply slots_nodup; lia]].
  rewrite (first_fit_blocks h) by done.
  destruct b.
  - assert (seqZ 0 (e + 1) = seqZ 0 (e - 1) ++ [e - 1; e]) as ->.
    { replace (e + 1) with (e - 1 + 2) by lia. rewrite seqZ_app by lia. f_equal. unfold seqZ. simpl.
      repeat (f_equal; try lia). }
    rewrite fmap_app. cbn [fmap list_fmap]. rewrite first_fit_app; [|apply Hno; lia|by rewrite Hfit, Z.eqb_refl by lia].
    eexists. split; [|split; [|split; [|reflexivity]]]; done.
  - rewrite seqZ_last, Z.add_0_l, fmap_app by lia. cbn [fmap list_fmap]. destruct (Z.eqb_spec (e mod 13) 12) as [E|E].
    + rewrite first_fit_none; [eexists; split; [|split; [|split; [|split; [reflexivity|]]]]; try done|].
      * cbn [last with_last]. by rewrite last_last.
      * apply Forall_app. split; [apply Hno; lia|]. by repeat constructor.
    + rewrite first_fit_app; [|apply Hno; lia|by rewrite Hfe].
      eexists. split; [|split; [|split; [|reflexivity]]]; done.
Qed.

(** ** One call *)

Lemma header_of h p m : blocks h !! p = Some m -> header h p = Ret m.
Proof. intros E. unfold header. by rewrite E. Qed.

Lemma put_free_of h p m x :
  blocks h !! p = Some m -> put_free h p x = Ret (put h p (Block (next m) (size m) x)).
Proof. intros E. unfold put_free. by rewrite (header_of _ _ _ E). Qed.

Lemma put_next_of h p m x :
  blocks h !! p = Some m -> put_next h p x = Ret (put h p (Block x (size m) (free m))).
Proof. intros E. unfold put_next. by rewrite (header_of _ _ _ E). Qed.

Lemma slot_ne u w : 0 <= u -> 0 <= w -> u <> w -> slot u <> slot w.
Proof. intros Hu Hw Hne E. by apply node_slot_inj in E. Qed.

(** What [sub_malloc] does for a node, by what the search found. *)
Lemma malloc_node h e b :
  node_heap h e b -> room e ->
  sub_malloc h 304 false =
    r ← find_block (with_last h (base h)) 304;
    if negb (r.2 =? 0) then
      m ← header r.1 r.2;
      h ← (if 16 + 4 <=? size m - 304 then split_block r.1 r.2 304 else Ret r.1);
      h ← put_free h r.2 0;
      Ret (h, u64 (r.2 + 16))
    else
      h ← put_free r.1 (last r.1) 0;
      r ← extend_heap h (last h) 304;
      h ← split_block r.1 r.2 304;
      Ret (h, u64 (r.2 + 16)).
Proof.
  intros [Hb _ _ [He _] _] Hr. unfold sub_malloc. change (align 304) with 304.
  destruct (Z.eqb_spec (base h) 0) as [E|]; [|done]. pose proof (slot_bound e 0 Hr). lia.
Qed.

(** The second call for the first chunk of a page. *)
Lemma malloc_again h e :
  node_heap h e true -> room e ->
  exists h', sub_malloc h 304 false = Ret (h', slot (e - 1) + 16) /\ node_heap h' e false.
Proof.
  intros HN Hr. rewrite (malloc_node h e true HN Hr). destruct (node_search h e true HN Hr) as (h1 & E1 & E2 & E3 & ->).
  destruct HN as [Hb Hbl Hv [He He1] Hf]. specialize (Hf eq_refl).
  assert (1 <= e) as Hpos by (destruct (decide (e = 0)) as [->|]; [done|lia]).
  pose proof (slot_bound e (e - 1) Hr ltac:(lia)) as [Hs Hs'].
  assert (chunk e true (e - 1) = Block (slot e) 304 1) as Hc.
  { unfold chunk. rewrite (proj2 (Z.eqb_neq _ _)), Z.eqb_refl by lia. simpl. replace (e - 1 + 1) with e by lia.
    rewrite (proj2 (Z.eqb_neq _ _)); [done|]. Z.to_euclidean_division_equations. lia. }
  assert (blocks h1 !! slot (e - 1) = Some (Block (slot e) 304 1)) as Hm by (rewrite E1, Hbl, Hc by lia; done).
  rewrite bind_Ret. cbn [fst snd]. rewrite (proj2 (Z.eqb_neq (slot (e - 1)) 0)) by lia. cbn [negb].
  rewrite (header_of _ _ _ Hm), bind_Ret. cbn [size].
  change (16 + 4 <=? 304 - 304) with false. cbv iota. rewrite bind_Ret, (put_free_of _ _ _ _ Hm), bind_Ret, uwrap_small by lia.
  eexists. split; [done|]. cbn [next size]. split; cbn [base vm blocks put with_blocks]; [congruence| |congruence|done|done].
  intros u Hu. destruct (decide (u = e - 1)) as [->|Hne].
  - rewrite lookup_insert_eq. unfold chunk in *. rewrite (proj2 (Z.eqb_neq _ _)) in * by lia. injection Hc as -> -> _. done.
  - rewrite lookup_insert_ne by (apply slot_ne; lia). rewrite E1, Hbl by done. unfold chunk. f_equal.
    rewrite (proj2 (Z.eqb_neq u (e - 1))) by done. by rewrite andb_false_r.
Qed.

(** A chunk split off the end of the page. *)
Lemma malloc_split h e :
  node_heap h e false -> room e -> e mod 13 <> 12 ->
  exists h', sub_malloc h 304 false = Ret (h', slot e + 16) /\ node_heap h' (e + 1) false.
Proof.
  intros HN Hr Hlt. rewrite (malloc_node h e false HN Hr). destruct (node_search h e false HN Hr) as (h1 & E1 & E2 & E3 & H).
  rewrite (proj2 (Z.eqb_neq _ _) Hlt) in H. rewrite H. clear H. destruct HN as [Hb Hbl Hv [He He1] _].
  pose proof (slot_bound e e Hr ltac:(lia)) as [Hs Hs']. pose proof (Z.mod_pos_bound e 13 ltac:(lia)) as Hm13.
  assert (blocks h1 !! slot e = Some (Block 0 (4096 - 320 * (e mod 13)) 1)) as Hm
    by (rewrite E1, Hbl by lia; unfold chunk; by rewrite Z.eqb_refl).
  rewrite bind_Ret. cbn [fst snd]. rewrite (proj2 (Z.eqb_neq (slot e) 0)) by lia. cbn [negb].
  rewrite (header_of _ _ _ Hm), bind_Ret. cbn [size]. rewrite (proj2 (Z.leb_le _ _)) by lia.
  destruct (split_block_spec h1 (slot e) 304 _ Hm) as [-> _]; [lia..|]. rewrite bind_Ret.
  assert (split_point (slot e) 304 = slot (e + 1)) as -> by (rewrite slot_next by done; unfold split_point; change ((304 + 16) / 16) with 20; lia).
  erewrite put_free_of by (cbn [blocks put with_blocks]; apply lookup_insert_eq). rewrite bind_Ret. cbn [next size free].
  rewrite (uwrap_small 16), (uwrap_small 64) by lia.
  eexists. split; [done|]. cbn [next size free].
  assert ((e + 1) / 13 = e / 13 /\ (e + 1) mod 13 = e mod 13 + 1) as [Hd Hmod] by (Z.to_euclidean_division_equations; lia).
  split; cbn [base vm blocks put with_blocks]; [congruence| |by rewrite Hd; congruence|lia|done].
  intros u Hu. rewrite insert_insert_eq. unfold chunk. rewrite Hmod. cbn [andb].
  destruct (Z.eqb_spec u (e + 1)) as [->|Hne].
  - rewrite lookup_insert_ne by (apply slot_ne; lia). rewrite lookup_insert_eq. do 2 f_equal. lia.
  - destruct (decide (u = e)) as [->|Hne'].
    + rewrite lookup_insert_eq. by rewrite (proj2 (Z.eqb_neq _ _) Hlt).
    + rewrite !lookup_insert_ne by (apply slot_ne; lia). rewrite E1, Hbl by lia. unfold chunk.
      by rewrite (proj2 (Z.eqb_neq u e)) by done.
Qed.

(** A fresh page, split once: both chunks are marked free. *)
Lemma extend_split (fresh : bool) h l p v' :
  vmmgr_alloc_page (vm h) 0 = (v', p) -> 0 < p -> p + 2 ^ 17 < 2 ^ 64 -> l <> p -> (l <> 0 -> is_Some (blocks h !! l)) ->
  exists h', (r ← extend_heap h l 304; h ← split_block (if fresh then with_base r.1 r.2 else r.1) r.2 304; Ret (h, u64 (r.2 + 16))) =
      Ret (h', p + 16) /\
    base h' = (if fresh then p else base h) /\ vm h' = v' /\ blocks h' !! p = Some (Block (p + 336) 304 1) /\
    blocks h' !! (p + 336) = Some (Block 0 3776 1) /\
    forall q, q <> p -> q <> p + 336 ->
      blocks h' !! q = if decide (q = l /\ l <> 0) then (fun m => Block p (size m) (free m)) <$> blocks h !! q else blocks h !! q.
Proof.
  intros Ea Hp Hp64 Hl Hm. unfold extend_heap. rewrite Ea. cbn [fst snd]. rewrite (proj2 (Z.eqb_neq p 0)) by lia.
  set (h0 := put (with_vm h v') p (Block 0 0x1000 0)).
  assert (exists h1, (if l =? 0 then Ret h0 else put_next h0 l p) = Ret h1 /\ base h1 = base h /\ vm h1 = v' /\
    blocks h1 !! p = Some (Block 0 0x1000 0) /\ forall q, q <> p -> blocks h1 !! q =
      if decide (q = l /\ l <> 0) then (fun m => Block p (size m) (free m)) <$> blocks h !! q else blocks h !! q)
    as (h1 & -> & Eb & Ev & Ep & Eo).
  { unfold h0. destruct (Z.eqb_spec l 0) as [->|Hl0].
    - eexists. split; [done|]. split; [done|]. split; [done|]. cbn [blocks put with_blocks with_vm].
      split; [by rewrite lookup_insert_eq|]. intros q Hq. rewrite lookup_insert_ne, decide_False by (done || tauto). done.
    - destruct (Hm Hl0) as [m E]. rewrite (put_next_of _ _ m)
        by (cbn [blocks put with_blocks with_vm]; rewrite lookup_insert_ne by done; exact E).
      eexists. split; [done|]. split; [done|]. split; [done|]. cbn [blocks put with_blocks with_vm].
      split; [by rewrite lookup_insert_ne, lookup_insert_eq by done|]. intros q Hq. destruct (decide (q = l)) as [->|Hne].
      + by rewrite lookup_insert_eq, decide_True, E by done.
      + rewrite !lookup_insert_ne, decide_False by (done || tauto). done. }
  rewrite bind_Ret, (put_free_of _ _ _ _ Ep), !bind_Ret. cbn [fst snd next size free].
  set (h2 := if fresh then _ else _).
  assert (blocks h2 = <[p := Block 0 0x1000 1]> (blocks h1) /\ base h2 = (if fresh then p else base h) /\ vm h2 = v')
    as (Eb2 & Eba & Ev2) by (by destruct fresh).
  assert (blocks h2 !! p = Some (Block 0 0x1000 1)) as Ep2 by (by rewrite Eb2, lookup_insert_eq). clearbody h2.
  destruct (split_block_spec h2 p 304 _ Ep2) as [-> _]; [lia..|]. rewrite bind_Ret.
  assert (split_point p 304 = p + 336) as -> by (unfold split_point; change ((304 + 16) / 16) with 20; lia).
  rewrite (uwrap_small 64) by lia. eexists. split; [done|]. cbn [next size free base vm blocks put with_blocks].
  split; [done|]. split; [done|]. rewrite Eb2. rewrite lookup_insert_eq. split; [done|]. rewrite lookup_insert_ne, lookup_insert_eq by lia.
  split; [done|]. intros q Hq Hq'. rewrite !lookup_insert_ne by done. by apply Eo.
Qed.

(** The first call of all. *)
Lemma malloc_first h :
  base h = 0 -> last h = 0 -> vm h = v -> prev_no_pages v = 0 -> room 1 ->
  exists h', sub_malloc h 304 false = Ret (h', slot 0 + 16) /\ node_heap h' 1 true.
Proof.
  intros Hb Hl Hv Hp Hr. destruct Hr as [Hb0 Hb64]. change (1 / 13) with 0 in Hb64.
  assert (slot 0 = bump_addr v + 4096) as S0 by (unfold slot; change (0 / 13) with 0; change (0 mod 13) with 0; lia).
  assert (slot 1 = slot 0 + 336) as S1 by (apply (slot_next 0); done).
  assert (vmmgr_alloc_page (vm h) 0 = (with_bump v (slot 0) 0, slot 0)) as Ea.
  { rewrite Hv. unfold vmmgr_alloc_page. rewrite Hp, uwrap_small by (unfold VIRT_PAGE_SIZE; lia). rewrite S0.
    unfold VIRT_PAGE_SIZE. by replace (bump_addr v + 4096 + 4096 * 0) with (bump_addr v + 4096) by lia. }
  unfold sub_malloc. change (align 304) with 304. rewrite Hb, Hl. cbn [Z.eqb negb].
  destruct (extend_split true h 0 (slot 0) _ Ea) as (h1 & E & Eb & Ev & E0 & E1 & _); [lia|lia|lia|done|].
  exists h1. split; [exact E|]. split; [done| |by rewrite Ev, S0|done|done].
  intros u Hu. assert (u = 0 \/ u = 1) as [->| ->] by lia.
  - rewrite E0. unfold chunk. cbn [Z.eqb]. change (0 + 1) with 1. by rewrite S1.
  - by rewrite S1, E1.
Qed.

(** The page is used up: the next one is linked behind it. *)
Lemma malloc_page h e :
  node_heap h e false -> e mod 13 = 12 -> room (e + 2) ->
  exists h', sub_malloc h 304 false = Ret (h', slot (e + 1) + 16) /\ node_heap h' (e + 2) true.
Proof.
  intros HN He12 Hr2.
  assert ((e + 1) / 13 = e / 13 + 1 /\ (e + 1) mod 13 = 0 /\ (e + 2) / 13 = e / 13 + 1 /\ (e + 2) mod 13 = 1) as (D1 & M1 & D2 & M2)
    by (Z.to_euclidean_division_equations; lia).
  assert (room e) as Hr by (unfold room in *; lia).
  rewrite (malloc_node h e false HN Hr). destruct (node_search h e false HN Hr) as (h1 & E1 & E2 & E3 & H).
  rewrite He12 in H. destruct H as [-> Hlast]. destruct HN as [Hb Hbl Hv [He He1] _].
  pose proof (slot_bound (e + 2) e Hr2 ltac:(lia)) as [Hs Hs']. pose proof (slot_bound (e + 2) (e + 1) Hr2 ltac:(lia)) as [Ht Ht'].
  rewrite bind_Ret. cbn [fst snd Z.eqb negb]. rewrite Hlast.
  assert (blocks h1 !! slot e = Some (Block 0 256 1)) as Hm
    by (rewrite E1, Hbl by lia; unfold chunk; rewrite Z.eqb_refl, He12; done).
  rewrite (put_free_of _ _ _ _ Hm), bind_Ret. cbn [next size]. set (h2 := put h1 _ _).
  change (last h2) with (last h1). rewrite Hlast.
  assert (slot (e + 2) = slot (e + 1) + 336) as S2 by (rewrite <- slot_next by lia; f_equal; lia).
  assert (slot (e + 1) = bump_addr v + 4096 * (2 + e / 13)) as S1 by (unfold slot; lia).
  assert (vmmgr_alloc_page (vm h2) 0 = (with_bump v (slot (e + 1)) 0, slot (e + 1))) as Ea.
  { change (vm h2) with (vm h1). rewrite E3, Hv. unfold vmmgr_alloc_page. cbn [bump_addr prev_no_pages with_bump].
    rewrite uwrap_small, S1 by (unfold VIRT_PAGE_SIZE; lia). unfold VIRT_PAGE_SIZE.
    by replace (bump_addr v + 4096 * (1 + e / 13) + 4096 + 4096 * 0) with (bump_addr v + 4096 * (2 + e / 13)) by lia. }
  destruct (extend_split false h2 (slot e) (slot (e + 1)) _ Ea) as (h3 & E & Eb & Ev & B0 & B1 & Bo);
    [lia|lia|apply slot_ne; lia|intros _; cbn; by rewrite lookup_insert_eq|].
  exists h3. split; [exact E|]. cbn [base put with_blocks h2] in Eb.
  split; [rewrite Eb; unfold h2; cbn [base put with_blocks]; congruence| |rewrite Ev, S1, D2; do 2 f_equal; lia|lia|done].
  intros u Hu. destruct (decide (u = e + 2)) as [->|N2].
  { rewrite S2, B1. unfold chunk. by rewrite Z.eqb_refl, M2. }
  destruct (decide (u = e + 1)) as [->|N1].
  { rewrite B0. unfold chunk. rewrite (proj2 (Z.eqb_neq (e + 1) (e + 2))), M1 by lia.
    rewrite (proj2 (Z.eqb_eq (e + 1) (e + 2 - 1))) by lia. replace (e + 1 + 1) with (e + 2) by lia. by rewrite S2. }
  rewrite Bo by (rewrite <- ?S2; apply slot_ne; lia). unfold h2. cbn [blocks put with_blocks].
  unfold chunk. rewrite (proj2 (Z.eqb_neq u (e + 2))), (proj2 (Z.eqb_neq u (e + 2 - 1))), andb_false_r by lia.
  destruct (decide (u = e)) as [->|N0].
  - rewrite decide_True, lookup_insert_eq by lia. cbn [fmap option_fmap option_map size free]. by rewrite He12.
  - assert (slot u <> slot e) by (apply slot_ne; lia). rewrite decide_False, lookup_insert_ne, E1, Hbl by (tauto || lia || congruence).
    unfold chunk. by rewrite (proj2 (Z.eqb_neq u e)) by lia.
Qed.

(** ** All calls *)

(** The header and the flag after [n + 1] calls, and the address of call [n]. *)
Definition last_slot (n : Z) : Z := 13 * (n / 13) + Z.max 1 (n mod 13).
Definition again (n : Z) : bool := n mod 13 =? 0.
Definition node_addr (n : Z) : Z := slot (13 * (n / 13) + Z.max 0 (n mod 13 - 1)) + 16.

Lemma malloc_next h n :
  0 <= n -> node_heap h (last_slot n) (again n) -> room (last_slot (n + 1)) ->
  exists h', sub_malloc h 304 false = Ret (h', node_addr (n + 1)) /\ node_heap h' (last_slot (n + 1)) (again (n + 1)).
Proof.
  intros Hn HN Hr. unfold last_slot, again, node_addr in *.
  assert (n mod 13 = 12 \/ n mod 13 < 12) as [E|E] by (pose proof (Z.mod_pos_bound n 13); lia).
  - assert ((n + 1) / 13 = n / 13 + 1 /\ (n + 1) mod 13 = 0) as [D M] by (Z.to_euclidean_division_equations; lia).
    rewrite D, M in *. rewrite E in *. cbn [Z.eqb] in *. change (Z.max 1 12) with 12 in HN. change (Z.max 1 0) with 1 in *.
    change (Z.max 0 (0 - 1)) with 0.
    destruct (malloc_page h _ HN) as (h' & Em & HN');
      [Z.to_euclidean_division_equations; lia|by replace (13 * (n / 13) + 12 + 2) with (13 * (n / 13 + 1) + 1) by lia|].
    exists h'. replace (13 * (n / 13 + 1) + 0) with (13 * (n / 13) + 12 + 1) by lia. split; [done|].
    by replace (13 * (n / 13 + 1) + 1) with (13 * (n / 13) + 12 + 2) by lia.
  - assert ((n + 1) / 13 = n / 13 /\ (n + 1) mod 13 = n mod 13 + 1) as [D M] by (Z.to_euclidean_division_equations; lia).
    pose proof (Z.mod_pos_bound n 13 ltac:(lia)) as Hm. rewrite D, M in *.
    rewrite (proj2 (Z.eqb_neq (n mod 13 + 1) 0)) by lia.
    replace (Z.max 0 (n mod 13 + 1 - 1)) with (n mod 13) by lia. replace (Z.max 1 (n mod 13 + 1)) with (n mod 13 + 1) in * by lia.
    destruct (Z.eqb_spec (n mod 13) 0) as [E0|E0].
    + rewrite E0 in *. change (Z.max 1 0) with 1 in HN. destruct (malloc_again h _ HN Hr) as (h' & Em & HN'). exists h'.
      split; [|done]. rewrite Em. by replace (13 * (n / 13) + 1 - 1) with (13 * (n / 13) + 0) by lia.
    + replace (Z.max 1 (n mod 13)) with (n mod 13) in HN by lia.
      assert (room (13 * (n / 13) + n mod 13)) as Hr' by (unfold room in *; Z.to_euclidean_division_equations; lia).
      destruct (malloc_split h _ HN Hr') as (h' & Em & HN'); [Z.to_euclidean_division_equations; lia|].
      exists h'. split; [done|]. by rewrite Z.add_assoc.
Qed.

End nodes.
