(* ===== verification/Slob.v ===== *)
(** * The slob allocator (sys/mm/slob.c)

    A ring of free blocks in the order of their addresses.  Nothing calls it: the
    kernel allocates with sub_malloc. *)

From Stdlib Require Import Sorted.
From S2P Require Import Prelude Bitmap PageEntry Paging.

(** ** State *)

(** [slob_t]; a block's size is in units of the header's 16 bytes. *)
Record slob_t := SlobBlock { units : Z; next : Z }.

(** The headers by address, the place where the next search starts, and the
    pages.  A block that was never freed has no header. *)
Record slob := Slob { blocks : gmap Z slob_t; slobfree : Z; slob_vm : vmm }.

Definition with_blocks (h : slob) (m : gmap Z slob_t) : slob := Slob m (slobfree h) (slob_vm h).
Definition with_slobfree (h : slob) (p : Z) : slob := Slob (blocks h) p (slob_vm h).
Definition with_slob_vm (h : slob) (v : vmm) : slob := Slob (blocks h) (slobfree h) v.

Definition SLOB_UNIT : Z := 16.

(** The size is converted to [size_t] and the number of units back to [int]. *)
Definition SLOB_UNITS (size : Z) : Z := s32 (u64 (u64 size + SLOB_UNIT - 1) / SLOB_UNIT).
Definition ALIGN (x a : Z) : Z := Z.ldiff (u64 (x + u64 (a - 1))) (u64 (a - 1)).

(** The arena is the only block at the start. *)
Definition slob_start (arena : Z) (v : vmm) : slob := Slob {[ arena := SlobBlock 1 arena ]} arena v.

Definition block (h : slob) (p : Z) : outcome slob_t := if p =? 0 then Undef else defined (blocks h !! p).

(** [p->units = v] and [p->next = v]; what a new header has in its other field is
    written before it is read. *)
Definition set_units (h : slob) (p v : Z) : slob :=
  with_blocks h (<[p := SlobBlock v (from_option next 0 (blocks h !! p))]> (blocks h)).
Definition set_next (h : slob) (p v : Z) : slob :=
  with_blocks h (<[p := SlobBlock (from_option units 0 (blocks h !! p)) v]> (blocks h)).

(** [p + n] for a pointer to blocks. *)
Definition block_at (p n : Z) : Z := u64 (p + SLOB_UNIT * n).

(** ** Operations *)

(** The loop that looks for the place of [b]: between [cur] and its successor, or
    at the end of the ring. *)
Fixpoint find_place (n : nat) (h : slob) (b cur : Z) : outcome Z :=
  c ← block h cur;
  if (cur <? b) && (b <? next c) then Ret cur else
  if (next c <=? cur) && ((cur <? b) || (b <? next c)) then Ret cur else
  match n with O => Loops | S n => find_place n h b (next c) end.

(** The block is linked to the successor of [cur], or takes it in when it is the
    memory behind it. *)
Definition join_next (h : slob) (b cur : Z) : outcome slob :=
  x ← block h b;
  c ← block h cur;
  if block_at b (units x) =? next c then
    n ← block h (next c);
    Ret (set_next (set_units h b (s32 (units x + units n))) b (next n))
  else Ret (set_next h b (next c)).

(** The same for [cur] and the block. *)
Definition join_prev (h : slob) (b cur : Z) : outcome slob :=
  c ← block h cur;
  x ← block h b;
  Ret (if block_at cur (units c) =? b then set_next (set_units h cur (s32 (units c + units x))) cur (next x)
       else set_next h cur b).

Definition slob_free (h : slob) (b size : Z) : outcome slob :=
  if b =? 0 then Ret h else
  let h := if size =? 0 then h else set_units h b (SLOB_UNITS size) in
  cur ← find_place (base.size (blocks h)) h b (slobfree h);
  h ← join_next h b cur;
  h ← join_prev h b cur;
  Ret (with_slobfree h cur).

(** The distance to the aligned address, in units; C leaves the difference of
    pointers undefined when it is not a number of units. *)
Definition delta (cur align : Z) : outcome Z :=
  if align =? 0 then Ret 0 else
  let d := ALIGN cur align - cur in
  if d mod SLOB_UNIT =? 0 then Ret (s32 (d / SLOB_UNIT)) else Undef.

(** A block that is large enough is split twice: before the aligned address and
    behind the units asked for. *)
Definition carve (h : slob) (prev cur n d : Z) : outcome (slob * Z) :=
  c ← block h cur;
  let al := block_at cur d in
  let split := negb (d =? 0) in
  let h := if split then
             let h := set_units h al (units c - d) in
             let h := set_next h al (next c) in
             let h := set_next h cur al in
             set_units h cur d
           else h in
  let prev := if split then cur else prev in
  let cur := if split then al else cur in
  c ← block h cur;
  if units c =? n then
    Ret (with_slobfree (set_next h prev (next c)) prev, cur)
  else
    let rest := block_at cur n in
    let h := set_units (set_next h prev rest) rest (units c - n) in
    c ← block h cur;
    let h := set_units (set_next h rest (next c)) cur n in
    Ret (with_slobfree h prev, cur).

(** After a whole turn of the ring a page is added; the search goes on behind it. *)
Fixpoint alloc_from (n : nat) (h : slob) (size align prev cur : Z) : outcome (slob * Z) :=
  c ← block h cur;
  d ← delta cur align;
  if SLOB_UNITS size + d <=? units c then carve h prev cur (SLOB_UNITS size) d else
  if (cur =? slobfree h) && (size =? 4096) then Ret (h, 0) else
  r ← (if cur =? slobfree h then
         let p := vmmgr_alloc_page (slob_vm h) 0 in
         h ← slob_free (with_slob_vm h p.1) p.2 4096;
         Ret (h, p.2)
       else Ret (h, cur));
  if r.2 =? 0 then Ret (r.1, 0) else
  c ← block r.1 r.2;
  match n with O => Loops | S n => alloc_from n r.1 size align r.2 (next c) end.

(** Two turns of the ring, with two pages, are as long as a search can take. *)
Definition slob_alloc (h : slob) (size align : Z) : outcome (slob * Z) :=
  p ← block h (slobfree h);
  alloc_from (2 * base.size (blocks h) + 3) h size align (slobfree h) (next p).

(** ** The ring *)

(** The blocks [l], addresses with sizes, are linked in this order; the last one
    leads to [z]. *)
Fixpoint ring_links (m : gmap Z slob_t) (l : list (Z * Z)) (z : Z) : Prop :=
  match l with
  | [] => True
  | x :: l => m !! x.1 = Some (SlobBlock x.2 (List.hd z l.*1)) /\ ring_links m l z
  end.

(** A block ends before the next one begins: neighbours have been joined. *)
Definition block_end (x : Z * Z) : Z := x.1 + SLOB_UNIT * x.2.
Definition before (x y : Z * Z) : Prop := block_end x < y.1.
Definition in_kernel (x : Z * Z) : Prop := virt_base <= x.1 /\ 0 < x.2 /\ block_end x < 2 ^ 64.

Record ring (h : slob) (l : list (Z * Z)) : Prop := {
  rg_links : ring_links (blocks h) l (List.hd 0 l.*1);
  rg_free : slobfree h ∈ l.*1;
  rg_sorted : StronglySorted before l;
  rg_kernel : Forall in_kernel l
}.

(** The bytes of the free blocks. *)
Definition free_byte (l : list (Z * Z)) (a : Z) : Prop := exists x, x ∈ l /\ x.1 <= a < block_end x.

Lemma ring_links_app m l1 l2 z : ring_links m (l1 ++ l2) z <-> ring_links m l1 (List.hd z l2.*1) /\ ring_links m l2 z.
Proof.
  induction l1 as [|x l1 IH]; cbn [app ring_links]; [tauto|]. rewrite IH, fmap_app.
  assert (List.hd z (l1.*1 ++ l2.*1) = List.hd (List.hd z l2.*1) l1.*1) as -> by (by destruct l1). tauto.
Qed.

Lemma ring_links_insert m l z a b : a ∉ l.*1 -> ring_links m l z -> ring_links (<[a := b]> m) l z.
Proof.
  induction l as [|x l IH]; [done|]. cbn [ring_links]. rewrite fmap_cons, not_elem_of_cons. intros [Ha Hl] [Hx Hs].
  split; [by rewrite lookup_insert_ne|by apply IH].
Qed.

Lemma ring_links_dom m l z : ring_links m l z -> forall a, a ∈ l.*1 -> is_Some (m !! a).
Proof.
  induction l as [|x l IH]; [intros _ a Ha; by apply elem_of_nil in Ha|]. cbn [ring_links]. intros [Hx Hs] a.
  rewrite fmap_cons, elem_of_cons. intros [->|Ha]; [by eexists|by apply IH].
Qed.

Lemma sorted_nodup l : StronglySorted before l -> Forall in_kernel l -> NoDup l.*1.
Proof.
  induction 1 as [|x l Hs IH Hx]; intros Hk; [apply NoDup_nil_2|]. apply Forall_cons in Hk as [(_ & Hu & _) Hk].
  rewrite fmap_cons. apply NoDup_cons. split; [|by apply IH]. intros (y & E & Hy)%list_elem_of_fmap.
  pose proof (proj1 (Forall_forall _ _) Hx y Hy) as Hb. unfold before, block_end, SLOB_UNIT in Hb. lia.
Qed.

Lemma ring_links_length m l z : ring_links m l z -> NoDup l.*1 -> (List.length l <= base.size m)%nat.
Proof.
  intros Hl Hnd. assert (list_to_set l.*1 ⊆ dom m) as Hsub.
  { intros a Ha%elem_of_list_to_set. apply elem_of_dom. by eapply ring_links_dom. }
  apply subseteq_size in Hsub. rewrite size_list_to_set, size_dom, length_fmap in Hsub by done. exact Hsub.
Qed.

(** ** The place of a block *)

Lemma sorted_first (l : list (Z * Z)) x : StronglySorted before (l ++ [x]) -> Forall in_kernel (l ++ [x]) -> List.hd 0 (l ++ [x]).*1 <= x.1.
Proof.
  destruct l as [|y l]; [done|]. cbn [app fmap list_fmap List.hd]. intros [_ Hs]%StronglySorted_inv [(_ & Hu & _) _]%Forall_cons.
  assert (before y x) as Hb by (apply (proj1 (Forall_forall _ _) Hs); set_solver). unfold before, block_end, SLOB_UNIT in Hb. lia.
Qed.

Section place.
Context (h : slob) (b : Z).

Lemma block_eq p x : virt_base <= p -> blocks h !! p = Some x -> block h p = Ret x.
Proof. intros Hp Hx. unfold block, virt_base in *. rewrite (proj2 (Z.eqb_neq _ _)) by lia. by rewrite Hx. Qed.

(** The search goes up through blocks that are all below [b], or all above. *)
Lemma walk_up s : forall x z n,
  ring_links (blocks h) (x :: s) z -> StronglySorted before (x :: s) -> Forall in_kernel (x :: s) ->
  Forall (fun y => y.1 < b) (x :: s) \/ Forall (fun y => b < y.1) (x :: s) ->
  find_place (List.length s + n) h b x.1 = find_place n h b (List.last s.*1 x.1).
Proof.
  induction s as [|y s IH]; intros x z n [Hx Hs] Hsort Hk Hb; [done|].
  apply StronglySorted_inv in Hsort as [Hsort Hxy]. apply Forall_cons in Hxy as [Hxy _]. apply Forall_cons in Hk as [Hkx Hk].
  cbn [List.length plus]. rewrite fmap_cons, last_cons_default. rewrite <- (IH y z n) by (done || (destruct Hb as [Hb|Hb]; apply Forall_cons in Hb as [_ ?]; tauto)).
  destruct Hkx as (Hx0 & Hx1 & _). cbn [find_place]. rewrite (block_eq _ _ Hx0 Hx), bind_Ret. cbn [next fmap list_fmap List.hd].
  unfold before, block_end, SLOB_UNIT in Hxy. rewrite (proj2 (Z.leb_gt y.1 x.1)) by lia. cbn [andb].
  destruct ((x.1 <? b) && (b <? y.1)) eqn:E; [|done]. apply andb_true_iff in E as [?%Z.ltb_lt ?%Z.ltb_lt].
  destruct Hb as [Hb|Hb]; rewrite !Forall_cons in Hb; lia.
Qed.

Context (l1 l2 : list (Z * Z)) (HL : ring_links (blocks h) (l1 ++ l2) (List.hd 0 (l1 ++ l2).*1)).
Context (Hsort : StronglySorted before (l1 ++ l2)) (Hk : Forall in_kernel (l1 ++ l2)).
Context (H1 : Forall (fun x => x.1 < b) l1) (H2 : Forall (fun x => b < x.1) l2).

(** The block behind which [b] belongs. *)
Definition place : Z := List.last l1.*1 (List.last l2.*1 0).

Lemma place_entry : l1 ++ l2 <> [] ->
  exists x, x ∈ l1 ++ l2 /\ x.1 = place /\
    blocks h !! place = Some (SlobBlock x.2 (List.hd (List.hd 0 (l1 ++ l2).*1) (if decide (l1 = []) then [] else l2.*1))).
Proof.
  clear H1 H2 Hsort Hk. intros Hne. set (z := List.hd 0 _) in *. unfold place. destruct l1 as [|x l _] using rev_ind.
  - destruct l2 as [|x l _] using rev_ind; [done|]. exists x. cbn [app] in *. apply ring_links_app in HL as [_ [Hx _]].
    rewrite fmap_app. cbn [fmap list_fmap List.last]. rewrite List.last_last. split; [set_solver|]. split; [done|]. exact Hx.
  - exists x. rewrite <- app_assoc in HL. apply ring_links_app in HL as [_ [Hx _]]. rewrite fmap_app. cbn [fmap list_fmap] in *. rewrite List.last_last.
    split; [set_solver|]. split; [done|]. rewrite decide_False by (by destruct l). exact Hx.
Qed.

(** The search stops there. *)
Lemma place_stops n : l1 ++ l2 <> [] -> find_place n h b place = Ret place.
Proof.
  intros Hne. unfold place. destruct l1 as [|x l _] using rev_ind.
  - destruct l2 as [|x l _] using rev_ind; [done|]. cbn [app] in *. pose proof (sorted_first l x Hsort Hk) as Hz.
    assert (b < List.hd 0 (l ++ [x]).*1) as Hb by (destruct l; apply Forall_cons in H2 as [? _]; done).
    set (z := List.hd 0 _) in *. apply ring_links_app in HL as [_ [Hx _]]. cbn [List.hd fmap list_fmap] in Hx.
    apply Forall_app in Hk as [_ [(Hx0 & _) _]%Forall_cons]. apply Forall_app in H2 as [_ [Hbx _]%Forall_cons].
    rewrite fmap_app. cbn [fmap list_fmap List.last]. rewrite List.last_last.
    destruct n; cbn [find_place]; rewrite (block_eq _ _ Hx0 Hx), bind_Ret; cbn [next];
      rewrite (proj2 (Z.ltb_ge x.1 b)), (proj2 (Z.ltb_lt b z)), (proj2 (Z.leb_le z x.1)) by lia; done.
  - apply Forall_app in H1 as [_ [Hxb _]%Forall_cons]. rewrite fmap_app. cbn [fmap list_fmap]. rewrite List.last_last.
    rewrite <- app_assoc in *. pose proof Hk as [_ [(Hx0 & _) _]%Forall_cons]%Forall_app. pose proof HL as [_ [Hx _]]%ring_links_app.
    destruct l2 as [|y l']; cbn [fmap list_fmap List.hd app] in Hx.
    + pose proof (sorted_first l x Hsort Hk) as Hz. set (z := List.hd 0 _) in *.
      destruct n; cbn [find_place]; rewrite (block_eq _ _ Hx0 Hx), bind_Ret; cbn [next];
        rewrite (proj2 (Z.ltb_lt x.1 b)), (proj2 (Z.ltb_ge b z)), (proj2 (Z.leb_le z x.1)) by lia; done.
    + apply Forall_cons in H2 as [Hy _].
      destruct n; cbn [find_place]; rewrite (block_eq _ _ Hx0 Hx), bind_Ret; cbn [next];
        rewrite (proj2 (Z.ltb_lt x.1 b)), (proj2 (Z.ltb_lt b y.1)) by lia; done.
Qed.

(** Walks that start inside the list and go on to its end. *)
Lemma walk_end l z s x s' k :
  l = s ++ x :: s' -> ring_links (blocks h) l z -> StronglySorted before l -> Forall in_kernel l ->
  Forall (fun y => y.1 < b) l \/ Forall (fun y => b < y.1) l ->
  find_place (List.length s' + k) h b x.1 = find_place k h b (List.last l.*1 0).
Proof.
  intros -> Hl Hs Hks Hb. rewrite fmap_app, fmap_cons, last_behind. apply ring_links_app in Hl as [_ Hl]. apply Forall_app in Hks as [_ Hks].
  eapply walk_up; [exact Hl| |exact Hks|].
  - clear -Hs. induction s as [|y s IH]; [exact Hs|]. apply StronglySorted_inv in Hs as [Hs _]. by apply IH.
  - destruct Hb as [Hb|Hb]; apply Forall_app in Hb as [_ Hb]; tauto.
Qed.

Lemma sorted_parts : StronglySorted before l1 /\ StronglySorted before l2.
Proof.
  clear -Hsort. induction l1 as [|x l IH]; [split; [constructor|exact Hsort]|]. apply StronglySorted_inv in Hsort as [Hs Hx].
  destruct (IH Hs) as [? ?]. split; [|done]. constructor; [done|]. by apply Forall_app in Hx as [? _].
Qed.

(** From the end of the ring the search goes on at its start. *)
Lemma walk_around k : l1 <> [] -> l2 <> [] -> find_place (S k) h b (List.last l2.*1 0) = find_place k h b (List.hd 0 l1.*1).
Proof.
  intros Hn1 Hn2. destruct l1 as [|x l]; [done|]. destruct l2 as [|y l' _] using rev_ind; [done|].
  pose proof HL as [_ [_ [Hy _]]%ring_links_app]%ring_links_app. cbn [app fmap list_fmap List.hd] in *.
  pose proof Hk as [_ [_ [(Hy0 & _) _]%Forall_cons]%Forall_app]%(Forall_app _ (x :: l)).
  apply Forall_app in H2 as [_ [Hby _]%Forall_cons]. apply Forall_cons in H1 as [Hxb _].
  rewrite fmap_app. cbn [fmap list_fmap]. rewrite List.last_last. cbn [find_place].
  rewrite (block_eq _ _ Hy0 Hy), bind_Ret. cbn [next].
  rewrite (proj2 (Z.ltb_ge y.1 b)), (proj2 (Z.ltb_ge b x.1)) by lia. cbn [andb orb]. by rewrite andb_false_r.
Qed.

(** From any block of the ring the search ends at the place. *)
Lemma find_place_spec n p : p ∈ (l1 ++ l2).*1 -> (List.length (l1 ++ l2) <= n)%nat -> find_place n h b p = Ret place.
Proof.
  intros Hp Hn. assert (l1 ++ l2 <> []) as Hne by (intros E; rewrite E in Hp; by apply elem_of_nil in Hp).
  destruct sorted_parts as [S1 S2]. pose proof HL as [L1 L2]%ring_links_app. pose proof Hk as [K1 K2]%Forall_app. rewrite length_app in Hn.
  assert (forall k, (List.length l1 <= k)%nat -> forall x, x ∈ l1 -> find_place k h b x.1 = Ret place) as Hlow.
  { intros k Hk1 x (s & s' & E)%list_elem_of_split. pose proof (f_equal List.length E) as El. rewrite length_app in El. cbn in El.
    replace k with (List.length s' + (k - List.length s'))%nat by lia. rewrite (walk_end l1 _ s x s' _ E L1 S1 K1) by auto.
    assert (place = List.last l1.*1 0) as <- by (unfold place; destruct l1; [by destruct s|by rewrite !fmap_cons, !last_cons_default]).
    by apply place_stops. }
  rewrite fmap_app, elem_of_app in Hp. destruct Hp as [(x & -> & Hx)%list_elem_of_fmap|(x & -> & Hx)%list_elem_of_fmap]; [apply Hlow; [lia|done]|].
  pose proof Hx as (s & s' & E)%list_elem_of_split. pose proof (f_equal List.length E) as El. rewrite length_app in El. cbn in El.
  replace n with (List.length s' + (n - List.length s'))%nat by lia. rewrite (walk_end l2 _ s x s' _ E L2 S2 K2) by auto.
  destruct (decide (l1 = [])) as [E1|Hn1].
  - assert (place = List.last l2.*1 0) as <- by (unfold place; by rewrite E1). by apply place_stops.
  - assert (1 <= List.length l1)%nat as H1l by (destruct l1; [done|cbn; lia]).
        replace (n - List.length s')%nat with (S (n - List.length s' - 1)) by lia. rewrite walk_around by (done || (rewrite E; by destruct s)).
    destruct l1 as [|y l]; [done|]. apply Hlow; [cbn in *; lia|by apply list_elem_of_here].
Qed.
End place.

(** ** Freeing a block *)

(** A block in front of a list of blocks, joined with the first one when they
    touch. *)
Definition join (x : Z * Z) (l : list (Z * Z)) : list (Z * Z) :=
  match l with
  | y :: l' => if block_end x =? y.1 then (x.1, x.2 + y.2) :: l' else x :: l
  | [] => [x]
  end.

Lemma free_byte_app l1 l2 a : free_byte (l1 ++ l2) a <-> free_byte l1 a \/ free_byte l2 a.
Proof. unfold free_byte. setoid_rewrite elem_of_app. naive_solver. Qed.

Lemma free_byte_cons x l a : free_byte (x :: l) a <-> x.1 <= a < block_end x \/ free_byte l a.
Proof. unfold free_byte. setoid_rewrite elem_of_cons. naive_solver. Qed.

Lemma join_spec x l :
  in_kernel x -> StronglySorted before l -> Forall in_kernel l -> Forall (fun y => block_end x <= y.1) l ->
  StronglySorted before (join x l) /\ Forall in_kernel (join x l) /\ Forall (fun y => x.1 <= y.1) (join x l) /\
  (forall d, List.hd d (join x l).*1 = x.1) /\ forall a, free_byte (join x l) a <-> x.1 <= a < block_end x \/ free_byte l a.
Proof.
  intros Hx Hs Hk Hb. assert (forall y, y ∈ l -> x.1 <= y.1) as Hle.
  { intros y Hy. pose proof (proj1 (Forall_forall _ _) Hb y Hy). destruct Hx as (_ & Hx & _). unfold block_end, SLOB_UNIT in *. cbn in *. lia. }
  destruct l as [|y l]; cbn [join].
  - split_and!; [constructor; constructor|by constructor|constructor; [lia|constructor]|done|apply free_byte_cons].
  - apply StronglySorted_inv in Hs as [Hs Hy]. apply Forall_cons in Hb as [Hby Hb]. pose proof Hk as [Hyk Hlk]%Forall_cons.
    destruct (Z.eqb_spec (block_end x) (y.1)) as [E|Hne].
    + assert (block_end (x.1, x.2 + y.2) = block_end y) as Ee by (unfold block_end, SLOB_UNIT in *; cbn in *; lia).
      destruct Hx as (? & ? & ?), Hyk as (? & ? & ?). split_and!.
      * constructor; [done|]. eapply Forall_impl; [exact Hy|]. intros w. unfold before. by rewrite Ee.
      * constructor; [|done]. unfold in_kernel. rewrite Ee. cbn. lia.
      * constructor; [cbn; lia|]. apply Forall_forall. intros w Hw. apply Hle. by apply list_elem_of_further.
      * done.
      * intros a. rewrite !free_byte_cons, Ee. cbn [fst]. unfold block_end, SLOB_UNIT in *.
        assert (x.1 <= a < y.1 + 16 * y.2 <-> x.1 <= a < x.1 + 16 * x.2 \/ y.1 <= a < y.1 + 16 * y.2) as -> by lia. tauto.
    + split_and!; [|by constructor| |done|apply free_byte_cons].
      * constructor; [by constructor|]. constructor; [unfold before; lia|]. apply Forall_forall. intros w Hw.
        pose proof (proj1 (Forall_forall _ _) Hy w Hw) as Hyw. unfold before in *. destruct Hyk as (_ & Hyk & _).
        unfold block_end, SLOB_UNIT in *. lia.
      * constructor; [lia|]. apply Forall_forall. intros w Hw. by apply Hle.
Qed.

Lemma sorted_split b l :
  StronglySorted before l -> Forall in_kernel l -> b ∉ l.*1 ->
  exists l1 l2, l = l1 ++ l2 /\ Forall (fun x => x.1 < b) l1 /\ Forall (fun x => b < x.1) l2.
Proof.
  induction 1 as [|x l Hs IH Hx]; intros Hk Hb; [by exists [], []|].
  apply Forall_cons in Hk as [(_ & Hu & _) Hk]. rewrite fmap_cons, not_elem_of_cons in Hb. destruct Hb as [Hbx Hb].
  destruct (decide (x.1 < b)) as [Hlt|Hge].
  - destruct (IH Hk Hb) as (l1 & l2 & -> & H1 & H2). exists (x :: l1), l2. split; [done|]. split; [by constructor|done].
  - exists [], (x :: l). split; [done|]. split; [done|]. constructor; [lia|]. apply Forall_forall. intros y Hy.
    pose proof (proj1 (Forall_forall _ _) Hx y Hy) as Hxy. unfold before, block_end, SLOB_UNIT in Hxy. lia.
Qed.

Lemma block_at_end x : in_kernel x -> block_at x.1 x.2 = block_end x.
Proof. intros (H1 & H2 & H3). unfold block_at. apply uwrap_small. unfold block_end, SLOB_UNIT, virt_base in *. lia. Qed.

Lemma small_units x : in_kernel x -> s32 x.2 = x.2.
Proof. intros (H1 & H2 & H3). apply swrap_small; [lia|]. unfold block_end, SLOB_UNIT, virt_base in *. lia. Qed.

(** The first half links the block, joined with its successor, to what follows. *)
Lemma join_next_spec h x l z cur cu :
  ring_links (blocks h) l z -> in_kernel x -> StronglySorted before l -> Forall in_kernel l -> Forall (fun y => block_end x <= y.1) l ->
  (l = [] -> z <> block_end x) -> virt_base <= cur -> blocks h !! cur = Some (SlobBlock cu (List.hd z l.*1)) ->
  from_option units 0 (blocks h !! x.1) = x.2 -> is_Some (blocks h !! x.1) ->
  exists w, join_next h x.1 cur = Ret (with_blocks h (<[x.1 := w]> (blocks h))) /\
    forall m, (forall a, a ∈ l.*1 -> m !! a = blocks h !! a) -> m !! x.1 = Some w -> ring_links m (join x l) z.
Proof.
  intros Hl Hx Hs Hk Hb Hz Hcur Hc Hxu [x0 Hx0]. rewrite Hx0 in Hxu. cbn in Hxu.
  pose proof Hx as (Hv & _). unfold join_next. rewrite (block_eq h _ _ Hv Hx0), bind_Ret, (block_eq h _ _ Hcur Hc), bind_Ret. cbn [next].
  rewrite Hxu, block_at_end by done. assert (x.1 ∉ l.*1) as Hxl.
  { intros (y & E & Hy)%list_elem_of_fmap. pose proof (proj1 (Forall_forall _ _) Hb y Hy) as Hle. destruct Hx as (_ & Hx & _).
    unfold block_end, SLOB_UNIT in Hle. lia. }
  assert (forall l0 m, (forall a, a ∈ l0.*1 -> m !! a = blocks h !! a) -> ring_links (blocks h) l0 z -> ring_links m l0 z) as Hsame.
  { clear. induction l0 as [|y l0 IH]; [done|]. intros m Hm [Hy Hl]. split; [rewrite Hm; [done|by apply list_elem_of_here]|].
    apply IH; [|done]. intros a Ha. apply Hm. by apply list_elem_of_further. }
  assert (block_end x <> List.hd z l.*1 -> exists w, Ret (set_next h x.1 (List.hd z l.*1)) =
    Ret (with_blocks h (<[x.1 := w]> (blocks h))) /\ forall m, (forall a, a ∈ l.*1 -> m !! a = blocks h !! a) -> m !! x.1 = Some w ->
    ring_links m (x :: l) z) as Hplain.
  { intros _. exists (SlobBlock x.2 (List.hd z l.*1)). split; [unfold set_next; by rewrite Hx0; cbn; rewrite Hxu|].
    intros m Hm Hmx. split; [exact Hmx|]. by apply Hsame. }
  destruct l as [|y l]; cbn [join fmap list_fmap List.hd] in *.
  - assert (block_end x <> z) as Hne by (intros E; by apply Hz). rewrite (proj2 (Z.eqb_neq _ _) Hne). by apply Hplain.
  - destruct (Z.eqb_spec (block_end x) y.1) as [E|Hne]; [|by apply Hplain]. destruct Hl as [Hy Hl].
    apply Forall_cons in Hk as [Hyk _]. rewrite (block_eq h _ _ (proj1 Hyk) Hy), bind_Ret. cbn [units next].
    exists (SlobBlock (x.2 + y.2) (List.hd z l.*1)).
    assert (in_kernel (x.1, x.2 + y.2)) as Hj by (destruct Hx as (? & ? & ?), Hyk as (? & ? & ?); unfold in_kernel, block_end, SLOB_UNIT in *; cbn; lia).
    pose proof (small_units _ Hj) as E32. cbn [snd] in E32. rewrite E32. split.
    + unfold set_next, set_units. cbn [blocks with_blocks]. rewrite lookup_insert_eq. cbn [from_option units]. by rewrite insert_insert_eq.
    + intros m Hm Hmx. split; [exact Hmx|]. apply Hsame; [|done]. intros a Ha. apply Hm. by apply list_elem_of_further.
Qed.

Lemma join_head x l : exists n r, join x l = (x.1, n) :: r.
Proof. destruct x as [b n], l as [|y l]; cbn [join]; [|destruct (_ =? _)]; eexists _, _; reflexivity. Qed.

(** The second half links [cur], joined with the block, to the block. *)
Definition linked_prev (c : Z * Z) (b n : Z) (nx : Z) : slob_t :=
  if block_end c =? b then SlobBlock (s32 (c.2 + n)) nx else SlobBlock c.2 b.

Lemma join_prev_spec h c b n nx old :
  in_kernel c -> virt_base <= b -> blocks h !! c.1 = Some (SlobBlock c.2 old) -> blocks h !! b = Some (SlobBlock n nx) ->
  join_prev h b c.1 = Ret (with_blocks h (<[c.1 := linked_prev c b n nx]> (blocks h))).
Proof.
  intros Hk Hv Hc Hb. unfold join_prev. rewrite (block_eq h _ _ (proj1 Hk) Hc), bind_Ret, (block_eq h _ _ Hv Hb), bind_Ret. cbn [units next].
  rewrite block_at_end by done. unfold linked_prev. destruct (block_end c =? b); [|unfold set_next; by rewrite Hc].
  unfold set_next, set_units. cbn [blocks with_blocks]. rewrite lookup_insert_eq. cbn [from_option units]. by rewrite insert_insert_eq.
Qed.

Lemma ring_links_join_prev m c b n r z :
  in_kernel c -> Forall in_kernel (join c ((b, n) :: r)) -> c.1 ∉ ((b, n) :: r).*1 -> ring_links m ((b, n) :: r) z ->
  ring_links (<[c.1 := linked_prev c b n (List.hd z r.*1)]> m) (join c ((b, n) :: r)) z.
Proof.
  intros Hc Hk Hin Hl. pose proof (ring_links_insert m _ z c.1 (linked_prev c b n (List.hd z r.*1)) Hin Hl) as [Hb Hr].
  unfold linked_prev in *. cbn [join fst snd] in *. destruct (block_end c =? b).
  - apply Forall_cons in Hk as [Hk _]. apply small_units in Hk. cbn [snd] in Hk. split; [|exact Hr]. cbn [fst snd]. by rewrite lookup_insert_eq, Hk.
  - split; [by rewrite lookup_insert_eq|by split].
Qed.

Lemma sorted_app l1 l2 :
  StronglySorted before l1 -> StronglySorted before l2 -> (forall x y, x ∈ l1 -> y ∈ l2 -> before x y) -> StronglySorted before (l1 ++ l2).
Proof.
  intros H1 H2 Hb. induction H1 as [|x l H1 IH Hx]; [done|]. cbn [app]. constructor.
  - apply IH. intros y z Hy Hz. apply Hb; [by apply list_elem_of_further|done].
  - apply Forall_app. split; [done|]. apply Forall_forall. intros y Hy. apply Hb; [by apply list_elem_of_here|done].
Qed.

Lemma sorted_app_inv l1 l2 : StronglySorted before (l1 ++ l2) -> forall x y, x ∈ l1 -> y ∈ l2 -> before x y.
Proof.
  induction l1 as [|w l1 IH]; cbn [app]; [intros _ x y Hx; by apply elem_of_nil in Hx|].
  intros [Hs Hw]%StronglySorted_inv x y [->|Hx]%elem_of_cons Hy; [|by apply (IH Hs)].
  apply (proj1 (Forall_forall _ _) Hw), elem_of_app. by right.
Qed.

(** The block goes behind a block [c]. *)
Lemma free_behind h x l1 c l2 w :
  let l := l1 ++ c :: l2 in let z := List.hd 0 l.*1 in
  ring_links (blocks h) l z -> StronglySorted before l -> Forall in_kernel l -> in_kernel x -> x.1 ∉ l.*1 ->
  Forall (fun y => block_end y <= x.1) (l1 ++ [c]) -> Forall (fun y => block_end x <= y.1) l2 -> 
  (forall m, (forall a, a ∈ l2.*1 -> m !! a = blocks h !! a) -> m !! x.1 = Some w -> ring_links m (join x l2) z) ->
  exists h', join_prev (with_blocks h (<[x.1 := w]> (blocks h))) x.1 c.1 = Ret h' /\ slobfree h' = slobfree h /\ slob_vm h' = slob_vm h /\
    ring (with_slobfree h' c.1) (l1 ++ join c (join x l2)) /\
    forall a, free_byte (l1 ++ join c (join x l2)) a <-> free_byte l a \/ x.1 <= a < block_end x.
Proof.
  intros l z Hl Hs Hk Hx Hxl H1 H2 Hw. pose proof (sorted_nodup l Hs Hk) as Hnd. unfold l in *.
  pose proof Hl as [L1 [Hc L2]]%ring_links_app. pose proof Hk as [K1 [Kc K2]%Forall_cons]%Forall_app.
  pose proof (sorted_app_inv _ _ Hs) as Hord. apply Forall_app in H1 as [H1 [H1c _]%Forall_cons].
  rewrite fmap_app, fmap_cons, not_elem_of_app, not_elem_of_cons in Hxl. destruct Hxl as (Hx1 & Hxc & Hx2).
  rewrite fmap_app, fmap_cons in Hnd. apply NoDup_app in Hnd as (_ & Hnd1 & [Hc2 _]%NoDup_cons).
  assert (StronglySorted before (c :: l2) /\ StronglySorted before l1) as [[S2 Sc]%StronglySorted_inv S1].
  { clear -Hs. induction l1 as [|y l1 IH]; [split; [exact Hs|constructor]|]. apply StronglySorted_inv in Hs as [Hs Hy].
    destruct (IH Hs) as [? ?]. split; [done|]. constructor; [done|]. by apply Forall_app in Hy as [? _]. }
  set (m1 := <[x.1 := w]> (blocks h)). assert (m1 !! x.1 = Some w) as Hm1 by apply lookup_insert_eq.
  assert (forall a, a <> x.1 -> m1 !! a = blocks h !! a) as Hsame by (intros a Ha; by apply lookup_insert_ne).
  destruct (join_spec x l2 Hx S2 K2 H2) as (SR & KR & BR & _ & FR).
  assert (ring_links m1 (join x l2) z) as LR by (apply Hw; [intros a Ha; apply Hsame; by intros ->|done]).
  destruct (join_head x l2) as (n & r & ER). rewrite ER in *. pose proof LR as [Hb _]. cbn [fst snd] in Hb.
  assert (Forall (fun y => block_end c <= y.1) ((x.1, n) :: r)) as Hcr by (eapply Forall_impl; [exact BR|]; cbn; lia).
  destruct (join_spec c ((x.1, n) :: r) Kc SR KR Hcr) as (SJ & KJ & BJ & HJ & FJ).
  assert (c.1 ∉ ((x.1, n) :: r).*1) as Hcin.
  { intros (y & E & Hy)%list_elem_of_fmap. pose proof (proj1 (Forall_forall _ _) Hcr y Hy) as Hle. cbn in Hle.
    destruct Kc as (_ & Hu & _). unfold block_end, SLOB_UNIT in Hle. lia. }
  rewrite (join_prev_spec _ c x.1 n (List.hd z r.*1) (List.hd z l2.*1)); [|done|apply Hx|cbn; by rewrite Hsame|done].
  eexists. split; [done|]. split; [done|]. split; [done|]. split.
  - split; cbn [blocks slobfree with_blocks with_slobfree].
    + assert (List.hd 0 (l1 ++ join c ((x.1, n) :: r)).*1 = z) as ->.
      { unfold z. rewrite !fmap_app. destruct l1; [cbn [fmap list_fmap app]; by rewrite HJ|done]. }
      apply ring_links_app. rewrite HJ. split; [|by apply ring_links_join_prev].
      apply ring_links_insert; [intros Hin; apply (Hnd1 c.1 Hin), list_elem_of_here|]. by apply ring_links_insert.
    + rewrite fmap_app. apply elem_of_app. right. destruct (join_head c ((x.1, n) :: r)) as (n' & r' & ->). apply list_elem_of_here.
    + apply sorted_app; [done|done|]. intros y y' Hy Hy'. pose proof (Hord y c Hy ltac:(apply list_elem_of_here)) as Hyc.
      pose proof (proj1 (Forall_forall _ _) BJ y' Hy') as Hle. unfold before in *. cbn in Hle. lia.
    + by apply Forall_app.
  - intros a. rewrite !free_byte_app, free_byte_cons, FJ, FR. tauto.
Qed.

Lemma join_last x l c : (l = [] -> block_end x <> c.1) -> exists n r, join x (l ++ [c]) = ((x.1, n) :: r) ++ [c].
Proof.
  intros Hne. destruct x as [b n], l as [|y l]; cbn [app join].
  - rewrite (proj2 (Z.eqb_neq _ _)) by (by apply Hne). by exists n, [].
  - destruct (_ =? _); [by exists (n + y.2), l|by exists n, (y :: l)].
Qed.

(** The block goes before the first one: the last block is its predecessor. *)
Lemma free_in_front h x l c w :
  let z := List.hd 0 (l ++ [c]).*1 in
  ring_links (blocks h) (l ++ [c]) z -> StronglySorted before (l ++ [c]) -> Forall in_kernel (l ++ [c]) -> in_kernel x -> x.1 ∉ (l ++ [c]).*1 ->
  Forall (fun y => block_end x <= y.1) (l ++ [c]) -> (l = [] -> block_end x <> c.1) ->
  (forall m, (forall a, a ∈ (l ++ [c]).*1 -> m !! a = blocks h !! a) -> m !! x.1 = Some w -> ring_links m (join x (l ++ [c])) z) ->
  exists h', join_prev (with_blocks h (<[x.1 := w]> (blocks h))) x.1 c.1 = Ret h' /\ slobfree h' = slobfree h /\ slob_vm h' = slob_vm h /\
    ring (with_slobfree h' c.1) (join x (l ++ [c])) /\
    forall a, free_byte (join x (l ++ [c])) a <-> free_byte (l ++ [c]) a \/ x.1 <= a < block_end x.
Proof.
  intros z Hl Hs Hk Hx Hxl Hb Hne Hw. set (m1 := <[x.1 := w]> (blocks h)).
  destruct (join_spec x _ Hx Hs Hk Hb) as (SR & KR & _ & _ & FR).
  assert (ring_links m1 (join x (l ++ [c])) z) as LR.
  { apply Hw; [|apply lookup_insert_eq]. intros a Ha. apply lookup_insert_ne. by intros <-. }
  pose proof (sorted_nodup _ SR KR) as Hnd. destruct (join_last x l c Hne) as (n & r & ER). rewrite ER in *.
  rewrite fmap_app in Hnd. apply NoDup_app in Hnd as (_ & Hnd & _).
  apply ring_links_app in LR as [LR [Hc _]]. cbn [fmap list_fmap List.hd] in LR, Hc.
  assert (c.1 ∉ ((x.1, n) :: r).*1) as Hcr by (intros Hin; apply (Hnd c.1 Hin), list_elem_of_here).
  pose proof LR as [Hb1 _]. cbn [fst snd] in Hb1.
  pose proof Hk as [_ [Kc _]%Forall_cons]%Forall_app. pose proof Hb as [_ [Hbc _]%Forall_cons]%Forall_app.
  rewrite (join_prev_spec _ c x.1 n (List.hd c.1 r.*1) z); [|done|apply Hx|exact Hc|exact Hb1].
  assert (linked_prev c x.1 n (List.hd c.1 r.*1) = SlobBlock c.2 x.1) as ->.
  { unfold linked_prev. rewrite (proj2 (Z.eqb_neq _ _)); [done|]. destruct Kc as (_ & Hu & _), Hx as (_ & Hxu & _).
    unfold block_end, SLOB_UNIT in *. lia. }
  eexists. split; [done|]. split; [done|]. split; [done|]. split; [|intros a; rewrite FR; tauto].
  split; cbn [blocks slobfree with_blocks with_slobfree]; [|rewrite fmap_app; set_solver|done|done].
  change (List.hd 0 _) with x.1. apply ring_links_app. split; [by apply ring_links_insert|]. split; [|done].
  cbn [fmap list_fmap List.hd]. apply lookup_insert_eq.
Qed.

(** Freeing a block that is apart from the free ones adds its bytes to theirs,
    and keeps the ring: in the order of addresses, with neighbours joined.  A
    ring of one block must not begin where the block ends. *)
Lemma slob_free_adds h l b size :
  ring h l -> size <> 0 -> let x := (b, SLOB_UNITS size) in
  in_kernel x -> Forall (fun y => block_end x <= y.1 \/ block_end y <= b) l -> (forall y, l = [y] -> block_end x <> y.1) ->
  exists h' l', slob_free h b size = Ret h' /\ ring h' l' /\ slob_vm h' = slob_vm h /\
    forall a, free_byte l' a <-> free_byte l a \/ b <= a < block_end x.
Proof.
  intros [Hl Hfr Hs Hk] Hsz x Hx Hap Hone. set (z := List.hd 0 l.*1) in *.
  assert (b ∉ l.*1) as Hbl.
  { intros (y & E & Hy)%list_elem_of_fmap. pose proof (proj1 (Forall_forall _ _) Hap y Hy) as Hxy.
    pose proof (proj1 (Forall_forall _ _) Hk y Hy) as (_ & Hu & _). destruct Hx as (_ & Hxu & _).
    unfold block_end, SLOB_UNIT, x in *. cbn in *. lia. }
  destruct (sorted_split b l Hs Hk Hbl) as (l1 & l2 & -> & H1 & H2).
  assert (Forall (fun y => block_end y <= b) l1 /\ Forall (fun y => block_end x <= y.1) l2) as [B1 B2].
  { rewrite Forall_app in Hap, Hk. destruct Hap as [A1 A2], Hk as [K1 K2]. rewrite !Forall_forall in *. destruct Hx as (_ & Hxu & _).
    unfold block_end, SLOB_UNIT, x in *. cbn in *. split; intros y Hy;
      [specialize (A1 y Hy); specialize (H1 y Hy)|specialize (A2 y Hy); specialize (H2 y Hy); specialize (K2 y Hy)]; cbn in *; [lia|].
    destruct K2 as (_ & K2 & _). unfold block_end, SLOB_UNIT in *. lia. }
  unfold slob_free. rewrite (proj2 (Z.eqb_neq b 0)), (proj2 (Z.eqb_neq _ _) Hsz) by (destruct Hx; unfold virt_base, x in *; cbn in *; lia).
  set (h0 := set_units h b (SLOB_UNITS size)). set (m0 := blocks h0).
  assert (ring_links m0 (l1 ++ l2) z) as Hl0 by (by apply ring_links_insert).
  assert (m0 !! b = Some (SlobBlock (SLOB_UNITS size) (from_option next 0 (blocks h !! b)))) as Hb0 by apply lookup_insert_eq.
  assert (l1 ++ l2 <> []) as Hne by (intros E; rewrite E in Hfr; by apply elem_of_nil in Hfr).
  rewrite (find_place_spec h0 b l1 l2 Hl0 Hs Hk H1 H2), bind_Ret; [|exact Hfr|by apply (ring_links_length _ _ z); [|apply sorted_nodup]].
  destruct (place_entry h0 l1 l2 Hl0 Hne) as (c & Hc & Ec & Hcb). pose proof (proj1 (Forall_forall _ _) Hk c Hc) as Kc.
  destruct (sorted_parts l1 l2 Hs) as [_ S2]. pose proof Hl0 as [_ L2]%ring_links_app. pose proof Hk as [_ K2]%Forall_app.
  destruct (join_next_spec h0 x l2 z (place l1 l2) c.2) as (w & E & Hw); try done.
  { intros -> E. rewrite app_nil_r in *. destruct l1 as [|y l]; [done|]. apply Forall_cons in B1 as [B1 _]. apply Forall_cons in Hk as [(_ & Hy & _) _].
    destruct Hx as (_ & Hxu & _). cbn in z. unfold z, block_end, SLOB_UNIT, x in *. cbn in *. lia. }
  { rewrite <- Ec. apply Kc. }
  { unfold z in *. destruct (decide (l1 = [])) as [->|]; [|exact Hcb]. rewrite Hcb. cbn [app]. by destruct l2. }
  { cbn [x fst]. unfold h0. change (blocks (set_units h b (SLOB_UNITS size))) with m0. by rewrite Hb0. }
  change x.1 with b in E. rewrite E, bind_Ret. clear E.
  destruct l1 as [|c1 l1 _] using rev_ind.
  - destruct l2 as [|c2 l2 _] using rev_ind; [done|]. cbn [app] in *.
    destruct (free_in_front h0 x l2 c2 w) as (h' & E & _ & Ev & HR & HF); try done.
    { intros ->. by apply Hone. }
    assert (place [] (l2 ++ [c2]) = c2.1) as -> by (unfold place; rewrite fmap_app; apply List.last_last).
    change x.1 with b in E. rewrite E, bind_Ret. by eexists _, _.
  - assert (z = List.hd 0 (l1 ++ c1 :: l2).*1) as Ez by (unfold z; by rewrite <- app_assoc).
    clearbody z. subst z. rewrite <- app_assoc in *. cbn [app] in *.
    destruct (free_behind h0 x l1 c1 l2 w) as (h' & E & _ & Ev & HR & HF); try done.
    assert (place (l1 ++ [c1]) l2 = c1.1) as -> by (unfold place; rewrite fmap_app; apply List.last_last).
    change x.1 with b in E. rewrite E, bind_Ret. by eexists _, _.
Qed.

(** ** Taking a block *)

(** A ring can be read from any of its blocks. *)
Lemma ring_links_rotate m l1 l2 : ring_links m (l1 ++ l2) (List.hd 0 (l1 ++ l2).*1) -> ring_links m (l2 ++ l1) (List.hd 0 (l2 ++ l1).*1).
Proof.
  destruct l1 as [|x l1]; [by rewrite app_nil_r|]. destruct l2 as [|y l2]; [by rewrite app_nil_r|].
  intros [H1 H2]%ring_links_app. apply ring_links_app. by split.
Qed.

Lemma first_fit (n : Z) (l : list (Z * Z)) : (exists x, x ∈ l /\ n <= x.2) -> exists pre c post, l = pre ++ c :: post /\ Forall (fun x => x.2 < n) pre /\ n <= c.2.
Proof.
  induction l as [|x l IH]; intros (y & Hy & Hn); [by apply elem_of_nil in Hy|]. destruct (decide (n <= x.2)) as [Hx|Hx].
  - by exists [], x, l.
  - apply elem_of_cons in Hy as [->|Hy]; [lia|]. destruct IH as (pre & c & post & -> & Hp & Hc); [by exists y|].
    exists (x :: pre), c, post. split; [done|]. split; [constructor; [lia|done]|done].
Qed.

(** The search takes the first block that is large enough, with the one before
    it as [prev]. *)
Lemma alloc_search h size align pre c : forall post z prev n,
  ring_links (blocks h) (pre ++ c :: post) z -> Forall in_kernel (pre ++ c :: post) ->
  Forall (fun x => x.2 < SLOB_UNITS size) pre -> SLOB_UNITS size <= c.2 -> slobfree h ∉ pre.*1 ->
  (forall x, x ∈ pre ++ [c] -> delta x.1 align = Ret 0) -> (List.length pre <= n)%nat ->
  alloc_from n h size align prev (List.hd 0 (pre ++ c :: post).*1) = carve h (List.last pre.*1 prev) c.1 (SLOB_UNITS size) 0.
Proof.
  induction pre as [|x pre IH]; intros post z prev n Hl Hk Hno Hc Hfr Hd Hn; cbn [app fmap list_fmap List.hd] in *.
  - destruct Hl as [Hx _]. apply Forall_cons in Hk as [(Hv & _) _].
    destruct n; cbn [alloc_from]; rewrite (block_eq h _ _ Hv Hx), bind_Ret, Hd, bind_Ret by (apply list_elem_of_here); cbn [units];
      rewrite Z.add_0_r, (proj2 (Z.leb_le _ _) Hc); done.
  - destruct Hl as [Hx Hl]. apply Forall_cons in Hk as [(Hv & _) Hk]. apply Forall_cons in Hno as [Hxn Hno].
    rewrite not_elem_of_cons in Hfr. destruct Hfr as [Hxf Hfr]. destruct n as [|n]; [cbn in Hn; lia|]. cbn [alloc_from].
    rewrite (block_eq h _ _ Hv Hx), bind_Ret, Hd, bind_Ret by (apply list_elem_of_here). cbn [units].
    rewrite Z.add_0_r, (proj2 (Z.leb_gt _ _) Hxn), (proj2 (Z.eqb_neq x.1 (slobfree h))) by (by apply not_eq_sym). cbn [andb].
    rewrite bind_Ret. cbn [fst snd]. rewrite (proj2 (Z.eqb_neq x.1 0)) by (unfold virt_base in Hv; lia).
    rewrite (block_eq h _ _ Hv Hx), bind_Ret. cbn [next]. rewrite last_cons_default.
    rewrite <- (IH post z x.1 n); try done; [by destruct pre| |cbn in Hn; lia].
    intros y Hy. apply Hd. by apply list_elem_of_further.
Qed.

(** The block [c], read first in the ring, is taken from its front. *)
Definition taken_front (n : Z) (c : Z * Z) : list (Z * Z) := if c.2 =? n then [] else [(block_end (c.1, n), c.2 - n)].

Lemma carve_spec h c t p n :
  let l := t ++ [p] in
  ring_links (blocks h) (c :: l) c.1 -> NoDup (c :: l).*1 -> Forall in_kernel (c :: l) ->
  Forall (fun y => block_end c <= y.1 \/ block_end y <= c.1) l -> 0 < n <= c.2 ->
  exists h', carve h p.1 c.1 n 0 = Ret (h', c.1) /\ slobfree h' = p.1 /\ slob_vm h' = slob_vm h /\
    ring_links (blocks h') (taken_front n c ++ l) (List.hd 0 (taken_front n c ++ l).*1).
Proof.
  intros l [Hc Hl] Hnd Hk Hap Hn. unfold l in *. apply ring_links_app in Hl as [Hl [Hp _]]. cbn [fmap list_fmap List.hd] in Hl, Hp.
  rewrite fmap_cons in Hnd. apply NoDup_cons in Hnd as [Hcl Hnd]. rewrite fmap_app in Hcl, Hnd.
  apply NoDup_app in Hnd as (_ & Hnd & _). assert (p.1 ∉ t.*1) as Hpt by (intros Hin; apply (Hnd p.1 Hin), list_elem_of_here).
  rewrite not_elem_of_app in Hcl. destruct Hcl as [Hct Hcp]. apply not_elem_of_cons in Hcp as [Hcp _].
  apply Forall_cons in Hk as [Kc Kl]. set (f := List.hd c.1 (t ++ [p]).*1) in *.
  assert (forall d, List.hd d (t ++ [p]).*1 = f) as Hf by (intros d; unfold f; by destruct t).
  unfold carve. rewrite !(block_eq h _ _ (proj1 Kc) Hc), !bind_Ret. cbn [negb Z.eqb units next]. rewrite (block_eq h _ _ (proj1 Kc) Hc), bind_Ret.
  cbn [units next]. unfold taken_front. destruct (Z.eqb_spec c.2 n) as [En|Hne].
  - eexists. split; [done|]. split; [done|]. split; [done|]. cbn [app blocks with_slobfree set_next with_blocks]. rewrite Hp. cbn [from_option units].
    rewrite Hf. apply ring_links_app. split; [by apply ring_links_insert|]. split; [apply lookup_insert_eq|done].
  - assert (in_kernel (c.1, n)) as Kn by (destruct Kc as (? & ? & ?); unfold in_kernel, block_end, SLOB_UNIT in *; cbn; lia).
    change (block_at c.1 n) with (block_at (c.1, n).1 (c.1, n).2). rewrite (block_at_end _ Kn). set (R := block_end (c.1, n)).
    assert (R <> c.1 /\ R ∉ (t ++ [p]).*1) as [HRc HR].
    { unfold R, block_end, SLOB_UNIT. cbn [fst snd]. split; [lia|]. intros (y & E & Hy)%list_elem_of_fmap.
      pose proof (proj1 (Forall_forall _ _) Hap y Hy) as Hy1. pose proof (proj1 (Forall_forall _ _) Kl y Hy) as (_ & Hu & _).
      unfold block_end, SLOB_UNIT in Hy1. lia. }
    rewrite fmap_app, not_elem_of_app in HR. destruct HR as [HRt HRp]. apply not_elem_of_cons in HRp as [HRp _].
    match goal with |- context [block ?h1 c.1] => set (h1' := h1) end.
    assert (blocks h1' !! c.1 = Some (SlobBlock c.2 f)) as Hc1.
    { unfold h1', set_units, set_next. cbn [blocks with_blocks]. rewrite !lookup_insert_ne by (done || by apply not_eq_sym). exact Hc. }
    rewrite (block_eq h1' _ _ (proj1 Kc) Hc1), bind_Ret. cbn [next]. eexists. split; [done|]. split; [done|]. split; [done|].
    unfold h1', set_units, set_next. cbn [app blocks with_slobfree with_blocks fmap list_fmap List.hd fst].
    rewrite Hp. cbn [from_option units next]. rewrite !lookup_insert_eq. cbn [from_option units next].
    rewrite insert_insert_eq. split; cbn [fst snd].
    + rewrite lookup_insert_ne by (by apply not_eq_sym). rewrite lookup_insert_eq, Hf. reflexivity.
    + do 2 (apply ring_links_insert; [rewrite fmap_app; set_solver|]). apply ring_links_app. split; [by apply ring_links_insert|].
      split; [apply lookup_insert_eq|done].
Qed.

(** The ring from the block behind the place where the search starts. *)
Lemma rotations (la lb pre post : list (Z * Z)) s c :
  lb ++ la ++ [s] = pre ++ c :: post -> exists l1 l2, la ++ s :: lb = l1 ++ c :: l2 /\ l2 ++ l1 = post ++ pre.
Proof.
  intros E. apply List.app_eq_app in E as (y & [[-> E]|[-> E]]).
  - destruct y as [|c' y]; cbn [app] in E.
    + exists [], (post ++ pre). rewrite !app_nil_r. split; [|done]. change (s :: pre) with ([s] ++ pre). by rewrite app_assoc, <- E.
    + injection E as <- ->. exists (la ++ s :: pre), y. rewrite <- !app_assoc. done.
  - exists y, (post ++ lb). split; [|by rewrite <- app_assoc]. change (s :: lb) with ([s] ++ lb). by rewrite app_assoc, E, <- app_assoc.
Qed.

Lemma taken_front_spec n c : in_kernel c -> 0 < n <= c.2 ->
  Forall in_kernel (taken_front n c) /\ StronglySorted before (taken_front n c) /\
  (forall y, y ∈ taken_front n c -> c.1 < y.1 /\ block_end y = block_end c) /\
  (forall a, free_byte (taken_front n c) a <-> block_end (c.1, n) <= a < block_end c).
Proof.
  intros (H1 & H2 & H3) Hn. unfold taken_front. destruct (Z.eqb_spec c.2 n) as [E|Hne].
  - split; [constructor|]. split; [constructor|]. split; [intros y Hy; by apply elem_of_nil in Hy|]. intros a.
    split; [intros (y & Hy & _); by apply elem_of_nil in Hy|]. unfold block_end, SLOB_UNIT. cbn. lia.
  - assert (block_end (block_end (c.1, n), c.2 - n) = block_end c) as E by (unfold block_end, SLOB_UNIT; cbn; lia).
    split; [|split; [by repeat constructor|split]].
    + constructor; [|constructor]. unfold in_kernel. rewrite E. unfold block_end, SLOB_UNIT in *. cbn in *. lia.
    + intros y ->%list_elem_of_singleton. rewrite E. unfold block_end, SLOB_UNIT. cbn. lia.
    + intros a. rewrite free_byte_cons, E. cbn [fst]. split; [intros [?|(y & Hy & _)]; [done|by apply elem_of_nil in Hy]|by left].
Qed.

(** Taking the front of a block of the ring keeps the ring, and takes exactly its
    bytes. *)
Lemma ring_taken h l1 c l2 n p :
  let l' := l1 ++ taken_front n c ++ l2 in
  StronglySorted before (l1 ++ c :: l2) -> Forall in_kernel (l1 ++ c :: l2) -> 0 < n <= c.2 ->
  ring_links (blocks h) (taken_front n c ++ l2 ++ l1) (List.hd 0 (taken_front n c ++ l2 ++ l1).*1) -> slobfree h = p -> p ∈ (l2 ++ l1).*1 ->
  ring h l' /\ forall a, free_byte l' a <-> free_byte (l1 ++ c :: l2) a /\ ~ (c.1 <= a < block_end (c.1, n)).
Proof.
  intros l' Hs Hk Hn Hl <- Hp. pose proof (sorted_app_inv _ _ Hs) as Hord. pose proof Hk as [K1 [Kc K2]%Forall_cons]%Forall_app.
  destruct (taken_front_spec n c Kc Hn) as (KT & ST & HT & FT). destruct (sorted_parts l1 (c :: l2) Hs) as [S1 [S2 Sc]%StronglySorted_inv].
  assert (forall y, y ∈ l1 -> before y c) as B1 by (intros y Hy; apply Hord; [done|apply list_elem_of_here]).
  pose proof (proj1 (Forall_forall _ _) Sc) as B2. split.
  - split; [|unfold l'; rewrite !fmap_app, !elem_of_app in *; tauto| |].
    + rewrite app_assoc in Hl. by apply ring_links_rotate in Hl.
    + apply sorted_app; [done| |].
      * apply sorted_app; [done|done|]. intros y w Hy Hw. unfold before. destruct (HT y Hy) as [_ ->]. by apply B2.
      * intros y w Hy [Hw|Hw]%elem_of_app; [|apply Hord; [done|by apply list_elem_of_further]].
        pose proof (B1 y Hy) as Hb. unfold before in *. destruct (HT w Hw) as [? _]. lia.
    + unfold l'. by rewrite !Forall_app.
  - intros a. unfold l'. rewrite !free_byte_app, free_byte_cons, FT.
    assert (forall y, y ∈ l1 \/ y ∈ l2 -> y.1 <= a < block_end y -> ~ (c.1 <= a < block_end (c.1, n))) as Hout.
    { intros y Hy Ha. destruct Kc as (_ & Hu & _). destruct Hy as [Hy|Hy]; [specialize (B1 y Hy)|specialize (B2 y Hy)];
        unfold before, block_end, SLOB_UNIT in *; cbn [fst snd] in *; lia. }
    assert (free_byte l1 a -> ~ (c.1 <= a < block_end (c.1, n))) as O1 by (intros (y & Hy & Ha); apply (Hout y); [by left|done]).
    assert (free_byte l2 a -> ~ (c.1 <= a < block_end (c.1, n))) as O2 by (intros (y & Hy & Ha); apply (Hout y); [by right|done]).
    assert (block_end (c.1, n) <= a < block_end c <-> c.1 <= a < block_end c /\ ~ (c.1 <= a < block_end (c.1, n))) as ->.
    { unfold block_end, SLOB_UNIT. cbn [fst snd]. lia. }
    tauto.
Qed.

(** The block before the one that is found, and the place where the search
    started, which comes last. *)
Lemma found_behind (lb la pre post : list (Z * Z)) s c :
  lb ++ la ++ [s] = pre ++ c :: post -> NoDup (pre ++ c :: post).*1 -> (2 <= List.length (pre ++ c :: post))%nat ->
  s.1 ∉ pre.*1 /\ exists t q, post ++ pre = t ++ [q] /\ q.1 = List.last pre.*1 s.1.
Proof.
  intros E Hnd Hlen. rewrite fmap_app in Hnd. apply NoDup_app in Hnd as (_ & Hnd & _). rewrite app_assoc in E.
  assert (s ∈ c :: post) as Hs.
  { destruct post as [|y post _] using rev_ind; [apply app_inj_tail in E as [_ ->]; apply list_elem_of_here|].
    change (c :: post ++ [y]) with ((c :: post) ++ [y]) in E. rewrite app_assoc in E. apply app_inj_tail in E as [_ ->]. set_solver. }
  split; [intros Hin; apply (Hnd s.1 Hin); by apply list_elem_of_fmap_2|].
  destruct pre as [|q pre _] using rev_ind.
  - destruct post as [|y post _] using rev_ind; [cbn in Hlen; lia|]. change (c :: post ++ [y]) with ((c :: post) ++ [y]) in E.
    rewrite app_nil_l in E. apply app_inj_tail in E as [_ ->]. exists post, y. by rewrite app_nil_r.
  - exists (post ++ pre), q. rewrite app_assoc. split; [done|]. by rewrite fmap_app, (List.last_last pre.*1 q.1).
Qed.

(** Taking a block from a ring of several blocks, one of them large enough: the
    address returned is the start of free bytes, as many as asked for, and these
    are the ones that are no longer free. *)
Lemma slob_alloc_takes h l size align :
  ring h l -> (2 <= List.length l)%nat -> 0 < SLOB_UNITS size -> (exists x, x ∈ l /\ SLOB_UNITS size <= x.2) ->
  (forall x, x ∈ l -> delta x.1 align = Ret 0) ->
  exists h' l' p, slob_alloc h size align = Ret (h', p) /\ ring h' l' /\ slob_vm h' = slob_vm h /\ (List.length l <= S (List.length l'))%nat /\
    in_kernel (p, SLOB_UNITS size) /\ (forall a, p <= a < block_end (p, SLOB_UNITS size) -> free_byte l a) /\
    forall a, free_byte l' a <-> free_byte l a /\ ~ (p <= a < block_end (p, SLOB_UNITS size)).
Proof.
  intros [Hl Hfr Hs Hk] Hlen Hn Hfit Hd. set (N := SLOB_UNITS size) in *.
  pose proof (sorted_nodup l Hs Hk) as Hnd. pose proof (ring_links_length _ _ _ Hl Hnd) as Hsz.
  apply list_elem_of_fmap in Hfr as (s & Es & Hs0). apply list_elem_of_split in Hs0 as (la & lb & El). subst l.
  assert (ring_links (blocks h) (lb ++ la ++ [s]) (List.hd 0 (lb ++ la ++ [s]).*1)) as Hr.
  { apply (ring_links_rotate _ (la ++ [s]) lb). rewrite <- app_assoc. exact Hl. }
  assert (lb ++ la ++ [s] ≡ₚ la ++ s :: lb) as Hperm by (rewrite (Permutation_app_comm lb), <- app_assoc; done).
  destruct (first_fit N (lb ++ la ++ [s])) as (pre & c & post & E & Hno & Hc).
  { destruct Hfit as (x & Hx & ?). exists x. by rewrite Hperm. }
  destruct (rotations la lb pre post s c E) as (l1 & l2 & El & Erot).
  rewrite E in Hr, Hperm. assert (NoDup (pre ++ c :: post).*1) as Hnd' by (by rewrite Hperm).
  destruct (found_behind lb la pre post s c E Hnd') as (Hspre & t & q & Etq & Eq); [by rewrite Hperm|].
  assert (Forall in_kernel (pre ++ c :: post)) as Hk' by (by rewrite Hperm).
  assert (blocks h !! s.1 = Some (SlobBlock s.2 (List.hd 0 (pre ++ c :: post).*1))) as Hsb.
  { rewrite <- E in Hr at 1. rewrite app_assoc in Hr. apply ring_links_app in Hr as [_ [Hr _]]. exact Hr. }
  pose proof (ring_links_rotate _ _ _ Hr) as Hc0. cbn [app fmap list_fmap List.hd] in Hc0. rewrite Etq in Hc0.
  assert (c :: t ++ [q] ≡ₚ la ++ s :: lb) as Hpc by (rewrite <- Etq, <- Hperm; apply (Permutation_app_comm (c :: post))).
  rewrite El in Hs, Hk. pose proof (sorted_app_inv _ _ Hs) as Hord.
  assert (Forall (fun y => block_end c <= y.1 \/ block_end y <= c.1) (t ++ [q])) as Hap.
  { rewrite <- Etq, <- Erot. apply Forall_forall. intros y [Hy|Hy]%elem_of_app.
    - left. destruct (sorted_parts l1 (c :: l2) Hs) as [_ [_ Sc]%StronglySorted_inv].
      pose proof (proj1 (Forall_forall _ _) Sc y Hy) as Hb. unfold before in Hb. lia.
    - right. assert (before y c) as Hb by (apply Hord; [done|apply list_elem_of_here]). unfold before in Hb. lia. }
  assert (NoDup (c :: t ++ [q]).*1) as Hndc by (by rewrite Hpc). assert (Forall in_kernel (c :: t ++ [q])) as Hkc by (by rewrite Hpc, El).
  destruct (carve_spec h c t q N Hc0 Hndc Hkc Hap ltac:(lia)) as (h' & Ec & Ef & Ev & Hl').
  rewrite <- Etq, <- Erot in Hl'.
  destruct (ring_taken h' l1 c l2 N q.1 Hs Hk ltac:(lia) Hl' Ef) as [HR HF].
  { rewrite Erot, Etq, fmap_app. set_solver. }
  assert (forall x, x ∈ pre ++ [c] -> delta x.1 align = Ret 0) as Hd'.
  { intros x Hx. apply Hd. rewrite <- Hperm. set_solver. }
  assert (s ∈ la ++ s :: lb) as Hsin by set_solver. rewrite El in Hsin. pose proof (proj1 (Forall_forall _ _) Hk s Hsin) as (Hsv & _).
  exists h', (l1 ++ taken_front N c ++ l2), c.1. rewrite El. split.
  { unfold slob_alloc. rewrite Es, (block_eq h _ _ Hsv Hsb), bind_Ret. cbn [next].
    rewrite (alloc_search h size align pre c post _ s.1 _ Hr Hk' Hno Hc); [by fold N; rewrite <- Eq| |exact Hd'|].
    - by rewrite Es.
    - pose proof (Permutation_length Hperm) as Hpl. rewrite length_app in Hpl. lia. }
  split; [done|]. split; [done|]. split; [rewrite !length_app; cbn; lia|].
  pose proof Hk as [_ [(Kc1 & _ & Kc3) _]%Forall_cons]%Forall_app.
  split; [unfold in_kernel, block_end, SLOB_UNIT in *; cbn in *; lia|]. split; [|exact HF].
  intros a Ha. apply free_byte_app. right. apply free_byte_cons. left. unfold block_end, SLOB_UNIT in *. cbn in *. lia.
Qed.

(** ** The ring is determined by the free bytes *)

Lemma first_byte x l : StronglySorted before (x :: l) -> Forall in_kernel (x :: l) ->
  free_byte (x :: l) x.1 /\ forall a, free_byte (x :: l) a -> x.1 <= a.
Proof.
  intros [_ Hx]%StronglySorted_inv [(_ & Hu & _) _]%Forall_cons. split.
  - apply free_byte_cons. left. unfold block_end, SLOB_UNIT. lia.
  - intros a [Ha|(y & Hy & Ha)]%free_byte_cons; [lia|]. pose proof (proj1 (Forall_forall _ _) Hx y Hy) as Hb.
    unfold before, block_end, SLOB_UNIT in *. lia.
Qed.

Lemma byte_behind x l : StronglySorted before (x :: l) -> Forall in_kernel (x :: l) ->
  ~ free_byte (x :: l) (block_end x) /\ forall a, free_byte l a <-> free_byte (x :: l) a /\ block_end x < a.
Proof.
  intros [_ Hx]%StronglySorted_inv _. rewrite Forall_forall in Hx.
  assert (forall a, free_byte l a -> block_end x < a) as Hl by (intros a (y & Hy & Ha); specialize (Hx y Hy); unfold before in Hx; lia).
  split; [|intros a]; rewrite free_byte_cons; [intros [?|H%Hl]; lia|]. split; [|intros [[?|?] ?]; [lia|done]].
  intros H. split; [by right|by apply Hl].
Qed.

(** No two rings have the same free bytes. *)
Lemma ring_canonical l : forall l',
  StronglySorted before l -> Forall in_kernel l -> StronglySorted before l' -> Forall in_kernel l' ->
  (forall a, free_byte l a <-> free_byte l' a) -> l = l'.
Proof.
  assert (forall x l0, StronglySorted before (x :: l0) -> Forall in_kernel (x :: l0) -> (forall a, ~ free_byte (x :: l0) a) -> False) as Hne.
  { intros x l0 Hs Hk Hn. by apply (Hn x.1), first_byte. }
  induction l as [|x l IH]; intros [|y l'] Hs Hk Hs' Hk' Hb; [done| | |].
  { exfalso. apply (Hne y l' Hs' Hk'). intros a Ha. apply Hb in Ha as (w & Hw & _). by apply elem_of_nil in Hw. }
  { exfalso. apply (Hne x l Hs Hk). intros a Ha. apply Hb in Ha as (w & Hw & _). by apply elem_of_nil in Hw. }
  destruct (first_byte x l Hs Hk) as [Fx Lx]. destruct (first_byte y l' Hs' Hk') as [Fy Ly].
  destruct (byte_behind x l Hs Hk) as [Ex Bx]. destruct (byte_behind y l' Hs' Hk') as [Ey By].
  assert (x.1 = y.1) as E1 by (apply Hb in Fx as Fx'; apply Hb in Fy as Fy'; apply Ly in Fx'; apply Lx in Fy'; lia).
  pose proof Hk as [(_ & Hux & _) Hkl]%Forall_cons. pose proof Hk' as [(_ & Huy & _) Hkl']%Forall_cons.
  assert (block_end x = block_end y) as E2.
  { rewrite Hb in Ex. rewrite <- Hb in Ey. rewrite free_byte_cons in Ex, Ey. unfold block_end, SLOB_UNIT in *. 
    destruct (Z.lt_trichotomy (x.1 + 16 * x.2) (y.1 + 16 * y.2)) as [H|[H|H]]; [|done|]; exfalso; [apply Ex|apply Ey]; left; lia. }
  assert (x = y) as -> by (destruct x, y; unfold block_end, SLOB_UNIT in *; cbn in *; f_equal; lia).
  f_equal. apply IH; [by apply StronglySorted_inv in Hs as [? _]|done|by apply StronglySorted_inv in Hs' as [? _]|done|].
  intros a. by rewrite Bx, By, Hb.
Qed.

(** ** Claims *)

(** C32: the slob allocator keeps a set of free bytes: in a ring of at least
    three blocks, one of them large enough and all aligned as asked for,
    [slob_alloc] returns the start of free bytes, as many as asked for in units
    of 16, and these are no longer free; [slob_free] makes them free again, and
    joins them with their neighbours, so that the ring is the one of before. *)
Theorem slob_roundtrip h l size align :
  ring h l -> (3 <= List.length l)%nat -> size <> 0 -> 0 < SLOB_UNITS size -> (exists x, x ∈ l /\ SLOB_UNITS size <= x.2) ->
  (forall x, x ∈ l -> delta x.1 align = Ret 0) ->
  exists h1 l1 p h2, slob_alloc h size align = Ret (h1, p) /\ ring h1 l1 /\
    (forall a, p <= a < p + 16 * SLOB_UNITS size -> free_byte l a) /\
    (forall a, free_byte l1 a <-> free_byte l a /\ ~ (p <= a < p + 16 * SLOB_UNITS size)) /\
    slob_free h1 p size = Ret h2 /\ ring h2 l.
Proof.
  intros HR Hlen Hsz Hn Hfit Hd. destruct (slob_alloc_takes h l size align HR ltac:(lia) Hn Hfit Hd)
    as (h1 & l1 & p & E1 & HR1 & _ & Hl1 & Kp & Hin & HF1).
  destruct (slob_free_adds h1 l1 p size HR1 Hsz Kp) as (h2 & l2 & E2 & HR2 & _ & HF2).
  { apply Forall_forall. intros y Hy. pose proof (proj1 (Forall_forall _ _) (rg_kernel _ _ HR1) y Hy) as (_ & Hu & _).
    assert (free_byte l1 y.1) as [_ F1]%HF1 by (exists y; split; [done|]; unfold block_end, SLOB_UNIT; lia).
    assert (~ (y.1 <= p < block_end y)) as F2.
    { intros Hp. assert (free_byte l1 p) as [_ F]%HF1 by (by exists y). apply F. unfold block_end, SLOB_UNIT. cbn. lia. }
    lia. }
  { intros y ->. cbn in Hl1. lia. }
  exists h1, l1, p, h2. split; [done|]. split; [done|]. split; [exact Hin|]. split; [exact HF1|]. split; [done|].
  assert (l2 = l) as <-; [|done]. apply ring_canonical; [apply HR2|apply HR2|apply HR|apply HR|]. intros a. rewrite HF2, HF1.
  unfold block_end, SLOB_UNIT in *. cbn [fst snd] in *. destruct (decide (p <= a < p + 16 * SLOB_UNITS size)) as [Ha|Ha]; [|tauto].
  specialize (Hin a Ha). tauto.
Qed.

(** A ring of the arena and two pages, the first partly in use. *)
Definition demo_blocks : list (Z * Z) := [(virt_base + 0x1000, 1); (virt_base + 0x20F00, 16); (virt_base + 0x30000, 256)].
Definition demo_slob : slob :=
  Slob {[ virt_base + 0x1000 := SlobBlock 1 (virt_base + 0x20F00); virt_base + 0x20F00 := SlobBlock 16 (virt_base + 0x30000);
          virt_base + 0x30000 := SlobBlock 256 (virt_base + 0x1000) ]}
    (virt_base + 0x1000) (Vmm (fun _ => 0) (Bitmap [] 0 0) 0 0 0 (virt_base + 0x40000) 0 0 0).

Lemma demo_ring : ring demo_slob demo_blocks.
Proof.
  split.
  - split; [reflexivity|split; [reflexivity|split; [reflexivity|exact I]]].
  - by_computation.
  - unfold demo_blocks. repeat constructor.
  - unfold in_kernel. by_computation.
Qed.

(** 100 bytes are seven units, from the end of the first page. *)
Example slob_roundtrip_witness :
  exists h1 h2, slob_alloc demo_slob 100 8 = Ret (h1, virt_base + 0x20F00) /\
    slob_free h1 (virt_base + 0x20F00) 100 = Ret h2 /\ ring h2 demo_blocks.
Proof.
  destruct (slob_roundtrip demo_slob demo_blocks 100 8 demo_ring) as (h1 & l1 & p & h2 & E1 & _ & _ & _ & E2 & HR).
  - cbn. lia.
  - lia.
  - reflexivity.
  - exists (virt_base + 0x30000, 256). split; [unfold demo_blocks; set_solver|by_computation].
  - intros x Hx. repeat (apply elem_of_cons in Hx as [->|Hx]; [reflexivity|]). by apply elem_of_nil in Hx.
  - assert (p = virt_base + 0x20F00) as ->.
    { pose proof (f_equal (fun r => (returned (demo_slob, 0) r).2) E1) as Ep. cbn [returned snd] in Ep. rewrite <- Ep. vm_compute. reflexivity. }
    exists h1, h2. split; [exact E1|]. split; [exact E2|exact HR].
Defined.

(** ** Where it goes wrong *)

(** A request of one unit is given the arena, which is alone in the ring and so
    stays in it: it is given out on every such request. *)
Lemma arena_given_out v arena size align :
  arena <> 0 -> SLOB_UNITS size = 1 -> delta arena align = Ret 0 ->
  slob_alloc (slob_start arena v) size align = Ret (slob_start arena v, arena).
Proof.
  intros Ha Hs Hd. assert (block (slob_start arena v) arena = Ret (SlobBlock 1 arena)) as E.
  { unfold block. rewrite (proj2 (Z.eqb_neq _ _) Ha). cbn. by rewrite lookup_singleton_eq. }
  unfold slob_alloc. cbn [slobfree slob_start]. rewrite E, bind_Ret. cbn [next].
  assert (carve (slob_start arena v) arena arena 1 0 = Ret (slob_start arena v, arena)) as Ec.
  { unfold carve. rewrite E, !bind_Ret. cbn [negb Z.eqb]. rewrite E, bind_Ret. cbn [units next Z.eqb Pos.eqb].
    unfold set_next, with_slobfree, with_blocks, slob_start. cbn [blocks slobfree slob_vm]. rewrite lookup_singleton_eq. cbn [from_option units].
    by rewrite insert_id by apply lookup_singleton_eq. }
  destruct (2 * _ + 3)%nat; cbn [alloc_from]; rewrite E, bind_Ret, Hd, bind_Ret, Hs; exact Ec.
Qed.

Definition empty_slob : slob := slob_start (virt_base + 0x1000) (slob_vm demo_slob).

(** The first request that needs a page takes two: the search goes on behind the
    new page and reaches its start before the page. *)
Lemma first_request_takes_two_pages :
  (fun r : slob * Z => ((vmmgr_alloc_page (slob_vm r.1) 0).2, r.2)) <$> slob_alloc empty_slob 100 8 =
    Ret (virt_base + 0x43000, virt_base + 0x41000).
Proof. vm_compute. reflexivity. Qed.

(** In a ring of one block, one freed directly before it takes the block in and
    leads back to it: the memory behind the block that is returned next is still
    in the ring. *)
Lemma single_block_stays :
  let p := virt_base + 0x20000 in
  (s ← slob_free (Slob {[ p + 256 := SlobBlock 16 (p + 256) ]} (p + 256) (slob_vm demo_slob)) p 256;
   a ← slob_alloc s 512 0;
   b ← slob_alloc a.1 128 0;
   Ret (a.2, b.2)) = Ret (p, p + 256).
Proof. vm_compute. reflexivity. Qed.
