(* ===== verification/Queues.v ===== *)
(** * Thread lists (sys/kthread.c, include/sys/kthread.h)

    [struct Kernel_Thread] with its two pairs of link fields, and the doubly
    linked lists threaded through them: the run queue and the list of all
    threads.  The C file writes every list operation twice, once per pair of
    fields; here an operation is written once against a class of link fields
    and each C function is its instance. *)

From S2P Require Import Prelude.

(** ** Data *)

Record links := Links { prev : Z; next : Z }.
Record queue := Queue { head : Z; tail : Z }.
Record joinQ := JoinQ { child : Z; jnext : Z }.

(** [struct Kernel_Thread], without the array of thread-local pointers that
    nothing uses.  Pointers are addresses; [q] holds [prev_in_ThreadQ] and
    [next_in_ThreadQ], [a] the two [_in_ThreadList] fields. *)
Record thread := Thread {
  rsp : Z; kernel_thread : Z; krsp : Z; pcr3 : Z; cr3 : Z; kstack : Z;
  sleeping : Z; priority : Z; q_links : links; stackPage : Z; brk : Z;
  no_stack_pages : Z; owner : Z; parent : Z; joinQueue : queue; refCount : Z;
  join_head : joinQ; alive : bool; name : Z; exitCode : Z; pid : Z;
  mmap : Z; mmap_cache : Z; a_links : links
}.

Definition set_q_links (l : links) (t : thread) : thread :=
  Thread (rsp t) (kernel_thread t) (krsp t) (pcr3 t) (cr3 t) (kstack t) (sleeping t) (priority t)
    l (stackPage t) (brk t) (no_stack_pages t) (owner t) (parent t) (joinQueue t) (refCount t)
    (join_head t) (alive t) (name t) (exitCode t) (pid t) (mmap t) (mmap_cache t) (a_links t).
Definition set_a_links (l : links) (t : thread) : thread :=
  Thread (rsp t) (kernel_thread t) (krsp t) (pcr3 t) (cr3 t) (kstack t) (sleeping t) (priority t)
    (q_links t) (stackPage t) (brk t) (no_stack_pages t) (owner t) (parent t) (joinQueue t) (refCount t)
    (join_head t) (alive t) (name t) (exitCode t) (pid t) (mmap t) (mmap_cache t) l.

Abbreviation heap := (gmap Z thread).

(** Dereference of a thread pointer. *)
Definition deref (h : heap) (p : Z) : outcome thread :=
  if p =? 0 then Undef else defined (h !! p).
Definition update (h : heap) (p : Z) (f : thread -> thread) : outcome heap :=
  t ← deref h p; Ret (<[p := f t]> h).

(** ** Link fields *)

(** Everything in a thread but its links. *)
Definition data (t : thread) : thread := set_q_links (Links 0 0) (set_a_links (Links 0 0) t).

Class LinkField := {
  get_links : thread -> links;
  set_links : links -> thread -> thread;
  get_set_links l t : get_links (set_links l t) = l;
  set_set_links l l' t : set_links l (set_links l' t) = set_links l t;
  set_links_data l t : data (set_links l t) = data t
}.

(** Two pairs of fields that do not overlap. *)
Class Separate (F G : LinkField) := {
  separate_get l t : @get_links F (@set_links G l t) = @get_links F t
}.

Definition ThreadQ : LinkField := {|
  get_links := q_links; set_links := set_q_links; get_set_links l t := eq_refl;
  set_set_links l l' t := eq_refl; set_links_data l t := eq_refl |}.
Definition ThreadList : LinkField := {|
  get_links := a_links; set_links := set_a_links; get_set_links l t := eq_refl;
  set_set_links l l' t := eq_refl; set_links_data l t := eq_refl |}.

#[export] Instance separate_q_a : Separate ThreadQ ThreadList.
Proof. by constructor. Qed.
#[export] Instance separate_a_q : Separate ThreadList ThreadQ.
Proof. by constructor. Qed.

(** ** Operations *)

Section operations.
Context (F : LinkField).

Definition set_next (h : heap) (p v : Z) : outcome heap :=
  update h p (fun t => set_links (Links (prev (get_links t)) v) t).
Definition set_prev (h : heap) (p v : Z) : outcome heap :=
  update h p (fun t => set_links (Links v (next (get_links t))) t).

Definition append (l : queue) (node : Z) (h : heap) : outcome (queue * heap) :=
  h ← set_next h node 0;
  if tail l =? 0 then
    h ← set_prev h node 0;
    Ret (Queue node node, h)
  else
    h ← set_next h (tail l) node;
    h ← set_prev h node (tail l);
    Ret (Queue (head l) node, h).

Definition insert_front (l : queue) (node : Z) (h : heap) : outcome (queue * heap) :=
  h ← set_prev h node 0;
  if head l =? 0 then
    h ← set_next h node 0;
    Ret (Queue node node, h)
  else
    h ← set_prev h (head l) node;
    h ← set_next h node (head l);
    Ret (Queue node (tail l), h).

Definition remove (l : queue) (node : Z) (h : heap) : outcome (queue * heap) :=
  t ← deref h node;
  r ← (if negb (prev (get_links t) =? 0) then
         h ← set_next h (prev (get_links t)) (next (get_links t));
         Ret (l, h)
       else Ret (Queue (next (get_links t)) (tail l), h));
  t ← deref r.2 node;
  if negb (next (get_links t) =? 0) then
    h ← set_prev r.2 (next (get_links t)) (prev (get_links t));
    Ret (r.1, h)
  else Ret (Queue (head r.1) (prev (get_links t)), r.2).
End operations.

Definition append_run_queue := append ThreadQ.
Definition insert_run_queue := insert_front ThreadQ.
Definition append_global_list_queue := append ThreadList.
Definition insert_global_list_queue := insert_front ThreadList.
Definition remove_runnable_kthread := remove ThreadQ.
Definition remove_alllist_kthread := remove ThreadList.

(** ** Representation *)

(** The nodes [l] are linked in this order: the first one's [prev] is [a], the
    last one's [next] is [z]. *)
Fixpoint seg (F : LinkField) (h : heap) (a : Z) (l : list Z) (z : Z) : Prop :=
  match l with
  | [] => True
  | p :: l => (exists t, h !! p = Some t /\ get_links t = Links a (List.hd z l)) /\ seg F h p l z
  end.

Record rep (F : LinkField) (h : heap) (q : queue) (l : list Z) : Prop := {
  rep_head : head q = List.hd 0 l;
  rep_tail : tail q = List.last l 0;
  rep_nodup : NoDup l;
  rep_nonnull : 0 ∉ l;
  rep_seg : seg F h 0 l 0
}.

Section representation.
Context {F : LinkField}.

Lemma seg_app h a l1 l2 z :
  seg F h a (l1 ++ l2) z <-> seg F h a l1 (List.hd z l2) /\ seg F h (List.last l1 a) l2 z.
Proof.
  revert a. induction l1 as [|p l1 IH]; intros a; [simpl; tauto|].
  rewrite last_cons_default. simpl. rewrite IH.
  assert (List.hd z (l1 ++ l2) = List.hd (List.hd z l2) l1) as -> by (by destruct l1). tauto.
Qed.

Lemma seg_mono h h' a l z :
  (forall p t, p ∈ l -> h !! p = Some t -> exists t', h' !! p = Some t' /\ get_links t' = get_links t) ->
  seg F h a l z -> seg F h' a l z.
Proof.
  revert a. induction l as [|p l IH]; intros a Hm; simpl; [done|].
  intros [(t & Ht & Hl) Hs]. split.
  - destruct (Hm p t) as (t' & Ht' & E); [set_solver|done|]. exists t'. by rewrite E.
  - apply IH; [|done]. intros. eapply Hm; [set_solver|done].
Qed.

(** Writing a node outside the list does not change it. *)
Lemma seg_insert_ne h a l z p t : p ∉ l -> seg F h a l z -> seg F (<[p := t]> h) a l z.
Proof.
  intros Hp. apply seg_mono. intros x tx Hx Hl. exists tx. split; [|done].
  rewrite lookup_insert_ne; [done|]. intros ->. done.
Qed.

Lemma seg_elem h a l z p : seg F h a l z -> p ∈ l -> is_Some (h !! p).
Proof.
  revert a. induction l as [|x l IH]; intros a Hs Hp; [set_solver|].
  destruct Hs as [(t & Ht & _) Hs]. apply elem_of_cons in Hp as [->|Hp]; [by eexists|eauto].
Qed.

Lemma deref_eq h p t : p <> 0 -> h !! p = Some t -> deref h p = Ret t.
Proof. intros Hp Ht. unfold deref. destruct (Z.eqb_spec p 0); [done|]. by rewrite Ht. Qed.

Lemma update_eq h p t f : p <> 0 -> h !! p = Some t -> update h p f = Ret (<[p := f t]> h).
Proof. intros Hp Ht. unfold update. by rewrite (deref_eq h p t). Qed.
End representation.

(** ** What list operations leave alone *)

(** [h'] is [h] with some of the [F]-links of its threads changed. *)
Definition relinked (F : LinkField) (h h' : heap) : Prop :=
  forall p, (set_links (Links 0 0) <$> h' !! p) = (set_links (Links 0 0) <$> h !! p).

#[export] Instance relinked_preorder F : PreOrder (relinked F).
Proof.
  split; [by intros h p|]. intros h1 h2 h3 H1 H2 p. by rewrite H2, H1.
Qed.

Lemma relinked_insert (F : LinkField) (h : heap) p t l :
  h !! p = Some t -> relinked F h (<[p := set_links l t]> h).
Proof.
  intros Ht x. destruct (decide (x = p)) as [->|Hne].
  - rewrite lookup_insert_eq, Ht. simpl. by rewrite set_set_links.
  - by rewrite lookup_insert_ne.
Qed.

(** A thread of a relinked heap, and one that keeps everything but its links. *)
Lemma relinked_lookup F (h h' : heap) p t :
  relinked F h h' -> h !! p = Some t ->
  exists t', h' !! p = Some t' /\ set_links (Links 0 0) t' = set_links (Links 0 0) t.
Proof.
  intros Hr Ht. specialize (Hr p). rewrite Ht in Hr. simpl in Hr.
  destruct (h' !! p) as [t'|]; [|done]. simpl in Hr. injection Hr as E. eauto.
Qed.

Lemma relinked_data F (h h' : heap) p t :
  relinked F h h' -> h !! p = Some t -> exists t', h' !! p = Some t' /\ data t' = data t.
Proof.
  intros Hr Ht. destruct (relinked_lookup F h h' p t Hr Ht) as (t' & Ht' & E).
  exists t'. split; [done|].
  rewrite <- (set_links_data (Links 0 0) t'), <- (set_links_data (Links 0 0) t). by f_equal.
Qed.

(** The lists through the other fields are not affected. *)
Lemma rep_relinked {F G : LinkField} {HS : Separate G F} (h h' : heap) q l : relinked F h h' -> rep G h q l -> rep G h' q l.
Proof.
  intros Hr [H1 H2 H3 H4 H5]. split; try done. eapply seg_mono; [|done].
  intros p t Hp Ht. destruct (relinked_lookup F h h' p t Hr Ht) as (t' & Ht' & E).
  exists t'. split; [done|].
  rewrite <- (separate_get (F := G) (G := F) (Links 0 0) t'), E. apply separate_get.
Qed.

Section specification.
Context {F : LinkField}.

Lemma rep_empty h : rep F h (Queue 0 0) [].
Proof. split; try done; [apply NoDup_nil_2|set_solver]. Qed.

Lemma last_snoc (l : list Z) x d : List.last (l ++ [x]) d = x.
Proof. apply List.last_last. Qed.

Lemma last_in (l : list Z) d : l <> [] -> List.last l d ∈ l.
Proof.
  destruct l as [|x l] using rev_ind; [done|]. intros _. rewrite last_snoc. set_solver.
Qed.

(** Appending puts the node at the end of the list. *)
Lemma append_spec h q l p tp :
  rep F h q l -> p <> 0 -> p ∉ l -> h !! p = Some tp ->
  exists q' h', append F q p h = Ret (q', h') /\ rep F h' q' (l ++ [p]) /\ relinked F h h'.
Proof.
  intros [Hh Ht Hnd H0 Hs] Hp Hpl Htp. unfold append, set_next, set_prev.
  rewrite (update_eq h p tp) by done. cbn [mbind outcome_bind]. rewrite Ht.
  destruct l as [|z l _] using rev_ind.
  - simpl List.last. cbn [Z.eqb]. erewrite update_eq by (done || apply lookup_insert_eq).
    cbn [mbind outcome_bind]. eexists _, _. split; [done|]. rewrite insert_insert_eq. split.
    + split; try done; [apply NoDup_singleton|set_solver|]. split; [|done].
      eexists. rewrite lookup_insert_eq. split; [done|]. by rewrite !get_set_links.
    + rewrite set_set_links. by apply relinked_insert.
  - rewrite last_snoc. assert (z <> 0 /\ z <> p) as [Hz Hzp] by set_solver.
    destruct (Z.eqb_spec z 0); [done|].
    apply seg_app in Hs as [Hs1 Hs2]. simpl List.hd in Hs1. destruct Hs2 as [(tz & Htz & Hlz) _].
    simpl in Hlz.
    erewrite (update_eq _ z tz) by (done || by rewrite lookup_insert_ne).
    cbn [mbind outcome_bind].
    erewrite (update_eq _ p) by (done || (rewrite lookup_insert_ne by done; apply lookup_insert_eq)).
    cbn [mbind outcome_bind]. eexists _, _. split; [done|]. split.
    + split; cbn [head tail].
      * rewrite Hh. by destruct l.
      * by rewrite last_snoc.
      * apply NoDup_app. split_and!; [done|set_solver|apply NoDup_singleton].
      * set_solver.
      * apply seg_app. split.
        -- apply seg_app. split.
           { apply NoDup_app in Hnd as (_ & Hnz & _).
             repeat (apply seg_insert_ne; [set_solver|]). done. }
           split; [|done]. eexists. rewrite lookup_insert_ne, lookup_insert_eq by done.
           split; [done|]. rewrite get_set_links, Hlz. done.
        -- rewrite last_snoc. split; [|done]. eexists. rewrite lookup_insert_eq. split; [done|].
           by rewrite !get_set_links.
    + transitivity (<[p := set_links (Links (prev (get_links tp)) 0) tp]> h).
      { by apply relinked_insert. }
      etransitivity; [apply (relinked_insert F _ z tz); by rewrite lookup_insert_ne|].
      apply relinked_insert. rewrite lookup_insert_ne by done. apply lookup_insert_eq.
Qed.
Lemma set_prev_eq h p t v :
  p <> 0 -> h !! p = Some t ->
  set_prev F h p v = Ret (<[p := set_links (Links v (next (get_links t))) t]> h).
Proof. intros. unfold set_prev. by rewrite (update_eq h p t). Qed.

Lemma set_next_eq h p t v :
  p <> 0 -> h !! p = Some t ->
  set_next F h p v = Ret (<[p := set_links (Links (prev (get_links t)) v) t]> h).
Proof. intros. unfold set_next. by rewrite (update_eq h p t). Qed.

(** Redirecting the last node's [next], and the first node's [prev]. *)
Lemma set_next_last h a l x z z' :
  x ∉ l -> x <> 0 -> seg F h a (l ++ [x]) z ->
  exists h', set_next F h x z' = Ret h' /\ seg F h' a (l ++ [x]) z' /\ relinked F h h' /\
    forall y, y <> x -> h' !! y = h !! y.
Proof.
  intros Hx H0 [Hs1 [(t & Ht & Hl) _]]%seg_app. simpl in *. unfold set_next.
  rewrite (update_eq h x t) by done. eexists. split; [done|]. split_and!.
  - apply seg_app. simpl. split; [by apply seg_insert_ne|]. split; [|done].
    eexists. rewrite lookup_insert_eq. split; [done|]. by rewrite get_set_links, Hl.
  - by apply relinked_insert.
  - intros y Hy. by rewrite lookup_insert_ne.
Qed.

Lemma set_prev_first h a a' y l z :
  y ∉ l -> y <> 0 -> seg F h a (y :: l) z ->
  exists h', set_prev F h y a' = Ret h' /\ seg F h' a' (y :: l) z /\ relinked F h h' /\
    forall x, x <> y -> h' !! x = h !! x.
Proof.
  intros Hy H0 [(t & Ht & Hl) Hs]. unfold set_prev.
  rewrite (update_eq h y t) by done. eexists. split; [done|]. split_and!.
  - split; [|by apply seg_insert_ne].
    eexists. rewrite lookup_insert_eq. split; [done|]. by rewrite get_set_links, Hl.
  - by apply relinked_insert.
  - intros x Hx. by rewrite lookup_insert_ne.
Qed.

Lemma seg_agree h h' a l z : (forall p, p ∈ l -> h' !! p = h !! p) -> seg F h a l z -> seg F h' a l z.
Proof. intros Ha. apply seg_mono. intros p t Hp Ht. exists t. by rewrite Ha. Qed.

(** Inserting puts the node at the front of the list. *)
Lemma insert_front_spec h q l p tp :
  rep F h q l -> p <> 0 -> p ∉ l -> h !! p = Some tp ->
  exists q' h', insert_front F q p h = Ret (q', h') /\ rep F h' q' (p :: l) /\ relinked F h h'.
Proof.
  intros [Hh Ht Hnd H0 Hs] Hp Hpl Htp. unfold insert_front.
  rewrite (set_prev_eq h p tp) by done. cbn [mbind outcome_bind]. rewrite Hh.
  set (h1 := <[p := _]> h). assert (relinked F h h1) as R1 by by apply relinked_insert.
  assert (seg F h1 0 l 0) as Hs1 by by apply seg_insert_ne.
  assert (h1 !! p = Some (set_links (Links 0 (next (get_links tp))) tp)) as Hp1 by apply lookup_insert_eq.
  destruct l as [|y l]; simpl List.hd.
  - cbn [Z.eqb]. erewrite set_next_eq by done. cbn [mbind outcome_bind].
    eexists _, _. split; [done|]. split.
    + split; try done; [apply NoDup_singleton|set_solver|]. split; [|done].
      eexists. rewrite lookup_insert_eq. split; [done|]. by rewrite !get_set_links.
    + etransitivity; [done|]. by apply relinked_insert.
  - apply NoDup_cons in Hnd as [Hy Hnd]. assert (y <> 0 /\ y <> p) as [Hy0 Hyp] by set_solver.
    destruct (Z.eqb_spec y 0); [done|].
    destruct (set_prev_first h1 0 p y l 0 Hy Hy0 Hs1) as (h2 & -> & Hs2 & R2 & K2).
    cbn [mbind outcome_bind].
    erewrite (set_next_eq h2 p) by (done || by rewrite K2). cbn [mbind outcome_bind].
    eexists _, _. split; [done|]. split.
    + split; cbn [head tail]; [done|by rewrite Ht, !last_cons_default| |set_solver|].
      { apply NoDup_cons. split; [done|]. by apply NoDup_cons. }
      split; [|by apply seg_insert_ne].
      eexists. rewrite lookup_insert_eq. split; [done|]. by rewrite !get_set_links.
    + etransitivity; [done|]. etransitivity; [done|]. apply relinked_insert. by rewrite K2.
Qed.

(** The two halves of [remove]. *)
Lemma unlink_before h l1 p l2 tp :
  NoDup (l1 ++ p :: l2) -> 0 ∉ l1 ++ p :: l2 -> seg F h 0 (l1 ++ p :: l2) 0 -> h !! p = Some tp ->
  forall q, exists h1,
    (if negb (List.last l1 0 =? 0) then
       h ← set_next F h (List.last l1 0) (List.hd 0 l2); Ret (q, h)
     else Ret (Queue (List.hd 0 l2) (tail q), h)) =
    Ret (Queue (if decide (l1 = []) then List.hd 0 l2 else head q) (tail q), h1) /\
    seg F h1 0 l1 (List.hd 0 l2) /\ seg F h1 p l2 0 /\ h1 !! p = Some tp /\ relinked F h h1.
Proof.
  intros Hnd H0 [Hs1 [_ Hs2]]%seg_app Hp q. simpl in Hs1.
  apply NoDup_app in Hnd as (Hnd1 & Hd & Hnd2). apply NoDup_cons in Hnd2 as [Hp2 Hnd2].
  destruct l1 as [|x l1 _] using rev_ind.
  - simpl List.last. exists h. rewrite decide_True by done. by split_and!.
  - rewrite last_snoc in *. apply NoDup_app in Hnd1 as (Hnd1 & Hd1 & _).
    assert (x <> 0 /\ x <> p /\ x ∉ l2 /\ x ∉ l1) as (Hx0 & Hxp & Hx2 & Hx1) by set_solver.
    destruct (Z.eqb_spec x 0); [done|]. cbn [negb].
    destruct (set_next_last h 0 l1 x p (List.hd 0 l2)) as (h1 & -> & Hs & R & K); [done..|].
    cbn [mbind outcome_bind]. exists h1. rewrite decide_False by (by destruct l1). destruct q.
    split_and!; [done|done| |by rewrite K|done].
    eapply seg_agree; [|done]. intros y Hy. apply K. set_solver.
Qed.

Lemma unlink_after h l1 p l2 :
  NoDup (l1 ++ p :: l2) -> 0 ∉ l1 ++ p :: l2 -> seg F h 0 l1 (List.hd 0 l2) -> seg F h p l2 0 ->
  forall q, exists h1,
    (if negb (List.hd 0 l2 =? 0) then
       h ← set_prev F h (List.hd 0 l2) (List.last l1 0); Ret (q, h)
     else Ret (Queue (head q) (List.last l1 0), h)) =
    Ret (Queue (head q) (if decide (l2 = []) then List.last l1 0 else tail q), h1) /\
    seg F h1 0 (l1 ++ l2) 0 /\ relinked F h h1.
Proof.
  intros Hnd H0 Hs1 Hs2 q. apply NoDup_app in Hnd as (Hnd1 & Hd & Hnd2).
  apply NoDup_cons in Hnd2 as [Hp2 Hnd2]. destruct l2 as [|y l2]; simpl List.hd in *.
  - exists h. rewrite decide_True by done. split_and!; [done| |done]. by rewrite app_nil_r.
  - apply NoDup_cons in Hnd2 as [Hy2 Hnd2]. assert (y <> 0 /\ y ∉ l1) as (Hy0 & Hy1) by set_solver.
    destruct (Z.eqb_spec y 0); [done|]. cbn [negb].
    destruct (set_prev_first h p (List.last l1 0) y l2 0) as (h1 & -> & Hs & R & K); [done..|].
    cbn [mbind outcome_bind]. exists h1. destruct q. split_and!; [done| |done].
    apply seg_app. split; [|done]. eapply seg_agree; [|done]. intros x Hx. apply K. set_solver.
Qed.

(** Removing takes the node out, wherever in the list it is. *)
Lemma remove_spec h q l1 p l2 :
  rep F h q (l1 ++ p :: l2) ->
  exists q' h', remove F q p h = Ret (q', h') /\ rep F h' q' (l1 ++ l2) /\ relinked F h h'.
Proof.
  intros [Hh Ht Hnd H0 Hs].
  pose proof Hs as [_ [(tp & Htp & Hlp) _]]%seg_app. unfold remove.
  assert (p <> 0) as Hp by set_solver. rewrite (deref_eq h p tp) by done. cbn [mbind outcome_bind].
  rewrite Hlp. cbn [prev next].
  destruct (unlink_before h l1 p l2 tp Hnd H0 Hs Htp q) as (h1 & -> & S1 & S2 & Hp1 & R1).
  cbn [mbind outcome_bind fst snd]. rewrite (deref_eq h1 p tp) by done. cbn [mbind outcome_bind].
  rewrite Hlp. cbn [prev next].
  destruct (unlink_after h1 l1 p l2 Hnd H0 S1 S2
    (Queue (if decide (l1 = []) then List.hd 0 l2 else head q) (tail q))) as (h2 & -> & S & R2).
  eexists _, _. split; [done|]. split; [|by etransitivity].
  split; cbn [head tail]; [| | | |done].
  - rewrite Hh. destruct l1; [by rewrite decide_True|by rewrite decide_False].
  - rewrite Ht. destruct l2 as [|y l2 _] using rev_ind.
    + by rewrite decide_True, app_nil_r.
    + rewrite decide_False by (by destruct l2). rewrite app_comm_cons, !app_assoc, !last_snoc. done.
  - apply NoDup_app in Hnd as (? & ? & [_ ?]%NoDup_cons). apply NoDup_app. set_solver.
  - set_solver.
Qed.
End specification.
