(* ===== verification/Kthread.v ===== *)
(** * Kernel threads and the scheduler (sys/kthread.c, sys/kthread.s)

    Creation of threads, their initial stacks, the run queue and the
    round-robin switch between threads, over the lists of Queues.v and the
    allocator of KHeap.v. *)

From S2P Require Import Prelude Bitmap PageEntry Paging KHeap Queues.

(** ** State *)

(** [stackmem] is the kernel's stack memory by word address; [interrupts] the
    processor's interrupt flag. *)
Record kernel := Kernel {
  threads : heap;
  joins : gmap Z joinQ;
  runQueue : queue;
  allThreadList : queue;
  currentThread : Z;
  nextFreePid : Z;
  ptable : list Z;
  kheap : MyAlloc.kheap;
  stackmem : Z -> Z;
  interrupts : bool;
  is_scheduler_on : bool
}.

Definition with_threads (k : kernel) (h : heap) : kernel :=
  Kernel h (joins k) (runQueue k) (allThreadList k) (currentThread k) (nextFreePid k) (ptable k)
    (kheap k) (stackmem k) (interrupts k) (is_scheduler_on k).
Definition with_joins (k : kernel) (j : gmap Z joinQ) : kernel :=
  Kernel (threads k) j (runQueue k) (allThreadList k) (currentThread k) (nextFreePid k) (ptable k)
    (kheap k) (stackmem k) (interrupts k) (is_scheduler_on k).
Definition with_runQueue (k : kernel) (q : queue) : kernel :=
  Kernel (threads k) (joins k) q (allThreadList k) (currentThread k) (nextFreePid k) (ptable k)
    (kheap k) (stackmem k) (interrupts k) (is_scheduler_on k).
Definition with_allThreadList (k : kernel) (q : queue) : kernel :=
  Kernel (threads k) (joins k) (runQueue k) q (currentThread k) (nextFreePid k) (ptable k)
    (kheap k) (stackmem k) (interrupts k) (is_scheduler_on k).
Definition with_current (k : kernel) (p : Z) : kernel :=
  Kernel (threads k) (joins k) (runQueue k) (allThreadList k) p (nextFreePid k) (ptable k)
    (kheap k) (stackmem k) (interrupts k) (is_scheduler_on k).
Definition with_pids (k : kernel) (n : Z) (t : list Z) : kernel :=
  Kernel (threads k) (joins k) (runQueue k) (allThreadList k) (currentThread k) n t
    (kheap k) (stackmem k) (interrupts k) (is_scheduler_on k).
Definition with_kheap (k : kernel) (h : MyAlloc.kheap) : kernel :=
  Kernel (threads k) (joins k) (runQueue k) (allThreadList k) (currentThread k) (nextFreePid k)
    (ptable k) h (stackmem k) (interrupts k) (is_scheduler_on k).
Definition with_stackmem (k : kernel) (m : Z -> Z) : kernel :=
  Kernel (threads k) (joins k) (runQueue k) (allThreadList k) (currentThread k) (nextFreePid k)
    (ptable k) (kheap k) m (interrupts k) (is_scheduler_on k).
Definition with_interrupts (k : kernel) (b : bool) : kernel :=
  Kernel (threads k) (joins k) (runQueue k) (allThreadList k) (currentThread k) (nextFreePid k)
    (ptable k) (kheap k) (stackmem k) b (is_scheduler_on k).
Definition with_scheduler_on (k : kernel) (b : bool) : kernel :=
  Kernel (threads k) (joins k) (runQueue k) (allThreadList k) (currentThread k) (nextFreePid k)
    (ptable k) (kheap k) (stackmem k) (interrupts k) b.

Definition set_rsp (v : Z) (t : thread) : thread :=
  Thread v (kernel_thread t) (krsp t) (pcr3 t) (cr3 t) (kstack t) (sleeping t) (priority t)
    (q_links t) (stackPage t) (brk t) (no_stack_pages t) (owner t) (parent t) (joinQueue t) (refCount t)
    (join_head t) (alive t) (name t) (exitCode t) (pid t) (mmap t) (mmap_cache t) (a_links t).
Definition set_join_head (j : joinQ) (t : thread) : thread :=
  Thread (rsp t) (kernel_thread t) (krsp t) (pcr3 t) (cr3 t) (kstack t) (sleeping t) (priority t)
    (q_links t) (stackPage t) (brk t) (no_stack_pages t) (owner t) (parent t) (joinQueue t) (refCount t)
    j (alive t) (name t) (exitCode t) (pid t) (mmap t) (mmap_cache t) (a_links t).
Definition set_exit (code : Z) (t : thread) : thread :=
  Thread (rsp t) (kernel_thread t) (krsp t) (pcr3 t) (cr3 t) (kstack t) (sleeping t) (priority t)
    (q_links t) (stackPage t) (brk t) (no_stack_pages t) (owner t) (parent t) (joinQueue t) (refCount t)
    (join_head t) false (name t) code (pid t) (mmap t) (mmap_cache t) (a_links t).

(** ** Interrupts, process numbers *)

Definition disable_interrupts (k : kernel) : kernel := with_interrupts k false.
Definition enable_interrupts (k : kernel) : kernel := with_interrupts k true.
(** [get_flag_register() & (1<<9)] *)
Definition is_interrupt_on (k : kernel) : bool := interrupts k.

Definition add_to_ptable (k : kernel) (p : Z) : outcome kernel :=
  t ← deref (threads k) p;
  pt ← array_set (ptable k) (pid t) p;
  Ret (with_pids k (nextFreePid k) pt).

Definition alloc_pid (k : kernel) : kernel * Z :=
  let n := s32 (nextFreePid k + 1) in (with_pids k n (ptable k), n).
Definition free_pid (k : kernel) : kernel := with_pids k (s32 (nextFreePid k - 1)) (ptable k).

(** ** Children *)

(** [crawl] is either the [head] inside the parent ([None]) or a list node. *)
Definition join_get (k : kernel) (par : Z) (crawl : option Z) : outcome joinQ :=
  match crawl with
  | None => t ← deref (threads k) par; Ret (join_head t)
  | Some a => defined (joins k !! a)
  end.
Definition join_set (k : kernel) (par : Z) (crawl : option Z) (j : joinQ) : outcome kernel :=
  match crawl with
  | None => h ← update (threads k) par (set_join_head j); Ret (with_threads k h)
  | Some a => Ret (with_joins k (<[a := j]> (joins k)))
  end.

(** [while (crawl->next) crawl = crawl->next;] *)
Fixpoint join_last (n : nat) (k : kernel) (par : Z) (crawl : option Z) : outcome (option Z) :=
  j ← join_get k par crawl;
  if jnext j =? 0 then Ret crawl else
  match n with O => Loops | S n => join_last n k par (Some (jnext j)) end.

Definition append_join_queue (k : kernel) (node cthread : Z) : outcome kernel :=
  r ← MyAlloc.sub_malloc (kheap k) 16 false;
  let temp := r.2 in
  let k := with_joins (with_kheap k r.1) (<[temp := JoinQ node 0]> (joins k)) in
  crawl ← join_last (size (joins k)) k cthread None;
  j ← join_get k cthread crawl;
  join_set k cthread crawl (JoinQ (child j) temp).

Definition add_to_joinQueue (k : kernel) (currentThread k_thread : Z) : outcome kernel :=
  append_join_queue k k_thread currentThread.

(** The node before the one of [child_node], or the last node. *)
Fixpoint join_before (n : nat) (k : kernel) (par child_node : Z) (crawl : option Z) : outcome (option Z) :=
  j ← join_get k par crawl;
  if jnext j =? 0 then Ret crawl else
  nx ← join_get k par (Some (jnext j));
  if child nx =? child_node then Ret crawl else
  match n with O => Loops | S n => join_before n k par child_node (Some (jnext j)) end.

Definition remove_child (k : kernel) (par child_node : Z) : outcome kernel :=
  crawl ← join_before (size (joins k)) k par child_node None;
  j ← join_get k par crawl;
  let tmp := jnext j in
  if tmp =? 0 then Undef else
  nx ← join_get k par (Some tmp);
  k ← join_set k par crawl (JoinQ (child j) (jnext nx));
  h ← MyAlloc.sub_free (kheap k) tmp;
  Ret (with_kheap k h).

Definition thread_cleanup (k : kernel) (p : Z) : outcome kernel :=
  r ← remove_runnable_kthread (runQueue k) p (threads k);
  let k := with_threads (with_runQueue k r.1) r.2 in
  r ← remove_alllist_kthread (allThreadList k) p (threads k);
  let k := with_threads (with_allThreadList k r.1) r.2 in
  t ← deref (threads k) p;
  if parent t =? 0 then Ret k else remove_child k (parent t) p.

(** ** Scheduling *)

Definition ready (t : thread) : bool := (sleeping t =? 0) && alive t.

(** [while (crawl) { if (sleeping == 0 && alive) break; crawl = next; }] *)
Fixpoint find_ready (n : nat) (h : heap) (crawl : Z) : outcome Z :=
  if crawl =? 0 then Ret 0 else
  t ← deref h crawl;
  if ready t then Ret crawl else
  match n with O => Loops | S n => find_ready n h (next (q_links t)) end.

Definition next_runnable_kthread (k : kernel) : outcome (kernel * Z) :=
  runnable ← find_ready (size (threads k)) (threads k) (head (runQueue k));
  if runnable =? 0 then Panic else
  r ← remove_runnable_kthread (runQueue k) runnable (threads k);
  Ret (with_threads (with_runQueue k r.1) r.2, runnable).

(** The assembly switch: the outgoing thread's stack pointer [sp] is saved, the
    incoming thread becomes current and its page tables are loaded. *)
Definition Switch_To_Thread (sp p : Z) (k : kernel) : outcome kernel :=
  h ← update (threads k) (currentThread k) (set_rsp sp);
  t ← deref h p;
  let v := MyAlloc.vm (kheap k) in
  let v := Vmm (mem v) (frames v) (pcr3 t) (cur_pml4_directory v) (cur_pml4_base_pointer v)
               (bump_addr v) (prev_no_pages v) (bump_start v) (kernel_pgd v) in
  Ret (with_kheap (with_current (with_threads k h) p) (MyAlloc.with_vm (kheap k) v)).

(** The state in which the incoming thread continues: it enables interrupts, at
    the end of its own [Schedule] or in [Launch_Thread]. *)
Definition Schedule (sp : Z) (k : kernel) : outcome kernel :=
  let k := disable_interrupts k in
  r ← next_runnable_kthread k;
  k ← Switch_To_Thread sp r.2 r.1;
  Ret (enable_interrupts k).

Definition Get_Current (k : kernel) : Z := currentThread k.

Definition runnable_kthread (k : kernel) (p : Z) : outcome kernel :=
  r ← append_run_queue (runQueue k) p (threads k);
  Ret (with_threads (with_runQueue k r.1) r.2).
Definition alllist_kthread (k : kernel) (p : Z) : outcome kernel :=
  r ← append_global_list_queue (allThreadList k) p (threads k);
  Ret (with_threads (with_allThreadList k r.1) r.2).

Definition Yield (sp : Z) (k : kernel) : outcome kernel :=
  let k := disable_interrupts k in
  k ← runnable_kthread k (Get_Current k);
  Schedule sp (enable_interrupts k).

Definition Exit_thread (sp exit_code : Z) (k : kernel) : outcome kernel :=
  let k := if is_interrupt_on k then disable_interrupts k else k in
  h ← update (threads k) (currentThread k) (set_exit exit_code);
  Schedule sp (with_threads k h).

(** ** Creating threads *)

Definition KERN_CS : Z := 0x8.
Definition KERN_DS : Z := 0x10.
Definition PRIORITY_NORMAL : Z := 5.

(** The addresses the linker gives to [thread_exit], [Launch_Thread], [start],
    the boot [stack] and two strings, and what a page handed out by the
    allocator holds before it is written. *)
Record image := Image {
  thread_exit : Z; Launch_Thread : Z; start : Z; boot_stack : Z;
  name_main : Z; name_start : Z; page_contents : Z -> thread
}.

Definition Push (k : kernel) (p value : Z) : outcome kernel :=
  t ← deref (threads k) p;
  let sp := u64 (rsp t - 8) in
  Ret (with_stackmem (with_threads k (<[p := set_rsp sp t]> (threads k)))
         (mem_set (stackmem k) sp value)).

Definition Push_General_Registers (k : kernel) (p : Z) : outcome kernel :=
  for_loop 15 0 (fun _ k => Push k p 0) k.

Definition setup_kthread (im : image) (k : kernel) (p startFunc arg : Z) : outcome kernel :=
  k ← Push k p arg;
  k ← Push k p (thread_exit im);
  k ← Push k p startFunc;
  k ← Push k p KERN_DS;
  t ← deref (threads k) p;
  k ← Push k p (u64 (rsp t + 8));
  k ← Push k p 0;
  k ← Push k p KERN_CS;
  k ← Push k p (Launch_Thread im);
  k ← Push k p 0;
  k ← Push k p 0;
  Push_General_Registers k p.

Definition Init_Thread (k : kernel) (p name stack prio : Z) (detached : bool) : outcome kernel :=
  t ← deref (threads k) p;
  let r := alloc_pid k in
  let v := MyAlloc.vm (kheap k) in
  let t := Thread (u64 (stack + VIRT_PAGE_SIZE)) 1 (krsp t) (Paging.cr3 v) (kernel_pgd v) (kstack t)
    0 prio (q_links t) stack (brk t) 1 (if detached then 0 else currentThread k) (parent t)
    (Queue 0 0) (if detached then 1 else 2) (join_head t) true name (exitCode t) r.2
    (mmap t) (mmap_cache t) (a_links t) in
  Ret (with_threads r.1 (<[p := t]> (threads k))).

(** [sub_malloc(0,1)] used as a thread structure: the page appears with whatever
    it holds. *)
Definition new_thread_page (im : image) (k : kernel) : outcome (kernel * Z) :=
  r ← MyAlloc.sub_malloc (kheap k) 0 true;
  Ret (with_threads (with_kheap k r.1) (<[r.2 := page_contents im r.2]> (threads k)), r.2).

Definition create_kthread (im : image) (k : kernel) (name prio : Z) (detached : bool) : outcome (kernel * Z) :=
  r ← new_thread_page im k;
  let k := r.1 in
  let p := r.2 in
  if p =? 0 then Ret (k, 0) else
  s ← MyAlloc.sub_malloc (kheap k) 0 true;
  let k := with_kheap k s.1 in
  if s.2 =? 0 then
    h ← MyAlloc.sub_free (kheap k) s.2; Ret (with_kheap k h, 0)
  else
  k ← Init_Thread k p name s.2 prio detached;
  k ← alllist_kthread k p;
  Ret (k, p).

(** A null result of [create_kthread] is dereferenced by [add_to_ptable]
    before it is tested. *)
Definition start_kthread (im : image) (k : kernel) (startFunc name arg prio : Z) (detached : bool)
    : outcome (kernel * Z) :=
  r ← create_kthread im k name prio detached;
  let p := r.2 in
  k ← add_to_ptable r.1 p;
  if p =? 0 then Ret (k, 0) else
  k ← setup_kthread im k p startFunc arg;
  let k := disable_interrupts k in
  k ← runnable_kthread k p;
  Ret (enable_interrupts k, p).

Definition scheduler_init (im : image) (sp : Z) (k : kernel) : outcome kernel :=
  r ← new_thread_page im k;
  let main_thread := r.2 in
  k ← Init_Thread r.1 main_thread (name_main im) (boot_stack im) PRIORITY_NORMAL true;
  let k := with_current k main_thread in
  k ← alllist_kthread k main_thread;
  r ← start_kthread im k (start im) (name_start im) 0 PRIORITY_NORMAL true;
  Schedule sp (with_scheduler_on r.1 true).

(** ** Readiness *)

Definition is_ready (h : heap) (p : Z) : bool :=
  match h !! p with Some t => ready t | None => false end.

Lemma ready_data t : ready (data t) = ready t.
Proof. done. Qed.

Lemma is_ready_relinked F (h h' : heap) p : relinked F h h' -> is_ready h' p = is_ready h p.
Proof.
  intros Hr. unfold is_ready. destruct (h !! p) as [t|] eqn:E.
  - destruct (relinked_data F h h' p t Hr E) as (t' & -> & Ed).
    by rewrite <- (ready_data t'), Ed, ready_data.
  - specialize (Hr p). rewrite E in Hr. by destruct (h' !! p).
Qed.

Lemma is_ready_set_rsp (h : heap) c t v p :
  h !! c = Some t -> is_ready (<[c := set_rsp v t]> h) p = is_ready h p.
Proof.
  intros Hc. unfold is_ready. destruct (decide (p = c)) as [->|].
  - by rewrite lookup_insert_eq, Hc.
  - by rewrite lookup_insert_ne.
Qed.

(** ** The abstract scheduler

    A running thread and a list of waiting ones; a switch takes the first ready
    thread out of the list. *)

Fixpoint pick (rdy : Z -> bool) (l : list Z) : option (Z * list Z) :=
  match l with
  | [] => None
  | p :: l =>
    if rdy p then Some (p, l) else
    match pick rdy l with Some (x, r) => Some (x, p :: r) | None => None end
  end.

Lemma pick_split rdy l x r :
  pick rdy l = Some (x, r) ->
  exists l1 l2, l = l1 ++ x :: l2 /\ r = l1 ++ l2 /\ rdy x = true /\ Forall (fun y => rdy y = false) l1.
Proof.
  revert r. induction l as [|p l IH]; intros r; simpl; [done|].
  destruct (rdy p) eqn:E; [intros [= <- <-]; by exists [], l|].
  destruct (pick rdy l) as [[y r']|]; [|done]. intros [= <- <-].
  destruct (IH r' eq_refl) as (l1 & l2 & -> & -> & Hx & Hl). exists (p :: l1), l2. auto.
Qed.

Lemma pick_ext f g l : (forall p, p ∈ l -> f p = g p) -> pick f l = pick g l.
Proof.
  induction l as [|p l IH]; intros H; [done|]. simpl. rewrite (H p) by set_solver.
  rewrite IH; [done|]. intros x Hx. apply H. set_solver.
Qed.

Lemma pick_none rdy l : pick rdy l = None <-> Forall (fun y => rdy y = false) l.
Proof.
  induction l as [|p l IH]; simpl; [done|]. rewrite Forall_cons.
  destruct (rdy p); [naive_solver|]. destruct (pick rdy l) as [[??]|]; naive_solver.
Qed.

(** The first ready thread up to and including [p] is picked. *)
Lemma pick_before rdy l1 p l2 :
  rdy p = true ->
  pick rdy (l1 ++ p :: l2) =
    match pick rdy l1 with
    | Some (x, r) => Some (x, r ++ p :: l2)
    | None => Some (p, l1 ++ l2)
    end.
Proof.
  intros Hp. induction l1 as [|y l1 IH]; simpl; [by rewrite Hp|].
  destruct (rdy y); [done|]. rewrite IH. by destruct (pick rdy l1) as [[??]|].
Qed.

(** ** The run queue as a list *)

Record scheduled (k : kernel) (c : Z) (l : list Z) : Prop := {
  sched_rep : rep ThreadQ (threads k) (runQueue k) l;
  sched_cur : currentThread k = c;
  sched_out : c ∉ l;
  sched_nonnull : c <> 0;
  sched_live : is_Some (threads k !! c)
}.

Lemma find_ready_spec n (h : heap) a l :
  seg ThreadQ h a l 0 -> 0 ∉ l -> (length l <= n)%nat ->
  find_ready n h (List.hd 0 l) = Ret (match pick (is_ready h) l with Some (x, _) => x | None => 0 end).
Proof.
  revert n a. induction l as [|p l IH]; intros n a Hs H0 Hn; [by destruct n|].
  destruct Hs as [(t & Ht & Hl) Hs]. simpl length in Hn. destruct n as [|n]; [lia|].
  simpl List.hd. simpl find_ready. assert (p <> 0) by set_solver.
  destruct (Z.eqb_spec p 0); [done|]. rewrite (deref_eq h p t) by done. cbn [mbind outcome_bind].
  simpl pick. unfold is_ready at 1. rewrite Ht. destruct (ready t); [done|].
  change (q_links t) with (@get_links ThreadQ t). rewrite Hl. cbn [next].
  rewrite (IH n p) by (done || set_solver || lia). by destruct (pick (is_ready h) l) as [[??]|].
Qed.

Lemma queue_length (h : heap) q l : rep ThreadQ h q l -> (length l <= size h)%nat.
Proof.
  intros Hr. rewrite <- size_dom, <- (size_list_to_set (C := gset Z) l (rep_nodup _ _ _ _ Hr)).
  apply subseteq_size. intros p Hp%elem_of_list_to_set. apply elem_of_dom.
  eapply seg_elem; [apply Hr|done].
Qed.

Lemma next_runnable_spec k l :
  rep ThreadQ (threads k) (runQueue k) l ->
  match pick (is_ready (threads k)) l with
  | None => next_runnable_kthread k = Panic
  | Some (p, l') => exists q' h', next_runnable_kthread k = Ret (with_threads (with_runQueue k q') h', p) /\
      rep ThreadQ h' q' l' /\ relinked ThreadQ (threads k) h' /\ p <> 0
  end.
Proof.
  intros Hr. unfold next_runnable_kthread. rewrite (rep_head _ _ _ _ Hr).
  rewrite (find_ready_spec _ _ 0 l) by (apply Hr || by eapply queue_length). cbn [mbind outcome_bind].
  destruct (pick (is_ready (threads k)) l) as [[p l']|] eqn:E; [|done].
  destruct (pick_split _ _ _ _ E) as (l1 & l2 & -> & -> & _ & _).
  assert (p <> 0) by (pose proof (rep_nonnull _ _ _ _ Hr); set_solver).
  destruct (Z.eqb_spec p 0); [done|].
  destruct (remove_spec (threads k) (runQueue k) l1 p l2 Hr) as (q' & h' & E' & Hr' & R).
  unfold remove_runnable_kthread. rewrite E'. cbn [mbind outcome_bind fst snd].
  by exists q', h'.
Qed.

(** What a switch leaves unchanged for the scheduler. *)
Record switched (k k' : kernel) : Prop := {
  sw_ready : forall p, is_ready (threads k') p = is_ready (threads k) p;
  sw_dom : forall p, is_Some (threads k' !! p) <-> is_Some (threads k !! p);
  sw_all : forall l, rep ThreadList (threads k) (allThreadList k) l ->
    rep ThreadList (threads k') (allThreadList k') l
}.

Lemma switched_trans k1 k2 k3 : switched k1 k2 -> switched k2 k3 -> switched k1 k3.
Proof.
  intros [A1 B1 C1] [A2 B2 C2]. split; [by intros p; rewrite A2|by intros p; rewrite B2|eauto].
Qed.

Lemma relinked_switched k q h :
  relinked ThreadQ (threads k) h -> switched k (with_threads (with_runQueue k q) h).
Proof.
  intros R. split; cbn.
  - intros p. by eapply is_ready_relinked.
  - intros p. specialize (R p). destruct (h !! p), (threads k !! p); simpl in R; try done.
  - intros l Hl. by apply (rep_relinked (F := ThreadQ) (threads k)).
Qed.

(** A change of a thread that is not to its links. *)
Lemma rep_same_links (F : LinkField) (h : heap) q l p t t' :
  h !! p = Some t -> get_links t' = get_links t -> rep F h q l -> rep F (<[p := t']> h) q l.
Proof.
  intros Ht E [H1 H2 H3 H4 H5]. split; try done. eapply seg_mono; [|done].
  intros x tx _ Hx. destruct (decide (x = p)) as [->|].
  - rewrite lookup_insert_eq. exists t'. split; [done|]. congruence.
  - rewrite lookup_insert_ne by done. eauto.
Qed.

Lemma rep_set_rsp (F : LinkField) (h : heap) q l c t v :
  (forall t v, get_links (set_rsp v t) = get_links t) ->
  h !! c = Some t -> rep F h q l -> rep F (<[c := set_rsp v t]> h) q l.
Proof. intros Hg Hc. by apply rep_same_links with t. Qed.

(** The running thread may itself be in the queue, as it is during a yield. *)
Lemma Schedule_spec sp k l :
  rep ThreadQ (threads k) (runQueue k) l -> currentThread k <> 0 ->
  is_Some (threads k !! currentThread k) ->
  match pick (is_ready (threads k)) l with
  | None => Schedule sp k = Panic
  | Some (p, l') => exists k', Schedule sp k = Ret k' /\ rep ThreadQ (threads k') (runQueue k') l' /\
      currentThread k' = p /\ p <> 0 /\ is_Some (threads k' !! p) /\ switched k k' /\ interrupts k' = true
  end.
Proof.
  intros Hr Hc0 [tc Htc]. unfold Schedule. set (c := currentThread k) in *.
  pose proof (next_runnable_spec (disable_interrupts k) l Hr) as Hn.
  change (threads (disable_interrupts k)) with (threads k) in Hn.
  destruct (pick (is_ready (threads k)) l) as [[p l']|] eqn:Ep; [|by rewrite Hn].
  destruct Hn as (q' & h' & -> & Hr' & R & Hp). cbn [mbind outcome_bind fst snd].
  destruct (pick_split _ _ _ _ Ep) as (l1 & l2 & -> & -> & _ & _).
  unfold Switch_To_Thread. cbn [threads currentThread with_threads with_runQueue disable_interrupts with_interrupts].
  fold c. destruct (relinked_lookup _ _ _ _ _ R Htc) as (tc' & Htc' & _).
  rewrite (update_eq h' c tc') by done. cbn [mbind outcome_bind].
  assert (is_Some (threads k !! p)) as [tp Htp] by (eapply seg_elem; [apply Hr|set_solver]).
  destruct (relinked_lookup _ _ _ _ _ R Htp) as (tp' & Htp' & _).
  assert (exists t, <[c := set_rsp sp tc']> h' !! p = Some t) as [t Ht].
  { destruct (decide (p = c)) as [->|]; [rewrite lookup_insert_eq|rewrite lookup_insert_ne by done]; eauto. }
  rewrite (deref_eq _ p t) by done. cbn [mbind outcome_bind].
  eexists. split; [done|]. cbn. split; [by apply rep_set_rsp|].
  split_and!; [done|done|by eexists| |done].
  eapply switched_trans; [by apply (relinked_switched k q')|]. split; cbn.
  - intros x. by apply is_ready_set_rsp.
  - intros x. destruct (decide (x = c)) as [->|].
    + rewrite lookup_insert_eq, Htc'. split; intros _; by eexists.
    + by rewrite lookup_insert_ne.
  - intros la Hla. by apply rep_set_rsp.
Qed.

Lemma runnable_spec k l p :
  rep ThreadQ (threads k) (runQueue k) l -> p <> 0 -> p ∉ l -> is_Some (threads k !! p) ->
  exists k', runnable_kthread k p = Ret k' /\ rep ThreadQ (threads k') (runQueue k') (l ++ [p]) /\
    switched k k' /\ currentThread k' = currentThread k.
Proof.
  intros Hr Hp Hpl [t Ht]. unfold runnable_kthread, append_run_queue.
  destruct (append_spec (F := ThreadQ) (threads k) (runQueue k) l p t) as (q' & h' & -> & Hr' & R); [done..|].
  cbn [mbind outcome_bind fst snd]. eexists. split; [done|]. split; [done|].
  split; [by apply relinked_switched|done].
Qed.

(** A yield switches to the first ready thread of the queue with the yielding
    thread at its end. *)
Lemma Yield_spec sp k c l :
  scheduled k c l ->
  match pick (is_ready (threads k)) (l ++ [c]) with
  | None => Yield sp k = Panic
  | Some (p, l') => exists k', Yield sp k = Ret k' /\ scheduled k' p l' /\ switched k k' /\
      interrupts k' = true
  end.
Proof.
  intros [Hr Hc Hout Hc0 Hlive]. unfold Yield, Get_Current. change (currentThread (disable_interrupts k)) with
    (currentThread k). rewrite Hc.
  destruct (runnable_spec (disable_interrupts k) l c) as (k1 & -> & Hr1 & SW & Hc1); [done..|].
  cbn [mbind outcome_bind]. pose proof (sw_ready _ _ SW) as Hrd. cbn in Hrd, Hc1. rewrite Hc in Hc1.
  rewrite <- (pick_ext (is_ready (threads k1))) by (intros; apply Hrd).
  assert (switched k k1) as SW1 by (destruct SW; by split).
  pose proof (Schedule_spec sp (enable_interrupts k1) (l ++ [c]) Hr1) as HS.
  cbn [threads currentThread enable_interrupts with_interrupts] in HS. rewrite Hc1 in HS.
  specialize (HS Hc0 (proj2 (sw_dom _ _ SW1 c) Hlive)).
  destruct (pick (is_ready (threads k1)) (l ++ [c])) as [[p l']|] eqn:Ep; [|done].
  destruct HS as (k' & E & Hr' & Hcur & Hp & Hlive' & SW2 & Hi). exists k'. split_and!; [done| | |done].
  - split; try done. destruct (pick_split _ _ _ _ Ep) as (l1 & l2 & El & -> & _ & _).
    assert (NoDup (l1 ++ p :: l2)) as Hnd by (rewrite <- El; apply Hr1).
    apply NoDup_app in Hnd as (_ & Hd & [Hp2 _]%NoDup_cons). set_solver.
  - eapply switched_trans; [exact SW1|]. destruct SW2. by split.
Qed.

(** Yields in a row, by whichever thread is running; the list gives the stack
    pointers saved at each. *)
Fixpoint yields (sps : list Z) (k : kernel) : outcome kernel :=
  match sps with
  | [] => Ret k
  | sp :: sps => Yield sp k ≫= yields sps
  end.

(** A ready thread behind [l1] runs after at most [length l1 + 1] yields. *)
Lemma yields_reach len sps k c l1 p l2 :
  length l1 = len -> (len < length sps)%nat ->
  scheduled k c (l1 ++ p :: l2) -> is_ready (threads k) p = true ->
  exists n k', (1 <= n <= S len)%nat /\ yields (take n sps) k = Ret k' /\ currentThread k' = p.
Proof.
  revert sps k c l1 l2. induction len as [|len IH]; intros sps k c l1 l2 Hlen Hsps HS Hp;
    destruct sps as [|sp sps]; simpl in Hsps; try lia.
  - destruct l1; [|done]. pose proof (Yield_spec sp k c _ HS) as HY. simpl in HY. rewrite Hp in HY.
    destruct HY as (k' & E & HS' & _). exists 1%nat, k'. split; [lia|].
    cbn [take yields]. rewrite E. split; [done|apply HS'].
  - pose proof (Yield_spec sp k c _ HS) as HY. rewrite <- app_assoc in HY. simpl in HY.
    rewrite pick_before in HY by done. destruct (pick (is_ready (threads k)) l1) as [[x r]|] eqn:Ex.
    + destruct HY as (k1 & E & HS1 & SW & _).
      destruct (pick_split _ _ _ _ Ex) as (m1 & m2 & -> & -> & _ & _).
      destruct (IH sps k1 x (m1 ++ m2) (l2 ++ [c])) as (n & k' & Hn & En & Hcur).
      { rewrite length_app in *. simpl in Hlen. lia. }
      { lia. }
      { exact HS1. }
      { by rewrite (sw_ready _ _ SW). }
      exists (S n), k'. split; [lia|]. cbn [take yields]. by rewrite E.
    + destruct HY as (k' & E & HS' & _). exists 1%nat, k'. split; [lia|].
      cbn [take yields]. rewrite E. split; [done|apply HS'].
Qed.

(** With every thread ready, yields rotate the ring of threads. *)
Lemma yields_rotate sps k c l :
  scheduled k c l -> Forall (fun p => is_ready (threads k) p = true) (c :: l) ->
  (length sps <= length l)%nat ->
  exists k' c' l', yields sps k = Ret k' /\ scheduled k' c' l' /\
    c' :: l' = drop (length sps) (c :: l) ++ take (length sps) (c :: l) /\ switched k k'.
Proof.
  revert k c l. induction sps as [|sp sps IH]; intros k c l HS Hall Hlen.
  - exists k, c, l. simpl. rewrite app_nil_r. split_and!; done.
  - destruct l as [|p l]; [simpl in Hlen; lia|].
    apply Forall_cons in Hall as [Hc Hall]. apply Forall_cons in Hall as [Hp Hall].
    pose proof (Yield_spec sp k c _ HS) as HY. simpl in HY. rewrite Hp in HY.
    destruct HY as (k1 & E & HS1 & SW & _).
    destruct (IH k1 p (l ++ [c]) HS1) as (k' & c' & l' & E' & HS' & El & SW').
    { apply Forall_cons. rewrite (sw_ready _ _ SW). split; [done|]. apply Forall_app.
      split; [|apply Forall_singleton; by rewrite (sw_ready _ _ SW)].
      eapply Forall_impl; [exact Hall|]. intros x Hx. by rewrite (sw_ready _ _ SW). }
    { rewrite length_app. simpl in *. lia. }
    exists k', c', l'. cbn [yields]. rewrite E. cbn [mbind outcome_bind].
    split_and!; [done|done| |by eapply switched_trans].
    rewrite El. simpl length. rewrite app_comm_cons, drop_app_le, take_app_le by (simpl in *; lia).
    simpl drop. simpl take. rewrite <- app_assoc. done.
Qed.

(** ** Claims *)

(** [Schedule] runs the first thread of the run queue that is alive and not
    sleeping and leaves the others queued in their order; the list of all
    threads is not disturbed.  It stops in a panic exactly when no queued thread
    is ready. *)
Theorem Schedule_first_ready sp k c l :
  scheduled k c l ->
  match pick (is_ready (threads k)) l with
  | None => Schedule sp k = Panic /\ Forall (fun p => is_ready (threads k) p = false) l
  | Some (p, l') => exists k' l1 l2, Schedule sp k = Ret k' /\ currentThread k' = p /\
      l = l1 ++ p :: l2 /\ Forall (fun x => is_ready (threads k) x = false) l1 /\
      is_ready (threads k) p = true /\ rep ThreadQ (threads k') (runQueue k') (l1 ++ l2) /\
      (forall la, rep ThreadList (threads k) (allThreadList k) la ->
         rep ThreadList (threads k') (allThreadList k') la)
  end.
Proof.
  intros [Hr0 Hc0 _ Hn0 Hl0]. rewrite <- Hc0 in Hn0, Hl0.
  pose proof (Schedule_spec sp k l Hr0 Hn0 Hl0) as H.
  destruct (pick (is_ready (threads k)) l) as [[p l']|] eqn:Ep.
  - destruct H as (k' & E & Hr & Hc & _ & _ & SW & _).
    destruct (pick_split _ _ _ _ Ep) as (l1 & l2 & -> & -> & Hp & Hl).
    exists k', l1, l2. split_and!; try done. apply SW.
  - split; [done|]. by apply pick_none.
Qed.

(** Three threads: one running, one asleep and one ready in the queue. *)
Definition demo_thread (ql al : links) (sl : Z) : thread :=
  Thread 0 1 0 0 0 0 sl 5 ql 0 0 1 0 0 (Queue 0 0) 1 (JoinQ 0 0) true 0 0 0 0 0 al.
Definition demo_kernel : kernel :=
  Kernel (<[0x1000 := demo_thread (Links 0 0) (Links 0 0x2000) 0]>
         (<[0x2000 := demo_thread (Links 0 0x3000) (Links 0x1000 0x3000) 7]>
         (<[0x3000 := demo_thread (Links 0x2000 0) (Links 0x2000 0) 0]> ∅)))
    ∅ (Queue 0x2000 0x3000) (Queue 0x1000 0x3000) 0x1000 3 (replicate 100 0)
    (MyAlloc.KHeap ∅ 0 0 MyAlloc.demo_vm) (fun _ => 0) true true.

Lemma demo_scheduled : scheduled demo_kernel 0x1000 [0x2000; 0x3000].
Proof.
  split; [split; [reflexivity|reflexivity|by_computation|by_computation|]|reflexivity|by_computation|done|by eexists].
  split; [by eexists|]. split; [by eexists|done].
Qed.

Example Schedule_first_ready_witness :
  exists k', Schedule 0x8000 demo_kernel = Ret k' /\ currentThread k' = 0x3000 /\
    rep ThreadQ (threads k') (runQueue k') [0x2000].
Proof.
  pose proof (Schedule_first_ready 0x8000 demo_kernel 0x1000 [0x2000; 0x3000] demo_scheduled) as H.
  assert (pick (is_ready (threads demo_kernel)) [0x2000; 0x3000] = Some (0x3000, [0x2000])) as Ep
    by (vm_compute; reflexivity).
  rewrite Ep in H. destruct H as (k' & l1 & l2 & E & Hc & El & _ & _ & Hr & _).
  exists k'. split; [exact E|]. split; [exact Hc|].
  destruct l1 as [|a [|b l1]]; simpl in El; [discriminate| |].
  - injection El as <- <-. exact Hr.
  - injection El as _ _ El. by destruct l1.
Defined.

(** C16: no ready thread starves.  A thread that is in the run queue, alive and
    awake is running after at most as many yields as there are queued threads
    up to it, whatever threads are ready and whichever of them yield. *)
Theorem Yield_no_starvation sps k c l1 p l2 :
  scheduled k c (l1 ++ p :: l2) -> is_ready (threads k) p = true -> (length l1 < length sps)%nat ->
  exists n k', (1 <= n <= S (length l1))%nat /\ yields (take n sps) k = Ret k' /\ currentThread k' = p.
Proof. intros HS Hp Hlen. by apply (yields_reach _ sps k c l1 p l2 eq_refl). Qed.

Example Yield_no_starvation_witness :
  exists n k', (1 <= n <= 2)%nat /\ yields (take n [0x8000; 0x9000]) demo_kernel = Ret k' /\
    currentThread k' = 0x3000.
Proof.
  apply (Yield_no_starvation [0x8000; 0x9000] demo_kernel 0x1000 [0x2000] 0x3000 []);
    [exact demo_scheduled|vm_compute; reflexivity|simpl; lia].
Defined.

(** With all threads ready the scheduler is a round robin: after [i] yields
    the running thread and the queue are the original ring rotated by [i], so
    every thread has run once before any runs twice. *)
Theorem Yield_round_robin sps k c l :
  scheduled k c l -> Forall (fun p => is_ready (threads k) p = true) (c :: l) ->
  (length sps <= length l)%nat ->
  exists k' c' l', yields sps k = Ret k' /\ scheduled k' c' l' /\
    c' :: l' = drop (length sps) (c :: l) ++ take (length sps) (c :: l).
Proof.
  intros HS Hall Hlen. destruct (yields_rotate sps k c l HS Hall Hlen) as (k' & c' & l' & H1 & H2 & H3 & _).
  by exists k', c', l'.
Qed.

Definition awake_kernel : kernel :=
  with_threads demo_kernel
    (<[0x2000 := demo_thread (Links 0 0x3000) (Links 0x1000 0x3000) 0]> (threads demo_kernel)).

Example Yield_round_robin_witness :
  exists k' c' l', yields [0x8000; 0x9000] awake_kernel = Ret k' /\ scheduled k' c' l' /\
    c' :: l' = [0x3000; 0x1000; 0x2000].
Proof.
  apply (Yield_round_robin [0x8000; 0x9000] awake_kernel 0x1000 [0x2000; 0x3000]);
    [|by_computation|simpl; lia].
  split; [split; [reflexivity|reflexivity|by_computation|by_computation|]|reflexivity|by_computation|done|by eexists].
  split; [by eexists|]. split; [by eexists|done].
Defined.

(** ** Removing a thread that is not queued *)

(** [thread_cleanup] of the running thread, whose links are still the null
    ones it had when it was taken from a queue of one, empties the run queue
    whatever has been queued since; the next [Schedule] stops in a panic
    although ready threads exist. *)
Theorem thread_cleanup_loses_queue sp k p t l1 la1 la2 :
  rep ThreadQ (threads k) (runQueue k) l1 ->
  rep ThreadList (threads k) (allThreadList k) (la1 ++ p :: la2) ->
  currentThread k = p -> threads k !! p = Some t -> q_links t = Links 0 0 -> parent t = 0 ->
  exists k', thread_cleanup k p = Ret k' /\ runQueue k' = Queue 0 0 /\ Schedule sp k' = Panic /\
    rep ThreadList (threads k') (allThreadList k') (la1 ++ la2) /\
    (forall x, is_ready (threads k') x = is_ready (threads k) x).
Proof.
  intros Hq Ha Hc Ht Hl Hp. assert (p <> 0) as H0 by (pose proof (rep_nonnull _ _ _ _ Ha); set_solver).
  unfold thread_cleanup, remove_runnable_kthread, remove.
  rewrite (deref_eq (threads k) p t) by done. cbn [mbind outcome_bind].
  change (@get_links ThreadQ t) with (q_links t). rewrite Hl. cbn [prev next Z.eqb negb mbind outcome_bind fst snd].
  rewrite (deref_eq (threads k) p t) by done. cbn [mbind outcome_bind].
  change (@get_links ThreadQ t) with (q_links t). rewrite Hl.
  cbn [prev next Z.eqb negb mbind outcome_bind fst snd head tail].
  destruct (remove_spec (threads k) (allThreadList k) la1 p la2 Ha) as (q' & h' & E & Ha' & R).
  unfold remove_alllist_kthread.
  cbn [threads allThreadList with_threads with_runQueue]. rewrite E. cbn [mbind outcome_bind fst snd].
  destruct (relinked_data _ _ _ _ _ R Ht) as (t' & Ht' & Ed).
  cbn [threads with_threads]. rewrite (deref_eq h' p t') by done. cbn [mbind outcome_bind].
  assert (parent t' = 0) as -> by (change (parent t') with (parent (data t')); by rewrite Ed).
  cbn [Z.eqb]. eexists. split; [done|]. split; [done|]. split; [|split; [done|]].
  - unfold Schedule, next_runnable_kthread. cbn. destruct (size h'); done.
  - intros x. by eapply is_ready_relinked.
Qed.

Example thread_cleanup_loses_queue_witness :
  exists k', thread_cleanup demo_kernel 0x1000 = Ret k' /\ Schedule 0x8000 k' = Panic /\
    is_ready (threads demo_kernel) 0x3000 = true.
Proof.
  destruct (thread_cleanup_loses_queue 0x8000 demo_kernel 0x1000
    (demo_thread (Links 0 0) (Links 0 0x2000) 0) [0x2000; 0x3000] [] [0x2000; 0x3000])
    as (k' & E & _ & Hs & _);
    [exact (sched_rep _ _ _ demo_scheduled)| |reflexivity|reflexivity|reflexivity|reflexivity|].
  - split; [reflexivity|reflexivity|by_computation|by_computation|].
    split; [by eexists|]. split; [by eexists|]. split; [by eexists|done].
  - exists k'. split; [exact E|]. split; [exact Hs|]. vm_compute. reflexivity.
Defined.

(** ** The initial stack *)

(** [k'] is [k] after the words [vs] were pushed on the stack of [p], whose top
    was [top]. *)
Definition pushed (k k' : kernel) (p top : Z) (t : thread) (vs : list Z) : Prop :=
  exists m, k' = with_stackmem (with_threads k
      (<[p := set_rsp (top - 8 * Z.of_nat (length vs)) t]> (threads k))) m /\
    (forall i v, vs !! i = Some v -> m (top - 8 * (Z.of_nat i + 1)) = v) /\
    (forall a, a < top - 8 * Z.of_nat (length vs) \/ top <= a -> m a = stackmem k a).

Lemma Push_pushed k k' p top t vs v :
  p <> 0 -> pushed k k' p top t vs ->
  8 * (Z.of_nat (length vs) + 1) <= top < 2 ^ 64 ->
  exists k2, Push k' p v = Ret k2 /\ pushed k k2 p top t (vs ++ [v]).
Proof.
  intros Hp (m & -> & Hm & Hout) Htop. unfold Push.
  erewrite deref_eq by (done || apply lookup_insert_eq). cbn [mbind outcome_bind].
  cbn [rsp set_rsp]. rewrite uwrap_small by lia. eexists. split; [done|].
  eexists. split.
  - cbn. rewrite insert_insert_eq. unfold with_stackmem, with_threads. cbn.
    rewrite length_app. simpl length. replace (top - 8 * Z.of_nat (length vs) - 8) with
      (top - 8 * Z.of_nat (length vs + 1)) by lia. reflexivity.
  - cbn [stackmem with_stackmem with_threads]. split.
    + intros i x Hi. unfold mem_set. apply lookup_app_Some in Hi as [Hi|[Hge Hi]].
      * pose proof (lookup_lt_Some _ _ _ Hi).
        destruct (Z.eqb_spec (top - 8 * (Z.of_nat i + 1)) (top - 8 * Z.of_nat (length vs + 1))); [lia|].
        by apply Hm.
      * apply list_lookup_singleton_Some in Hi as [Hi <-].
        destruct (Z.eqb_spec (top - 8 * (Z.of_nat i + 1)) (top - 8 * Z.of_nat (length vs + 1))); [done|lia].
    + intros a Ha. unfold mem_set. rewrite length_app in Ha. simpl length in Ha.
      destruct (Z.eqb_spec a (top - 8 * Z.of_nat (length vs + 1))); [lia|]. apply Hout. lia.
Qed.

Definition initial_stack (im : image) (top startFunc arg : Z) : list Z :=
  [arg; thread_exit im; startFunc; KERN_DS; top - 24; 0; KERN_CS; Launch_Thread im; 0; 0] ++
  replicate 15 0.

Ltac push Hp HP k HP' :=
  let E := fresh in
  match type of HP with
  | pushed _ ?k1 _ _ _ _ =>
    match goal with
    | |- context [Push k1 _ ?v] => destruct (Push_pushed _ _ _ _ _ _ v Hp HP) as (k & E & HP')
    end
  end; [cbn [length app]; lia|]; rewrite E; cbn [mbind outcome_bind app] in HP' |- *; clear E HP.

Lemma setup_kthread_pushed im k p t startFunc arg :
  p <> 0 -> threads k !! p = Some t -> 200 <= rsp t < 2 ^ 64 ->
  exists k', setup_kthread im k p startFunc arg = Ret k' /\
    pushed k k' p (rsp t) t (initial_stack im (rsp t) startFunc arg).
Proof.
  intros Hp Ht Htop. unfold setup_kthread.
  assert (pushed k k p (rsp t) t []) as P0.
  { exists (stackmem k). split; [|split; [done|done]]. destruct k. unfold with_stackmem, with_threads. cbn in *.
    rewrite Z.sub_0_r. rewrite insert_id; [done|]. rewrite Ht. by destruct t. }
  push Hp P0 k1 P1. push Hp P1 k2 P2. push Hp P2 k3 P3. push Hp P3 k4 P4.
  pose proof P4 as (m4 & E4 & _).
  assert (threads k4 !! p = Some (set_rsp (rsp t - 32) t)) as H4 by (rewrite E4; apply lookup_insert_eq).
  rewrite (deref_eq _ _ _ Hp H4). cbn [mbind outcome_bind rsp set_rsp]. rewrite uwrap_small by lia.
  replace (rsp t - 32 + 8) with (rsp t - 24) by lia. clear E4 H4 m4.
  push Hp P4 k5 P5. push Hp P5 k6 P6. push Hp P6 k7 P7. push Hp P7 k8 P8. push Hp P8 k9 P9.
  push Hp P9 k10 P10. unfold Push_General_Registers. cbn [for_loop].
  push Hp P10 r1 R1. push Hp R1 r2 R2. push Hp R2 r3 R3. push Hp R3 r4 R4. push Hp R4 r5 R5.
  push Hp R5 r6 R6. push Hp R6 r7 R7. push Hp R7 r8 R8. push Hp R8 r9 R9. push Hp R9 r10 R10.
  push Hp R10 r11 R11. push Hp R11 r12 R12. push Hp R12 r13 R13. push Hp R13 r14 R14.
  push Hp R14 r15 R15. exists r15. split; [done|]. exact R15.
Qed.

(** What the end of the switch (POPAQ, [add $0x10, %rsp], [iretq]) takes from the
    stack at [sp]: the fifteen registers, two words skipped, then the
    instruction pointer, code segment, flags, stack pointer and stack
    segment. *)
Definition popped_registers (m : Z -> Z) (sp : Z) : list Z :=
  (fun i => m (sp + 8 * Z.of_nat i)) <$> seq 0 15.
Record iret_frame := Frame { f_rip : Z; f_cs : Z; f_rflags : Z; f_rsp : Z; f_ss : Z }.
Definition iretq_frame (m : Z -> Z) (sp : Z) : iret_frame :=
  let a := sp + 8 * 15 + 0x10 in
  Frame (m a) (m (a + 8)) (m (a + 16)) (m (a + 24)) (m (a + 32)).

(** C17: [setup_kthread] leaves a stack from which the first switch to the thread
    pops zeroed registers and returns, in kernel code and stack segments, to
    [Launch_Thread] with a stack whose words are the start function and
    [thread_exit] in this order, so that launching returns into the start
    function and that one into [thread_exit].  Nothing outside the 200 bytes
    below the old stack pointer is written. *)
Theorem setup_kthread_frame im k p t startFunc arg :
  p <> 0 -> threads k !! p = Some t -> 200 <= rsp t < 2 ^ 64 ->
  exists k' t', setup_kthread im k p startFunc arg = Ret k' /\
    threads k' !! p = Some t' /\ rsp t' = rsp t - 200 /\
    popped_registers (stackmem k') (rsp t') = replicate 15 0 /\
    iretq_frame (stackmem k') (rsp t') = Frame (Launch_Thread im) KERN_CS 0 (rsp t - 24) KERN_DS /\
    stackmem k' (rsp t - 24) = startFunc /\ stackmem k' (rsp t - 24 + 8) = thread_exit im /\
    (forall a, a < rsp t - 200 \/ rsp t <= a -> stackmem k' a = stackmem k a).
Proof.
  intros Hp Ht Htop. destruct (setup_kthread_pushed im k p t startFunc arg Hp Ht Htop)
    as (k' & E & m & -> & Hm & Hout). cbn [length initial_stack app replicate] in Hm, Hout.
  eexists _, (set_rsp (rsp t - 200) t). split; [exact E|]. cbn [stackmem with_stackmem].
  split; [apply lookup_insert_eq|]. split; [done|]. cbn [rsp set_rsp].
  assert (forall i v a, initial_stack im (rsp t) startFunc arg !! i = Some v ->
    a = rsp t - 8 * (Z.of_nat i + 1) -> m a = v) as Hw by (intros i v a Hi ->; by apply Hm).
  split_and!; [| | | |exact Hout].
  - unfold popped_registers. apply list_eq. intros i. rewrite list_lookup_fmap.
    destruct (decide (i < 15)%nat) as [Hi|Hi].
    + rewrite lookup_seq_lt, lookup_replicate_2 by lia. simpl. f_equal.
      apply (Hw (24 - i)%nat); [|lia]. unfold initial_stack. rewrite lookup_app_r by (simpl; lia).
      apply lookup_replicate_2. simpl. lia.
    + rewrite lookup_seq_ge, lookup_ge_None_2 by (rewrite ?length_replicate; lia). done.
  - unfold iretq_frame. rewrite (Hw 7%nat (Launch_Thread im)), (Hw 6%nat KERN_CS), (Hw 5%nat 0),
      (Hw 4%nat (rsp t - 24)), (Hw 3%nat KERN_DS) by (done || lia). done.
  - apply (Hw 2%nat); [done|lia].
  - apply (Hw 1%nat); [done|lia].
Qed.

Definition demo_image : image :=
  Image 0x1111 0x2222 0x3333 0x4000 0 0 (fun _ => demo_thread (Links 7 7) (Links 9 9) 3).
Definition stacked_kernel : kernel :=
  with_threads demo_kernel
    (<[0x1000 := set_rsp 0x9000 (demo_thread (Links 0 0) (Links 0 0x2000) 0)]> (threads demo_kernel)).

Example setup_kthread_frame_witness :
  exists k', setup_kthread demo_image stacked_kernel 0x1000 0x5555 0 = Ret k' /\
    iretq_frame (stackmem k') (0x9000 - 200) = Frame 0x2222 8 0 (0x9000 - 24) 0x10 /\
    stackmem k' (0x9000 - 24) = 0x5555.
Proof.
  destruct (setup_kthread_frame demo_image stacked_kernel 0x1000
    (set_rsp 0x9000 (demo_thread (Links 0 0) (Links 0 0x2000) 0)) 0x5555 0)
    as (k' & t' & E & _ & Hr & _ & Hf & Hs & _); [lia|reflexivity|vm_compute; split; congruence|].
  exists k'. split; [exact E|]. split; [rewrite Hr in Hf; exact Hf|exact Hs].
Defined.

(** ** Creating a thread *)

(** The addresses of the next two pages of the bump allocator. *)
Definition first_page (k : kernel) : Z := (vmmgr_alloc_page (MyAlloc.vm (kheap k)) 0).2.
Definition second_page (k : kernel) : Z :=
  (vmmgr_alloc_page (vmmgr_alloc_page (MyAlloc.vm (kheap k)) 0).1 0).2.

Definition after_two_pages (k : kernel) : vmm := (vmmgr_alloc_page (vmmgr_alloc_page (MyAlloc.vm (kheap k)) 0).1 0).1.

Lemma seg_insert_fresh F (h : heap) q l p t : p ∉ l -> rep F h q l -> rep F (<[p := t]> h) q l.
Proof. intros Hp [H1 H2 H3 H4 H5]. split; try done. by apply seg_insert_ne. Qed.

(** [create_kthread] enters the thread in the list of all threads only. *)
Lemma create_kthread_spec im k nm prio detached la l :
  let p := first_page k in
  p <> 0 -> second_page k <> 0 -> p ∉ la -> p ∉ l ->
  rep ThreadList (threads k) (allThreadList k) la -> rep ThreadQ (threads k) (runQueue k) l ->
  exists k' t, create_kthread im k nm prio detached = Ret (k', p) /\
    rep ThreadList (threads k') (allThreadList k') (la ++ [p]) /\
    rep ThreadQ (threads k') (runQueue k') l /\ threads k' !! p = Some t /\
    ready t = true /\ pid t = s32 (nextFreePid k + 1) /\ priority t = prio /\
    rsp t = u64 (second_page k + VIRT_PAGE_SIZE) /\ ptable k' = ptable k /\
    nextFreePid k' = s32 (nextFreePid k + 1) /\ currentThread k' = currentThread k /\
    (forall x, x <> p -> is_ready (threads k') x = is_ready (threads k) x) /\
    pcr3 t = Paging.cr3 (MyAlloc.vm (kheap k)) /\ MyAlloc.vm (kheap k') = after_two_pages k /\
    (forall x, x <> p -> is_Some (threads k !! x) -> is_Some (threads k' !! x)).
Proof.
  intros p Hp Hs Hpa Hpl Ha Hq. unfold create_kthread, new_thread_page.
  cbn [MyAlloc.sub_malloc mbind outcome_bind fst snd].
  change (vmmgr_alloc_page (MyAlloc.vm (kheap k)) 0).2 with p. destruct (Z.eqb_spec p 0); [done|].
  cbn [kheap with_threads with_kheap MyAlloc.vm MyAlloc.with_vm].
  set (s := (vmmgr_alloc_page (vmmgr_alloc_page (MyAlloc.vm (kheap k)) 0).1 0).2).
  change (second_page k) with s in *. destruct (Z.eqb_spec s 0); [done|].
  unfold Init_Thread. cbn [threads with_kheap with_threads].
  erewrite deref_eq by (done || apply lookup_insert_eq). cbn [mbind outcome_bind].
  unfold alllist_kthread, append_global_list_queue.
  cbn [threads allThreadList with_threads with_kheap with_pids alloc_pid fst].
  rewrite insert_insert_eq. set (t0 := Thread _ _ _ _ _ _ _ _ _ _ _ _ _ _ _ _ _ _ _ _ _ _ _ _).
  destruct (append_spec (F := ThreadList) (<[p := t0]> (threads k)) (allThreadList k) la p t0)
    as (q' & h' & -> & Ha' & R); [by apply seg_insert_fresh|done|done|apply lookup_insert_eq|].
  cbn [mbind outcome_bind fst snd].
  destruct (relinked_data _ _ _ p t0 R) as (t & Ht & Ed); [apply lookup_insert_eq|].
  eexists _, t. split; [done|]. cbn [threads allThreadList runQueue ptable nextFreePid currentThread
    with_threads with_allThreadList with_kheap with_pids alloc_pid fst].
  assert (forall A (f : thread -> A), (forall t, f (data t) = f t) -> f t = f t0) as Hf.
  { intros A f Hd. by rewrite <- (Hd t), Ed, Hd. }
  split_and!; try done.
  - apply (rep_relinked (F := ThreadList) (<[p := t0]> (threads k))); [done|by apply seg_insert_fresh].
  - by rewrite (Hf _ ready).
  - by rewrite (Hf _ pid).
  - by rewrite (Hf _ priority).
  - by rewrite (Hf _ rsp).
  - intros x Hx. rewrite (is_ready_relinked _ _ _ _ R). unfold is_ready. by rewrite lookup_insert_ne.
  - by rewrite (Hf _ pcr3).
  - intros x Hx [tx Ex]. destruct (relinked_data _ _ _ x tx R) as (t' & Ht' & _); [by rewrite lookup_insert_ne|by eexists].
Qed.

(** What the new thread's creation needs of the state: two fresh pages for its
    structure and its stack. *)
Record can_create (k : kernel) (l la : list Z) : Prop := {
  cc_page : first_page k <> 0;
  cc_stack : 200 <= u64 (second_page k + VIRT_PAGE_SIZE) /\ second_page k <> 0;
  cc_fresh : (first_page k ∉ la) /\ (first_page k ∉ l);
  cc_all : rep ThreadList (threads k) (allThreadList k) la;
  cc_run : rep ThreadQ (threads k) (runQueue k) l;
  cc_table : length (ptable k) = 100%nat
}.

Lemma start_kthread_spec im k startFunc nm arg prio detached l la :
  can_create k l la -> 0 <= nextFreePid k < 99 ->
  exists k', start_kthread im k startFunc nm arg prio detached = Ret (k', first_page k) /\
    rep ThreadQ (threads k') (runQueue k') (l ++ [first_page k]) /\
    rep ThreadList (threads k') (allThreadList k') (la ++ [first_page k]) /\
    ptable k' !! Z.to_nat (nextFreePid k + 1) = Some (first_page k) /\
    nextFreePid k' = nextFreePid k + 1 /\ is_ready (threads k') (first_page k) = true /\
    currentThread k' = currentThread k /\ interrupts k' = true /\
    (forall x, x <> first_page k -> is_ready (threads k') x = is_ready (threads k) x) /\
    MyAlloc.vm (kheap k') = after_two_pages k /\
    (exists t, threads k' !! first_page k = Some t /\ rsp t = u64 (second_page k + VIRT_PAGE_SIZE) - 200 /\
      pcr3 t = Paging.cr3 (MyAlloc.vm (kheap k))) /\
    (forall i v, initial_stack im (u64 (second_page k + VIRT_PAGE_SIZE)) startFunc arg !! i = Some v ->
      stackmem k' (u64 (second_page k + VIRT_PAGE_SIZE) - 8 * (Z.of_nat i + 1)) = v) /\
    (forall x, x <> first_page k -> is_Some (threads k !! x) -> is_Some (threads k' !! x)).
Proof.
  intros [Hp [Htop Hs] [Hpa Hpl] Ha Hq Hlen] Hn. set (p := first_page k) in *.
  destruct (create_kthread_spec im k nm prio detached la l Hp Hs Hpa Hpl Ha Hq)
    as (k1 & t & E1 & Ha1 & Hq1 & Ht & Hrdy & Hpid & _ & Hrsp & Hpt & Hnf & Hcur & Hoth & Hcr & Hvm & Hdom).
  fold p in E1, Ha1, Ht, Hoth. rewrite swrap_small in Hpid, Hnf by lia.
  unfold start_kthread. rewrite E1. cbn [mbind outcome_bind fst snd].
  unfold add_to_ptable. rewrite (deref_eq (threads k1) p t) by done. cbn [mbind outcome_bind].
  rewrite Hpid, Hpt, array_set_lt by lia. cbn [mbind outcome_bind].
  destruct (Z.eqb_spec p 0); [done|].
  set (k2 := with_pids k1 _ _).
  assert (u64 (second_page k + VIRT_PAGE_SIZE) < 2 ^ 64) by (apply (uwrap_range 64); lia).
  destruct (setup_kthread_pushed im k2 p t startFunc arg) as (k3 & -> & m & E3 & Hm & _); [done|done|lia|].
  cbn [mbind outcome_bind].
  assert (rep ThreadQ (threads k3) (runQueue k3) l) as Hq3 by (rewrite E3; by apply rep_set_rsp).
  assert (rep ThreadList (threads k3) (allThreadList k3) (la ++ [p])) as Ha3
    by (rewrite E3; by apply rep_set_rsp).
  destruct (runnable_spec (disable_interrupts k3) l p) as (k4 & E4 & Hq4 & SW & Hc4); [done..| |].
  { rewrite E3. cbn. rewrite lookup_insert_eq. by eexists. }
  rewrite E4. cbn [mbind outcome_bind]. exists (enable_interrupts k4). split; [done|].
  assert (threads k3 !! p = Some (set_rsp (u64 (second_page k + VIRT_PAGE_SIZE) - 200) t)) as Ht3.
  { rewrite E3, <- Hrsp. apply lookup_insert_eq. }
  unfold runnable_kthread in E4. apply bind_Ret_inv in E4 as ([q4 h4] & Eq4 & [= <-]).
  destruct (append_spec (F := ThreadQ) _ _ l p _ Hq3 Hp Hpl Ht3) as (q5 & h5 & E5 & _ & R5).
  unfold append_run_queue in Eq4. cbn [threads runQueue disable_interrupts with_interrupts] in Eq4. rewrite E5 in Eq4.
  injection Eq4 as <- <-. destruct (relinked_data _ _ _ p _ R5 Ht3) as (t4 & Ht4 & Ed4).
  assert (forall x, is_ready h5 x = is_ready (threads k3) x) as Hsw by exact (sw_ready _ _ SW).
  assert (forall x, is_ready (threads k3) x = is_ready (threads k1) x) as H31.
  { intros x. rewrite E3. by apply (is_ready_set_rsp (threads k1)). }
  split_and!; [done|by apply (sw_all _ _ SW)| | | | |done| | | | |].
  - rewrite E3. cbn. rewrite list_lookup_insert_eq; [done|lia].
  - rewrite E3. cbn. exact Hnf.
  - change (is_ready h5 p = true). rewrite Hsw, H31. unfold is_ready. by rewrite Ht.
  - rewrite E3. exact Hcur.
  - intros x Hx. change (is_ready h5 x = is_ready (threads k) x). rewrite Hsw, H31. by apply Hoth.
  - rewrite E3. exact Hvm.
  - exists t4. split; [exact Ht4|]. change (rsp t4) with (rsp (data t4)). change (pcr3 t4) with (pcr3 (data t4)).
    rewrite Ed4. split; [done|exact Hcr].
  - intros i v Hi. rewrite <- Hrsp in Hi |- *. change (stackmem k3 (rsp t - 8 * (Z.of_nat i + 1)) = v). rewrite E3. by apply Hm.
  - intros x Hx Hs'. change (is_Some (h5 !! x)). apply (sw_dom _ _ SW). rewrite E3.
    cbn [threads with_threads with_stackmem disable_interrupts with_interrupts]. rewrite lookup_insert_ne by done. by apply Hdom.
Qed.

(** C18: [start_kthread] creates a thread that is ready, puts it at the end of
    the run queue and of the list of all threads and into the process table
    under its new number, below 100, on pages no thread has, and leaves the
    running thread and the readiness of all others as they were. *)
Theorem start_kthread_enqueues im k startFunc nm arg prio detached l la :
  can_create k l la -> 0 <= nextFreePid k < 99 ->
  exists k', start_kthread im k startFunc nm arg prio detached = Ret (k', first_page k) /\
    rep ThreadQ (threads k') (runQueue k') (l ++ [first_page k]) /\
    rep ThreadList (threads k') (allThreadList k') (la ++ [first_page k]) /\
    ptable k' !! Z.to_nat (nextFreePid k + 1) = Some (first_page k) /\
    nextFreePid k' = nextFreePid k + 1 /\ is_ready (threads k') (first_page k) = true /\
    currentThread k' = currentThread k /\ interrupts k' = true /\
    (forall x, x <> first_page k -> is_ready (threads k') x = is_ready (threads k) x).
Proof.
  intros HC Hn. destruct (start_kthread_spec im k startFunc nm arg prio detached l la HC Hn)
    as (k' & E & Hq & Ha & Hpt & Hnf & Hrdy & Hcur & Hi & Hoth & _).
  by exists k'.
Qed.

Lemma demo_can_create : can_create demo_kernel [0x2000; 0x3000] [0x1000; 0x2000; 0x3000].
Proof.
  split; [by_computation|by_computation|by_computation| |exact (sched_rep _ _ _ demo_scheduled)|reflexivity].
  split; [reflexivity|reflexivity|by_computation|by_computation|].
  split; [by eexists|]. split; [by eexists|]. split; [by eexists|done].
Qed.

Example start_kthread_enqueues_witness :
  exists k', start_kthread demo_image demo_kernel 0x5555 0 0 5 true = Ret (k', 0xFFFFFFFF82C01000) /\
    rep ThreadQ (threads k') (runQueue k') [0x2000; 0x3000; 0xFFFFFFFF82C01000].
Proof.
  destruct (start_kthread_enqueues demo_image demo_kernel 0x5555 0 0 5 true [0x2000; 0x3000]
    [0x1000; 0x2000; 0x3000] demo_can_create) as (k' & E & Hr & _); [vm_compute; split; congruence|].
  exists k'. split; [exact E|exact Hr].
Defined.

(** The process table has 100 entries and the process number is not checked
    against them: once 99 numbers are in use, [start_kthread] writes outside
    the table. *)
Theorem start_kthread_overflows_ptable im k startFunc nm arg prio detached l la :
  can_create k l la -> 99 <= nextFreePid k < 2 ^ 31 - 1 ->
  start_kthread im k startFunc nm arg prio detached = Undef.
Proof.
  intros [Hp [Htop Hs] [Hpa Hpl] Ha Hq Hlen] Hn.
  destruct (create_kthread_spec im k nm prio detached la l Hp Hs Hpa Hpl Ha Hq)
    as (k1 & t & E1 & _ & _ & Ht & _ & Hpid & _ & _ & Hpt & _).
  rewrite swrap_small in Hpid by lia.
  unfold start_kthread. rewrite E1. cbn [mbind outcome_bind fst snd].
  unfold add_to_ptable. rewrite (deref_eq (threads k1) _ t) by done. cbn [mbind outcome_bind].
  rewrite Hpid, Hpt. unfold array_set. rewrite Hlen.
  destruct (Z.leb_spec 0 (nextFreePid k + 1)), (Z.ltb_spec (nextFreePid k + 1) (Z.of_nat 100)); simpl; done || lia.
Qed.

Example start_kthread_overflows_ptable_witness :
  start_kthread demo_image (with_pids demo_kernel 99 (ptable demo_kernel)) 0x5555 0 0 5 true = Undef.
Proof.
  apply (start_kthread_overflows_ptable demo_image (with_pids demo_kernel 99 (ptable demo_kernel))
    0x5555 0 0 5 true [0x2000; 0x3000] [0x1000; 0x2000; 0x3000]);
    [|vm_compute; split; congruence].
  destruct demo_can_create as [H1 H2 H3 H4 H5 H6]. by constructor.
Defined.
