(* ===== verification/Timer.v ===== *)
(** * The timer (sys/timer.c)

    The handler of the 100 Hz interrupt: the wall clock shown on the screen and
    the countdown of sleeping threads; the divisor of the timer chip. *)

From S2P Require Import Prelude Bitmap PageEntry Paging KHeap Queues Kthread.

(** ** State *)

Record clock := Clock {
  total_ticks : Z; total_ticks_secs : Z; mins : Z; hours : Z;
  seconds_units : Z; seconds_tens : Z; minutes_units : Z; minutes_tens : Z;
  hours_units : Z; hours_tens : Z
}.

#[export] Instance clock_eq_dec : EqDecision clock.
Proof. solve_decision. Defined.

(** All counters are 16-bit globals, zero at the start. *)
Definition clock_start : clock := Clock 0 0 0 0 0 0 0 0 0 0.

Definition set_sleeping (v : Z) (t : thread) : thread :=
  Thread (rsp t) (kernel_thread t) (krsp t) (pcr3 t) (cr3 t) (kstack t) v (priority t)
    (q_links t) (stackPage t) (brk t) (no_stack_pages t) (owner t) (parent t) (joinQueue t) (refCount t)
    (join_head t) (alive t) (name t) (exitCode t) (pid t) (mmap t) (mmap_cache t) (a_links t).

(** ** The handler *)

(** [while (crawl && crawl != currentThread) { if (crawl->sleeping > 0)
     crawl->sleeping--; crawl = crawl->next_in_ThreadQ; }] *)
Fixpoint count_down (n : nat) (h : heap) (crawl current : Z) : outcome heap :=
  if (crawl =? 0) || (crawl =? current) then Ret h else
  t ← deref h crawl;
  let h := if 0 <? sleeping t then <[crawl := set_sleeping (sleeping t - 1) t]> h else h in
  match n with
  | O => Loops
  | S n => count_down n h (next (q_links t)) current
  end.

(** The counters after another second. *)
Definition advance (c : clock) : clock :=
  let secs := u16 (total_ticks_secs c + 1) in
  let '(secs, mins, hours) :=
    if 60 <=? secs then
      let mins := u16 (mins c + 1) in
      if 60 <=? mins then (0, 0, u16 (hours c + 1)) else (0, mins, hours c)
    else (secs, mins c, hours c) in
  Clock (total_ticks c) secs mins hours (secs mod 10) (secs / 10) (mins mod 10) (mins / 10)
        (hours mod 10) (hours / 10).

(** The digits passed to [write_time]. *)
Definition shown (c : clock) : list Z :=
  [seconds_units c; seconds_tens c; minutes_units c; minutes_tens c; hours_units c; hours_tens c].

(** Returns the state and, when a second has passed, the digits written. *)
Definition timer_handler (c : clock) (k : kernel) : outcome (clock * kernel * option (list Z)) :=
  let ticks := u16 (total_ticks c + 1) in
  let c := Clock ticks (total_ticks_secs c) (mins c) (hours c) (seconds_units c) (seconds_tens c)
             (minutes_units c) (minutes_tens c) (hours_units c) (hours_tens c) in
  if ticks mod 100 =? 0 then
    h ← count_down (size (threads k)) (threads k) (head (runQueue k)) (currentThread k);
    let c := advance c in
    Ret (c, with_threads k h, Some (shown c))
  else Ret (c, k, None).

(** ** The timer chip *)

(** The bytes sent to ports 0x43 and 0x40; [outb] takes a byte. *)
Definition timer_setup (hz : Z) : list (Z * Z) :=
  let COUNT := Z.quot 1193180 hz in
  let lsb := Z.land COUNT 0xFF in
  let msb := Z.shiftr COUNT 8 in
  [(0x43, u8 0x36); (0x40, u8 lsb); (0x40, u8 msb)].

Definition timer_install : list (Z * Z) := timer_setup 100.

(** ** The clock *)

Definition clock_ok (c : clock) : Prop :=
  0 <= total_ticks c < 2 ^ 16 /\ 0 <= total_ticks_secs c < 60 /\ 0 <= mins c < 60 /\ 0 <= hours c < 2 ^ 16.

#[export] Instance clock_ok_dec c : Decision (clock_ok c).
Proof. unfold clock_ok. apply _. Defined.

(** Seconds since the start, as the counters have them. *)
Definition seconds (c : clock) : Z := 3600 * hours c + 60 * mins c + total_ticks_secs c.

(** The digits of the counters. *)
Definition digits_ok (c : clock) : Prop :=
  10 * seconds_tens c + seconds_units c = total_ticks_secs c /\ 0 <= seconds_units c < 10 /\
  10 * minutes_tens c + minutes_units c = mins c /\ 0 <= minutes_units c < 10 /\
  10 * hours_tens c + hours_units c = hours c /\ 0 <= hours_units c < 10.

Lemma split_digits x : 10 * (x / 10) + x mod 10 = x /\ 0 <= x mod 10 < 10.
Proof. pose proof (Z.div_mod x 10). pose proof (Z.mod_pos_bound x 10). lia. Qed.

Lemma advance_spec c :
  clock_ok c -> hours c < 2 ^ 16 - 1 ->
  clock_ok (advance c) /\ seconds (advance c) = seconds c + 1 /\ digits_ok (advance c) /\
  total_ticks (advance c) = total_ticks c.
Proof.
  intros (Ht & Hs & Hm & Hh) Hh'. unfold advance.
  rewrite (uwrap_small 16 (total_ticks_secs c + 1)), (uwrap_small 16 (mins c + 1)),
    (uwrap_small 16 (hours c + 1)) by lia.
  assert (forall a b d e, digits_ok (Clock a b d e (b mod 10) (b / 10) (d mod 10) (d / 10) (e mod 10) (e / 10))) as Hd.
  { intros a b d e. unfold digits_ok. cbn. pose proof (split_digits b). pose proof (split_digits d).
    pose proof (split_digits e). tauto. }
  destruct (Z.leb_spec 60 (total_ticks_secs c + 1)); [destruct (Z.leb_spec 60 (mins c + 1))|];
    (split_and!; [unfold clock_ok; cbn; lia|unfold seconds; cbn; lia|apply Hd|done]).
Qed.

(** ** The countdown *)

(** The threads [l] with their sleep counts one lower. *)
Definition lowered (l : list Z) (h h' : heap) : Prop :=
  forall p, h' !! p = (fun t => if decide (p ∈ l) then
      (if 0 <? sleeping t then set_sleeping (sleeping t - 1) t else t) else t) <$> h !! p.

Lemma count_down_spec n (h : heap) a l cur :
  seg ThreadQ h a l 0 -> NoDup l -> 0 ∉ l -> cur ∉ l -> (length l <= n)%nat ->
  exists h', count_down n h (List.hd 0 l) cur = Ret h' /\ lowered l h h'.
Proof.
  revert n h a. induction l as [|p l IH]; intros n h a Hs Hnd H0 Hc Hn.
  - exists h. split; [by destruct n|]. intros p. destruct (h !! p); [|done].
    cbn [fmap option_fmap option_map]. destruct (decide _); [set_solver|done].
  - destruct Hs as [(t & Ht & Hl) Hs]. apply NoDup_cons in Hnd as [Hp Hnd].
    simpl length in Hn. destruct n as [|n]; [lia|]. simpl List.hd. simpl count_down.
    assert (p <> 0 /\ p <> cur) as [Hp0 Hpc] by set_solver.
    destruct (Z.eqb_spec p 0), (Z.eqb_spec p cur); try done. cbn [orb].
    rewrite (deref_eq h p t) by done. cbn [mbind outcome_bind].
    change (q_links t) with (@get_links ThreadQ t). rewrite Hl. cbn [next].
    set (t1 := if 0 <? sleeping t then set_sleeping (sleeping t - 1) t else t).
    assert ((if 0 <? sleeping t then <[p := set_sleeping (sleeping t - 1) t]> h else h) = <[p := t1]> h) as ->.
    { unfold t1. destruct (0 <? sleeping t); [done|]. by rewrite insert_id. }
    destruct (IH n (<[p := t1]> h) p) as (h' & E & Hlow); [by apply seg_insert_ne|done|set_solver|set_solver|lia|].
    exists h'. split; [exact E|]. intros x. rewrite Hlow. destruct (decide (x = p)) as [->|Hne].
    + rewrite lookup_insert_eq, Ht. simpl. rewrite decide_False by done. rewrite decide_True by set_solver.
      done.
    + rewrite lookup_insert_ne by done. destruct (h !! x); [|done]. simpl. f_equal.
      destruct (decide (x ∈ l)); [rewrite decide_True by set_solver|rewrite decide_False by set_solver]; done.
Qed.

Lemma lowered_links F l (h h' : heap) q lq :
  (forall v t, @get_links F (set_sleeping v t) = @get_links F t) ->
  lowered l h h' -> rep F h q lq -> rep F h' q lq.
Proof.
  intros Hg Hl [H1 H2 H3 H4 H5]. split; try done. eapply seg_mono; [|done].
  intros p t Hp Ht. rewrite (Hl p), Ht. simpl. eexists. split; [done|].
  destruct (decide _); [destruct (0 <? sleeping t)|]; by rewrite ?Hg.
Qed.

(** ** Claims *)

(** Every hundredth tick the clock advances by exactly one second, the six
    digits handed to the screen spell its hours, minutes and seconds, and the
    minutes and seconds stay below 60; on other ticks only the tick counter
    moves. *)
Theorem timer_handler_clock c k l :
  clock_ok c -> hours c < 2 ^ 16 - 1 -> scheduled k (currentThread k) l ->
  exists c' k' out, timer_handler c k = Ret (c', k', out) /\ clock_ok c' /\
    total_ticks c' = u16 (total_ticks c + 1) /\
    if total_ticks c' mod 100 =? 0
    then seconds c' = seconds c + 1 /\ digits_ok c' /\ out = Some (shown c')
    else seconds c' = seconds c /\ k' = k /\ out = None.
Proof.
  intros Hok Hh HS. pose proof Hok as (Ht & Hs & Hm & Hh0). unfold timer_handler.
  assert (0 <= u16 (total_ticks c + 1) < 2 ^ 16) as Hr by (apply (uwrap_range 16); lia).
  destruct (u16 (total_ticks c + 1) mod 100 =? 0) eqn:E.
  - destruct (count_down_spec (size (threads k)) (threads k) 0 l (currentThread k)) as (h' & Eh & _);
      [apply HS|apply HS|apply HS|apply HS|eapply queue_length; apply HS|].
    rewrite (rep_head _ _ _ _ (sched_rep _ _ _ HS)), Eh. cbn [mbind outcome_bind].
    set (c1 := Clock _ _ _ _ _ _ _ _ _ _).
    destruct (advance_spec c1) as (A1 & A2 & A3 & A4); [split; [exact Hr|]; split; [exact Hs|]; split; [exact Hm|exact Hh0]|done|].
    eexists _, _, _. split; [reflexivity|]. rewrite A4. cbn [total_ticks c1]. rewrite E. split_and!; done.
  - eexists _, _, _. split; [reflexivity|]. cbn [total_ticks]. rewrite E. split_and!; try done; lia.
Qed.

Example timer_handler_clock_witness :
  exists c' k' out, timer_handler (Clock 99 59 59 3 9 5 9 5 3 0) demo_kernel = Ret (c', k', out) /\
    seconds c' = 4 * 3600 /\ out = Some [0; 0; 0; 0; 4; 0].
Proof.
  destruct (timer_handler_clock (Clock 99 59 59 3 9 5 9 5 3 0) demo_kernel [0x2000; 0x3000])
    as (c' & k' & out & E & _); [by_computation|by_computation|exact demo_scheduled|].
  exists c', k', out. split; [exact E|]. injection E as <- <- <-. split; vm_compute; reflexivity.
Defined.

(** At a second's tick every queued sleeping thread's count goes down by one
    and no other thread changes, the queue keeps its order, and a thread whose
    count reaches zero is ready again if it is alive. *)
Theorem timer_handler_wakes c k l p t :
  scheduled k (currentThread k) l -> u16 (total_ticks c + 1) mod 100 = 0 ->
  p ∈ l -> threads k !! p = Some t -> 0 < sleeping t ->
  exists c' k' out t', timer_handler c k = Ret (c', k', out) /\
    scheduled k' (currentThread k) l /\ threads k' !! p = Some t' /\ sleeping t' = sleeping t - 1 /\
    (forall x, x ∉ l -> threads k' !! x = threads k !! x) /\
    (sleeping t = 1 -> alive t = true -> is_ready (threads k') p = true).
Proof.
  intros HS Et Hp Hpt Hsl. pose proof HS as [Hr _ Hout Hc0 Hlive]. unfold timer_handler. rewrite Et, Z.eqb_refl.
  destruct (count_down_spec (size (threads k)) (threads k) 0 l (currentThread k)) as (h' & Eh & Hlow);
    [apply Hr|apply Hr|apply Hr|done|by eapply queue_length|].
  rewrite (rep_head _ _ _ _ Hr), Eh. cbn [mbind outcome_bind].
  pose proof (Hlow p) as Hlp. rewrite Hpt in Hlp. simpl in Hlp. rewrite decide_True in Hlp by done.
  destruct (Z.ltb_spec 0 (sleeping t)); [|lia].
  eexists _, _, _, _. split; [reflexivity|]. split_and!.
  - split; cbn; try done; [by apply (lowered_links ThreadQ l (threads k))|].
    rewrite (Hlow (currentThread k)). destruct Hlive as [tc ->]. by eexists.
  - exact Hlp.
  - done.
  - intros x Hx. cbn. rewrite (Hlow x). destruct (threads k !! x); [|done]. simpl.
    by rewrite decide_False.
  - intros H1 Hal. unfold is_ready. cbn. rewrite Hlp. unfold ready. cbn. by rewrite H1, Hal.
Qed.

Example timer_handler_wakes_witness :
  exists c' k' out t', timer_handler (Clock 199 1 0 0 1 0 0 0 0 0) demo_kernel = Ret (c', k', out) /\
    threads k' !! 0x2000 = Some t' /\ sleeping t' = 6.
Proof.
  destruct (timer_handler_wakes (Clock 199 1 0 0 1 0 0 0 0 0) demo_kernel [0x2000; 0x3000] 0x2000
    (demo_thread (Links 0 0x3000) (Links 0x1000 0x3000) 7)) as (c' & k' & out & t' & E & _ & Hp & Hs & _);
    [exact demo_scheduled|reflexivity|by_computation|reflexivity|by_computation|].
  exists c', k', out, t'. split; [exact E|]. split; [exact Hp|exact Hs].
Defined.

(** The clock over [n] ticks with nothing queued. *)
Definition idle_kernel : kernel := with_runQueue demo_kernel (Queue 0 0).
Definition run_clock (n : nat) (c : clock) : outcome clock :=
  for_loop n 0 (fun _ c => r ← timer_handler c idle_kernel; Ret r.1.1) c.

(** The tick counter has 16 bits and wraps at a number that is no multiple of
    100, so 65536 ticks (655 seconds and 36 ticks) advance the clock by 656
    seconds, and the same again in every cycle of the counter. *)
Theorem clock_runs_fast :
  seconds <$> run_clock (Z.to_nat 65536) clock_start = Ret 656 /\
  seconds <$> run_clock (Z.to_nat (2 * 65536)) clock_start = Ret 1312.
Proof. split; vm_compute; reflexivity. Qed.

(** For every rate from 19 Hz up to the chip's own, the two bytes sent to the
    timer's data port are the low and high halves of the divisor. *)
Theorem timer_setup_divisor hz :
  19 <= hz <= 1193180 ->
  exists lsb msb, timer_setup hz = [(0x43, 0x36); (0x40, lsb); (0x40, msb)] /\
    0 <= lsb < 256 /\ 0 <= msb < 256 /\ lsb + 256 * msb = 1193180 / hz.
Proof.
  intros Hhz. unfold timer_setup. rewrite Z.quot_div_nonneg by lia.
  set (n := 1193180 / hz).
  assert (0 <= n < 2 ^ 16) as Hn.
  { split; [apply Z.div_pos; lia|]. apply Z.div_lt_upper_bound; lia. }
  change 0xFF with (Z.ones 8). rewrite Z.land_ones, Z.shiftr_div_pow2 by lia.
  assert (0 <= n / 2 ^ 8 < 2 ^ 8) by (split; [apply Z.div_pos|apply Z.div_lt_upper_bound]; lia).
  pose proof (Z.mod_pos_bound n (2 ^ 8)). pose proof (Z.div_mod n (2 ^ 8)).
  exists (n mod 2 ^ 8), (n / 2 ^ 8). rewrite !uwrap_small by lia. split_and!; (done || lia).
Qed.

Example timer_setup_divisor_witness :
  exists lsb msb, timer_setup 100 = [(0x43, 0x36); (0x40, lsb); (0x40, msb)] /\ lsb + 256 * msb = 11931.
Proof.
  destruct (timer_setup_divisor 100) as (lsb & msb & E & _ & _ & H); [split; vm_compute; congruence|].
  exists lsb, msb. split; [exact E|exact H].
Defined.
