(* ===== verification/CString.v ===== *)
(** * Strings and memory (sys/stdfns.c, libc/stdlib.c)

    The C library functions the kernel and the user programs each define for
    themselves, with one body: numbers to text and back, lengths,
    comparisons, searches, copies.  Memory is a function from byte addresses
    to bytes 0..255; a loop over a string takes a bound on its length. *)

From S2P Require Import Prelude.

Abbreviation bytes := (Z -> Z).

Definition store8 (m : bytes) (a v : Z) : bytes := fun x => if x =? a then v else m x.

(** [cstr m p s]: the bytes [s], none of them zero, lie at [p], followed by a
    zero byte. *)
Definition cstr (m : bytes) (p : Z) (s : list Z) : Prop :=
  (forall i c, s !! i = Some c -> m (p + Z.of_nat i) = c) /\ Forall (fun c => 0 < c < 256) s /\
  m (p + Z.of_nat (length s)) = 0.

(** ** Operations *)

Definition digit (d : Z) : Z := if d <? 10 then 48 + d else 87 + d.

(** The digit loop of [convert]: [*--ptr = "0123456789abcdef"[num%base];
    num /= base;] while [num] is not zero, in the 65-byte buffer. *)
Fixpoint convert_loop (n : nat) (buf : list Z) (ptr num base : Z) : outcome (list Z * Z) :=
  match n with
  | O => Loops
  | S n =>
    let ptr := ptr - 1 in
    if 16 <=? num mod base then Undef else
    buf ← array_set buf ptr (digit (num mod base));
    let num := num / base in
    if num =? 0 then Ret (buf, ptr) else convert_loop n buf ptr num base
  end.

(** The static buffer keeps its old contents; the result is the buffer and the
    index of the first digit. *)
Definition convert (buf : list Z) (num base : Z) : outcome (list Z * Z) :=
  if u64 base =? 0 then Undef else
  buf ← array_set buf 64 0;
  convert_loop 65 buf 64 num (u64 base).

(** libc's copy takes the base as a 16-bit number. *)
Definition convert_u (buf : list Z) (num base : Z) : outcome (list Z * Z) := convert buf num (u16 base).

Fixpoint memset (n : nat) (m : bytes) (s c : Z) : bytes :=
  match n with
  | O => m
  | S n => memset n (store8 m s c) (s + 1) c
  end.

Fixpoint memcpy (n : nat) (m : bytes) (dest src : Z) : bytes :=
  match n with
  | O => m
  | S n => memcpy n (store8 m dest (m src)) (dest + 1) (src + 1)
  end.

(** [strncpy] copies [size] bytes, whatever they are. *)
Definition strncpy (m : bytes) (dest src size : Z) : bytes := memcpy (Z.to_nat size) m dest src.

Fixpoint strlen_from (n : nat) (m : bytes) (p length : Z) : outcome Z :=
  if m p =? 0 then Ret length else
  match n with
  | O => Loops
  | S n => strlen_from n m (p + 1) (s32 (length + 1))
  end.
Definition strlen (n : nat) (m : bytes) (s : Z) : outcome Z := strlen_from n m s 0.

Fixpoint strcmp_from (n : nat) (m : bytes) (a b i : Z) : outcome Z :=
  if m (a + i) =? 0 then Ret 0 else
  if m (a + i) =? m (b + i) then
    match n with O => Loops | S n => strcmp_from n m a b (i + 1) end
  else Ret 1.
Definition strcmp (n : nat) (m : bytes) (a b : Z) : outcome Z :=
  len1 ← strlen n m a;
  len2 ← strlen n m b;
  if negb (len1 =? len2) then Ret 1 else strcmp_from n m a b 0.

(** Returns the address, 0 standing for a null pointer. *)
Fixpoint strchr (n : nat) (m : bytes) (s c : Z) : outcome Z :=
  if m s =? u8 c then Ret s else
  if m s =? 0 then Ret 0 else
  match n with O => Loops | S n => strchr n m (s + 1) c end.

Fixpoint strcpsn_from (n k : nat) (m : bytes) (s1 s2 ret : Z) : outcome Z :=
  if m s1 =? 0 then Ret ret else
  r ← strchr k m s2 (m s1);
  if negb (r =? 0) then Ret ret else
  match n with O => Loops | S n => strcpsn_from n k m (s1 + 1) s2 (s32 (ret + 1)) end.
Definition strcpsn (n : nat) (m : bytes) (s1 s2 : Z) : outcome Z := strcpsn_from n n m s1 s2 0.

(** [res = res*radix + (str[i] - '0')] in 32 bits; a byte above 127 is a negative
    [char].  The 16-bit index of the loop is kept by the bound [n]. *)
Fixpoint number_from (n : nat) (m : bytes) (radix p res : Z) : outcome Z :=
  if m p =? 0 then Ret res else
  match n with
  | O => Loops
  | S n => number_from n m radix (p + 1) (u32 (res * radix + (s8 (m p) - 48)))
  end.
Definition INDEX_RANGE : nat := Z.to_nat 65535.
Definition my_atoi (m : bytes) (str : Z) : outcome Z := number_from INDEX_RANGE m 10 str 0.
Definition my_atool (m : bytes) (str : Z) : outcome Z := number_from INDEX_RANGE m 8 str 0.

(** ** Strings in memory *)

Lemma cstr_nil m p : cstr m p [] -> m p = 0.
Proof. intros (_ & _ & H). simpl in H. by rewrite Z.add_0_r in H. Qed.

Lemma cstr_cons m p c s : cstr m p (c :: s) -> m p = c /\ 0 < c < 256 /\ cstr m (p + 1) s.
Proof.
  intros (Hb & Hf & He). apply Forall_cons in Hf as [Hc Hf]. split_and!; [|lia|lia|].
  - specialize (Hb 0%nat c eq_refl). by rewrite Z.add_0_r in Hb.
  - split_and!; [|done|].
    + intros i x Hi. rewrite <- (Hb (S i) x Hi). f_equal. lia.
    + rewrite <- He. f_equal. simpl length. lia.
Qed.

Lemma strlen_from_spec n m p s k :
  cstr m p s -> (length s <= n)%nat -> 0 <= k -> k + Z.of_nat (length s) < 2 ^ 31 ->
  strlen_from n m p k = Ret (k + Z.of_nat (length s)).
Proof.
  revert n p k. induction s as [|c s IH]; intros n p k Hs Hn Hk Hfit.
  - rewrite Z.add_0_r. destruct n; simpl; by rewrite (cstr_nil m p Hs).
  - destruct (cstr_cons m p c s Hs) as (Hp & Hc & Hs'). simpl length in *. destruct n as [|n]; [lia|].
    simpl. rewrite Hp. destruct (Z.eqb_spec c 0); [lia|]. rewrite swrap_small by lia.
    rewrite (IH n) by (done || lia). f_equal. lia.
Qed.

Lemma strcmp_from_spec n m a b s1 s2 i t :
  cstr m (a + i) s1 -> cstr m (b + i) s2 -> length s1 = length s2 -> (length s1 <= n)%nat ->
  t = (if decide (s1 = s2) then 0 else 1) -> strcmp_from n m a b i = Ret t.
Proof.
  revert n s2 i t. induction s1 as [|c s1 IH]; intros n s2 i t H1 H2 Hlen Hn Ht.
  - destruct s2; [|done]. rewrite decide_True in Ht by done. subst t.
    destruct n; simpl; by rewrite (cstr_nil m _ H1).
  - destruct s2 as [|d s2]; [done|]. simpl in Hlen, Hn.
    destruct (cstr_cons m _ c s1 H1) as (Hp1 & Hc & H1').
    destruct (cstr_cons m _ d s2 H2) as (Hp2 & Hd & H2'). destruct n as [|n]; [lia|].
    simpl. rewrite Hp1, Hp2. destruct (Z.eqb_spec c 0); [lia|].
    destruct (Z.eqb_spec c d) as [->|Hne].
    + apply (IH n s2); [by replace (a + (i + 1)) with (a + i + 1) by lia|
        by replace (b + (i + 1)) with (b + i + 1) by lia|lia|lia|].
      subst t. destruct (decide (s1 = s2)) as [->|]; [by rewrite decide_True|].
      rewrite decide_False; [done|]. by intros [= ?].
    + subst t. rewrite decide_False; [done|]. by intros [= ? ?].
Qed.

Lemma strchr_spec n m p s c :
  cstr m p s -> (length s <= n)%nat -> 0 < c < 256 ->
  strchr n m p c = Ret (match list_find (.= c) s with Some (i, _) => p + Z.of_nat i | None => 0 end).
Proof.
  revert n p. induction s as [|d s IH]; intros n p Hs Hn Hc.
  - destruct n; simpl; rewrite (cstr_nil m p Hs), uwrap_small by lia;
      (destruct (Z.eqb_spec 0 c); [lia|done]).
  - destruct (cstr_cons m p d s Hs) as (Hp & Hd & Hs'). simpl in Hn. destruct n as [|n]; [lia|].
    simpl. rewrite Hp, uwrap_small by lia. destruct (Z.eqb_spec d c) as [->|Hne].
    + rewrite decide_True by done. f_equal. simpl. lia.
    + rewrite decide_False by done. destruct (Z.eqb_spec d 0); [lia|].
      rewrite (IH n) by (done || lia). destruct (list_find (.= c) s) as [[i x]|]; simpl; f_equal; lia.
Qed.

(** ** Numbers to text *)

(** The number a list of digits stands for. *)
Definition value (base : Z) (ds : list Z) : Z := fold_left (fun r d => r * base + d) ds 0.

(** Digits of [num] without superfluous zeros in front. *)
Definition digits_of (base num : Z) (ds : list Z) : Prop :=
  value base ds = num /\ Forall (fun d => 0 <= d < base) ds /\ ds <> [] /\
  (List.hd 0 ds = 0 -> ds = [0]).

Lemma value_snoc base ds d : value base (ds ++ [d]) = value base ds * base + d.
Proof. unfold value. by rewrite fold_left_app. Qed.

Lemma drop_insert_pred {A} (l : list A) (i : nat) x :
  (i < length l)%nat -> drop i (<[i := x]> l) = x :: drop (S i) l.
Proof.
  intros Hi. rewrite (drop_S (<[i := x]> l) x) by (by apply list_lookup_insert_eq).
  by rewrite drop_insert_lt by lia.
Qed.

Lemma convert_loop_spec n f buf ptr num base :
  2 <= base <= 16 -> length buf = 65%nat -> 0 <= num < base ^ Z.of_nat n -> (n <= f)%nat -> (0 < n)%nat ->
  Z.of_nat n <= ptr <= 64 ->
  exists buf' p ds, convert_loop f buf ptr num base = Ret (buf', p) /\ length buf' = 65%nat /\
    0 <= p < ptr /\ digits_of base num ds /\
    drop (Z.to_nat p) buf' = (digit <$> ds) ++ drop (Z.to_nat ptr) buf.
Proof.
  revert f buf ptr num. induction n as [|n IH]; intros f buf ptr num Hb Hl Hnum Hf Hn Hptr; [lia|].
  destruct f as [|f]; [lia|]. simpl convert_loop.
  pose proof (Z.mod_pos_bound num base). destruct (Z.leb_spec 16 (num mod base)); [lia|].
  rewrite array_set_lt by lia. cbn [mbind outcome_bind].
  set (d := num mod base). set (buf1 := <[_ := _]> buf).
  assert (length buf1 = 65%nat) as Hl1 by (unfold buf1; by rewrite length_insert).
  assert (drop (Z.to_nat (ptr - 1)) buf1 = digit d :: drop (Z.to_nat ptr) buf) as Hd.
  { unfold buf1. rewrite drop_insert_pred by lia. by replace (S (Z.to_nat (ptr - 1))) with (Z.to_nat ptr) by lia. }
  pose proof (Z.div_mod num base). destruct (Z.eqb_spec (num / base) 0) as [E|E].
  - exists buf1, (ptr - 1), [d]. assert (d = num) as Ed by (unfold d; lia).
    split_and!; [done|done|lia|lia| |done].
    split_and!; [by rewrite Ed|apply Forall_singleton; lia|done|]. simpl. by intros ->.
  - assert (0 <= num / base) by (apply Z.div_pos; lia).
    rewrite Nat2Z.inj_succ, Z.pow_succ_r in Hnum by lia.
    assert (num / base < base ^ Z.of_nat n) by (apply Z.div_lt_upper_bound; lia).
    destruct n as [|n]; [simpl in *; lia|].
    destruct (IH f buf1 (ptr - 1) (num / base)) as (buf' & p & ds & -> & Hl' & Hp & (Hv & Hfa & Hne & Hlead) & Hdrop);
      try lia.
    exists buf', p, (ds ++ [d]). split_and!; [done|done|lia|lia| |].
    + split_and!; [rewrite value_snoc, Hv; unfold d; lia| | |].
      * apply Forall_app. split; [done|]. apply Forall_singleton. unfold d. lia.
      * by destruct ds.
      * intros Hz. destruct ds as [|x ds]; [done|]. simpl in Hz. specialize (Hlead Hz).
        exfalso. apply E. by rewrite <- Hv, Hlead.
    + by rewrite Hdrop, Hd, fmap_app, <- app_assoc.
Qed.

(** Base 10 digits are the characters from '0' to '9', and stay distinct from
    the terminator. *)
Lemma digit_range d : 0 <= d < 16 -> 48 <= digit d < 103 /\ (d < 10 -> digit d = 48 + d).
Proof. intros Hd. unfold digit. destruct (Z.ltb_spec d 10); lia. Qed.

Lemma number_from_spec n m radix p ds res :
  cstr m p (digit <$> ds) -> Forall (fun d => 0 <= d < 10) ds -> (length ds <= n)%nat ->
  number_from n m radix p (u32 res) = Ret (u32 (fold_left (fun r d => r * radix + d) ds res)).
Proof.
  revert n p res. induction ds as [|d ds IH]; intros n p res Hs Hfa Hn.
  - destruct n; simpl; by rewrite (cstr_nil m p Hs).
  - apply Forall_cons in Hfa as [Hd Hfa]. rewrite fmap_cons in Hs.
    destruct (cstr_cons m p _ _ Hs) as (Hp & Hc & Hs'). simpl in Hn. destruct n as [|n]; [lia|].
    simpl. rewrite Hp. destruct (digit_range d) as [Hr Hd10]; [lia|]. rewrite Hd10 in * by lia.
    destruct (Z.eqb_spec (48 + d) 0); [lia|]. rewrite swrap_small by lia.
    replace (u32 (u32 res * radix + (48 + d - 48))) with (u32 (res * radix + d)); [by apply IH; [..|lia]|].
    unfold uwrap. replace (48 + d - 48) with d by lia.
    rewrite <- (Zplus_mod_idemp_l (res mod _ * radix)), Zmult_mod_idemp_l, Zplus_mod_idemp_l. done.
Qed.

(** ** Copies *)

Lemma memset_spec n m s c a :
  memset n m s c a = if decide (s <= a < s + Z.of_nat n) then c else m a.
Proof.
  revert m s. induction n as [|n IH]; intros m s.
  - simpl. by rewrite decide_False by lia.
  - simpl memset. rewrite IH. unfold store8. destruct (Z.eqb_spec a s) as [->|Hne].
    + rewrite decide_False, decide_True by lia. done.
    + destruct (decide (s + 1 <= a < s + 1 + Z.of_nat n));
        [rewrite decide_True by lia|rewrite decide_False by lia]; done.
Qed.

(** A copy to a lower address reads only bytes it has not yet written. *)
Lemma memcpy_down n m dest src a :
  dest <= src ->
  memcpy n m dest src a = if decide (dest <= a < dest + Z.of_nat n) then m (a + (src - dest)) else m a.
Proof.
  revert m dest src. induction n as [|n IH]; intros m dest src Hd.
  - simpl. by rewrite decide_False by lia.
  - simpl memcpy. rewrite IH by lia. unfold store8.
    replace (a + (src + 1 - (dest + 1))) with (a + (src - dest)) by lia.
    destruct (Z.eqb_spec a dest) as [->|Hne].
    + rewrite decide_False, decide_True by lia. f_equal. lia.
    + destruct (decide (dest + 1 <= a < dest + 1 + Z.of_nat n)).
      * rewrite decide_True by lia. destruct (Z.eqb_spec (a + (src - dest)) dest); [lia|done].
      * by rewrite decide_False by lia.
Qed.

(** A copy between ranges that do not overlap. *)
Lemma memcpy_disjoint n m dest src a :
  dest + Z.of_nat n <= src \/ src + Z.of_nat n <= dest ->
  memcpy n m dest src a = if decide (dest <= a < dest + Z.of_nat n) then m (a + (src - dest)) else m a.
Proof.
  revert m dest src. induction n as [|n IH]; intros m dest src Hd.
  - simpl. by rewrite decide_False by lia.
  - simpl memcpy. rewrite IH by lia. unfold store8.
    replace (a + (src + 1 - (dest + 1))) with (a + (src - dest)) by lia.
    destruct (Z.eqb_spec a dest) as [->|Hne].
    + rewrite decide_False, decide_True by lia. f_equal. lia.
    + destruct (decide (dest + 1 <= a < dest + 1 + Z.of_nat n)).
      * rewrite decide_True by lia. destruct (Z.eqb_spec (a + (src - dest)) dest); [lia|done].
      * by rewrite decide_False by lia.
Qed.

(** ** Claims *)

(** [buf] lies in memory at [a]. *)
Definition buffer_at (m : bytes) (a : Z) (buf : list Z) : Prop :=
  forall i c, buf !! i = Some c -> m (a + Z.of_nat i) = c.

Lemma convert_spec buf num base :
  length buf = 65%nat -> 2 <= base <= 16 -> 0 <= num < 2 ^ 64 ->
  exists buf' p ds, convert buf num base = Ret (buf', p) /\ length buf' = 65%nat /\ 0 <= p < 64 /\
    digits_of base num ds /\ drop (Z.to_nat p) buf' = (digit <$> ds) ++ [0].
Proof.
  intros Hl Hb Hn. unfold convert. rewrite (uwrap_small 64 base) by lia.
  destruct (Z.eqb_spec base 0); [lia|]. rewrite array_set_lt by lia. cbn [mbind outcome_bind].
  assert (2 ^ 64 <= base ^ 64) as Hpow by (apply Z.pow_le_mono_l; lia).
  destruct (convert_loop_spec 64 65 (<[Z.to_nat 64 := 0]> buf) 64 num base)
    as (buf' & p & ds & -> & Hl' & Hp & Hds & Hdrop); try (rewrite ?length_insert; lia).
  exists buf', p, ds. split_and!; [done|done|lia|lia|done|]. rewrite Hdrop. f_equal.
  rewrite drop_insert_pred by lia. f_equal. apply drop_ge. lia.
Qed.

Lemma buffer_cstr m a buf p s :
  buffer_at m a buf -> drop p buf = s ++ [0] -> Forall (fun c => 0 < c < 256) s ->
  cstr m (a + Z.of_nat p) s.
Proof.
  intros Hb Hd Hs.
  assert (forall i c, (s ++ [0]) !! i = Some c -> m (a + Z.of_nat p + Z.of_nat i) = c) as Hm.
  { intros i c Hi. rewrite <- Hd, lookup_drop in Hi. rewrite <- (Hb _ _ Hi). f_equal. lia. }
  split_and!; [|done|].
  - intros i c Hi. apply Hm. by apply lookup_app_l_Some.
  - apply Hm. rewrite lookup_app_r, Nat.sub_diag by lia. done.
Qed.

(** C37: [convert] writes the digits of any 64-bit number in any base from 2 to 16
    into its 65-byte buffer without leaving it, most significant digit first,
    without leading zeros and with a terminator; and [my_atoi] reads the decimal
    form back as the number modulo 2^32. *)
Theorem convert_digits_roundtrip buf num base m a :
  length buf = 65%nat -> 2 <= base <= 16 -> 0 <= num < 2 ^ 64 ->
  exists buf' p ds, convert buf num base = Ret (buf', p) /\ 0 <= p < 64 /\ digits_of base num ds /\
    drop (Z.to_nat p) buf' = (digit <$> ds) ++ [0] /\
    (base = 10 -> buffer_at m a buf' -> my_atoi m (a + p) = Ret (u32 num)).
Proof.
  intros Hl Hb Hn. destruct (convert_spec buf num base Hl Hb Hn) as (buf' & p & ds & E & Hl' & Hp & Hds & Hd).
  exists buf', p, ds. split_and!; try done; try lia. intros -> Hm.
  destruct Hds as (Hv & Hfa & _ & _).
  assert (cstr m (a + Z.of_nat (Z.to_nat p)) (digit <$> ds)) as Hs.
  { eapply buffer_cstr; [done..|]. apply Forall_fmap. eapply Forall_impl; [exact Hfa|].
    intros d Hdr. cbn in Hdr |- *. destruct (digit_range d); lia. }
  rewrite Z2Nat.id in Hs by lia. unfold my_atoi.
  assert (length (drop (Z.to_nat p) buf') <= 65)%nat as Hlen by (rewrite length_drop; lia).
  rewrite Hd, length_app, length_fmap in Hlen. simpl in Hlen.
  change (number_from INDEX_RANGE m 10 (a + p) 0) with (number_from INDEX_RANGE m 10 (a + p) (u32 0)).
  rewrite (number_from_spec _ m 10 _ ds 0) by (done || (unfold INDEX_RANGE; lia)).
  unfold value in Hv. by rewrite Hv.
Qed.

Example convert_digits_roundtrip_witness :
  exists buf' p ds, convert (replicate 65 7) 3000000007 10 = Ret (buf', p) /\
    digits_of 10 3000000007 ds /\
    my_atoi (fun x => default 0 (buf' !! Z.to_nat x)) (0 + p) = Ret 3000000007.
Proof.
  destruct (convert_digits_roundtrip (replicate 65 7) 3000000007 10
    (fun x => default 0 (returned [] (fst <$> convert (replicate 65 7) 3000000007 10) !! Z.to_nat x)) 0)
    as (buf' & p & ds & E & _ & Hds & _ & Hm); [reflexivity|split; vm_compute; congruence..|].
  exists buf', p, ds. split; [exact E|]. split; [exact Hds|].
  rewrite E in Hm. cbn [fmap outcome_fmap returned fst] in Hm. apply Hm; [reflexivity|].
  intros i c Hi. rewrite Z.add_0_l, Nat2Z.id, Hi. reflexivity.
Defined.

Lemma strcmp_spec n m a b s1 s2 :
  cstr m a s1 -> cstr m b s2 -> (length s1 <= n)%nat -> (length s2 <= n)%nat -> Z.of_nat n < 2 ^ 31 ->
  strcmp n m a b = Ret (if decide (s1 = s2) then 0 else 1).
Proof.
  intros H1 H2 Hn1 Hn2 Hn. unfold strcmp, strlen.
  rewrite (strlen_from_spec n m a s1) by (done || lia).
  rewrite (strlen_from_spec n m b s2) by (done || lia). cbn [mbind outcome_bind]. rewrite !Z.add_0_l.
  destruct (Z.eqb_spec (Z.of_nat (length s1)) (Z.of_nat (length s2))) as [E|E]; cbn [negb].
  - apply (strcmp_from_spec n m a b s1 s2); rewrite ?Z.add_0_r; (done || lia).
  - rewrite decide_False; [done|]. intros ->. done.
Qed.

(** [strcmp] decides equality of C strings: 0 for equal ones and 1 for all
    others, whatever their lengths; it never reports an order. *)
Theorem strcmp_decides_equality n m a b s1 s2 :
  cstr m a s1 -> cstr m b s2 -> (length s1 <= n)%nat -> (length s2 <= n)%nat -> Z.of_nat n < 2 ^ 31 ->
  strcmp n m a b = Ret (if decide (s1 = s2) then 0 else 1).
Proof. apply strcmp_spec. Qed.

Definition two_strings : bytes := fun a =>
  if a =? 100 then 97 else if a =? 101 then 98 else if a =? 200 then 97 else if a =? 201 then 99 else 0.

Example strcmp_decides_equality_witness :
  strcmp 10 two_strings 100 200 = Ret (if decide ([97; 98] = [97; 99]) then 0 else 1).
Proof.
  apply (strcmp_decides_equality 10 two_strings 100 200 [97; 98] [97; 99]); [| |simpl; lia|simpl; lia|lia].
  - split; [|split; [by_computation|reflexivity]].
    intros [|[|i]] c H; [injection H as <-; reflexivity|injection H as <-; reflexivity|discriminate].
  - split; [|split; [by_computation|reflexivity]].
    intros [|[|i]] c H; [injection H as <-; reflexivity|injection H as <-; reflexivity|discriminate].
Defined.
