(* ===== verification/Memory.v ===== *)
(** * Little-endian values in byte memory

    C structures in the kernel's byte memory: values of a few bytes at an
    address, regions that do not overlap, and copies between them.  Shared by
    the disk, file-system and program-loading components. *)

From S2P Require Import Prelude CString.

(** ** Loads and stores *)

(** The [n]-byte little-endian value at [a]. *)
Fixpoint load_le (n : nat) (m : bytes) (a : Z) : Z :=
  match n with
  | O => 0
  | S n => m a + 256 * load_le n m (a + 1)
  end.

Definition store_le (n : Z) (m : bytes) (a v : Z) : bytes :=
  fun x => if (a <=? x) && (x <? a + n) then v / 256 ^ (x - a) mod 256 else m x.

Abbreviation load32 := (load_le 4).
Abbreviation load64 := (load_le 8).
Abbreviation store32 := (store_le 4).
Abbreviation store64 := (store_le 8).

(** All bytes are bytes. *)
Definition bytes_ok (m : bytes) : Prop := forall a, 0 <= m a < 256.

(** [m'] agrees with [m] on the [n] bytes from [a]. *)
Definition same_bytes (m m' : bytes) (a n : Z) : Prop := forall x, a <= x < a + n -> m' x = m x.

(** Two regions do not overlap. *)
Definition apart (a n b k : Z) : Prop := a + n <= b \/ b + k <= a.

#[export] Instance apart_dec a n b k : Decision (apart a n b k).
Proof. unfold apart. apply _. Defined.

(** ** Lemmas *)

Lemma store_le_in n m a v x :
  a <= x < a + n -> store_le n m a v x = v / 256 ^ (x - a) mod 256.
Proof. intros H. unfold store_le. by rewrite (proj2 (Z.leb_le _ _)), (proj2 (Z.ltb_lt _ _)) by lia. Qed.

Lemma store_le_out n m a v x : ~ (a <= x < a + n) -> store_le n m a v x = m x.
Proof.
  intros H. unfold store_le. destruct (Z.leb_spec a x), (Z.ltb_spec x (a + n)); simpl; done || lia.
Qed.

Lemma store_le_ok n m a v : bytes_ok m -> bytes_ok (store_le n m a v).
Proof.
  intros Hm x. unfold store_le. destruct (_ && _); [|done]. by apply Z.mod_pos_bound.
Qed.

Lemma store8_ok m a v : bytes_ok m -> 0 <= v < 256 -> bytes_ok (store8 m a v).
Proof. intros Hm Hv x. unfold store8. by destruct (x =? a). Qed.

Lemma memset_ok n m s c : bytes_ok m -> 0 <= c < 256 -> bytes_ok (memset n m s c).
Proof. intros Hm Hc x. rewrite memset_spec. by destruct (decide _). Qed.

Lemma memcpy_ok n m d s : bytes_ok m -> bytes_ok (memcpy n m d s).
Proof.
  revert m d s. induction n as [|n IH]; intros m d s Hm; [done|]. simpl.
  apply IH. by apply store8_ok.
Qed.

Lemma load_le_range n m a : bytes_ok m -> 0 <= load_le n m a < 256 ^ Z.of_nat n.
Proof.
  intros Hm. revert a. induction n as [|n IH]; intros a; [simpl; lia|].
  simpl load_le. rewrite Nat2Z.inj_succ, Z.pow_succ_r by lia.
  specialize (IH (a + 1)). specialize (Hm a). lia.
Qed.

Lemma load_le_agree n m m' a : same_bytes m m' a (Z.of_nat n) -> load_le n m' a = load_le n m a.
Proof.
  revert a. induction n as [|n IH]; intros a H; [done|]. simpl. f_equal; [apply H; lia|].
  f_equal. apply IH. intros x Hx. apply H. lia.
Qed.

(** The same bytes at another address. *)
Lemma load_le_shift n m m' a b :
  (forall i, 0 <= i < Z.of_nat n -> m' (b + i) = m (a + i)) -> load_le n m' b = load_le n m a.
Proof.
  revert a b. induction n as [|n IH]; intros a b H; [done|]. simpl. f_equal.
  - specialize (H 0). rewrite !Z.add_0_r in H. apply H. lia.
  - f_equal. apply IH. intros i Hi. rewrite <- !Z.add_assoc. replace (1 + i) with (i + 1) by lia.
    rewrite <- !(Z.add_comm 1). replace (1 + i) with (i + 1) by lia. apply H. lia.
Qed.

Lemma load_le_digits n m a v :
  0 <= v -> (forall i, 0 <= i < Z.of_nat n -> m (a + i) = v / 256 ^ i mod 256) ->
  load_le n m a = v mod 256 ^ Z.of_nat n.
Proof.
  revert a v. induction n as [|n IH]; intros a v Hv H; [simpl; by rewrite Z.mod_1_r|].
  simpl load_le. rewrite (IH (a + 1) (v / 256)).
  - specialize (H 0). rewrite Z.add_0_r, Z.pow_0_r, Z.div_1_r in H. rewrite H by lia.
    rewrite Nat2Z.inj_succ, Z.pow_succ_r by lia. rewrite Z.rem_mul_r by lia. lia.
  - by apply Z.div_pos.
  - intros i Hi. rewrite <- Z.add_assoc, (Z.add_comm 1), (H (i + 1)) by lia.
    by rewrite Z.div_div, <- Z.pow_succ_r by lia.
Qed.

Lemma load_le_zero n m a : (forall k, 0 <= k < Z.of_nat n -> m (a + k) = 0) -> load_le n m a = 0.
Proof.
  intros H. rewrite (load_le_digits n m a 0); [done|lia|]. intros i Hi. by rewrite H, Z.div_0_l by lia.
Qed.

Lemma load_store_le n m a v :
  0 <= v -> load_le n (store_le (Z.of_nat n) m a v) a = v mod 256 ^ Z.of_nat n.
Proof.
  intros Hv. apply load_le_digits; [done|]. intros i Hi. rewrite store_le_in by lia.
  by replace (a + i - a) with i by lia.
Qed.

Lemma load_store_le_other n m a v k b :
  apart a k b (Z.of_nat n) -> load_le n (store_le k m a v) b = load_le n m b.
Proof. intros H. apply load_le_agree. intros x Hx. apply store_le_out. unfold apart in H. lia. Qed.

Lemma memcpy_apart n m d s x :
  apart d (Z.of_nat n) s (Z.of_nat n) ->
  memcpy n m d s x = if decide (d <= x < d + Z.of_nat n) then m (x + (s - d)) else m x.
Proof. intros H. by apply memcpy_disjoint. Qed.

Lemma cstr_same m m' p s : cstr m p s -> same_bytes m m' p (Z.of_nat (length s) + 1) -> cstr m' p s.
Proof.
  intros (Hb & Hf & He) Hs. split_and!; [|done|].
  - intros i c Hi. rewrite Hs; [by apply Hb|]. apply lookup_lt_Some in Hi. lia.
  - rewrite Hs; [done|lia].
Qed.

Lemma same_bytes_trans m m1 m2 a n :
  same_bytes m m1 a n -> same_bytes m1 m2 a n -> same_bytes m m2 a n.
Proof. intros H1 H2 x Hx. by rewrite H2, H1. Qed.

Lemma same_bytes_sub m m' a n b k : same_bytes m m' a n -> a <= b -> b + k <= a + n -> same_bytes m m' b k.
Proof. intros H H1 H2 x Hx. apply H. lia. Qed.

(** ** Strings of bounded length *)

(** Iterations the models allow a loop over a string. *)
Definition STRING_BOUND : nat := Z.to_nat 65536.

Lemma STRING_BOUND_eq : Z.of_nat STRING_BOUND = 65536.
Proof. unfold STRING_BOUND. lia. Qed.

Lemma strlen_spec n m p s :
  cstr m p s -> (length s <= n)%nat -> Z.of_nat (length s) < 2 ^ 31 -> strlen n m p = Ret (Z.of_nat (length s)).
Proof. intros Hs Hn Hl. unfold strlen. rewrite (strlen_from_spec n m p s) by (done || lia). done. Qed.

Lemma strlen_bounded m p s :
  cstr m p s -> (length s <= STRING_BOUND)%nat -> strlen STRING_BOUND m p = Ret (Z.of_nat (length s)).
Proof. intros Hs Hl. pose proof STRING_BOUND_eq. apply strlen_spec; [exact Hs|exact Hl|lia]. Qed.

Lemma strcmp_bounded m a b s1 s2 :
  cstr m a s1 -> cstr m b s2 -> (length s1 <= STRING_BOUND)%nat -> (length s2 <= STRING_BOUND)%nat ->
  strcmp STRING_BOUND m a b = Ret (if decide (s1 = s2) then 0 else 1).
Proof.
  intros H1 H2 Hl1 Hl2. pose proof STRING_BOUND_eq.
  apply strcmp_spec; [exact H1|exact H2|exact Hl1|exact Hl2|lia].
Qed.

(** ** Memories given by lists *)

(** [m] with the bytes [l] written at [a]. *)
Definition patch (m : bytes) (a : Z) (l : list Z) : bytes := fun x =>
  if (a <=? x) && (x <? a + Z.of_nat (length l)) then default 0 (l !! Z.to_nat (x - a)) else m x.

Lemma patch_out m a l x : apart x 1 a (Z.of_nat (length l)) -> patch m a l x = m x.
Proof.
  intros H. unfold apart in H. unfold patch.
  destruct (Z.leb_spec a x), (Z.ltb_spec x (a + Z.of_nat (length l))); simpl; done || lia.
Qed.

Lemma cstr_patch m a l p s :
  Forall (fun c => 0 < c < 256) s -> a <= p -> Z.of_nat (length s) + 1 + p <= a + Z.of_nat (length l) ->
  (forall k, (k <= length s)%nat -> l !! (Z.to_nat (p - a) + k)%nat = (s ++ [0]) !! k) -> cstr (patch m a l) p s.
Proof.
  intros Hf Hap Hlen Hk.
  assert (forall k c, (k <= length s)%nat -> (s ++ [0]) !! k = Some c -> patch m a l (p + Z.of_nat k) = c) as Hp.
  { intros k c Hk' Hc. unfold patch. rewrite (proj2 (Z.leb_le _ _)), (proj2 (Z.ltb_lt _ _)) by lia. simpl.
    replace (Z.to_nat (p + Z.of_nat k - a)) with (Z.to_nat (p - a) + k)%nat by lia. by rewrite Hk, Hc. }
  split_and!; [|done|].
  - intros k c Hc. apply Hp; [apply lookup_lt_Some in Hc; lia|]. by apply lookup_app_l_Some.
  - apply Hp; [done|]. rewrite lookup_app_r, Nat.sub_diag by lia. done.
Qed.

(** A check for strings in such a memory. *)
Fixpoint cstr_check (m : bytes) (p : Z) (s : list Z) : bool :=
  match s with
  | [] => m p =? 0
  | c :: s => (m p =? c) && (0 <? c) && (c <? 256) && cstr_check m (p + 1) s
  end.

Lemma cstr_intro m p c s : m p = c -> 0 < c < 256 -> cstr m (p + 1) s -> cstr m p (c :: s).
Proof.
  intros Hp Hc (Hb & Hf & He). split_and!; [|by constructor|].
  - intros [|i] x Hi; [injection Hi as <-; by rewrite Z.add_0_r|]. rewrite <- (Hb i x Hi). f_equal. lia.
  - rewrite <- He. f_equal. simpl length. lia.
Qed.

Lemma cstr_check_sound m p s : cstr_check m p s = true -> cstr m p s.
Proof.
  revert p. induction s as [|c s IH]; intros p H; simpl in H.
  - apply Z.eqb_eq in H. split_and!; [done|done|]. simpl. by rewrite Z.add_0_r.
  - rewrite !andb_true_iff, Z.eqb_eq, !Z.ltb_lt in H. destruct H as [[[Hp H0] H256] H].
    apply cstr_intro; [done|lia|by apply IH].
Qed.
