(* ===== verification/TarFs.v ===== *)
(** * The boot archive and the program loader (sys/elf.c, include/elf.h,
      include/sys/tarfs.h)

    Walking the tar archive linked into the kernel, opening and reading its
    files, the directory tree built from it, and the segments of an executable.
    Memory is the byte memory of CString.v; headers, tree nodes and ELF
    structures are read and written at their C offsets. *)

From S2P Require Import Prelude CString Memory Bitmap PageEntry Paging KHeap.

(** ** State *)

(** Addresses the linker chooses: the archive, the globals [rootfs], [files] and
    [file_used], and the string ["home"]. *)
Record tar_layout := TarLayout {
  binary_tarfs_start : Z; binary_tarfs_end : Z;
  rootfs : Z; files : Z; file_used : Z; home_string : Z
}.

Record tarfs := Tarfs { tar_mem : bytes; pwd : Z; file_count : Z; tar_heap : MyAlloc.kheap }.
Definition with_tar_mem (st : tarfs) (m : bytes) : tarfs := Tarfs m (pwd st) (file_count st) (tar_heap st).
Definition with_pwd (st : tarfs) (p : Z) : tarfs := Tarfs (tar_mem st) p (file_count st) (tar_heap st).

(** [struct posix_header_ustar]: the name first, the size at 124, 512 bytes. *)
Definition USTAR_SIZE : Z := 512.
Definition header_size (m : bytes) (header : Z) : outcome Z := my_atool m (header + 124).

(** [struct fs_tree]: a name of 50 bytes, 30 pointers, a count. *)
Definition TREE_SIZE : Z := 304.
Definition no_child (m : bytes) (t : Z) : Z := s32 (load32 m (t + 296)).
Definition child_ptr (t i : Z) : outcome Z :=
  if t =? 0 then Undef else if (0 <=? i) && (i <? 30) then Ret (t + 56 + 8 * i) else Undef.

Definition file_ptr (L : tar_layout) (i : Z) : outcome Z :=
  if (0 <=? i) && (i <? 50) then Ret (files L + 100 * i) else Undef.

(** ** Walking the archive *)

Definition round (no : Z) : Z := s32 ((Z.quot no 512 + 1) * 512).

Definition next_header (m : bytes) (header : Z) : outcome Z :=
  size ← header_size m header;
  if size =? 0 then Ret (u64 (header + USTAR_SIZE * (1 + size)))
  else Ret (u64 (header + USTAR_SIZE + u64 (round (s32 size)))).

(** Headers lie 512 bytes apart at least, which bounds the loops. *)
Definition WALK_BOUND (L : tar_layout) : nat := Z.to_nat ((binary_tarfs_end L - binary_tarfs_start L) / 512 + 1).

(** The loop of [tarfs_read]; 0 is the null pointer. *)
Fixpoint search_from (n : nat) (m : bytes) (last header name : Z) : outcome Z :=
  if last <? header then Ret 0 else
  r ← strcmp STRING_BOUND m header name;
  if r =? 0 then Ret (u64 (header + USTAR_SIZE)) else
  match n with
  | O => Loops
  | S n => h ← next_header m header; search_from n m last h name
  end.
Definition tarfs_read (L : tar_layout) (m : bytes) (name : Z) : outcome Z :=
  search_from (WALK_BOUND L) m (binary_tarfs_end L) (binary_tarfs_start L) name.

(** ** The table of open files *)

(** [strncpy(files[file_count++], header->name, strlen(header->name))] *)
Definition add_file (L : tar_layout) (header : Z) (st : tarfs) : outcome tarfs :=
  p ← file_ptr L (file_count st);
  n ← strlen STRING_BOUND (tar_mem st) header;
  Ret (Tarfs (strncpy (tar_mem st) p header n) (pwd st) (s32 (file_count st + 1)) (tar_heap st)).

Fixpoint dir_from (n : nat) (L : tar_layout) (header : Z) (st : tarfs) : outcome tarfs :=
  if binary_tarfs_end L <? header then Ret st else
  size ← header_size (tar_mem st) header;
  st ← (if 0 <? size then add_file L header st else Ret st);
  match n with
  | O => Loops
  | S n => h ← next_header (tar_mem st) header; dir_from n L h st
  end.
Definition tarfs_dir (L : tar_layout) (st : tarfs) : outcome tarfs :=
  dir_from (WALK_BOUND L) L (binary_tarfs_start L) st.

(** The first [i] below [file_count] whose file has the name, or 0. *)
Fixpoint open_from (n : nat) (L : tar_layout) (st : tarfs) (name i : Z) : outcome Z :=
  if negb (i <? file_count st) then Ret 0 else
  p ← file_ptr L i;
  r ← strcmp STRING_BOUND (tar_mem st) name p;
  if r =? 0 then Ret i else
  match n with O => Loops | S n => open_from n L st name (i + 1) end.
Definition tarfs_open (L : tar_layout) (st : tarfs) (name : Z) : outcome (tarfs * Z) :=
  fd ← open_from 50 L st name 1;
  if fd =? 0 then Ret (st, fd)
  else Ret (with_tar_mem st (store32 (tar_mem st) (file_used L + 4 * fd) 1), fd).

(** ** The directory tree *)

(** [TRUE] when one of the first [n] bytes differs. *)
Fixpoint strncmp (n : nat) (m : bytes) (src dst : Z) : bool :=
  match n with
  | O => false
  | S n => if m src =? m dst then strncmp n m (src + 1) (dst + 1) else true
  end.

(** A node with the header's name, appended to the children of [temp_rt]. *)
Definition add_node (header temp_rt : Z) (st : tarfs) : outcome (tarfs * Z) :=
  r ← MyAlloc.sub_malloc (tar_heap st) TREE_SIZE false;
  let temp := r.2 in
  let m := memset (Z.to_nat TREE_SIZE) (tar_mem st) temp 0 in
  n ← strlen STRING_BOUND m header;
  let m := strncpy m temp header n in
  c ← child_ptr temp_rt (no_child m temp_rt);
  let m := store64 m c temp in
  let m := store32 m (temp_rt + 296) (u32 (no_child m temp_rt + 1)) in
  Ret (Tarfs m (pwd st) (file_count st) r.1, temp).

(** The parent is the last directory when its name is a prefix of the header's;
    an entry of size 0 is a directory. *)
Fixpoint tree_from (n : nat) (L : tar_layout) (old_dir header : Z) (st : tarfs) : outcome tarfs :=
  if binary_tarfs_end L <? header then Ret st else
  len ← strlen STRING_BOUND (tar_mem st) old_dir;
  let temp_rt := if strncmp (Z.to_nat len) (tar_mem st) old_dir header then rootfs L else old_dir in
  size ← header_size (tar_mem st) header;
  r ← add_node header temp_rt st;
  let old_dir := if 0 <? size then old_dir else r.2 in
  match n with
  | O => Loops
  | S n => h ← next_header (tar_mem r.1) header; tree_from n L old_dir h r.1
  end.

(** [rootfs_name] is the address of the literal ["rootfs/"]. *)
Definition init_tarfs (L : tar_layout) (rootfs_name : Z) (st : tarfs) : outcome tarfs :=
  let st := with_pwd st (rootfs L) in
  let st := with_tar_mem st (strncpy (tar_mem st) (rootfs L) rootfs_name 7) in
  tree_from (WALK_BOUND L) L (rootfs L) (binary_tarfs_start L) st.

(** The loop leaves [i] at the child with the name, or at [pchild]. *)
Fixpoint child_from (n : nat) (m : bytes) (crawl name i : Z) : outcome Z :=
  match n with
  | O => Ret i
  | S n =>
    p ← child_ptr crawl i;
    if load64 m p =? 0 then Undef else
    r ← strcmp STRING_BOUND m (load64 m p) name;
    if r =? 0 then Ret i else child_from n m crawl name (i + 1)
  end.
Definition get_pwd (L : tar_layout) (st : tarfs) (name : Z) : outcome Z :=
  let m := tar_mem st in
  let crawl := pwd st in
  if crawl =? 0 then Undef else
  let pchild := if crawl =? rootfs L then no_child m crawl - 1 else no_child m crawl in
  i ← child_from (Z.to_nat pchild) m crawl name 0;
  p ← child_ptr crawl i;
  Ret (load64 m p).

Definition do_cd (L : tar_layout) (st : tarfs) (name : Z) : outcome (tarfs * Z) :=
  r ← strcmp STRING_BOUND (tar_mem st) name (home_string L);
  if r =? 0 then Ret (with_pwd st (rootfs L), 0) else
  addr ← tarfs_read L (tar_mem st) name;
  if addr =? 0 then Ret (st, -1) else
  p ← get_pwd L st name;
  Ret (with_pwd st p, 0).

(** ** Listings: the addresses of the names printed *)

Definition print_pwd (st : tarfs) : outcome Z := if pwd st =? 0 then Undef else Ret (pwd st).

Fixpoint names_from (n : nat) (m : bytes) (crawl i : Z) : outcome (list Z) :=
  match n with
  | O => Ret []
  | S n =>
    p ← child_ptr crawl i;
    l ← names_from n m crawl (i + 1);
    Ret (load64 m p :: l)
  end.
Definition print_ls_rec (L : tar_layout) (m : bytes) (crawl : Z) : outcome (list Z) :=
  if crawl =? 0 then Ret [] else
  let pchild := if crawl =? rootfs L then no_child m crawl - 1 else no_child m crawl in
  names_from (Z.to_nat pchild) m crawl 0.
Definition print_ls (L : tar_layout) (st : tarfs) : outcome (list Z) := print_ls_rec L (tar_mem st) (pwd st).

Fixpoint headers_from (n : nat) (m : bytes) (last header : Z) : outcome (list Z) :=
  if last <? header then Ret [] else
  match n with
  | O => Loops
  | S n => h ← next_header m header; l ← headers_from n m last h; Ret (header :: l)
  end.
Definition print_ll (L : tar_layout) (m : bytes) : outcome (list Z) :=
  headers_from (WALK_BOUND L) m (binary_tarfs_end L) (binary_tarfs_start L).

(** ** Executables *)

Definition EHDR_SIZE : Z := 64.
Definition PHDR_SIZE : Z := 56.
Definition e_entry (m : bytes) (p : Z) : Z := load64 m (p + 24).
Definition e_phoff (m : bytes) (p : Z) : Z := load64 m (p + 32).
Definition e_shoff (m : bytes) (p : Z) : Z := load64 m (p + 40).
Definition e_phnum (m : bytes) (p : Z) : Z := load_le 2 m (p + 56).
Definition sh_addr (m : bytes) (p : Z) : Z := load64 m (p + 16).
Definition p_offset (m : bytes) (p : Z) : Z := load64 m (p + 8).
Definition p_vaddr (m : bytes) (p : Z) : Z := load64 m (p + 16).
Definition p_memsz (m : bytes) (p : Z) : Z := load64 m (p + 40).

Record exec := Exec { seg_length : Z; seg_page_start : Z; seg_actual_start : Z; seg_mem : Z }.

(** The [i]-th iteration; [length] is 0 in the first one, the only one that
    reads it. *)
Definition read_segment (m : bytes) (bin_start text_start actual_mem_start i : Z) : exec :=
  let pgmHdr := u64 (bin_start + EHDR_SIZE + i * PHDR_SIZE) in
  Exec (u32 (p_memsz m pgmHdr)) (u64 (p_vaddr m pgmHdr - p_offset m pgmHdr))
    (if i =? 0 then text_start else p_vaddr m pgmHdr)
    (if i =? 0 then actual_mem_start else u64 (bin_start + p_offset m pgmHdr)).

(** The caller's array has 20 elements. *)
Record program := Program { pgm_entries : Z; entry_point : Z; executable : list exec }.

(** [None] is the result 0. *)
Definition readelf (L : tar_layout) (m : bytes) (name : Z) : outcome (option program) :=
  bin_start ← tarfs_read L m name;
  if bin_start =? 0 then Ret None else
  let n := u16 (e_phnum m bin_start - 1) in
  let text_start := sh_addr m (u64 (bin_start + e_shoff m bin_start + EHDR_SIZE)) in
  let actual := u64 (bin_start + EHDR_SIZE + n * PHDR_SIZE + e_phoff m bin_start) in
  if 20 <? n then Undef else
  Ret (Some (Program n (e_entry m bin_start) (read_segment m bin_start text_start actual <$> seqZ 0 n))).

(** ** Well-formed archives *)

Record entry := Entry { e_name : list Z; e_size : Z }.

(** A file's contents padded to whole blocks, as the format prescribes. *)
Definition padded (size : Z) : Z := 512 * ((size + 511) / 512).

(** An octal numeral in the size field. *)
Definition octal (m : bytes) (p size : Z) : Prop :=
  exists ds, cstr m p (digit <$> ds) /\ Forall (fun d => 0 <= d < 8) ds /\ (length ds < 12)%nat /\ value 8 ds = size.

(** The headers of [l] lie from [header] on, each followed by its padded
    contents, and the one after them is past [last]. *)
Fixpoint archive (m : bytes) (last header : Z) (l : list entry) : Prop :=
  match l with
  | [] => last < header
  | e :: l =>
    0 <= header <= last /\ cstr m header (e_name e) /\ (length (e_name e) < 100)%nat /\
    octal m (header + 124) (e_size e) /\ 0 <= e_size e < 2 ^ 31 - 1024 /\
    archive m last (header + USTAR_SIZE + padded (e_size e)) l
  end.

(** Sizes for which [round] adds no block too many. *)
Definition unpadded (e : entry) : Prop := e_size e = 0 \/ e_size e mod 512 <> 0.

#[export] Instance unpadded_dec e : Decision (unpadded e).
Proof. unfold unpadded. apply _. Defined.

(** The contents of the first file with the name, or null. *)
Fixpoint first_contents (header : Z) (l : list entry) (s : list Z) : Z :=
  match l with
  | [] => 0
  | e :: l =>
    if decide (e_name e = s) then header + USTAR_SIZE
    else first_contents (header + USTAR_SIZE + padded (e_size e)) l s
  end.

Lemma padded_range size : 0 <= size -> size <= padded size < size + 512.
Proof. intros. unfold padded. Z.to_euclidean_division_equations. lia. Qed.

(** [round] is one block more than the padding when the size is a multiple of
    the block size. *)
Lemma round_eq size :
  0 <= size < 2 ^ 31 - 1024 -> round (s32 size) = padded size + (if size mod 512 =? 0 then 512 else 0).
Proof.
  intros Hs. rewrite swrap_small by lia. unfold round, padded. rewrite Z.quot_div_nonneg by lia.
  pose proof (Z.div_mod size 512 ltac:(lia)) as E. pose proof (Z.mod_pos_bound size 512 ltac:(lia)) as Hm.
  set (q := size / 512) in *. set (r := size mod 512) in *.
  assert ((size + 511) / 512 = if r =? 0 then q else q + 1) as ->.
  { destruct (Z.eqb_spec r 0); symmetry; [apply Z.div_unique with 511|apply Z.div_unique with (r - 1)]; lia. }
  rewrite swrap_small by lia. destruct (Z.eqb_spec r 0); lia.
Qed.

Lemma next_header_spec m header size :
  header_size m header = Ret size -> 0 <= size < 2 ^ 31 - 1024 -> 0 <= header < 2 ^ 63 ->
  next_header m header =
    Ret (header + USTAR_SIZE + padded size + (if (0 <? size) && (size mod 512 =? 0) then 512 else 0)).
Proof.
  intros E Hs Hh. unfold next_header. rewrite E, bind_Ret. pose proof (padded_range size ltac:(lia)) as Hp.
  unfold USTAR_SIZE in *. destruct (Z.eqb_spec size 0) as [->|Hne].
  - rewrite uwrap_small by lia. change (padded 0) with 0. f_equal. simpl. lia.
  - rewrite round_eq by done. rewrite (proj2 (Z.ltb_lt _ _)) by lia. cbn [andb].
    destruct (size mod 512 =? 0); rewrite (uwrap_small 64 (padded size + _)), uwrap_small by lia; f_equal; lia.
Qed.

Lemma header_size_octal m header size :
  octal m (header + 124) size -> 0 <= size < 2 ^ 31 - 1024 -> header_size m header = Ret size.
Proof.
  intros (ds & Hs & Hd & Hl & Hv) Hr. unfold header_size, my_atool. change 0 with (u32 0) at 1.
  rewrite (number_from_spec INDEX_RANGE m 8 (header + 124) ds 0); [|exact Hs| |unfold INDEX_RANGE; lia].
  - unfold value in Hv. rewrite Hv. rewrite uwrap_small by lia. done.
  - eapply Forall_impl; [exact Hd|]. simpl. lia.
Qed.

Lemma next_header_unpadded m header e :
  octal m (header + 124) (e_size e) -> 0 <= e_size e < 2 ^ 31 - 1024 -> 0 <= header < 2 ^ 63 -> unpadded e ->
  next_header m header = Ret (header + USTAR_SIZE + padded (e_size e)).
Proof.
  intros E Hs Hh Hu. apply header_size_octal in E; [|exact Hs]. rewrite (next_header_spec _ _ _ E) by done. f_equal.
  destruct Hu as [->|Hu]; [simpl; lia|]. rewrite (proj2 (Z.eqb_neq _ _) Hu), andb_false_r. lia.
Qed.

(** The headers of an archive are within the bound on the loops. *)
Lemma archive_length m last header l :
  archive m last header l -> header <= last + USTAR_SIZE + 2 ^ 31 -> 512 * (Z.of_nat (length l) - 1) <= last - header \/ l = [].
Proof.
  revert header. induction l as [|e l IH]; intros header; [by right|].
  intros (Hh & _ & _ & _ & Hs & Ha) _. left. pose proof (padded_range (e_size e) ltac:(lia)) as Hp.
  destruct (IH _ Ha) as [Hl|Hl]; unfold USTAR_SIZE in *; [lia| |].
  - simpl length. lia.
  - subst l. simpl. lia.
Qed.

Lemma search_from_spec n m last header l name s :
  archive m last header l -> Forall unpadded l -> cstr m name s -> (length s <= STRING_BOUND)%nat ->
  last < 2 ^ 63 -> (length l <= n)%nat ->
  search_from n m last header name = Ret (first_contents header l s).
Proof.
  intros Ha Hu Hs Hl Hlast. revert n header Ha Hu. induction l as [|e l IH]; intros n header Ha Hu Hn.
  - simpl in Ha. destruct n; simpl; by rewrite (proj2 (Z.ltb_lt _ _)).
  - destruct Ha as (Hh & Hnm & Hnl & Hsz & Hs31 & Ha). apply Forall_cons in Hu as [He Hu].
    destruct n as [|n]; [simpl in Hn; lia|]. cbn [search_from]. rewrite (proj2 (Z.ltb_ge _ _)) by lia.
    pose proof STRING_BOUND_eq.
    assert (strcmp STRING_BOUND m header name = Ret (if decide (e_name e = s) then 0 else 1)) as Ec.
    { apply strcmp_bounded; [exact Hnm|exact Hs|lia|exact Hl]. }
    rewrite Ec, bind_Ret. cbn [first_contents].
    destruct (decide (e_name e = s)) as [Heq|Hne]; cbn [Z.eqb].
    + rewrite uwrap_small by (unfold USTAR_SIZE; lia). done.
    + rewrite (next_header_unpadded m header e), bind_Ret; [|exact Hsz|exact Hs31|lia|exact He].
      apply IH; [done|done|simpl in Hn; lia].
Qed.

Lemma walk_bound L m l :
  archive m (binary_tarfs_end L) (binary_tarfs_start L) l -> binary_tarfs_start L <= binary_tarfs_end L ->
  (length l <= WALK_BOUND L)%nat.
Proof.
  intros Ha Hr. unfold WALK_BOUND.
  destruct (archive_length _ _ _ _ Ha) as [Hlen| ->]; [unfold USTAR_SIZE; lia| |simpl; lia].
  Z.to_euclidean_division_equations. lia.
Qed.

(** C19: in an archive none of whose file sizes is a positive multiple of 512,
    [tarfs_read] stops and returns the address of the contents of the first file
    with the name, and null when there is none. *)
Theorem tarfs_read_first L m l name s :
  archive m (binary_tarfs_end L) (binary_tarfs_start L) l -> Forall unpadded l ->
  binary_tarfs_start L <= binary_tarfs_end L < 2 ^ 63 -> cstr m name s -> (length s <= STRING_BOUND)%nat ->
  tarfs_read L m name = Ret (first_contents (binary_tarfs_start L) l s).
Proof.
  intros Ha Hu Hr Hs Hl. unfold tarfs_read. apply search_from_spec; [done|done|done|done|lia|].
  eapply walk_bound; [done|lia].
Qed.

(** [ll] prints the name of every entry of the archive, in order. *)
Lemma headers_from_spec n m last header l :
  archive m last header l -> Forall unpadded l -> last < 2 ^ 63 -> (length l <= n)%nat ->
  exists hs, headers_from n m last header = Ret hs /\ Forall2 (cstr m) hs (e_name <$> l).
Proof.
  intros Ha Hu Hlast. revert n header Ha Hu. induction l as [|e l IH]; intros n header Ha Hu Hn.
  - exists []. simpl in Ha. split; [|constructor]. destruct n; simpl; by rewrite (proj2 (Z.ltb_lt _ _)).
  - destruct Ha as (Hh & Hnm & Hnl & Hsz & Hs31 & Ha). apply Forall_cons in Hu as [He Hu].
    destruct n as [|n]; [simpl in Hn; lia|]. cbn [headers_from]. rewrite (proj2 (Z.ltb_ge _ _)) by lia.
    rewrite (next_header_unpadded m header e), bind_Ret; [|exact Hsz|exact Hs31|lia|exact He].
    destruct (IH n _ Ha Hu) as (hs & -> & Hf); [simpl in Hn; lia|]. rewrite bind_Ret. eexists. split; [done|].
    by constructor.
Qed.

Lemma print_ll_names L m l :
  archive m (binary_tarfs_end L) (binary_tarfs_start L) l -> Forall unpadded l ->
  binary_tarfs_start L <= binary_tarfs_end L < 2 ^ 63 ->
  exists hs, print_ll L m = Ret hs /\ Forall2 (cstr m) hs (e_name <$> l).
Proof. intros Ha Hu Hr. apply headers_from_spec; [done|done|lia|]. eapply walk_bound; [done|lia]. Qed.

(** ** Opening *)

(** The names of the files that are not empty, in order. *)
Definition nonempty (l : list entry) : list (list Z) := e_name <$> filter (fun e => 0 < e_size e) l.

Lemma nonempty_cons e l : nonempty (e :: l) = if decide (0 < e_size e) then e_name e :: nonempty l else nonempty l.
Proof. unfold nonempty. rewrite filter_cons. by destruct (decide (0 < e_size e)). Qed.

(** Slots 1 to [length names] of the table hold the names, the later ones
    zeros. *)
Definition table (L : tar_layout) (m : bytes) (names : list (list Z)) : Prop :=
  (forall i s, names !! i = Some s ->
     cstr m (files L + 100 * (1 + Z.of_nat i)) s /\ (length s < 100)%nat) /\
  (forall x, files L + 100 * (1 + Z.of_nat (length names)) <= x < files L + 5000 -> m x = 0).

Lemma file_ptr_eq L i : 0 <= i < 50 -> file_ptr L i = Ret (files L + 100 * i).
Proof. intros Hi. unfold file_ptr. by rewrite (proj2 (Z.leb_le _ _)), (proj2 (Z.ltb_lt _ _)) by lia. Qed.

Lemma octal_same m m' p size : octal m p size -> same_bytes m m' p 12 -> octal m' p size.
Proof.
  intros (ds & Hs & Hd & Hl & Hv) H. exists ds. split_and!; [|done..].
  eapply cstr_same; [exact Hs|]. eapply same_bytes_sub; [exact H|lia|rewrite length_fmap; lia].
Qed.

(** An archive is read from its headers only. *)
Lemma archive_same m m' last header l :
  archive m last header l -> same_bytes m m' header (last + USTAR_SIZE - header) -> archive m' last header l.
Proof.
  revert header. induction l as [|e l IH]; intros header; [done|].
  intros (Hh & Hn & Hl & Ho & Hs & Ha) H. pose proof (padded_range (e_size e) ltac:(lia)) as Hp.
  unfold USTAR_SIZE in *. split_and!; [lia|lia| |done| |lia|lia|].
  - eapply cstr_same; [exact Hn|]. eapply same_bytes_sub; [exact H|lia|lia].
  - eapply octal_same; [exact Ho|]. eapply same_bytes_sub; [exact H|lia|lia].
  - apply IH; [exact Ha|]. intros x Hx. apply H. unfold USTAR_SIZE in Hx. lia.
Qed.

(** One more file: the slot was zero, so the name ends. *)
Lemma add_file_spec L header st names s :
  table L (tar_mem st) names -> file_count st = 1 + Z.of_nat (length names) -> (length names < 49)%nat ->
  cstr (tar_mem st) header s -> (length s < 100)%nat -> apart header 100 (files L) 5000 ->
  exists st', add_file L header st = Ret st' /\ table L (tar_mem st') (names ++ [s]) /\
    file_count st' = 1 + Z.of_nat (length (names ++ [s])) /\ pwd st' = pwd st /\ tar_heap st' = tar_heap st /\
    forall x, apart x 1 (files L) 5000 -> tar_mem st' x = tar_mem st x.
Proof.
  intros [Hn Hz] Hc Hl Hs Hsl Hap. unfold add_file. rewrite Hc, file_ptr_eq, bind_Ret by lia.
  pose proof STRING_BOUND_eq. rewrite (strlen_bounded _ _ _ Hs), bind_Ret by lia.
  set (p := files L + 100 * (1 + Z.of_nat (length names))). unfold strncpy. rewrite Nat2Z.id.
  set (m := memcpy (length s) (tar_mem st) p header).
  assert (forall x, m x = if decide (p <= x < p + Z.of_nat (length s)) then tar_mem st (x + (header - p)) else tar_mem st x) as Hm.
  { intros x. apply memcpy_apart. unfold apart, p in *. lia. }
  clearbody m. eexists. split; [done|]. cbn [tar_mem file_count pwd tar_heap]. split_and!; [split|rewrite length_app; simpl; rewrite swrap_small; lia|done|done|].
  - intros i t Hi. apply lookup_app_Some in Hi as [Hi|[Hi Ht]].
    + pose proof (lookup_lt_Some _ _ _ Hi). destruct (Hn i t Hi) as [Ht Htl]. split; [|done].
      eapply cstr_same; [exact Ht|]. intros x Hx. rewrite Hm, decide_False by (unfold p; lia). done.
    + apply list_lookup_singleton_Some in Ht as [Ht <-]. replace i with (length names) by lia. fold p.
      split; [|done]. destruct Hs as (Hb & Hf & He). split_and!; [|done|].
      * intros k c Hk. pose proof (lookup_lt_Some _ _ _ Hk). rewrite Hm, decide_True by lia.
        rewrite <- (Hb k c Hk). f_equal. lia.
      * rewrite Hm, decide_False by lia. apply Hz. unfold p. lia.
  - rewrite length_app. simpl. intros x Hx. rewrite Hm, decide_False by (unfold p; lia). apply Hz. lia.
  - intros x Hx. rewrite Hm, decide_False; [done|]. unfold apart, p in *. lia.
Qed.

Lemma dir_from_spec n L header l st names :
  archive (tar_mem st) (binary_tarfs_end L) header l -> Forall unpadded l -> (length l <= n)%nat ->
  table L (tar_mem st) names -> file_count st = 1 + Z.of_nat (length names) ->
  (length names + length (nonempty l) < 50)%nat -> binary_tarfs_start L <= header ->
  apart (binary_tarfs_start L) (binary_tarfs_end L + USTAR_SIZE - binary_tarfs_start L) (files L) 5000 ->
  binary_tarfs_end L < 2 ^ 63 ->
  exists st', dir_from n L header st = Ret st' /\ table L (tar_mem st') (names ++ nonempty l) /\
    file_count st' = 1 + Z.of_nat (length (names ++ nonempty l)) /\ pwd st' = pwd st /\ tar_heap st' = tar_heap st /\
    forall x, apart x 1 (files L) 5000 -> tar_mem st' x = tar_mem st x.
Proof.
  intros Ha Hu Hn Ht Hc Hlen Hst Hap He63. revert n header st names Ha Hu Hn Ht Hc Hlen Hst.
  induction l as [|e l IH]; intros n header st names Ha Hu Hn Ht Hc Hlen Hst.
  - exists st. simpl in Ha. destruct n; simpl; rewrite (proj2 (Z.ltb_lt _ _)) by done; by rewrite app_nil_r.
  - destruct n as [|n]; [simpl in Hn; lia|]. pose proof Ha as (Hh & Hnm & Hnl & Ho & Hs & Ha').
    apply Forall_cons in Hu as [He Hu]. pose proof (padded_range (e_size e) ltac:(lia)) as Hp.
    cbn [dir_from]. rewrite (proj2 (Z.ltb_ge _ _)) by lia.
    rewrite (header_size_octal _ _ _ Ho), bind_Ret by done.
    assert (exists st1, (if 0 <? e_size e then add_file L header st else Ret st) = Ret st1 /\
      let names' := if decide (0 < e_size e) then names ++ [e_name e] else names in
      table L (tar_mem st1) names' /\ file_count st1 = 1 + Z.of_nat (length names') /\ pwd st1 = pwd st /\
      tar_heap st1 = tar_heap st /\ forall x, apart x 1 (files L) 5000 -> tar_mem st1 x = tar_mem st x)
      as (st1 & E & Ht1 & Hc1 & Hp1 & Hh1 & Hm1).
    { destruct (Z.ltb_spec 0 (e_size e)) as [Hlt|Hge]; [rewrite decide_True by done|rewrite decide_False by lia].
      - apply add_file_spec; [done|done| |done|done|unfold apart, USTAR_SIZE in *; lia].
        rewrite nonempty_cons, decide_True in Hlen by done. simpl in Hlen. lia.
      - by exists st. }
    rewrite E, bind_Ret.
    assert (archive (tar_mem st1) (binary_tarfs_end L) header (e :: l)) as Ha1.
    { eapply archive_same; [exact Ha|]. intros x Hx. apply Hm1. unfold apart, USTAR_SIZE in *. lia. }
    destruct Ha1 as (_ & _ & _ & Ho1 & _ & Ha1).
    rewrite (next_header_unpadded _ _ _ Ho1), bind_Ret by (done || lia).
    destruct (IH n _ st1 (if decide (0 < e_size e) then names ++ [e_name e] else names) Ha1 Hu) as (st' & E' & H1 & H2 & H3 & H4 & H5);
      [simpl in Hn; lia|exact Ht1|exact Hc1| |unfold USTAR_SIZE; lia|].
    { rewrite nonempty_cons in Hlen. destruct (decide _); rewrite ?length_app; simpl in *; lia. }
    exists st'. split; [exact E'|].
    assert ((if decide (0 < e_size e) then names ++ [e_name e] else names) ++ nonempty l = names ++ nonempty (e :: l)) as Hnames.
    { rewrite nonempty_cons. destruct (decide _); [|done]. by rewrite <- app_assoc. }
    rewrite Hnames in H1, H2. split_and!; [done|done|congruence|congruence|]. intros x Hx. by rewrite H5, Hm1.
Qed.

Lemma open_from_spec n L st name s names i :
  table L (tar_mem st) names -> file_count st = 1 + Z.of_nat (length names) -> (length names < 50)%nat ->
  cstr (tar_mem st) name s -> (length s < 100)%nat -> (i <= length names)%nat -> (length names - i <= n)%nat ->
  (forall j t, (j < i)%nat -> names !! j = Some t -> t <> s) ->
  open_from n L st name (1 + Z.of_nat i) =
    Ret (match list_find (.= s) names with Some (j, _) => 1 + Z.of_nat j | None => 0 end).
Proof.
  intros [Ht _] Hc Hlen Hs Hsl. pose proof STRING_BOUND_eq. revert i.
  induction n as [|n IH]; intros i Hi Hn Hbefore; cbn [open_from]; rewrite Hc.
  - rewrite (proj2 (Z.ltb_ge _ _)) by lia. cbn [negb].
    assert (list_find (.= s) names = None) as ->; [|done]. apply list_find_None, Forall_lookup. intros j t Hj.
    pose proof (lookup_lt_Some _ _ _ Hj). apply (Hbefore j t); [lia|done].
  - destruct (Z.ltb_spec (1 + Z.of_nat i) (1 + Z.of_nat (length names))) as [Hlt|Hge]; cbn [negb].
    + destruct (lookup_lt_is_Some_2 names i ltac:(lia)) as [t Hit]. destruct (Ht i t Hit) as [Hct Htl].
      rewrite file_ptr_eq, bind_Ret by lia.
      rewrite (strcmp_bounded _ _ _ _ _ Hs Hct), bind_Ret by lia. destruct (decide (s = t)) as [<-|Hne]; cbn [Z.eqb].
      * assert (list_find (.= s) names = Some (i, s)) as ->; [|done]. apply list_find_Some.
        split_and!; [done|done|]. intros j t Hj Hji. by apply (Hbefore j t).
      * replace (1 + Z.of_nat i + 1) with (1 + Z.of_nat (S i)) by lia. apply IH; [lia|lia|].
        intros j u Hj Hu. destruct (decide (j = i)) as [->|]; [|apply (Hbefore j u); [lia|done]].
        rewrite Hit in Hu. by injection Hu as <-.
    + assert (list_find (.= s) names = None) as ->; [|done]. apply list_find_None, Forall_lookup. intros j t Hj.
      pose proof (lookup_lt_Some _ _ _ Hj). apply (Hbefore j t); [lia|done].
Qed.

(** C20: [tarfs_dir] followed by [tarfs_open], on an archive none of whose file
    sizes is a positive multiple of 512 (after such a file the next header is
    skipped), with fewer than 50 files that are not empty, away from the table
    of names, which is zeroed before: the table holds those files' names in
    order, and the descriptor is the rank, from 1, of the first of them with the
    name, and 0 when there is none; a descriptor other than 0 is marked used. *)
Theorem tarfs_dir_open L st l name s :
  archive (tar_mem st) (binary_tarfs_end L) (binary_tarfs_start L) l -> Forall unpadded l ->
  binary_tarfs_start L <= binary_tarfs_end L < 2 ^ 63 -> table L (tar_mem st) [] -> file_count st = 1 ->
  (length (nonempty l) < 50)%nat ->
  apart (binary_tarfs_start L) (binary_tarfs_end L + USTAR_SIZE - binary_tarfs_start L) (files L) 5000 ->
  cstr (tar_mem st) name s -> (length s < 100)%nat -> apart name 100 (files L) 5000 ->
  let fd := match list_find (.= s) (nonempty l) with Some (j, _) => 1 + Z.of_nat j | None => 0 end in
  exists st1 st2, tarfs_dir L st = Ret st1 /\ table L (tar_mem st1) (nonempty l) /\
    tarfs_open L st1 name = Ret (st2, fd) /\
    (fd <> 0 -> load32 (tar_mem st2) (file_used L + 4 * fd) = 1).
Proof.
  intros Ha Hu Hr Ht Hc Hlen Hap Hs Hsl Hapn fd.
  destruct (dir_from_spec (WALK_BOUND L) L (binary_tarfs_start L) l st []) as (st1 & E & Ht1 & Hc1 & _ & _ & Hm);
    [done|done|eapply walk_bound; [done|lia]|done|done|simpl; lia|lia|done|lia|].
  assert (cstr (tar_mem st1) name s) as Hs1.
  { eapply cstr_same; [exact Hs|]. intros x Hx. apply Hm. unfold apart in *. lia. }
  pose proof (open_from_spec 50 L st1 name s (nonempty l) 0 Ht1 Hc1 Hlen Hs1 Hsl) as Eo.
  change (1 + Z.of_nat 0) with 1 in Eo. exists st1. unfold tarfs_open.
  rewrite Eo by (lia || (intros; lia)). rewrite bind_Ret. fold fd.
  destruct (Z.eqb_spec fd 0) as [H0|H0]; eexists; (split; [exact E|]; split; [done|]; split; [done|]); [done|].
  intros _. cbn [tar_mem with_tar_mem]. by rewrite (load_store_le 4).
Qed.

(** ** Changing directory *)

(** Child [i] of node [d] is a node named [s]. *)
Definition child_named (m : bytes) (d i : Z) (s : list Z) : Prop :=
  load64 m (d + 56 + 8 * i) <> 0 /\ cstr m (load64 m (d + 56 + 8 * i)) s /\ (length s <= STRING_BOUND)%nat.

Lemma child_ptr_eq t i : t <> 0 -> 0 <= i < 30 -> child_ptr t i = Ret (t + 56 + 8 * i).
Proof.
  intros Ht Hi. unfold child_ptr. rewrite (proj2 (Z.eqb_neq _ _) Ht).
  by rewrite (proj2 (Z.leb_le _ _)), (proj2 (Z.ltb_lt _ _)) by lia.
Qed.

(** The search passes every child whose name differs. *)
Lemma child_from_skip n k m d name s i :
  d <> 0 -> cstr m name s -> (length s <= STRING_BOUND)%nat -> 0 <= i -> i + Z.of_nat n <= 30 ->
  (forall j, i <= j < i + Z.of_nat n -> exists t, child_named m d j t /\ t <> s) ->
  child_from (n + k) m d name i = child_from k m d name (i + Z.of_nat n).
Proof.
  intros Hd Hs Hl. revert i. induction n as [|n IH]; intros i Hi Hn Hc; [by rewrite Z.add_0_r|].
  simpl plus. cbn [child_from]. rewrite child_ptr_eq, bind_Ret by (done || lia).
  destruct (Hc i ltac:(lia)) as (t & (Hp & Ht & Htl) & Hne).
  rewrite (proj2 (Z.eqb_neq _ _) Hp), (strcmp_bounded _ _ _ _ _ Ht Hs Htl Hl), bind_Ret, decide_False by done.
  cbn [Z.eqb]. rewrite IH by (lia || (intros; apply Hc; lia)). f_equal. lia.
Qed.

(** [cd] to a name the archive has but the current directory has not: the
    search runs past the last child, the null pointer behind it becomes the
    current directory, [cd] reports success, and the next one has undefined
    behaviour. *)
Theorem do_cd_null_directory L st name s k :
  let m := tar_mem st in let d := pwd st in
  d <> 0 -> d <> rootfs L -> no_child m d = Z.of_nat k -> (k < 30)%nat -> load64 m (d + 56 + 8 * Z.of_nat k) = 0 ->
  cstr m name s -> (length s <= STRING_BOUND)%nat ->
  (forall j, 0 <= j < Z.of_nat k -> exists t, child_named m d j t /\ t <> s) ->
  strcmp STRING_BOUND m name (home_string L) = Ret 1 -> (exists a, tarfs_read L m name = Ret a /\ a <> 0) ->
  do_cd L st name = Ret (with_pwd st 0, 0) /\ get_pwd L (with_pwd st 0) name = Undef.
Proof.
  intros m d Hd Hroot Hk Hk30 H0 Hs Hl Hc Hh (a & Ea & Ha). split; [|done].
  unfold do_cd. fold m. rewrite Hh, bind_Ret. cbn [Z.eqb]. rewrite Ea, bind_Ret, (proj2 (Z.eqb_neq _ _) Ha).
  unfold get_pwd. fold m d. rewrite (proj2 (Z.eqb_neq _ _) Hd), (proj2 (Z.eqb_neq _ _) Hroot), Hk, Nat2Z.id.
  rewrite <- (Nat.add_0_r k) at 1. rewrite (child_from_skip k 0 m d name s 0) by (done || lia).
  cbn [child_from]. rewrite bind_Ret, child_ptr_eq, !bind_Ret by (done || lia). by rewrite Z.add_0_l, H0.
Qed.

(** ** A small archive *)

(** The files ["a"], of three characters, and ["b"], of five, an empty header at
    the end, and the name ["b"] at 0x5000. *)
Definition demo_tar : tar_layout := TarLayout 0x1000 0x1800 0x6000 0x8000 0xA000 0x7000.
Definition demo_tar_bytes : bytes :=
  patch (patch (patch (patch (patch (fun _ => 0) 0x1000 [97]) 0x107C [51]) 0x1400 [98]) 0x147C [53]) 0x5000 [98].
Definition demo_entries : list entry := [Entry [97] 3; Entry [98] 5; Entry [] 0].

Lemma archive_step m last h s size ds l :
  0 <= h <= last -> cstr_check m h s = true -> (length s < 100)%nat -> cstr_check m (h + 124) (digit <$> ds) = true ->
  Forall (fun d => 0 <= d < 8) ds -> (length ds < 12)%nat -> value 8 ds = size -> 0 <= size < 2 ^ 31 - 1024 ->
  archive m last (h + USTAR_SIZE + padded size) l -> archive m last h (Entry s size :: l).
Proof.
  intros Hh Hs Hl Hc Hd Hdl Hv Hr Ha. split; [done|]. split; [by apply cstr_check_sound|]. split; [done|].
  split; [|done]. exists ds. split_and!; [by apply cstr_check_sound|done..].
Qed.

Lemma demo_archive : archive demo_tar_bytes 0x1800 0x1000 demo_entries.
Proof.
  apply (archive_step _ _ 0x1000 [97] 3 [3]); [by_computation || reflexivity..|].
  apply (archive_step _ _ (0x1000 + USTAR_SIZE + padded 3) [98] 5 [5]); [by_computation || reflexivity..|].
  apply (archive_step _ _ (0x1000 + USTAR_SIZE + padded 3 + USTAR_SIZE + padded 5) [] 0 []);
    [by_computation || reflexivity..|]. reflexivity.
Qed.

Example tarfs_read_first_witness : tarfs_read demo_tar demo_tar_bytes 0x5000 = Ret 0x1600.
Proof.
  apply (tarfs_read_first demo_tar demo_tar_bytes demo_entries 0x5000 [98]).
  - apply demo_archive.
  - by_computation.
  - simpl. lia.
  - apply cstr_check_sound. reflexivity.
  - simpl. pose proof STRING_BOUND_eq. lia.
Defined.

Definition demo_tarfs : tarfs := Tarfs demo_tar_bytes 0x6000 1 MyAlloc.demo_heap.

Lemma demo_table : table demo_tar demo_tar_bytes [].
Proof.
  split; [by intros i s Hi|]. intros x Hx. simpl in Hx. unfold demo_tar_bytes.
  rewrite !patch_out; [done|unfold apart; simpl; lia..].
Qed.

Example tarfs_dir_open_witness :
  exists st1 st2, tarfs_dir demo_tar demo_tarfs = Ret st1 /\ tarfs_open demo_tar st1 0x5000 = Ret (st2, 2) /\
    load32 (tar_mem st2) (0xA000 + 4 * 2) = 1.
Proof.
  destruct (tarfs_dir_open demo_tar demo_tarfs demo_entries 0x5000 [98]) as (st1 & st2 & E1 & _ & E2 & H).
  - apply demo_archive.
  - by_computation.
  - simpl. lia.
  - apply demo_table.
  - reflexivity.
  - by_computation.
  - by_computation.
  - apply cstr_check_sound. reflexivity.
  - simpl. lia.
  - by_computation.
  - exists st1, st2. split; [exact E1|]. split; [exact E2|]. apply H. discriminate.
Defined.

(** The directory ["d"] at 0xB000 has one child, ["a"]. *)
Definition demo_tree_bytes : bytes :=
  patch (patch (patch (patch (patch demo_tar_bytes 0xB000 [100]) 0xB038 [0; 0xC0]) 0xB128 [1]) 0xC000 [97])
    0x7000 [104; 111; 109; 101].

Example do_cd_null_directory_witness :
  do_cd demo_tar (Tarfs demo_tree_bytes 0xB000 1 MyAlloc.demo_heap) 0x5000 =
    Ret (Tarfs demo_tree_bytes 0 1 MyAlloc.demo_heap, 0).
Proof.
  apply (do_cd_null_directory demo_tar (Tarfs demo_tree_bytes 0xB000 1 MyAlloc.demo_heap) 0x5000 [98] 1).
  - discriminate.
  - discriminate.
  - reflexivity.
  - lia.
  - reflexivity.
  - apply cstr_check_sound. reflexivity.
  - simpl. pose proof STRING_BOUND_eq. lia.
  - intros j Hj. exists [97]. replace j with 0 by (simpl in Hj; lia). split; [|discriminate].
    split; [discriminate|]. split; [apply cstr_check_sound; reflexivity|]. simpl. pose proof STRING_BOUND_eq. lia.
  - vm_compute. reflexivity.
  - exists 0x1600. split; [vm_compute; reflexivity|discriminate].
Defined.
