(* ===== verification/Tree.v ===== *)
(** * The directory tree (init_tarfs in sys/elf.c)

    The tree the boot archive is unpacked into, as a finite map of nodes and as
    structures in memory, and what init_tarfs builds for an archive on a heap
    that has given out nothing. *)

From S2P Require Import Prelude CString Memory Bitmap PageEntry Paging KHeap NodeHeap TarFs.

(** ** The tree as a map *)

Record node := Node { n_name : list Z; n_children : list Z }.
Abbreviation tree := (gmap Z node).

Section spec.
Context (root : Z).

(** The last directory when its name is a prefix, else the root. *)
Definition parent (t : tree) (old : Z) (s : list Z) : Z :=
  match t !! old with
  | Some x => if decide (n_name x `prefix_of` s) then old else root
  | None => root
  end.

(** A node has room for thirty children. *)
Definition attach (t : tree) (p a : Z) : option tree :=
  match t !! p with
  | Some x => if decide (length (n_children x) < 30)%nat then Some (<[p := Node (n_name x) (n_children x ++ [a])]> t) else None
  | None => None
  end.

(** The entries in order, each with the address its node gets. *)
Fixpoint grow (t : tree) (old : Z) (l : list (entry * Z)) : option tree :=
  match l with
  | [] => Some t
  | (e, a) :: l =>
    match attach (<[a := Node (e_name e) []]> t) (parent t old (e_name e)) a with
    | Some t => grow t (if 0 <? e_size e then old else a) l
    | None => None
    end
  end.
End spec.

(** ** The tree in memory *)

Record node_in (m : bytes) (a : Z) (x : node) : Prop := {
  ni_name : cstr m a (n_name x);
  ni_length : (length (n_name x) < 50)%nat;
  ni_count : load32 m (a + 296) = Z.of_nat (length (n_children x));
  ni_room : (length (n_children x) <= 30)%nat;
  ni_child : forall i c, n_children x !! i = Some c -> load64 m (a + 56 + 8 * Z.of_nat i) = c
}.

Definition tree_in (m : bytes) (t : tree) : Prop := forall a x, t !! a = Some x -> node_in m a x.

Lemma node_in_same m m' a x : node_in m a x -> same_bytes m m' a TREE_SIZE -> node_in m' a x.
Proof.
  intros [H1 H2 H3 H4 H5] Hs. unfold TREE_SIZE in Hs. split; [|done| |done|].
  - eapply cstr_same; [exact H1|]. intros y Hy. apply Hs. lia.
  - rewrite <- H3. apply load_le_agree. intros y Hy. apply Hs. lia.
  - intros i c Hi. rewrite <- (H5 i c Hi). apply lookup_lt_Some in Hi. apply load_le_agree. intros y Hy. apply Hs. lia.
Qed.

(** A cleared node with its name. *)
Lemma node_in_fresh m temp header s :
  cstr m header s -> (length s < 50)%nat -> apart header 100 temp TREE_SIZE ->
  let m' := strncpy (memset (Z.to_nat TREE_SIZE) m temp 0) temp header (Z.of_nat (length s)) in
  node_in m' temp (Node s []) /\ forall y, apart y 1 temp TREE_SIZE -> m' y = m y.
Proof.
  intros Hs Hl Hap m'. unfold TREE_SIZE in *.
  assert (forall y, m' y = if decide (temp <= y < temp + Z.of_nat (length s)) then m (y + (header - temp))
    else if decide (temp <= y < temp + 304) then 0 else m y) as Hm.
  { intros y. unfold m', strncpy. rewrite Nat2Z.id, memcpy_apart by (unfold apart in *; lia).
    destruct (decide _); rewrite memset_spec; [|done]. rewrite decide_False; [done|]. unfold apart in Hap. lia. }
  clearbody m'. split.
  - destruct Hs as (Hb & Hf & He). split; cbn [n_name n_children length]; [|done| |lia|by intros i c Hi].
    + split_and!; [|done|].
      * intros i c Hi. pose proof (lookup_lt_Some _ _ _ Hi). rewrite Hm, decide_True by lia. rewrite <- (Hb i c Hi). f_equal. lia.
      * by rewrite Hm, decide_False, decide_True by lia.
    + apply load_le_zero. intros k Hk. by rewrite Hm, decide_False, decide_True by lia.
  - intros y Hy. unfold apart in Hy. by rewrite Hm, !decide_False by lia.
Qed.

(** One more child. *)
Lemma node_in_attach m p x temp :
  node_in m p x -> (length (n_children x) < 30)%nat -> 0 <= temp < 2 ^ 64 -> p <> 0 ->
  exists c, child_ptr p (no_child m p) = Ret c /\
    let m1 := store64 m c temp in
    let m' := store32 m1 (p + 296) (u32 (no_child m1 p + 1)) in
    node_in m' p (Node (n_name x) (n_children x ++ [temp])) /\ forall y, apart y 1 p TREE_SIZE -> m' y = m y.
Proof.
  intros [H1 H2 H3 H4 H5] Hl Ht Hp. set (k := Z.of_nat (length (n_children x))) in *.
  assert (no_child m p = k) as Hk by (unfold no_child; rewrite H3; apply swrap_small; lia).
  exists (p + 56 + 8 * k). split; [rewrite Hk; apply child_ptr_eq; lia|]. intros m1 m'.
  assert (load32 m1 (p + 296) = k) as Hk1 by (rewrite <- H3; apply load_store_le_other; unfold apart; lia).
  assert (no_child m1 p = k) as Hk1' by (unfold no_child; rewrite Hk1; apply swrap_small; lia).
  assert (forall y, ~ (p + 56 + 8 * k <= y < p + 56 + 8 * k + 8) -> ~ (p + 296 <= y < p + 300) -> m' y = m y) as Hm.
  { intros y Hy Hy'. unfold m', m1. rewrite store_le_out by lia. apply store_le_out. lia. }
  split; [|intros y Hy; apply Hm; unfold apart, TREE_SIZE in Hy; lia].
  split; cbn [n_name n_children]; [|done| |rewrite length_app; simpl; lia|].
  - eapply cstr_same; [exact H1|]. intros y Hy. apply Hm; lia.
  - unfold m'. rewrite (load_store_le 4) by (apply (uwrap_range 32); lia). rewrite Hk1', length_app. simpl length.
    rewrite uwrap_small by lia. change (256 ^ Z.of_nat 4) with (2 ^ 32). rewrite Z.mod_small; lia.
  - intros i c Hi. apply lookup_app_Some in Hi as [Hi|[Hi Hc]].
    + rewrite <- (H5 i c Hi). apply lookup_lt_Some in Hi. apply load_le_agree. intros y Hy. apply Hm; lia.
    + apply list_lookup_singleton_Some in Hc as [Hc <-]. replace (Z.of_nat i) with k by lia.
      unfold m'. rewrite (load_store_le_other 8) by (unfold apart; lia). unfold m1. rewrite (load_store_le 8) by lia.
      change (256 ^ Z.of_nat 8) with (2 ^ 64). apply Z.mod_small. lia.
Qed.

(** The comparison is with the prefix. *)
Lemma strncmp_prefix m o : forall src dst s,
  cstr m src o -> cstr m dst s -> strncmp (length o) m src dst = negb (bool_decide (o `prefix_of` s)).
Proof.
  induction o as [|c o IH]; intros src dst s (Ho & Hf & He) Hs.
  - cbn [length strncmp]. by rewrite bool_decide_true by apply prefix_nil.
  - pose proof (Ho 0%nat c eq_refl) as H0. rewrite Z.add_0_r in H0. apply Forall_cons in Hf as [Hc Hf].
    cbn [length strncmp]. rewrite H0. destruct s as [|d s].
    + destruct Hs as (_ & _ & H1). simpl in H1. rewrite Z.add_0_r in H1. rewrite H1, (proj2 (Z.eqb_neq _ _)) by lia.
      rewrite bool_decide_false; [done|]. apply prefix_nil_not.
    + destruct Hs as (Hb & Hg & H1). pose proof (Hb 0%nat d eq_refl) as H2. rewrite Z.add_0_r in H2. rewrite H2.
      apply Forall_cons in Hg as [_ Hg]. destruct (Z.eqb_spec c d) as [->|Hne].
      * rewrite (IH (src + 1) (dst + 1) s).
        -- f_equal. apply bool_decide_ext. split; [apply prefix_cons|apply prefix_cons_inv_2].
        -- split_and!; [|done|].
           ++ intros i e Hi. rewrite <- (Ho (S i) e Hi). f_equal. lia.
           ++ rewrite <- He. f_equal. simpl. lia.
        -- split_and!; [|done|].
           ++ intros i e Hi. rewrite <- (Hb (S i) e Hi). f_equal. lia.
           ++ rewrite <- H1. f_equal. simpl. lia.
      * rewrite bool_decide_false; [done|]. intros Hpre. apply Hne. by eapply prefix_cons_inv_1.
Qed.

(** ** Building *)

(** The calls of [sub_malloc] from [h] return the addresses and leave [h']. *)
Fixpoint hands_out (h : MyAlloc.kheap) (addrs : list Z) (h' : MyAlloc.kheap) : Prop :=
  match addrs with
  | [] => h' = h
  | a :: addrs => exists h1, MyAlloc.sub_malloc h TREE_SIZE false = Ret (h1, a) /\ hands_out h1 addrs h'
  end.

Section build.
Context (L : tar_layout) (P : Z -> Prop).

(** The places of nodes: the same or apart, and apart from the archive. *)
Record places : Prop := {
  pl_root : P (rootfs L);
  pl_range : forall a, P a -> 0 < a /\ a + TREE_SIZE < 2 ^ 64;
  pl_apart : forall a b, P a -> P b -> a = b \/ apart a TREE_SIZE b TREE_SIZE;
  pl_archive : forall a, P a ->
    apart (binary_tarfs_start L) (binary_tarfs_end L + USTAR_SIZE - binary_tarfs_start L) a TREE_SIZE
}.
Context (HP : places).

(** A tree all of whose nodes have places. *)
Definition placed (m : bytes) (t : tree) : Prop := tree_in m t /\ forall a, is_Some (t !! a) -> P a.

Lemma add_node_spec header st p temp h' t t' s :
  placed (tar_mem st) t -> MyAlloc.sub_malloc (tar_heap st) TREE_SIZE false = Ret (h', temp) -> P temp ->
  cstr (tar_mem st) header s -> (length s < 50)%nat -> binary_tarfs_start L <= header <= binary_tarfs_end L ->
  attach (<[temp := Node s []]> t) p temp = Some t' ->
  exists st', add_node header p st = Ret (st', temp) /\ placed (tar_mem st') t' /\ tar_heap st' = h' /\ pwd st' = pwd st /\
    file_count st' = file_count st /\ forall y, (forall a, P a -> apart y 1 a TREE_SIZE) -> tar_mem st' y = tar_mem st y.
Proof.
  intros [Ht Hpl] Em Pt Hs Hl Hh Ha. unfold add_node. rewrite Em, bind_Ret. cbn [fst snd].
  assert (apart header 100 temp TREE_SIZE) as Hht
    by (pose proof (pl_archive HP temp Pt) as H; unfold apart, TREE_SIZE, USTAR_SIZE in *; lia).
  assert (cstr (memset (Z.to_nat TREE_SIZE) (tar_mem st) temp 0) header s) as Hs'.
  { eapply cstr_same; [exact Hs|]. intros y Hy. rewrite memset_spec, decide_False; [done|]. unfold apart, TREE_SIZE in *. lia. }
  pose proof STRING_BOUND_eq as HSB. rewrite (strlen_bounded _ _ _ Hs'), bind_Ret by lia. clear HSB.
  destruct (node_in_fresh (tar_mem st) temp header s Hs Hl Hht) as [Hnew Hm]. cbv zeta in *.
  set (m := strncpy _ temp header _) in *. clearbody m. clear Hs'.
  assert (forall a x, <[temp := Node s []]> t !! a = Some x -> node_in m a x /\ P a) as Ht1.
  { intros a x Hx. apply lookup_insert_Some in Hx as [[<- <-]|[Hne Hx]]; [split; [exact Hnew|exact Pt]|].
    specialize (Hpl a (mk_is_Some _ _ Hx)). split; [|exact Hpl]. eapply node_in_same; [exact (Ht a x Hx)|]. intros y Hy. apply Hm.
    destruct (pl_apart HP a temp Hpl Pt) as [E|Hap]; [exact (False_ind _ (Hne (eq_sym E)))|]. unfold apart in *. lia. }
  unfold attach in Ha. destruct (_ !! p) as [x|] eqn:Ep; [|done]. destruct (decide _) as [Hc|]; [|done]. injection Ha as <-.
  destruct (Ht1 p x Ep) as [Hx Pp]. pose proof (pl_range HP p Pp). pose proof (pl_range HP temp Pt). unfold TREE_SIZE in *.
  destruct (node_in_attach m p x temp Hx Hc ltac:(lia) ltac:(lia)) as (c & -> & Hy & Hm'). cbv zeta in *. rewrite bind_Ret.
  set (m2 := store32 _ (p + 296) _) in *. clearbody m2.
  assert (forall a z, <[p := Node (n_name x) (n_children x ++ [temp])]> (<[temp := Node s []]> t) !! a = Some z ->
    node_in m2 a z /\ P a) as Ht2.
  { intros a z Hz. apply lookup_insert_Some in Hz as [[<- <-]|[Hne Hz]]; [split; [exact Hy|exact Pp]|].
    destruct (Ht1 a z Hz) as [Hz' Pa]. split; [|exact Pa]. eapply node_in_same; [exact Hz'|]. intros y Hya. apply Hm'. destruct (pl_apart HP a p Pa Pp) as [E|Hap]; [exact (False_ind _ (Hne (eq_sym E)))|].
    unfold apart, TREE_SIZE in *. lia. }
  eexists. split; [done|]. cbn [tar_mem tar_heap pwd file_count].
  split_and!; [split; [intros a z Hz; exact (proj1 (Ht2 a z Hz))|intros a [z Hz]; exact (proj2 (Ht2 a z Hz))]|done..|].
  - intros y Hy'. rewrite Hm' by (by apply Hy'). apply Hm. by apply Hy'.
Qed.

Lemma attach_dom t p a t' b : attach t p a = Some t' -> is_Some (t !! b) -> is_Some (t' !! b).
Proof.
  unfold attach. destruct (t !! p); [|done]. destruct (decide _); [|done]. intros [= <-] Hb.
  destruct (decide (b = p)) as [->|]; [rewrite lookup_insert_eq; by eexists|by rewrite lookup_insert_ne].
Qed.

Lemma tree_from_spec h' : forall l addrs n header old st t t',
  archive (tar_mem st) (binary_tarfs_end L) header l -> Forall unpadded l -> Forall (fun e => length (e_name e) < 50)%nat l ->
  (length l <= n)%nat -> length addrs = length l -> Forall P addrs -> hands_out (tar_heap st) addrs h' ->
  placed (tar_mem st) t -> is_Some (t !! rootfs L) -> is_Some (t !! old) -> grow (rootfs L) t old (zip l addrs) = Some t' ->
  binary_tarfs_start L <= header -> binary_tarfs_end L < 2 ^ 63 ->
  exists st', tree_from n L old header st = Ret st' /\ placed (tar_mem st') t' /\ tar_heap st' = h' /\ pwd st' = pwd st /\
    file_count st' = file_count st /\ forall y, (forall a, P a -> apart y 1 a TREE_SIZE) -> tar_mem st' y = tar_mem st y.
Proof.
  induction l as [|e l IH]; intros addrs n header old st t t' Ha Hu Hn50 Hn Hlen Hadr Hout Ht Hroot Hold Hg Hst He63.
  - destruct addrs; [|done]. simpl in Ha, Hout, Hg. injection Hg as <-. subst h'. exists st.
    destruct n; simpl; by rewrite (proj2 (Z.ltb_lt _ _)).
  - destruct addrs as [|a addrs]; [done|]. destruct n as [|n]; [simpl in Hn; lia|].
    pose proof Ha as (Hh & Hnm & Hnl & Ho & Hs & Ha'). apply Forall_cons in Hu as [He Hu]. apply Forall_cons in Hn50 as [Hn5 Hn50].
    apply Forall_cons in Hadr as [Pa Hadr]. destruct Hout as (h1 & Em & Hout). cbn [zip zip_with grow] in Hg.
    destruct (attach _ _ a) as [t1|] eqn:Ea; [|done]. destruct Hold as [x Hx].
    cbn [tree_from]. rewrite (proj2 (Z.ltb_ge _ _)) by lia.
    pose proof (proj1 Ht old x Hx) as [Hxn Hxl _ _ _]. pose proof STRING_BOUND_eq as HSB.
    rewrite (strlen_bounded _ _ _ Hxn), bind_Ret, Nat2Z.id, (strncmp_prefix _ _ _ _ _ Hxn Hnm) by lia. clear HSB.
    rewrite (header_size_octal _ _ _ Ho), bind_Ret by done.
    assert ((if negb (bool_decide (n_name x `prefix_of` e_name e)) then rootfs L else old) = parent (rootfs L) t old (e_name e)) as ->.
    { unfold parent. rewrite Hx. case_decide; [by rewrite bool_decide_true|by rewrite bool_decide_false]. }
    destruct (add_node_spec header st _ a h1 t t1 (e_name e) Ht Em Pa Hnm Hn5 ltac:(lia) Ea)
      as (st1 & -> & Ht1 & Hh1 & Hp1 & Hc1 & Hm1). rewrite bind_Ret. cbn [fst snd].
    assert (archive (tar_mem st1) (binary_tarfs_end L) header (e :: l)) as Ha1.
    { eapply archive_same; [exact Ha|]. intros y Hy. apply Hm1. intros b Pb. pose proof (pl_archive HP b Pb) as H.
      unfold apart, USTAR_SIZE in *. lia. }
    destruct Ha1 as (_ & _ & _ & Ho1 & _ & Ha1). rewrite (next_header_unpadded _ _ _ Ho1), bind_Ret by (done || lia).
    pose proof (padded_range (e_size e) ltac:(lia)). rewrite <- Hh1 in Hout.
    assert (forall b, is_Some (t !! b) -> is_Some (t1 !! b)) as Hdom.
    { intros b Hb. eapply attach_dom; [exact Ea|]. destruct (decide (b = a)) as [->|];
        [rewrite lookup_insert_eq; by eexists|by rewrite lookup_insert_ne]. }
    destruct (IH addrs n (header + USTAR_SIZE + padded (e_size e)) (if 0 <? e_size e then old else a) st1 t1 t'
      Ha1 Hu Hn50 ltac:(simpl in Hn; lia) ltac:(simpl in Hlen; lia) Hadr Hout Ht1 (Hdom _ Hroot)) as (st' & E & Ht' & Hh2 & Hp & Hc & Hm);
      [|exact Hg|unfold USTAR_SIZE; lia|exact He63|].
    { destruct (0 <? e_size e); [apply Hdom; by exists x|]. eapply attach_dom; [exact Ea|]. rewrite lookup_insert_eq. by eexists. }
    exists st'. split; [exact E|]. split; [done|]. split; [done|]. split; [congruence|]. split; [congruence|].
    intros y Hy. by rewrite Hm, Hm1.
Qed.
End build.

(** ** On a heap that has given out nothing *)

Record fresh_heap (h : MyAlloc.kheap) : Prop := {
  fh_base : MyAlloc.base h = 0;
  fh_last : MyAlloc.last h = 0;
  fh_pages : prev_no_pages (MyAlloc.vm h) = 0
}.

Lemma room_mono v e e' : room v e' -> e <= e' -> room v e.
Proof. intros [H0 H1] He. split; [done|]. Z.to_euclidean_division_equations. lia. Qed.

Lemma last_slot_mono n m : 0 <= n <= m -> last_slot n <= last_slot m.
Proof. intros H. unfold last_slot. Z.to_euclidean_division_equations. lia. Qed.

Lemma nodes_handed_from v k : forall h n,
  0 <= n -> node_heap v h (last_slot n) (again n) -> room v (last_slot (n + Z.of_nat k)) ->
  exists h', hands_out h (node_addr v <$> seqZ (n + 1) (Z.of_nat k)) h'.
Proof.
  induction k as [|k IH]; intros h n Hn HN Hr; [by exists h|].
  destruct (malloc_next v h n Hn HN) as (h1 & E & HN1); [eapply room_mono; [exact Hr|apply last_slot_mono; lia]|].
  destruct (IH h1 (n + 1) ltac:(lia) HN1) as (h' & H).
  { by replace (n + 1 + Z.of_nat k) with (n + Z.of_nat (S k)) by lia. }
  exists h'. rewrite seqZ_cons by lia. cbn [fmap list_fmap hands_out]. exists h1. split; [exact E|].
  replace (Z.succ (n + 1)) with (n + 1 + 1) by lia. by replace (Z.pred (Z.of_nat (S k))) with (Z.of_nat k) by lia.
Qed.

Lemma nodes_handed h k :
  fresh_heap h -> room (MyAlloc.vm h) (last_slot (Z.of_nat k)) ->
  exists h', hands_out h (node_addr (MyAlloc.vm h) <$> seqZ 0 (Z.of_nat k)) h'.
Proof.
  intros [Hb Hl Hp] Hr. destruct k as [|k]; [by exists h|]. set (v := MyAlloc.vm h) in *.
  destruct (malloc_first v h Hb Hl eq_refl Hp) as (h1 & E & HN).
  { eapply room_mono; [exact Hr|]. change 1 with (last_slot 0). apply last_slot_mono. lia. }
  destruct (nodes_handed_from v k h1 0 ltac:(lia) HN) as (h' & H).
  { eapply room_mono; [exact Hr|]. apply last_slot_mono. lia. }
  exists h'. rewrite seqZ_cons by lia. cbn [fmap list_fmap hands_out]. exists h1. split; [exact E|].
  by replace (Z.pred (Z.of_nat (S k))) with (Z.of_nat k) by lia.
Qed.

(** The pages the first [n] nodes lie on. *)
Definition node_pages (n : Z) : Z := 4096 * (1 + n / 13).

Lemma node_addr_range v n i :
  0 <= i <= n -> bump_addr v + 4096 <= node_addr v i /\ node_addr v i + TREE_SIZE <= bump_addr v + 4096 + node_pages n.
Proof. intros Hi. unfold node_addr, slot, node_pages, TREE_SIZE. Z.to_euclidean_division_equations. lia. Qed.

Lemma node_addr_apart v i j :
  0 <= i -> 0 <= j -> node_addr v i = node_addr v j \/ apart (node_addr v i) TREE_SIZE (node_addr v j) TREE_SIZE.
Proof.
  intros Hi Hj. unfold node_addr. set (a := 13 * (i / 13) + _). set (b := 13 * (j / 13) + _).
  destruct (decide (a = b)) as [->|Hne]; [by left|]. right. unfold apart, slot, TREE_SIZE.
  assert (0 <= a mod 13 <= 11 /\ 0 <= b mod 13 <= 11) by (unfold a, b; Z.to_euclidean_division_equations; lia).
  clearbody a b. Z.to_euclidean_division_equations. lia.
Qed.

Definition root_name : list Z := [114; 111; 111; 116; 102; 115; 47].

Section init.
Context (L : tar_layout) (rootfs_name : Z) (st : tarfs) (l : list entry).
Let v : vmm := MyAlloc.vm (tar_heap st).
Let N : Z := Z.of_nat (length l).

(** What [init_tarfs] finds: the archive, the cleared root, the literal with its
    name, and a fresh heap whose pages are apart from all of them. *)
Record unpacked : Prop := {
  up_archive : archive (tar_mem st) (binary_tarfs_end L) (binary_tarfs_start L) l;
  up_unpadded : Forall unpadded l;
  up_names : Forall (fun e => length (e_name e) < 50)%nat l;
  up_range : binary_tarfs_start L <= binary_tarfs_end L < 2 ^ 63;
  up_root : 0 < rootfs L < 2 ^ 63;
  up_cleared : forall y, rootfs L <= y < rootfs L + TREE_SIZE -> tar_mem st y = 0;
  up_literal : cstr (tar_mem st) rootfs_name root_name;
  up_heap : fresh_heap (tar_heap st);
  up_room : room v (last_slot N);
  up_apart1 : apart rootfs_name 8 (rootfs L) TREE_SIZE;
  up_apart2 : apart (binary_tarfs_start L) (binary_tarfs_end L + USTAR_SIZE - binary_tarfs_start L) (rootfs L) TREE_SIZE;
  up_apart3 : apart (binary_tarfs_start L) (binary_tarfs_end L + USTAR_SIZE - binary_tarfs_start L) (bump_addr v + 4096) (node_pages N);
  up_apart4 : apart (rootfs L) TREE_SIZE (bump_addr v + 4096) (node_pages N)
}.

Definition node_addrs : list Z := node_addr v <$> seqZ 0 N.
Definition place (a : Z) : Prop := a = rootfs L \/ exists i, 0 <= i < N /\ a = node_addr v i.

Lemma unpacked_places : unpacked -> places L place.
Proof.
  intros [_ _ _ Hr Hroot _ _ _ [Hb Hb64] _ A2 A3 A4]. unfold last_slot in Hb64.
  assert (bump_addr v + 4096 + node_pages N + 2 ^ 17 < 2 ^ 64) as Hend
    by (unfold node_pages; Z.to_euclidean_division_equations; lia). clear Hb64.
  assert (forall i, 0 <= i < N -> bump_addr v + 4096 <= node_addr v i /\ node_addr v i + TREE_SIZE <= bump_addr v + 4096 + node_pages N) as Hn
    by (intros i Hi; apply node_addr_range; lia).
  unfold TREE_SIZE in *. split.
  - by left.
  - unfold TREE_SIZE. intros a [->|(i & Hi & ->)]; [lia|]. specialize (Hn i Hi). lia.
  - unfold TREE_SIZE. intros a b [->|(i & Hi & ->)] [->|(j & Hj & ->)].
    + by left.
    + right. specialize (Hn j Hj). unfold apart in *. lia.
    + right. specialize (Hn i Hi). unfold apart in *. lia.
    + apply node_addr_apart; lia.
  - unfold TREE_SIZE. intros a [->|(i & Hi & ->)]; [done|]. specialize (Hn i Hi). unfold apart in *. lia.
Qed.

(** The root before the first entry. *)
Lemma root_in : unpacked ->
  let m := strncpy (tar_mem st) (rootfs L) rootfs_name 7 in
  placed place m {[rootfs L := Node root_name []]} /\ forall y, apart y 1 (rootfs L) TREE_SIZE -> m y = tar_mem st y.
Proof.
  intros [_ _ _ _ _ Hz Hlit _ _ A1 _ _ _] m. unfold TREE_SIZE in *.
  assert (forall y, m y = if decide (rootfs L <= y < rootfs L + 7) then tar_mem st (y + (rootfs_name - rootfs L)) else tar_mem st y) as Hm.
  { intros y. unfold m, strncpy. change (Z.to_nat 7) with 7%nat. rewrite memcpy_apart; [done|]. unfold apart in *. lia. }
  clearbody m. split; [split|].
  - intros a x Hx. apply lookup_singleton_Some in Hx as [<- <-]. destruct Hlit as (Hb & Hf & He).
    split; cbn [n_name n_children length]; [|simpl; lia| |lia|by intros i c Hi].
    + split_and!; [|done|].
      * intros i c Hi. pose proof (lookup_lt_Some _ _ _ Hi) as Hl. simpl in Hl. rewrite Hm, decide_True by lia.
        rewrite <- (Hb i c Hi). f_equal. lia.
      * simpl. rewrite Hm, decide_False by lia. apply Hz. lia.
    + apply load_le_zero. intros k Hk. rewrite Hm, decide_False by lia. apply Hz. lia.
  - intros a [x Hx]. apply lookup_singleton_Some in Hx as [<- _]. by left.
  - intros y Hy. unfold apart in Hy. by rewrite Hm, decide_False by lia.
Qed.

Lemma init_tarfs_spec t :
  unpacked -> grow (rootfs L) {[rootfs L := Node root_name []]} (rootfs L) (zip l node_addrs) = Some t ->
  exists st', init_tarfs L rootfs_name st = Ret st' /\ tree_in (tar_mem st') t /\ pwd st' = rootfs L /\
    file_count st' = file_count st /\ archive (tar_mem st') (binary_tarfs_end L) (binary_tarfs_start L) l.
Proof.
  intros HU Hg. pose proof (unpacked_places HU) as HP. destruct (root_in HU) as [Hroot Hm].
  destruct HU as [Ha Hu Hn [Hr Hr63] _ _ _ Hh Hroom _ A2 A3 _].
  destruct (nodes_handed (tar_heap st) (length l) Hh Hroom) as (h' & Hout).
  unfold init_tarfs. cbv zeta. set (m := strncpy _ _ _ _) in *. clearbody m.
  set (st1 := with_tar_mem (with_pwd st (rootfs L)) m).
  destruct (tree_from_spec L place HP h' l node_addrs (WALK_BOUND L) (binary_tarfs_start L) (rootfs L) st1
    {[rootfs L := Node root_name []]} t) as (st' & E & [Ht _] & _ & Hp & Hc & Hm').
  - eapply archive_same; [exact Ha|]. intros y Hy. apply Hm. unfold apart, USTAR_SIZE in *. lia.
  - done.
  - done.
  - eapply walk_bound; [exact Ha|exact Hr].
  - unfold node_addrs. rewrite length_fmap, length_seqZ. unfold N. lia.
  - apply Forall_fmap, Forall_forall. intros i Hi%elem_of_seqZ. right. exists i. split; [lia|done].
  - exact Hout.
  - exact Hroot.
  - rewrite lookup_singleton_eq. by eexists.
  - rewrite lookup_singleton_eq. by eexists.
  - exact Hg.
  - lia.
  - lia.
  - exists st'. split; [exact E|]. split; [exact Ht|]. split; [exact Hp|]. split; [exact Hc|].
    eapply archive_same; [exact Ha|]. intros y Hy. rewrite Hm'.
    + apply Hm. unfold apart, USTAR_SIZE in *. lia.
    + intros a Pa. pose proof (pl_archive L place HP a Pa) as H. unfold apart, USTAR_SIZE in *. lia.
Qed.
End init.

(** ** What later entries leave *)

Lemma attach_Some t p a t' :
  attach t p a = Some t' -> exists x, t !! p = Some x /\ t' = <[p := Node (n_name x) (n_children x ++ [a])]> t.
Proof.
  unfold attach. destruct (t !! p) as [x|]; [|done]. destruct (decide _); [|done]. intros [= <-]. by exists x.
Qed.

(** A node whose place is not given out again keeps its name and its children. *)
Lemma grow_keeps root l : forall t old t' b x,
  grow root t old l = Some t' -> b ∉ l.*2 -> t !! b = Some x ->
  exists c, t' !! b = Some (Node (n_name x) (n_children x ++ c)).
Proof.
  induction l as [|[e a] l IH]; intros t old t' b x Hg Hb Hx.
  - injection Hg as <-. exists []. rewrite app_nil_r. by destruct x.
  - cbn [grow] in Hg. destruct (attach _ _ a) as [t1|] eqn:Ea; [|done]. apply attach_Some in Ea as (y & Hy & ->).
    apply not_elem_of_cons in Hb as [Hba Hb]. cbn [snd] in Hba. destruct (decide (b = parent root t old (e_name e))) as [E|Hne].
    + rewrite <- E in *. rewrite lookup_insert_ne, Hx in Hy by done. injection Hy as <-.
      destruct (IH _ _ _ b _ Hg Hb (lookup_insert_eq _ _ _)) as [c Hc]. exists ([a] ++ c). rewrite Hc. cbn [n_name n_children].
      by rewrite <- app_assoc.
    + apply (IH _ _ _ b x Hg Hb). by rewrite !lookup_insert_ne by done.
Qed.

(** Every node has the name of an entry or of a node there was before. *)
Lemma grow_names root l : forall t old t' a y,
  grow root t old l = Some t' -> t' !! a = Some y ->
  n_name y ∈ e_name <$> l.*1 \/ exists b x, t !! b = Some x /\ n_name x = n_name y.
Proof.
  induction l as [|[e a0] l IH]; intros t old t' a y Hg Hy.
  - injection Hg as <-. right. by exists a, y.
  - cbn [grow] in Hg. destruct (attach _ _ a0) as [t1|] eqn:Ea; [|done]. apply attach_Some in Ea as (z & Hz & ->).
    assert (forall b x, <[a0 := Node (e_name e) []]> t !! b = Some x ->
      n_name x = e_name e \/ exists b x', t !! b = Some x' /\ n_name x' = n_name x) as Hold.
    { intros b x Hx. apply lookup_insert_Some in Hx as [[_ <-]|[_ Hx]]; [by left|right; by exists b, x]. }
    cbn [fmap list_fmap fst]. destruct (IH _ _ _ a y Hg Hy) as [H|(b & x & Hx & Hn)]; [left; by apply elem_of_cons; right|].
    apply lookup_insert_Some in Hx as [[_ <-]|[_ Hx]].
    + cbn [n_name] in Hn. destruct (Hold _ z Hz) as [E|(b' & x' & H1 & H2)]; [left; apply elem_of_cons; left; congruence|].
      right. exists b', x'. split; [done|congruence].
    + destruct (Hold _ x Hx) as [E|(b' & x' & H1 & H2)]; [left; apply elem_of_cons; left; congruence|].
      right. exists b', x'. split; [done|congruence].
Qed.

(** After a directory and the next entry, when both get the node [n]. *)
Definition first_two (root n : Z) (d s : list Z) : tree :=
  if decide (d `prefix_of` s) then <[n := Node s [n]]> {[root := Node root_name [n]]}
  else <[n := Node s []]> {[root := Node root_name [n; n]]}.

Lemma grow_first_two root n d s size l :
  n <> root ->
  grow root {[root := Node root_name []]} root ((Entry d 0, n) :: (Entry s size, n) :: l) = grow root (first_two root n d s) n l.
Proof.
  intros Hn. cbn [grow e_name e_size Z.ltb Z.compare].
  assert (parent root {[root := Node root_name []]} root d = root) as -> by (unfold parent; rewrite lookup_singleton_eq; by case_decide).
  unfold attach at 1. rewrite lookup_insert_ne, lookup_singleton_eq by done. cbn [n_children n_name length].
  rewrite decide_True by lia. cbn [app].
  assert (<[root := Node root_name [n]]> (<[n := Node d []]> {[root := Node root_name []]}) =
    <[n := Node d []]> ({[root := Node root_name [n]]} : tree)) as -> by (rewrite insert_insert_ne by done; by rewrite insert_singleton_eq).
  rewrite insert_insert_eq. unfold parent, first_two. rewrite lookup_insert_eq. cbn [n_name]. case_decide.
  - unfold attach. rewrite lookup_insert_eq. cbn [n_children n_name length].
    rewrite decide_True by lia. cbn [app]. rewrite insert_insert_eq. by destruct (0 <? size).
  - unfold attach. rewrite lookup_insert_ne, lookup_singleton_eq by done. cbn [n_children n_name length].
    rewrite decide_True by lia. cbn [app]. rewrite insert_insert_ne, insert_singleton_eq by done. by destruct (0 <? size).
Qed.

Lemma node_addrs_two st e1 e2 l :
  exists r, node_addrs st (e1 :: e2 :: l) = node_addr (MyAlloc.vm (tar_heap st)) 0 :: node_addr (MyAlloc.vm (tar_heap st)) 0 :: r /\
    node_addr (MyAlloc.vm (tar_heap st)) 0 ∉ r.
Proof.
  unfold node_addrs. cbn [length]. exists (node_addr (MyAlloc.vm (tar_heap st)) <$> seqZ 2 (Z.of_nat (length l))). split.
  - rewrite !seqZ_cons by lia. cbn [fmap list_fmap]. f_equal. f_equal. do 2 f_equal; lia.
  - intros H. apply list_elem_of_fmap in H as (i & E & Hi%elem_of_seqZ). unfold node_addr in E.
    change (13 * (0 / 13) + Z.max 0 (0 mod 13 - 1)) with 0 in E.
    assert (slot (MyAlloc.vm (tar_heap st)) 0 = slot (MyAlloc.vm (tar_heap st)) (13 * (i / 13) + Z.max 0 (i mod 13 - 1))) as Es by lia.
    apply node_slot_inj in Es; Z.to_euclidean_division_equations; lia.
Qed.

Lemma root_not_node L rootfs_name st l : unpacked L rootfs_name st l -> rootfs L ∉ node_addrs st l.
Proof.
  intros [_ _ _ _ _ _ _ _ _ _ _ _ A4] H. apply list_elem_of_fmap in H as (i & E & Hi%elem_of_seqZ).
  pose proof (node_addr_range (MyAlloc.vm (tar_heap st)) (Z.of_nat (length l)) i ltac:(lia)) as Hr.
  rewrite <- E in Hr. unfold apart, TREE_SIZE in *. lia.
Qed.

Lemma not_in_zip l r (a : Z) : a ∉ r -> a ∉ (zip (l : list entry) r).*2.
Proof. intros Ha H. apply Ha. apply list_elem_of_fmap in H as ([x y] & -> & H). by eapply elem_of_zip_r. Qed.

(** The root and the node in the end. *)
Lemma grow_directory_lost root n d s size l r t :
  n <> root -> n ∉ r -> root ∉ r ->
  grow root {[root := Node root_name []]} root ((Entry d 0, n) :: (Entry s size, n) :: zip l r) = Some t ->
  (exists c, t !! root = Some (Node root_name (n :: (if decide (d `prefix_of` s) then [] else [n]) ++ c))) /\
  (exists c, t !! n = Some (Node s ((if decide (d `prefix_of` s) then [n] else []) ++ c))) /\
  (s <> d -> d <> root_name -> d ∉ e_name <$> l -> forall a x, t !! a = Some x -> n_name x <> d).
Proof.
  intros Hn Hnr Hrr Hg. rewrite grow_first_two in Hg by done. set (t2 := first_two root n d s) in Hg.
  assert (t2 !! n = Some (Node s (if decide (d `prefix_of` s) then [n] else []))) as En.
  { unfold t2, first_two. case_decide; apply lookup_insert_eq. }
  assert (t2 !! root = Some (Node root_name (n :: (if decide (d `prefix_of` s) then [] else [n])))) as Eroot.
  { unfold t2, first_two. case_decide; (rewrite lookup_insert_ne by done; apply lookup_singleton_eq). }
  split; [exact (grow_keeps _ _ _ _ _ _ _ Hg (not_in_zip l r _ Hrr) Eroot)|].
  split; [exact (grow_keeps _ _ _ _ _ _ _ Hg (not_in_zip l r _ Hnr) En)|].
  intros Hsd Hdr Hdl a x Hx Hxd. destruct (grow_names _ _ _ _ _ a x Hg Hx) as [H|(b & y & Hy & Hyn)].
  - apply Hdl. rewrite Hxd in H. apply list_elem_of_fmap in H as (e & -> & He). apply list_elem_of_fmap.
    exists e. split; [done|]. apply list_elem_of_fmap in He as ([x1 y1] & -> & He). by eapply elem_of_zip_l.
  - destruct (decide (b = n)) as [->|Hb]; [rewrite En in Hy; injection Hy as <-; cbn [n_name] in Hyn; congruence|].
    assert (b = root) as ->; [|rewrite Eroot in Hy; injection Hy as <-; cbn [n_name] in Hyn; congruence].
    unfold t2, first_two in Hy. case_decide; (rewrite lookup_insert_ne in Hy by done; by apply lookup_singleton_Some in Hy as [<- _]).
Qed.

(** ** Claims *)

(** C13: [init_tarfs] stops on every archive without sizes that are positive
    multiples of 512, whose names fit the nodes and no node of which gets more
    than 30 children, and leaves in memory the tree that taking the entries in
    order gives: each becomes a child of the last directory when that one's name
    is a prefix of its own, else of the root; its node is at the address
    [sub_malloc] gives on a heap it is the first to use, twelve nodes to a page.
    The archive itself is unchanged. *)
Theorem init_tarfs_builds_tree L rootfs_name st l t :
  unpacked L rootfs_name st l ->
  grow (rootfs L) {[rootfs L := Node root_name []]} (rootfs L) (zip l (node_addrs st l)) = Some t ->
  exists st', init_tarfs L rootfs_name st = Ret st' /\ tree_in (tar_mem st') t /\ pwd st' = rootfs L /\
    file_count st' = file_count st /\ archive (tar_mem st') (binary_tarfs_end L) (binary_tarfs_start L) l.
Proof. apply init_tarfs_spec. Qed.

(** C14: the chunk a page starts with is not marked when it is first handed out,
    so the first two entries of an archive get the same node.  When the first is
    a directory, it is gone: the root's first child is the entry that follows.
    If that entry is in the directory, it is also its own first child; if not,
    as the second directory of the archive in the repository, it is the root's
    second child too.  Whatever follows, no node of the tree has the first
    directory's name unless a later entry has it. *)
Theorem first_directory_lost L rootfs_name st d s size l t :
  let l0 := Entry d 0 :: Entry s size :: l in
  unpacked L rootfs_name st l0 ->
  grow (rootfs L) {[rootfs L := Node root_name []]} (rootfs L) (zip l0 (node_addrs st l0)) = Some t ->
  let n := node_addr (MyAlloc.vm (tar_heap st)) 0 in
  exists st', init_tarfs L rootfs_name st = Ret st' /\ tree_in (tar_mem st') t /\
    load64 (tar_mem st') (rootfs L + 56) = n /\ cstr (tar_mem st') n s /\
    (if decide (d `prefix_of` s) then load64 (tar_mem st') (n + 56) = n else load64 (tar_mem st') (rootfs L + 56 + 8) = n) /\
    (s <> d -> d <> root_name -> d ∉ e_name <$> l -> forall a x, t !! a = Some x -> n_name x <> d).
Proof.
  intros l0 HU Hg n. destruct (init_tarfs_spec L rootfs_name st l0 t HU Hg) as (st' & E & Ht & _).
  exists st'. split; [exact E|]. split; [exact Ht|].
  destruct (node_addrs_two st (Entry d 0) (Entry s size) l) as (r & Er & Hr).
  pose proof (root_not_node L rootfs_name st l0 HU) as Hroot. fold l0 in Er. rewrite Er in Hroot, Hg. fold n in Hroot, Hg, Hr.
  apply not_elem_of_cons in Hroot as [Hn Hroot]. apply not_elem_of_cons in Hroot as [_ Hroot].
  destruct (grow_directory_lost (rootfs L) n d s size l r t (not_eq_sym Hn) Hr Hroot Hg) as ((c1 & E1) & (c2 & E2) & Hno).
  pose proof (Ht _ _ E1) as [_ _ _ _ Hch1]. pose proof (Ht _ _ E2) as [Hnm _ _ _ Hch2].
  pose proof (Hch1 0%nat n eq_refl) as H1. change (8 * Z.of_nat 0) with 0 in H1. rewrite Z.add_0_r in H1.
  split; [exact H1|]. split; [exact Hnm|]. split; [|exact Hno]. case_decide.
  - pose proof (Hch2 0%nat n eq_refl) as H2. change (8 * Z.of_nat 0) with 0 in H2. by rewrite Z.add_0_r in H2.
  - exact (Hch1 1%nat n eq_refl).
Qed.

(** The directory ["d/"] and the file ["d/f"], of three characters; the literal
    ["rootfs/"] at 0x5000, the root at 0x6000. *)
Definition small_bytes : bytes :=
  patch (patch (patch (patch (patch (fun _ => 0) 0x1000 [100; 47]) 0x107C [48]) 0x1200 [100; 47; 102]) 0x127C [51]) 0x5000 root_name.
Definition small_layout : tar_layout := TarLayout 0x1000 0x1500 0x6000 0x8000 0xA000 0x7000.
Definition small_tarfs : tarfs := Tarfs small_bytes 0 1 (MyAlloc.KHeap ∅ 0 0 MyAlloc.demo_vm).
Definition small_entries : list entry := [Entry [100; 47] 0; Entry ([100; 47] ++ [102]) 3].

Lemma small_unpacked : unpacked small_layout 0x5000 small_tarfs small_entries.
Proof.
  split.
  - apply (archive_step _ _ 0x1000 [100; 47] 0 [0]); [by_computation || reflexivity..|].
    apply (archive_step _ _ (0x1000 + USTAR_SIZE + padded 0) [100; 47; 102] 3 [3]); [by_computation || reflexivity..|]. reflexivity.
  - by_computation.
  - by_computation.
  - by_computation.
  - by_computation.
  - intros y Hy. cbn [rootfs small_layout] in Hy. unfold TREE_SIZE in Hy. cbn [tar_mem small_tarfs]. unfold small_bytes.
    rewrite !patch_out; [done|unfold apart; simpl; lia..].
  - apply cstr_check_sound. reflexivity.
  - by split.
  - split; by_computation.
  - by_computation.
  - by_computation.
  - by_computation.
  - by_computation.
Qed.

Definition small_node : Z := 0xFFFFFFFF82C01010.

Example init_tarfs_builds_tree_witness :
  exists st' t, init_tarfs small_layout 0x5000 small_tarfs = Ret st' /\ tree_in (tar_mem st') t /\
    t !! 0x6000 = Some (Node root_name [small_node]).
Proof.
  destruct (init_tarfs_builds_tree small_layout 0x5000 small_tarfs small_entries
    (<[small_node := Node [100; 47; 102] [small_node]]> {[0x6000 := Node root_name [small_node]]})) as (st' & E & Ht & _).
  - exact small_unpacked.
  - vm_compute. reflexivity.
  - eexists st', _. split; [exact E|]. split; [exact Ht|]. reflexivity.
Defined.

(** The start of the archive in the repository: ["etc/"] and ["bin/"], and a file
    of [bin], here shorter than there. *)
Definition repo_bytes : bytes :=
  fold_right (fun (p : Z * list Z) m => patch m p.1 p.2) (fun _ => 0)
    [(0x1000, [101; 116; 99; 47]); (0x107C, [48]); (0x1200, [98; 105; 110; 47]); (0x127C, [48]);
     (0x1400, [98; 105; 110; 47; 108; 115]); (0x147C, [51]); (0x5000, root_name)].
Definition repo_layout : tar_layout := TarLayout 0x1000 0x1700 0x6000 0x8000 0xA000 0x7000.
Definition repo_tarfs : tarfs := Tarfs repo_bytes 0 1 (MyAlloc.KHeap ∅ 0 0 MyAlloc.demo_vm).
Definition repo_entries : list entry := [Entry [101; 116; 99; 47] 0; Entry [98; 105; 110; 47] 0; Entry [98; 105; 110; 47; 108; 115] 3].

Lemma repo_unpacked : unpacked repo_layout 0x5000 repo_tarfs repo_entries.
Proof.
  split.
  - apply (archive_step _ _ 0x1000 [101; 116; 99; 47] 0 [0]); [by_computation || reflexivity..|].
    apply (archive_step _ _ (0x1000 + USTAR_SIZE + padded 0) [98; 105; 110; 47] 0 [0]); [by_computation || reflexivity..|].
    apply (archive_step _ _ (0x1000 + USTAR_SIZE + padded 0 + USTAR_SIZE + padded 0) [98; 105; 110; 47; 108; 115] 3 [3]);
      [by_computation || reflexivity..|]. reflexivity.
  - by_computation.
  - by_computation.
  - by_computation.
  - by_computation.
  - intros y Hy. cbn [rootfs repo_layout] in Hy. unfold TREE_SIZE in Hy. cbn [tar_mem repo_tarfs]. unfold repo_bytes. cbn [fold_right fst snd].
    rewrite !patch_out; [done|unfold apart; simpl; lia..].
  - apply cstr_check_sound. reflexivity.
  - by split.
  - split; by_computation.
  - by_computation.
  - by_computation.
  - by_computation.
  - by_computation.
Qed.

(** The root has [bin] twice, and [etc] is gone. *)
Example first_directory_lost_witness :
  exists st', init_tarfs repo_layout 0x5000 repo_tarfs = Ret st' /\ load64 (tar_mem st') 0x6038 = small_node /\
    load64 (tar_mem st') 0x6040 = small_node /\ cstr (tar_mem st') small_node [98; 105; 110; 47].
Proof.
  destruct (first_directory_lost repo_layout 0x5000 repo_tarfs [101; 116; 99; 47] [98; 105; 110; 47] 0 [Entry [98; 105; 110; 47; 108; 115] 3]
    (<[small_node + 336 := Node [98; 105; 110; 47; 108; 115] []]>
      (<[small_node := Node [98; 105; 110; 47] [small_node + 336]]> {[0x6000 := Node root_name [small_node; small_node]]})))
    as (st' & E & _ & H1 & H2 & H3 & _).
  - exact repo_unpacked.
  - vm_compute. reflexivity.
  - exists st'. split; [exact E|]. split; [exact H1|]. split; [exact H3|exact H2].
Defined.
