(* ===== verification/UserHeap.v ===== *)
(** * The heap of a user process (libc/malloc.c, libc/sbrk.c)

    libc's variant of the first-fit allocator, over the byte memory of the
    process and the break that the system call [sbrk] moves.  [sbrk] maps
    nothing, so an access to the heap may fault. *)

From S2P Require Import Prelude CString Memory.

(** ** State *)

(** [start] and [base] of malloc.c, and the [brk] of the process, an [int].
    The two variables lie in [.bss], which [do_exec] fills with the bytes that
    follow the data in the archive: they start with any value. *)
Record uheap := Uheap { user_mem : bytes; base : Z; start : Z; brk : Z }.
Definition with_user_mem (h : uheap) (m : bytes) : uheap := Uheap m (base h) (start h) (brk h).
Definition with_base (h : uheap) (p : Z) : uheap := Uheap (user_mem h) p (start h) (brk h).
Definition with_brk (h : uheap) (v : Z) : uheap := Uheap (user_mem h) (base h) (start h) v.

(** [struct metadata_block]: an [int], a pointer, an [int] and a 64-bit number,
    aligned. *)
Definition BLOCK_SIZE : Z := 32.

(** [#define align(x) (((x-1)>>3)<<3)+8] on an [int]. *)
Definition align (x : Z) : Z := s32 (Z.shiftl (Z.shiftr (x - 1) 3) 3 + 8).

(** [do_sbrk] of the kernel: the new break. *)
Definition sbrk (h : uheap) (pr : Z) : uheap * Z :=
  let h := if negb (pr =? 0) then with_brk h (s32 (brk h + pr)) else h in (h, brk h).

(** ** Operations

    [accessible] are the addresses the process can touch: those whose page is
    mapped, or is mapped by page_fault_handler when they fault.  At any other
    the handler kills the process, which is [Panic] here: the program goes no
    further. *)

Section operations.
Context (accessible : Z -> bool).

Definition touch (a n : Z) : bool := forallb accessible (seqZ a n).
Definition uload (n : nat) (m : bytes) (a : Z) : outcome Z := if touch a (Z.of_nat n) then Ret (load_le n m a) else Panic.
Definition ustore (n : Z) (m : bytes) (a v : Z) : outcome bytes := if touch a n then Ret (store_le n m a v) else Panic.

Definition get_size (m : bytes) (b : Z) : outcome Z := v ← uload 4 m b; Ret (s32 v).
Definition get_next (m : bytes) (b : Z) : outcome Z := uload 8 m (b + 8).
Definition get_free (m : bytes) (b : Z) : outcome Z := uload 4 m (b + 16).
Definition get_beg (m : bytes) (b : Z) : outcome Z := uload 8 m (b + 24).
Definition set_size (m : bytes) (b v : Z) : outcome bytes := ustore 4 m b (u32 v).
Definition set_next (m : bytes) (b v : Z) : outcome bytes := ustore 8 m (b + 8) (u64 v).
Definition set_free (m : bytes) (b v : Z) : outcome bytes := ustore 4 m (b + 16) v.

(** [while (b && !(b->free && b->size >= size)) { *last = b; b = b->next; }]:
    the last block passed and the one found. *)
Fixpoint find_block (n : nat) (m : bytes) (last b size : Z) : outcome (Z * Z) :=
  if b =? 0 then Ret (last, b) else
  f ← get_free m b;
  fits ← (if f =? 0 then Ret false else s ← get_size m b; Ret (size <=? s));
  if fits : bool then Ret (last, b) else
  match n with
  | O => Loops
  | S n => nx ← get_next m b; find_block n m b nx size
  end.

Definition extend_heap (h : uheap) (last size : Z) : outcome (uheap * Z) :=
  let b := u64 (sbrk h 0).2 in
  let h := (sbrk h (s32 (u64 (BLOCK_SIZE + size)))).1 in
  m ← set_size (user_mem h) b size;
  m ← set_next m b 0;
  m ← (if negb (last =? 0) then set_next m last b else Ret m);
  m ← set_free m b 0;
  Ret (with_user_mem h m, b).

(** [beg] is read but written nowhere. *)
Definition split_block (m : bytes) (b size : Z) : outcome bytes :=
  beg ← get_beg m b;
  let new := u64 (beg + size) in
  nx ← get_next m b;
  m ← set_next m new nx;
  sz ← get_size m b;
  m ← set_size m new (sz - size - BLOCK_SIZE);
  m ← set_free m new 1;
  m ← set_size m b size;
  set_next m b new.

(** The result is the address of the header.  The size that is printed is left
    out. *)
Definition malloc (n : nat) (h : uheap) (size : Z) : outcome (uheap * Z) :=
  let s := align size in
  let h := if negb (start h =? 0) then Uheap (user_mem h) 0 (s32 (start h + 1)) (brk h) else h in
  if negb (base h =? 0) then
    r ← find_block n (user_mem h) (base h) (base h) s;
    let b := r.2 in
    if negb (b =? 0) then
      let m := user_mem h in
      sz ← get_size m b;
      m ← (if BLOCK_SIZE + 4 <=? u64 (sz - s) then split_block m b s else Ret m);
      m ← set_free m b 0;
      Ret (with_user_mem h m, b)
    else
      let last := r.1 in
      m ← set_free (user_mem h) last 0;
      e ← extend_heap (with_user_mem h m) last s;
      m ← split_block (user_mem e.1) e.2 s;
      Ret (with_user_mem e.1 m, e.2)
  else
    e ← extend_heap h 0 s;
    if e.2 =? 0 then Ret e else Ret (with_base e.1 e.2, e.2).

(** ** A program that uses the heap *)

(** What it does between its calls: it stores bytes, wherever it can. *)
Inductive use := Malloc (size : Z) | Store (a v : Z).

(** The results of its calls. *)
Fixpoint run_uses (n : nat) (h : uheap) (l : list use) : outcome (uheap * list Z) :=
  match l with
  | [] => Ret (h, [])
  | Malloc size :: l => r ← malloc n h size; s ← run_uses n r.1 l; Ret (s.1, r.2 :: s.2)
  | Store a v :: l => m ← ustore 1 (user_mem h) a v; run_uses n (with_user_mem h m) l
  end.
End operations.

Definition sizes (l : list use) : list Z := omap (fun x => match x with Malloc s => Some s | Store _ _ => None end) l.

(** Blocks one behind another, each of a header and the size rounded up. *)
Fixpoint places (b : Z) (ss : list Z) : list Z :=
  match ss with [] => [] | s :: ss => b :: places (b + (BLOCK_SIZE + align s)) ss end.
Definition total (ss : list Z) : Z := foldr (fun s x => BLOCK_SIZE + align s + x) 0 ss.

(** ** Rounding and accesses *)

Lemma user_align_eq x : 0 < x < 2 ^ 31 - 8 -> align x = 8 * ((x + 7) / 8).
Proof.
  intros Hx. unfold align. rewrite Z.shiftl_mul_pow2, Z.shiftr_div_pow2 by lia. change (2 ^ 3) with 8.
  rewrite swrap_small; Z.to_euclidean_division_equations; lia.
Qed.

Lemma user_align_range x : 0 < x < 2 ^ 31 - 8 -> x <= align x < x + 8.
Proof. intros Hx. rewrite user_align_eq by done. Z.to_euclidean_division_equations. lia. Qed.

Lemma total_nonneg ss : Forall (fun s => 0 < s < 2 ^ 31 - 8) ss -> 0 <= total ss.
Proof.
  induction 1 as [|s ss Hs _ IH]; [done|]. cbn [total foldr]. fold (total ss). pose proof (user_align_range s Hs). unfold BLOCK_SIZE. lia.
Qed.

Lemma s32_add a k : s32 (s32 a + k) = s32 (a + k).
Proof.
  destruct (swrap_mod 32 a) as [q ->]; [lia|]. unfold swrap.
  replace (a + q * 2 ^ 32 + k + 2 ^ (32 - 1)) with (a + k + 2 ^ (32 - 1) + q * 2 ^ 32) by lia.
  by rewrite Z_mod_plus_full.
Qed.

Section accesses.
Context (accessible : Z -> bool).
#[local] Abbreviation ok a n := (forall x, a <= x < a + n -> accessible x = true).

Lemma touch_ok a n : ok a n -> touch accessible a n = true.
Proof. intros H. apply forallb_forall. intros x Hx%list_elem_of_In%elem_of_seqZ. by apply H. Qed.

Lemma touch_not a n x : a <= x < a + n -> accessible x = false -> touch accessible a n = false.
Proof.
  intros Hx Ha. destruct (touch accessible a n) eqn:E; [|done]. unfold touch in E. rewrite forallb_forall in E.
  rewrite E in Ha; [done|]. by apply list_elem_of_In, elem_of_seqZ.
Qed.

Lemma ustore_ok n m a v : ok a n -> ustore accessible n m a v = Ret (store_le n m a v).
Proof. intros H. unfold ustore. by rewrite touch_ok. Qed.

Lemma ustore_killed n m a v x : a <= x < a + n -> accessible x = false -> ustore accessible n m a v = Panic.
Proof. intros Hx Ha. unfold ustore. by rewrite (touch_not a n x). Qed.

Lemma uload_ok n m a : ok a (Z.of_nat n) -> uload accessible n m a = Ret (load_le n m a).
Proof. intros H. unfold uload. by rewrite touch_ok. Qed.

(** A fresh block at the break. *)
Lemma extend_heap_first h size :
  0 < brk h -> 0 < size -> brk h + 32 + size < 2 ^ 31 -> ok (brk h) 32 ->
  exists m, extend_heap accessible h 0 size = Ret (Uheap m (base h) (start h) (brk h + 32 + size), brk h) /\
    s32 (load32 m (brk h)) = size /\ load64 m (brk h + 8) = 0 /\ load32 m (brk h + 16) = 0 /\
    forall x, x < brk h \/ brk h + 20 <= x -> m x = user_mem h x.
Proof.
  intros Hb Hs Hfit Hok. unfold extend_heap, sbrk, BLOCK_SIZE, set_size, set_next, set_free.
  rewrite (uwrap_small 64 (32 + size)), (swrap_small 32 (32 + size)) by lia.
  rewrite (proj2 (Z.eqb_neq (32 + size) 0)) by lia. cbn [Z.eqb negb fst snd user_mem with_brk].
  rewrite (uwrap_small 64 (brk h)), (swrap_small 32 (brk h + _)), (uwrap_small 32 size), (uwrap_small 64 0) by lia.
  do 2 (rewrite ustore_ok by (intros x Hx; apply Hok; lia); rewrite bind_Ret). rewrite bind_Ret.
  rewrite ustore_ok by (intros x Hx; apply Hok; lia). rewrite bind_Ret.
  eexists. split; [unfold with_user_mem; cbn [base start brk with_brk]; by rewrite Z.add_assoc|].
  split_and!.
  - rewrite !load_store_le_other by (unfold apart; lia). rewrite (load_store_le 4) by lia.
    change (256 ^ Z.of_nat 4) with (2 ^ 32). rewrite Z.mod_small, swrap_small by lia. done.
  - rewrite load_store_le_other by (unfold apart; lia). by rewrite (load_store_le 8).
  - by rewrite (load_store_le 4).
  - intros x Hx. by rewrite !store_le_out by lia.
Qed.

(** With [start] not zero [base] is cleared first, so the allocator never looks
    at a block again. *)
Lemma malloc_reset n h size :
  start h <> 0 -> 0 < brk h -> 0 < size < 2 ^ 31 - 8 -> brk h + (BLOCK_SIZE + align size) < 2 ^ 31 ->
  ok (brk h) (BLOCK_SIZE + align size) ->
  exists m, malloc accessible n h size = Ret (Uheap m (brk h) (s32 (start h + 1)) (brk h + (BLOCK_SIZE + align size)), brk h) /\
    forall x, x < brk h \/ brk h + BLOCK_SIZE <= x -> m x = user_mem h x.
Proof.
  intros Hst Hb Hsz Hfit Hok. pose proof (user_align_range size Hsz). unfold malloc, BLOCK_SIZE in *. rewrite (proj2 (Z.eqb_neq _ _) Hst).
  cbn [negb base Z.eqb]. set (h1 := Uheap _ 0 _ _).
  destruct (extend_heap_first h1 (align size)) as (m & -> & _ & _ & _ & Hm);
    [cbn; done|lia|cbn; lia|cbn; intros x Hx; apply Hok; lia|].
  rewrite bind_Ret. cbn [fst snd brk h1] in *. rewrite (proj2 (Z.eqb_neq _ _)) by lia. exists m. split.
  - unfold with_base. cbn. by rewrite <- Z.add_assoc.
  - intros x Hx. apply Hm. lia.
Qed.
End accesses.

(** ** Claims *)

(** C33: in a program whose [start] is not zero, as in the committed memalloc, where
    [do_exec] fills it with the bytes behind the program's data, and does not
    become zero by counting calls, the list of blocks is dropped before every
    request: whatever the program stores between its calls, and whatever the
    heap held before, [malloc] never searches or splits; its results are the
    addresses, one behind another from the break on, of blocks of 32 bytes and
    the size asked for rounded up to a multiple of 8, as long as these lie in
    accessible pages below 2 GiB; and no byte of an earlier block, nor any
    other below the break, changes but by the program's own stores. *)
Theorem malloc_bumps accessible n h l :
  0 < brk h -> Forall (fun s => 0 < s < 2 ^ 31 - 8) (sizes l) -> brk h + total (sizes l) < 2 ^ 31 ->
  (forall k, 0 <= k < Z.of_nat (length (sizes l)) -> s32 (start h + k) <> 0) ->  - 2 ^ 31 <= start h < 2 ^ 31 ->
  (forall x, brk h <= x < brk h + total (sizes l) -> accessible x = true) ->
  (forall a v, Store a v ∈ l -> accessible a = true) ->
  exists h', run_uses accessible n h l = Ret (h', places (brk h) (sizes l)) /\ brk h' = brk h + total (sizes l) /\
    forall x, x < brk h -> (forall v, Store x v ∉ l) -> user_mem h' x = user_mem h x.
Proof.
  revert h. induction l as [|[s|a v] l IH]; intros h Hb Hss Hfit Hst Hst32 Hok Hput.
  - exists h. cbn. split_and!; [done|lia|done].
  - cbn [sizes omap list_omap places total foldr length] in *. fold (sizes l) (total (sizes l)) in *.
    apply Forall_cons in Hss as [Hs Hss]. pose proof (total_nonneg _ Hss). pose proof (user_align_range s Hs).
    assert (start h <> 0) as Hst0 by (intros E; apply (Hst 0); [lia|]; rewrite E; done).
    destruct (malloc_reset accessible n h s Hst0 Hb Hs) as (m & Em & Hm); [lia|intros x Hx; apply Hok; lia|].
    cbn [run_uses]. rewrite Em, bind_Ret. cbn [fst snd]. unfold BLOCK_SIZE in *.
    destruct (IH (Uheap m (brk h) (s32 (start h + 1)) (brk h + (32 + align s)))) as (h' & -> & Hb' & Hx'); cbn [brk start user_mem] in *;
      [lia|done|lia| |exact (swrap_range 32 _ ltac:(lia))|intros x Hx; apply Hok; lia|intros a v Hin; apply (Hput a v); by apply list_elem_of_further|].
    { intros k Hk. specialize (Hst (k + 1)). rewrite s32_add. replace (start h + 1 + k) with (start h + (k + 1)) by lia. apply Hst. lia. }
    rewrite bind_Ret. exists h'. split_and!; [done|lia|]. intros x Hx Hnot. rewrite Hx'; [apply Hm; by left|lia|].
    intros v Hin. apply (Hnot v). by apply list_elem_of_further.
  - cbn [run_uses]. rewrite ustore_ok, bind_Ret.
    2:{ intros x Hx. replace x with a by lia. apply (Hput a v). apply list_elem_of_here. }
    destruct (IH (with_user_mem h (store_le 1 (user_mem h) a v))) as (h' & -> & Hb' & Hx'); try done.
    { intros a' v' Hin. apply (Hput a' v'). by apply list_elem_of_further. }
    exists h'. split_and!; [done|done|]. intros x Hx Hnot. rewrite Hx'; [|done|intros w Hin; apply (Hnot w); by apply list_elem_of_further].
    cbn [user_mem with_user_mem]. apply store_le_out. destruct (decide (x = a)) as [->|]; [|lia].
    destruct (Hnot v). apply list_elem_of_here.
Qed.

(** [bin/memalloc], with the values of its two variables in the committed
    archive, its two requests and its two stores. *)
Definition memalloc_heap : uheap := Uheap (fun _ => 0xCC) 188981784120 0x43434700 0x80000.
Definition heap_page (x : Z) : bool := (0x80000 <=? x) && (x <? 0x81000).
Definition memalloc : list use := [Malloc 10; Malloc 20; Store 0x80000 22; Store 0x80030 33].

Example malloc_bumps_witness :
  exists h', run_uses heap_page 0 memalloc_heap memalloc = Ret (h', [0x80000; 0x80030]) /\ brk h' = 0x80000 + 104.
Proof.
  destruct (malloc_bumps heap_page 0 memalloc_heap memalloc) as (h' & E & Hb & _).
  - reflexivity.
  - repeat constructor; lia.
  - vm_compute. reflexivity.
  - intros k Hk. cbn in Hk. assert (k = 0 \/ k = 1) as [-> | ->] by lia; vm_compute; discriminate.
  - cbn. lia.
  - intros x Hx. change (total (sizes memalloc)) with 104 in Hx. change (brk memalloc_heap) with 0x80000 in Hx.
    unfold heap_page. by rewrite (proj2 (Z.leb_le _ _)), (proj2 (Z.ltb_lt _ _)) by lia.
  - intros a v Hin. unfold memalloc in Hin. rewrite !elem_of_cons, elem_of_nil in Hin.
    destruct Hin as [?|[?|[[= -> ->]|[[= -> ->]|[]]]]]; done.
  - exists h'. split; [exact E|exact Hb].
Defined.

(** Were the two variables zero at first, as C promises, the second request would
    split the new block at once.  Nothing writes [beg]: where the heap reads as
    zero, the header of the rest goes to the address that equals the size asked
    for, far below the program, and the process is killed. *)
Theorem zeroed_malloc_killed accessible n h s1 s2 :
  base h = 0 -> start h = 0 -> 0 < s1 -> 0 < s2 -> 0 < brk h -> brk h + s1 + s2 + 128 < 2 ^ 31 ->
  (forall x, brk h <= x < 2 ^ 31 -> user_mem h x = 0) ->
  (forall x, brk h <= x < brk h + 32 + align s1 + 32 -> accessible x = true) -> accessible (align s2 + 8) = false ->
  exists h1, malloc accessible n h s1 = Ret (h1, brk h) /\ malloc accessible (S n) h1 s2 = Panic.
Proof.
  intros Hbase Hstart H1 H2 Hb Hfit Hz Hok Hno.
  pose proof (user_align_range s1 ltac:(lia)). pose proof (user_align_range s2 ltac:(lia)).
  destruct (extend_heap_first accessible h (align s1)) as (m & E1 & _ & Hn & Hf & Hm); [lia|lia|lia|intros x Hx; apply Hok; lia|].
  set (b := brk h) in *. set (h1 := Uheap m b (start h) (b + 32 + align s1)). exists h1. split.
  { unfold malloc. cbv zeta. rewrite Hstart. cbn [Z.eqb negb]. rewrite Hbase. cbn [Z.eqb negb]. rewrite E1, bind_Ret. cbn [fst snd].
    by rewrite (proj2 (Z.eqb_neq b 0)) by lia. }
  unfold malloc. cbv zeta. change (start h1) with (start h). rewrite Hstart. cbn [Z.eqb negb].
  change (base h1) with b. change (user_mem h1) with m. rewrite (proj2 (Z.eqb_neq b 0)) by lia. cbn [negb find_block].
  rewrite (proj2 (Z.eqb_neq b 0)) by lia. unfold get_free, get_next, set_free.
  rewrite (uload_ok accessible 4 m (b + 16)), bind_Ret, Hf by (intros x Hx; apply Hok; lia). cbn [Z.eqb]. rewrite bind_Ret.
  rewrite (uload_ok accessible 8 m (b + 8)), bind_Ret, Hn by (intros x Hx; apply Hok; lia).
  assert (forall k q, find_block accessible k q b 0 (align s2) = Ret (b, 0)) as -> by (by intros []).
  rewrite bind_Ret. cbn [fst snd Z.eqb negb]. rewrite ustore_ok, bind_Ret by (intros x Hx; apply Hok; lia).
  unfold extend_heap, sbrk, BLOCK_SIZE, set_size, set_next, set_free, with_user_mem. cbn [Z.eqb negb fst snd user_mem brk base start h1 with_brk].
  set (b2 := b + 32 + align s1) in *. rewrite (uwrap_small 64 b2), (uwrap_small 32 (align s2)), (uwrap_small 64 0) by lia.
  rewrite (proj2 (Z.eqb_neq b 0)) by lia. cbn [negb].
  rewrite (uwrap_small 64 b2) by lia.
  rewrite (proj2 (Z.eqb_neq (s32 (u64 (32 + align s2))) 0)) by (rewrite uwrap_small, swrap_small; lia). cbn [negb fst snd user_mem with_brk].
  do 4 (rewrite ustore_ok by (intros x Hx; apply Hok; unfold b2 in *; lia); rewrite bind_Ret).
  rewrite bind_Ret. cbn [fst snd user_mem]. unfold split_block, get_beg, get_next, set_next.
  match goal with |- context [uload _ 8 ?q (b2 + 24)] => set (m2 := q) end.
  assert (load64 m2 (b2 + 24) = 0) as Hbeg.
  { apply load_le_zero. intros k Hk. unfold m2. rewrite !store_le_out by (unfold b2 in *; lia).
    rewrite Hm by (unfold b2 in *; lia). apply Hz. unfold b2. lia. }
  rewrite (uload_ok accessible 8 m2 (b2 + 24)), bind_Ret, Hbeg, Z.add_0_l, (uwrap_small 64 (align s2))
    by (lia || intros x Hx; apply Hok; unfold b2 in *; lia).
  rewrite (uload_ok accessible 8 m2 (b2 + 8)), bind_Ret by (intros x Hx; apply Hok; unfold b2 in *; lia).
  by rewrite (ustore_killed accessible _ _ _ _ (align s2 + 8)) by (done || lia).
Qed.

Example zeroed_memalloc_killed : run_uses heap_page 1 (Uheap (fun _ => 0) 0 0 0x80000) memalloc = Panic.
Proof. vm_compute. reflexivity. Qed.

(** [sbrk] moves the break without mapping anything: a header behind the one page
    of the heap kills the process too. *)
Example heap_page_full : run_uses heap_page 0 memalloc_heap [Malloc 4064; Malloc 10] = Panic.
Proof. vm_compute. reflexivity. Qed.
