(* ===== verification/Shell.v ===== *)
(** * The shell (bin/shell/shell.c)

    How a command line is cut into arguments, and how [eval] picks the action
    for its first word. *)

From S2P Require Import Prelude CString Memory.

(** ** Cutting a line *)

(** [struct cmdline_tokens]; [argv] has ten elements. *)
Definition MAXARGS : nat := 10.
Record cmdline_tokens := Tokens { argc : Z; argv : list Z }.

Definition add_token (tok : cmdline_tokens) (p : Z) : outcome cmdline_tokens :=
  l ← array_set (argv tok) (argc tok) p; Ret (Tokens (s32 (argc tok + 1)) l).

(** [while (buf < endbuf) { n = strcpsn(buf, delims); argv[argc++] = buf;
     buf = buf + 1 + n; }] *)
Fixpoint parse_from (n : nat) (m : bytes) (delims buf endbuf : Z) (tok : cmdline_tokens) : outcome cmdline_tokens :=
  if negb (buf <? endbuf) then Ret tok else
  next_str_ind ← strcpsn 100 m buf delims;
  tok ← add_token tok buf;
  match n with
  | O => Loops
  | S n => parse_from n m delims (buf + 1 + next_str_ind) endbuf tok
  end.

(** [array] and [delims] are the addresses of the two local arrays; the result
    is the memory as the return leaves it, the tokens and the value returned.
    What of the memory below may be read, [eval] says. *)
Definition parseline (m : bytes) (array delims cmdline : Z) (tok : cmdline_tokens)
    : outcome (bytes * cmdline_tokens * Z) :=
  if cmdline =? 0 then Ret (m, tok, -1) else
  let m := strncpy m array cmdline 100 in
  len ← strlen 100 m array;
  tok ← parse_from 100 m delims array (array + len) (Tokens 0 (argv tok));
  Ret (m, tok, 0).

(** ** The first word *)

(** [for (j = 0; tmp[j] != ' ' && tmp[j] != '\r' && j < strlen(tmp); j++)
     cmd[j] = tmp[j];] *)
Fixpoint first_word (n : nat) (m : bytes) (tmp cmd j : Z) : outcome bytes :=
  if (m (tmp + j) =? 32) || (m (tmp + j) =? 13) then Ret m else
  len ← strlen 100 m tmp;
  if negb (j <? len) then Ret m else
  match n with
  | O => Loops
  | S n => first_word n (store8 m (cmd + j) (m (tmp + j))) tmp cmd (j + 1)
  end.

(** What [eval] does with the line. *)
Inductive action := Clear_screen | Print_pwd | Usage | Exec (name : Z) | Cd (name : Z) | Invalid.

(** The literals [eval] compares with and the programs it starts, by the
    addresses the linker gives them. *)
Record literals := Literals {
  lit_cls : Z; lit_pwd : Z; lit_h : Z; lit_exec : Z; lit_cd : Z; lit_ps : Z; lit_ll : Z; lit_ls : Z;
  bin_ps : Z; bin_ll : Z; bin_ls : Z
}.

(** The chain of comparisons, in the order of the code. *)
Definition dispatch (L : literals) (m : bytes) (cmd arg : Z) : outcome action :=
  r ← strcmp 100 m cmd (lit_cls L); if r =? 0 then Ret Clear_screen else
  r ← strcmp 100 m cmd (lit_pwd L); if r =? 0 then Ret Print_pwd else
  r ← strcmp 100 m cmd (lit_h L); if r =? 0 then Ret Usage else
  r ← strcmp 100 m cmd (lit_exec L); if r =? 0 then Ret (Exec arg) else
  r ← strcmp 100 m cmd (lit_cd L); if r =? 0 then Ret (Cd arg) else
  r ← strcmp 100 m cmd (lit_ps L); if r =? 0 then Ret (Exec (bin_ps L)) else
  r ← strcmp 100 m cmd (lit_ll L); if r =? 0 then Ret (Exec (bin_ll L)) else
  r ← strcmp 100 m cmd (lit_ls L); if r =? 0 then Ret (Exec (bin_ls L)) else
  Ret Invalid.

(** [eval]: [argv[0]] is copied to [tmp], its first word to [cmd], both cleared
    before.  The tokens point into [parseline]'s array, whose lifetime has ended:
    C leaves undefined what reading it gives.  [kept] says that the compiled
    program leaves the bytes of the dead array as they were until [eval]
    returns; without that the first read, and with an empty line the read
    through null, is undefined.  The bin/shell in the committed archive keeps
    them: [eval] and what it calls use less stack below [eval]'s frame than lies
    between it and the array. *)
Definition eval (kept : bool) (L : literals) (m : bytes) (array delims cmd tmp cmdline : Z) : outcome (bytes * action) :=
  r ← parseline m array delims cmdline (Tokens 0 (replicate MAXARGS 0));
  let m := r.1.1 in
  let tok := r.1.2 in
  let m := memset 100 m cmd 0 in
  let m := memset 100 m tmp 0 in
  a0 ← array_get (argv tok) 0;
  if (a0 =? 0) || negb kept then Undef else
  len ← strlen 100 m a0;
  let m := strncpy m tmp a0 len in
  m ← first_word 100 m tmp cmd 0;
  a1 ← array_get (argv tok) 1;
  act ← dispatch L m cmd a1;
  Ret (m, act).

(** ** Delimiters *)

Definition delimiters : list Z := [32; 9; 13; 10].
Definition delimiter (c : Z) : bool := bool_decide (c ∈ delimiters).

(** The length of the word at the front. *)
Fixpoint word (s : list Z) : nat :=
  match s with
  | [] => 0
  | c :: s => if delimiter c then 0 else S (word s)
  end.

(** Where the arguments start: the front, and behind each delimiter that does
    not end the line. *)
Fixpoint starts (n : nat) (k : Z) (s : list Z) : list Z :=
  match n, s with
  | S n, _ :: _ => k :: starts n (k + 1 + Z.of_nat (word s)) (drop (S (word s)) s)
  | _, _ => []
  end.

Lemma word_length s : (word s <= length s)%nat.
Proof. induction s as [|c s IH]; simpl; [lia|]. destruct (delimiter c); lia. Qed.

Lemma cstr_drop m p s k : cstr m p s -> (k <= length s)%nat -> cstr m (p + Z.of_nat k) (drop k s).
Proof.
  intros (Hb & Hf & He) Hk. split_and!.
  - intros i c Hi. rewrite lookup_drop in Hi. rewrite <- (Hb _ _ Hi). f_equal. lia.
  - by apply Forall_drop.
  - rewrite <- He. f_equal. rewrite length_drop. lia.
Qed.

Lemma strcpsn_from_spec n m p d s r :
  cstr m p s -> cstr m d delimiters -> 0 < d -> (length s <= n)%nat -> 0 <= r -> r + Z.of_nat (length s) < 2 ^ 31 ->
  strcpsn_from n 100 m p d r = Ret (r + Z.of_nat (word s)).
Proof.
  intros Hs Hd Hd0. revert n p r Hs. induction s as [|c s IH]; intros n p r Hs Hn Hr Hfit.
  - destruct n; simpl; rewrite (cstr_nil m p Hs); simpl; f_equal; lia.
  - destruct (cstr_cons m p c s Hs) as (Hp & Hc & Hs'). simpl in Hn, Hfit. destruct n as [|n]; [lia|].
    cbn [strcpsn_from word]. rewrite Hp. destruct (Z.eqb_spec c 0); [lia|].
    rewrite (strchr_spec 100 m d delimiters c), bind_Ret by (done || lia || (simpl; lia)).
    unfold delimiter. destruct (list_find (.= c) delimiters) as [[i x]|] eqn:E.
    + apply list_find_Some in E as (Hi & -> & _). rewrite bool_decide_true by (by eapply list_elem_of_lookup_2).
      assert (d + Z.of_nat i <> 0) as Hne by lia.
      rewrite (proj2 (Z.eqb_neq _ _) Hne). cbn [negb]. f_equal. lia.
    + apply list_find_None in E. rewrite bool_decide_false.
      2:{ intros Hin. rewrite Forall_forall in E. by apply (E c Hin). }
      cbn [Z.eqb negb]. rewrite swrap_small by lia. rewrite IH by (done || lia). f_equal. lia.
Qed.

Lemma starts_cons n p c s : starts (S n) p (c :: s) = p :: starts n (p + 1 + Z.of_nat (word (c :: s))) (drop (word (c :: s)) s).
Proof. done. Qed.

Lemma starts_length n p s : (length (starts n p s) <= length s)%nat.
Proof.
  revert p s. induction n as [|n IH]; intros p s; [simpl; lia|]. destruct s as [|c s]; [done|].
  rewrite starts_cons. cbn [length]. specialize (IH (p + 1 + Z.of_nat (word (c :: s))) (drop (word (c :: s)) s)).
  rewrite length_drop in IH. lia.
Qed.

(** One store of the loop. *)
Lemma add_token_spec tok p :
  0 <= argc tok -> argc tok + 1 < 2 ^ 31 ->
  add_token tok p =
    if decide (Z.to_nat (argc tok) < length (argv tok))%nat
    then Ret (Tokens (argc tok + 1) (<[Z.to_nat (argc tok) := p]> (argv tok))) else Undef.
Proof.
  intros Ha Hf. unfold add_token. destruct (decide _) as [Hlt|Hge].
  - rewrite array_set_lt, bind_Ret by lia. by rewrite swrap_small by lia.
  - unfold array_set. destruct (Z.leb_spec 0 (argc tok)), (Z.ltb_spec (argc tok) (Z.of_nat (length (argv tok)))); done || lia.
Qed.

(** The loop stores the start of every argument; past the end of [argv] the
    store is outside the array. *)
Lemma parse_from_spec n m d p s tok :
  cstr m p s -> cstr m d delimiters -> 0 < d -> (length s <= n)%nat -> (length s < 100)%nat ->
  0 <= argc tok -> (Z.to_nat (argc tok) <= length (argv tok))%nat -> argc tok + Z.of_nat (length s) < 2 ^ 31 ->
  parse_from n m d p (p + Z.of_nat (length s)) tok =
    let l := starts n p s in
    if decide (Z.to_nat (argc tok) + length l <= length (argv tok))%nat then
      Ret (Tokens (argc tok + Z.of_nat (length l)) (list_inserts (Z.to_nat (argc tok)) l (argv tok)))
    else Undef.
Proof.
  intros Hs Hd Hd0. revert p s tok Hs. induction n as [|n IH]; intros p s tok Hs Hn Hl Ha Hal Hfit; cbn zeta.
  { destruct s; [|simpl in Hn; lia]. simpl. rewrite (proj2 (Z.ltb_ge _ _)) by lia. cbn [negb].
    rewrite decide_True by lia. rewrite Z.add_0_r. by destruct tok. }
  destruct s as [|c s'].
  { simpl. rewrite (proj2 (Z.ltb_ge _ _)) by lia. cbn [negb].
    rewrite decide_True by lia. rewrite Z.add_0_r. by destruct tok. }
  rewrite starts_cons. set (s := c :: s') in *. cbn [parse_from].
  assert (length s = S (length s')) as Hls by done. rewrite (proj2 (Z.ltb_lt _ _)) by lia. cbn [negb].
  unfold strcpsn. rewrite (strcpsn_from_spec 100 m p d s 0), bind_Ret by (done || lia).
  rewrite Z.add_0_l, add_token_spec by lia. set (p' := p + 1 + Z.of_nat (word s)).
  change (drop (word s) s') with (drop (S (word s)) s).
  pose proof (word_length s) as Hw. cbn [length].
  destruct (decide (Z.to_nat (argc tok) < length (argv tok))%nat) as [Hlt|Hge].
  2:{ rewrite decide_False by lia. done. }
  rewrite bind_Ret. set (tok' := Tokens _ _).
  assert (parse_from n m d p' (p + Z.of_nat (length s)) tok' =
    let l := starts n p' (drop (S (word s)) s) in
    if decide (Z.to_nat (argc tok') + length l <= length (argv tok'))%nat then
      Ret (Tokens (argc tok' + Z.of_nat (length l)) (list_inserts (Z.to_nat (argc tok')) l (argv tok')))
    else Undef) as ->.
  { destruct (decide (word s = length s)) as [Heq|Hne].
    - rewrite drop_ge by lia. assert (p' = p + Z.of_nat (length s) + 1) as -> by (unfold p'; lia).
      assert (starts n (p + Z.of_nat (length s) + 1) [] = []) as -> by (by destruct n). cbn zeta.
      rewrite decide_True by (simpl; rewrite length_insert; lia). simpl length. rewrite Z.add_0_r.
      destruct n; simpl; rewrite (proj2 (Z.ltb_ge _ _)) by lia; done.
    - rewrite <- (IH p' (drop (S (word s)) s) tok'); rewrite ?length_drop.
      + f_equal. unfold p'. lia.
      + unfold p'. replace (p + 1 + Z.of_nat (word s)) with (p + Z.of_nat (S (word s))) by lia.
        apply cstr_drop; [done|lia].
      + lia.
      + lia.
      + simpl. lia.
      + simpl. rewrite length_insert. lia.
      + simpl. lia. }
  cbn zeta. cbn [argc argv tok']. rewrite length_insert. replace (Z.to_nat (argc tok + 1)) with (S (Z.to_nat (argc tok))) by lia.
  rewrite <- list_insert_inserts_lt by lia.
  repeat destruct (decide _); try lia; [|done]. f_equal. f_equal. lia.
Qed.

(** The text from each start on. *)
Lemma starts_rest n m p s i q :
  cstr m p s -> starts n p s !! i = Some q -> exists k, q = p + Z.of_nat k /\ cstr m q (drop k s).
Proof.
  revert p s i. induction n as [|n IH]; intros p s i Hs Hi; [done|]. destruct s as [|c s']; [done|].
  rewrite starts_cons in Hi. destruct i as [|i].
  { injection Hi as <-. exists 0%nat. split; [lia|exact Hs]. }
  set (s := c :: s') in *. change (drop (word s) s') with (drop (S (word s)) s) in Hi.
  pose proof (word_length s) as Hw. destruct (decide (word s = length s)) as [Heq|Hne].
  { rewrite drop_ge in Hi by lia. by destruct n. }
  replace (p + 1 + Z.of_nat (word s)) with (p + Z.of_nat (S (word s))) in Hi by lia.
  destruct (IH _ (drop (S (word s)) s) i (cstr_drop m p s (S (word s)) Hs ltac:(lia)) Hi) as (k & -> & Hk).
  exists (S (word s) + k)%nat. rewrite drop_drop in Hk. split; [lia|exact Hk].
Qed.

Lemma parseline_spec m array delims cmdline s tok :
  cmdline <> 0 -> cstr m cmdline s -> (length s < 100)%nat -> cstr m delims delimiters -> 0 < delims ->
  apart array 100 cmdline 100 -> apart array 100 delims 5 -> length (argv tok) = MAXARGS ->
  let l := starts 100 array s in
  exists m', (forall x, apart x 1 array 100 -> m' x = m x) /\ cstr m' array s /\
    parseline m array delims cmdline tok =
      (if decide (length l <= MAXARGS)%nat
       then Ret (m', Tokens (Z.of_nat (length l)) (list_inserts 0 l (argv tok)), 0) else Undef) /\
    forall i p, l !! i = Some p -> exists k, p = array + Z.of_nat k /\ cstr m' p (drop k s).
Proof.
  intros Hc Hs Hl Hd Hd0 Hap Hapd Hargv l. set (m' := strncpy m array cmdline 100).
  assert (forall x, m' x = if decide (array <= x < array + 100) then m (x + (cmdline - array)) else m x) as Hm.
  { intros x. apply (memcpy_apart 100). unfold apart in *. lia. }
  exists m'. assert (cstr m' array s) as Hs'.
  { destruct Hs as (Hb & Hf & He). split_and!; [|done|].
    - intros i c Hi. pose proof (lookup_lt_Some _ _ _ Hi). rewrite Hm, decide_True by lia.
      rewrite <- (Hb i c Hi). f_equal. lia.
    - rewrite Hm, decide_True by lia. rewrite <- He. f_equal. lia. }
  split; [|split; [exact Hs'|split]].
  - intros x Hx. rewrite Hm, decide_False; [done|]. unfold apart in Hx. lia.
  - unfold parseline. rewrite (proj2 (Z.eqb_neq _ _) Hc). fold m'.
    rewrite (strlen_spec 100 m' array s), bind_Ret by (done || lia).
    rewrite (parse_from_spec 100 m' delims array s (Tokens 0 (argv tok))); cbn [argc argv]; [|done| |lia..].
    + fold l. rewrite Hargv, Z.add_0_l. change (Z.to_nat 0 + length l)%nat with (length l).
      destruct (decide _); [|done]. by rewrite bind_Ret.
    + eapply cstr_same; [exact Hd|]. intros x Hx. simpl in Hx. rewrite Hm, decide_False; [done|]. unfold apart in *. lia.
  - intros i p Hi. by apply (starts_rest 100 m' array s i).
Qed.

(** [parseline] of a line shorter than 100 characters stops; the arguments
    start at its front and behind every delimiter but a last one, with an empty
    argument between adjacent delimiters; each argument is the rest of the line,
    since no terminator is written; with more than ten arguments the store goes
    past the end of [argv]. *)
Theorem parseline_starts m array delims cmdline s tok :
  cmdline <> 0 -> cstr m cmdline s -> (length s < 100)%nat -> cstr m delims delimiters -> 0 < delims ->
  apart array 100 cmdline 100 -> apart array 100 delims 5 -> length (argv tok) = MAXARGS ->
  let l := starts 100 array s in
  exists m', (forall x, apart x 1 array 100 -> m' x = m x) /\ cstr m' array s /\
    parseline m array delims cmdline tok =
      (if decide (length l <= MAXARGS)%nat
       then Ret (m', Tokens (Z.of_nat (length l)) (list_inserts 0 l (argv tok)), 0) else Undef) /\
    forall i p, l !! i = Some p -> exists k, p = array + Z.of_nat k /\ cstr m' p (drop k s).
Proof. apply parseline_spec. Qed.

(** ** The action *)

(** The line up to the first blank or carriage return. *)
Fixpoint command (s : list Z) : list Z :=
  match s with
  | [] => []
  | c :: s => if (c =? 32) || (c =? 13) then [] else c :: command s
  end.

Definition cls_text : list Z := [99; 108; 115].
Definition pwd_text : list Z := [112; 119; 100].
Definition h_text : list Z := [104].
Definition exec_text : list Z := [101; 120; 101; 99].
Definition cd_text : list Z := [99; 100].
Definition ps_text : list Z := [112; 115].
Definition ll_text : list Z := [108; 108].
Definition ls_text : list Z := [108; 115].

Definition action_of (L : literals) (w : list Z) (arg : Z) : action :=
  if decide (w = cls_text) then Clear_screen else if decide (w = pwd_text) then Print_pwd
  else if decide (w = h_text) then Usage else if decide (w = exec_text) then Exec arg
  else if decide (w = cd_text) then Cd arg else if decide (w = ps_text) then Exec (bin_ps L)
  else if decide (w = ll_text) then Exec (bin_ll L) else if decide (w = ls_text) then Exec (bin_ls L) else Invalid.

Definition literals_in (L : literals) (m : bytes) : Prop :=
  cstr m (lit_cls L) cls_text /\ cstr m (lit_pwd L) pwd_text /\ cstr m (lit_h L) h_text /\
  cstr m (lit_exec L) exec_text /\ cstr m (lit_cd L) cd_text /\ cstr m (lit_ps L) ps_text /\
  cstr m (lit_ll L) ll_text /\ cstr m (lit_ls L) ls_text.

Lemma command_length s : (length (command s) <= length s)%nat.
Proof. induction s as [|c s IH]; simpl; [lia|]. destruct (_ || _); simpl; lia. Qed.

Lemma compare_literal {A} m p w q t (a b : outcome A) (x y : A) :
  cstr m p w -> cstr m q t -> (length w < 100)%nat -> (length t < 100)%nat -> a = Ret x -> b = Ret y ->
  (r ← strcmp 100 m p q; if r =? 0 then a else b) = Ret (if decide (w = t) then x else y).
Proof.
  intros Hw Ht Hlw Hlt -> ->. rewrite (strcmp_spec 100 m p q w t), bind_Ret by (done || lia).
  by destruct (decide (w = t)).
Qed.

Lemma dispatch_spec L m cmd w arg :
  cstr m cmd w -> (length w < 100)%nat -> literals_in L m -> dispatch L m cmd arg = Ret (action_of L w arg).
Proof.
  intros Hw Hl (H1 & H2 & H3 & H4 & H5 & H6 & H7 & H8). unfold dispatch, action_of.
  repeat (eapply compare_literal; [exact Hw|eassumption|exact Hl|simpl; lia|done|]). done.
Qed.

Lemma command_lookup s k c : command s !! k = Some c -> s !! k = Some c /\ c <> 32 /\ c <> 13.
Proof.
  revert k. induction s as [|d s IH]; intros k; simpl; [done|].
  destruct (Z.eqb_spec d 32), (Z.eqb_spec d 13); simpl; try done.
  destruct k; simpl; [intros [= ->]; done|apply IH].
Qed.

Lemma command_stop s : command s = s \/ exists c, s !! length (command s) = Some c /\ (c = 32 \/ c = 13).
Proof.
  induction s as [|d s IH]; simpl; [by left|].
  destruct (Z.eqb_spec d 32), (Z.eqb_spec d 13); simpl; try (right; by eexists; eauto).
  destruct IH as [->|IH]; [by left|by right].
Qed.

(** The copying loop at position [k] of the line in [tmp]. *)
Lemma first_word_spec n m tmp cmd s k :
  cstr m tmp s -> (length s < 100)%nat -> (k <= length (command s))%nat -> (length s - k <= n)%nat ->
  apart tmp 100 cmd 100 ->
  exists m', first_word n m tmp cmd (Z.of_nat k) = Ret m' /\
    (forall i c, (k <= i)%nat -> command s !! i = Some c -> m' (cmd + Z.of_nat i) = c) /\
    forall x, x < cmd + Z.of_nat k \/ cmd + Z.of_nat (length (command s)) <= x -> m' x = m x.
Proof.
  intros Hs Hl Hk Hn Hap. pose proof (command_length s) as Hcl.
  assert (forall n m, cstr m tmp s -> first_word n m tmp cmd (Z.of_nat (length (command s))) = Ret m) as Hstop.
  { clear n m Hs Hn Hap. intros n m Hs. destruct (command_stop s) as [Heq|(c & Hc & Hst)].
    - rewrite Heq. destruct n; cbn [first_word]; rewrite (proj2 (proj2 Hs)); cbn [Z.eqb orb];
        rewrite (strlen_spec 100 m tmp s), bind_Ret, Z.ltb_irrefl by (done || lia); done.
    - destruct n; cbn [first_word]; rewrite (proj1 Hs _ _ Hc); destruct Hst as [-> | ->]; done. }
  revert m k Hs Hk Hn. induction n as [|n IH]; intros m k Hs Hk Hn.
  { assert (k = length (command s)) as -> by lia. exists m. split; [by apply Hstop|]. split; [|done].
    intros i c Hi Hc. apply lookup_lt_Some in Hc. lia. }
  destruct (decide (k = length (command s))) as [->|Hne].
  { exists m. split; [by apply Hstop|]. split; [|done]. intros i c Hi Hc. apply lookup_lt_Some in Hc. lia. }
  destruct (lookup_lt_is_Some_2 (command s) k ltac:(lia)) as [c Hc].
  destruct (command_lookup s k c Hc) as (Hsk & H32 & H13). cbn [first_word]. rewrite (proj1 Hs k c Hsk).
  rewrite (proj2 (Z.eqb_neq _ _) H32), (proj2 (Z.eqb_neq _ _) H13). cbn [orb].
  rewrite (strlen_spec 100 m tmp s), bind_Ret, (proj2 (Z.ltb_lt _ _)) by (done || lia). cbn [negb].
  replace (Z.of_nat k + 1) with (Z.of_nat (S k)) by lia. set (m1 := store8 m (cmd + Z.of_nat k) c).
  assert (forall x, m1 x = if decide (x = cmd + Z.of_nat k) then c else m x) as Hm1.
  { intros x. unfold m1, store8. destruct (Z.eqb_spec x (cmd + Z.of_nat k)); by destruct (decide _). }
  destruct (IH m1 (S k)) as (m' & E & Hw & Hf); [|lia|lia|].
  { eapply cstr_same; [exact Hs|]. intros x Hx. rewrite Hm1, decide_False; [done|]. unfold apart in Hap. lia. }
  exists m'. split; [exact E|]. split.
  - intros i d Hi Hd. destruct (decide (i = k)) as [->|]; [|apply Hw; [lia|done]].
    rewrite Hf, Hm1, decide_True by lia. congruence.
  - intros x Hx. rewrite Hf, Hm1, decide_False by lia. done.
Qed.

(** What [eval] relies on about addresses: its arrays, the line and the strings
    it compares with lie apart. *)
Record shell_ok (L : literals) (m : bytes) (array delims cmd tmp cmdline : Z) : Prop := {
  line_addr : cmdline <> 0;
  array_addr : array <> 0;
  delims_addr : 0 < delims;
  delims_text : cstr m delims delimiters;
  literal_text : literals_in L m;
  array_line : apart array 100 cmdline 100;
  array_delims : apart array 100 delims 5;
  array_cmd : apart array 100 cmd 100;
  array_tmp : apart array 100 tmp 100;
  tmp_cmd : apart tmp 100 cmd 100;
  literal_apart : forall q, q ∈ [lit_cls L; lit_pwd L; lit_h L; lit_exec L; lit_cd L; lit_ps L; lit_ll L; lit_ls L] ->
    apart array 100 q 5 /\ apart cmd 100 q 5 /\ apart tmp 100 q 5
}.

Lemma literals_same L m m' :
  literals_in L m ->
  (forall q, q ∈ [lit_cls L; lit_pwd L; lit_h L; lit_exec L; lit_cd L; lit_ps L; lit_ll L; lit_ls L] -> same_bytes m m' q 5) ->
  literals_in L m'.
Proof.
  intros (H1 & H2 & H3 & H4 & H5 & H6 & H7 & H8) H.
  assert (forall q t, cstr m q t -> (length t <= 4)%nat ->
    q ∈ [lit_cls L; lit_pwd L; lit_h L; lit_exec L; lit_cd L; lit_ps L; lit_ll L; lit_ls L] -> cstr m' q t) as Hsame.
  { intros q t Ht Hlen Hq. eapply cstr_same; [exact Ht|]. eapply same_bytes_sub; [by apply H|lia|lia]. }
  repeat split; (eapply Hsame; [eassumption|simpl; lia|set_solver]).
Qed.

Lemma inserted_argument (l : list Z) i :
  (length l <= MAXARGS)%nat -> 0 <= i < 10 ->
  array_get (list_inserts 0 l (replicate MAXARGS 0)) i = Ret (default 0 (l !! Z.to_nat i)).
Proof.
  unfold MAXARGS. intros Hl Hi. apply array_get_Some; [lia|].
  destruct (decide (Z.to_nat i < length l)%nat) as [Hlt|Hge].
  - rewrite list_lookup_inserts by (rewrite ?length_replicate; lia). rewrite Nat.sub_0_r.
    by destruct (lookup_lt_is_Some_2 l _ Hlt) as [x ->].
  - rewrite list_lookup_inserts_ge by lia. rewrite lookup_replicate_2 by lia.
    by rewrite (proj2 (lookup_ge_None l _)) by lia.
Qed.

(** The arrays after [argv[0]] was copied. *)
Lemma copied_line m array cmd tmp s :
  cstr m array s -> (length s < 100)%nat -> apart array 100 cmd 100 -> apart array 100 tmp 100 -> apart tmp 100 cmd 100 ->
  let m2 := memset 100 (memset 100 m cmd 0) tmp 0 in
  let m3 := strncpy m2 tmp array (Z.of_nat (length s)) in
  strlen 100 m2 array = Ret (Z.of_nat (length s)) /\ cstr m3 tmp s /\
  (forall x, cmd <= x < cmd + 100 -> m3 x = 0) /\
  forall x, apart x 1 cmd 100 -> apart x 1 tmp 100 -> m3 x = m x.
Proof.
  intros Hs Hl H1 H2 H3 m2 m3.
  assert (forall x, m2 x = if decide (tmp <= x < tmp + 100) then 0 else if decide (cmd <= x < cmd + 100) then 0 else m x) as Hm2.
  { intros x. unfold m2. rewrite !memset_spec. done. }
  assert (forall x, m3 x = if decide (tmp <= x < tmp + Z.of_nat (length s)) then m2 (x + (array - tmp)) else m2 x) as Hm3.
  { intros x. unfold m3, strncpy. rewrite Nat2Z.id. apply memcpy_apart. unfold apart in *. lia. }
  clearbody m2 m3. assert (cstr m2 array s) as Hs2.
  { eapply cstr_same; [exact Hs|]. intros x Hx. rewrite Hm2, !decide_False by (unfold apart in *; lia). done. }
  unfold apart in *. split_and!.
  - apply strlen_spec; [done|lia|lia].
  - destruct Hs2 as (Hb & Hf & _). split_and!; [|done|].
    + intros i c Hi. pose proof (lookup_lt_Some _ _ _ Hi). rewrite Hm3, decide_True by lia.
      rewrite <- (Hb i c Hi). f_equal. lia.
    + rewrite Hm3, decide_False, Hm2, decide_True by lia. done.
  - intros x Hx. rewrite Hm3, decide_False, Hm2, decide_False, decide_True by lia. done.
  - intros x Hx Hx'. rewrite Hm3, decide_False, Hm2, !decide_False by lia. done.
Qed.

Lemma eval_spec kept L m array delims cmd tmp cmdline s :
  shell_ok L m array delims cmd tmp cmdline -> cstr m cmdline s -> s <> [] -> (length s < 100)%nat ->
  (length (starts 100 array s) <= MAXARGS)%nat ->
  exists m', eval kept L m array delims cmd tmp cmdline =
    if kept then Ret (m', action_of L (command s) (default 0 (starts 100 array s !! 1%nat))) else Undef.
Proof.
  intros [H0 Ha Hd0 Hd Hlit H1 H2 H3 H4 H5 H6] Hs Hne Hl Hmax. unfold eval.
  destruct (parseline_spec m array delims cmdline s (Tokens 0 (replicate MAXARGS 0))) as (m1 & F1 & S1 & E1 & _); [done..|].
  rewrite E1, decide_True, bind_Ret by done. cbn [fst snd argv argc]. clear E1. cbv zeta.
  destruct (copied_line m1 array cmd tmp s S1 Hl H3 H4 H5) as (El & St & Zc & F3).
  rewrite (inserted_argument _ 0) by (done || lia). rewrite bind_Ret. change (Z.to_nat 0) with 0%nat.
  assert (starts 100 array s !! 0%nat = Some array) as -> by (by destruct s).
  change (default 0 (Some array)) with array.
  rewrite (proj2 (Z.eqb_neq _ _) Ha). destruct kept; [|by exists m1]. cbn [negb orb].
  rewrite El, bind_Ret. set (m3 := strncpy _ tmp array _) in *. clearbody m3.
  destruct (first_word_spec 100 m3 tmp cmd s 0 St Hl) as (m4 & E4 & W4 & F4); [lia|lia|done|].
  change (Z.of_nat 0) with 0 in *. rewrite E4, bind_Ret.
  rewrite (inserted_argument _ 1), bind_Ret by (done || lia). change (Z.to_nat 1) with 1%nat.
  pose proof (command_length s) as Hcl. exists m4. rewrite (dispatch_spec L m4 cmd (command s)), bind_Ret; [done| |lia|].
  - split_and!; [intros i c Hi; by apply W4; [lia|]| |].
    + apply Forall_lookup. intros i c Hi. apply command_lookup in Hi as [Hi _].
      destruct Hs as (_ & Hf & _). rewrite Forall_lookup in Hf. by apply (Hf i c).
    + rewrite F4 by lia. apply Zc. lia.
  - eapply literals_same; [exact Hlit|]. intros q Hq x Hx. destruct (H6 q Hq) as (Q1 & Q2 & Q3). unfold apart in *.
    rewrite F4 by lia. rewrite F3 by (unfold apart; lia). apply F1. unfold apart. lia.
Qed.

(** [eval] of a line that is not empty and has at most ten arguments: the
    action, where the dead array is kept, is the one of the line's text up to the
    first blank or carriage return, compared with the commands in turn; [exec] and [cd] get the second
    argument. *)
Theorem eval_action kept L m array delims cmd tmp cmdline s :
  shell_ok L m array delims cmd tmp cmdline -> cstr m cmdline s -> s <> [] -> (length s < 100)%nat ->
  (length (starts 100 array s) <= MAXARGS)%nat ->
  exists m', eval kept L m array delims cmd tmp cmdline =
    if kept then Ret (m', action_of L (command s) (default 0 (starts 100 array s !! 1%nat))) else Undef.
Proof. apply eval_spec. Qed.

(** ** A line to try *)

(** The line ["cd a"] at 0x1000, the delimiters at 0x2000, the literals from
    0x3000 on, the arrays at 0x4000, 0x4100 and 0x4200. *)
Definition demo_literals : literals :=
  Literals 0x3000 0x3010 0x3020 0x3030 0x3040 0x3050 0x3060 0x3070 0x3080 0x3090 0x30A0.
Definition demo_shell : bytes :=
  patch (patch (patch (patch (patch (patch (patch (patch (patch (patch (fun _ => 0) 0x1000 [99; 100; 32; 97]) 0x2000 delimiters)
    0x3000 cls_text) 0x3010 pwd_text) 0x3020 h_text) 0x3030 exec_text) 0x3040 cd_text) 0x3050 ps_text) 0x3060 ll_text)
    0x3070 ls_text.

Example parseline_starts_witness :
  exists m', parseline demo_shell 0x4000 0x2000 0x1000 (Tokens 0 (replicate MAXARGS 0)) =
    Ret (m', Tokens 2 [0x4000; 0x4003; 0; 0; 0; 0; 0; 0; 0; 0], 0) /\ cstr m' 0x4003 [97].
Proof.
  destruct (parseline_starts demo_shell 0x4000 0x2000 0x1000 [99; 100; 32; 97] (Tokens 0 (replicate MAXARGS 0)))
    as (m' & _ & _ & E & H);
    [discriminate|apply cstr_check_sound; reflexivity|simpl; lia|apply cstr_check_sound; reflexivity|lia
    |by_computation|by_computation|reflexivity|].
  exists m'. split; [exact E|]. destruct (H 1%nat 0x4003 eq_refl) as (k & Hk & Hc).
  replace k with 3%nat in Hc by lia. exact Hc.
Defined.

Example eval_action_witness :
  exists m', eval true demo_literals demo_shell 0x4000 0x2000 0x4100 0x4200 0x1000 = Ret (m', Cd 0x4003).
Proof.
  apply (eval_action true demo_literals demo_shell 0x4000 0x2000 0x4100 0x4200 0x1000 [99; 100; 32; 97]).
  - split; [discriminate|discriminate|lia|apply cstr_check_sound; reflexivity| |by_computation..|].
    + unfold literals_in. split_and!; apply cstr_check_sound; reflexivity.
    + intros q Hq. repeat (apply elem_of_cons in Hq as [->|Hq]; [split_and!; by_computation|]). by apply elem_of_nil in Hq.
  - apply cstr_check_sound. reflexivity.
  - discriminate.
  - simpl. lia.
  - by_computation.
Defined.
