(* ===== verification/ShellMain.v ===== *)
(** * The shell's loop (main in bin/shell/shell.c)

    The prompt, the line, the fork and the wait, as the calls the shell makes;
    what the kernel answers is the script the loop runs on. *)

From S2P Require Import Prelude CString Memory Shell.

(** ** Calls *)

(** What the shell and the children it forks do, in order; [Waiting] is a read
    that has not returned. *)
Inductive event :=
  | Printed (s : list Z) | Read_line (s : list Z) | Waiting | Forked (pid : Z) | Waited | Did (a : action) | Exited (code : Z).

(** One round of the kernel: the line that [read] stores, what [fork] returns and
    what [execve] or [cd] returns in a child.  A successful [execve] does not
    return. *)
Record answer := Answer { line : list Z; pid : Z; result : Z }.

Definition welcome_text : list Z :=
  [87; 101; 108; 99; 111; 109; 101; 32; 85; 83; 69; 82; 46; 32; 84; 121; 112; 101; 32; 104; 32; 102; 111; 114; 32;
   104; 101; 108; 112; 10].
Definition prompt_text : list Z := [83; 66; 85; 73; 78; 88; 62; 32].
Definition bad_text : list Z := [66; 97; 100; 32; 70; 105; 108; 101; 32; 110; 97; 109; 101; 10].

Section shell.
Context (kept : bool) (L : literals) (array delims cmd tmp cmdline : Z).

(** [cmdline[strlen(cmdline)-1] = 0]: of an empty line the byte before the array
    is written. *)
Definition strip_newline (m : bytes) : outcome bytes :=
  len ← strlen 100 m cmdline;
  if len =? 0 then Undef else Ret (store8 m (cmdline + (len - 1)) 0).

(** The commands whose result [eval] returns are [exec] and [cd]; [ps], [ll] and
    [ls] start their programs and drop it. *)
Definition assigned (a : action) : bool :=
  match a with
  | Exec p => negb (bool_decide (p ∈ [bin_ps L; bin_ll L; bin_ls L]))
  | Cd _ => true
  | _ => false
  end.

(** The child after [eval] has picked its action. *)
Definition child_events (a : action) (ret : Z) : list event :=
  let rest := (if assigned a && (ret =? -1) then [Printed bad_text] else []) ++ [Exited 1] in
  match a with
  | Exec _ => if ret =? -1 then Did a :: rest else [Did a]
  | _ => Did a :: rest
  end.

(** One process's run of the loop: the first [fork] that returns a positive number
    makes it a child. *)
Fixpoint shell_from (script : list answer) (m : bytes) : outcome (list event) :=
  let m := memset 100 m cmdline 0 in
  match script with
  | [] => Ret [Printed prompt_text; Waiting]
  | x :: script =>
    let m := patch m cmdline (line x) in
    m ← strip_newline m;
    if 0 <? pid x then
      r ← eval kept L m array delims cmd tmp cmdline;
      Ret (Printed prompt_text :: Read_line (line x) :: Forked (pid x) :: child_events r.2 (result x))
    else
      l ← shell_from script m;
      Ret (Printed prompt_text :: Read_line (line x) :: Forked (pid x) :: Waited :: l)
  end.
Definition main (script : list answer) (m : bytes) : outcome (list event) :=
  l ← shell_from script m; Ret (Printed welcome_text :: l).

(** ** A line of the terminal *)

(** Nonzero bytes that fit the array with their terminator. *)
Definition line_ok (s : list Z) : Prop := s <> [] /\ Forall (fun c => 0 < c < 256) s /\ (length s < 100)%nat.

Lemma read_line_cstr m s : line_ok s -> cstr (patch (memset 100 m cmdline 0) cmdline s) cmdline s.
Proof.
  intros (_ & Hs & Hl). split_and!; [|done|].
  - intros i c Hi. pose proof (lookup_lt_Some _ _ _ Hi). unfold patch.
    rewrite (proj2 (Z.leb_le _ _)), (proj2 (Z.ltb_lt _ _)) by lia. cbn [andb].
    replace (Z.to_nat (cmdline + Z.of_nat i - cmdline)) with i by lia. by rewrite Hi.
  - rewrite patch_out by (unfold apart; lia). rewrite memset_spec. by rewrite decide_True by lia.
Qed.

Lemma strip_newline_spec m s c :
  cstr m cmdline (s ++ [c]) -> (length s < 99)%nat ->
  exists m', strip_newline m = Ret m' /\ cstr m' cmdline s /\ forall x, apart x 1 cmdline 100 -> m' x = m x.
Proof.
  intros Hs Hl. unfold strip_newline. rewrite (strlen_spec 100 m cmdline (s ++ [c])), bind_Ret by
    (try rewrite length_app; simpl; (done || lia)).
  rewrite length_app. simpl length. rewrite (proj2 (Z.eqb_neq _ _)) by lia. eexists. split; [done|].
  destruct Hs as (Hb & Hf & _). apply Forall_app in Hf as [Hf _]. split.
  - split_and!; [|done|].
    + intros i d Hi. pose proof (lookup_lt_Some _ _ _ Hi). unfold store8. rewrite (proj2 (Z.eqb_neq _ _)) by lia.
      apply Hb. by apply lookup_app_l_Some.
    + unfold store8. by rewrite (proj2 (Z.eqb_eq _ _)) by lia.
  - intros x Hx. unfold store8. rewrite (proj2 (Z.eqb_neq _ _)); [done|]. unfold apart in Hx. lia.
Qed.

(** What the loop relies on, beside [eval]'s needs: the line is apart from the
    delimiters and the literals. *)
Record loop_ok (m : bytes) : Prop := {
  loop_shell : shell_ok L m array delims cmd tmp cmdline;
  loop_delims : apart cmdline 100 delims 5;
  loop_literals : forall q, q ∈ [lit_cls L; lit_pwd L; lit_h L; lit_exec L; lit_cd L; lit_ps L; lit_ll L; lit_ls L] ->
    apart cmdline 100 q 5
}.

Lemma loop_ok_same m m' : loop_ok m -> (forall x, apart x 1 cmdline 100 -> m' x = m x) -> loop_ok m'.
Proof.
  intros [[H0 H1 H2 Hd Hl H3 H4 H5 H6 H7 H8] Hcd Hcl] Hm. split; [|done|done]. split; try done.
  - eapply cstr_same; [exact Hd|]. intros x Hx. simpl in Hx. apply Hm. unfold apart in *. lia.
  - eapply literals_same; [exact Hl|]. intros q Hq x Hx. apply Hm. specialize (Hcl q Hq). unfold apart in *. lia.
Qed.

(** A round up to the [fork]. *)
Lemma round_spec m s c :
  loop_ok m -> line_ok (s ++ [c]) ->
  exists m', strip_newline (patch (memset 100 m cmdline 0) cmdline (s ++ [c])) = Ret m' /\ loop_ok m' /\ cstr m' cmdline s.
Proof.
  intros HL Hs. pose proof (read_line_cstr m _ Hs) as Hc. destruct Hs as (_ & _ & Hlen). rewrite length_app in Hlen. simpl in Hlen.
  destruct (strip_newline_spec _ s c Hc) as (m' & E & Hc' & Hm); [lia|]. exists m'. split; [done|]. split; [|done].
  apply (loop_ok_same m); [done|]. intros x Hx. rewrite Hm by done. rewrite patch_out.
  - rewrite memset_spec, decide_False; [done|]. unfold apart in Hx. lia.
  - rewrite length_app. simpl. unfold apart in *. lia.
Qed.

(** ** The loop *)

(** What the shell does for each line when it is the parent. *)
Definition parent_round (s : list Z) : list event := [Printed prompt_text; Read_line s; Forked 0; Waited].

Lemma shell_from_parent lines : forall m rest,
  loop_ok m -> Forall line_ok lines ->
  exists m', loop_ok m' /\ shell_from (map (fun s => Answer s 0 0) lines ++ rest) m =
    l ← shell_from rest m'; Ret (concat (map parent_round lines) ++ l).
Proof.
  induction lines as [|s lines IH]; intros m rest HL HF; cbn [map app concat].
  - exists m. split; [done|]. by destruct (shell_from rest m).
  - apply Forall_cons in HF as [Hs HF]. destruct s as [|c s _] using rev_ind; [by destruct Hs|].
    destruct (round_spec m s c HL Hs) as (m1 & E & HL1 & _). destruct (IH m1 rest HL1 HF) as (m2 & HL2 & E2).
    exists m2. split; [done|]. cbn [shell_from line pid result]. cbv zeta. rewrite E, bind_Ret. cbn [Z.ltb Z.compare].
    rewrite E2. by destruct (shell_from rest m2).
Qed.
End shell.

(** The text before the last character; of a line that the terminal left before
    the rest of an older one, the command is that of the new line. *)
Lemma command_stale w t : Forall (fun c => c <> 13 /\ c <> 32) w -> command (w ++ 13 :: t) = w.
Proof.
  induction w as [|c w IH]; intros Hw; [done|]. apply Forall_cons in Hw as [[H1 H2] Hw]. cbn [command app].
  rewrite (proj2 (Z.eqb_neq _ _) H2), (proj2 (Z.eqb_neq _ _) H1). simpl. by rewrite IH.
Qed.

Lemma command_word w : Forall (fun c => c <> 13 /\ c <> 32) w -> command w = w.
Proof.
  induction w as [|c w IH]; intros Hw; [done|]. apply Forall_cons in Hw as [[H1 H2] Hw]. cbn [command].
  rewrite (proj2 (Z.eqb_neq _ _) H2), (proj2 (Z.eqb_neq _ _) H1). simpl. by rewrite IH.
Qed.

(** C6: the shell never ends as long as [fork] makes it the parent: for any
    number of lines it prompts, reads, forks and waits once each and then waits
    for the next line.  A child of the next line reads [parseline]'s array after
    its lifetime, which is undefined; where the compiled program keeps the
    array's bytes, as the committed one does, it does the action of that line's
    first word, which may be followed by the tail of an older line that the
    terminal left behind the carriage return, and exits unless the action is a
    program that starts. *)
Theorem shell_rounds kept L array delims cmd tmp cmdline m lines w tail c p r :
  loop_ok L array delims cmd tmp cmdline m -> Forall line_ok lines ->
  w <> [] -> Forall (fun c => c <> 13 /\ c <> 32) w -> tail = [] \/ (exists t, tail = 13 :: t) ->
  line_ok (w ++ tail ++ [c]) -> (length (starts 100 array (w ++ tail)) <= MAXARGS)%nat -> 0 < p ->
  main kept L array delims cmd tmp cmdline (map (fun s => Answer s 0 0) lines) m =
    Ret (Printed welcome_text :: concat (map parent_round lines) ++ [Printed prompt_text; Waiting]) /\
  main kept L array delims cmd tmp cmdline (map (fun s => Answer s 0 0) lines ++ [Answer (w ++ tail ++ [c]) p r]) m =
    if kept then Ret (Printed welcome_text :: concat (map parent_round lines) ++
      Printed prompt_text :: Read_line (w ++ tail ++ [c]) :: Forked p ::
      child_events L (action_of L w (default 0 (starts 100 array (w ++ tail) !! 1%nat))) r) else Undef.
Proof.
  intros HL HF Hw Hww Htail Hline Hmax Hp. unfold main. split.
  - destruct (shell_from_parent kept L array delims cmd tmp cmdline lines m [] HL HF) as (m' & _ & E).
    rewrite app_nil_r in E. rewrite E. done.
  - destruct (shell_from_parent kept L array delims cmd tmp cmdline lines m [Answer (w ++ tail ++ [c]) p r] HL HF)
      as (m1 & HL1 & ->). cbn [shell_from line pid result]. cbv zeta. rewrite app_assoc in Hline |- *.
    destruct (round_spec L array delims cmd tmp cmdline m1 (w ++ tail) c HL1 Hline) as (m2 & -> & [HS _ _] & Hc).
    rewrite bind_Ret, (proj2 (Z.ltb_lt _ _) Hp). destruct Hline as (_ & _ & Hlen). rewrite length_app in Hlen. simpl in Hlen.
    destruct (eval_spec kept L m2 array delims cmd tmp cmdline (w ++ tail) HS Hc) as (m3 & ->); [by destruct w|lia|done|].
    destruct kept; [|done]. rewrite !bind_Ret. cbn [fst snd].
    assert (command (w ++ tail) = w) as ->; [|done].
    destruct Htail as [->|[t ->]]; [rewrite app_nil_r; by apply command_word|by apply command_stale].
Qed.

(** After ["cd a"], the line ["ls"] over the rest of a longer one. *)
Example shell_rounds_witness :
  main true demo_literals 0x4000 0x2000 0x4100 0x4200 0x1000
      [Answer [99; 100; 32; 97; 13] 0 0; Answer [108; 115; 13; 97; 13] 7 0] demo_shell =
    Ret (Printed welcome_text :: parent_round [99; 100; 32; 97; 13] ++
      [Printed prompt_text; Read_line [108; 115; 13; 97; 13]; Forked 7; Did (Exec 0x30A0)]).
Proof.
  refine (proj2 (shell_rounds true demo_literals 0x4000 0x2000 0x4100 0x4200 0x1000 demo_shell [[99; 100; 32; 97; 13]]
    [108; 115] [13; 97] 13 7 0 _ _ _ _ _ _ _ _)).
  - split; [|by_computation|].
    + split; [discriminate|discriminate|lia|apply cstr_check_sound; reflexivity| |by_computation..|].
      * unfold literals_in. split_and!; apply cstr_check_sound; reflexivity.
      * intros q Hq. repeat (apply elem_of_cons in Hq as [->|Hq]; [split_and!; by_computation|]). by apply elem_of_nil in Hq.
    + intros q Hq. repeat (apply elem_of_cons in Hq as [->|Hq]; [by_computation|]). by apply elem_of_nil in Hq.
  - by_computation.
  - discriminate.
  - by_computation.
  - right. by exists [97].
  - by_computation.
  - by_computation.
  - lia.
Defined.
