(* ===== verification/Process.v ===== *)
(** * User processes (sys/mmap.c, sys/exec.c, sys/isr.c)

    The list of memory areas of a process, the stacks of user threads, fork,
    exec and exit, over the threads of Kthread.v, the page tables of Paging.v
    and the heap of KHeap.v. *)

From S2P Require Import Prelude CString Memory Bitmap PhysMem PageEntry Paging MapPage KHeap Queues Kthread TarFs.

(** ** State *)

(** [vm_area_struct] of include/sys/task.h. *)
Record vm_area_struct := Vma { vma_name : Z; vm_start : Z; vm_end : Z; vm_flags : Z; vm_next : Z }.

(** The kernel with the memory areas, by address. *)
Record system := Sys { kern : kernel; vmas : gmap Z vm_area_struct }.
Definition with_kern (s : system) (k : kernel) : system := Sys k (vmas s).
Definition with_vmas (s : system) (v : gmap Z vm_area_struct) : system := Sys (kern s) v.

Definition vm_of (k : kernel) : vmm := MyAlloc.vm (kheap k).
Definition with_vm (k : kernel) (v : vmm) : kernel := with_kheap k (MyAlloc.with_vm (kheap k) v).
Definition set_cr3 (v : vmm) (p : Z) : vmm :=
  Vmm (mem v) (frames v) p (cur_pml4_directory v) (cur_pml4_base_pointer v) (bump_addr v) (prev_no_pages v)
    (bump_start v) (kernel_pgd v).

Definition set_krsp (v : Z) (t : thread) : thread :=
  Thread (rsp t) (kernel_thread t) v (pcr3 t) (Queues.cr3 t) (kstack t) (sleeping t) (priority t)
    (q_links t) (stackPage t) (brk t) (no_stack_pages t) (owner t) (parent t) (joinQueue t) (refCount t)
    (join_head t) (alive t) (name t) (exitCode t) (pid t) (mmap t) (mmap_cache t) (a_links t).
Definition set_areas (m c : Z) (t : thread) : thread :=
  Thread (rsp t) (kernel_thread t) (krsp t) (pcr3 t) (Queues.cr3 t) (kstack t) (sleeping t) (priority t)
    (q_links t) (stackPage t) (brk t) (no_stack_pages t) (owner t) (parent t) (joinQueue t) (refCount t)
    (join_head t) (alive t) (name t) (exitCode t) (pid t) m c (a_links t).
Definition set_alive (b : bool) (t : thread) : thread :=
  Thread (rsp t) (kernel_thread t) (krsp t) (pcr3 t) (Queues.cr3 t) (kstack t) (sleeping t) (priority t)
    (q_links t) (stackPage t) (brk t) (no_stack_pages t) (owner t) (parent t) (joinQueue t) (refCount t)
    (join_head t) b (name t) (exitCode t) (pid t) (mmap t) (mmap_cache t) (a_links t).
Definition set_brk (v : Z) (t : thread) : thread :=
  Thread (rsp t) (kernel_thread t) (krsp t) (pcr3 t) (Queues.cr3 t) (kstack t) (sleeping t) (priority t)
    (q_links t) (stackPage t) v (no_stack_pages t) (owner t) (parent t) (joinQueue t) (refCount t)
    (join_head t) (alive t) (name t) (exitCode t) (pid t) (mmap t) (mmap_cache t) (a_links t).
Definition set_stack_pages (v : Z) (t : thread) : thread :=
  Thread (rsp t) (kernel_thread t) (krsp t) (pcr3 t) (Queues.cr3 t) (kstack t) (sleeping t) (priority t)
    (q_links t) (stackPage t) (brk t) v (owner t) (parent t) (joinQueue t) (refCount t)
    (join_head t) (alive t) (name t) (exitCode t) (pid t) (mmap t) (mmap_cache t) (a_links t).
Definition set_sleep (v : Z) (t : thread) : thread :=
  Thread (rsp t) (kernel_thread t) (krsp t) (pcr3 t) (Queues.cr3 t) (kstack t) v (priority t)
    (q_links t) (stackPage t) (brk t) (no_stack_pages t) (owner t) (parent t) (joinQueue t) (refCount t)
    (join_head t) (alive t) (name t) (exitCode t) (pid t) (mmap t) (mmap_cache t) (a_links t).
Definition set_tables (c pc : Z) (t : thread) : thread :=
  Thread (rsp t) (kernel_thread t) (krsp t) pc c (kstack t) (sleeping t) (priority t)
    (q_links t) (stackPage t) (brk t) (no_stack_pages t) (owner t) (parent t) (joinQueue t) (refCount t)
    (join_head t) (alive t) (name t) (exitCode t) (pid t) (mmap t) (mmap_cache t) (a_links t).

Definition update_thread (k : kernel) (p : Z) (f : thread -> thread) : outcome kernel :=
  h ← update (threads k) p f; Ret (with_threads k h).

(** ** Memory areas (sys/mmap.c) *)

Definition area (s : system) (p : Z) : outcome vm_area_struct := if p =? 0 then Undef else defined (vmas s !! p).
Definition set_next_area (s : system) (p v : Z) : outcome system :=
  a ← area s p;
  Ret (with_vmas s (<[p := Vma (vma_name a) (vm_start a) (vm_end a) (vm_flags a) v]> (vmas s))).

Definition insert_vma (s : system) (vma p : Z) : outcome system :=
  t ← deref (threads (kern s)) p;
  let first := mmap t in
  s ← set_next_area s vma 0;
  s ← (if first =? 0 then Ret s else set_next_area s (mmap_cache t) vma);
  k ← update_thread (kern s) p (set_areas (if first =? 0 then vma else first) vma);
  Ret (with_kern s k).

(** [sizeof(vm_area_struct)] is 40.  One page is mapped whatever the length. *)
Definition sys_mmap (code_section : Z) (s : system) (addr length p : Z) : outcome system :=
  r ← MyAlloc.sub_malloc (kheap (kern s)) 40 false;
  let vma := r.2 in
  let k := with_kheap (kern s) r.1 in
  f ← alloc_block (frames (vm_of k));
  v ← vmmgr_map_page_after_paging (with_frames (vm_of k) f.1) f.2 addr true;
  let a := Vma code_section addr (u64 (addr + 0x1000)) 0 0 in
  insert_vma (Sys (with_vm k v) (<[vma := a]> (vmas s))) vma p.

(** [while (crawl) { tmp = crawl->vm_next; memset(crawl, 0, ...);
     sub_free(crawl); crawl = tmp; }] *)
Fixpoint clear_from (n : nat) (s : system) (crawl : Z) : outcome system :=
  if crawl =? 0 then Ret s else
  a ← area s crawl;
  let s := with_vmas s (<[crawl := Vma 0 0 0 0 0]> (vmas s)) in
  h ← MyAlloc.sub_free (kheap (kern s)) crawl;
  let s := with_kern s (with_kheap (kern s) h) in
  match n with O => Loops | S n => clear_from n s (vm_next a) end.
Definition clear_vmas (s : system) (p : Z) : outcome system :=
  t ← deref (threads (kern s)) p;
  s ← clear_from (size (vmas s)) s (mmap t);
  k ← update_thread (kern s) p (set_areas 0 0);
  Ret (with_kern s k).

(** ** Kernel stacks of user threads *)

Definition PushU (k : kernel) (p value : Z) : outcome kernel :=
  t ← deref (threads k) p;
  let sp := u64 (krsp t - 8) in
  Ret (with_stackmem (with_threads k (<[p := set_krsp sp t]> (threads k))) (mem_set (stackmem k) sp value)).

Definition push_all (k : kernel) (p : Z) (l : list Z) : outcome kernel :=
  foldl (fun (r : outcome kernel) v => k ← r; PushU k p v) (Ret k) l.

Definition PushU_General_Registers (k : kernel) (p : Z) : outcome kernel := push_all k p (replicate 15 0).

Definition USER_CS : Z := 0x1B.
Definition USER_DS : Z := 0x23.

Definition setup_kthread_user (k : kernel) (p startFunc : Z) : outcome kernel :=
  k ← PushU k p USER_DS;
  t ← deref (threads k) p;
  k ← PushU k p (rsp t);
  k ← PushU k p 0x200;
  k ← PushU k p USER_CS;
  k ← PushU k p startFunc;
  k ← PushU k p 0;
  k ← PushU k p 0;
  PushU_General_Registers k p.

(** ** Creation (sys/exec.c) *)

Definition UserStack : Z := 0xbff000.
Definition UserHeap : Z := 0x80000.

(** The current thread keeps its kernel stack; for another one the stack has two
    pages, and [kstack] moves to its end. *)
Definition Init_Thread_user (k : kernel) (p name stack prio : Z) (detached : bool) : outcome kernel :=
  t ← deref (threads k) p;
  c ← deref (threads k) (currentThread k);
  let other := negb (p =? currentThread k) in
  let top := u64 (kstack t + 2 * VIRT_PAGE_SIZE - 0x8) in
  let r := if other then alloc_pid k else (k, pid t) in
  let t := Thread (u64 (stack + VIRT_PAGE_SIZE - 0x8)) 0 (if other then top else u64 (kstack t - 0x8))
    (Paging.cr3 (vm_of k)) (if other then Queues.cr3 c else Queues.cr3 t) (if other then top else kstack t)
    0 prio (q_links t) stack (brk t) 1 (if detached then 0 else currentThread k) (parent t) (joinQueue t)
    (if detached then 1 else 2) (join_head t) true name (exitCode t) r.2 (mmap t) (mmap_cache t) (a_links t) in
  Ret (with_threads r.1 (<[p := t]> (threads k))).

(** A null [kstack] is freed before the return. *)
Definition create_kthread_user (im : image) (k : kernel) (name prio : Z) (detached : bool) : outcome (kernel * Z) :=
  r ← new_thread_page im k;
  let k := r.1 in
  let p := r.2 in
  if p =? 0 then Ret (k, 0) else
  s ← MyAlloc.sub_malloc (kheap k) 1 true;
  k ← update_thread (with_kheap k s.1) p (fun t =>
    Thread (rsp t) (kernel_thread t) (krsp t) (pcr3 t) (Queues.cr3 t) s.2 (sleeping t) (priority t)
      (q_links t) (stackPage t) (brk t) (no_stack_pages t) (owner t) (parent t) (joinQueue t) (refCount t)
      (join_head t) (alive t) (Queues.name t) (exitCode t) (pid t) (mmap t) (mmap_cache t) (a_links t));
  if s.2 =? 0 then h ← MyAlloc.sub_free (kheap k) s.2; Ret (with_kheap k h, 0) else
  k ← Init_Thread_user k p name UserStack prio detached;
  k ← alllist_kthread k p;
  Ret (k, p).

(** A byte of user memory, in the word that holds it. *)
Definition vstore8 (st : vmm) (va b : Z) : outcome vmm :=
  match translate (mem st) (Paging.cr3 st) va with
  | Some pa =>
    let w := 8 * (pa / 8) in
    let sh := 8 * (pa mod 8) in
    Ret (with_mem st (mem_set (mem st) w
      (Z.lor (Z.land (mem st w) (Z.lnot (Z.shiftl 0xFF sh))) (Z.shiftl b sh))))
  | None => Undef
  end.

(** [memcpy] from the archive into user memory. *)
Definition copy_in (m : bytes) (dst src n : Z) (st : vmm) : outcome vmm :=
  for_loop (Z.to_nat n) 0 (fun i st => vstore8 st (u64 (dst + i)) (m (u64 (src + i)))) st.

(** The loop over the segments of the program. *)
Definition load_segments (code_section : Z) (m : bytes) (p : Z) (l : list exec) (s : system) : outcome system :=
  foldl (fun (r : outcome system) e =>
    s ← r;
    s ← sys_mmap code_section s (seg_page_start e) (seg_length e) p;
    v ← copy_in m (seg_actual_start e) (seg_mem e) (seg_length e) (vm_of (kern s));
    Ret (with_kern s (with_vm (kern s) v))) (Ret s) l.

(** Segments, stack and heap of a program, and the frame it starts from. *)
Definition build_image (code_section : Z) (m : bytes) (p : Z) (pr : program) (s : system) : outcome system :=
  s ← load_segments code_section m p (executable pr) s;
  s ← sys_mmap code_section s UserStack VIRT_PAGE_SIZE p;
  s ← sys_mmap code_section s UserHeap VIRT_PAGE_SIZE p;
  k ← update_thread (kern s) p (set_brk (s32 UserHeap));
  k ← setup_kthread_user k p (entry_point pr);
  Ret (with_kern s k).

(** [do_exec] returns 0 when the file is missing or no thread can be made. *)
Definition do_exec (im : image) (code_section : Z) (L : tar_layout) (m : bytes) (s : system) (name : Z) : outcome (system * Z) :=
  e ← readelf L m name;
  match e with
  | None => Ret (s, 0)
  | Some pr =>
    r ← create_kthread_user im (kern s) name 10 true;
    let p := r.2 in
    if p =? 0 then Ret (with_kern s r.1, 0) else
    s ← build_image code_section m p pr (with_kern s r.1);
    k ← add_to_ptable (kern s) p;
    k ← runnable_kthread (disable_interrupts k) p;
    Ret (with_kern s (enable_interrupts k), 1)
  end.

(** The current thread becomes the program; it is appended once more to the list
    of all threads. *)
Definition do_exec1 (code_section : Z) (L : tar_layout) (m : bytes) (s : system) (name : Z) : outcome system :=
  let p := currentThread (kern s) in
  k ← Init_Thread_user (kern s) p name UserStack 10 true;
  k ← alllist_kthread k p;
  e ← readelf L m name;
  match e with
  | None => Ret (with_kern s k)
  | Some pr =>
    s ← build_image code_section m p pr (with_kern s k);
    k ← runnable_kthread (kern s) p;
    Ret (with_kern s k)
  end.

(** [main_execve]: [temp] is the copy of the name in a local array of 30 bytes. *)
Definition main_execve (code_section : Z) (L : tar_layout) (m : bytes) (s : system) (temp name : Z) : outcome system :=
  n ← strlen STRING_BOUND m name;
  if 30 <? n then Undef else
  let m := strncpy (memset 30 m temp 0) temp name n in
  s ← clear_vmas s (currentThread (kern s));
  t ← deref (threads (kern s)) (currentThread (kern s));
  v ← clear_page_tables (Queues.cr3 t) (vm_of (kern s));
  do_exec1 code_section L m (with_kern s (with_vm (kern s) (set_cr3 v (pcr3 t)))) temp.

(** ** Exit, fork and the other calls on threads (sys/isr.c) *)

Definition sys_getpid (k : kernel) : outcome Z := t ← deref (threads k) (currentThread k); Ret (pid t).

Definition sys_exit (k : kernel) : outcome kernel :=
  t ← deref (threads k) (currentThread k);
  k_thread ← array_get (ptable k) (pid t);
  k ← thread_cleanup k k_thread;
  pt ← array_set (ptable k) (pid t) 0;
  Ret (free_pid (with_pids k (nextFreePid k) pt)).

(** [regs] of include/sys/idt.h, as the interrupt stub leaves it on the stack. *)
Record regs := Regs {
  r15 : Z; r14 : Z; r13 : Z; r12 : Z; r11 : Z; r10 : Z; r9 : Z; r8 : Z; rsi : Z; rdi : Z; rbp : Z; rdx : Z;
  rcx : Z; rbx : Z; rax : Z; intNo : Z; errCode : Z; rip : Z; cs : Z; rflags : Z; user_rsp : Z; ss : Z
}.

Definition fork_int (k : kernel) (p : Z) (r : regs) : outcome kernel :=
  t ← deref (threads k) p;
  push_all k p
    [0x23; user_rsp r; rflags r; cs r; rip r; intNo r; errCode r; u64 (pid t); rbx r; rcx r; rdx r; rbp r; rdi r;
     rsi r; r8 r; r9 r; r10 r; r11 r; r12 r; r13 r; r14 r; r15 r].

(** The copy of the current thread, with a stack and a number of its own. *)
Definition fork_thread (k : kernel) (p pid stack : Z) (c : thread) : thread :=
  let top := u64 (stack + 2 * VIRT_PAGE_SIZE - 0x8) in
  Thread (rsp c) (kernel_thread c) top (pcr3 c) (Queues.cr3 c) top (sleeping c) (priority c)
    (q_links c) (stackPage c) (brk c) (no_stack_pages c) (owner c) (currentThread k) (joinQueue c) (refCount c)
    (join_head c) (alive c) (name c) (exitCode c) pid (mmap c) (mmap_cache c) (a_links c).

Definition fork (k : kernel) (r : regs) : outcome (kernel * Z) :=
  a ← MyAlloc.sub_malloc (kheap k) 0 true;
  let p := a.2 in
  c ← deref (threads k) (currentThread k);
  let n := alloc_pid (with_kheap k a.1) in
  let k := n.1 in
  pt ← array_set (ptable k) n.2 p;
  s ← MyAlloc.sub_malloc (kheap k) 1 true;
  let k := with_kheap (with_pids k (nextFreePid k) pt) s.1 in
  let k := with_threads k (<[p := fork_thread k p n.2 s.2 c]> (threads k)) in
  k ← fork_int k p r;
  if p =? 0 then Panic else
  d ← MyAlloc.sub_malloc (kheap k) 0 true;
  let k := with_kheap k d.1 in
  k ← update_thread k p (set_tables d.2 (u64 (d.2 - virt_base)));
  v ← clone_pgdir (vm_of k) (Queues.cr3 c) d.2;
  v ← copy_page_table (Queues.cr3 c) d.2 true v;
  k ← add_to_joinQueue (with_vm k v) (currentThread k) p;
  k ← alllist_kthread k p;
  k ← runnable_kthread k p;
  Ret (k, 0).

Definition sleep (k : kernel) (time : Z) : outcome kernel := update_thread k (currentThread k) (set_sleep (s32 time)).

(** One test of the loop of [wait]: it goes on while there is a child. *)
Definition wait_again (k : kernel) : outcome bool :=
  t ← deref (threads k) (currentThread k); Ret (negb (jnext (join_head t) =? 0)).

Definition do_sbrk (k : kernel) (pr : Z) : outcome (kernel * Z) :=
  k ← (if negb (pr =? 0) then update_thread k (currentThread k) (fun t => set_brk (s32 (brk t + pr)) t) else Ret k);
  t ← deref (threads k) (currentThread k);
  Ret (k, brk t).

(** [file_used] is written for the descriptors of the archive only. *)
Definition do_close (L : tar_layout) (st : tarfs) (fd : Z) : outcome tarfs :=
  if fd <? 50 then
    if fd <? 0 then Undef else Ret (with_tar_mem st (store32 (tar_mem st) (file_used L + 4 * fd) 0))
  else Ret st.

(** One line of [print_process]: name, number and mode. *)
Record ps_line := PsLine { ps_name : Z; ps_pid : Z; ps_kernel : bool }.

(** [for (i = 2; i < nextFreePid; i++)]; the table's size bounds the run, an index
    past it being undefined. *)
Fixpoint print_from (n : nat) (k : kernel) (i : Z) : outcome (list ps_line) :=
  if i <? nextFreePid k then
    p ← array_get (ptable k) i;
    t ← deref (threads k) p;
    match n with
    | O => Loops
    | S n => l ← print_from n k (u16 (i + 1)); Ret (PsLine (name t) (pid t) (kernel_thread t =? 1) :: l)
    end
  else Ret [].
Definition print_process (k : kernel) : outcome (list ps_line) := print_from (List.length (ptable k)) k 2.

(** [tarfs_read(name)] is tested before anything is torn down; the caller
    schedules. *)
Definition do_execve (code_section sp : Z) (L : tar_layout) (m : bytes) (s : system) (temp name : Z) : outcome (system * Z) :=
  start ← tarfs_read L m name;
  if start =? 0 then Ret (s, -1) else
  s ← main_execve code_section L m s temp name;
  k ← Schedule sp (kern s);
  Ret (with_kern s k, 0).

(** ** The list of memory areas *)

(** Following [vm_next] from [p] visits the areas [l] and ends in a null
    pointer. *)
Fixpoint area_chain (m : gmap Z vm_area_struct) (p : Z) (l : list Z) : Prop :=
  match l with
  | [] => p = 0
  | q :: l => p = q /\ q <> 0 /\ exists a, m !! q = Some a /\ area_chain m (vm_next a) l
  end.

(** Thread [p] has the areas [l]: [mmap] points to the first and [mmap_cache] to
    the last. *)
Record areas_ok (s : system) (p : Z) (l : list Z) : Prop := {
  areas_thread : exists t, p <> 0 /\ threads (kern s) !! p = Some t /\ area_chain (vmas s) (mmap t) l /\
                   mmap_cache t = List.last l 0;
  areas_nodup : NoDup l
}.

Lemma area_eq s q a : q <> 0 -> vmas s !! q = Some a -> area s q = Ret a.
Proof. intros Hq E. unfold area. by rewrite (proj2 (Z.eqb_neq _ _) Hq), E. Qed.

Lemma set_next_area_eq s q a v :
  q <> 0 -> vmas s !! q = Some a ->
  set_next_area s q v = Ret (with_vmas s (<[q := Vma (vma_name a) (vm_start a) (vm_end a) (vm_flags a) v]> (vmas s))).
Proof. intros Hq E. unfold set_next_area. by rewrite (area_eq _ _ _ Hq E). Qed.

Lemma area_chain_agree m m' p l :
  (forall q, q ∈ l -> m' !! q = m !! q) -> area_chain m p l -> area_chain m' p l.
Proof.
  revert p. induction l as [|q l IH]; intros p Hm; [done|]. intros (-> & Hq & a & E & H).
  split_and!; [done|done|]. exists a. split; [by rewrite Hm by apply list_elem_of_here|].
  apply IH; [|done]. intros x Hx. apply Hm. by apply list_elem_of_further.
Qed.

Lemma area_chain_elem m p l q : area_chain m p l -> q ∈ l -> q <> 0 /\ is_Some (m !! q).
Proof.
  revert p. induction l as [|x l IH]; intros p H; [by intros ?%elem_of_nil|].
  destruct H as (_ & Hx & a & E & H). intros [->|?]%elem_of_cons; [by rewrite E|by eapply IH].
Qed.

Lemma area_chain_snoc m p l x a a0 :
  area_chain m p l -> x <> 0 -> x ∉ l -> NoDup l ->
  m !! x = Some a -> vm_next a = 0 ->
  m !! List.last l 0 = Some a0 -> l <> [] ->
  area_chain (<[List.last l 0 := Vma (vma_name a0) (vm_start a0) (vm_end a0) (vm_flags a0) x]> m) p (l ++ [x]).
Proof.
  revert p. induction l as [|q l IH]; intros p H Hx Hnin Hnd Ex En El Hne; [done|].
  destruct H as (-> & Hq & b & Eb & H). apply NoDup_cons in Hnd as [Hql Hnd].
  apply not_elem_of_cons in Hnin as [Hxq Hxl]. split_and!; [done|done|].
  rewrite last_cons_default in El |- *. destruct l as [|q' l].
  - cbn [List.last] in *. rewrite lookup_insert_eq. eexists. split; [done|].
    cbn [vm_next app]. split_and!; [done|done|]. exists a. rewrite lookup_insert_ne by done. by rewrite En.
  - rewrite last_cons_default in El |- *. exists b. split.
    + rewrite lookup_insert_ne; [done|]. intros E. apply Hql. rewrite <- E. destruct l; [apply list_elem_of_here|].
      rewrite last_cons_default. rewrite <- last_cons_default with (d := 0). rewrite last_cons_default.
      assert (forall d, List.last (z :: l) d ∈ z :: l) as Hl by (intros d; by apply last_in).
      apply list_elem_of_further. rewrite <- (last_cons_default z l q'). apply Hl.
    + rewrite <- (last_cons_default q' l 0). apply IH; try done; by rewrite last_cons_default.
Qed.

Definition bounds (a : vm_area_struct) : Z * Z := (vm_start a, vm_end a).

Lemma insert_vma_spec s p l vma a :
  areas_ok s p l -> vma <> 0 -> vma ∉ l -> vmas s !! vma = Some a ->
  exists s', insert_vma s vma p = Ret s' /\ areas_ok s' p (l ++ [vma]) /\ kheap (kern s') = kheap (kern s) /\
    forall q, bounds <$> vmas s' !! q = bounds <$> vmas s !! q.
Proof.
  intros [(t & Hp & Ht & Hc & Hl) Hnd] Hv Hnin Ha. unfold insert_vma.
  rewrite (deref_eq _ _ _ Hp Ht), bind_Ret. rewrite (set_next_area_eq _ _ _ _ Hv Ha), bind_Ret. set (m1 := <[vma := _]> (vmas s)).
  assert (area_chain m1 (mmap t) l) as Hc1.
  { eapply area_chain_agree; [|exact Hc]. intros q Hq. unfold m1. rewrite lookup_insert_ne; [done|]. by intros ->. }
  assert (forall q, bounds <$> m1 !! q = bounds <$> vmas s !! q) as Hb1.
  { intros q. unfold m1. destruct (decide (q = vma)) as [->|]; [by rewrite lookup_insert_eq, Ha|by rewrite lookup_insert_ne]. }
  assert (NoDup (l ++ [vma])) as Hnd'.
  { apply NoDup_app. split_and!; [done| |apply NoDup_singleton]. intros x Hx ->%list_elem_of_singleton. done. }
  destruct l as [|q l].
  - cbn [area_chain] in Hc. rewrite Hc. cbn [Z.eqb]. rewrite bind_Ret. unfold update_thread.
    cbn [kern with_vmas]. rewrite (update_eq _ _ _ _ Hp Ht), !bind_Ret. eexists. split; [done|]. split; [|by split].
    split; [|done]. eexists. split_and!; [done|cbn; apply lookup_insert_eq| |done].
    cbn. split_and!; [done|done|]. eexists. split; [apply lookup_insert_eq|done].
  - pose proof Hc as (Em & Hq & _). rewrite Em in Hc1 |- *. rewrite (proj2 (Z.eqb_neq _ _) Hq).
    assert (List.last (q :: l) 0 ∈ q :: l) as Hlast by (by apply last_in).
    destruct (area_chain_elem _ _ _ _ Hc1 Hlast) as (Hl0 & a0 & Ea0).
    rewrite Hl, (set_next_area_eq (with_vmas s m1) _ a0 _ Hl0 Ea0), bind_Ret.
    unfold update_thread. cbn [kern with_vmas]. rewrite (update_eq _ _ _ _ Hp Ht), !bind_Ret.
    eexists. split; [done|]. split; [|split; [done|]].
    + split; [|done]. eexists. split_and!; [done|cbn; apply lookup_insert_eq| |symmetry; apply last_snoc].
      eapply (area_chain_snoc m1 q (q :: l)); [exact Hc1|exact Hv|exact Hnin|exact Hnd|
        apply lookup_insert_eq|done|exact Ea0|done].
    + intros x. cbn. rewrite <- Hb1. destruct (decide (x = List.last (q :: l) 0)) as [->|].
      * by rewrite lookup_insert_eq, Ea0.
      * by rewrite lookup_insert_ne.
Qed.

(** C26: linking a new area appends it to the thread's list: the chain from
    [mmap] still ends in a null pointer and visits every area once,
    [mmap_cache] points to the new one, and the bounds of all areas stay. *)
Theorem insert_vma_appends s p l vma a :
  areas_ok s p l -> vma <> 0 -> vma ∉ l -> vmas s !! vma = Some a ->
  exists s', insert_vma s vma p = Ret s' /\ areas_ok s' p (l ++ [vma]) /\
    forall q, bounds <$> vmas s' !! q = bounds <$> vmas s !! q.
Proof.
  intros Hs Hv Hn Ha. destruct (insert_vma_spec s p l vma a Hs Hv Hn Ha) as (s' & E & Hs' & _ & Hb). by exists s'.
Qed.

(** ** A small system *)

Definition demo_thread (n first last : Z) : thread :=
  Thread 0xbffff8 0 0x9000 0x1000 0x1000 0x9000 0 10 (Links 0 0) 0xbff000 0x80000 1 0 0 (Queue 0 0) 1
    (JoinQ 0 0) true 0 0 n first last (Links 0 0).

(** A user thread whose page at 0x400000 is shared through frame 0x5000. *)
Definition cow_machine : vmm :=
  Vmm (fun a =>
         if a =? 0x1000 + 8 * 510 then 0x1003 else if a =? 0x1000 then 0x2007 else if a =? 0x2000 then 0x3007
         else if a =? 0x3000 + 8 * 2 then 0x4007 else if a =? 0x4000 then Z.lor 0x5005 PTE_COW
         else if a =? 0x5008 then 77 else 0)
      (Bitmap [63; 0] 6 128) 0x1000 0 0x1000 0 0 0 0.
Definition cow_system : system :=
  Sys (Kernel {[ 0x100 := demo_thread 2 0x300 0x300 ]} ∅ (Queue 0x100 0x100) (Queue 0x100 0x100) 0x100 2
         (replicate 100 0) (MyAlloc.KHeap ∅ 0 0 cow_machine) (fun _ => 0) true true)
    {[ 0x300 := Vma 0 0x80000 0x81000 0 0 ]}.

(** A thread with one area and a second area not linked yet, both in heap
    chunks. *)
Definition area_system : system :=
  Sys (with_kheap (kern cow_system)
         (MyAlloc.KHeap {[ 0x2F0 := MyAlloc.Block 0x330 40 0; 0x330 := MyAlloc.Block 0 40 0 ]} 0x2F0 0x330 cow_machine))
    {[ 0x300 := Vma 0 0x80000 0x81000 0 0; 0x340 := Vma 0 0xbff000 0xc00000 0 7 ]}.

Lemma area_system_ok : areas_ok area_system 0x100 [0x300].
Proof.
  split; [|apply NoDup_singleton]. exists (demo_thread 2 0x300 0x300). split_and!; [lia|reflexivity| |reflexivity].
  split_and!; [reflexivity|lia|]. eexists. split; reflexivity.
Qed.

Example insert_vma_appends_witness :
  exists s', insert_vma area_system 0x340 0x100 = Ret s' /\ areas_ok s' 0x100 [0x300; 0x340].
Proof.
  destruct (insert_vma_appends area_system 0x100 [0x300] 0x340 (Vma 0 0xbff000 0xc00000 0 7) area_system_ok)
    as (s' & E & H & _); [lia|by_computation|reflexivity|].
  exists s'. split; [exact E|exact H].
Defined.

Lemma area_chain_size m p l : area_chain m p l -> NoDup l -> (List.length l <= size m)%nat.
Proof.
  intros Hc Hnd. assert (list_to_set l ⊆ dom m) as Hsub.
  { intros q Hq%elem_of_list_to_set. apply elem_of_dom. by eapply area_chain_elem in Hc as [_ ?]. }
  apply subseteq_size in Hsub. by rewrite size_list_to_set, size_dom in Hsub.
Qed.

(** The chunk of an area on the heap. *)
Definition chunk_of (h : MyAlloc.kheap) (q : Z) : option MyAlloc.metadata_block :=
  MyAlloc.blocks h !! u64 (q - MyAlloc.ALLOC_BLOCK_SIZE).

Lemma sub_free_chunk h q b :
  chunk_of h q = Some b ->
  exists h', MyAlloc.sub_free h q = Ret h' /\
    (forall x, chunk_of h' x =
       if decide (u64 (x - MyAlloc.ALLOC_BLOCK_SIZE) = u64 (q - MyAlloc.ALLOC_BLOCK_SIZE))
       then Some (MyAlloc.Block (MyAlloc.next b) (MyAlloc.size b) 1) else chunk_of h x).
Proof.
  intros E. unfold chunk_of in *. unfold MyAlloc.sub_free, MyAlloc.put_free, MyAlloc.header. rewrite E. cbn [defined]. rewrite bind_Ret.
  eexists. split; [done|]. intros x. cbn. destruct (decide _) as [->|Hne].
  - by rewrite lookup_insert_eq.
  - by rewrite lookup_insert_ne by done.
Qed.

Definition freed (h : MyAlloc.kheap) (q : Z) : Prop := exists b, chunk_of h q = Some b /\ MyAlloc.free b = 1.

Lemma clear_from_spec l : forall n s crawl,
  area_chain (vmas s) crawl l -> NoDup l -> (List.length l <= n)%nat ->
  (forall q, q ∈ l -> is_Some (chunk_of (kheap (kern s)) q)) ->
  exists s', clear_from n s crawl = Ret s' /\ threads (kern s') = threads (kern s) /\
    (forall q, freed (kheap (kern s)) q \/ q ∈ l -> freed (kheap (kern s')) q).
Proof.
  induction l as [|q l IH]; intros n s crawl Hc Hnd Hn Hch.
  { cbn in Hc. subst crawl. exists s. split_and!; [by destruct n|done|]. intros x [?|?%elem_of_nil]; done. }
  destruct Hc as (-> & Hq & a & Ea & Hc). apply NoDup_cons in Hnd as [Hql Hnd]. cbn [List.length] in Hn.
  destruct n as [|n]; [lia|]. cbn [clear_from]. rewrite (proj2 (Z.eqb_neq _ _) Hq), (area_eq _ _ _ Hq Ea), bind_Ret.
  destruct (Hch q) as [b Eb]; [apply list_elem_of_here|].
  destruct (sub_free_chunk _ _ _ Eb) as (h & Eh & Hh). cbn [kern with_vmas]. rewrite Eh, bind_Ret.
  set (s1 := with_kern _ _).
  destruct (IH n s1 (vm_next a)) as (s' & E & Ht & Hf); [|done|lia| |].
  - eapply area_chain_agree; [|exact Hc]. intros x Hx. unfold s1. cbn. rewrite lookup_insert_ne; [done|]. by intros ->.
  - intros x Hx. unfold s1. cbn. rewrite Hh. destruct (decide _); [by eexists|]. apply Hch. by apply list_elem_of_further.
  - exists s'. split_and!; [done|done|]. intros x Hx. apply Hf. unfold s1. cbn. unfold freed. setoid_rewrite Hh.
    destruct (decide _) as [|Hne]; [left; by eexists|]. destruct Hx as [Hx|[->|Hx]%elem_of_cons]; [by left|done|by right].
Qed.

(** C27: [clear_vmas] walks the whole list of a thread's areas and returns: every
    area's chunk is free again and the thread has no areas. *)
Theorem clear_vmas_frees s p l :
  areas_ok s p l -> (forall q, q ∈ l -> is_Some (chunk_of (kheap (kern s)) q)) ->
  exists s', clear_vmas s p = Ret s' /\ areas_ok s' p [] /\ forall q, q ∈ l -> freed (kheap (kern s')) q.
Proof.
  intros [(t & Hp & Ht & Hc & _) Hnd] Hch. unfold clear_vmas. rewrite (deref_eq _ _ _ Hp Ht), bind_Ret.
  pose proof (area_chain_size _ _ _ Hc Hnd).
  destruct (clear_from_spec l (size (vmas s)) s (mmap t)) as (s' & -> & Hth & Hf); [done..|].
  rewrite bind_Ret. unfold update_thread. rewrite Hth, (update_eq _ _ _ _ Hp Ht), !bind_Ret.
  eexists. split; [done|]. split; [|intros q Hq; apply Hf; by right].
  split; [|apply NoDup_nil_2]. eexists. split_and!; [done|cbn; apply lookup_insert_eq|done|done].
Qed.

Example clear_vmas_frees_witness :
  exists s', clear_vmas area_system 0x100 = Ret s' /\ areas_ok s' 0x100 [] /\ freed (kheap (kern s')) 0x300.
Proof.
  destruct (clear_vmas_frees area_system 0x100 [0x300] area_system_ok) as (s' & E & H & Hf).
  - intros q ->%list_elem_of_singleton. vm_compute. eauto.
  - exists s'. split; [exact E|]. split; [exact H|]. apply Hf. apply list_elem_of_here.
Defined.

(** ** Exit and the process counter *)

Lemma remove_child_pids k par c k' :
  remove_child k par c = Ret k' -> nextFreePid k' = nextFreePid k /\ ptable k' = ptable k.
Proof.
  unfold remove_child. intros (crawl & _ & H)%bind_Ret_inv.
  apply bind_Ret_inv in H as (j & _ & H). destruct (jnext j =? 0); [done|].
  apply bind_Ret_inv in H as (nx & _ & H). apply bind_Ret_inv in H as (k1 & Hs & H).
  apply bind_Ret_inv in H as (h & _ & [= <-]). cbn. unfold join_set in Hs. destruct crawl.
  - by injection Hs as <-.
  - by apply bind_Ret_inv in Hs as (? & _ & [= <-]).
Qed.

Lemma thread_cleanup_pids k p k' :
  thread_cleanup k p = Ret k' -> nextFreePid k' = nextFreePid k /\ ptable k' = ptable k.
Proof.
  unfold thread_cleanup. intros (r & _ & H)%bind_Ret_inv. apply bind_Ret_inv in H as (r' & _ & H).
  apply bind_Ret_inv in H as (t & _ & H). destruct (parent t =? 0); [by injection H as <-|].
  by apply remove_child_pids in H.
Qed.

(** C30: when a process other than the newest exits, the number handed out next
    is the newest one's, whose entry in the process table is still there: while
    the newest lives, two live processes get one number, and the table loses one
    of them. *)
Theorem sys_exit_reuses_live_pid k t k' :
  deref (threads k) (currentThread k) = Ret t -> sys_exit k = Ret k' ->
  0 <= nextFreePid k < 2 ^ 31 -> pid t <> nextFreePid k ->
  (alloc_pid k').2 = nextFreePid k /\
  ptable k' !! Z.to_nat (nextFreePid k) = ptable k !! Z.to_nat (nextFreePid k).
Proof.
  intros Ht H Hn Hne. unfold sys_exit in H. rewrite Ht, bind_Ret in H.
  apply bind_Ret_inv in H as (kt & _ & H). apply bind_Ret_inv in H as (k1 & Hk1 & H).
  apply bind_Ret_inv in H as (pt & (Hp & ->)%array_set_Ret & [= <-]).
  apply thread_cleanup_pids in Hk1 as [En Ep]. cbn. rewrite En, Ep. split.
  - rewrite (swrap_small 32 (_ - 1)) by lia. rewrite swrap_small by lia. lia.
  - apply list_lookup_insert_ne. lia.
Qed.

(** Two processes, 2 and 3; the first one runs. *)
Definition pair_kernel : kernel :=
  Kernel {[ 0x100 := demo_thread 2 0 0; 0x200 := set_a_links (Links 0x100 0) (demo_thread 3 0 0) ]} ∅
    (Queue 0x100 0x100) (Queue 0x100 0x200) 0x100 3
    (<[2%nat := 0x100]> (<[3%nat := 0x200]> (replicate 100 0))) (MyAlloc.KHeap ∅ 0 0 cow_machine) (fun _ => 0) true true.

Example sys_exit_reuses_live_pid_witness :
  exists k', sys_exit pair_kernel = Ret k' /\ (alloc_pid k').2 = 3 /\ ptable k' !! 3%nat = Some 0x200.
Proof.
  assert (is_Some (match sys_exit pair_kernel with Ret k' => Some k' | _ => None end)) as [k' E]
    by (vm_compute; eauto).
  destruct (sys_exit pair_kernel) as [k1| | |] eqn:Er; try done. exists k1. split; [done|].
  exact (sys_exit_reuses_live_pid pair_kernel (demo_thread 2 0 0) k1 eq_refl Er
    ltac:(cbn; lia) ltac:(cbn; lia)).
Defined.

(** ** The list of processes *)

(** The table holds, at each number from [lo] up to [nextFreePid], a thread with
    that number. *)
Definition table_filled (k : kernel) (lo : Z) : Prop :=
  forall i, lo <= i <= nextFreePid k ->
    exists p t, ptable k !! Z.to_nat i = Some p /\ p <> 0 /\ threads k !! p = Some t /\ pid t = i.

Lemma print_from_spec k n : forall i,
  table_filled k i -> 0 <= i -> (Z.to_nat (nextFreePid k - i) <= n)%nat -> nextFreePid k < 2 ^ 16 ->
  exists l, print_from n k i = Ret l /\ map ps_pid l = seqZ i (nextFreePid k - i).
Proof.
  induction n as [|n IH]; intros i Ht Hi Hn Hmax; cbn [print_from]; destruct (Z.ltb_spec i (nextFreePid k)) as [Hlt|Hge].
  - lia.
  - exists []. by rewrite seqZ_nil by lia.
  - destruct (Ht i) as (p & t & Hp & Hp0 & Htp & Hpid); [lia|].
    rewrite (array_get_Some _ _ p), bind_Ret, (deref_eq _ _ _ Hp0 Htp), bind_Ret by done.
    rewrite uwrap_small by lia. destruct (IH (i + 1)) as (l & -> & El); [intros j Hj; apply Ht; lia|lia|lia|done|].
    eexists. split; [done|]. rewrite seqZ_cons by lia. cbn [map ps_pid]. rewrite El, Hpid.
    repeat f_equal; lia.
  - exists []. by rewrite seqZ_nil by lia.
Qed.

(** [ps] lists the processes from number 2 on, in order, and leaves out the
    newest one, whose number is [nextFreePid]: the loop stops one short. *)
Theorem print_process_omits_newest k :
  table_filled k 2 -> nextFreePid k < Z.of_nat (List.length (ptable k)) -> nextFreePid k < 2 ^ 16 ->
  exists l, print_process k = Ret l /\ map ps_pid l = seqZ 2 (nextFreePid k - 2) /\
    nextFreePid k ∉ map ps_pid l.
Proof.
  intros Ht Hn Hmax. destruct (print_from_spec k (List.length (ptable k)) 2) as (l & E & El); [done|lia|lia|done|].
  exists l. split; [exact E|]. split; [exact El|]. rewrite El, elem_of_seqZ. lia.
Qed.

Example print_process_omits_newest_witness :
  exists l, print_process pair_kernel = Ret l /\ map ps_pid l = [2].
Proof.
  destruct (print_process_omits_newest pair_kernel) as (l & E & El & _).
  - intros i Hi. cbn in Hi. destruct (decide (i = 2)) as [->|].
    + exists 0x100, (demo_thread 2 0 0). split_and!; [reflexivity|lia|reflexivity|reflexivity].
    + assert (i = 3) as -> by lia. exists 0x200, (set_a_links (Links 0x100 0) (demo_thread 3 0 0)).
      split_and!; [reflexivity|lia|reflexivity|reflexivity].
  - vm_compute. reflexivity.
  - vm_compute. reflexivity.
  - exists l. split; [exact E|exact El].
Defined.

(** ** Frames on kernel stacks *)

Lemma push_all_spec p l : forall k t,
  p <> 0 -> threads k !! p = Some t -> 8 * Z.of_nat (List.length l) <= krsp t < 2 ^ 64 ->
  exists k' t', push_all k p l = Ret k' /\ threads k' !! p = Some t' /\
    krsp t' = krsp t - 8 * Z.of_nat (List.length l) /\ rsp t' = rsp t /\
    (forall i, (i < List.length l)%nat -> stackmem k' (krsp t - 8 * (Z.of_nat i + 1)) = List.nth i l 0) /\
    (forall a, ~ (krsp t - 8 * Z.of_nat (List.length l) <= a < krsp t) -> stackmem k' a = stackmem k a) /\
    (forall q, q <> p -> threads k' !! q = threads k !! q).
Proof.
  induction l as [|x l IH]; intros k t Hp Ht Hr; cbn [List.length] in Hr.
  { exists k, t. cbn [List.length]. split_and!; try done; lia. }
  unfold push_all. cbn [foldl]. rewrite bind_Ret. unfold PushU at 2.
  rewrite (deref_eq _ _ _ Hp Ht), bind_Ret. rewrite uwrap_small by lia.
  set (k1 := with_stackmem _ _).
  assert (threads k1 !! p = Some (set_krsp (krsp t - 8) t)) as H1 by (unfold k1; cbn; apply lookup_insert_eq).
  destruct (IH k1 _ Hp H1) as (k' & t' & E & Ht' & Hk & Hs & Hw & Ho & Hq); [cbn; lia|].
  cbn [krsp rsp set_krsp] in *. exists k', t'. cbn [List.length].
  split_and!; [exact E|done|lia|done|..].
  - intros [|i] Hi; cbn [List.nth].
    + rewrite Ho by lia. unfold k1. cbn [stackmem with_stackmem]. unfold mem_set.
      replace (krsp t - 8 * (Z.of_nat 0 + 1)) with (krsp t - 8) by lia. by rewrite Z.eqb_refl.
    + rewrite <- Hw by lia. f_equal. lia.
  - intros a Ha. rewrite Ho by lia. unfold k1. cbn [stackmem with_stackmem]. unfold mem_set.
    destruct (Z.eqb_spec a (krsp t - 8)); [lia|done].
  - intros q Hne. rewrite Hq by done. unfold k1. cbn. by rewrite lookup_insert_ne.
Qed.

(** The saved registers at [sp], as the interrupt return takes them. *)
Definition frame_at (m : Z -> Z) (sp : Z) : regs :=
  let w j := m (u64 (sp + 8 * j)) in
  Regs (w 0) (w 1) (w 2) (w 3) (w 4) (w 5) (w 6) (w 7) (w 8) (w 9) (w 10) (w 11) (w 12) (w 13) (w 14) (w 15)
    (w 16) (w 17) (w 18) (w 19) (w 20) (w 21).

(** The parent's registers with the child's number as the result of [fork].
    The interrupt number and the error code change places: they are pushed in
    the order opposite to that of [regs]. *)
Definition child_regs (r : regs) (n : Z) : regs :=
  Regs (r15 r) (r14 r) (r13 r) (r12 r) (r11 r) (r10 r) (r9 r) (r8 r) (rsi r) (rdi r) (rbp r) (rdx r) (rcx r)
    (rbx r) n (errCode r) (intNo r) (rip r) (cs r) (rflags r) (user_rsp r) 0x23.

(** The stack that [fork_int] builds for a child, read back the way the
    interrupt return reads it, holds the parent's registers with the child's
    number in [rax] and the user data segment; the stack pointer is left at the
    frame, and no other word or thread changes. *)
Theorem fork_int_frame k p t r :
  p <> 0 -> threads k !! p = Some t -> 176 <= krsp t < 2 ^ 64 -> 0 <= pid t < 2 ^ 31 ->
  exists k' t', fork_int k p r = Ret k' /\ threads k' !! p = Some t' /\ krsp t' = krsp t - 176 /\
    frame_at (stackmem k') (krsp t') = child_regs r (pid t) /\
    (forall a, ~ (krsp t - 176 <= a < krsp t) -> stackmem k' a = stackmem k a) /\
    (forall q, q <> p -> threads k' !! q = threads k !! q).
Proof.
  intros Hp Ht Hr Hpid. unfold fork_int. rewrite (deref_eq _ _ _ Hp Ht), bind_Ret, (uwrap_small 64 (pid t)) by lia.
  match goal with |- context [push_all k p ?l] => destruct (push_all_spec p l k t Hp Ht) as
    (k' & t' & E & Ht' & Hk & _ & Hw & Ho & Hq); [cbn; lia|] end.
  cbn [List.length] in *. exists k', t'. split_and!; [exact E|done|lia| |intros a Ha; apply Ho; lia|done].
  assert (forall (j : Z) (i : nat), j = 21 - Z.of_nat i -> (i < 22)%nat ->
    stackmem k' (u64 (krsp t' + 8 * j)) = stackmem k' (krsp t - 8 * (Z.of_nat i + 1))) as Hj.
  { intros j i -> Hi. f_equal. rewrite uwrap_small by lia. lia. }
  unfold frame_at, child_regs. cbv zeta.
  rewrite (Hj 0 21%nat), (Hj 1 20%nat), (Hj 2 19%nat), (Hj 3 18%nat), (Hj 4 17%nat), (Hj 5 16%nat), (Hj 6 15%nat),
    (Hj 7 14%nat), (Hj 8 13%nat), (Hj 9 12%nat), (Hj 10 11%nat), (Hj 11 10%nat), (Hj 12 9%nat), (Hj 13 8%nat),
    (Hj 14 7%nat), (Hj 15 6%nat), (Hj 16 5%nat), (Hj 17 4%nat), (Hj 18 3%nat), (Hj 19 2%nat), (Hj 20 1%nat),
    (Hj 21 0%nat) by lia.
  by rewrite !Hw by lia.
Qed.

Definition demo_regs : regs := Regs 1 2 3 4 5 6 7 8 9 10 11 12 13 14 15 0x80 0 0x400010 0x1B 0x202 0xbfff00 0x23.

Example fork_int_frame_witness :
  exists k' t', fork_int pair_kernel 0x200 demo_regs = Ret k' /\ threads k' !! 0x200 = Some t' /\
    frame_at (stackmem k') (krsp t') = child_regs demo_regs 3.
Proof.
  destruct (fork_int_frame pair_kernel 0x200 (set_a_links (Links 0x100 0) (demo_thread 3 0 0)) demo_regs)
    as (k' & t' & E & Ht & _ & Hf & _); [lia|reflexivity|cbn; lia|cbn; lia|].
  exists k', t'. split; [exact E|]. split; [exact Ht|exact Hf].
Defined.
