(* ===== verification/PageFault.v ===== *)
(** * Page faults and system calls (sys/isr.c, sys/idt.c)

    The page-fault handler, with stack growth and copy on write, over the
    processes of Process.v, and the dispatch of interrupts and system calls. *)

From S2P Require Import Prelude Memory Bitmap PhysMem PageEntry Paging MapPage KHeap Queues Kthread Process.

(** ** Page faults *)

Definition kill_current (k : kernel) : outcome kernel :=
  let p := currentThread k in
  k ← update_thread k p (set_alive false);
  r ← remove_runnable_kthread (runQueue k) p (threads k);
  let k := with_threads (with_runQueue k r.1) r.2 in
  r ← remove_alllist_kthread (allThreadList k) p (threads k);
  sys_exit (with_threads (with_allThreadList k r.1) r.2).

(** The first area whose start is at most 100 bytes above the address, if any;
    the difference is unsigned. *)
Fixpoint near_area (n : nat) (s : system) (crawl fault : Z) : outcome bool :=
  if crawl =? 0 then Ret false else
  a ← area s crawl;
  if u64 (vm_start a - fault) <=? 100 then Ret true else
  match n with O => Loops | S n => near_area n s (vm_next a) fault end.

Definition grow_stack (code_section : Z) (s : system) : outcome system :=
  let k := kern s in
  let p := currentThread k in
  t ← deref (threads k) p;
  if no_stack_pages t <=? 4 then
    k ← update_thread k p (set_stack_pages (s32 (no_stack_pages t + 1)));
    a ← area s (mmap_cache t);
    sys_mmap code_section (with_kern s k) (u64 (vm_start a - 0x1000)) VIRT_PAGE_SIZE p
  else k ← kill_current k; Ret (with_kern s k).

(** A page as 512 words. *)
Definition read_page (v : vmm) (page : Z) : outcome (list Z) :=
  foldr (fun i (r : outcome (list Z)) => w ← vload v (u64 (page + 8 * i)); l ← r; Ret (w :: l)) (Ret []) (seqZ 0 512).
Definition write_page (v : vmm) (page : Z) (l : list Z) : outcome vmm :=
  foldl (fun (r : outcome vmm) (iw : Z * Z) => v ← r; vstore v (u64 (page + 8 * iw.1)) iw.2) (Ret v) (zip (seqZ 0 512) l).

(** A private copy of the page; the result of the allocation is not tested. *)
Definition copy_on_write (k : kernel) (fault : Z) : outcome kernel :=
  t ← deref (threads k) (currentThread k);
  f ← alloc_block (frames (vm_of k));
  let v := with_frames (vm_of k) f.1 in
  let fault_page := PAGE_PHYSICAL_ADDRESS fault in
  buf ← read_page v fault_page;
  v ← vmmgr_map_page_after_paging v f.2 fault true;
  let v := set_cr3 v (pcr3 t) in
  v ← write_page v fault_page buf;
  Ret (with_vm k v).

Definition page_fault_handler (code_section : Z) (s : system) (fault : Z) : outcome system :=
  let k := kern s in
  t ← deref (threads k) (currentThread k);
  near ← (if kernel_thread t =? 0 then near_area (size (vmas s)) s (mmap t) fault else Ret false);
  if (near : bool) then grow_stack code_section s else
  e ← vload (vm_of k) (get_pte_recurse fault);
  if negb (Z.land e PTE_COW =? 0) then k ← copy_on_write k fault; Ret (with_kern s k)
  else k ← kill_current k; Ret (with_kern s k).

(** ** System calls (fault_handler of sys/idt.c) *)

(** What [fault_handler] does for an interrupt or system call, with the
    arguments it takes from the registers; [Return v] is a number without a
    handler, which leaves [val] at its initial 1. *)
Inductive syscall :=
  | Page_fault | Protection_fault | Exit | Write (str fd : Z) | Fork | Sleep (time : Z) | Read (buf fd cnt : Z)
  | Wait | Execve (name : Z) | Ps | Cls | Ls | Sbrk (n : Z) | Open (name : Z) | Close (fd : Z) | Getpid
  | Chdir (name : Z) | Pwd | Create (name : Z) | Seek (fd pos : Z) | Unknown_call | Unknown_exception | Ignored.

Definition syscall_of (r : regs) : syscall :=
  if intNo r <=? 0x80 then
    if intNo r =? 0xE then Page_fault
    else if intNo r =? 0xD then Protection_fault
    else if intNo r =? 0x80 then
      let callNo := u16 (rax r) in
      if callNo =? 1 then Exit
      else if callNo =? 2 then Write (rdi r) (s32 (rsi r))
      else if callNo =? 3 then Fork
      else if callNo =? 4 then Sleep (rdi r)
      else if callNo =? 5 then Read (rdi r) (s32 (rsi r)) (s32 (rdx r))
      else if callNo =? 6 then Wait
      else if callNo =? 7 then Execve (rdi r)
      else if callNo =? 8 then Ps
      else if callNo =? 9 then Cls
      else if callNo =? 10 then Ls
      else if callNo =? 11 then Sbrk (s32 (rdi r))
      else if callNo =? 12 then Open (rdi r)
      else if callNo =? 13 then Close (s32 (rdi r))
      else if callNo =? 20 then Getpid
      else if callNo =? 21 then Chdir (rdi r)
      else if callNo =? 22 then Pwd
      else if callNo =? 23 then Create (rdi r)
      else if callNo =? 24 then Seek (s32 (rdi r)) (s32 (rsi r))
      else Unknown_call
    else Unknown_exception
  else Ignored.

(** The calls that act on threads, their memory and page tables alone; the
    others belong to the components of their names.  The result is the value
    for [rax]. *)
Definition process_call (code_section : Z) (s : system) (r : regs) (cr2 : Z) : outcome (option (system * Z)) :=
  let k := kern s in
  match syscall_of r with
  | Page_fault => s ← page_fault_handler code_section s cr2; Ret (Some (s, 1))
  | Protection_fault => Panic
  | Exit => k ← sys_exit k; Ret (Some (with_kern s k, 1))
  | Fork => k ← fork k r; Ret (Some (with_kern s k.1, 0))
  | Sleep time => k ← sleep k time; Ret (Some (with_kern s k, 1))
  | Sbrk n => k ← do_sbrk k n; Ret (Some (with_kern s k.1, k.2))
  | Getpid => n ← sys_getpid k; Ret (Some (s, n))
  | Unknown_call | Ignored => Ret (Some (s, 1))
  | Unknown_exception => Loops
  | _ => Ret None
  end.

(** ** Remapping through the recursive slot *)

(** With its tables present, remapping a page writes its entry alone. *)
Section remap.
Context (v : vmm) (virt t3 t2 t1 : Z).
Context (Wr : walk (mem v) (Paging.cr3 v) 510 = Some (Paging.cr3 v))
  (W3 : walk (mem v) (Paging.cr3 v) (PAGE_PML4_OFFSET virt) = Some t3)
  (W2 : walk (mem v) t3 (PAGE_POINTER_OFFSET virt) = Some t2)
  (W1 : walk (mem v) t2 (PAGE_DIRECTORY_OFFSET virt) = Some t1).

Lemma vload_eq a pa : translate (mem v) (Paging.cr3 v) a = Some pa -> vload v a = Ret (mem v pa).
Proof. unfold vload. by intros ->. Qed.

Lemma ensure_present_after set n e t i u x :
  translate (mem v) (Paging.cr3 v) e = Some (t + 8 * i) -> walk (mem v) t i = Some x ->
  ensure_table_after set n v e u = Ret v.
Proof.
  intros E W. unfold ensure_table_after. rewrite (vload_eq _ _ E), bind_Ret.
  unfold walk in W. cbv zeta in W. by destruct (present (mem v (t + 8 * i))).
Qed.

Lemma pte_address : translate (mem v) (Paging.cr3 v) (get_pte_recurse virt) = Some (t1 + 8 * PAGE_TABLE_OFFSET virt).
Proof. pose proof (offsets_range virt). rewrite get_pte_compose. eapply translate_compose; (done || lia). Qed.

Lemma remap_spec phys u :
  let a := t1 + 8 * PAGE_TABLE_OFFSET virt in
  vmmgr_map_page_after_paging v phys virt u =
    Ret (with_mem v (mem_set (mem v) a (set_page_entry (mem v a) phys u))).
Proof.
  pose proof (offsets_range virt) as (? & ? & ? & ?). unfold vmmgr_map_page_after_paging.
  rewrite (ensure_present_after _ _ _ (Paging.cr3 v) (PAGE_PML4_OFFSET virt) u t3), bind_Ret; [|
    rewrite get_pml4e_compose; eapply translate_compose; (done || lia)|done].
  rewrite (ensure_present_after _ _ _ t3 (PAGE_POINTER_OFFSET virt) u t2), bind_Ret; [|
    rewrite get_pdpe_compose; eapply translate_compose; (done || lia)|done].
  rewrite (ensure_present_after _ _ _ t2 (PAGE_DIRECTORY_OFFSET virt) u t1), bind_Ret; [|
    rewrite get_pde_compose; eapply translate_compose; (done || lia)|done].
  unfold set_phys_virt_recurse. rewrite (vload_eq _ _ pte_address), bind_Ret.
  unfold vstore. by rewrite pte_address.
Qed.
End remap.

(** ** Reading and writing a page *)

Lemma read_words_spec v page (w : Z -> Z) (n : nat) : forall j,
  (forall i, j <= i < j + Z.of_nat n -> vload v (u64 (page + 8 * i)) = Ret (w i)) ->
  foldr (fun i (r : outcome (list Z)) => w ← vload v (u64 (page + 8 * i)); l ← r; Ret (w :: l))
    (Ret []) (seqZ j (Z.of_nat n)) = Ret (map w (seqZ j (Z.of_nat n))).
Proof.
  induction n as [|n IH]; intros j H; [done|].
  rewrite seqZ_cons by lia. replace (Z.pred (Z.of_nat (S n))) with (Z.of_nat n) by lia. cbn [foldr map].
  rewrite H, bind_Ret by lia. rewrite IH; [done|]. intros i Hi. apply H. lia.
Qed.

(** Memory outside the frame at [p] is that of [m]. *)
Definition same_outside (p : Z) (m m' : Z -> Z) : Prop := forall a, ~ (p <= a < p + 4096) -> m' a = m a.

Lemma write_words_spec (page p : Z) (l : list Z) : forall j v,
  0 <= j -> j + Z.of_nat (List.length l) <= 512 ->
  (forall m, same_outside p (mem v) m -> forall i, 0 <= i < 512 ->
     translate m (Paging.cr3 v) (u64 (page + 8 * i)) = Some (p + 8 * i)) ->
  exists m,
    foldl (fun (r : outcome vmm) (iw : Z * Z) => v ← r; vstore v (u64 (page + 8 * iw.1)) iw.2) (Ret v)
      (zip (seqZ j (Z.of_nat (List.length l))) l) = Ret (with_mem v m) /\
    (forall i w, l !! i = Some w -> m (p + 8 * (j + Z.of_nat i)) = w) /\
    (forall a, (forall i, j <= i < j + Z.of_nat (List.length l) -> a <> p + 8 * i) -> m a = mem v a).
Proof.
  induction l as [|w l IH]; intros j v Hj Hl Htr; cbn [List.length] in Hl.
  { exists (mem v). split_and!; [by destruct v|done|done]. }
  cbn [List.length]. rewrite seqZ_cons by lia. replace (Z.pred (Z.of_nat (S (List.length l)))) with (Z.of_nat (List.length l)) by lia.
  cbn [zip zip_with foldl fst snd]. rewrite bind_Ret. unfold vstore at 2. rewrite Htr by (done || lia).
  destruct (IH (Z.succ j) (with_mem v (mem_set (mem v) (p + 8 * j) w))) as (m & -> & Hin & Hout); [lia..| |].
  { intros m Hm. apply Htr. intros a Ha. rewrite Hm by done. cbn [mem with_mem]. unfold mem_set.
    destruct (Z.eqb_spec a (p + 8 * j)); [lia|done]. }
  exists m. split_and!; [done| |].
  - intros [|i] x; cbn.
    + intros [= <-]. rewrite Hout by lia. cbn [mem with_mem]. unfold mem_set. by rewrite Z.add_0_r, Z.eqb_refl.
    + intros E. rewrite <- (Hin _ _ E). f_equal. lia.
  - intros a Ha. rewrite Hout by (intros i Hi; apply Ha; lia). cbn [mem with_mem]. unfold mem_set.
    destruct (Z.eqb_spec a (p + 8 * j)); [|done]. exfalso. apply (Ha j); lia.
Qed.

(** ** Copy on write *)

(** The page of [fault] is mapped through the tables [t3], [t2] and [t1] to the
    frame [f]; all are frames in use and the lowest table is none of the
    others. *)
Record cow_page (v : vmm) (fault t3 t2 t1 f : Z) : Prop := {
  cow_frames : wf (frames v);
  cow_user : 0 <= fault < 2 ^ 47;
  cow_recursive : walk (mem v) (Paging.cr3 v) 510 = Some (Paging.cr3 v);
  cow_walk3 : walk (mem v) (Paging.cr3 v) (PAGE_PML4_OFFSET fault) = Some t3;
  cow_walk2 : walk (mem v) t3 (PAGE_POINTER_OFFSET fault) = Some t2;
  cow_walk1 : walk (mem v) t2 (PAGE_DIRECTORY_OFFSET fault) = Some t1;
  cow_walk0 : walk (mem v) t1 (PAGE_TABLE_OFFSET fault) = Some f;
  cow_entry : entry_ok (mem v (t1 + 8 * PAGE_TABLE_OFFSET fault));
  cow_held : Forall (held (frames v)) [Paging.cr3 v; t3; t2; t1; f];
  cow_apart : t1 ∉ [Paging.cr3 v; t3; t2; f]
}.

Lemma page_base fault :
  0 <= fault < 2 ^ 47 -> PAGE_PHYSICAL_ADDRESS fault = fault - fault mod 4096.
Proof.
  intros Hf. assert (PAGE_PHYSICAL_ADDRESS fault = fault / 2 ^ 12 * 2 ^ 12) as ->.
  { rewrite <- Z.shiftl_mul_pow2, <- Z.shiftr_div_pow2 by lia. unfold PAGE_PHYSICAL_ADDRESS.
    apply Z.bits_inj'. intros i Hi. rewrite Z.land_spec, phys_mask_bits, Z.shiftl_spec by lia. unfold in_bits.
    destruct (Z.leb_spec 12 i); simpl.
    - rewrite Z.shiftr_spec by lia. replace (i - 12 + 12) with i by lia. destruct (Z.ltb_spec i 52); simpl.
      + by rewrite andb_true_r.
      + rewrite andb_false_r. symmetry. rewrite <- (Z.mod_small fault (2 ^ 47)) by done.
        apply Z.mod_pow2_bits_high. lia.
    - by rewrite andb_false_r, Z.testbit_neg_r by lia. }
  change (2 ^ 12) with 4096. pose proof (Z.div_mod fault 4096). lia.
Qed.

(** The addresses of a page: the indices of [fault], and the offset. *)
Lemma page_offsets fault o :
  0 <= fault -> 0 <= o < 4096 ->
  let x := fault - fault mod 4096 + o in
  same_page x fault /\ Z.land x 0xFFF = o.
Proof.
  intros Hf Ho x. pose proof (Z.div_mod fault 4096).
  assert (x = fault / 2 ^ 12 * 2 ^ 12 + o) as -> by (unfold x; change (2 ^ 12) with 4096; lia).
  assert ((fault / 2 ^ 12 * 2 ^ 12 + o) / 2 ^ 12 = fault / 2 ^ 12) as E.
  { rewrite Z.div_add_l by lia. rewrite (Z.div_small o) by lia. lia. }
  assert (forall n, 12 <= n -> (fault / 2 ^ 12 * 2 ^ 12 + o) / 2 ^ n = fault / 2 ^ n) as En.
  { intros n Hn. replace (2 ^ n) with (2 ^ 12 * 2 ^ (n - 12)) by (rewrite <- Z.pow_add_r by lia; f_equal; lia).
    assert (0 < 2 ^ (n - 12)) by (apply Z.pow_pos_nonneg; lia). rewrite <- !Z.div_div by lia. by rewrite E. }
  split.
  - unfold same_page. autorewrite with offsets. by rewrite !En by lia.
  - change 0xFFF with (Z.ones 12). rewrite Z.land_ones by lia.
    rewrite Z.add_comm, Z_mod_plus_full. by apply Z.mod_small.
Qed.

Lemma page_translate m r fault t3 t2 t1 f o :
  walk m r (PAGE_PML4_OFFSET fault) = Some t3 -> walk m t3 (PAGE_POINTER_OFFSET fault) = Some t2 ->
  walk m t2 (PAGE_DIRECTORY_OFFSET fault) = Some t1 -> walk m t1 (PAGE_TABLE_OFFSET fault) = Some f ->
  0 <= fault -> 0 <= o < 4096 ->
  translate m r (fault - fault mod 4096 + o) = Some (f + o).
Proof.
  intros W3 W2 W1 W0 Hf Ho. destruct (page_offsets fault o) as ((E3 & E2 & E1 & E0) & El); [done..|].
  unfold translate. rewrite E3, E2, E1, E0, El, W3. simpl. rewrite W2. simpl. rewrite W1. simpl. by rewrite W0.
Qed.

Lemma held_outside b b' t p i :
  wf b -> wf b' -> held b t -> held b' p -> ~ held b p -> 0 <= i < 512 -> ~ (p <= t + 8 * i < p + 4096).
Proof.
  intros Hb Hb' Ht Hp Hne Hi Hin. destruct (held_frame _ _ Hb Ht) as (_ & _ & k & ->).
  destruct (held_frame _ _ Hb' Hp) as (_ & _ & k' & ->). assert (k = k') as -> by lia. done.
Qed.

Definition cow_word (v : vmm) (fault t1 : Z) : Z := mem v (t1 + 8 * PAGE_TABLE_OFFSET fault).

(** What copy on write leaves: a fresh frame [p] in place of [f] with the same
    words, writable, and the rest of memory as it was. *)
Record copied (v : vmm) (fault t1 f p : Z) (v' : vmm) : Prop := {
  copied_fresh : ~ held (frames v) p /\ held (frames v') p;
  copied_root : Paging.cr3 v' = Paging.cr3 v;
  copied_here : forall o, 0 <= o < 4096 ->
    translate (mem v') (Paging.cr3 v') (fault - fault mod 4096 + o) = Some (p + o);
  copied_words : forall i, 0 <= i < 512 -> mem v' (p + 8 * i) = mem v (f + 8 * i);
  copied_writable : Z.testbit (cow_word v' fault t1) 1 = true;
  copied_rest : forall a, ~ (p <= a < p + 4096) -> a <> t1 + 8 * PAGE_TABLE_OFFSET fault -> mem v' a = mem v a
}.

(** Membership in a list given by its elements. *)
Ltac in_list := rewrite !elem_of_cons; tauto.

Section copying.
Context (v : vmm) (fault t3 t2 t1 f p : Z) (b : bitmap).
Context (HC : cow_page v fault t3 t2 t1 f) (Ha : alloc_result (frames v) b p) (Hp : p <> 0).

Let slot0 := t1 + 8 * PAGE_TABLE_OFFSET fault.
Let entry := set_page_entry (mem v slot0) p true.
Let m1 := mem_set (mem v) slot0 entry.

Lemma copying_fresh : held b p /\ ~ held (frames v) p /\ wf b.
Proof.
  pose proof (cow_frames _ _ _ _ _ _ HC). destruct (alloc_result_fresh (frames v) b p) as [? ?]; [done..|].
  split_and!; try done. by eapply alloc_result_wf.
Qed.

Lemma copying_held t : t ∈ [Paging.cr3 v; t3; t2; t1; f] -> held (frames v) t.
Proof. intros Ht. eapply (proj1 (Forall_forall _ _)); [apply (cow_held _ _ _ _ _ _ HC)|done]. Qed.

Lemma copying_outside t i : t ∈ [Paging.cr3 v; t3; t2; t1; f] -> 0 <= i < 512 -> ~ (p <= t + 8 * i < p + 4096).
Proof.
  intros Ht Hi. destruct copying_fresh as (? & ? & ?).
  eapply held_outside; [apply (cow_frames _ _ _ _ _ _ HC)|done|by apply copying_held|done..].
Qed.

Lemma copying_apart t i : t ∈ [Paging.cr3 v; t3; t2; f] -> 0 <= i < 512 -> t + 8 * i <> slot0.
Proof.
  intros Ht Hi E. pose proof (offsets_range fault).
  destruct (slot_inj (frames v) t t1 i (PAGE_TABLE_OFFSET fault)) as [-> _];
    [apply (cow_frames _ _ _ _ _ _ HC)|apply copying_held; rewrite !elem_of_cons in *; tauto|apply copying_held; in_list|done|lia|done|].
  by apply (cow_apart _ _ _ _ _ _ HC).
Qed.

Lemma copying_entry : walk m1 t1 (PAGE_TABLE_OFFSET fault) = Some p /\ Z.testbit entry 1 = true.
Proof.
  destruct copying_fresh as (Hb & _ & Hwf). destruct (held_frame _ _ Hwf Hb) as (Hf & _ & _).
  pose proof (cow_entry _ _ _ _ _ _ HC) as Hok. fold slot0 in Hok.
  split.
  - unfold walk, m1. fold slot0. unfold mem_set at 1. rewrite Z.eqb_refl.
    replace (mem_set (mem v) slot0 entry slot0) with entry by (unfold mem_set; by rewrite Z.eqb_refl).
    unfold entry. by rewrite set_page_entry_present, set_page_entry_phys by (apply Hok || done).
  - unfold entry. rewrite set_page_entry_bits by (apply Hok || done || lia). simpl. by rewrite orb_true_r.
Qed.

(** A walk through the upper tables survives writes to the entry and the new
    frame. *)
Lemma copying_walk m t i x :
  same_outside p m1 m -> t ∈ [Paging.cr3 v; t3; t2] -> 0 <= i < 512 ->
  walk (mem v) t i = Some x -> walk m t i = Some x.
Proof.
  intros Hm Ht Hi W. unfold walk in *. rewrite Hm by (apply copying_outside; [rewrite !elem_of_cons in *; tauto|done]).
  unfold m1, mem_set. destruct (Z.eqb_spec (t + 8 * i) slot0) as [E|]; [|done].
  exfalso. revert E. apply copying_apart; [rewrite !elem_of_cons in *; tauto|done].
Qed.

Lemma copying_translate m o :
  same_outside p m1 m -> 0 <= o < 4096 -> translate m (Paging.cr3 v) (fault - fault mod 4096 + o) = Some (p + o).
Proof.
  intros Hm Ho. pose proof (offsets_range fault) as (? & ? & ? & ?). destruct HC as [_ Hu _ W3 W2 W1 _ _ _ _].
  apply (page_translate m _ fault t3 t2 t1); try lia.
  - apply copying_walk; [done|in_list|done..].
  - apply copying_walk; [done|in_list|done..].
  - apply copying_walk; [done|in_list|done..].
  - unfold walk. rewrite Hm by (apply copying_outside; [in_list|done]). apply copying_entry.
Qed.

Lemma copying_address i :
  0 <= i < 512 -> u64 (PAGE_PHYSICAL_ADDRESS fault + 8 * i) = fault - fault mod 4096 + 8 * i.
Proof.
  intros Hi. pose proof (cow_user _ _ _ _ _ _ HC) as Hu. rewrite page_base by done.
  pose proof (Z.mod_pos_bound fault 4096). apply uwrap_small.
  pose proof (Z.div_mod fault 4096). pose proof (Z.mod_le fault 4096).
  split; [lia|]. change (2 ^ 47) with 140737488355328 in *. change (2 ^ 64) with 18446744073709551616. lia.
Qed.

Lemma copying_read :
  read_page (with_frames v b) (PAGE_PHYSICAL_ADDRESS fault) = Ret (map (fun i => mem v (f + 8 * i)) (seqZ 0 512)).
Proof.
  apply (read_words_spec _ _ (fun i => mem v (f + 8 * i)) 512). intros i Hi.
  rewrite copying_address by lia. destruct HC as [_ Hu _ W3 W2 W1 W0 _ _ _].
  apply (vload_eq (with_frames v b)). cbn [mem Paging.cr3 with_frames].
  apply (page_translate _ _ _ t3 t2 t1); (done || lia).
Qed.

Lemma copying_run :
  exists v', (v' ← vmmgr_map_page_after_paging (with_frames v b) p fault true;
    write_page (set_cr3 v' (Paging.cr3 v)) (PAGE_PHYSICAL_ADDRESS fault) (map (fun i => mem v (f + 8 * i)) (seqZ 0 512)))
    = Ret v' /\ copied v fault t1 f p v'.
Proof.
  destruct HC as [_ Hu Wr W3 W2 W1 W0 _ _ _].
  rewrite (remap_spec (with_frames v b) fault t3 t2 t1 Wr W3 W2 W1), bind_Ret. cbn [mem with_frames]. fold slot0 entry m1.
  set (v1 := set_cr3 _ _). set (l := map _ _).
  assert (List.length l = 512%nat) as El by (unfold l; by rewrite length_map, length_seqZ).
  destruct (write_words_spec (PAGE_PHYSICAL_ADDRESS fault) p l 0 v1) as (m & E & Hin & Hout); [lia|rewrite El; lia| |].
  { intros m Hm i Hi. rewrite copying_address by done. change (Paging.cr3 v1) with (Paging.cr3 v).
    apply copying_translate; [exact Hm|lia]. }
  rewrite El in E, Hout. exists (with_mem v1 m). split; [exact E|].
  assert (same_outside p m1 m) as Hm by (intros a Hna; apply Hout; intros i Hi; lia).
  pose proof (offsets_range fault). destruct copying_fresh as (? & ? & ?).
  split; [done|done|..].
  - intros o Ho. by apply copying_translate.
  - intros i Hi. cbn [mem with_mem]. replace i with (0 + Z.of_nat (Z.to_nat i)) at 1 by lia. apply Hin.
    unfold l. rewrite list_lookup_fmap, lookup_seqZ_lt by lia. cbn. f_equal. f_equal. lia.
  - unfold cow_word. cbn [mem with_mem]. rewrite Hm by (apply copying_outside; [in_list|lia]).
    unfold m1, mem_set. fold slot0. rewrite Z.eqb_refl. apply copying_entry.
  - intros a Hna Hne. cbn [mem with_mem]. rewrite Hm by done. unfold m1, mem_set. by destruct (Z.eqb_spec a slot0).
Qed.
End copying.

Lemma copy_on_write_spec k fault t t3 t2 t1 f :
  deref (threads k) (currentThread k) = Ret t -> pcr3 t = Paging.cr3 (vm_of k) ->
  cow_page (vm_of k) fault t3 t2 t1 f -> room 1 (frames (vm_of k)) ->
  exists v' p, copy_on_write k fault = Ret (with_vm k v') /\ copied (vm_of k) fault t1 f p v'.
Proof.
  intros Ht Hcr HC Hroom. unfold copy_on_write. step Ht.
  destruct (alloc_block_cases _ (cow_frames _ _ _ _ _ _ HC)) as (b & p & E & Ha). step E. cbn [fst snd].
  destruct (room_alloc 0 _ _ _ (cow_frames _ _ _ _ _ _ HC) Hroom Ha) as [Hp _].
  step (copying_read (vm_of k) fault t3 t2 t1 f p b HC). rewrite Hcr.
  destruct (copying_run (vm_of k) fault t3 t2 t1 f p b HC Ha Hp) as (v' & Er & Hv').
  exists v', p. split; [|done]. revert Er.
  destruct (vmmgr_map_page_after_paging _ _ _ _) as [v1| | |]; [|done..]. rewrite !bind_Ret. intros ->. done.
Qed.

(** C8: a fault on a page marked copy-on-write, away from the thread's areas,
    gives the thread a private copy of the page: the page translates to a frame
    that was free, with the same 512 words, writable; every other word of
    memory, the frame that was shared included, keeps its value, and the entry
    of the page aside no page table changes.  The page's tables must be in
    memory of their own and one frame free. *)
Theorem cow_fault_copies cs s fault t t3 t2 t1 f :
  let k := kern s in let v := vm_of k in
  deref (threads k) (currentThread k) = Ret t -> pcr3 t = Paging.cr3 v ->
  (kernel_thread t = 0 -> near_area (size (vmas s)) s (mmap t) fault = Ret false) ->
  cow_page v fault t3 t2 t1 f -> Z.testbit (cow_word v fault t1) 62 = true -> room 1 (frames v) ->
  exists v' p, page_fault_handler cs s fault = Ret (with_kern s (with_vm k v')) /\ copied v fault t1 f p v'.
Proof.
  intros k v Ht Hcr Hnear HC Hcow Hroom.
  destruct (copy_on_write_spec k fault t t3 t2 t1 f) as (v' & p & E & Hv'); [done..|]. exists v', p. split; [|done].
  unfold page_fault_handler. fold k. step Ht.
  assert ((if kernel_thread t =? 0 then near_area (size (vmas s)) s (mmap t) fault else Ret false) = Ret false) as En.
  { destruct (Z.eqb_spec (kernel_thread t) 0); auto. }
  step En. fold v. destruct HC as [_ _ Wr W3 W2 W1 _ _ _ _].
  step (vload_eq _ _ _ (pte_address v fault t3 t2 t1 Wr W3 W2 W1)). fold (cow_word v fault t1).
  change PTE_COW with (2 ^ 62). rewrite pow2_land_testbit, Hcow by lia. simpl. by rewrite E.
Qed.

Lemma cow_machine_page : cow_page cow_machine 0x400123 0x2000 0x3000 0x4000 0x5000.
Proof.
  split; [by_computation|lia|by_computation..| |].
  - repeat (apply Forall_cons; split;
      [match goal with |- held _ ?t => exists (t / 4096) end; split_and!; by_computation|]). apply Forall_nil_2.
  - by_computation.
Qed.

Example cow_fault_copies_witness :
  exists v' p, page_fault_handler 0 cow_system 0x400123 = Ret (with_kern cow_system (with_vm (kern cow_system) v')) /\
    copied cow_machine 0x400123 0x4000 0x5000 p v'.
Proof.
  apply (cow_fault_copies 0 cow_system 0x400123 (demo_thread 2 0x300 0x300) 0x2000 0x3000 0x4000 0x5000).
  - vm_compute. reflexivity.
  - reflexivity.
  - intros _. vm_compute. reflexivity.
  - exact cow_machine_page.
  - vm_compute. reflexivity.
  - by_computation.
Defined.

(** ** Growth of the stack *)

Definition near (s : system) (fault q : Z) : bool :=
  match vmas s !! q with Some a => u64 (vm_start a - fault) <=? 100 | None => false end.

Lemma near_area_spec s fault l : forall n crawl,
  area_chain (vmas s) crawl l -> (List.length l <= n)%nat ->
  near_area n s crawl fault = Ret (existsb (near s fault) l).
Proof.
  induction l as [|q l IH]; intros n crawl Hc Hn.
  { cbn in Hc. subst crawl. by destruct n. }
  destruct Hc as (-> & Hq & a & Ea & Hc). cbn [List.length] in Hn. destruct n as [|n]; [lia|]. cbn [near_area existsb].
  rewrite (proj2 (Z.eqb_neq _ _) Hq), (area_eq _ _ _ Hq Ea), bind_Ret. unfold near at 1. rewrite Ea.
  destruct (_ <=? 100); [done|]. cbn [orb]. apply IH; [done|lia].
Qed.

(** A fault near an area makes the handler call [mmap] for the page below the area
    linked last. *)
Lemma near_fault_maps cs s fault t l a z :
  let p := currentThread (kern s) in
  areas_ok s p l -> threads (kern s) !! p = Some t -> kernel_thread t = 0 ->
  existsb (near s fault) l = true -> no_stack_pages t <= 4 ->
  List.last l 0 = z -> vmas s !! z = Some a ->
  page_fault_handler cs s fault =
    sys_mmap cs (with_kern s (with_threads (kern s)
      (<[p := set_stack_pages (s32 (no_stack_pages t + 1)) t]> (threads (kern s)))))
      (u64 (vm_start a - 0x1000)) VIRT_PAGE_SIZE p.
Proof.
  intros p [(t' & Hp & Ht & Hc & Hl) Hnd] Ht' Hk Hnear Hpages Hz Ha.
  rewrite Ht in Ht'. injection Ht' as ->. unfold page_fault_handler. fold p. rewrite (deref_eq _ _ _ Hp Ht), bind_Ret.
  rewrite Hk. cbn [Z.eqb]. rewrite (near_area_spec _ _ l) by (done || by eapply area_chain_size).
  rewrite Hnear, bind_Ret. unfold grow_stack. fold p. rewrite (deref_eq _ _ _ Hp Ht), bind_Ret.
  destruct (Z.leb_spec (no_stack_pages t) 4); [|lia]. unfold update_thread.
  rewrite (update_eq _ _ _ _ Hp Ht), !bind_Ret. rewrite Hl, Hz.
  rewrite (area_eq _ _ a) by (done || (subst z; destruct l; [done|]; by eapply area_chain_elem, last_in)).
  done.
Qed.
