(* ===== verification/CopyTables.v ===== *)
(** * Copying an address space (copy_page_table in sys/mm/vmmgr_virtual.c)

    What fork's copy of the page tables leaves: the child's tables, equal to
    the parent's up to the attributes, and both marked copy-on-write.  The code
    reaches tables through the kernel's window, where physical address [a] is
    at [virt_base + a]. *)

From S2P Require Import Prelude Bitmap PageEntry Paging MapPage.

(** ** The kernel's window over some frames *)

Definition in_frames (F : list Z) (a : Z) : Prop := exists f, f ∈ F /\ f <= a < f + 4096.

(** The frames [F] are pages below 2 GiB that the window shows, and go on
    showing whatever is written to them. *)
Record windowed (F : list Z) (c : Z) (m : Z -> Z) : Prop := {
  win_maps : forall m' f o, (forall a, ~ in_frames F a -> m' a = m a) -> f ∈ F -> 0 <= o < 4096 ->
    translate m' c (virt_base + (f + o)) = Some (f + o);
  win_pages : forall f, f ∈ F -> 0 <= f /\ f + 4096 < 2 ^ 31 /\ f mod 4096 = 0
}.

Definition ready (F : list Z) (st : vmm) : Prop := windowed F (cr3 st) (mem st).

Lemma windowed_write F c m m' :
  windowed F c m -> (forall a, ~ in_frames F a -> m' a = m a) -> windowed F c m'.
Proof.
  intros [Hm Hp] H. split; [|done]. intros m2 f o H2 Hf Ho. apply Hm; [|done..].
  intros a Ha. by rewrite H2, H.
Qed.

(** The virtual address of word [i] of frame [f]. *)
Definition at_window (f i : Z) : Z := u64 (u64 (f + virt_base) + 8 * i).

Section window.
Context (F : list Z) (st : vmm) (HW : ready F st).

Lemma window_frame_address f : f ∈ F -> u64 (f + virt_base) = virt_base + f.
Proof. intros Hf. destruct (win_pages _ _ _ HW f Hf). rewrite uwrap_small; unfold virt_base; lia. Qed.

Lemma window_address f i : f ∈ F -> 0 <= i < 512 -> at_window f i = virt_base + (f + 8 * i).
Proof.
  intros Hf Hi. unfold at_window. rewrite window_frame_address by done.
  destruct (win_pages _ _ _ HW f Hf). rewrite uwrap_small; unfold virt_base; lia.
Qed.

Lemma window_translate f i : f ∈ F -> 0 <= i < 512 -> translate (mem st) (cr3 st) (at_window f i) = Some (f + 8 * i).
Proof. intros Hf Hi. rewrite window_address by done. apply (win_maps _ _ _ HW); [done|done|lia]. Qed.

Lemma window_load f i : f ∈ F -> 0 <= i < 512 -> vload st (at_window f i) = Ret (mem st (f + 8 * i)).
Proof. intros Hf Hi. unfold vload. by rewrite window_translate. Qed.

Lemma window_store f i v :
  f ∈ F -> 0 <= i < 512 ->
  vstore st (at_window f i) v = Ret (with_mem st (mem_set (mem st) (f + 8 * i) v)).
Proof. intros Hf Hi. unfold vstore. by rewrite window_translate. Qed.

Lemma ready_set f i v : f ∈ F -> 0 <= i < 512 -> ready F (with_mem st (mem_set (mem st) (f + 8 * i) v)).
Proof.
  intros Hf Hi. eapply windowed_write; [exact HW|]. intros a Ha. cbn [mem with_mem]. unfold mem_set.
  destruct (Z.eqb_spec a (f + 8 * i)) as [->|]; [|done]. exfalso. apply Ha. exists f. split; [done|lia].
Qed.

Lemma window_modify g f i :
  f ∈ F -> 0 <= i < 512 ->
  vmodify g (at_window f i) st = Ret (with_mem st (mem_set (mem st) (f + 8 * i) (g (mem st (f + 8 * i))))).
Proof. intros Hf Hi. unfold vmodify. by rewrite window_load, bind_Ret, window_store. Qed.

Lemma window_entry f i :
  f ∈ F -> 0 <= i < 512 ->
  entry_window st (at_window f i) = Ret (u64 (PAGE_PHYSICAL_ADDRESS (mem st (f + 8 * i)) + virt_base)).
Proof. intros Hf Hi. unfold entry_window. by rewrite window_load, bind_Ret. Qed.

(** Words of two frames of [F] are the same only when frame and index are. *)
Lemma window_slot f g i j :
  f ∈ F -> g ∈ F -> 0 <= i < 512 -> 0 <= j < 512 -> f + 8 * i = g + 8 * j -> f = g /\ i = j.
Proof.
  intros Hf Hg Hi Hj E. destruct (win_pages _ _ _ HW f Hf) as (? & ? & Mf).
  destruct (win_pages _ _ _ HW g Hg) as (? & ? & Mg). pose proof (Z.div_mod f 4096). pose proof (Z.div_mod g 4096).
  assert (f / 4096 = g / 4096) by lia. lia.
Qed.
End window.

(** ** The two loops over a page table *)

(** The words of frame [f] satisfy [P] and those outside [G] stay. *)
Definition only_frames (G : list Z) (m m' : Z -> Z) : Prop :=
  forall a, (forall f i, f ∈ G -> 0 <= i < 512 -> a <> f + 8 * i) -> m' a = m a.

Lemma vcopy_page_spec F st t n :
  ready F st -> t ∈ F -> n ∈ F -> t <> n ->
  exists m, vcopy_page (u64 (n + virt_base)) (u64 (t + virt_base)) st = Ret (with_mem st m) /\
    (forall i, 0 <= i < 512 -> m (n + 8 * i) = mem st (t + 8 * i)) /\ only_frames [n] (mem st) m.
Proof.
  intros HW Ht Hn Hne. unfold vcopy_page.
  destruct (for_loop_ind (fun k s => exists m, s = with_mem st m /\ ready F s /\
      (forall i, 0 <= i < k -> m (n + 8 * i) = mem st (t + 8 * i)) /\
      (forall a, (forall i, 0 <= i < k -> a <> n + 8 * i) -> m a = mem st a))
    (fun k st => v ← vload st (u64 (u64 (t + virt_base) + 8 * k)); vstore st (u64 (u64 (n + virt_base) + 8 * k)) v)
    512 0 st) as (s & E & m & -> & _ & Hm & Ho).
  - exists (mem st). split; [by destruct st|]. split; [done|]. split; [lia|done].
  - intros k s Hk (m & -> & Hr & Hm & Ho).
    fold (at_window t k) (at_window n k). rewrite (window_load F), bind_Ret, (window_store F) by (done || lia).
    eexists. split; [done|]. eexists. split; [reflexivity|]. cbn [mem with_mem]. split; [by apply (ready_set F); (done || lia)|].
    split.
    + intros i Hi. unfold mem_set. destruct (Z.eqb_spec (n + 8 * i) (n + 8 * k)) as [Ei|].
      * rewrite Ho; [f_equal; lia|]. intros j Hj Ej.
        destruct (window_slot F st HW t n k j) as [? _]; (done || lia).
      * apply Hm. lia.
    + intros a Ha. unfold mem_set. destruct (Z.eqb_spec a (n + 8 * k)) as [->|].
      * exfalso. apply (Ha k); lia.
      * apply Ho. intros i Hi. apply Ha. lia.
  - exists m. split; [exact E|]. split; [intros i Hi; apply Hm; lia|]. intros a Ha. apply Ho. intros i Hi.
    apply Ha; [by apply list_elem_of_here|lia].
Qed.

(** The attributes a copied entry ends with. *)
Definition cow (e : Z) : Z := pt_entry_add_attrib (pt_entry_del_attrib e PTE_WRITABLE) PTE_COW.

(** The four updates of one round, on words [a] and [b]. *)
Lemma cow_round m a b x :
  a <> b ->
  let del e := pt_entry_del_attrib e PTE_WRITABLE in
  let add e := pt_entry_add_attrib e PTE_COW in
  let m1 := mem_set m a (del (m a)) in
  let m2 := mem_set m1 b (del (m1 b)) in
  let m3 := mem_set m2 b (add (m2 b)) in
  mem_set m3 a (add (m3 a)) x = if x =? a then cow (m a) else if x =? b then cow (m b) else m x.
Proof.
  intros Hne. assert ((a =? b) = false) as E by lia. assert ((b =? a) = false) as E' by lia.
  unfold mem_set, cow. cbv zeta beta. rewrite !Z.eqb_refl, ?E, ?E'. by destruct (x =? a), (x =? b).
Qed.

Lemma cow_tables_spec F st t n :
  ready F st -> t ∈ F -> n ∈ F -> t <> n ->
  exists m, cow_tables (u64 (n + virt_base)) (u64 (t + virt_base)) st = Ret (with_mem st m) /\
    (forall i f, 0 <= i < 512 -> f ∈ [t; n] -> m (f + 8 * i) = cow (mem st (f + 8 * i))) /\
    only_frames [t; n] (mem st) m.
Proof.
  intros HW Ht Hn Hne. unfold cow_tables.
  destruct (for_loop_ind (fun k s => exists m, s = with_mem st m /\ ready F s /\
      (forall i f, 0 <= i < k -> f ∈ [t; n] -> m (f + 8 * i) = cow (mem st (f + 8 * i))) /\
      (forall a, (forall i f, 0 <= i < k -> f ∈ [t; n] -> a <> f + 8 * i) -> m a = mem st a))
    (fun l st =>
      let c := u64 (u64 (n + virt_base) + 8 * l) in
      let p := u64 (u64 (t + virt_base) + 8 * l) in
      st ← vmodify (fun e => pt_entry_del_attrib e PTE_WRITABLE) c st;
      st ← vmodify (fun e => pt_entry_del_attrib e PTE_WRITABLE) p st;
      st ← vmodify (fun e => pt_entry_add_attrib e PTE_COW) p st;
      vmodify (fun e => pt_entry_add_attrib e PTE_COW) c st)
    512 0 st) as (s & E & m & -> & _ & Hm & Ho).
  - exists (mem st). split; [by destruct st|]. split; [done|]. split; [lia|done].
  - intros k s Hk (m & -> & Hr & Hm & Ho). cbv zeta. fold (at_window t k) (at_window n k).
    assert (0 <= k < 512) as Hk' by lia.
    rewrite (window_modify F), bind_Ret by done. pose proof (ready_set F _ Hr n k) as Hr1. cbn [mem with_mem] in Hr1.
    rewrite (window_modify F), bind_Ret by (done || by apply Hr1). cbn [mem with_mem].
    pose proof (fun v => ready_set F _ (Hr1 v Hn Hk') t k) as Hr2. cbn [mem with_mem] in Hr2.
    rewrite (window_modify F), bind_Ret by (done || by apply Hr2). cbn [mem with_mem].
    pose proof (fun v w => ready_set F _ (Hr2 v w Ht Hk') t k) as Hr3. cbn [mem with_mem] in Hr3.
    rewrite (window_modify F) by (done || by apply Hr3). cbn [mem with_mem].
    eexists. split; [done|]. eexists. split; [reflexivity|].
    assert (forall x, x ∈ [t; n] -> m (x + 8 * k) = mem st (x + 8 * k)) as Hx.
    { intros x Hx. apply Ho. intros i f Hi Hf Ei.
      destruct (window_slot F st HW x f k i) as [_ ?]; try lia; set_solver. }
    assert (forall i f, 0 <= i < k -> f ∈ [t; n] -> f + 8 * i <> n + 8 * k /\ f + 8 * i <> t + 8 * k) as Hd.
    { intros i f Hi Hf. assert (f ∈ F) by set_solver.
      split; intros Ei; [destruct (window_slot F st HW f n i k) as [_ ?]|destruct (window_slot F st HW f t i k) as [_ ?]]; (done || lia). }
    split_and!; [apply (ready_set F _ (Hr3 _ _ _ Ht Hk') n k); done| |].
    + intros i f Hi Hf. rewrite cow_round by lia.
      destruct (Z.eqb_spec (f + 8 * i) (n + 8 * k)) as [->|]; [by rewrite Hx by set_solver|].
      destruct (Z.eqb_spec (f + 8 * i) (t + 8 * k)) as [->|]; [by rewrite Hx by set_solver|].
      apply Hm; [|done]. destruct (decide (i = k)) as [->|]; [|lia].
      set_solver.
    + intros a Ha. rewrite cow_round by lia.
      destruct (Z.eqb_spec a (n + 8 * k)) as [->|]; [exfalso; apply (Ha k n); [lia|set_solver|done]|].
      destruct (Z.eqb_spec a (t + 8 * k)) as [->|]; [exfalso; apply (Ha k t); [lia|set_solver|done]|].
      apply Ho. intros i f Hi Hf. apply Ha; [lia|done].
  - exists m. split; [exact E|]. split; [intros i f Hi; apply Hm; lia|]. intros a Ha. apply Ho. intros i f Hi Hf.
    apply Ha; [done|lia].
Qed.

(** ** One entry of a page directory *)

(** Zeroing the first [k] words of a frame. *)
Lemma vzero_spec F st f k :
  ready F st -> f ∈ F -> 0 <= k <= 512 ->
  exists m, vzero st (u64 (f + virt_base)) (8 * k) = Ret (with_mem st m) /\
    (forall i, 0 <= i < k -> m (f + 8 * i) = 0) /\
    (forall a, (forall i, 0 <= i < k -> a <> f + 8 * i) -> m a = mem st a).
Proof.
  intros HW Hf Hk. unfold vzero. replace (8 * k / 8) with k by (rewrite Z.mul_comm, Z.div_mul; lia).
  destruct (for_loop_ind (fun j s => exists m, s = with_mem st m /\ ready F s /\
      (forall i, 0 <= i < j -> m (f + 8 * i) = 0) /\ (forall a, (forall i, 0 <= i < j -> a <> f + 8 * i) -> m a = mem st a))
    (fun j st => vstore st (u64 (u64 (f + virt_base) + 8 * j)) 0) (Z.to_nat k) 0 st) as (s & E & m & -> & _ & Hm & Ho).
  - exists (mem st). split; [by destruct st|]. split; [done|]. split; [lia|done].
  - intros j s Hj (m & -> & Hr & Hm & Ho). fold (at_window f j). rewrite (window_store F) by (done || lia).
    eexists. split; [done|]. eexists. split; [reflexivity|]. cbn [mem with_mem]. split; [by apply (ready_set F); (done || lia)|].
    unfold mem_set. split.
    + intros i Hi. destruct (Z.eqb_spec (f + 8 * i) (f + 8 * j)); [done|]. apply Hm. lia.
    + intros a Ha. destruct (Z.eqb_spec a (f + 8 * j)) as [->|]; [exfalso; apply (Ha j); lia|].
      apply Ho. intros i Hi. apply Ha. lia.
  - exists m. split; [exact E|]. rewrite Z.add_0_l, Z2Nat.id in Hm, Ho by lia. done.
Qed.

Lemma new_table_spec F st f k :
  ready F st -> f ∈ F -> 0 <= k <= 512 -> (vmmgr_alloc_page st 0).2 = u64 (f + virt_base) ->
  exists m, new_table (8 * k) st = Ret (with_mem (vmmgr_alloc_page st 0).1 m, u64 (f + virt_base)) /\
    (forall i, 0 <= i < k -> m (f + 8 * i) = 0) /\
    (forall a, (forall i, 0 <= i < k -> a <> f + 8 * i) -> m a = mem st a).
Proof.
  intros HW Hf Hk Ha. unfold new_table. rewrite Ha.
  destruct (vzero_spec F (vmmgr_alloc_page st 0).1 f k HW Hf Hk) as (m & E & Hm). rewrite E, bind_Ret.
  rewrite (proj2 (Z.eqb_neq _ 0)); [by exists m|]. rewrite (window_frame_address F st HW f Hf).
  destruct (win_pages _ _ _ HW f Hf). unfold virt_base. lia.
Qed.

Lemma frame_of_window F st f : ready F st -> f ∈ F -> u64 (u64 (f + virt_base) - virt_base) = f.
Proof.
  intros HW Hf. rewrite (window_frame_address F st HW f Hf). destruct (win_pages _ _ _ HW f Hf).
  replace (virt_base + f - virt_base) with f by lia. apply uwrap_small. lia.
Qed.

(** The parent's entry [k] in frame [d] points to the table in [t]; the child's
    directory is in [c] and its new table in [n]. *)
Lemma copy_pd_entry_spec F st d c n k u :
  let e := mem st (d + 8 * k) in let t := PAGE_PHYSICAL_ADDRESS e in
  ready F st -> Forall (fun f => f ∈ F) [d; c; t; n] -> NoDup [d; c; t; n] -> 0 <= k < 512 -> e <> 0 ->
  (vmmgr_alloc_page st 0).2 = u64 (n + virt_base) ->
  exists m, copy_pd_entry (u64 (d + virt_base)) (u64 (c + virt_base)) k u st =
      Ret (with_mem (vmmgr_alloc_page st 0).1 m) /\
    m (c + 8 * k) = set_pde_entry (mem st (c + 8 * k)) n u /\
    (forall i, 0 <= i < 512 -> m (t + 8 * i) = cow (mem st (t + 8 * i)) /\ m (n + 8 * i) = cow (mem st (t + 8 * i))) /\
    (forall a, a <> c + 8 * k -> (forall f i, f ∈ [t; n] -> 0 <= i < 512 -> a <> f + 8 * i) -> m a = mem st a).
Proof.
  intros e t HW HF Hnd Hk He Ha. rewrite !Forall_cons in HF. destruct HF as (Hd & Hc & Ht & Hn & _).
  rewrite !NoDup_cons, !not_elem_of_cons in Hnd. destruct Hnd as ((Hdc & Hdt & Hdn & _) & (Hct & Hcn & _) & (Htn & _) & _).
  unfold copy_pd_entry. fold (at_window d k) (at_window c k).
  rewrite (window_load F), bind_Ret by done. fold e. rewrite (proj2 (Z.eqb_neq _ _) He).
  destruct (new_table_spec F st n 1 HW Hn ltac:(lia) Ha) as (m1 & E1 & _ & Ho1). change (8 * 1) with 8 in E1.
  rewrite E1, bind_Ret. cbn [fst snd]. set (st1 := with_mem _ m1).
  assert (ready F st1) as HW1.
  { eapply windowed_write; [exact HW|]. intros a Hna. apply Ho1. intros i Hi ->. apply Hna. exists n. split; [done|lia]. }
  rewrite (frame_of_window F st n HW Hn). unfold vset_entry.
  rewrite (window_load F st1 HW1), bind_Ret, (window_store F st1 HW1), bind_Ret by done.
  assert (forall f i, f ∈ F -> f <> n -> 0 <= i < 512 -> mem st1 (f + 8 * i) = mem st (f + 8 * i)) as H1.
  { intros f i Hf Hne Hi. apply Ho1. intros j Hj Ej. destruct (window_slot F st HW f n i j); (done || lia). }
  rewrite (H1 c k) by done. set (v := set_pde_entry _ _ _).
  set (st2 := with_mem st1 _). assert (ready F st2) as HW2 by (by apply (ready_set F)).
  assert (forall f i, f ∈ F -> f <> n -> f <> c -> 0 <= i < 512 -> mem st2 (f + 8 * i) = mem st (f + 8 * i)) as H2.
  { intros f i Hf Hfn Hfc Hi. unfold st2. cbn [mem with_mem]. unfold mem_set.
    destruct (Z.eqb_spec (f + 8 * i) (c + 8 * k)) as [Ei|]; [|by apply H1].
    destruct (window_slot F st HW f c i k); (done || lia). }
  rewrite (window_entry F st2 HW2), bind_Ret by done. rewrite (H2 d k) by done. fold e t.
  destruct (vcopy_page_spec F st2 t n HW2 Ht Hn Htn) as (m3 & -> & Hm3 & Ho3). rewrite bind_Ret.
  set (st3 := with_mem st2 m3). assert (ready F st3) as HW3.
  { eapply windowed_write; [exact HW2|]. intros a Hna. apply Ho3. intros f i ->%list_elem_of_singleton Hi ->.
    apply Hna. exists n. split; [done|lia]. }
  rewrite (window_entry F st3 HW3), bind_Ret by done.
  assert (forall f i, f ∈ F -> f <> n -> 0 <= i < 512 -> mem st3 (f + 8 * i) = mem st2 (f + 8 * i)) as H3.
  { intros f i Hf Hne Hi. apply Ho3. intros g j ->%list_elem_of_singleton Hj Ej.
    destruct (window_slot F st HW f n i j); (done || lia). }
  rewrite (H3 d k), (H2 d k) by done. fold e t.
  destruct (cow_tables_spec F st3 t n HW3 Ht Hn Htn) as (m4 & -> & Hm4 & Ho4).
  exists m4. split; [done|].
  assert (forall i, 0 <= i < 512 -> mem st3 (t + 8 * i) = mem st (t + 8 * i)) as Ht3
    by (intros i Hi; by rewrite H3, H2 by done).
  split_and!.
  - rewrite Ho4; [rewrite H3 by done; unfold st2; cbn [mem with_mem]; unfold mem_set; by rewrite Z.eqb_refl|].
    intros f i Hf Hi Ei. assert (f ∈ F) by set_solver. destruct (window_slot F st HW c f k i); [done|done|lia|done|done|set_solver].
  - intros i Hi. rewrite !Hm4 by (done || set_solver). rewrite Ht3 by done. split; [done|].
    f_equal. unfold st3. cbn [mem with_mem]. rewrite Hm3 by done. by rewrite H2 by done.
  - intros a Hac Hao. rewrite Ho4 by done. unfold st3. cbn [mem with_mem].
    rewrite Ho3 by (intros f i ->%list_elem_of_singleton; apply Hao; set_solver). unfold st2. cbn [mem with_mem]. unfold mem_set.
    destruct (Z.eqb_spec a (c + 8 * k)); [done|]. apply Ho1. intros i Hi. apply Hao; [set_solver|lia].
Qed.

(** ** A page directory *)

(** Entry [i] of the directory in frame [d], and the table it points to. *)
Definition entry_at (m : Z -> Z) (d i : Z) : Z := m (d + 8 * i).
Definition table_at (m : Z -> Z) (d i : Z) : Z := PAGE_PHYSICAL_ADDRESS (entry_at m d i).

(** The number of tables made for the first [k] entries: one for each that is
    not zero. *)
Definition made (m : Z -> Z) (d : Z) (k : nat) : nat :=
  length (filter (fun i => entry_at m d i <> 0) (seqZ 0 (Z.of_nat k))).

(** The frame of the new table of entry [i], when the first new frame is [n]. *)
Definition new_at (m : Z -> Z) (d n i : Z) : Z := n + 4096 * Z.of_nat (made m d (Z.to_nat i)).

Lemma made_S m d (k : nat) :
  made m d (S k) = (made m d k + if decide (entry_at m d (Z.of_nat k) = 0)%Z then 0 else 1)%nat.
Proof.
  unfold made. replace (Z.of_nat (S k)) with (Z.of_nat k + 1) by lia.
  rewrite seqZ_app by lia. rewrite filter_app, length_app. f_equal.
  rewrite Z.add_0_l, seqZ_cons, seqZ_nil by lia. rewrite filter_cons, filter_nil. destruct (decide (entry_at m d (Z.of_nat k) = 0)) as [E|E].
  - rewrite decide_False by tauto. done.
  - rewrite decide_True by done. done.
Qed.

Lemma made_le m d (j k : nat) : (j <= k)%nat -> (made m d j <= made m d k)%nat.
Proof. induction 1 as [|k _ IH]; [done|]. rewrite made_S. lia. Qed.

Lemma made_lt m d i j : 0 <= i < j -> entry_at m d i <> 0 -> (made m d (Z.to_nat i) < made m d (Z.to_nat j))%nat.
Proof.
  intros Hi He. apply Nat.lt_le_trans with (made m d (S (Z.to_nat i))).
  - rewrite made_S, Z2Nat.id by lia. rewrite decide_False by done. lia.
  - apply made_le. lia.
Qed.

(** The kernel after [j] pages have been taken from the bump allocator. *)
Fixpoint alloc_n (j : nat) (st : vmm) : vmm :=
  match j with O => st | S j => (vmmgr_alloc_page (alloc_n j st) 0).1 end.

Lemma alloc_n_address st n j :
  (vmmgr_alloc_page st 0).2 = u64 (n + virt_base) ->
  (vmmgr_alloc_page (alloc_n j st) 0).2 = u64 (n + 4096 * Z.of_nat j + virt_base).
Proof.
  intros H. induction j as [|j IH]; [cbn [alloc_n]; rewrite H; f_equal; lia|].
  cbn [alloc_n]. set (s := alloc_n j st) in *.
  change ((vmmgr_alloc_page (vmmgr_alloc_page s 0).1 0).2) with (u64 ((vmmgr_alloc_page s 0).2 + VIRT_PAGE_SIZE + VIRT_PAGE_SIZE * u16 0)).
  rewrite IH. change (u16 0) with 0. unfold VIRT_PAGE_SIZE, uwrap.
  replace ((n + 4096 * Z.of_nat j + virt_base) mod 2 ^ 64 + 4096 + 4096 * 0)
    with ((n + 4096 * Z.of_nat j + virt_base) mod 2 ^ 64 + 4096) by lia.
  rewrite Zplus_mod_idemp_l. f_equal. lia.
Qed.

Lemma alloc_n_mem j k st m m' :
  with_mem (alloc_n j (with_mem (alloc_n k st) m)) m' = with_mem (alloc_n (j + k) st) m'.
Proof.
  assert (forall i s m, alloc_n i (with_mem s m) = with_mem (alloc_n i s) m) as Hm.
  { induction i as [|i IH]; intros s m0; [done|]. cbn [alloc_n]. by rewrite IH. }
  assert (alloc_n (j + k) st = alloc_n j (alloc_n k st)) as ->.
  { induction j as [|j IH]; [done|]. cbn [alloc_n Nat.add]. by rewrite IH. }
  by rewrite Hm.
Qed.

(** The directory in [d] is to be copied to the one in [c] with new tables from
    [n] on: all the frames are in the window, and none is used twice. *)
Record copy_ok (F : list Z) (st : vmm) (d c n : Z) : Prop := {
  copy_ready : ready F st;
  copy_dirs : d ∈ F /\ c ∈ F /\ d <> c;
  copy_tables : forall i, 0 <= i < 512 -> entry_at (mem st) d i <> 0 ->
    table_at (mem st) d i ∈ F /\ table_at (mem st) d i <> d /\ table_at (mem st) d i <> c;
  copy_inj : forall i j, 0 <= i < 512 -> 0 <= j < 512 -> entry_at (mem st) d i <> 0 -> entry_at (mem st) d j <> 0 ->
    table_at (mem st) d i = table_at (mem st) d j -> i = j;
  copy_new : forall i, 0 <= i < 512 -> entry_at (mem st) d i <> 0 ->
    let f := new_at (mem st) d n i in
    f ∈ F /\ f <> d /\ f <> c /\
    forall j, 0 <= j < 512 -> entry_at (mem st) d j <> 0 -> f <> table_at (mem st) d j;
  copy_bump : (vmmgr_alloc_page st 0).2 = u64 (n + virt_base)
}.

Section directory.
Context (F : list Z) (st : vmm) (d c n : Z) (u : bool).
Context (HC : copy_ok F st d c n).

Let e i := entry_at (mem st) d i.
Let t i := table_at (mem st) d i.
Let nw i := new_at (mem st) d n i.

(** What the first [k] rounds write: entries of the child's directory, the
    parent's tables, the new tables. *)
Definition untouched (k a : Z) : Prop :=
  forall i, 0 <= i < k -> e i <> 0 ->
    a <> c + 8 * i /\ forall l, 0 <= l < 512 -> a <> t i + 8 * l /\ a <> nw i + 8 * l.

Definition rounds (k : Z) (s : vmm) : Prop :=
  exists m, s = with_mem (alloc_n (made (mem st) d (Z.to_nat k)) st) m /\ ready F s /\
    (forall i, 0 <= i < k -> e i <> 0 ->
       m (c + 8 * i) = set_pde_entry (mem st (c + 8 * i)) (nw i) u /\
       forall l, 0 <= l < 512 -> m (t i + 8 * l) = cow (mem st (t i + 8 * l)) /\
                                 m (nw i + 8 * l) = cow (mem st (t i + 8 * l))) /\
    (forall a, untouched k a -> m a = mem st a).

Lemma slots_apart f g i j : f ∈ F -> g ∈ F -> f <> g -> 0 <= i < 512 -> 0 <= j < 512 -> f + 8 * i <> g + 8 * j.
Proof. intros Hf Hg Hne Hi Hj E. by destruct (window_slot F st (copy_ready _ _ _ _ _ HC) f g i j). Qed.

Lemma new_inj i j : 0 <= i < 512 -> 0 <= j < 512 -> e i <> 0 -> e j <> 0 -> nw i = nw j -> i = j.
Proof.
  intros Hi Hj Ei Ej E. unfold nw, new_at in E. destruct (Z.lt_trichotomy i j) as [H|[H|H]]; [|done|].
  - pose proof (made_lt (mem st) d i j ltac:(lia) Ei). lia.
  - pose proof (made_lt (mem st) d j i ltac:(lia) Ej). lia.
Qed.

(** The parent's directory, and the entries and tables of later rounds. *)
Lemma untouched_dir k i : 0 <= k <= 512 -> 0 <= i < 512 -> untouched k (d + 8 * i).
Proof.
  intros Hk Hi j Hj Ej. destruct (copy_dirs _ _ _ _ _ HC) as (Hd & Hc & Hdc).
  destruct (copy_tables _ _ _ _ _ HC j ltac:(lia) Ej) as (Ht & Htd & _).
  destruct (copy_new _ _ _ _ _ HC j ltac:(lia) Ej) as (Hn & Hnd & _).
  split; [apply slots_apart; (done || lia)|]. intros l Hl. split; apply slots_apart; (done || lia || by apply not_eq_sym).
Qed.

Lemma untouched_entry k i : 0 <= k <= 512 -> 0 <= i < 512 -> k <= i \/ e i = 0 -> untouched k (c + 8 * i).
Proof.
  intros Hk Hi Hor j Hj Ej. destruct (copy_dirs _ _ _ _ _ HC) as (Hd & Hc & Hdc).
  destruct (copy_tables _ _ _ _ _ HC j ltac:(lia) Ej) as (Ht & _ & Htc).
  destruct (copy_new _ _ _ _ _ HC j ltac:(lia) Ej) as (Hn & _ & Hnc & _). split.
  - intros E. assert (i = j) as -> by lia. destruct Hor; [lia|done].
  - intros l Hl. split; apply slots_apart; (done || lia || by apply not_eq_sym).
Qed.

Lemma untouched_table k i l : 0 <= k <= i -> i < 512 -> e i <> 0 -> 0 <= l < 512 -> untouched k (t i + 8 * l).
Proof.
  intros Hk Hi Ei Hl j Hj Ej. destruct (copy_dirs _ _ _ _ _ HC) as (Hd & Hc & Hdc).
  destruct (copy_tables _ _ _ _ _ HC i ltac:(lia) Ei) as (Hti & _ & Htci).
  destruct (copy_tables _ _ _ _ _ HC j ltac:(lia) Ej) as (Ht & _ & Htc).
  destruct (copy_new _ _ _ _ _ HC j ltac:(lia) Ej) as (Hn & _ & _ & Hnt).
  split; [apply slots_apart; (done || lia)|]. intros l' Hl'. split; apply slots_apart; try (done || lia).
  - intros E. pose proof (copy_inj _ _ _ _ _ HC i j ltac:(lia) ltac:(lia) Ei Ej E). lia.
  - apply not_eq_sym. apply Hnt; [lia|done].
Qed.

(** The words of two different rounds. *)
Definition of_round (i x : Z) : Prop :=
  x = c + 8 * i \/ exists l, 0 <= l < 512 /\ (x = t i + 8 * l \/ x = nw i + 8 * l).

Lemma rounds_apart i k x :
  0 <= i < 512 -> 0 <= k < 512 -> i <> k -> e i <> 0 -> e k <> 0 -> of_round i x -> ~ of_round k x.
Proof.
  intros Hi Hk Hik Ei Ek. destruct (copy_dirs _ _ _ _ _ HC) as (Hd & Hc & Hdc).
  destruct (copy_tables _ _ _ _ _ HC i Hi Ei) as (Hti & _ & Htci).
  destruct (copy_tables _ _ _ _ _ HC k Hk Ek) as (Htk & _ & Htck).
  destruct (copy_new _ _ _ _ _ HC i Hi Ei) as (Hni & _ & Hnci & Hnti).
  destruct (copy_new _ _ _ _ _ HC k Hk Ek) as (Hnk & _ & Hnck & Hntk).
  assert (t i <> t k) by (intros E; by apply Hik, (copy_inj _ _ _ _ _ HC)).
  assert (nw i <> nw k) by (intros E; by apply Hik, new_inj).
  assert (nw i <> t k) by (by apply Hnti). assert (t i <> nw k) by (by apply not_eq_sym, Hntk).
  intros [->|(l & Hl & [->| ->])] [E|(l' & Hl' & [E|E])]; revert E;
    try (apply slots_apart; (done || by apply not_eq_sym)). lia.
Qed.

Lemma not_of_round_pd k x : (forall l, 0 <= l < 512 -> x <> t k + 8 * l /\ x <> nw k + 8 * l) -> x <> c + 8 * k -> ~ of_round k x.
Proof. intros H1 H2 [E|(l & Hl & [E|E])]; [done|by destruct (H1 l Hl)..]. Qed.

Lemma round_step k s :
  0 <= k < 512 -> rounds k s ->
  exists s', copy_pd_entry (u64 (d + virt_base)) (u64 (c + virt_base)) k u s = Ret s' /\ rounds (k + 1) s'.
Proof.
  intros Hk (m & -> & HW & HA & HB). destruct (copy_dirs _ _ _ _ _ HC) as (Hd & Hc & Hdc).
  assert (m (d + 8 * k) = e k) as Ek by (apply HB, untouched_dir; lia).
  assert (made (mem st) d (Z.to_nat (k + 1)) = (made (mem st) d (Z.to_nat k) + if decide (e k = 0)%Z then 0 else 1)%nat) as Emade.
  { replace (Z.to_nat (k + 1)) with (S (Z.to_nat k)) by lia. rewrite made_S, Z2Nat.id by lia. done. }
  destruct (decide (e k = 0)) as [E0|E0].
  - exists (with_mem (alloc_n (made (mem st) d (Z.to_nat k)) st) m). split.
    + unfold copy_pd_entry. fold (at_window d k). rewrite (window_load F _ HW), bind_Ret by done. cbn [mem with_mem].
      by rewrite Ek, E0.
    + exists m. split; [by rewrite Emade, Nat.add_0_r|]. split; [done|]. split.
      * intros i Hi Ei. apply HA; [|done]. destruct (decide (i = k)) as [->|]; [done|lia].
      * intros a Ha. apply HB. intros i Hi Ei. apply Ha; [lia|done].
  - destruct (copy_tables _ _ _ _ _ HC k Hk E0) as (Ht & Htd & Htc).
    destruct (copy_new _ _ _ _ _ HC k Hk E0) as (Hn & Hnd & Hnc & Hnt).
    destruct (copy_pd_entry_spec F _ d c (nw k) k u HW) as (m' & E & Hm1 & Hm2 & Hm3); cbn [mem with_mem]; rewrite ?Ek.
    { by rewrite !Forall_cons. }
    { rewrite !NoDup_cons, !not_elem_of_cons. split_and!; try (by apply not_elem_of_nil); try done; try (by apply not_eq_sym).
      - apply not_eq_sym. by apply Hnt.
      - apply NoDup_nil_2. }
    { done. }
    { done. }
    { apply alloc_n_address, (copy_bump _ _ _ _ _ HC). }
    cbn [mem with_mem] in *. rewrite Ek in Hm2, Hm3.
    assert (forall l, 0 <= l < 512 -> m' (t k + 8 * l) = cow (m (t k + 8 * l)) /\ m' (nw k + 8 * l) = cow (m (t k + 8 * l)))
      as Hm2' by exact Hm2. clear Hm2.
    assert (forall a, ~ of_round k a -> m' a = m a) as Ho.
    { intros a Ha. apply Hm3.
      - intros ->. apply Ha. by left.
      - intros f l Hf Hl ->. apply Ha. right. exists l. split; [done|]. set_solver. }
    eexists. split; [exact E|]. exists m'. rewrite Emade, Nat.add_comm. split; [done|]. split; [|split].
    + eapply windowed_write; [exact HW|]. intros a Hna. apply Ho. intros [->|(l & Hl & [->| ->])]; apply Hna;
        [exists c|exists (t k)|exists (nw k)]; (split; [done|lia]).
    + intros i Hi Ei. destruct (decide (i = k)) as [->|Hik].
      * rewrite Hm1, (HB (c + 8 * k)) by (apply untouched_entry; lia). split; [done|]. intros l Hl.
        destruct (Hm2' l Hl) as [-> ->]. by rewrite (HB (t k + 8 * l)) by (apply untouched_table; (done || lia)).
      * destruct (HA i ltac:(lia) Ei) as [HA1 HA2].
        assert (forall x, of_round i x -> m' x = m x) as Hx by (intros x Hx; apply Ho; eapply rounds_apart; [| |exact Hik|..]; (done || lia)).
        rewrite Hx by (by left). split; [done|]. intros l Hl. rewrite !Hx by (right; exists l; tauto). by apply HA2.
    + intros a Ha. rewrite Ho; [apply HB; intros i Hi Ei; apply Ha; [lia|done]|].
      destruct (Ha k ltac:(lia) E0). by apply not_of_round_pd.
Qed.

Lemma rounds_all :
  exists s, for_loop 512 0 (fun k => copy_pd_entry (u64 (d + virt_base)) (u64 (c + virt_base)) k u) st = Ret s /\ rounds 512 s.
Proof.
  apply (for_loop_ind (fun k s => rounds k s) _ 512 0 st).
  - exists (mem st). split; [by destruct st|]. split; [apply (copy_ready _ _ _ _ _ HC)|]. split; [lia|done].
  - intros k s Hk. apply round_step. lia.
Qed.
End directory.

(** ** What the copy translates to *)

Lemma cow_bits e i :
  0 <= e < 2 ^ 64 -> 0 <= i -> Z.testbit (cow e) i = (Z.testbit e i && negb (i =? 1)) || (i =? 62).
Proof.
  intros He Hi. unfold cow, pt_entry_add_attrib, pt_entry_del_attrib. change PTE_COW with (2 ^ 62). change PTE_WRITABLE with (2 ^ 1).
  rewrite Z.lor_spec, Z.land_spec, uwrap_testbit, Z.lnot_spec, !pow2_testbit by lia.
  destruct (Z.ltb_spec i 64); simpl; [done|].
  rewrite <- (Z.mod_small e (2 ^ 64)), Z.mod_pow2_bits_high by lia. done.
Qed.

Lemma cow_present e : 0 <= e < 2 ^ 64 -> present (cow e) = present e.
Proof. intros He. rewrite !present_bit, cow_bits by lia. simpl. by rewrite andb_true_r, orb_false_r. Qed.

Lemma cow_phys e : 0 <= e < 2 ^ 64 -> PAGE_PHYSICAL_ADDRESS (cow e) = PAGE_PHYSICAL_ADDRESS e.
Proof.
  intros He. unfold PAGE_PHYSICAL_ADDRESS. apply Z.bits_inj'. intros i Hi.
  rewrite !Z.land_spec, phys_mask_bits, cow_bits by lia. unfold in_bits.
  destruct (Z.leb_spec 12 i), (Z.ltb_spec i 52), (Z.eqb_spec i 1), (Z.eqb_spec i 62); try lia; simpl;
    by rewrite ?andb_true_r, ?andb_false_r, ?orb_false_r.
Qed.

Lemma walk_cow m m' t n l :
  0 <= m (t + 8 * l) < 2 ^ 64 -> m' (n + 8 * l) = cow (m (t + 8 * l)) -> walk m' n l = walk m t l.
Proof. intros Hr E. unfold walk. cbv zeta. by rewrite E, cow_present, cow_phys. Qed.

(** The pages a directory leads to. *)
Definition walk2 (m : Z -> Z) (d i l : Z) : option Z := t ← walk m d i; walk m t l.

(** No entry of a table that the directory leads to is writable, and all are
    marked. *)
Definition all_cow (m : Z -> Z) (d : Z) : Prop :=
  forall i l t, 0 <= i < 512 -> 0 <= l < 512 -> walk m d i = Some t ->
    Z.testbit (m (t + 8 * l)) 1 = false /\ Z.testbit (m (t + 8 * l)) 62 = true.

Record shared (m0 m : Z -> Z) (d c : Z) : Prop := {
  shared_child : forall i l, 0 <= i < 512 -> 0 <= l < 512 -> walk2 m c i l = walk2 m0 d i l;
  shared_parent : forall i l, 0 <= i < 512 -> 0 <= l < 512 -> walk2 m d i l = walk2 m0 d i l;
  shared_cow : all_cow m c /\ all_cow m d
}.

Lemma frame_addr_window F st f : ready F st -> f ∈ F -> frame_addr f.
Proof. intros HW Hf. destruct (win_pages _ _ _ HW f Hf) as (? & ? & ?). split; [lia|done]. Qed.

(** The rounds over a directory whose entries are zero or present, into a zeroed
    one. *)
Lemma rounds_shared F st d c n u s :
  copy_ok F st d c n -> rounds F st d c n u 512 s ->
  (forall i l, 0 <= i < 512 -> 0 <= l < 512 -> entry_at (mem st) d i <> 0 -> 0 <= mem st (table_at (mem st) d i + 8 * l) < 2 ^ 64) ->
  (forall i, 0 <= i < 512 -> mem st (c + 8 * i) = 0) ->
  (forall i, 0 <= i < 512 -> entry_at (mem st) d i <> 0 -> present (entry_at (mem st) d i) = true) ->
  shared (mem st) (mem s) d c.
Proof.
  intros HC (m & -> & HW & HA & HB) Hok Hz Hpr. cbn [mem with_mem]. destruct (copy_dirs _ _ _ _ _ HC) as (Hd & Hc & Hdc).
  assert (forall i, 0 <= i < 512 -> m (d + 8 * i) = mem st (d + 8 * i)) as Hdir.
  { intros i Hi. apply HB. eapply untouched_dir; [exact HC|lia|done]. }
  assert (forall i, 0 <= i < 512 -> entry_at (mem st) d i = 0 -> walk m c i = None /\ walk (mem st) d i = None) as H0.
  { intros i Hi E0. assert (m (c + 8 * i) = 0) as Em.
    { rewrite HB; [by apply Hz|]. eapply untouched_entry; [exact HC|lia|done|by right]. }
    unfold walk. cbv zeta. unfold entry_at in E0. rewrite Em, E0. done. }
  assert (forall i, 0 <= i < 512 -> entry_at (mem st) d i <> 0 ->
    walk (mem st) d i = Some (table_at (mem st) d i) /\ walk m c i = Some (new_at (mem st) d n i)) as H1.
  { intros i Hi E0. destruct (HA i Hi E0) as [Hs _]. destruct (copy_new _ _ _ _ _ HC i Hi E0) as (Hn & _).
    rewrite Hz in Hs by done. pose proof (frame_addr_window _ _ _ HW Hn) as Hfa. unfold walk. cbv zeta. split.
    - pose proof (Hpr i Hi E0) as P. unfold entry_at in P. by rewrite P.
    - rewrite Hs. change (set_pde_entry 0 ?x u) with (set_page_entry 0 x u).
      rewrite set_page_entry_present, set_page_entry_phys; [done|by_computation|exact Hfa|lia|exact Hfa]. }
  assert (forall i, 0 <= i < 512 -> walk m d i = walk (mem st) d i) as Hwd.
  { intros i Hi. unfold walk. cbv zeta. by rewrite Hdir. }
  split.
  - intros i l Hi Hl. unfold walk2. destruct (decide (entry_at (mem st) d i = 0)) as [E0|E0].
    + by destruct (H0 i Hi E0) as [-> ->].
    + destruct (H1 i Hi E0) as [-> ->]. simpl. destruct (HA i Hi E0) as [_ Hl']. apply walk_cow; [by apply Hok|]. by apply Hl'.
  - intros i l Hi Hl. unfold walk2. rewrite Hwd by done. destruct (decide (entry_at (mem st) d i = 0)) as [E0|E0].
    + by destruct (H0 i Hi E0) as [_ ->].
    + destruct (H1 i Hi E0) as [-> _]. simpl. destruct (HA i Hi E0) as [_ Hl']. apply walk_cow; [by apply Hok|]. by apply Hl'.
  - split; intros i l x Hi Hl; rewrite ?Hwd by done; (destruct (decide (entry_at (mem st) d i = 0)) as [E0|E0];
      [destruct (H0 i Hi E0) as [A B]; by rewrite ?A, ?B|destruct (H1 i Hi E0) as [A B]; rewrite ?A, ?B; intros [= <-];
       destruct (HA i Hi E0) as [_ Hl']; destruct (Hl' l Hl) as [E1 E2]; rewrite ?E1, ?E2, !cow_bits by (lia || by apply Hok)]);
      by rewrite ?andb_false_r, ?orb_true_r.
Qed.

Lemma made_ext m m' d k :
  (forall i, 0 <= i < Z.of_nat k -> entry_at m' d i = entry_at m d i) -> made m' d k = made m d k.
Proof.
  induction k as [|k IH]; intros H; [done|]. rewrite !made_S, H by lia. rewrite IH; [done|]. intros i Hi. apply H. lia.
Qed.

Lemma new_at_ext m m' d n i :
  0 <= i <= 512 -> (forall i, 0 <= i < 512 -> entry_at m' d i = entry_at m d i) -> new_at m' d n i = new_at m d n i.
Proof. intros Hi H. unfold new_at. rewrite (made_ext m); [done|]. intros j Hj. apply H. lia. Qed.

(** Entry [j] of the parent's table of directories, in frame [P], points to the
    directory in [d]; the child's table of directories is in [Q], and the next
    pages of the bump allocator, from the frame [c] on, are in the window and
    hold none of these. *)
Record fork_ok (F : list Z) (st : vmm) (P Q j d c : Z) : Prop := {
  fork_ready : ready F st;
  fork_index : 0 <= j < 512;
  fork_frames : Forall (fun f => f ∈ F) [P; Q; d; c] /\ NoDup [P; Q; d; c];
  fork_entry : PAGE_PHYSICAL_ADDRESS (mem st (P + 8 * j)) = d;
  fork_bump : (vmmgr_alloc_page st 0).2 = u64 (c + virt_base);
  fork_words : entry_ok (mem st (Q + 8 * j)) /\ forall i l, 0 <= i < 512 -> 0 <= l < 512 -> entry_at (mem st) d i <> 0 ->
    entry_ok (mem st (table_at (mem st) d i + 8 * l));
  fork_present : forall i, 0 <= i < 512 -> entry_at (mem st) d i <> 0 -> present (entry_at (mem st) d i) = true;
  fork_tables : forall i, 0 <= i < 512 -> entry_at (mem st) d i <> 0 ->
    table_at (mem st) d i ∈ F /\ table_at (mem st) d i ∉ [Q; d; c];
  fork_inj : forall i k, 0 <= i < 512 -> 0 <= k < 512 -> entry_at (mem st) d i <> 0 -> entry_at (mem st) d k <> 0 ->
    table_at (mem st) d i = table_at (mem st) d k -> i = k;
  fork_new : forall i, 0 <= i < 512 -> entry_at (mem st) d i <> 0 ->
    let f := new_at (mem st) d (c + 4096) i in
    f ∈ F /\ f ∉ [Q; d; c] /\ forall k, 0 <= k < 512 -> entry_at (mem st) d k <> 0 -> f <> table_at (mem st) d k
}.

(** The state before the rounds: the child's directory zeroed and linked. *)
Lemma fork_link F st P Q j d c u :
  fork_ok F st P Q j d c ->
  exists st2, copy_pdpe_entry (u64 (P + virt_base)) (u64 (Q + virt_base)) j u st =
      for_loop 512 0 (fun k => copy_pd_entry (u64 (d + virt_base)) (u64 (c + virt_base)) k u) st2 /\
    copy_ok F st2 d c (c + 4096) /\ walk (mem st2) Q j = Some c /\
    (forall i l, 0 <= i < 512 -> 0 <= l < 512 -> entry_at (mem st2) d i <> 0 -> 0 <= mem st2 (table_at (mem st2) d i + 8 * l) < 2 ^ 64) /\
    (forall i, 0 <= i < 512 -> mem st2 (c + 8 * i) = 0) /\
    (forall f i, f ∈ F -> f <> Q -> f <> c -> 0 <= i < 512 -> mem st2 (f + 8 * i) = mem st (f + 8 * i)) /\
    (exists m, st2 = with_mem (alloc_n 1 st) m) /\ ready F st2 /\
    (forall a, (forall i, 0 <= i < 512 -> a <> c + 8 * i) -> a <> Q + 8 * j -> mem st2 a = mem st a).
Proof.
  intros [HW Hj [HF Hnd] He Hb [HokQ Hok] Hpr Ht Hinj Hn].
  rewrite !Forall_cons in HF. destruct HF as (HP & HQ & Hd & Hc & _).
  rewrite !NoDup_cons, !not_elem_of_cons in Hnd. destruct Hnd as ((HPQ & HPd & HPc & _) & (HQd & HQc & _) & (Hdc & _) & _).
  unfold copy_pdpe_entry. fold (at_window Q j) (at_window P j).
  destruct (new_table_spec F st c 512 HW Hc ltac:(lia) Hb) as (m1 & E1 & Hz & Ho1). change (8 * 512) with 4096 in E1.
  rewrite E1, bind_Ret. cbn [fst snd]. set (st1 := with_mem _ m1).
  assert (forall f i, f ∈ F -> f <> c -> 0 <= i < 512 -> m1 (f + 8 * i) = mem st (f + 8 * i)) as H1.
  { intros f i Hf Hne Hi. apply Ho1. intros k Hk Ek. destruct (window_slot F st HW f c i k); (done || lia). }
  assert (ready F st1) as HW1.
  { eapply windowed_write; [exact HW|]. intros a Hna. apply Ho1. intros i Hi ->. apply Hna. exists c. split; [done|lia]. }
  rewrite (frame_of_window F st c HW Hc). unfold vset_entry.
  rewrite (window_load F st1 HW1), bind_Ret, (window_store F st1 HW1), bind_Ret by done.
  change (mem st1) with m1. rewrite (H1 Q j) by done. set (st2 := with_mem st1 _).
  assert (ready F st2) as HW2 by (by apply (ready_set F)).
  assert (forall f i, f ∈ F -> f <> Q -> f <> c -> 0 <= i < 512 -> mem st2 (f + 8 * i) = mem st (f + 8 * i)) as H2.
  { intros f i Hf HfQ Hfc Hi. unfold st2. cbn [mem with_mem]. unfold mem_set.
    destruct (Z.eqb_spec (f + 8 * i) (Q + 8 * j)) as [Ei|]; [|by apply H1].
    destruct (window_slot F st HW f Q i j); done. }
  rewrite (window_entry F st2 HW2), bind_Ret, (H2 P j), He by done. exists st2. split; [done|].
  pose proof (frame_addr_window F st c HW Hc) as Hfa.
  assert (forall i, 0 <= i < 512 -> entry_at (mem st2) d i = entry_at (mem st) d i) as Hent
    by (intros i Hi; apply H2; (done || by apply not_eq_sym)).
  split_and!; [| | | |exact H2|by eexists|exact HW2|].
  - split; [exact HW2|done|..].
    + intros i Hi E0. unfold table_at. rewrite Hent in E0 |- * by done. fold (table_at (mem st) d i).
      destruct (Ht i Hi E0) as (? & Hni). rewrite !not_elem_of_cons in Hni. tauto.
    + intros i k Hi Hk Ei Ek. unfold table_at. rewrite !Hent in * by done. by apply Hinj.
    + intros i Hi E0. cbv zeta. rewrite (new_at_ext (mem st)) by (done || lia). rewrite Hent in E0 by done.
      destruct (Hn i Hi E0) as (? & Hni & Hnt). rewrite !not_elem_of_cons in Hni. split_and!; try tauto.
      intros k Hk Ek. unfold table_at. rewrite Hent in Ek |- * by done. by apply Hnt.
    + pose proof (alloc_n_address st c 1 Hb) as A. cbn [alloc_n] in A. replace (c + 4096 * Z.of_nat 1) with (c + 4096) in A by lia. exact A.
  - unfold walk. cbv zeta. unfold st2. cbn [mem with_mem]. unfold mem_set. rewrite Z.eqb_refl.
    change (set_pdpe_entry ?e c u) with (set_page_entry e c u). destruct HokQ.
    by rewrite set_page_entry_present, set_page_entry_phys by done.
  - intros i l Hi Hl. rewrite Hent by done. intros E0. destruct (Ht i Hi E0) as (HtF & Hni). rewrite !not_elem_of_cons in Hni.
    unfold table_at. rewrite Hent by done. fold (table_at (mem st) d i). rewrite H2 by tauto. by apply Hok.
  - intros i Hi. unfold st2. cbn [mem with_mem]. unfold mem_set.
    destruct (Z.eqb_spec (c + 8 * i) (Q + 8 * j)) as [Ei|]; [destruct (window_slot F st HW c Q i j); [done..|congruence]|by apply Hz].
  - intros a Ha HaQ. unfold st2. cbn [mem with_mem]. unfold mem_set. destruct (Z.eqb_spec a (Q + 8 * j)); [done|by apply Ho1].
Qed.

(** The words the copy of directory [d] to [c] and its tables does not write. *)
Definition kept_by_copy (st : vmm) (Q j d c a : Z) : Prop :=
  a <> Q + 8 * j /\ (forall i, 0 <= i < 512 -> a <> c + 8 * i) /\
  forall i l, 0 <= i < 512 -> 0 <= l < 512 -> entry_at (mem st) d i <> 0 ->
    a <> table_at (mem st) d i + 8 * l /\ a <> new_at (mem st) d (c + 4096) i + 8 * l.

(** Fork's copy of a page directory: the child's table of directories gets a
    directory of its own through which every page translates as it did in the
    parent, the parent's own translations stay, and afterwards no page of either
    is writable and every entry, absent ones included, is marked copy-on-write. *)
Lemma copy_pdpe_entry_spec F st P Q j d c u :
  fork_ok F st P Q j d c ->
  exists k m, copy_pdpe_entry (u64 (P + virt_base)) (u64 (Q + virt_base)) j u st = Ret (with_mem (alloc_n k st) m) /\
    walk m Q j = Some c /\ shared (mem st) m d c /\ ready F (with_mem (alloc_n k st) m) /\
    forall a, kept_by_copy st Q j d c a -> m a = mem st a.
Proof.
  intros HK. destruct (fork_link F st P Q j d c u HK) as (st2 & -> & HC & HQ & Hw & Hz & Hsame & [m2 E2] & HW2 & Hout).
  destruct HK as [HW Hj [HF Hnd] He _ _ Hpr Ht _ Hn]. rewrite !Forall_cons in HF. destruct HF as (HP & HQF & Hd & Hc & _).
  rewrite !NoDup_cons, !not_elem_of_cons in Hnd. destruct Hnd as ((HPQ & HPd & HPc & _) & (HQd & HQc & _) & (Hdc & _) & _).
  destruct (rounds_all F st2 d c (c + 4096) u HC) as (s & E & HR).
  assert (forall i, 0 <= i < 512 -> entry_at (mem st2) d i = entry_at (mem st) d i) as Hent
    by (intros i Hi; apply Hsame; (done || by apply not_eq_sym)).
  assert (forall i l, 0 <= i < 512 -> 0 <= l < 512 -> walk2 (mem st2) d i l = walk2 (mem st) d i l) as Hw2.
  { intros i l Hi Hl. unfold walk2, walk. cbv zeta. fold (entry_at (mem st2) d i) (entry_at (mem st) d i). rewrite Hent by done.
    destruct (decide (entry_at (mem st) d i = 0)) as [->|E0]; [done|]. destruct (Ht i Hi E0) as (HtF & Hni).
    rewrite !not_elem_of_cons in Hni. rewrite Hpr by done. simpl. unfold table_at in *. by rewrite Hsame by tauto. }
  destruct (rounds_shared F st2 d c (c + 4096) u s HC HR Hw Hz) as [H1 H2 H3].
  { intros i Hi E0. rewrite Hent in E0 |- * by done. by apply Hpr. }
  pose proof HR as (m & Es & HWs & _ & HB). subst s. cbn [mem with_mem] in *.
  assert (forall a, kept_by_copy st Q j d c a -> m a = mem st a) as Hk.
  { intros a (HaQ & Hac & Ha). rewrite HB; [by apply Hout|]. intros i Hi E0. rewrite Hent in E0 by done. split; [by apply Hac|].
    intros l Hl. unfold table_at. rewrite Hent by done. rewrite (new_at_ext (mem st)) by (done || lia). by apply Ha. }
  exists (made (mem st2) d (Z.to_nat 512) + 1)%nat, m.
  assert (with_mem (alloc_n (made (mem st2) d (Z.to_nat 512)) st2) m = with_mem (alloc_n (made (mem st2) d (Z.to_nat 512) + 1) st) m) as Es.
  { rewrite E2. apply alloc_n_mem. }
  rewrite <- Es. split; [exact E|]. split; [|split; [|split; [exact HWs|exact Hk]]].
  - unfold walk in HQ |- *. cbv zeta in *. rewrite HB; [done|].
    intros i Hi E0. rewrite Hent in E0 by done. destruct (Ht i Hi E0) as (HtF & Hni). rewrite !not_elem_of_cons in Hni.
    destruct (Hn i Hi E0) as (HnF & Hnn & _). rewrite !not_elem_of_cons in Hnn.
    split; [apply (slots_apart F st2 d c (c + 4096) HC); (done || lia)|]. intros l Hl. unfold table_at. rewrite Hent by done.
    rewrite (new_at_ext (mem st)) by (done || lia).
    split; apply (slots_apart F st2 d c (c + 4096) HC); (done || lia || (apply not_eq_sym; tauto)).
  - split; [intros i l Hi Hl; by rewrite H1, Hw2|intros i l Hi Hl; by rewrite H2, Hw2|done].
Qed.

(** ** Frames of one region *)

Definition outside (F : list Z) (x : Z) : Prop := Forall (fun g => x < g \/ g + 4096 <= x) F.

#[export] Instance outside_dec F x : Decision (outside F x).
Proof. unfold outside. apply _. Defined.

Lemma outside_frames F x : outside F x -> ~ in_frames F x.
Proof. intros H (f & Hf & Hx). pose proof (proj1 (Forall_forall _ _) H f Hf). simpl in *. lia. Qed.

(** A frame [f] that a table of the kernel's window maps, in the 2 MiB region
    [r], is seen at [virt_base + f], whatever is written to the frames [F], when
    the four words on the way are outside them. *)
Definition seen (F : list Z) (m : Z -> Z) (t1 r f : Z) : Prop :=
  0 <= f /\ f + 4096 < 2 ^ 30 /\ f mod 4096 = 0 /\ f / 2 ^ 21 = r /\
  walk m t1 ((f / 2 ^ 12) mod 512) = Some f /\ outside F (t1 + 8 * ((f / 2 ^ 12) mod 512)).

#[export] Instance seen_dec F m t1 r f : Decision (seen F m t1 r f).
Proof. unfold seen. apply _. Defined.

Section seen.
Context (F : list Z) (c : Z) (m : Z -> Z) (t3 t2 t1 r : Z).
Context (W3 : walk m c 511 = Some t3) (W2 : walk m t3 510 = Some t2) (W1 : walk m t2 r = Some t1).
Context (O3 : outside F (c + 8 * 511)) (O2 : outside F (t3 + 8 * 510)) (O1 : outside F (t2 + 8 * r)).

Lemma seen_maps m' f o :
  seen F m t1 r f -> (forall a, ~ in_frames F a -> m' a = m a) -> 0 <= o < 4096 -> translate m' c (virt_base + (f + o)) = Some (f + o).
Proof.
  intros (H0 & H30 & Hmod & Hr & W0 & O0) Hm Ho.
  assert (forall t i x, walk m t i = Some x -> outside F (t + 8 * i) -> walk m' t i = Some x) as Hw.
  { intros t i x W O. unfold walk in *. cbv zeta in *. by rewrite Hm by (by apply outside_frames). }
  destruct (window_offsets (f + o)) as (E4 & E3 & E2 & E1 & Eo); [lia|].
  pose proof (Z.div_mod f 4096). assert ((f + o) / 2 ^ 12 = f / 2 ^ 12) as E12.
  { replace (f + o) with (o + f / 4096 * 2 ^ 12) by lia. rewrite Z.div_add by lia. rewrite (Z.div_small o) by lia. done. }
  assert ((f + o) / 2 ^ 21 = f / 2 ^ 21) as E21.
  { change (2 ^ 21) with (2 ^ 12 * 2 ^ 9). rewrite <- !Z.div_div by lia. by rewrite E12. }
  unfold translate. rewrite E4, E3, E2, E1, Eo, E12, E21, Hr.
  rewrite (Hw _ _ _ W3) by done. simpl. rewrite (Hw _ _ _ W2) by done. simpl.
  rewrite (Hw _ _ _ W1) by done. simpl. rewrite (Hw _ _ _ W0) by done. simpl. f_equal.
  rewrite Z.add_mod, Hmod by lia. rewrite Z.add_0_l, Z.mod_mod, Z.mod_small by lia. lia.
Qed.

Lemma windowed_intro : Forall (seen F m t1 r) F -> windowed F c m.
Proof.
  intros HF. split.
  - intros m' f o Hm Hf Ho. by apply seen_maps; [apply (proj1 (Forall_forall _ _) HF)|..].
  - intros f Hf. destruct (proj1 (Forall_forall _ _) HF f Hf) as (? & ? & ? & _). lia.
Qed.
End seen.
