(* ===== verification/UserBytes.v ===== *)
(** * Bytes of user memory

    The slots of frames, the bytes of a page through the processor's walk, and
    the copy of bytes of the archive into a page (do_exec of sys/exec.c). *)

From S2P Require Import Prelude CString Bitmap PhysMem PageEntry Paging MapPage KHeap Queues Kthread Process.
From S2P Require Import TarFs PageFault CopyTables.

(** ** Frames *)

Lemma frame_slot_inj t t' i i' :
  frame_addr t -> frame_addr t' -> 0 <= i < 512 -> 0 <= i' < 512 -> t + 8 * i = t' + 8 * i' -> t = t' /\ i = i'.
Proof.
  intros [Ht Mt] [Ht' Mt'] Hi Hi' E. pose proof (Z.div_mod t 4096). pose proof (Z.div_mod t' 4096).
  assert (t / 4096 = t' / 4096) by lia. lia.
Qed.

Lemma frame_slot_outside t n i : frame_addr t -> frame_addr n -> t <> n -> 0 <= i < 512 -> ~ (n <= t + 8 * i < n + 4096).
Proof.
  intros [Ht Mt] [Hn Mn] Hne Hi Hin. pose proof (Z.div_mod t 4096). pose proof (Z.div_mod n 4096).
  assert (t / 4096 = n / 4096) by lia. lia.
Qed.

(** ** The steps of mapping a page *)

(** The tables on the way to the page [virt], made where they are missing. *)
Definition tables_after (virt : Z) (u : bool) (s : vmm) : outcome vmm :=
  s ← ensure_table_after set_pml4_entry 4096 s (get_pml4e_offset_recurse virt) u;
  s ← ensure_table_after set_pdpe_entry 4096 s (get_pdpe_offset_recurse virt) u;
  ensure_table_after set_pde_entry 8 s (get_pde_offset_recurse virt) u.

Lemma tables_after_split v virt phys u :
  vmmgr_map_page_after_paging v phys virt u = s ← tables_after virt u v; set_phys_virt_recurse s phys virt u.
Proof.
  unfold vmmgr_map_page_after_paging, tables_after.
  destruct (ensure_table_after set_pml4_entry _ _ _ _) as [s| | |]; [|done..]. rewrite !bind_Ret.
  destruct (ensure_table_after set_pdpe_entry _ _ _ _) as [s'| | |]; [|done..]. by rewrite !bind_Ret.
Qed.

(** ** Bytes of user memory *)

(** The byte at a physical address, in the word that holds it. *)
Definition byte_of (m : Z -> Z) (pa : Z) : Z := Z.land (Z.shiftr (m (8 * (pa / 8))) (8 * (pa mod 8))) 0xFF.

Definition user_byte (v : vmm) (va : Z) : option Z := byte_of (mem v) <$> translate (mem v) (Paging.cr3 v) va.

Lemma byte_bits i : 0 <= i -> Z.testbit 0xFF i = (i <? 8).
Proof. intros Hi. change 0xFF with (Z.ones 8). by rewrite Z.testbit_ones_nonneg by lia. Qed.

Lemma byte_shift_bits sh i : 0 <= sh -> 0 <= i -> Z.testbit (Z.shiftl 0xFF sh) i = (sh <=? i) && (i <? sh + 8).
Proof.
  intros Hs Hi. rewrite Z.shiftl_spec by lia. destruct (Z.leb_spec sh i).
  - rewrite byte_bits by lia. simpl. destruct (Z.ltb_spec (i - sh) 8), (Z.ltb_spec i (sh + 8)); (done || lia).
  - by rewrite Z.testbit_neg_r by lia.
Qed.

Lemma byte_high b i : 0 <= b < 256 -> 8 <= i -> Z.testbit b i = false.
Proof. intros Hb Hi. rewrite <- (Z.mod_small b (2 ^ 8)) by done. apply Z.mod_pow2_bits_high. lia. Qed.

(** Storing [b] into byte [k] of a word, and reading byte [j]. *)
Lemma byte_store w b k j :
  0 <= b < 256 -> 0 <= k < 8 -> 0 <= j < 8 ->
  Z.land (Z.shiftr (Z.lor (Z.land w (Z.lnot (Z.shiftl 0xFF (8 * k)))) (Z.shiftl b (8 * k))) (8 * j)) 0xFF =
    if k =? j then b else Z.land (Z.shiftr w (8 * j)) 0xFF.
Proof.
  intros Hb Hk Hj. apply Z.bits_inj'. intros i Hi.
  assert (forall x, Z.testbit (Z.land (Z.shiftr x (8 * j)) 0xFF) i = Z.testbit x (i + 8 * j) && (i <? 8)) as Hx.
  { intros x. rewrite Z.land_spec, Z.shiftr_spec, byte_bits by lia. done. }
  rewrite Hx, Z.lor_spec, Z.land_spec, Z.lnot_spec, byte_shift_bits by lia.
  destruct (Z.eqb_spec k j) as [->|Hne].
  - rewrite Z.shiftl_spec by lia. replace (i + 8 * j - 8 * j) with i by lia. destruct (Z.ltb_spec i 8).
    + rewrite (proj2 (Z.leb_le _ _)), (proj2 (Z.ltb_lt _ _)) by lia. simpl. by rewrite andb_false_r, andb_true_r.
    + by rewrite andb_false_r, byte_high by (done || lia).
  - rewrite Hx. destruct (Z.ltb_spec i 8); [|by rewrite !andb_false_r]. rewrite !andb_true_r.
    rewrite Z.shiftl_spec by lia. destruct (Z.leb_spec (8 * k) (i + 8 * j)); simpl.
    + rewrite (proj2 (Z.ltb_ge _ _)) by lia. simpl. rewrite andb_true_r.
      by rewrite (byte_high b (i + 8 * j - 8 * k)), orb_false_r by (done || lia).
    + rewrite andb_true_r. by rewrite (Z.testbit_neg_r b), orb_false_r by lia.
Qed.

(** One byte stored at [pa]. *)
Definition store_byte (m : Z -> Z) (pa b : Z) : Z -> Z :=
  let w := 8 * (pa / 8) in let sh := 8 * (pa mod 8) in
  mem_set m w (Z.lor (Z.land (m w) (Z.lnot (Z.shiftl 0xFF sh))) (Z.shiftl b sh)).

Lemma byte_of_store m pa b x :
  0 <= b < 256 -> byte_of (store_byte m pa b) x = if x =? pa then b else byte_of m x.
Proof.
  intros Hb. unfold byte_of, store_byte, mem_set. pose proof (Z.mod_pos_bound pa 8). pose proof (Z.mod_pos_bound x 8).
  pose proof (Z.div_mod pa 8). pose proof (Z.div_mod x 8). destruct (Z.eqb_spec (8 * (x / 8)) (8 * (pa / 8))) as [E|Hne].
  - rewrite byte_store, <- E by lia. destruct (Z.eqb_spec (pa mod 8) (x mod 8)), (Z.eqb_spec x pa); (done || lia).
  - destruct (Z.eqb_spec x pa) as [->|]; done.
Qed.

Lemma store_byte_frame f m pa b :
  frame_addr f -> f <= pa < f + 4096 -> same_outside f m (store_byte m pa b).
Proof.
  intros [Hf Hm] Hpa a Ha. unfold store_byte, mem_set. destruct (Z.eqb_spec a (8 * (pa / 8))) as [->|]; [|done].
  exfalso. apply Ha. Z.to_euclidean_division_equations. lia.
Qed.

(** ** The copy of a segment into a page *)

(** The page of [page] goes through the tables [x3], [x2] and [x1] to the frame
    [f], which is none of them. *)
Record page_path (v : vmm) (page x3 x2 x1 f : Z) : Prop := {
  pp_page : 0 <= page < 2 ^ 47 /\ page mod 4096 = 0;
  pp_walk3 : walk (mem v) (Paging.cr3 v) (PAGE_PML4_OFFSET page) = Some x3;
  pp_walk2 : walk (mem v) x3 (PAGE_POINTER_OFFSET page) = Some x2;
  pp_walk1 : walk (mem v) x2 (PAGE_DIRECTORY_OFFSET page) = Some x1;
  pp_walk0 : walk (mem v) x1 (PAGE_TABLE_OFFSET page) = Some f;
  pp_frames : Forall (fun x => frame_addr x /\ x <> f) [Paging.cr3 v; x3; x2; x1];
  pp_frame : frame_addr f
}.

Lemma page_path_translate v page x3 x2 x1 f m o :
  page_path v page x3 x2 x1 f -> same_outside f (mem v) m -> 0 <= o < 4096 ->
  translate m (Paging.cr3 v) (page + o) = Some (f + o).
Proof.
  intros [[Hp Hmod] W3 W2 W1 W0 HF Hf] Hm Ho. pose proof (offsets_range page) as (? & ? & ? & ?).
  rewrite !Forall_cons in HF. destruct HF as ([Fc Nc] & [F3 N3] & [F2 N2] & [F1 N1] & _).
  assert (forall t i x, frame_addr t -> t <> f -> 0 <= i < 512 -> walk (mem v) t i = Some x -> walk m t i = Some x) as Hw.
  { intros t i x Ft Hne Hi W. unfold walk in *. cbv zeta in *. rewrite Hm; [exact W|]. by apply frame_slot_outside. }
  replace (page + o) with (page - page mod 4096 + o) by lia. apply (page_translate m _ page x3 x2 x1); try lia; by apply Hw.
Qed.

Lemma vstore8_byte v page x3 x2 x1 f o b :
  page_path v page x3 x2 x1 f -> 0 <= o < 4096 ->
  vstore8 v (u64 (page + o)) b = Ret (with_mem v (store_byte (mem v) (f + o) b)).
Proof.
  intros HP Ho. pose proof HP as [[Hp _] _ _ _ _ _ _]. unfold vstore8. rewrite uwrap_small by lia.
  rewrite (page_path_translate v page x3 x2 x1 f (mem v) o HP); [done|by intros a _|done].
Qed.

Lemma page_path_same v page x3 x2 x1 f m :
  page_path v page x3 x2 x1 f -> same_outside f (mem v) m -> page_path (with_mem v m) page x3 x2 x1 f.
Proof.
  intros [Hp W3 W2 W1 W0 HF Hf] Hm. pose proof (offsets_range page) as (? & ? & ? & ?).
  assert (forall t i, frame_addr t /\ t <> f -> 0 <= i < 512 -> walk m t i = walk (mem v) t i) as Hw.
  { intros t i [Ft Hne] Hi. unfold walk. cbv zeta. rewrite Hm; [done|]. by apply frame_slot_outside. }
  pose proof HF as HF'. rewrite !Forall_cons in HF'. destruct HF' as (Fc & F3 & F2 & F1 & _).
  split; cbn [mem Paging.cr3 with_mem]; try done; by rewrite Hw by done.
Qed.

(** The archive's bytes [src] to [src + len], copied to offset [o] of a page. *)
Lemma copy_in_spec v page x3 x2 x1 f m o src len :
  page_path v page x3 x2 x1 f -> (forall a, 0 <= m a < 256) -> 0 <= o -> 0 <= len -> o + len <= 4096 ->
  exists mw, copy_in m (page + o) src len v = Ret (with_mem v mw) /\ same_outside f (mem v) mw /\
    forall x, byte_of mw x =
      if decide (f + o <= x < f + o + len) then m (u64 (src + (x - (f + o)))) else byte_of (mem v) x.
Proof.
  intros HP Hm Ho Hl Hfit. unfold copy_in.
  destruct (for_loop_ind (fun k s => exists mw, s = with_mem v mw /\ same_outside f (mem v) mw /\
      forall x, byte_of mw x = if decide (f + o <= x < f + o + k) then m (u64 (src + (x - (f + o)))) else byte_of (mem v) x)
    (fun i st => vstore8 st (u64 (page + o + i)) (m (u64 (src + i)))) (Z.to_nat len) 0 v) as (s & E & mw & -> & Hs & Hb).
  - exists (mem v). split; [by destruct v|]. split; [by intros a _|]. intros x. by rewrite decide_False by lia.
  - intros k s Hk (mw & -> & Hs & Hb). pose proof (page_path_same v page x3 x2 x1 f mw HP Hs) as HP'.
    replace (page + o + k) with (page + (o + k)) by lia. rewrite (vstore8_byte _ page x3 x2 x1 f) by (done || lia).
    eexists. split; [done|]. eexists. split; [reflexivity|]. cbn [mem with_mem]. split.
    + intros a Ha. rewrite (store_byte_frame f) by (done || lia || apply HP). by apply Hs.
    + intros x. rewrite byte_of_store by done. destruct (Z.eqb_spec x (f + (o + k))) as [->|Hne].
      * rewrite decide_True by lia. do 2 f_equal. lia.
      * rewrite Hb. destruct (decide (f + o <= x < f + o + k)); [by rewrite decide_True by lia|by rewrite decide_False by lia].
  - exists mw. split; [exact E|]. split; [exact Hs|]. intros x. rewrite Hb. rewrite Z2Nat.id by lia. done.
Qed.

(** ** Frames in use *)

(** The frame is marked in the bitmap of physical memory. *)
Definition taken (b : bitmap) (x : Z) : Prop := marked (memory_map b) (x / 4096) = true.

Lemma alloc_untaken b b' p x : wf b -> alloc_result b b' p -> p <> 0 -> taken b x -> x <> p.
Proof.
  intros Hwf Hr Hp Hx ->. inversion Hr as [| |q b2 _ Hl _ _ _ _ _]; subst; [done..|].
  unfold taken, BLOCK_SIZE in Hx. rewrite Z.div_mul in Hx by lia. destruct Hl as (_ & Hc & _). congruence.
Qed.

(** ** A machine with no user table yet *)

(** The kernel's tables are at 0x1000 to 0x4000, its window covers the frames
    0x10000 to 0x2F000, of which 0x15000 is the next; frames 0 to 63 are in use. *)
Definition bare_machine : vmm :=
  Vmm (fun a =>
         if a =? 0x1000 + 8 * 510 then 0x1003 else if a =? 0x1000 + 8 * 511 then 0x2003
         else if a =? 0x2000 + 8 * 510 then 0x3003 else if a =? 0x3000 then 0x4003
         else if (0x4080 <=? a) && (a <? 0x4180) then (a - 0x4000) / 8 * 4096 + 3 else 0)
      (Bitmap [0xFFFFFFFFFFFFFFFF; 0] 64 128) 0x1000 0 0x1000 (virt_base + 0x14000) 0 0 0.

Lemma window_word_ok a : (0x4080 <=? a) && (a <? 0x4180) = true -> entry_ok ((a - 0x4000) / 8 * 4096 + 3).
Proof.
  intros (E1%Z.leb_le & E2%Z.ltb_lt)%andb_true_iff.
  assert ((a - 0x4000) / 8 ∈ seqZ 16 32) as Hin.
  { apply elem_of_seqZ. Z.to_euclidean_division_equations. lia. }
  assert (Forall (fun q => entry_ok (q * 4096 + 3)) (seqZ 16 32)) as HF by by_computation.
  exact (proj1 (Forall_forall _ _) HF _ Hin).
Qed.

Lemma bare_words a : entry_ok (mem bare_machine a).
Proof.
  unfold bare_machine. cbn [mem].
  do 4 (match goal with |- entry_ok (if ?b then _ else _) => destruct b; [by_computation|] end).
  destruct (_ && _) eqn:E; [by apply window_word_ok|by_computation].
Qed.
