(* ===== verification/AddressSpace.v ===== *)
(** * The address space of a process as a finite map

    The user half of the tables of the current process represents a map from
    pages to frames; mapping a page with paging on inserts into it, whichever
    tables have to be made.  The invariant assigns levels to the tables, as in
    MapPage.v, but for the user half only, and with new tables from the bump
    allocator. *)

From S2P Require Import Prelude CString Bitmap PhysMem PageEntry Paging MapPage KHeap Queues Kthread Process.
From S2P Require Import TarFs PageFault CopyTables UserBytes.

(** ** The invariant *)

(** The next [m] pages of the bump allocator, from [n] on. *)
Definition upcoming (n m f : Z) : Prop := n <= f < n + 4096 * m.

(** A present entry of an upper table of the user half. *)
Definition user_branch (lev : Z -> Z) (v : vmm) (t i : Z) : Prop :=
  2 <= lev t /\ 0 <= i < 512 /\ (t = Paging.cr3 v -> i < 256) /\ present (mem v (t + 8 * i)) = true.

Definition user_page (p : Z) : Prop := 0 <= p < 2 ^ 47 /\ p mod 4096 = 0.

Section space.
Context (t3 t2 t1 r : Z).

(** A frame for a process's bytes: none of the tables, now or to come. *)
Definition data_frame (lev : Z -> Z) (n m f : Z) : Prop :=
  frame_addr f /\ lev f = 0 /\ ~ upcoming n m f /\ f ∉ [t3; t2; t1].

(** [lev] is 4 for the top-level table, 3, 2 and 1 for the user tables below it.
    The tables of the kernel's window, [t3], [t2] and [t1], are apart from them
    and cover the next pages of the bump allocator, which lie in the 2 MiB
    region [r]. *)
Record space (lev : Z -> Z) (v : vmm) (n m : Z) (U : gmap Z Z) : Prop := {
  sp_words : forall t i, 0 < lev t \/ frame_addr t /\ upcoming n m t -> 0 <= i < 512 -> entry_ok (mem v (t + 8 * i));
  sp_bump : (vmmgr_alloc_page v 0).2 = u64 (n + virt_base);
  sp_next : frame_addr n /\ 0 <= m /\ n + 4096 * m < 2 ^ 30;
  sp_region : forall k, 0 <= k < m -> (n + 4096 * k) / 2 ^ 21 = r /\
    walk (mem v) t1 (((n + 4096 * k) / 2 ^ 12) mod 512) = Some (n + 4096 * k);
  sp_recursive : walk (mem v) (Paging.cr3 v) 510 = Some (Paging.cr3 v);
  sp_walk3 : walk (mem v) (Paging.cr3 v) 511 = Some t3;
  sp_walk2 : walk (mem v) t3 510 = Some t2;
  sp_walk1 : walk (mem v) t2 r = Some t1 /\ 0 <= r < 512;
  sp_window : Forall (fun t => frame_addr t /\ lev t = 0 /\ ~ upcoming n m t) [t3; t2; t1];
  sp_root : lev (Paging.cr3 v) = 4;
  sp_levels : forall x, 0 <= lev x;
  sp_tables : forall t, 0 < lev t -> frame_addr t /\ ~ upcoming n m t;
  sp_coming : forall f, upcoming n m f -> lev f = 0;
  sp_child : forall t i, user_branch lev v t i -> lev (PAGE_PHYSICAL_ADDRESS (mem v (t + 8 * i))) = lev t - 1;
  sp_inj : forall t i t' i', user_branch lev v t i -> user_branch lev v t' i' ->
    PAGE_PHYSICAL_ADDRESS (mem v (t + 8 * i)) = PAGE_PHYSICAL_ADDRESS (mem v (t' + 8 * i')) -> t = t' /\ i = i';
  sp_pages : forall p f, U !! p = Some f ->
    user_page p /\ translate (mem v) (Paging.cr3 v) p = Some f /\ data_frame lev n m f;
  sp_frames : forall p p' f, U !! p = Some f -> U !! p' = Some f -> p = p'
}.

(** ** Walks in the space *)

Section walks.
Context (lev : Z -> Z) (v : vmm) (n m : Z) (U : gmap Z Z) (HS : space lev v n m U).
#[local] Abbreviation c := (Paging.cr3 v).

Lemma space_table t : 0 < lev t -> frame_addr t /\ ~ upcoming n m t.
Proof. apply (sp_tables _ _ _ _ _ HS). Qed.

Lemma space_window t : t ∈ [t3; t2; t1] -> frame_addr t /\ lev t = 0 /\ ~ upcoming n m t.
Proof. intros Ht. exact (proj1 (Forall_forall _ _) (sp_window _ _ _ _ _ HS) t Ht). Qed.

Lemma space_root : frame_addr c /\ ~ upcoming n m c.
Proof. apply space_table. rewrite (sp_root _ _ _ _ _ HS). lia. Qed.

(** A slot outside the next frame. *)
Lemma slot_beside t i : frame_addr t -> ~ upcoming n m t -> 0 < m -> 0 <= i < 512 -> ~ (n <= t + 8 * i < n + 4096).
Proof.
  intros Ht Hu Hm Hi. apply frame_slot_outside; [done|apply (sp_next _ _ _ _ _ HS)| |done].
  intros ->. apply Hu. unfold upcoming. lia.
Qed.

(** The walk through an upper table goes one level down. *)
Lemma space_walk t i x :
  2 <= lev t -> 0 <= i < 512 -> (t = c -> i < 256) -> walk (mem v) t i = Some x -> lev x = lev t - 1.
Proof.
  intros Ht Hi Hc W. unfold walk in W. cbv zeta in W. destruct (present _) eqn:Ep; [|done]. injection W as <-.
  apply (sp_child _ _ _ _ _ HS). exact (conj Ht (conj Hi (conj Hc Ep))).
Qed.

Lemma not_root_lev t i : lev t < 4 -> t = c -> i < 256.
Proof. intros Ht ->. rewrite (sp_root _ _ _ _ _ HS) in Ht. lia. Qed.

(** The tables of a user address. *)
Record user_path (p x3 x2 x1 : Z) : Prop := {
  up_walk3 : walk (mem v) c (PAGE_PML4_OFFSET p) = Some x3;
  up_walk2 : walk (mem v) x3 (PAGE_POINTER_OFFSET p) = Some x2;
  up_walk1 : walk (mem v) x2 (PAGE_DIRECTORY_OFFSET p) = Some x1;
  up_levels : lev x3 = 3 /\ lev x2 = 2 /\ lev x1 = 1
}.

Lemma user_offset p : user_page p -> PAGE_PML4_OFFSET p < 256.
Proof. intros [Hp _]. autorewrite with offsets. Z.to_euclidean_division_equations. lia. Qed.

Lemma space_path p x3 x2 x1 :
  user_page p -> walk (mem v) c (PAGE_PML4_OFFSET p) = Some x3 -> walk (mem v) x3 (PAGE_POINTER_OFFSET p) = Some x2 ->
  walk (mem v) x2 (PAGE_DIRECTORY_OFFSET p) = Some x1 -> user_path p x3 x2 x1.
Proof.
  intros Hp W3 W2 W1. pose proof (offsets_range p) as (? & ? & ? & ?). pose proof (user_offset p Hp).
  pose proof (sp_root _ _ _ _ _ HS) as L4.
  assert (lev x3 = lev c - 1) as L3 by (eapply space_walk; [| | |exact W3]; [lia|lia|intros _; lia]).
  assert (lev x2 = lev x3 - 1) as L2 by (eapply space_walk; [| |apply not_root_lev|exact W2]; lia).
  assert (lev x1 = lev x2 - 1) as L1 by (eapply space_walk; [| |apply not_root_lev|exact W1]; lia).
  split; try done. lia.
Qed.

Lemma page_low_bits p : p mod 4096 = 0 -> Z.land p 0xFFF = 0.
Proof. intros Hp. change 0xFFF with (Z.ones 12). rewrite Z.land_ones by lia. exact Hp. Qed.

Lemma space_translate p f :
  user_page p -> translate (mem v) c p = Some f ->
  exists x3 x2 x1, user_path p x3 x2 x1 /\ walk (mem v) x1 (PAGE_TABLE_OFFSET p) = Some f.
Proof.
  intros Hp. unfold translate. destruct (walk _ c _) as [x3|] eqn:W3; [|done]. cbn [mbind option_bind].
  destruct (walk _ x3 _) as [x2|] eqn:W2; [|done]. cbn [mbind option_bind].
  destruct (walk _ x2 _) as [x1|] eqn:W1; [|done]. cbn [mbind option_bind].
  destruct (walk _ x1 _) as [x0|] eqn:W0; [|done]. cbn [mbind option_bind].
  rewrite page_low_bits, Z.add_0_r by apply Hp. intros [= <-]. exists x3, x2, x1. split; [by apply space_path|done].
Qed.

(** Paths that end in the same table take the same turns. *)
Lemma space_path_inj p q x3 x2 x1 y3 y2 :
  user_page p -> user_page q -> user_path p x3 x2 x1 -> user_path q y3 y2 x1 ->
  PAGE_PML4_OFFSET p = PAGE_PML4_OFFSET q /\ PAGE_POINTER_OFFSET p = PAGE_POINTER_OFFSET q /\
  PAGE_DIRECTORY_OFFSET p = PAGE_DIRECTORY_OFFSET q.
Proof.
  intros Hp Hq [W3 W2 W1 (L3 & L2 & L1)] [X3 X2 X1 (M3 & M2 & _)].
  pose proof (offsets_range p) as (? & ? & ? & ?). pose proof (offsets_range q) as (? & ? & ? & ?).
  pose proof (user_offset p Hp). pose proof (user_offset q Hq). pose proof (sp_root _ _ _ _ _ HS) as L4.
  assert (forall t i u j x, 2 <= lev t -> 2 <= lev u -> 0 <= i < 512 -> 0 <= j < 512 -> (t = c -> i < 256) -> (u = c -> j < 256) ->
    walk (mem v) t i = Some x -> walk (mem v) u j = Some x -> t = u /\ i = j) as Hinj.
  { intros t i u j x Ht Hu Hi Hj Ci Cj. unfold walk. cbv zeta.
    destruct (present (mem v (t + 8 * i))) eqn:E1, (present (mem v (u + 8 * j))) eqn:E2; try done.
    intros [= A] [= B]. apply (sp_inj _ _ _ _ _ HS); [exact (conj Ht (conj Hi (conj Ci E1)))|exact (conj Hu (conj Hj (conj Cj E2)))|congruence]. }
  destruct (Hinj x2 (PAGE_DIRECTORY_OFFSET p) y2 (PAGE_DIRECTORY_OFFSET q) x1) as [E2 E1];
    [lia|lia|done|done|apply not_root_lev; lia|apply not_root_lev; lia|done|done|]. subst y2.
  destruct (Hinj x3 (PAGE_POINTER_OFFSET p) y3 (PAGE_POINTER_OFFSET q) x2) as [E3 E2];
    [lia|lia|done|done|apply not_root_lev; lia|apply not_root_lev; lia|done|done|]. subst y3.
  destruct (Hinj c (PAGE_PML4_OFFSET p) c (PAGE_PML4_OFFSET q) x3) as [_ E3]; [lia|lia|done|done|lia|lia|done|done|].
  done.
Qed.
End walks.

(** ** A new table *)

Section grow.
Context (lev : Z -> Z) (v v2 : vmm) (n m : Z) (U : gmap Z Z) (t i : Z) (HS : space lev v n m U).
Context (Hm : 1 <= m) (Ht : 2 <= lev t) (Hi : 0 <= i < 512).
Context (Habs : present (mem v (t + 8 * i)) = false) (Hcr : Paging.cr3 v2 = Paging.cr3 v).
Context (Hold : forall a, ~ (n <= a < n + 4096) -> a <> t + 8 * i -> mem v2 a = mem v a).
Context (Hnew : present (mem v2 (t + 8 * i)) = true /\ PAGE_PHYSICAL_ADDRESS (mem v2 (t + 8 * i)) = n).
Context (Hzero : lev t = 2 \/ forall j, 0 <= j < 512 -> mem v2 (n + 8 * j) = 0).
Context (Hwords : forall x j, 0 < lev x \/ frame_addr x /\ upcoming n m x -> 0 <= j < 512 -> entry_ok (mem v2 (x + 8 * j))).
Context (Hbump : (vmmgr_alloc_page v2 0).2 = u64 (n + 4096 + virt_base)).

Definition grown_lev (x : Z) : Z := if x =? n then lev t - 1 else lev x.

Lemma grow_table : frame_addr t /\ ~ upcoming n m t /\ t <> n.
Proof.
  clear -HS Hm Ht.
  destruct (space_table lev v n m U HS t ltac:(lia)) as [Hf Hu]. split; [done|]. split; [done|].
  intros ->. apply Hu. unfold upcoming. lia.
Qed.

Lemma grow_lev0 x : ~ upcoming n m x -> grown_lev x = lev x.
Proof. intros Hx. unfold grown_lev. destruct (Z.eqb_spec x n) as [->|]; [|done]. destruct Hx. unfold upcoming. lia. Qed.

Lemma upcoming_next x : upcoming (n + 4096) (m - 1) x -> upcoming n m x.
Proof. unfold upcoming. lia. Qed.

(** Slots of frames that are not to come, other than the new entry. *)
Lemma grow_slot_same x j : frame_addr x -> ~ upcoming n m x -> 0 <= j < 512 -> ~ (x = t /\ j = i) -> mem v2 (x + 8 * j) = mem v (x + 8 * j).
Proof.
  clear -HS Hm Ht Hi Hold.
  intros Hx Hu Hj Hne. destruct grow_table as (Hf & _ & _). apply Hold.
  - eapply slot_beside; (done || lia).
  - intros E. apply Hne. by apply frame_slot_inj in E.
Qed.

Lemma grow_walk_same x j y : frame_addr x -> ~ upcoming n m x -> 0 <= j < 512 -> walk (mem v) x j = Some y -> walk (mem v2) x j = Some y.
Proof.
  clear -HS Hm Ht Hi Habs Hold.
  intros Hx Hu Hj W. unfold walk in *. cbv zeta in *. rewrite grow_slot_same; [done..|].
  intros [-> ->]. by rewrite Habs in W.
Qed.

Lemma grow_user_branch x j : user_branch grown_lev v2 x j ->
  (x = t /\ j = i) \/ (user_branch lev v x j /\ mem v2 (x + 8 * j) = mem v (x + 8 * j) /\ ~ upcoming n m x).
Proof.
  intros (Hx & Hj & Hcx & Hp). unfold grown_lev in Hx. destruct (Z.eqb_spec x n) as [->|Hne].
  - destruct Hzero as [H2|Hz]; [lia|]. rewrite Hz in Hp by done. by vm_compute in Hp.
  - destruct (decide (x = t /\ j = i)) as [|Hn]; [by left|right].
    destruct (space_table lev v n m U HS x ltac:(lia)) as [Hf Hu].
    rewrite grow_slot_same in Hp |- * by done. rewrite Hcr in Hcx. by split_and!.
Qed.

Lemma grow_space : space grown_lev v2 (n + 4096) (m - 1) U.
Proof.
  pose proof HS as [Sw Sb [Sn [Sm S30]] Sr Srec W3 W2 [W1 Sr512] Swin Sroot Spos Stab Scom Sch Sinj Spg Sfr].
  destruct grow_table as (Hf & Hu & Htn). destruct Hnew as [Hnp Hna].
  destruct (space_root lev v n m U HS) as [Fc Uc].
  assert (forall x, x ∈ [t3; t2; t1] -> frame_addr x /\ lev x = 0 /\ ~ upcoming n m x /\ x <> t) as Hwin.
  { intros x Hx. destruct (space_window lev v n m U HS x Hx) as (H1 & H2 & H3). split_and!; [done..|]. intros ->. lia. }
  destruct (Hwin t3) as (F3 & L3 & U3 & _); [in_list|]. destruct (Hwin t2) as (F2 & L2 & U2 & _); [in_list|].
  destruct (Hwin t1) as (F1 & L1 & U1 & _); [in_list|].
  split; rewrite ?Hcr.
  - intros x j Hx Hj. apply Hwords; [|done]. destruct Hx as [Hx|[Fx Hx]]; [|right; split; [done|by apply upcoming_next]].
    unfold grown_lev in Hx. destruct (Z.eqb_spec x n) as [E|]; [subst x; right; split; [done|unfold upcoming; lia]|by left].
  - exact Hbump.
  - destruct Sn as [Sn Snm]. unfold frame_addr. split; [|lia]. split; [|Z.to_euclidean_division_equations; lia].
    unfold frame_addr in Sn. lia.
  - intros k Hk. destruct (Sr (k + 1) ltac:(lia)) as [E W]. replace (n + 4096 + 4096 * k) with (n + 4096 * (k + 1)) by lia.
    split; [exact E|]. apply grow_walk_same; [done|done|apply Z.mod_pos_bound; lia|exact W].
  - by apply grow_walk_same.
  - by apply grow_walk_same.
  - by apply grow_walk_same.
  - split; [by apply grow_walk_same|done].
  - eapply Forall_impl; [exact Swin|]. intros x (H1 & H2 & H3). split; [done|]. rewrite grow_lev0 by done. split; [done|].
    intros H. by apply H3, upcoming_next.
  - by rewrite grow_lev0.
  - intros x. unfold grown_lev. destruct (x =? n); [lia|apply Spos].
  - intros x Hx. unfold grown_lev in Hx. destruct (Z.eqb_spec x n) as [E|Hne]; [subst x|].
    + split; [done|]. unfold upcoming. lia.
    + destruct (Stab x Hx) as [H1 H2]. split; [done|]. intros H. by apply H2, upcoming_next.
  - intros x Hx. unfold grown_lev. destruct (Z.eqb_spec x n) as [->|]; [unfold upcoming in Hx; lia|].
    by apply Scom, upcoming_next.
  - intros x j [[-> ->]|(Hb & -> & Hux)]%grow_user_branch.
    + rewrite Hna, (grow_lev0 t) by done. unfold grown_lev. by rewrite Z.eqb_refl.
    + rewrite (grow_lev0 x) by done. rewrite <- (Sch x j Hb). apply grow_lev0. intros Hup. pose proof (Scom _ Hup) as E0.
      rewrite (Sch x j Hb) in E0. destruct Hb as [Hb _]. lia.
  - assert (forall x j, user_branch lev v x j -> PAGE_PHYSICAL_ADDRESS (mem v (x + 8 * j)) <> n) as Hnn.
    { intros x j Hb E. pose proof (Sch x j Hb) as E1. rewrite E, (Scom n) in E1 by (unfold upcoming; lia). destruct Hb as [Hb _]. lia. }
    intros x j x' j' [[-> ->]|(Hb & -> & _)]%grow_user_branch [[-> ->]|(Hb' & -> & _)]%grow_user_branch E.
    + done.
    + rewrite Hna in E. by apply eq_sym, Hnn in E.
    + rewrite Hna in E. by apply Hnn in E.
    + by apply Sinj.
  - intros p f HUp. destruct (Spg p f HUp) as (Hp & Htr & Hdf). split; [done|]. split.
    + destruct (space_translate lev v n m U HS p f Hp Htr) as (x3 & x2 & x1 & [X3 X2 X1 (M3 & M2 & M1)] & X0).
      pose proof (offsets_range p) as (? & ? & ? & ?).
      destruct (Stab x3 ltac:(lia)) as [G3 V3]. destruct (Stab x2 ltac:(lia)) as [G2 V2]. destruct (Stab x1 ltac:(lia)) as [G1 V1].
      unfold translate. rewrite (grow_walk_same _ _ _ Fc Uc) by done. cbn [mbind option_bind].
      rewrite (grow_walk_same _ _ _ G3 V3) by done. cbn [mbind option_bind].
      rewrite (grow_walk_same _ _ _ G2 V2) by done. cbn [mbind option_bind].
      rewrite (grow_walk_same _ _ _ G1 V1) by done. cbn [mbind option_bind].
      f_equal. rewrite page_low_bits by apply Hp. lia.
    + destruct Hdf as (D1 & D2 & D3 & D4). split; [done|]. rewrite grow_lev0 by done. split; [done|]. split; [|done].
      intros H. by apply D3, upcoming_next.
  - exact Sfr.
Qed.
End grow.

(** ** Making sure of a table *)

(** What a step of the mapping keeps: the registers, the levels, walks through
    frames that were not to come, and the words of data frames; it uses up to
    [k] of the coming pages. *)
Record kept_space (k : Z) (lev : Z -> Z) (v : vmm) (n m : Z) (lev' : Z -> Z) (v' : vmm) (n' m' : Z) : Prop := {
  ks_regs : Paging.cr3 v' = Paging.cr3 v /\ frames v' = frames v;
  ks_pages : m - k <= m' <= m /\ n' = n + 4096 * (m - m');
  ks_levels : forall x, ~ upcoming n m x -> lev' x = lev x;
  ks_walk : forall t i x, 2 <= lev t -> frame_addr t -> ~ upcoming n m t -> 0 <= i < 512 ->
    walk (mem v) t i = Some x -> walk (mem v') t i = Some x;
  ks_window : forall t i x, t ∈ [Paging.cr3 v; t3; t2; t1] -> 0 <= i < 512 ->
    walk (mem v) t i = Some x -> walk (mem v') t i = Some x;
  ks_data : forall f a, data_frame lev n m f -> f <= a < f + 4096 -> mem v' a = mem v a
}.

Section ensure.
Context (lev : Z -> Z) (v : vmm) (n m : Z) (U : gmap Z Z) (HS : space lev v n m U).
#[local] Abbreviation c := (Paging.cr3 v).

Lemma kept_refl : kept_space 0 lev v n m lev v n m.
Proof. split; try done. lia. Qed.

Lemma space_ready : 1 <= m -> ready [n] v.
Proof.
  intros Hm. pose proof HS as [_ _ [Sn [_ S30]] Sr _ W3 W2 [W1 Sr512] _ _ _ _ _ _ _ _ _].
  destruct (space_root lev v n m U HS) as [Fc Uc].
  destruct (space_window lev v n m U HS t3) as (F3 & _ & U3); [in_list|].
  destruct (space_window lev v n m U HS t2) as (F2 & _ & U2); [in_list|].
  destruct (space_window lev v n m U HS t1) as (F1 & _ & U1); [in_list|].
  destruct (Sr 0 ltac:(lia)) as [Er W0]. rewrite Z.mul_0_r, Z.add_0_r in Er, W0.
  assert (forall t i, frame_addr t -> ~ upcoming n m t -> 0 <= i < 512 -> outside [n] (t + 8 * i)) as Ho.
  { intros t i Ft Hu Hi. constructor; [|constructor]. pose proof (slot_beside lev v n m U HS t i Ft Hu ltac:(lia) Hi). lia. }
  assert (0 <= (n / 2 ^ 12) mod 512 < 512) by (apply Z.mod_pos_bound; lia).
  apply (windowed_intro _ _ _ t3 t2 t1 r); try (apply Ho; (done || lia)); try done.
  constructor; [|constructor]. destruct Sn as [Sn Snm]. split_and!; [lia|lia|done|done|done|apply Ho; (done || lia)].
Qed.

Lemma ensure_space (set : Z -> Z -> bool -> Z) k t i e u :
  (forall x y z, set x y z = set_page_entry x y z) -> 1 <= m -> k = 512 \/ k = 1 /\ lev t = 2 ->
  2 <= lev t -> 0 <= i < 512 -> (t = c -> i < 256) ->
  (forall m', (forall a, ~ (n <= a < n + 4096) -> m' a = mem v a) -> translate m' c e = Some (t + 8 * i)) ->
  exists v' lev' n' m' t', ensure_table_after set (8 * k) v e u = Ret v' /\ space lev' v' n' m' U /\
    kept_space 1 lev v n m lev' v' n' m' /\ walk (mem v') t i = Some t' /\ lev' t' = lev t - 1.
Proof.
  intros Hset Hm Hk Ht Hi Hc Htr. destruct (walk (mem v) t i) as [t'|] eqn:W.
  { exists v, lev, n, m, t'. split.
    - apply (ensure_present_after v set (8 * k) e t i u t'); [by apply Htr|done].
    - split; [done|]. split; [|split; [done|by eapply space_walk]]. destruct kept_refl. by split; try done; lia. }
  assert (present (mem v (t + 8 * i)) = false) as Hp by (unfold walk in W; cbv zeta in W; by destruct (present _)).
  destruct (grow_table lev v n m U t HS Hm Ht) as (Hf & Hu & Htn).
  assert (~ (n <= t + 8 * i < n + 4096)) as Hbes by (eapply slot_beside; (done || lia)).
  pose proof (space_ready Hm) as Hrdy. pose proof (sp_bump _ _ _ _ _ HS) as Hb. pose proof (sp_next _ _ _ _ _ HS) as (Sn & _ & S30).
  unfold ensure_table_after, vload. rewrite (Htr (mem v)) by done. rewrite bind_Ret, Hp.
  destruct (new_table_spec [n] v n k Hrdy) as (m1 & E1 & Hz & Ho); [by apply list_elem_of_here|lia|exact Hb|].
  rewrite E1, bind_Ret. cbn [fst snd]. rewrite (frame_of_window [n] v n Hrdy) by (by apply list_elem_of_here).
  assert (forall a, ~ (n <= a < n + 4096) -> m1 a = mem v a) as Hm1 by (intros a Hna; apply Ho; intros i' Hi' ->; lia).
  set (s1 := with_mem (vmmgr_alloc_page v 0).1 m1). assert (Paging.cr3 s1 = c) as Hcr1 by done.
  unfold vset_entry, vload. change (mem s1) with m1. rewrite Hcr1, (Htr m1) by done. rewrite bind_Ret.
  unfold vstore. change (mem s1) with m1. rewrite Hcr1, (Htr m1) by done. rewrite Hset.
  assert (entry_ok (m1 (t + 8 * i))) as Hok1 by (rewrite Hm1 by done; apply (sp_words _ _ _ _ _ HS); [left; lia|done]).
  set (new := set_page_entry (m1 (t + 8 * i)) n u). set (v2 := with_mem s1 (mem_set m1 (t + 8 * i) new)).
  assert (forall a, ~ (n <= a < n + 4096) -> a <> t + 8 * i -> mem v2 a = mem v a) as Hold.
  { intros a Hna Hne. unfold v2. cbn [mem with_mem]. unfold mem_set. destruct (Z.eqb_spec a (t + 8 * i)); [done|]. by apply Hm1. }
  assert (mem v2 (t + 8 * i) = new) as Hnew by (unfold v2; cbn [mem with_mem]; unfold mem_set; by rewrite Z.eqb_refl).
  assert (present new = true /\ PAGE_PHYSICAL_ADDRESS new = n) as Hpn.
  { destruct Hok1 as [Hr1 Hg1]. unfold new. by rewrite set_page_entry_present, set_page_entry_phys by done. }
  assert (lev t = 2 \/ forall j, 0 <= j < 512 -> mem v2 (n + 8 * j) = 0) as Hzero.
  { destruct Hk as [->|[_ ?]]; [right|by left]. intros j Hj. unfold v2. cbn [mem with_mem]. unfold mem_set.
    destruct (Z.eqb_spec (n + 8 * j) (t + 8 * i)); [lia|]. apply Hz. lia. }
  assert (forall x j, 0 < lev x \/ frame_addr x /\ upcoming n m x -> 0 <= j < 512 -> entry_ok (mem v2 (x + 8 * j))) as Hwords.
  { intros x j Hx Hj. unfold v2. cbn [mem with_mem]. unfold mem_set.
    destruct (Z.eqb_spec (x + 8 * j) (t + 8 * i)); [by apply set_page_entry_ok|].
    destruct (decide (Exists (fun i' => x + 8 * j = n + 8 * i') (seqZ 0 k))) as [Hex|Hex].
    - apply Exists_exists in Hex as (i' & Hi'%elem_of_seqZ & ->). rewrite Hz by lia. by_computation.
    - rewrite Ho; [by apply (sp_words _ _ _ _ _ HS)|]. intros i' Hi' E. apply Hex, Exists_exists. exists i'.
      split; [apply elem_of_seqZ; lia|done]. }
  assert ((vmmgr_alloc_page v2 0).2 = u64 (n + 4096 + virt_base)) as Hb2 by exact (alloc_n_address v n 1 Hb).
  exists v2, (grown_lev lev n t), (n + 4096), (m - 1), n. split; [reflexivity|]. split.
  { apply (grow_space lev v v2 n m U t i HS Hm Ht Hi Hp eq_refl Hold); rewrite ?Hnew; done. }
  split; [split|split].
  - done.
  - lia.
  - intros x Hx. by apply (grow_lev0 lev n m t Hm).
  - intros x j y _ Fx Ux Hj. by apply (grow_walk_same lev v v2 n m U t i HS Hm Ht Hi Hp Hold).
  - assert (forall x, x ∈ [c; t3; t2; t1] -> frame_addr x /\ ~ upcoming n m x) as Hw.
    { intros x [->|Hx]%elem_of_cons; [by eapply space_root|]. destruct (space_window lev v n m U HS x Hx) as (? & _ & ?). done. }
    intros x j y [Fx Ux]%Hw Hj. by apply (grow_walk_same lev v v2 n m U t i HS Hm Ht Hi Hp Hold).
  - intros f a (Ff & Lf & Uf & _) Ha. apply Hold.
    + intros Hn. apply Uf. assert (f = n) as ->; [|unfold upcoming; lia]. destruct Ff as [F0 Fm], Sn as [N0 Nm].
      Z.to_euclidean_division_equations. lia.
    + intros ->. eapply (frame_slot_outside t f i); [done|done| |done|exact Ha]. intros ->. lia.
  - unfold walk. cbv zeta. rewrite Hnew. destruct Hpn as [-> ->]. done.
  - unfold grown_lev. by rewrite Z.eqb_refl.
Qed.
End ensure.

Lemma data_frame_kept k lev v n m lev' v' n' m' f :
  kept_space k lev v n m lev' v' n' m' -> data_frame lev n m f -> data_frame lev' n' m' f.
Proof.
  intros [_ [Hm ->] Hl _ _ _] (Hf & Lf & Uf & Wf). split; [done|]. split; [by rewrite Hl|]. split; [|done].
  intros H. apply Uf. unfold upcoming in *. lia.
Qed.

Lemma kept_trans k1 k2 l1 v1 n1 m1 l2 v2 n2 m2 l3 v3 n3 m3 U :
  space l1 v1 n1 m1 U -> kept_space k1 l1 v1 n1 m1 l2 v2 n2 m2 -> kept_space k2 l2 v2 n2 m2 l3 v3 n3 m3 ->
  kept_space (k1 + k2) l1 v1 n1 m1 l3 v3 n3 m3.
Proof.
  intros HS K1 K2. pose proof K1 as [[C1 F1] [M1 N1] L1 W1 X1 D1]. destruct K2 as [[C2 F2] [M2 N2] L2 W2 X2 D2].
  assert (forall x, ~ upcoming n1 m1 x -> ~ upcoming n2 m2 x) as Hup by (unfold upcoming; lia).
  split.
  - split; congruence.
  - lia.
  - intros x Hx. rewrite L2, L1; auto.
  - intros t i x Ht Ft Ut Hi W. apply W2; [by rewrite L1|done|auto|done|]. by apply W1.
  - intros t i x Ht Hi W. apply X2; [by rewrite C1|done|]. by apply X1.
  - intros f a Hf Ha. rewrite (D2 f), (D1 f); [done..|by eapply data_frame_kept|done].
Qed.

(** ** The entry of the page *)

Lemma user_page_eq p q :
  user_page p -> user_page q -> PAGE_PML4_OFFSET p = PAGE_PML4_OFFSET q -> PAGE_POINTER_OFFSET p = PAGE_POINTER_OFFSET q ->
  PAGE_DIRECTORY_OFFSET p = PAGE_DIRECTORY_OFFSET q -> PAGE_TABLE_OFFSET p = PAGE_TABLE_OFFSET q -> p = q.
Proof.
  intros [Hp Mp] [Hq Mq]. autorewrite with offsets.
  assert (forall x, 0 <= x < 2 ^ 47 -> x mod 4096 = 0 -> x = 2 ^ 39 * ((x / 2 ^ 39) mod 512) + 2 ^ 30 * ((x / 2 ^ 30) mod 512) +
    2 ^ 21 * ((x / 2 ^ 21) mod 512) + 2 ^ 12 * ((x / 2 ^ 12) mod 512)) as H.
  { intros x Hx Mx. Z.to_euclidean_division_equations. lia. }
  intros E4 E3 E2 E1. rewrite (H p Hp Mp), (H q Hq Mq). congruence.
Qed.

Section leaf.
Context (lev : Z -> Z) (v : vmm) (n m : Z) (U : gmap Z Z) (p x3 x2 x1 f : Z) (u : bool) (HS : space lev v n m U).
Context (Hp : user_page p) (HP : user_path lev v p x3 x2 x1) (Hf : data_frame lev n m f) (Hfresh : forall q, U !! q <> Some f).

Definition leaf_address : Z := x1 + 8 * PAGE_TABLE_OFFSET p.
Definition leaf_state : vmm := with_mem v (mem_set (mem v) leaf_address (set_page_entry (mem v leaf_address) f u)).

Lemma leaf_table : frame_addr x1 /\ ~ upcoming n m x1 /\ lev x1 = 1 /\ 0 <= PAGE_TABLE_OFFSET p < 512.
Proof.
  pose proof (up_levels _ _ _ _ _ _ HP) as (_ & _ & L1). pose proof (offsets_range p) as (_ & _ & _ & Hi).
  destruct (space_table lev v n m U HS x1 ltac:(lia)) as [F1 U1].
  exact (conj F1 (conj U1 (conj L1 Hi))).
Qed.

Lemma leaf_mem a : mem leaf_state a = if a =? leaf_address then set_page_entry (mem v leaf_address) f u else mem v a.
Proof. done. Qed.

Lemma leaf_slot_other t i : frame_addr t -> 0 <= i < 512 -> ~ (t = x1 /\ i = PAGE_TABLE_OFFSET p) -> mem leaf_state (t + 8 * i) = mem v (t + 8 * i).
Proof.
  intros Ft Hi Hne. destruct leaf_table as (F1 & _ & _ & Ho). rewrite leaf_mem.
  destruct (Z.eqb_spec (t + 8 * i) leaf_address) as [E|]; [|done]. destruct Hne. by apply frame_slot_inj in E.
Qed.

Lemma leaf_walk_other t i : frame_addr t -> 0 <= i < 512 -> lev t <> 1 -> walk (mem leaf_state) t i = walk (mem v) t i.
Proof.
  intros Ft Hi Hl. destruct leaf_table as (_ & _ & L1 & _). unfold walk. cbv zeta. rewrite leaf_slot_other; [done..|].
  intros [-> _]. lia.
Qed.

Lemma leaf_user_branch t i : user_branch lev leaf_state t i -> user_branch lev v t i /\ mem leaf_state (t + 8 * i) = mem v (t + 8 * i).
Proof.
  intros (Ht & Hi & Hc & Hpr). destruct leaf_table as (_ & _ & L1 & _). destruct (space_table lev v n m U HS t ltac:(lia)) as [Ft _].
  assert (mem leaf_state (t + 8 * i) = mem v (t + 8 * i)) as E by (apply leaf_slot_other; [done|done|intros [-> _]; lia]).
  rewrite E in Hpr. split; [exact (conj Ht (conj Hi (conj Hc Hpr)))|done].
Qed.

Lemma leaf_space : space lev leaf_state n m (<[p := f]> U).
Proof.
  pose proof HS as [Sw Sb Sn Sr Srec W3 W2 [W1 Sr512] Swin Sroot Spos Stab Scom Sch Sinj Spg Sfr].
  destruct leaf_table as (F1 & U1 & L1 & Hi). destruct (space_root lev v n m U HS) as [Fc Uc].
  assert (forall t i x, t ∈ [t3; t2; t1] -> 0 <= i < 512 -> walk (mem v) t i = Some x -> walk (mem leaf_state) t i = Some x) as Hwin.
  { intros t i x Ht Hit W. destruct (space_window lev v n m U HS t Ht) as (Ft & Lt & _). rewrite leaf_walk_other; (done || lia). }
  pose proof (offsets_range p) as (I4 & I3 & I2 & _). pose proof HP as [X3 X2 X1 (M3 & M2 & M1)].
  destruct (Stab x3 ltac:(lia)) as [G3 _]. destruct (Stab x2 ltac:(lia)) as [G2 _].
  split; change (Paging.cr3 leaf_state) with (Paging.cr3 v); try done.
  - intros t i Ht Hit. rewrite leaf_mem. destruct (_ =? _); [|by apply Sw].
    apply set_page_entry_ok; [apply Sw; [left; lia|done]|apply Hf].
  - intros k Hk. destruct (Sr k Hk) as [E W]. split; [done|]. apply Hwin; [in_list|apply Z.mod_pos_bound; lia|done].
  - rewrite leaf_walk_other; (done || lia).
  - rewrite leaf_walk_other; (done || lia).
  - apply Hwin; [in_list|lia|done].
  - split; [|done]. apply Hwin; [in_list|lia|done].
  - intros t i [Hb ->]%leaf_user_branch. by apply Sch.
  - intros t i t' i' [Hb ->]%leaf_user_branch [Hb' ->]%leaf_user_branch. by apply Sinj.
  - intros q g [[<- <-]|[Hne Hq]]%lookup_insert_Some.
    + split; [done|]. split; [|done]. unfold translate.
      rewrite leaf_walk_other, X3 by (done || lia). cbn [mbind option_bind].
      rewrite leaf_walk_other, X2 by (done || lia). cbn [mbind option_bind].
      rewrite leaf_walk_other, X1 by (done || lia). cbn [mbind option_bind].
      assert (walk (mem leaf_state) x1 (PAGE_TABLE_OFFSET p) = Some f) as ->.
      { unfold walk. cbv zeta. fold leaf_address. rewrite leaf_mem, Z.eqb_refl. destruct (Sw x1 (PAGE_TABLE_OFFSET p)) as [? ?]; [left; lia|done|]. fold leaf_address in *. destruct Hf as [Hff _].
        by rewrite set_page_entry_present, set_page_entry_phys by done. }
      cbn [mbind option_bind]. rewrite page_low_bits by apply Hp. f_equal. lia.
    + destruct (Spg q g Hq) as (Hq1 & Htr & Hdg). split; [done|]. split; [|done].
      destruct (space_translate lev v n m U HS q g Hq1 Htr) as (y3 & y2 & y1 & HPq & Y0). pose proof (offsets_range q) as (J4 & J3 & J2 & J1).
      pose proof HPq as [Y3 Y2 Y1 (N3 & N2 & N1)]. unfold translate.
      destruct (Stab y3 ltac:(lia)) as [K3 _]. destruct (Stab y2 ltac:(lia)) as [K2 _]. destruct (Stab y1 ltac:(lia)) as [K1 _].
      rewrite leaf_walk_other, Y3 by (done || lia). cbn [mbind option_bind].
      rewrite leaf_walk_other, Y2 by (done || lia). cbn [mbind option_bind].
      rewrite leaf_walk_other, Y1 by (done || lia). cbn [mbind option_bind].
      assert (walk (mem leaf_state) y1 (PAGE_TABLE_OFFSET q) = Some g) as ->.
      { unfold walk in *. cbv zeta in *. rewrite leaf_slot_other; [done..|]. intros [-> E1]. apply Hne.
        destruct (space_path_inj lev v n m U HS q p y3 y2 x1 x3 x2) as (E4 & E3 & E2); [done..|].
        symmetry. by apply user_page_eq. }
      cbn [mbind option_bind]. rewrite page_low_bits by apply Hq1. f_equal. lia.
  - intros q q' g [[<- <-]|[Hne Hq]]%lookup_insert_Some [[<- E]|[Hne' Hq']]%lookup_insert_Some.
    + done.
    + by destruct (Hfresh q').
    + subst g. by destruct (Hfresh q).
    + by eapply Sfr.
Qed.

Lemma leaf_kept : kept_space 0 lev v n m lev leaf_state n m.
Proof.
  destruct leaf_table as (F1 & U1 & L1 & Hi). split.
  - done.
  - lia.
  - done.
  - intros t i x Ht Ft _ Hit W. rewrite leaf_walk_other; (done || lia).
  - intros t i x Ht Hit W. destruct (space_root lev v n m U HS) as [Fc _]. pose proof (sp_root _ _ _ _ _ HS) as L4.
    apply elem_of_cons in Ht as [->|Ht]; [rewrite leaf_walk_other; (done || lia)|].
    destruct (space_window lev v n m U HS t Ht) as (Ft & Lt & _). rewrite leaf_walk_other; (done || lia).
  - intros g a (Gf & Gl & _) Ha. rewrite leaf_mem. destruct (Z.eqb_spec a leaf_address) as [->|]; [|done]. exfalso.
    eapply (frame_slot_outside x1 g (PAGE_TABLE_OFFSET p)); [done|done| |done|exact Ha]. intros ->. lia.
Qed.

Lemma leaf_run : set_phys_virt_recurse v f p u = Ret leaf_state.
Proof.
  pose proof (offsets_range p) as (I4 & I3 & I2 & I1). destruct HP as [X3 X2 X1 _].
  assert (translate (mem v) (Paging.cr3 v) (get_pte_recurse p) = Some leaf_address) as Ht.
  { rewrite get_pte_compose. eapply translate_compose; try done; try lia. apply (sp_recursive _ _ _ _ _ HS). }
  unfold set_phys_virt_recurse. rewrite (vload_eq v _ _ Ht), bind_Ret. unfold vstore. by rewrite Ht.
Qed.
End leaf.

(** ** Mapping a page *)

Lemma walk_beside lev v n m U m' t i x :
  space lev v n m U -> 1 <= m -> frame_addr t -> ~ upcoming n m t -> 0 <= i < 512 ->
  (forall a, ~ (n <= a < n + 4096) -> m' a = mem v a) -> walk (mem v) t i = Some x -> walk m' t i = Some x.
Proof.
  intros HS Hm Ft Ut Hi Hm' W. unfold walk in *. cbv zeta in *. rewrite Hm'; [done|]. eapply slot_beside; (done || lia).
Qed.

(** One level: the table is there or made, and is the next one down. *)
Lemma ensure_level lev v n m U (set : Z -> Z -> bool -> Z) k t i e u :
  space lev v n m U -> (forall x y z, set x y z = set_page_entry x y z) -> 1 <= m -> k = 512 \/ k = 1 /\ lev t = 2 ->
  2 <= lev t -> 0 <= i < 512 -> (t = Paging.cr3 v -> i < 256) ->
  (exists q1 q2 q3 s1 s2, e = compose 510 q1 q2 q3 (8 * i) /\ 0 <= q1 < 512 /\ 0 <= q2 < 512 /\ 0 <= q3 < 512 /\
    0 < lev s1 /\ 0 < lev s2 /\
    walk (mem v) (Paging.cr3 v) q1 = Some s1 /\ walk (mem v) s1 q2 = Some s2 /\ walk (mem v) s2 q3 = Some t) ->
  exists v' lev' n' m' t', ensure_table_after set (8 * k) v e u = Ret v' /\ space lev' v' n' m' U /\
    kept_space 1 lev v n m lev' v' n' m' /\ walk (mem v') t i = Some t' /\ lev' t' = lev t - 1.
Proof.
  intros HS Hset Hm Hk Ht Hi Hc (q1 & q2 & q3 & s1 & s2 & -> & I1 & I2 & I3 & P1 & P2 & W1 & W2 & W3).
  apply (ensure_space lev v n m U HS); try done. intros m' Hm'.
  destruct (space_root lev v n m U HS) as [Fc Uc]. destruct (space_table lev v n m U HS s1 P1) as [F1 U1].
  destruct (space_table lev v n m U HS s2 P2) as [F2 U2].
  apply (translate_compose _ _ _ _ _ _ _ (Paging.cr3 v) s1 s2); try lia;
    (eapply walk_beside; [exact HS|exact Hm| | | |exact Hm'|]; try eassumption; lia || apply (sp_recursive _ _ _ _ _ HS)).
Qed.

(** The three levels. *)
Lemma make_path lev v n m U p u :
  space lev v n m U -> 3 <= m -> user_page p ->
  exists v' lev' n' m' x3 x2 x1, tables_after p u v = Ret v' /\
    space lev' v' n' m' U /\ kept_space 3 lev v n m lev' v' n' m' /\ user_path lev' v' p x3 x2 x1.
Proof.
  intros HS Hm Hp. pose proof (offsets_range p) as (I4 & I3 & I2 & I1). pose proof (user_offset p Hp) as I4'.
  pose proof (sp_root _ _ _ _ _ HS) as L4. unfold tables_after.
  destruct (ensure_level lev v n m U set_pml4_entry 512 (Paging.cr3 v) (PAGE_PML4_OFFSET p) (get_pml4e_offset_recurse p) u HS)
    as (v1 & l1 & n1 & m1 & x3 & E1 & HS1 & K1 & W1 & L3); [done|lia|by left|lia|done|done| |].
  { exists 510, 510, 510, (Paging.cr3 v), (Paging.cr3 v). rewrite get_pml4e_compose. pose proof (sp_recursive _ _ _ _ _ HS).
    split_and!; (done || lia). }
  change (8 * 512) with 4096 in E1. rewrite E1, bind_Ret. clear E1. pose proof (ks_regs _ _ _ _ _ _ _ _ _ K1) as [C1 _].
  pose proof (ks_pages _ _ _ _ _ _ _ _ _ K1) as [M1 _]. pose proof (sp_root _ _ _ _ _ HS1) as L4'.
  pose proof (sp_recursive _ _ _ _ _ HS1) as R1. rewrite <- C1 in W1.
  destruct (ensure_level l1 v1 n1 m1 U set_pdpe_entry 512 x3 (PAGE_POINTER_OFFSET p) (get_pdpe_offset_recurse p) u HS1)
    as (v2 & l2 & n2 & m2 & x2 & E2 & HS2 & K2 & W2 & L2); [done|lia|by left|lia|done|eapply not_root_lev; [done|lia]| |].
  { exists 510, 510, (PAGE_PML4_OFFSET p), (Paging.cr3 v1), (Paging.cr3 v1). rewrite get_pdpe_compose. split_and!; (done || lia). }
  change (8 * 512) with 4096 in E2. rewrite E2, bind_Ret. clear E2. pose proof (ks_regs _ _ _ _ _ _ _ _ _ K2) as [C2 _].
  pose proof (ks_pages _ _ _ _ _ _ _ _ _ K2) as [M2 _]. pose proof (sp_root _ _ _ _ _ HS2) as L4''.
  pose proof (sp_recursive _ _ _ _ _ HS2) as R2.
  assert (lev (Paging.cr3 v) - 1 = 3) as E3 by lia. rewrite E3 in L3. rewrite L3 in L2.
  destruct (space_root l1 v1 n1 m1 U HS1) as [Fc1 Uc1]. destruct (space_table l1 v1 n1 m1 U HS1 x3 ltac:(lia)) as [Fx3 Ux3].
  assert (walk (mem v2) (Paging.cr3 v2) (PAGE_PML4_OFFSET p) = Some x3) as W1'.
  { rewrite C2. eapply (ks_walk _ _ _ _ _ _ _ _ _ K2); (done || lia). }
  assert (l2 x3 = 3) as L3' by (rewrite (ks_levels _ _ _ _ _ _ _ _ _ K2); done).
  destruct (ensure_level l2 v2 n2 m2 U set_pde_entry 1 x2 (PAGE_DIRECTORY_OFFSET p) (get_pde_offset_recurse p) u HS2)
    as (v3 & l3 & n3 & m3 & x1 & E4 & HS3 & K3 & W3 & L1); [done|lia|right; lia|lia|done|eapply not_root_lev; [done|lia]| |].
  { exists 510, (PAGE_PML4_OFFSET p), (PAGE_POINTER_OFFSET p), (Paging.cr3 v2), x3. rewrite get_pde_compose. split_and!; (done || lia). }
  change (8 * 1) with 8 in E4. pose proof (ks_regs _ _ _ _ _ _ _ _ _ K3) as [C3 _].
  destruct (space_root l2 v2 n2 m2 U HS2) as [Fc2 Uc2]. destruct (space_table l2 v2 n2 m2 U HS2 x3 ltac:(lia)) as [Gx3 Vx3].
  assert (walk (mem v3) (Paging.cr3 v3) (PAGE_PML4_OFFSET p) = Some x3) as W1''.
  { rewrite C3. eapply (ks_walk _ _ _ _ _ _ _ _ _ K3); (done || lia). }
  assert (walk (mem v3) x3 (PAGE_POINTER_OFFSET p) = Some x2) as W2'.
  { eapply (ks_walk _ _ _ _ _ _ _ _ _ K3); (done || lia). }
  exists v3, l3, n3, m3, x3, x2, x1. split; [exact E4|]. split; [exact HS3|]. split.
  - exact (kept_trans _ _ _ _ _ _ _ _ _ _ _ _ _ _ _ HS K1 (kept_trans _ _ _ _ _ _ _ _ _ _ _ _ _ _ _ HS1 K2 K3)).
  - exact (space_path l3 v3 n3 m3 U HS3 p x3 x2 x1 Hp W1'' W2' W3).
Qed.

Lemma map_space lev v n m U p f u :
  space lev v n m U -> 3 <= m -> user_page p -> data_frame lev n m f -> (forall q, U !! q <> Some f) ->
  exists v' lev' n' m', vmmgr_map_page_after_paging v f p u = Ret v' /\ space lev' v' n' m' (<[p := f]> U) /\
    kept_space 3 lev v n m lev' v' n' m'.
Proof.
  intros HS Hm Hp Hf Hfresh. destruct (make_path lev v n m U p u HS Hm Hp) as (v1 & l1 & n1 & m1 & x3 & x2 & x1 & E & HS1 & K & HP).
  pose proof (data_frame_kept _ _ _ _ _ _ _ _ _ f K Hf) as Hf1.
  exists (leaf_state v1 p x1 f u), l1, n1, m1. split.
  - rewrite tables_after_split, E, bind_Ret. exact (leaf_run l1 v1 n1 m1 U p x3 x2 x1 f u HS1 HP).
  - split; [by apply (leaf_space l1 v1 n1 m1 U p x3 x2 x1 f u HS1)|].
    exact (kept_trans _ _ _ _ _ _ _ _ _ _ _ _ _ _ _ HS K (leaf_kept l1 v1 n1 m1 U p x3 x2 x1 f u HS1 HP)).
Qed.

(** ** Bytes *)

Lemma space_page_path lev v n m U p f :
  space lev v n m U -> U !! p = Some f -> exists x3 x2 x1, page_path v p x3 x2 x1 f.
Proof.
  intros HS HU. destruct (sp_pages _ _ _ _ _ HS p f HU) as (Hp & Ht & Ff & Lf & _).
  destruct (space_translate lev v n m U HS p f Hp Ht) as (x3 & x2 & x1 & [W3 W2 W1 (L3 & L2 & L1)] & W0).
  pose proof (sp_root _ _ _ _ _ HS) as L4. exists x3, x2, x1.
  split; [exact Hp|exact W3|exact W2|exact W1|exact W0| |exact Ff].
  assert (forall t, 0 < lev t -> frame_addr t /\ t <> f) as Htab.
  { intros t H. split; [by apply (space_table lev v n m U HS)|]. intros ->. lia. }
  rewrite !Forall_cons. split_and!; try (apply Htab; lia). constructor.
Qed.

Lemma byte_of_same m m' f o :
  frame_addr f -> 0 <= o < 4096 -> (forall a, f <= a < f + 4096 -> m' a = m a) -> byte_of m' (f + o) = byte_of m (f + o).
Proof.
  intros [Hf Hm] Ho H. unfold byte_of. rewrite H; [done|]. Z.to_euclidean_division_equations. lia.
Qed.

Lemma space_byte lev v n m U p f o :
  space lev v n m U -> U !! p = Some f -> 0 <= o < 4096 -> user_byte v (p + o) = Some (byte_of (mem v) (f + o)).
Proof.
  intros HS HU Ho. destruct (space_page_path lev v n m U p f HS HU) as (x3 & x2 & x1 & HP). unfold user_byte.
  by rewrite (page_path_translate v p x3 x2 x1 f (mem v) o HP).
Qed.

(** Bytes of the pages that were there. *)
Lemma kept_byte k lev v n m U lev' v' n' m' U' p f o :
  space lev v n m U -> space lev' v' n' m' U' -> kept_space k lev v n m lev' v' n' m' ->
  U !! p = Some f -> U' !! p = Some f -> 0 <= o < 4096 -> user_byte v' (p + o) = user_byte v (p + o).
Proof.
  intros HS HS' K HU HU' Ho. rewrite (space_byte _ _ _ _ _ _ _ _ HS HU Ho), (space_byte _ _ _ _ _ _ _ _ HS' HU' Ho).
  destruct (sp_pages _ _ _ _ _ HS p f HU) as (_ & _ & Hd). f_equal. apply byte_of_same; [apply Hd|done|].
  intros a Ha. by apply (ks_data _ _ _ _ _ _ _ _ _ K f).
Qed.

(** Writing to a page does not touch the tables. *)
Lemma space_write lev v n m U p f mw :
  space lev v n m U -> U !! p = Some f -> same_outside f (mem v) mw -> space lev (with_mem v mw) n m U.
Proof.
  intros HS HU Hmw. destruct (sp_pages _ _ _ _ _ HS p f HU) as (_ & _ & Ff & Lf & Uf & Wf).
  assert (forall t i, frame_addr t -> t <> f -> 0 <= i < 512 -> mw (t + 8 * i) = mem v (t + 8 * i)) as Hs.
  { intros t i Ft Hne Hi. apply Hmw. by apply frame_slot_outside. }
  assert (forall t i x, frame_addr t -> t <> f -> 0 <= i < 512 -> walk (mem v) t i = Some x -> walk mw t i = Some x) as Hw.
  { intros t i x Ft Hne Hi W. unfold walk in *. cbv zeta in *. by rewrite Hs. }
  assert (forall t, 0 < lev t -> frame_addr t /\ t <> f) as Htab.
  { intros t Ht. split; [by apply (space_table lev v n m U HS)|]. intros ->. lia. }
  assert (forall t, t ∈ [t3; t2; t1] -> frame_addr t /\ t <> f) as Hwin.
  { intros t Ht. split; [by apply (space_window lev v n m U HS)|]. by intros ->. }
  pose proof HS as [Sw Sb Sn Sr Srec W3 W2 [W1 Sr512] Swin Sroot Spos Stab Scom Sch Sinj Spg Sfr].
  destruct (Htab (Paging.cr3 v) ltac:(lia)) as [Fc Nc].
  destruct (Hwin t3) as [F3 N3]; [in_list|]. destruct (Hwin t2) as [F2 N2]; [in_list|]. destruct (Hwin t1) as [F1 N1]; [in_list|].
  split; change (Paging.cr3 (with_mem v mw)) with (Paging.cr3 v); change (mem (with_mem v mw)) with mw; try done.
  - intros t i Ht Hi. rewrite Hs; [by apply Sw| | |done].
    + destruct Ht as [Ht|[Ht _]]; [by apply Htab|done].
    + destruct Ht as [Ht|[_ Ht]]; [by apply Htab|]. by intros ->.
  - intros k Hk. destruct (Sr k Hk) as [E W]. split; [done|]. apply Hw; [done|done|apply Z.mod_pos_bound; lia|done].
  - by apply Hw.
  - by apply Hw.
  - by apply Hw.
  - split; [by apply Hw|done].
  - intros t i (Ht & Hi & Hc & Hp). destruct (Htab t ltac:(lia)) as [Ft Nt]. change (mem (with_mem v mw)) with mw in Hp.
    rewrite Hs in Hp |- * by done. apply Sch. exact (conj Ht (conj Hi (conj Hc Hp))).
  - intros t i t' i' (Ht & Hi & Hc & Hp) (Ht' & Hi' & Hc' & Hp'). change (mem (with_mem v mw)) with mw in Hp, Hp'.
    destruct (Htab t ltac:(lia)) as [Ft Nt]. destruct (Htab t' ltac:(lia)) as [Ft' Nt'].
    rewrite Hs in Hp |- * by done. rewrite Hs in Hp' |- * by done.
    apply Sinj; [exact (conj Ht (conj Hi (conj Hc Hp)))|exact (conj Ht' (conj Hi' (conj Hc' Hp')))].
  - intros q g Hq. destruct (Spg q g Hq) as (Hq1 & Htr & Hd). split; [done|]. split; [|done].
    destruct (space_translate lev v n m U HS q g Hq1 Htr) as (y3 & y2 & y1 & [Y3 Y2 Y1 (M3 & M2 & M1)] & Y0).
    pose proof (offsets_range q) as (? & ? & ? & ?). destruct (Htab y3 ltac:(lia)) as [G3 K3].
    destruct (Htab y2 ltac:(lia)) as [G2 K2]. destruct (Htab y1 ltac:(lia)) as [G1 K1]. unfold translate.
    rewrite (Hw _ _ _ Fc Nc) by done. cbn [mbind option_bind]. rewrite (Hw _ _ _ G3 K3) by done. cbn [mbind option_bind].
    rewrite (Hw _ _ _ G2 K2) by done. cbn [mbind option_bind]. rewrite (Hw _ _ _ G1 K1) by done. cbn [mbind option_bind].
    rewrite page_low_bits by apply Hq1. f_equal. lia.
Qed.
End space.

(** ** Claims *)

(** C12: with paging on, mapping a page inserts it into the map that the user half
    of the tables represents, whichever of its tables are missing: afterwards
    the tables represent the map with the page, up to three of the next pages
    of the kernel have become tables, and every other page of the map has the
    bytes it had. *)
Theorem map_page_inserts t3 t2 t1 r lev v n m U p f u :
  space t3 t2 t1 r lev v n m U -> 3 <= m -> user_page p -> data_frame t3 t2 t1 lev n m f -> (forall q, U !! q <> Some f) ->
  exists v' lev' n' m', vmmgr_map_page_after_paging v f p u = Ret v' /\ space t3 t2 t1 r lev' v' n' m' (<[p := f]> U) /\
    Paging.cr3 v' = Paging.cr3 v /\ frames v' = frames v /\ n' = n + 4096 * (m - m') /\ m - 3 <= m' <= m /\
    forall q g o, U !! q = Some g -> q <> p -> 0 <= o < 4096 -> user_byte v' (q + o) = user_byte v (q + o).
Proof.
  intros HS Hm Hp Hf Hfresh. destruct (map_space t3 t2 t1 r lev v n m U p f u HS Hm Hp Hf Hfresh) as (v' & lev' & n' & m' & E & HS' & K).
  exists v', lev', n', m'. split; [done|]. split; [done|]. destruct (ks_regs _ _ _ _ _ _ _ _ _ _ _ _ K).
  destruct (ks_pages _ _ _ _ _ _ _ _ _ _ _ _ K). split_and!; try done; try lia.
  intros q g o HU Hq Ho. eapply kept_byte; [exact HS|exact HS'|exact K|exact HU|by rewrite lookup_insert_ne|done].
Qed.

(** The levels of [bare_machine]: its top-level table is at 0x1000. *)
Definition bare_lev (x : Z) : Z := if x =? 0x1000 then 4 else 0.

Lemma bare_branch t i : ~ user_branch bare_lev bare_machine t i.
Proof.
  intros (Ht & Hi & Hc & Hp). unfold bare_lev in Ht. destruct (Z.eqb_spec t 0x1000) as [->|]; [|lia].
  assert (i ∈ seqZ 0 256) as Hin by (apply elem_of_seqZ; specialize (Hc eq_refl); lia).
  assert (Forall (fun i => present (mem bare_machine (0x1000 + 8 * i)) = false) (seqZ 0 256)) as HF by by_computation.
  rewrite (proj1 (Forall_forall _ _) HF i Hin) in Hp. done.
Qed.

Lemma bare_space : space 0x2000 0x3000 0x4000 0 bare_lev bare_machine 0x15000 12 ∅.
Proof.
  split; try (intros * H; by destruct (bare_branch _ _ H)); try (intros * H; by rewrite lookup_empty in H).
  - intros t i _ _. apply bare_words.
  - reflexivity.
  - by_computation.
  - intros k Hk. assert (k ∈ seqZ 0 12) as Hin by (apply elem_of_seqZ; lia).
    assert (Forall (fun k => (0x15000 + 4096 * k) / 2 ^ 21 = 0 /\
      walk (mem bare_machine) 0x4000 ((0x15000 + 4096 * k) / 2 ^ 12 mod 512) = Some (0x15000 + 4096 * k)) (seqZ 0 12)) as HF by by_computation.
    exact (proj1 (Forall_forall _ _) HF k Hin).
  - reflexivity.
  - reflexivity.
  - reflexivity.
  - split; [reflexivity|lia].
  - unfold upcoming. repeat constructor; (by_computation || (unfold bare_lev; cbn; lia)).
  - reflexivity.
  - intros x. unfold bare_lev. destruct (x =? 0x1000); lia.
  - intros t. unfold bare_lev. destruct (Z.eqb_spec t 0x1000) as [->|]; [|lia]. intros _. split; [by_computation|unfold upcoming; lia].
  - intros f. unfold upcoming, bare_lev. destruct (Z.eqb_spec f 0x1000) as [->|]; lia.
Qed.

(** The first page of a program, for which three tables are made. *)
Example map_page_inserts_witness :
  exists v' lev' n' m', vmmgr_map_page_after_paging bare_machine 0x40000 0x400000 true = Ret v' /\
    space 0x2000 0x3000 0x4000 0 lev' v' n' m' {[ 0x400000 := 0x40000 ]} /\ 9 <= m'.
Proof.
  destruct (map_page_inserts 0x2000 0x3000 0x4000 0 bare_lev bare_machine 0x15000 12 ∅ 0x400000 0x40000 true bare_space)
    as (v' & lev' & n' & m' & E & HS & _ & _ & _ & Hm & _); [lia|by_computation| |intros q; by rewrite lookup_empty|].
  - split_and!; [by_computation|reflexivity|unfold upcoming; lia|by_computation].
  - exists v', lev', n', m'. split; [exact E|]. split; [exact HS|lia].
Defined.
