(* ===== verification/Image.v ===== *)
(** * The image of a program (mmap in sys/mmap.c, do_exec in sys/exec.c)

    The segments, the stack and the heap of a program, mapped one after another
    into the address space of a process and filled from the archive. *)

From S2P Require Import Prelude CString Bitmap PhysMem PageEntry Paging MapPage KHeap Queues Kthread Process.
From S2P Require Import TarFs PageFault CopyTables UserBytes AddressSpace.

(** ** Chunks and frames *)

(** The next chunks of 40 bytes come from the heap's free chunks, not from new
    pages, so that they do not depend on the pages. *)
Fixpoint chunks (h : MyAlloc.kheap) (cs : list Z) : Prop :=
  match cs with
  | [] => True
  | c :: cs => exists h1, (forall v, MyAlloc.sub_malloc (MyAlloc.with_vm h v) 40 false = Ret (MyAlloc.with_vm h1 v, c)) /\ chunks h1 cs
  end.

Lemma chunks_vm cs h v : chunks h cs -> chunks (MyAlloc.with_vm h v) cs.
Proof. destruct cs as [|c cs]; [done|]. intros (h1 & E & H). by exists h1. Qed.

Lemma alloc_taken b b' p x : alloc_result b b' p -> 0 <= x -> taken b x -> taken b' x.
Proof.
  intros Hr Hx Ht. inversion Hr as [| |q b2 _ _ _ _ _ _ Hm]; subst; [done..|]. unfold taken in *.
  rewrite Hm by (apply Z.div_pos; lia). by rewrite Ht.
Qed.

Lemma alloc_takes b b' p : alloc_result b b' p -> p <> 0 -> 0 <= p -> taken b' p.
Proof.
  intros Hr Hp Hp0. inversion Hr as [| |q b2 _ _ _ _ _ _ Hm]; subst; [done..|]. unfold taken, BLOCK_SIZE in *.
  rewrite Z.div_mul by lia. rewrite Hm by lia. by rewrite same_cell_refl, orb_true_r.
Qed.

(** Linking an area changes the fields of the thread for it only. *)
Lemma insert_vma_thread s vma p s' :
  insert_vma s vma p = Ret s' ->
  exists t a b, threads (kern s) !! p = Some t /\ kern s' = with_threads (kern s) (<[p := set_areas a b t]> (threads (kern s))).
Proof.
  unfold insert_vma. intros H. apply bind_Ret_inv in H as (t & Et & H). apply bind_Ret_inv in H as (s1 & E1 & H).
  apply bind_Ret_inv in H as (s2 & E2 & H). apply bind_Ret_inv in H as (k & Ek & H). injection H as <-.
  assert (forall s0 q x s3, set_next_area s0 q x = Ret s3 -> kern s3 = kern s0) as Hk.
  { intros s0 q x s3 Hs. unfold set_next_area in Hs. apply bind_Ret_inv in Hs as (a & _ & Hs). by injection Hs as <-. }
  assert (kern s2 = kern s) as Ks.
  { destruct (mmap t =? 0); [injection E2 as <-|apply Hk in E2; rewrite E2]; by eapply Hk. }
  rewrite Ks in Ek. unfold update_thread in Ek. apply bind_Ret_inv in Ek as (h & Eh & Ek). injection Ek as <-.
  unfold update, deref in Eh, Et. destruct (p =? 0); [done|]. destruct (threads (kern s) !! p) as [t'|] eqn:Ep; [|done].
  injection Et as <-. injection Eh as <-. eexists _, _, _. split; [reflexivity|]. reflexivity.
Qed.

(** Of the kernel's state, only the heap and the areas of thread [p] change. *)
Definition areas_only (p : Z) (k k' : kernel) : Prop :=
  forall t, threads k !! p = Some t ->
    exists a b h, k' = with_kheap (with_threads k (<[p := set_areas a b t]> (threads k))) h.

Lemma areas_only_heap p k h : areas_only p k (with_kheap k h).
Proof.
  intros t Ht. exists (mmap t), (mmap_cache t), h.
  assert (set_areas (mmap t) (mmap_cache t) t = t) as -> by (by destruct t). rewrite insert_id by done. by destruct k.
Qed.

#[export] Instance areas_only_preorder p : PreOrder (areas_only p).
Proof.
  split.
  - intros k. replace k with (with_kheap k (kheap k)) at 2 by (by destruct k). apply areas_only_heap.
  - intros k1 k2 k3 H1 H2 t Ht. destruct (H1 t Ht) as (a & b & h & ->).
    destruct (H2 (set_areas a b t)) as (a' & b' & h' & ->); [apply lookup_insert_eq|].
    exists a', b', h'. cbn [threads with_kheap with_threads]. by rewrite insert_insert_eq.
Qed.

(** ** A process under construction *)

Section image.
Context (t3 t2 t1 r : Z) (cs : Z) (p : Z).
#[local] Abbreviation space := (space t3 t2 t1 r).

(** Frames the bitmap must not give out. *)
Definition in_use (lev : Z -> Z) (n m : Z) (U : gmap Z Z) (x : Z) : Prop :=
  0 < lev x \/ frame_addr x /\ upcoming n m x \/ x ∈ [t3; t2; t1] \/ exists q, U !! q = Some x.

(** Thread [p] has the areas [l] and the pages [U]; [k] frames and the chunks
    [chs] are to be had. *)
Record process (s : system) (l : list Z) (lev : Z -> Z) (n m : Z) (U : gmap Z Z) (k : nat) (chs : list Z) : Prop := {
  pr_areas : areas_ok s p l;
  pr_space : space lev (vm_of (kern s)) n m U;
  pr_frames : wf (frames (vm_of (kern s))) /\ room k (frames (vm_of (kern s)));
  pr_taken : forall x, in_use lev n m U x -> taken (frames (vm_of (kern s))) x;
  pr_chunks : chunks (kheap (kern s)) chs;
  pr_fresh : NoDup (l ++ chs) /\ Forall (fun c => c <> 0) chs
}.

(** What stays of the state: the pages that were there with their bytes, and all
    of the kernel's but the heap and the thread's areas. *)
Record stays (s : system) (U : gmap Z Z) (s' : system) (U' : gmap Z Z) : Prop := {
  st_pages : U ⊆ U';
  st_bytes : forall q g o, U !! q = Some g -> 0 <= o < 4096 ->
    user_byte (vm_of (kern s')) (q + o) = user_byte (vm_of (kern s)) (q + o);
  st_kernel : areas_only p (kern s) (kern s')
}.

Lemma stays_trans s1 U1 s2 U2 s3 U3 : stays s1 U1 s2 U2 -> stays s2 U2 s3 U3 -> stays s1 U1 s3 U3.
Proof.
  intros [P1 B1 K1] [P2 B2 K2]. split.
  - by transitivity U2.
  - intros q g o Hq Ho. rewrite (B2 q g), (B1 q g); [done..|by eapply lookup_weaken|done].
  - by transitivity (kern s2).
Qed.

Lemma space_frames lev v n m U b : space lev v n m U -> space lev (with_frames v b) n m U.
Proof. intros []. by split. Qed.

(** The frame that is allocated is none in use. *)
Lemma fresh_frame v lev n m U b f :
  space lev v n m U -> (forall x, in_use lev n m U x -> taken (frames v) x) -> wf (frames v) ->
  alloc_result (frames v) b f -> f <> 0 ->
  data_frame t3 t2 t1 lev n m f /\ forall q, U !! q <> Some f.
Proof.
  intros HS Htk Hwf Hb Hf0. destruct (alloc_result_fresh _ _ _ Hwf Hb Hf0) as [Hheld _].
  destruct (held_frame b f) as (Hf & _ & _); [by eapply alloc_result_wf|done|].
  assert (~ in_use lev n m U f) as Hno by (intros H; by eapply (alloc_untaken _ b f f Hwf Hb Hf0), eq_refl; apply Htk).
  split; [|intros q Hq; apply Hno; right; right; right; by exists q].
  split; [done|]. split; [|split].
  - pose proof (sp_levels _ _ _ _ _ _ _ _ _ HS f). destruct (decide (lev f = 0)); [done|]. destruct Hno. left. lia.
  - intros H. apply Hno. right; left. done.
  - intros H. apply Hno. right; right; left. done.
Qed.

Lemma in_use_kept k lev v n m U lev' v' n' m' q f x :
  space lev v n m U -> space lev' v' n' m' (<[q := f]> U) -> kept_space t3 t2 t1 k lev v n m lev' v' n' m' ->
  in_use lev' n' m' (<[q := f]> U) x -> x = f \/ in_use lev n m U x.
Proof.
  intros HS HS' K. pose proof (ks_levels _ _ _ _ _ _ _ _ _ _ _ _ K) as Hl. destruct (ks_pages _ _ _ _ _ _ _ _ _ _ _ _ K) as [Hm Hn].
  intros [Hx|[[Fx Hx]|[Hx|(q' & Hq)]]].
  - right. destruct (decide (upcoming n m x)) as [Hu|Hu]; [|left; by rewrite <- Hl].
    right; left. split; [|done]. by apply (space_table t3 t2 t1 r lev' v' n' m' _ HS').
  - right; right; left. split; [done|]. unfold upcoming in *. lia.
  - right; right; right; left. done.
  - apply lookup_insert_Some in Hq as [[_ ->]|[_ Hq]]; [by left|right; right; right; right; by exists q'].
Qed.

(** ** mmap *)

Lemma areas_kern s k l : threads k = threads (kern s) -> areas_ok s p l -> areas_ok (with_kern s k) p l.
Proof. intros E [(t & Hp & Ht & H) Hn]. split; [|done]. exists t. cbn [kern with_kern vmas]. by rewrite E. Qed.

(** The area is linked behind the others. *)
Lemma areas_new s h l c a v :
  areas_ok s p l -> c <> 0 -> c ∉ l ->
  exists s', insert_vma (Sys (with_vm (with_kheap (kern s) h) v) (<[c := a]> (vmas s))) c p = Ret s' /\ areas_ok s' p (l ++ [c]) /\
    kheap (kern s') = MyAlloc.with_vm h v /\ areas_only p (kern s) (kern s').
Proof.
  intros Ha Hc Hl. set (s1 := Sys _ _).
  destruct (insert_vma_spec s1 p l c a) as (s' & E & Hs' & Hh & _); [|done|done|apply lookup_insert_eq|].
  { destruct Ha as [(t & Hp & Ht & Hch & Hlast) Hnd]. split; [|done]. exists t. split_and!; [done|exact Ht| |done].
    eapply area_chain_agree; [|exact Hch]. intros q Hq. unfold s1. cbn [vmas]. apply lookup_insert_ne. by intros ->. }
  exists s'. split; [done|]. split; [done|]. split; [exact Hh|]. intros t Ht.
  destruct (insert_vma_thread s1 c p s' E) as (t' & x & y & Ht' & ->). change (threads (kern s) !! p = Some t') in Ht'.
  rewrite Ht in Ht'. injection Ht' as <-. by exists x, y, (MyAlloc.with_vm h v).
Qed.

Lemma mmap_page s l lev n m U k c chs addr len :
  process s l lev n m U (S k) (c :: chs) -> 3 <= m -> user_page addr -> U !! addr = None ->
  exists s' lev' n' m' f, sys_mmap cs s addr len p = Ret s' /\ process s' (l ++ [c]) lev' n' m' (<[addr := f]> U) k chs /\
    m - 3 <= m' /\ stays s U s' (<[addr := f]> U).
Proof.
  intros [Ha HS [Hwf Hroom] Htk (h1 & Ech & Hch) [Hnd Hnz]] Hm Hp HU. unfold sys_mmap.
  assert (MyAlloc.sub_malloc (kheap (kern s)) 40 false = Ret (MyAlloc.with_vm h1 (vm_of (kern s)), c)) as ->.
  { rewrite <- (Ech (vm_of (kern s))). unfold vm_of. by destruct (kheap (kern s)). }
  rewrite bind_Ret. cbn [fst snd]. set (k0 := with_kheap (kern s) (MyAlloc.with_vm h1 (vm_of (kern s)))).
  change (vm_of k0) with (vm_of (kern s)). destruct (alloc_block_cases _ Hwf) as (b & f & -> & Hb). rewrite bind_Ret. cbn [fst snd].
  destruct (room_alloc k _ _ _ Hwf Hroom Hb) as [Hf0 Hroom'].
  destruct (fresh_frame _ lev n m U b f HS Htk Hwf Hb Hf0) as [Hdf Hnew].
  destruct (map_space t3 t2 t1 r lev _ n m U addr f true (space_frames lev _ n m U b HS) Hm Hp Hdf Hnew)
    as (v' & lev' & n' & m' & -> & HS' & K). rewrite bind_Ret.
  assert (c <> 0 /\ c ∉ l) as [Hc0 Hcl].
  { split; [by apply Forall_cons in Hnz as [? _]|]. intros H. apply NoDup_app in Hnd as (_ & Hd & _). by apply (Hd c), elem_of_cons; [|left]. }
  set (a := Vma cs addr _ 0 0). destruct (areas_new s (MyAlloc.with_vm h1 (vm_of (kern s))) l c a v' Ha Hc0 Hcl) as (s' & E & Ha' & Hh & Hth).
  assert (vm_of (kern s') = v') as Hv by (unfold vm_of; by rewrite Hh).
  destruct (ks_regs _ _ _ _ _ _ _ _ _ _ _ _ K) as [Hcr Hfr]. cbn [Paging.cr3 frames with_frames] in Hcr, Hfr.
  destruct (ks_pages _ _ _ _ _ _ _ _ _ _ _ _ K) as [Hm' _].
  exists s', lev', n', m', f. split; [exact E|]. split; [|split; [lia|]].
  - split; rewrite ?Hv; try done.
    + rewrite Hfr. split; [by eapply alloc_result_wf|done].
    + rewrite Hfr. intros x Hx.
      apply (in_use_kept _ lev (with_frames (vm_of (kern s)) b) n m U lev' v' n' m' addr f x (space_frames lev _ n m U b HS) HS' K) in Hx.
      destruct Hx as [->|Hx]; [apply (alloc_takes _ _ _ Hb Hf0); clear -Hdf; destruct Hdf as [[? _] _]; lia|]. apply (alloc_taken _ _ _ _ Hb); [|by apply Htk].
      destruct Hx as [Hx|[[Hx _]|[Hx|(q & Hq)]]].
      * destruct (space_table t3 t2 t1 r lev _ n m U HS x Hx) as [[? _] _]. lia.
      * destruct Hx as [? _]. lia.
      * destruct (space_window t3 t2 t1 r lev _ n m U HS x Hx) as ([? _] & _). lia.
      * destruct (sp_pages _ _ _ _ _ _ _ _ _ HS q x Hq) as (_ & _ & [[? _] _]). lia.
    + rewrite Hh. by do 2 apply chunks_vm.
    + rewrite <- app_assoc. split; [done|]. by apply Forall_cons in Hnz as [_ ?].
  - split.
    + by apply insert_subseteq.
    + intros q g o Hq Ho. rewrite Hv. apply (kept_byte t3 t2 t1 r 3 lev (with_frames (vm_of (kern s)) b) n m U lev' v' n' m' (<[addr := f]> U) q g o);
        [by apply space_frames|done|done|done| |done]. rewrite lookup_insert_ne; [done|]. intros ->. congruence.
    + exact Hth.
Qed.

(** ** Segments *)

(** A segment within one page; mmap maps one page whatever the length. *)
Definition fits_page (e : exec) : Prop :=
  user_page (seg_page_start e) /\
  exists o, seg_actual_start e = seg_page_start e + o /\ 0 <= o /\ 0 <= seg_length e /\ o + seg_length e <= 4096.

(** The process reads the bytes of the archive. *)
Definition loaded (mm : bytes) (v : vmm) (e : exec) : Prop :=
  forall i, 0 <= i < seg_length e -> user_byte v (seg_actual_start e + i) = Some (mm (u64 (seg_mem e + i))).

(** One iteration of the loop. *)
Definition load_segment (mm : bytes) (e : exec) (s : system) : outcome system :=
  s ← sys_mmap cs s (seg_page_start e) (seg_length e) p;
  v ← copy_in mm (seg_actual_start e) (seg_mem e) (seg_length e) (vm_of (kern s));
  Ret (with_kern s (with_vm (kern s) v)).

Lemma load_segments_cons mm e es s :
  load_segments cs mm p (e :: es) s = load_segment mm e s ≫= load_segments cs mm p es.
Proof.
  unfold load_segments at 1. cbn [foldl]. rewrite bind_Ret. fold (load_segment mm e s).
  destruct (load_segment mm e s) as [s1| | |]; [done|..];
    (cbn [mbind outcome_bind]; clear; induction es as [|e' es IH]; [done|exact IH]).
Qed.

Lemma load_one mm s l lev n m U k c chs e :
  process s l lev n m U (S k) (c :: chs) -> 3 <= m -> fits_page e -> U !! seg_page_start e = None -> (forall a, 0 <= mm a < 256) ->
  exists s' lev' n' m' f, load_segment mm e s = Ret s' /\
    process s' (l ++ [c]) lev' n' m' (<[seg_page_start e := f]> U) k chs /\
    m - 3 <= m' /\ stays s U s' (<[seg_page_start e := f]> U) /\ loaded mm (vm_of (kern s')) e.
Proof.
  intros HP Hm (Hpg & o & Eo & Ho & Hl & Hfit) HU Hmm. unfold load_segment.
  destruct (mmap_page s l lev n m U k c chs _ (seg_length e) HP Hm Hpg HU) as (s1 & lev' & n' & m' & f & -> & HP1 & Hm' & HS).
  rewrite bind_Ret, Eo. set (U' := <[_ := f]> U) in *. assert (U' !! seg_page_start e = Some f) as HU' by apply lookup_insert_eq.
  destruct HP1 as [Ha Hsp [Hwf Hroom] Htk Hch Hfr].
  destruct (space_page_path t3 t2 t1 r lev' _ n' m' U' _ f Hsp HU') as (x3 & x2 & x1 & HPP).
  destruct (copy_in_spec (vm_of (kern s1)) (seg_page_start e) x3 x2 x1 f mm o (seg_mem e) (seg_length e) HPP Hmm Ho Hl Hfit)
    as (mw & -> & Hs & Hb). rewrite bind_Ret.
  set (s2 := with_kern s1 _). assert (vm_of (kern s2) = with_mem (vm_of (kern s1)) mw) as Hv2 by done.
  pose proof (space_write t3 t2 t1 r lev' _ n' m' U' _ f mw Hsp HU' Hs) as Hsp2.
  exists s2, lev', n', m', f. split; [done|]. split; [|split; [done|split]].
  - split; rewrite ?Hv2; try done.
    + by apply areas_kern.
    + by apply chunks_vm.
  - split; [apply (st_pages _ _ _ _ HS)| |].
    intros q g j Hq Hj. rewrite <- (st_bytes _ _ _ _ HS q g j Hq Hj), Hv2.
    assert (U' !! q = Some g) as HqU by exact (lookup_weaken _ _ _ _ Hq (st_pages _ _ _ _ HS)).
    rewrite (space_byte t3 t2 t1 r lev' _ n' m' U' q g j Hsp2 HqU Hj), (space_byte t3 t2 t1 r lev' _ n' m' U' q g j Hsp HqU Hj).
    cbn [mem with_mem]. f_equal. apply byte_of_same; [|done|].
    { by destruct (sp_pages _ _ _ _ _ _ _ _ _ Hsp q g HqU) as (_ & _ & Fg & _). }
    intros x Hx. apply Hs. intros Haf. assert (g = f) as ->.
    { destruct (sp_pages _ _ _ _ _ _ _ _ _ Hsp q g HqU) as (_ & _ & [_ Fg] & _).
      destruct (sp_pages _ _ _ _ _ _ _ _ _ Hsp _ f HU') as (_ & _ & [_ Ff] & _).
      clear -Hx Haf Fg Ff. Z.to_euclidean_division_equations. lia. }
    pose proof (sp_frames _ _ _ _ _ _ _ _ _ Hsp q _ f HqU HU') as E. rewrite E in Hq. congruence.
    etransitivity; [exact (st_kernel _ _ _ _ HS)|]. apply areas_only_heap.
  - intros i Hi. rewrite Hv2, Eo, <- Z.add_assoc. rewrite (space_byte t3 t2 t1 r lev' _ n' m' U' _ f (o + i) Hsp2 HU') by lia.
    cbn [mem with_mem]. rewrite Hb, decide_True by lia. do 3 f_equal. lia.
Qed.

(** What a loaded segment holds is kept with its page. *)
Lemma loaded_stays mm s U s' U' e f :
  stays s U s' U' -> fits_page e -> U !! seg_page_start e = Some f -> loaded mm (vm_of (kern s)) e -> loaded mm (vm_of (kern s')) e.
Proof.
  intros HS (_ & o & Eo & Ho & Hl & Hfit) HU H i Hi. rewrite <- (H i Hi), Eo, <- Z.add_assoc.
  eapply st_bytes; [exact HS|exact HU|lia].
Qed.

Lemma stays_refl s U : stays s U s U.
Proof. by split. Qed.

Lemma load_all mm es : (forall a, 0 <= mm a < 256) -> Forall fits_page es -> NoDup (map seg_page_start es) ->
  forall s l lev n m U k cl chs,
  process s l lev n m U (List.length es + k) (cl ++ chs) -> List.length cl = List.length es ->
  3 * Z.of_nat (List.length es) <= m -> Forall (fun e => U !! seg_page_start e = None) es ->
  exists s' lev' n' m' U', load_segments cs mm p es s = Ret s' /\ process s' (l ++ cl) lev' n' m' U' k chs /\
    m - 3 * Z.of_nat (List.length es) <= m' /\ stays s U s' U' /\ Forall (loaded mm (vm_of (kern s'))) es /\
    forall q, is_Some (U' !! q) <-> is_Some (U !! q) \/ q ∈ map seg_page_start es.
Proof.
  intros Hmm. induction es as [|e es IH]; intros Hfit Hnd s l lev n m U k cl chs HP Hcl Hm HU.
  { destruct cl; [|done]. exists s, lev, n, m, U. rewrite app_nil_r. split_and!; [done|done|cbn; lia|apply stays_refl|constructor|].
    intros q. cbn [map]. rewrite elem_of_nil. tauto. }
  destruct cl as [|c cl]; [done|]. cbn [List.length map app] in *.
  apply Forall_cons in Hfit as [He Hfit]. apply NoDup_cons in Hnd as [Hne Hnd]. apply Forall_cons in HU as [HUe HU].
  destruct (load_one mm s l lev n m U (List.length es + k) c (cl ++ chs) e HP) as (s1 & l1 & n1 & m1 & f & E1 & HP1 & Hm1 & HS1 & HL1);
    [lia|done|done|done|]. set (U1 := <[_ := f]> U) in *.
  assert (forall e', e' ∈ es -> seg_page_start e' <> seg_page_start e) as Hd.
  { intros e' He' E. apply Hne. rewrite <- E. by apply list_elem_of_fmap_2. }
  destruct (IH Hfit Hnd s1 (l ++ [c]) l1 n1 m1 U1 k cl chs HP1) as (s2 & l2 & n2 & m2 & U2 & E2 & HP2 & Hm2 & HS2 & HL2 & HD2);
    [lia|lia| |].
  { apply Forall_forall. intros e' He'. unfold U1. rewrite lookup_insert_ne by (symmetry; by apply Hd).
    exact (proj1 (Forall_forall _ _) HU e' He'). }
  exists s2, l2, n2, m2, U2. rewrite load_segments_cons, E1, bind_Ret. rewrite <- app_assoc in HP2.
  split; [exact E2|]. split; [exact HP2|]. split; [lia|]. split; [eapply stays_trans; [exact HS1|exact HS2]|]. split.
  - constructor; [|exact HL2]. eapply loaded_stays; [exact HS2|done| |exact HL1]. apply lookup_insert_eq.
  - intros q. rewrite HD2, elem_of_cons. unfold U1. destruct (decide (seg_page_start e = q)) as [<-|Hq].
    + rewrite lookup_insert_eq. split; [intros _; right; by left|intros _; by left].
    + rewrite lookup_insert_ne by done. split; [intros [?|?]; [by left|by right; right]|].
      intros [?|[->|?]]; [by left|done|by right].
Qed.
End image.

(** ** The frame the program starts from *)

(** The registers are zero, the interrupts on. *)
Definition start_regs (entry sp : Z) : regs :=
  Regs 0 0 0 0 0 0 0 0 0 0 0 0 0 0 0 0 0 entry USER_CS 0x200 sp USER_DS.

Lemma push_all_cons k p x l : push_all k p (x :: l) = PushU k p x ≫= fun k => push_all k p l.
Proof.
  unfold push_all at 1. cbn [foldl]. rewrite bind_Ret. destruct (PushU k p x) as [k1| | |]; [done|..];
    (cbn [mbind outcome_bind]; clear; induction l as [|y l IH]; [done|exact IH]).
Qed.

(** Pushing changes the thread's stack pointer and the stacks only. *)
Lemma push_all_kept p l : forall k k' t,
  threads k !! p = Some t -> push_all k p l = Ret k' ->
  exists sp m, k' = with_stackmem (with_threads k (<[p := set_krsp sp t]> (threads k))) m.
Proof.
  induction l as [|x l IH]; intros k k' t Ht E.
  { injection E as <-. exists (krsp t), (stackmem k). assert (set_krsp (krsp t) t = t) as -> by (by destruct t).
    rewrite insert_id by done. by destruct k. }
  rewrite push_all_cons in E. unfold PushU in E. apply bind_Ret_inv in E as (k1 & E1 & E). apply bind_Ret_inv in E1 as (t1 & Et & E1).
  injection E1 as <-. unfold deref in Et. destruct (p =? 0); [done|]. rewrite Ht in Et. injection Et as <-.
  set (k1 := with_stackmem _ _) in E.
  assert (threads k1 !! p = Some (set_krsp (u64 (krsp t - 8)) t)) as H1 by (unfold k1; cbn; apply lookup_insert_eq).
  destruct (IH k1 k' _ H1 E) as (sp & m & ->). exists sp, m. unfold k1. cbn [threads with_stackmem with_threads].
  by rewrite insert_insert_eq.
Qed.

Lemma setup_pushes k p t e :
  p <> 0 -> threads k !! p = Some t ->
  setup_kthread_user k p e = push_all k p ([USER_DS; rsp t; 0x200; USER_CS; e; 0; 0] ++ replicate 15 0).
Proof.
  intros Hp Ht. unfold setup_kthread_user, PushU_General_Registers.
  cbn [app]. rewrite push_all_cons.
  set (k1 := with_stackmem (with_threads k (<[p := set_krsp (u64 (krsp t - 8)) t]> (threads k))) (mem_set (stackmem k) (u64 (krsp t - 8)) USER_DS)).
  assert (PushU k p USER_DS = Ret k1) as -> by (unfold PushU; by rewrite (deref_eq _ _ _ Hp Ht), bind_Ret).
  assert (threads k1 !! p = Some (set_krsp (u64 (krsp t - 8)) t)) as H1 by (unfold k1; cbn; apply lookup_insert_eq).
  rewrite !bind_Ret. rewrite push_all_cons.
  rewrite (deref_eq _ _ _ Hp H1), bind_Ret. cbn [rsp set_krsp].
  destruct (PushU k1 p (rsp t)) as [k2| | |]; [|done..]. rewrite !bind_Ret.
  rewrite push_all_cons. destruct (PushU k2 p _) as [k3| | |]; [|done..]. rewrite !bind_Ret.
  rewrite push_all_cons. destruct (PushU k3 p _) as [k4| | |]; [|done..]. rewrite !bind_Ret.
  rewrite push_all_cons. destruct (PushU k4 p _) as [k5| | |]; [|done..]. rewrite !bind_Ret.
  rewrite push_all_cons. destruct (PushU k5 p _) as [k6| | |]; [|done..]. rewrite !bind_Ret.
  rewrite push_all_cons. by destruct (PushU k6 p _) as [k7| | |].
Qed.

Lemma setup_frame k p t e :
  p <> 0 -> threads k !! p = Some t -> 176 <= krsp t < 2 ^ 64 ->
  exists m, setup_kthread_user k p e =
      Ret (with_stackmem (with_threads k (<[p := set_krsp (krsp t - 176) t]> (threads k))) m) /\
    frame_at m (krsp t - 176) = start_regs e (rsp t).
Proof.
  intros Hp Ht Hr. rewrite (setup_pushes k p t e Hp Ht). cbn [app replicate].
  match goal with |- context [push_all k p ?l] => destruct (push_all_spec p l k t Hp Ht) as
    (k' & t' & E & Ht' & Hk & _ & Hw & _); [cbn; lia|] end.
  destruct (push_all_kept _ _ _ _ _ Ht E) as (sp & m & ->). cbn [List.length] in *.
  cbn [threads with_stackmem with_threads] in Ht'. rewrite lookup_insert_eq in Ht'. injection Ht' as <-. cbn [krsp set_krsp] in Hk.
  assert (sp = krsp t - 176) as -> by lia. clear Hk. exists m. split; [exact E|]. cbn [stackmem with_stackmem] in Hw.
  assert (forall (j : Z) (i : nat), j = 21 - Z.of_nat i -> (i < 22)%nat ->
    m (u64 (krsp t - 176 + 8 * j)) = m (krsp t - 8 * (Z.of_nat i + 1))) as Hj.
  { intros j i -> Hi. f_equal. rewrite uwrap_small by lia. lia. }
  unfold frame_at, start_regs. cbv zeta.
  rewrite (Hj 0 21%nat), (Hj 1 20%nat), (Hj 2 19%nat), (Hj 3 18%nat), (Hj 4 17%nat), (Hj 5 16%nat), (Hj 6 15%nat),
    (Hj 7 14%nat), (Hj 8 13%nat), (Hj 9 12%nat), (Hj 10 11%nat), (Hj 11 10%nat), (Hj 12 9%nat), (Hj 13 8%nat),
    (Hj 14 7%nat), (Hj 15 6%nat), (Hj 16 5%nat), (Hj 17 4%nat), (Hj 18 3%nat), (Hj 19 2%nat), (Hj 20 1%nat),
    (Hj 21 0%nat) by lia.
  by rewrite !Hw by lia.
Qed.

(** ** The image *)

(** The pages of the program. *)
Definition image_pages (pr : program) : list Z := map seg_page_start (executable pr) ++ [UserStack; UserHeap].

(** The process does not depend on what the thread has besides its areas, nor
    on the kernel stacks. *)
Lemma process_kernel t3 t2 t1 r p s k t t' l lev n m U chs i :
  process t3 t2 t1 r p s l lev n m U i chs -> threads (kern s) !! p = Some t -> threads k !! p = Some t' ->
  mmap t' = mmap t -> mmap_cache t' = mmap_cache t -> kheap k = kheap (kern s) ->
  process t3 t2 t1 r p (with_kern s k) l lev n m U i chs.
Proof.
  intros [[(t0 & Hp & Ht0 & Hc & Hl) Hnd] Hs Hf Ht Hch Hfr] Ht1 Hth Em Ec Hk. rewrite Ht1 in Ht0. injection Ht0 as <-.
  assert (vm_of (kern (with_kern s k)) = vm_of (kern s)) as Hv by (unfold vm_of; cbn; by rewrite Hk).
  split; rewrite ?Hv; try done.
  - split; [|done]. exists t'. cbn [kern with_kern vmas]. by rewrite Em, Ec.
  - cbn [kern with_kern]. by rewrite Hk.
Qed.

(** The pages of the program, before the thread is set up. *)
Lemma image_mapped t3 t2 t1 r cs mm p pr s l lev n m U cl :
  process t3 t2 t1 r p s l lev n m U (List.length (executable pr) + 2) cl ->
  List.length cl = (List.length (executable pr) + 2)%nat -> 3 * Z.of_nat (List.length (executable pr) + 2) <= m ->
  (forall a, 0 <= mm a < 256) -> Forall fits_page (executable pr) -> NoDup (image_pages pr) ->
  Forall (fun q => U !! q = None) (image_pages pr) ->
  exists s1 s2 s' lev' n' m' U', load_segments cs mm p (executable pr) s = Ret s1 /\
    sys_mmap cs s1 UserStack VIRT_PAGE_SIZE p = Ret s2 /\ sys_mmap cs s2 UserHeap VIRT_PAGE_SIZE p = Ret s' /\
    process t3 t2 t1 r p s' (l ++ cl) lev' n' m' U' 0 [] /\ stays p s U s' U' /\
    (forall q, is_Some (U' !! q) <-> is_Some (U !! q) \/ q ∈ image_pages pr) /\
    Forall (loaded mm (vm_of (kern s'))) (executable pr).
Proof.
  intros HP Hcl Hm Hmm Hfit Hnd HU. unfold image_pages in *.
  apply NoDup_app in Hnd as (Hnd & Hdis & Hnd2). apply Forall_app in HU as [HU HU2].
  rewrite !Forall_cons in HU2. destruct HU2 as (HUs & HUh & _).
  rewrite <- (take_drop (List.length (executable pr)) cl) in HP.
  destruct (drop (List.length (executable pr)) cl) as [|c1 [|c2 [|? ?]]] eqn:Ed;
    try (apply (f_equal List.length) in Ed; rewrite length_drop in Ed; cbn in Ed; lia).
  assert (cl = take (List.length (executable pr)) cl ++ [c1; c2]) as Ecl by (by rewrite <- Ed, take_drop).
  destruct (load_all t3 t2 t1 r cs p mm (executable pr) Hmm Hfit Hnd s l lev n m U 2 _ _ HP)
    as (s1 & lev1 & n1 & m1 & U1 & E1 & HP1 & Hm1 & HS1 & HL1 & HD1); [rewrite length_take; lia|lia|by rewrite Forall_map in HU|].
  assert (forall q, q ∈ [UserStack; UserHeap] -> U !! q = None -> U1 !! q = None) as Hfree.
  { intros q Hq Hn. apply eq_None_not_Some. rewrite HD1, Hn. intros [[? ?]|Hin]; [done|]. by apply (Hdis q). }
  destruct (mmap_page t3 t2 t1 r cs p s1 _ lev1 n1 m1 U1 1 c1 [c2] UserStack VIRT_PAGE_SIZE HP1)
    as (s2 & lev2 & n2 & m2 & f2 & E2 & HP2 & Hm2 & HS2); [lia|by_computation|apply Hfree; [in_list|done]|].
  destruct (mmap_page t3 t2 t1 r cs p s2 _ lev2 n2 m2 _ 0 c2 [] UserHeap VIRT_PAGE_SIZE HP2)
    as (s3 & lev3 & n3 & m3 & f3 & E3 & HP3 & Hm3 & HS3);
    [lia|by_computation|rewrite lookup_insert_ne by done; apply Hfree; [in_list|done]|].
  pose proof (stays_trans _ _ _ _ _ _ _ HS2 HS3) as HS13. rewrite <- !app_assoc in HP3. cbn [app] in HP3. rewrite <- Ecl in HP3.
  exists s1, s2, s3, lev3, n3, m3, (<[UserHeap := f3]> (<[UserStack := f2]> U1)). split_and!; [done..|by eapply stays_trans| |].
  - intros q. rewrite !lookup_insert_is_Some', HD1, elem_of_app, !elem_of_cons, elem_of_nil. naive_solver.
  - apply Forall_forall. intros e He. pose proof (proj1 (Forall_forall _ _) HL1 e He) as HLe.
    assert (is_Some (U1 !! seg_page_start e)) as [g Hg] by (apply HD1; right; by apply list_elem_of_fmap_2).
    eapply loaded_stays; [exact HS13|exact (proj1 (Forall_forall _ _) Hfit e He)|exact Hg|exact HLe].
Qed.

(** The thread of the program, with areas from [a] to [b]. *)
Definition image_thread (a b : Z) (t : thread) : thread :=
  set_krsp (krsp t - 176) (set_brk UserHeap (set_areas a b t)).

(** The image of a program is built: its segments, each within a page of its
    own, hold the bytes of the archive; a page for the stack and one for the
    heap are mapped; the pages that were there have the bytes they had; the
    process has the areas for them, in order; of the kernel's state only the
    heap, the thread and its kernel stack change. *)
Lemma build_image_spec t3 t2 t1 r cs mm p pr s l lev n m U cl t :
  process t3 t2 t1 r p s l lev n m U (List.length (executable pr) + 2) cl ->
  List.length cl = (List.length (executable pr) + 2)%nat -> 3 * Z.of_nat (List.length (executable pr) + 2) <= m ->
  (forall a, 0 <= mm a < 256) -> Forall fits_page (executable pr) -> NoDup (image_pages pr) ->
  Forall (fun q => U !! q = None) (image_pages pr) -> threads (kern s) !! p = Some t -> 176 <= krsp t < 2 ^ 64 ->
  exists s' lev' n' m' U' a b h w, build_image cs mm p pr s = Ret s' /\
    process t3 t2 t1 r p s' (l ++ cl) lev' n' m' U' 0 [] /\
    (forall q, is_Some (U' !! q) <-> is_Some (U !! q) \/ q ∈ image_pages pr) /\
    Forall (loaded mm (vm_of (kern s'))) (executable pr) /\
    (forall q g o, U !! q = Some g -> 0 <= o < 4096 ->
      user_byte (vm_of (kern s')) (q + o) = user_byte (vm_of (kern s)) (q + o)) /\
    kern s' = with_stackmem (with_threads (with_kheap (kern s) h) (<[p := image_thread a b t]> (threads (kern s)))) w /\
    frame_at w (krsp t - 176) = start_regs (entry_point pr) (rsp t).
Proof.
  intros HP Hcl Hm Hmm Hfit Hnd HU Ht Hr. unfold build_image.
  destruct (image_mapped t3 t2 t1 r cs mm p pr s l lev n m U cl HP Hcl Hm Hmm Hfit Hnd HU)
    as (s1 & s2 & s3 & lev' & n' & m' & U' & -> & E2 & E3 & HP3 & HS & HD & HL).
  rewrite bind_Ret, E2, bind_Ret, E3, bind_Ret. destruct (st_kernel _ _ _ _ _ HS t Ht) as (a & b & h & Ek).
  destruct (pr_areas _ _ _ _ _ _ _ _ _ _ _ _ _ HP3) as [(_ & Hp & _) _].
  assert (threads (kern s3) !! p = Some (set_areas a b t)) as Ht3 by (rewrite Ek; cbn; apply lookup_insert_eq).
  assert (update_thread (kern s3) p (set_brk (s32 UserHeap)) =
    Ret (with_threads (kern s3) (<[p := set_brk UserHeap (set_areas a b t)]> (threads (kern s3))))) as ->.
  { unfold update_thread, update. by rewrite (deref_eq _ _ _ Hp Ht3). }
  rewrite bind_Ret. set (k4 := with_threads (kern s3) _).
  assert (threads k4 !! p = Some (set_brk UserHeap (set_areas a b t))) as H4 by (unfold k4; cbn; apply lookup_insert_eq).
  destruct (setup_frame k4 p _ (entry_point pr) Hp H4) as (w & -> & Hfr); [cbn; lia|]. rewrite bind_Ret.
  set (k5 := with_stackmem _ w).
  assert (k5 = with_stackmem (with_threads (with_kheap (kern s) h) (<[p := image_thread a b t]> (threads (kern s)))) w) as E5.
  { unfold k5, k4. rewrite Ek. cbn [threads with_threads with_kheap]. by rewrite !insert_insert_eq. }
  assert (vm_of k5 = vm_of (kern s3)) as Hv5 by done.
  exists (with_kern s3 k5), lev', n', m', U', a, b, h, w. cbn [kern with_kern]. rewrite Hv5.
  split_and!; [done| |exact HD|exact HL|apply HS|exact E5|exact Hfr].
  apply (process_kernel t3 t2 t1 r p s3 k5 (set_areas a b t) (image_thread a b t) _ _ _ _ _ _ _ HP3 Ht3); [|done..].
  rewrite E5. cbn. apply lookup_insert_eq.
Qed.

(** ** A machine without user pages *)

(** A thread without areas, and three free chunks on the heap. *)
Definition bare_heap : MyAlloc.kheap :=
  MyAlloc.KHeap {[ 0x500 := MyAlloc.Block 0x600 40 1; 0x600 := MyAlloc.Block 0x700 40 1; 0x700 := MyAlloc.Block 0 40 1 ]}
    0x500 0x700 bare_machine.

Definition bare_system : system :=
  Sys (with_kheap (with_threads (kern cow_system) {[ 0x100 := demo_thread 2 0 0 ]}) bare_heap) ∅.

Lemma bare_taken x : in_use 0x2000 0x3000 0x4000 bare_lev 0x15000 12 ∅ x -> taken (frames bare_machine) x.
Proof.
  assert (Forall (taken (frames bare_machine)) (map (fun q => 4096 * q) (seqZ 1 63))) as HF by (repeat constructor; vm_compute; reflexivity).
  assert (forall q, 1 <= q < 64 -> taken (frames bare_machine) (4096 * q)) as Hx.
  { intros q Hq. apply (proj1 (Forall_forall _ _) HF), list_elem_of_fmap_2, elem_of_seqZ. lia. }
  intros [H|[[[_ Hm] Hu]|[H|(q & H)]]].
  - unfold bare_lev in H. destruct (Z.eqb_spec x 0x1000) as [->|]; [|lia]. apply (Hx 1). lia.
  - unfold upcoming in Hu. replace x with (4096 * (x / 4096)) by (Z.to_euclidean_division_equations; lia).
    apply Hx. Z.to_euclidean_division_equations. lia.
  - rewrite !elem_of_cons, elem_of_nil in H. destruct H as [->|[->|[->|[]]]]; [apply (Hx 2)|apply (Hx 3)|apply (Hx 4)]; lia.
  - by rewrite lookup_empty in H.
Qed.

Definition after_malloc (h : MyAlloc.kheap) : MyAlloc.kheap :=
  match MyAlloc.sub_malloc h 40 false with Ret r => r.1 | _ => h end.

Lemma bare_chunks : chunks bare_heap [0x510; 0x610; 0x710].
Proof.
  exists (after_malloc bare_heap). split; [intros v; vm_compute; reflexivity|].
  exists (after_malloc (after_malloc bare_heap)). split; [intros v; vm_compute; reflexivity|].
  exists (after_malloc (after_malloc (after_malloc bare_heap))). split; [intros v; vm_compute; reflexivity|exact I].
Qed.
