(* ===== verification/Growth.v ===== *)
(** * Growth of the stack

    A fault near an area of a user thread, up to the page that [mmap] then maps:
    the page-fault handler of PageFault.v over the address spaces of Image.v. *)

From S2P Require Import Prelude Memory Bitmap PhysMem PageEntry Paging MapPage KHeap Queues Kthread Process.
From S2P Require Import TarFs PageFault CopyTables UserBytes AddressSpace Image.

(** C31: a fault of a user thread at the start of any of its areas, or at most
    100 bytes below one, is taken for growth of the stack, whatever the page's
    entry says: as long as the counter is at most 4, and a frame, a heap chunk
    and kernel pages for the tables are to be had, a page is mapped below the
    area linked last (the heap, in a program that [do_exec] started) and not
    below the stack, and its area is linked behind the others.  Every page the
    process had keeps its frame and its bytes, the faulting page included: a
    write to the first byte of a copy-on-write area never gets its copy.  The
    counter goes up by one. *)
Theorem fault_near_area_grows t3 t2 t1 r cs s fault t l a lev n m U k c chs :
  let p := currentThread (kern s) in
  process t3 t2 t1 r p s l lev n m U (S k) (c :: chs) -> 3 <= m ->
  threads (kern s) !! p = Some t -> kernel_thread t = 0 ->
  existsb (near s fault) l = true -> 0 <= no_stack_pages t <= 4 ->
  vmas s !! List.last l 0 = Some a -> user_page (vm_start a - 4096) -> U !! (vm_start a - 4096) = None ->
  exists s' t' lev' n' m' f, page_fault_handler cs s fault = Ret s' /\
    process t3 t2 t1 r p s' (l ++ [c]) lev' n' m' (<[vm_start a - 4096 := f]> U) k chs /\
    (forall o, 0 <= o < 4096 -> translate (mem (vm_of (kern s'))) (Paging.cr3 (vm_of (kern s'))) (vm_start a - 4096 + o) = Some (f + o)) /\
    (forall q g o, U !! q = Some g -> 0 <= o < 4096 ->
      translate (mem (vm_of (kern s'))) (Paging.cr3 (vm_of (kern s'))) (q + o) = Some (g + o) /\
      user_byte (vm_of (kern s')) (q + o) = user_byte (vm_of (kern s)) (q + o)) /\
    threads (kern s') !! p = Some t' /\ no_stack_pages t' = no_stack_pages t + 1 /\ currentThread (kern s') = p.
Proof.
  intros p HP Hm Ht Hk Hnear Hpages Ha Hpg HU. set (t1' := set_stack_pages (s32 (no_stack_pages t + 1)) t).
  rewrite (near_fault_maps cs s fault t l a _ (pr_areas _ _ _ _ _ _ _ _ _ _ _ _ _ HP) Ht Hk Hnear ltac:(lia) eq_refl Ha).
  rewrite uwrap_small by (destruct Hpg; lia). fold p t1'. set (k1 := with_threads _ _).
  assert (process t3 t2 t1 r p (with_kern s k1) l lev n m U (S k) (c :: chs)) as HP1
    by (apply (process_kernel t3 t2 t1 r p s k1 t t1' _ _ _ _ _ _ _ HP Ht); [apply lookup_insert_eq|done..]).
  destruct (mmap_page t3 t2 t1 r cs p _ l lev n m U k c chs _ VIRT_PAGE_SIZE HP1 Hm Hpg HU)
    as (s' & lev' & n' & m' & f & E & HP' & _ & [_ HB HK]).
  destruct (HK t1' ltac:(apply lookup_insert_eq)) as (x & y & h & Ek).
  exists s', (set_areas x y t1'), lev', n', m', f. pose proof (pr_space _ _ _ _ _ _ _ _ _ _ _ _ _ HP') as HS.
  assert (forall q g o, <[vm_start a - 4096 := f]> U !! q = Some g -> 0 <= o < 4096 ->
    translate (mem (vm_of (kern s'))) (Paging.cr3 (vm_of (kern s'))) (q + o) = Some (g + o)) as Htr.
  { intros q g o Hq Ho. destruct (space_page_path t3 t2 t1 r lev' _ n' m' _ q g HS Hq) as (x3 & x2 & x1 & HPP).
    by apply (page_path_translate _ _ _ _ _ _ _ _ HPP). }
  split; [exact E|]. split; [exact HP'|]. split; [|split; [|split; [|split]]].
  - intros o Ho. apply Htr; [apply lookup_insert_eq|done].
  - intros q g o Hq Ho. split; [|exact (HB q g o Hq Ho)]. apply Htr; [|done]. rewrite lookup_insert_ne; [done|]. intros <-. congruence.
  - rewrite Ek. apply lookup_insert_eq.
  - cbn. by rewrite swrap_small by lia.
  - by rewrite Ek.
Qed.

(** Code at 0x400000, the stack and then the heap, as [do_exec] maps them. *)
Definition grown_system : system :=
  Sys (with_kheap (with_threads (kern cow_system) {[ 0x100 := demo_thread 2 0x300 0x380 ]}) bare_heap)
    {[ 0x300 := Vma 0 0x400000 0x401000 0 0x340; 0x340 := Vma 0 0xbff000 0xc00000 0 0x380;
       0x380 := Vma 0 0x80000 0x81000 0 0 ]}.

Lemma grown_process :
  process 0x2000 0x3000 0x4000 0 0x100 grown_system [0x300; 0x340; 0x380] bare_lev 0x15000 12 ∅ 1 [0x510; 0x610; 0x710].
Proof.
  split.
  - split; [|by_computation]. exists (demo_thread 2 0x300 0x380). split_and!; [cbn; lia|reflexivity| |reflexivity].
    repeat (split_and!; [reflexivity|lia|eexists; split; [reflexivity|]]). reflexivity.
  - exact bare_space.
  - split; by_computation.
  - exact bare_taken.
  - exact bare_chunks.
  - split; by_computation.
Qed.

(** A push just below the stack, at 0xBFEFF8, maps the page at 0x7F000, below
    the heap. *)
Example fault_near_area_grows_witness :
  exists s' f, page_fault_handler 0 grown_system 0xbfeff8 = Ret s' /\
    translate (mem (vm_of (kern s'))) (Paging.cr3 (vm_of (kern s'))) 0x7F008 = Some (f + 8).
Proof.
  destruct (fault_near_area_grows 0x2000 0x3000 0x4000 0 0 grown_system 0xbfeff8 (demo_thread 2 0x300 0x380) [0x300; 0x340; 0x380]
    (Vma 0 0x80000 0x81000 0 0) bare_lev 0x15000 12 ∅ 0 0x510 [0x610; 0x710] grown_process)
    as (s' & t' & lev' & n' & m' & f & E & _ & Htr & _).
  - lia.
  - reflexivity.
  - reflexivity.
  - vm_compute. reflexivity.
  - cbn. lia.
  - reflexivity.
  - split; [cbn; lia|reflexivity].
  - reflexivity.
  - exists s', f. split; [exact E|]. exact (Htr 8 ltac:(lia)).
Defined.
