(* ===== verification/Exec.v ===== *)
(** * Starting a program (do_exec in sys/exec.c)

    The thread of a new process, its image, and its entry into the lists of the
    scheduler. *)

From S2P Require Import Prelude CString Memory Bitmap PhysMem PageEntry Paging MapPage KHeap Queues Kthread Process.
From S2P Require Import TarFs PageFault CopyTables UserBytes AddressSpace Image.

(** ** Pages of the kernel *)

(** The kernel may take the first of the coming pages for itself. *)
Lemma space_bump t3 t2 t1 r lev v n m U j v' :
  space t3 t2 t1 r lev v n m U -> 0 <= j <= m -> mem v' = mem v -> Paging.cr3 v' = Paging.cr3 v ->
  (vmmgr_alloc_page v' 0).2 = u64 (n + 4096 * j + virt_base) -> space t3 t2 t1 r lev v' (n + 4096 * j) (m - j) U.
Proof.
  intros HS Hj Em Ec Eb. assert (forall x, upcoming (n + 4096 * j) (m - j) x -> upcoming n m x) as Hu by (unfold upcoming; lia).
  destruct HS as [Sw _ [[Sn Sal] [Sm S30]] Sr Srec W3 W2 W1 Swin Sroot Spos Stab Scom Sch Sinj Spg Sfr].
  split; rewrite ?Ec, ?Em; try done.
  - intros t i Ht. apply Sw. destruct Ht as [?|[? ?]]; [by left|right; auto].
  - split; [|lia]. split; [lia|]. Z.to_euclidean_division_equations. lia.
  - intros k Hk. replace (n + 4096 * j + 4096 * k) with (n + 4096 * (k + j)) by lia. apply Sr. lia.
  - eapply Forall_impl; [exact Swin|]. intros x (H1 & H2 & H3). split_and!; auto.
  - intros t Ht. destruct (Stab t Ht). split; auto.
  - auto.
  - intros t i Hb. apply Sch. unfold user_branch in *. by rewrite Em, Ec in Hb.
  - intros t i t' i' Hb Hb'. apply Sinj; unfold user_branch in *; by rewrite Em, Ec in *.
  - intros q f Hq. destruct (Spg q f Hq) as (H1 & H2 & H3 & H4 & H5 & H6). split_and!; try done. split_and!; auto.
Qed.

Lemma in_use_bump t3 t2 t1 lev n m U j x :
  0 <= j -> in_use t3 t2 t1 lev (n + 4096 * j) (m - j) U x -> in_use t3 t2 t1 lev n m U x.
Proof.
  intros Hj [H|[[F H]|H]]; [by left|right; left|by right; right]. split; [done|]. unfold upcoming in *. lia.
Qed.

(** The page of the thread's structure. *)
Definition thread_page (n : Z) : Z := u64 (n + virt_base).

(** Sums that do not wrap, from the inside out. *)
Ltac unwrap := repeat match goal with |- context [uwrap 64 ?z] =>
  lazymatch z with context [uwrap 64 _] => fail | _ => rewrite (uwrap_small 64 z) by lia end end.

(** The addresses of a page, of two pages behind it, and of the next one. *)
Lemma page_addresses v n :
  (vmmgr_alloc_page v 0).2 = u64 (n + virt_base) -> 0 <= n < 2 ^ 30 ->
  (vmmgr_alloc_page (vmmgr_alloc_page v 0).1 1).2 = thread_page (n + 4096) /\
  (vmmgr_alloc_page (vmmgr_alloc_page (vmmgr_alloc_page v 0).1 1).1 0).2 = u64 (n + 4096 * 3 + virt_base) /\
  thread_page n = n + virt_base /\ thread_page (n + 4096) = n + 4096 + virt_base.
Proof.
  intros Eb Hn. unfold vmmgr_alloc_page, VIRT_PAGE_SIZE, thread_page, virt_base in *.
  cbn [fst snd bump_addr prev_no_pages with_bump] in *. rewrite Eb. change (u16 0) with 0. change (u16 1) with 1.
  split_and!; unwrap; lia.
Qed.

(** ** The thread *)

(** The heap after the pages of the structure and of the kernel stack. *)
Definition user_thread_pages (h : MyAlloc.kheap) : MyAlloc.kheap :=
  MyAlloc.with_vm h (vmmgr_alloc_page (vmmgr_alloc_page (MyAlloc.vm h) 0).1 1).1.

(** What a new thread of a process has, its links apart. *)
Record user_thread (im : image) (k : kernel) (p stack : Z) (t : thread) : Prop := {
  ut_areas : mmap t = mmap (page_contents im p) /\ mmap_cache t = mmap_cache (page_contents im p);
  ut_stacks : krsp t = u64 (stack + 2 * VIRT_PAGE_SIZE - 8) /\ rsp t = UserStack + VIRT_PAGE_SIZE - 8;
  ut_pcr3 : pcr3 t = Paging.cr3 (vm_of k);
  ut_pid : pid t = s32 (nextFreePid k + 1);
  ut_ready : Kthread.ready t = true /\ kernel_thread t = 0
}.

Lemma create_user_spec im k nm prio la l p stack c :
  (vmmgr_alloc_page (vm_of k) 0).2 = p -> (vmmgr_alloc_page (vmmgr_alloc_page (vm_of k) 0).1 1).2 = stack ->
  p <> 0 -> stack <> 0 -> p ∉ la -> p ∉ l -> p <> currentThread k -> currentThread k <> 0 -> threads k !! currentThread k = Some c ->
  rep ThreadList (threads k) (allThreadList k) la -> rep ThreadQ (threads k) (runQueue k) l ->
  exists k' t, create_kthread_user im k nm prio true = Ret (k', p) /\
    rep ThreadList (threads k') (allThreadList k') (la ++ [p]) /\ rep ThreadQ (threads k') (runQueue k') l /\
    threads k' !! p = Some t /\ user_thread im k p stack t /\
    kheap k' = user_thread_pages (kheap k) /\ ptable k' = ptable k /\ nextFreePid k' = s32 (nextFreePid k + 1) /\
    currentThread k' = currentThread k /\ interrupts k' = interrupts k.
Proof.
  intros Ep Es Hp Hs Hpa Hpl Hpc Hc0 Hc Ha Hq. unfold create_kthread_user, new_thread_page.
  cbn [MyAlloc.sub_malloc mbind outcome_bind fst snd]. change (MyAlloc.vm (kheap k)) with (vm_of k). rewrite Ep.
  destruct (Z.eqb_spec p 0); [done|]. cbn [kheap with_threads with_kheap MyAlloc.vm MyAlloc.with_vm]. rewrite Es.
  unfold update_thread, update at 1. cbn [threads with_threads with_kheap].
  erewrite deref_eq by (done || apply lookup_insert_eq). rewrite !bind_Ret. destruct (Z.eqb_spec stack 0); [done|].
  unfold Init_Thread_user. cbn [threads currentThread with_kheap with_threads]. rewrite insert_insert_eq.
  match goal with |- context [deref (<[p := ?t]> (threads k)) p] => 
    rewrite (deref_eq (<[p := t]> (threads k)) p t Hp (lookup_insert_eq _ _ _)), bind_Ret;
    rewrite (deref_eq (<[p := t]> (threads k)) (currentThread k) c Hc0) by (by rewrite lookup_insert_ne) end.
  rewrite bind_Ret.
  destruct (Z.eqb_spec p (currentThread k)); [done|]. cbn [negb]. rewrite bind_Ret.
  unfold alllist_kthread, append_global_list_queue. cbn [threads allThreadList with_threads with_kheap with_pids alloc_pid fst snd].
  rewrite insert_insert_eq. match goal with |- context [append ThreadList _ p (<[p := ?t]> _)] => set (t0 := t) end.
  destruct (append_spec (F := ThreadList) (<[p := t0]> (threads k)) (allThreadList k) la p t0)
    as (q' & h' & -> & Ha' & R); [by apply seg_insert_fresh|done|done|apply lookup_insert_eq|].
  rewrite bind_Ret. cbn [fst snd]. destruct (relinked_data _ _ _ p t0 R) as (t & Ht & Ed); [apply lookup_insert_eq|].
  assert (forall A (f : thread -> A), (forall t, f (data t) = f t) -> f t = f t0) as Hf.
  { intros A f Hd. by rewrite <- (Hd t), Ed, Hd. }
  eexists _, t. split; [done|]. cbn [threads allThreadList runQueue ptable nextFreePid currentThread interrupts kheap
    with_threads with_allThreadList with_kheap with_pids alloc_pid fst].
  split_and!; try done.
  - apply (rep_relinked (F := ThreadList) (<[p := t0]> (threads k))); [done|by apply seg_insert_fresh].
  - split; [rewrite (Hf _ mmap), (Hf _ mmap_cache)|rewrite (Hf _ krsp), (Hf _ rsp)|rewrite (Hf _ pcr3)|rewrite (Hf _ pid)
      |rewrite (Hf _ Kthread.ready), (Hf _ kernel_thread)]; done.
Qed.

(** ** The program *)

(** What starting the program [pr] takes: pages of the kernel for the thread and
    for the tables of its pages, frames, heap chunks for its areas, a place in
    the process table, and a thread structure that starts without areas. *)
Record exec_ready (t3 t2 t1 r : Z) (im : image) (s : system) (pr : program) (lev : Z -> Z) (n m : Z) (U : gmap Z Z)
    (chs l la : list Z) : Prop := {
  er_space : space t3 t2 t1 r lev (vm_of (kern s)) n m U;
  er_pages : 3 * Z.of_nat (List.length (executable pr) + 2) + 3 <= m;
  er_frames : wf (frames (vm_of (kern s))) /\ room (List.length (executable pr) + 2) (frames (vm_of (kern s)));
  er_taken : forall x, in_use t3 t2 t1 lev n m U x -> taken (frames (vm_of (kern s))) x;
  er_chunks : chunks (kheap (kern s)) chs /\ List.length chs = (List.length (executable pr) + 2)%nat;
  er_distinct : NoDup chs /\ Forall (fun c => c <> 0) chs;
  er_segments : Forall fits_page (executable pr) /\ NoDup (image_pages pr) /\ Forall (fun q => U !! q = None) (image_pages pr);
  er_thread : mmap (page_contents im (thread_page n)) = 0 /\ mmap_cache (page_contents im (thread_page n)) = 0;
  er_fresh : (thread_page n ∉ la) /\ (thread_page n ∉ l) /\ thread_page n <> currentThread (kern s);
  er_current : currentThread (kern s) <> 0 /\ is_Some (threads (kern s) !! currentThread (kern s));
  er_all : rep ThreadList (threads (kern s)) (allThreadList (kern s)) la;
  er_run : rep ThreadQ (threads (kern s)) (runQueue (kern s)) l;
  er_table : List.length (ptable (kern s)) = 100%nat /\ 0 <= nextFreePid (kern s) < 99
}.

(** The thread, before its image. *)
Lemma exec_thread t3 t2 t1 r im s pr lev n m U chs l la nm :
  exec_ready t3 t2 t1 r im s pr lev n m U chs l la ->
  exists k t, create_kthread_user im (kern s) nm 10 true = Ret (k, thread_page n) /\
    rep ThreadList (threads k) (allThreadList k) (la ++ [thread_page n]) /\ rep ThreadQ (threads k) (runQueue k) l /\
    threads k !! thread_page n = Some t /\ user_thread im (kern s) (thread_page n) (thread_page (n + 4096)) t /\
    ptable k = ptable (kern s) /\ nextFreePid k = nextFreePid (kern s) + 1 /\ currentThread k = currentThread (kern s) /\
    mem (vm_of k) = mem (vm_of (kern s)) /\ Paging.cr3 (vm_of k) = Paging.cr3 (vm_of (kern s)) /\
    process t3 t2 t1 r (thread_page n) (with_kern s k) [] lev (n + 4096 * 3) (m - 3) U (List.length (executable pr) + 2) chs.
Proof.
  intros [HS Hm [Hwf Hroom] Htk [Hch Hlen] [Hnd Hnz] Hseg [Em Ec] (Hpa & Hpl & Hpc) [Hc0 [c Hc]] Ha Hq [Hpt Hpid]].
  pose proof (sp_next _ _ _ _ _ _ _ _ _ HS) as ([Hn _] & _ & H30). pose proof (sp_bump _ _ _ _ _ _ _ _ _ HS) as Eb.
  set (v := vm_of (kern s)) in *. destruct (page_addresses v n Eb ltac:(lia)) as (E2 & E3 & Ep & Es).
  assert (thread_page n <> 0 /\ thread_page (n + 4096) <> 0) as [Hp0 Hs0] by (rewrite Ep, Es; unfold virt_base; lia).
  destruct (create_user_spec im (kern s) nm 10 la l (thread_page n) (thread_page (n + 4096)) c)
    as (k & t & E & Ha' & Hq' & Ht & HT & Hh & Hpt' & Hnp & Hcur & _); try done.
  rewrite swrap_small in Hnp by lia.
  assert (vm_of k = (vmmgr_alloc_page (vmmgr_alloc_page v 0).1 1).1) as Hv by (unfold vm_of; by rewrite Hh).
  exists k, t. split_and!; try done; [by rewrite Hv..|].
  pose proof HT as [[Tm Tc] _ _ _ _]. split; cbn [kern with_kern]; rewrite ?Hv; try done.
  - split; [|constructor]. exists t. split_and!; [done|done|by rewrite Tm|by rewrite Tc].
  - apply (space_bump t3 t2 t1 r lev v n m U 3); (done || lia).
  - intros x Hx. apply Htk. by apply in_use_bump in Hx.
  - rewrite Hh. unfold user_thread_pages. by apply chunks_vm.
Qed.

(** The thread is entered into the process table and the run queue. *)
Lemma enter_thread k p t l la :
  rep ThreadQ (threads k) (runQueue k) l -> rep ThreadList (threads k) (allThreadList k) la -> p <> 0 -> p ∉ l ->
  threads k !! p = Some t -> List.length (ptable k) = 100%nat -> 0 <= pid t < 100 ->
  exists k' t', (k ← add_to_ptable k p; runnable_kthread (disable_interrupts k) p) = Ret k' /\
    rep ThreadQ (threads k') (runQueue k') (l ++ [p]) /\ rep ThreadList (threads k') (allThreadList k') la /\
    ptable k' !! Z.to_nat (pid t) = Some p /\ currentThread k' = currentThread k /\
    threads k' !! p = Some t' /\ data t' = data t /\ kheap k' = kheap k /\ stackmem k' = stackmem k.
Proof.
  intros Hq Ha Hp Hpl Ht Hlen Hpid. unfold add_to_ptable. rewrite (deref_eq _ _ _ Hp Ht), bind_Ret.
  rewrite array_set_lt, !bind_Ret by lia. unfold runnable_kthread, append_run_queue.
  destruct (append_spec (F := ThreadQ) (threads k) (runQueue k) l p t) as (q' & h' & E & Hr' & R); [done..|].
  cbn [threads runQueue disable_interrupts with_interrupts with_pids]. rewrite E, bind_Ret. cbn [fst snd].
  destruct (relinked_data _ _ _ p t R Ht) as (t' & Ht' & Ed). eexists _, t'. split; [done|].
  cbn [threads runQueue allThreadList ptable currentThread kheap stackmem with_threads with_runQueue with_interrupts with_pids].
  split_and!; try done.
  - by apply (rep_relinked (F := ThreadQ) (threads k)).
  - cbn. rewrite list_lookup_insert_eq; [done|lia].
Qed.

(** C9: [do_exec] starts a program that [readelf] finds, each segment of which
    fits one page: the new thread is at the end of the run queue and of the list
    of all threads and in the process table under its number; its image is in
    the address space, each segment with the bytes of the archive, the stack and
    the heap mapped, and every page that was there with the bytes it had; it
    owns the areas for them; and the frame on its kernel stack starts it at the
    program's entry, on the user stack, with the interrupts on. The page taken
    for the thread must read as zero where its area list is, which nothing
    initialises. *)
Theorem do_exec_starts t3 t2 t1 r im cs L mm s nm pr lev n m U chs l la :
  exec_ready t3 t2 t1 r im s pr lev n m U chs l la -> readelf L mm nm = Ret (Some pr) -> (forall a, 0 <= mm a < 256) ->
  let p := thread_page n in
  exists s' t lev' n' m' U', do_exec im cs L mm s nm = Ret (s', 1) /\
    rep ThreadQ (threads (kern s')) (runQueue (kern s')) (l ++ [p]) /\
    rep ThreadList (threads (kern s')) (allThreadList (kern s')) (la ++ [p]) /\
    ptable (kern s') !! Z.to_nat (nextFreePid (kern s) + 1) = Some p /\ interrupts (kern s') = true /\
    currentThread (kern s') = currentThread (kern s) /\ threads (kern s') !! p = Some t /\
    Kthread.ready t = true /\ pid t = nextFreePid (kern s) + 1 /\ pcr3 t = Paging.cr3 (vm_of (kern s)) /\ brk t = UserHeap /\
    frame_at (stackmem (kern s')) (krsp t) = start_regs (entry_point pr) (UserStack + VIRT_PAGE_SIZE - 8) /\
    process t3 t2 t1 r p s' chs lev' n' m' U' 0 [] /\
    (forall q, is_Some (U' !! q) <-> is_Some (U !! q) \/ q ∈ image_pages pr) /\
    Forall (loaded mm (vm_of (kern s'))) (executable pr) /\
    (forall q g o, U !! q = Some g -> 0 <= o < 4096 ->
      user_byte (vm_of (kern s')) (q + o) = user_byte (vm_of (kern s)) (q + o)).
Proof.
  intros HR Hpr Hmm p.
  destruct (exec_thread t3 t2 t1 r im s pr lev n m U chs l la nm HR)
    as (k & t0 & E1 & Ha & Hq & Ht0 & [_ [Uk Ur] Uc Up [Uy _]] & Hpt & Hpn & Hcur & Hmem & Hcr & HP). fold p in E1, Ha, Ht0, HP.
  destruct HR as [HS Hm _ _ [_ Hlen] _ (Hfit & Hnd & HU) _ (_ & Hpl & _) _ _ _ [Hlp Hpid]].
  pose proof (sp_next _ _ _ _ _ _ _ _ _ HS) as ([Hn _] & _ & H30).
  assert (krsp t0 = n + 4096 + virt_base + 8192 - 8) as Ek.
  { rewrite Uk. unfold thread_page, virt_base, VIRT_PAGE_SIZE. unwrap. lia. }
  destruct (build_image_spec t3 t2 t1 r cs mm p pr (with_kern s k) [] lev _ _ U chs t0 HP)
    as (s1 & lev' & n' & m' & U' & a & b & h & w & E2 & HP' & HD & HL & HB & Ek1 & Hfr); try done; [lia|rewrite Ek; unfold virt_base; lia|].
  cbn [kern with_kern] in *. rewrite swrap_small in Up by lia.
  destruct (pr_areas _ _ _ _ _ _ _ _ _ _ _ _ _ HP) as [(_ & Hp & _) _].
  assert (threads (kern s1) !! p = Some (image_thread a b t0)) as Ht1 by (rewrite Ek1; cbn; apply lookup_insert_eq).
  destruct (enter_thread (kern s1) p (image_thread a b t0) l (la ++ [p])) as (k2 & t & E3 & Hq2 & Ha2 & Hpt2 & Hc2 & Ht2 & Ed & Hh2 & Hst2); try done.
  { rewrite Ek1. cbn. by apply (rep_same_links ThreadQ (threads k) (runQueue k) l p t0). }
  { rewrite Ek1. cbn. by apply (rep_same_links ThreadList (threads k) (allThreadList k) _ p t0). }
  { rewrite Ek1. cbn. by rewrite Hpt. }
  { cbn [image_thread pid set_krsp set_brk set_areas]. lia. }
  assert (forall A (f : thread -> A), (forall x, f (data x) = f x) -> f t = f (image_thread a b t0)) as Hf.
  { intros A f Hd. by rewrite <- (Hd t), Ed, Hd. }
  exists (with_kern s1 (enable_interrupts k2)), t, lev', n', m', U'. cbn [kern with_kern].
  assert (vm_of (enable_interrupts k2) = vm_of (kern s1)) as Hv2 by (unfold vm_of; cbn; by rewrite Hh2).
  split_and!; rewrite ?Hv2; try done.
  - unfold do_exec. rewrite Hpr, bind_Ret, E1, bind_Ret. cbn [fst snd]. rewrite (proj2 (Z.eqb_neq _ _) Hp).
    rewrite E2, bind_Ret. apply bind_Ret_inv in E3 as (k3 & -> & E3). rewrite bind_Ret. by rewrite E3.
  - rewrite <- Up. exact Hpt2.
  - cbn. rewrite Hc2, Ek1. exact Hcur.
  - rewrite (Hf _ Kthread.ready) by done. exact Uy.
  - rewrite (Hf _ pid) by done. exact Up.
  - rewrite (Hf _ pcr3) by done. exact Uc.
  - by rewrite (Hf _ brk).
  - rewrite (Hf _ krsp) by done. cbn. rewrite Hst2, Ek1, <- Ur. exact Hfr.
  - apply (process_kernel t3 t2 t1 r p s1 (enable_interrupts k2) (image_thread a b t0) t _ _ _ _ _ _ _ HP' Ht1); try done.
    + by rewrite (Hf _ mmap).
    + by rewrite (Hf _ mmap_cache).
  - intros q g o Hg Ho. rewrite (HB q g o Hg Ho). unfold user_byte. by rewrite Hmem, Hcr.
Qed.

(** An archive of one program, of five bytes, under the name [a]; the name that
    is looked up is at 0x800. *)
Definition small_archive : bytes :=
  fold_right (fun (f : Z * Z) m => store64 m f.1 f.2) (fun _ => 0)
    [(0x800, 97); (0x1000, 97);
     (0x1218, 0x4000B8); (0x1220, 64); (0x1228, 0x100); (0x1238, 2); (0x1350, 0x4000B8);
     (0x1248, 0xB8); (0x1250, 0x4000B8); (0x1268, 5); (0x12B8, 0x0504030201)].

Definition small_layout : tar_layout := TarLayout 0x1000 0x1800 0x6000 0x8000 0xA000 0x7000.
Definition small_pr : program := Program 1 0x4000B8 [Exec 5 0x400000 0x4000B8 0x12B8].

Example small_readelf : readelf small_layout small_archive 0x800 = Ret (Some small_pr).
Proof. vm_compute. reflexivity. Qed.

Lemma small_ready :
  exec_ready 0x2000 0x3000 0x4000 0 demo_image bare_system small_pr bare_lev 0x15000 12 ∅ [0x510; 0x610; 0x710] [0x100] [0x100].
Proof.
  split.
  - exact bare_space.
  - cbn. lia.
  - split; by_computation.
  - exact bare_taken.
  - split; [exact bare_chunks|reflexivity].
  - split; by_computation.
  - split; [|split; by_computation]. constructor; [|constructor]. split; [by_computation|].
    exists 0xB8. split_and!; (reflexivity || by_computation).
  - split; reflexivity.
  - split_and!; by_computation.
  - split; [by_computation|]. eexists. reflexivity.
  - split; [reflexivity|reflexivity|by_computation|by_computation|]. split; [by eexists|done].
  - split; [reflexivity|reflexivity|by_computation|by_computation|]. split; [by eexists|done].
  - split; by_computation.
Qed.

(** The program is started, and reads its third byte. *)
Example do_exec_starts_witness :
  exists s' t, do_exec demo_image 0 small_layout small_archive bare_system 0x800 = Ret (s', 1) /\
    threads (kern s') !! thread_page 0x15000 = Some t /\
    frame_at (stackmem (kern s')) (krsp t) = start_regs 0x4000B8 0xbffff8 /\
    user_byte (vm_of (kern s')) 0x4000BA = Some 3.
Proof.
  destruct (do_exec_starts 0x2000 0x3000 0x4000 0 demo_image 0 small_layout small_archive bare_system 0x800 small_pr bare_lev
    0x15000 12 ∅ _ _ _ small_ready small_readelf)
    as (s' & t & lev' & n' & m' & U' & E & _ & _ & _ & _ & _ & Ht & _ & _ & _ & _ & Hf & _ & _ & HL & _).
  - unfold small_archive. cbn [fold_right]. do 11 apply store_le_ok. done.
  - exists s', t. split_and!; [exact E|exact Ht|exact Hf|]. apply Forall_cons in HL as [HL _].
    exact (HL 2 ltac:(split; [done|reflexivity])).
Defined.
