(* ===== verification/Fork.v ===== *)
(** * fork (fork of sys/isr.c)

    The child's address space, clone_pgdir and copy_page_table of
    sys/mm/vmmgr_virtual.c together, and the child's thread. *)

From S2P Require Import Prelude CString Bitmap PhysMem PageEntry Paging MapPage KHeap Queues Kthread Process.
From S2P Require Import TarFs PageFault CopyTables UserBytes AddressSpace Image Exec.

(** ** Loops over one entry *)

(** A table with one entry, followed by a null one. *)
Lemma for_nonnull_one p body st st' a :
  vload st (u64 (p + 8 * 0)) = Ret a -> a <> 0 -> body 0 st = Ret st' -> vload st' (u64 (p + 8 * 1)) = Ret 0 ->
  for_nonnull COUNTER_RANGE p 0 body st = Ret st'.
Proof.
  intros E0 Ha Eb E1. replace COUNTER_RANGE with (S (S (Z.to_nat 65534))) by (unfold COUNTER_RANGE; lia).
  cbn [for_nonnull]. rewrite E0, bind_Ret, (proj2 (Z.eqb_neq _ _) Ha), Eb, bind_Ret.
  change (u16 (0 + 1)) with 1. cbn [for_nonnull]. by rewrite E1, bind_Ret.
Qed.

(** ** The child's top-level table *)

(** The recursive entry, as [clone_pgdir] puts it together. *)
Lemma own_entry f : frame_addr f -> Z.lor (Z.lor (Z.lor f PTE_USER) PTE_PRESENT) PTE_WRITABLE = set_page_entry 0 f true.
Proof.
  intros Hf. change PTE_USER with (2 ^ 2). change PTE_PRESENT with (2 ^ 0). change PTE_WRITABLE with (2 ^ 1).
  bitwise i Hi. rewrite set_page_entry_bits, !pow2_testbit by (done || lia). rewrite Z.bits_0.
  destruct (in_bits 12 44 i) eqn:Hb.
  - unfold in_bits in Hb. destruct (Z.eqb_spec i 0), (Z.eqb_spec i 1), (Z.eqb_spec i 2), (Z.leb_spec 12 i); try lia; try done.
    by rewrite !orb_false_r.
  - rewrite (frame_addr_bits f i) by done. by destruct (i =? 0), (i =? 1), (i =? 2).
Qed.

Lemma alloc_n_cr3 k v : Paging.cr3 (alloc_n k v) = Paging.cr3 v.
Proof. induction k as [|k IH]; [done|exact IH]. Qed.

(** The current address space, for a fork: its user half is one page directory,
    in frame [d], below the table in frame [P]; the program reaches the top-level
    table at the address [pp].  The page for the child's top-level table is [C]
    and the bump allocator's next ones follow it; the window shows all of them,
    and none is used twice. *)
Record fork_space (F : list Z) (v : vmm) (pp C P d : Z) : Prop := {
  fs_ready : ready F v;
  fs_top : forall m' i, (forall a, ~ in_frames F a -> m' a = mem v a) -> 0 <= i < 512 ->
    translate m' (Paging.cr3 v) (u64 (pp + 8 * i)) = Some (Paging.cr3 v + 8 * i);
  fs_root : forall i, 0 <= i < 512 -> ~ in_frames F (Paging.cr3 v + 8 * i);
  fs_frames : Forall (fun f => f ∈ F) [P; d; C; C + 4096; C + 8192] /\ NoDup [P; d; C; C + 4096; C + 8192];
  fs_bump : (vmmgr_alloc_page v 0).2 = u64 (C + 4096 + virt_base);
  fs_words : entry_ok (mem v (Paging.cr3 v + 8 * 0)) /\ forall i l, 0 <= i < 512 -> 0 <= l < 512 -> entry_at (mem v) d i <> 0 ->
    entry_ok (mem v (table_at (mem v) d i + 8 * l));
  fs_path : walk (mem v) (Paging.cr3 v) 0 = Some P /\ walk (mem v) P 0 = Some d;
  fs_last : mem v (Paging.cr3 v + 8 * 1) = 0 /\ mem v (P + 8 * 1) = 0;
  fs_present : forall i, 0 <= i < 512 -> entry_at (mem v) d i <> 0 -> present (entry_at (mem v) d i) = true;
  fs_tables : forall i, 0 <= i < 512 -> entry_at (mem v) d i <> 0 ->
    table_at (mem v) d i ∈ F /\ table_at (mem v) d i ∉ [P; d; C; C + 4096; C + 8192];
  fs_inj : forall i k, 0 <= i < 512 -> 0 <= k < 512 -> entry_at (mem v) d i <> 0 -> entry_at (mem v) d k <> 0 ->
    table_at (mem v) d i = table_at (mem v) d k -> i = k;
  fs_new : forall i, 0 <= i < 512 -> entry_at (mem v) d i <> 0 ->
    let f := new_at (mem v) d (C + 12288) i in
    f ∈ F /\ f ∉ [P; d; C; C + 4096; C + 8192] /\
    forall k, 0 <= k < 512 -> entry_at (mem v) d k <> 0 -> f <> table_at (mem v) d k
}.

Section copy.
Context (F : list Z) (v : vmm) (pp C P d : Z) (HF : fork_space F v pp C P d).
#[local] Abbreviation c := (Paging.cr3 v).

Lemma top_load m i : (forall a, ~ in_frames F a -> m a = mem v a) -> 0 <= i < 512 ->
  forall w, Paging.cr3 w = c -> vload (with_mem w m) (u64 (pp + 8 * i)) = Ret (mem v (c + 8 * i)).
Proof.
  intros Hm Hi w Hw. unfold vload. change (Paging.cr3 (with_mem w m)) with (Paging.cr3 w). rewrite Hw. cbn [mem with_mem].
  rewrite (fs_top _ _ _ _ _ _ HF m i Hm Hi). by rewrite Hm by (by apply (fs_root _ _ _ _ _ _ HF)).
Qed.

Lemma fork_frames_in : P ∈ F /\ d ∈ F /\ C ∈ F /\ C + 4096 ∈ F /\ C + 8192 ∈ F.
Proof. pose proof (proj1 (fs_frames _ _ _ _ _ _ HF)) as H. rewrite !Forall_cons in H. tauto. Qed.

(** The child's table has the entries of the parent's but for the recursive one. *)
Lemma clone_pgdir_spec :
  exists m, clone_pgdir v pp (u64 (C + virt_base)) = Ret (with_mem v m) /\
    (forall i, 0 <= i < 512 -> i <> 510 -> m (C + 8 * i) = mem v (c + 8 * i)) /\ m (C + 8 * 510) = set_page_entry 0 C true /\
    (forall a, (forall i, 0 <= i < 512 -> a <> C + 8 * i) -> m a = mem v a).
Proof.
  destruct fork_frames_in as (_ & _ & HC & _). pose proof (fs_ready _ _ _ _ _ _ HF) as HW. unfold clone_pgdir.
  destruct (for_loop_ind (fun k s => exists m, s = with_mem v m /\ (forall i, 0 <= i < k -> m (C + 8 * i) = mem v (c + 8 * i)) /\
      (forall a, (forall i, 0 <= i < 512 -> a <> C + 8 * i) -> m a = mem v a))
    (fun i st => w ← vload st (u64 (pp + 8 * i)); vstore st (u64 (u64 (C + virt_base) + 8 * i)) w) 512 0 v)
    as (s & -> & m & -> & Hm & Ho).
  - exists (mem v). split; [by destruct v|]. split; [lia|done].
  - intros k s Hk (m & -> & Hm & Ho).
    assert (forall a, ~ in_frames F a -> m a = mem v a) as HmF.
    { intros a Ha. apply Ho. intros i Hi ->. apply Ha. exists C. split; [done|lia]. }
    rewrite (top_load m k HmF ltac:(lia) v eq_refl), bind_Ret. fold (at_window C k).
    assert (ready F (with_mem v m)) as HWm by (eapply windowed_write; [exact HW|exact HmF]).
    rewrite (window_store F _ HWm) by (done || lia). eexists. split; [done|]. eexists. split; [reflexivity|].
    cbn [mem with_mem]. unfold mem_set. split.
    + intros i Hi. destruct (Z.eqb_spec (C + 8 * i) (C + 8 * k)); [do 2 f_equal; lia|]. apply Hm. lia.
    + intros a Ha. destruct (Z.eqb_spec a (C + 8 * k)) as [->|]; [exfalso; apply (Ha k); lia|by apply Ho].
  - rewrite bind_Ret. assert (forall a, ~ in_frames F a -> m a = mem v a) as HmF.
    { intros a Ha. apply Ho. intros i Hi ->. apply Ha. exists C. split; [done|lia]. }
    assert (ready F (with_mem v m)) as HWm by (eapply windowed_write; [exact HW|exact HmF]).
    rewrite (frame_of_window F v C HW HC). fold (at_window C 510). rewrite (window_store F _ HWm), bind_Ret by (done || lia).
    set (v2 := with_mem _ _). assert (ready F v2) as HW2 by (apply (ready_set F); (done || lia)).
    rewrite (window_load F v2 HW2), bind_Ret by (done || lia). rewrite (window_store F v2 HW2) by (done || lia).
    unfold v2. cbn [mem with_mem]. eexists. split; [reflexivity|]. unfold mem_set. rewrite !Z.eqb_refl. split_and!.
    + intros i Hi Hne. rewrite !(proj2 (Z.eqb_neq _ _)) by lia. apply Hm. lia.
    + apply own_entry. by eapply frame_addr_window.
    + intros a Ha. rewrite !(proj2 (Z.eqb_neq _ _)) by (apply Ha; lia). by apply Ho.
Qed.

(** The tables of directories, before the directory is copied: the child's is
    zeroed and linked. *)
Lemma fork_tables_linked m1 :
  (forall i, 0 <= i < 512 -> i <> 510 -> m1 (C + 8 * i) = mem v (c + 8 * i)) -> m1 (C + 8 * 510) = set_page_entry 0 C true ->
  (forall a, (forall i, 0 <= i < 512 -> a <> C + 8 * i) -> m1 a = mem v a) ->
  exists m2, (r ← new_table 4096 (with_mem v m1);
      st ← vset_entry set_pml4_entry r.1 (u64 (u64 (C + virt_base) + 8 * 0)) (u64 (r.2 - virt_base)) true;
      Ret (st, r.2)) = Ret (with_mem (alloc_n 1 v) m2, u64 (C + 4096 + virt_base)) /\
    m2 (C + 8 * 0) = set_page_entry (mem v (c + 8 * 0)) (C + 4096) true /\
    (forall i, 0 < i < 512 -> m2 (C + 8 * i) = m1 (C + 8 * i)) /\
    (forall i, 0 <= i < 512 -> m2 (C + 4096 + 8 * i) = 0) /\
    (forall a, (forall i, 0 <= i < 512 -> a <> C + 8 * i /\ a <> C + 4096 + 8 * i) -> m2 a = mem v a).
Proof.
  intros HA H510 Ho. destruct fork_frames_in as (_ & _ & HC & HQ & _). pose proof (fs_ready _ _ _ _ _ _ HF) as HW.
  assert (ready F (with_mem v m1)) as HW1.
  { eapply windowed_write; [exact HW|]. intros a Ha. apply Ho. intros i Hi ->. apply Ha. exists C. split; [done|lia]. }
  destruct (new_table_spec F (with_mem v m1) (C + 4096) 512 HW1 HQ ltac:(lia) (fs_bump _ _ _ _ _ _ HF)) as (m2 & E & Hz & Ho2).
  change (8 * 512) with 4096 in E. rewrite E, bind_Ret. cbn [fst snd mem with_mem] in *.
  change (with_mem (vmmgr_alloc_page (with_mem v m1) 0).1 m2) with (with_mem (alloc_n 1 v) m2).
  assert (ready F (with_mem (alloc_n 1 v) m2)) as HW2.
  { eapply windowed_write; [exact HW1|]. intros a Ha. apply Ho2. intros i Hi ->. apply Ha. exists (C + 4096). split; [done|lia]. }
  assert (forall i, 0 <= i < 512 -> m2 (C + 8 * i) = m1 (C + 8 * i)) as HC2.
  { intros i Hi. apply Ho2. lia. }
  rewrite (frame_of_window F v (C + 4096) HW HQ). fold (at_window C 0). unfold vset_entry.
  rewrite (window_load F _ HW2), bind_Ret, (window_store F _ HW2), bind_Ret by (done || lia). cbn [mem with_mem].
  rewrite HC2, HA by lia. eexists. split; [reflexivity|]. unfold mem_set. rewrite Z.eqb_refl. split_and!.
  - done.
  - intros i Hi. rewrite (proj2 (Z.eqb_neq _ _)) by lia. apply HC2. lia.
  - intros i Hi. rewrite (proj2 (Z.eqb_neq _ _)) by lia. by apply Hz.
  - intros a Ha. rewrite (proj2 (Z.eqb_neq _ _)) by (apply (Ha 0); lia).
    rewrite Ho2 by (intros i Hi; by apply Ha). apply Ho. intros i Hi. by apply Ha.
Qed.

#[local] Abbreviation Q := (C + 4096).
#[local] Abbreviation d' := (C + 8192).

(** The tables as [fork_tables_linked] leaves them. *)
Record linked (m2 : Z -> Z) : Prop := {
  ln_first : m2 (C + 8 * 0) = set_page_entry (mem v (c + 8 * 0)) Q true;
  ln_copied : forall i, 0 < i < 512 -> i <> 510 -> m2 (C + 8 * i) = mem v (c + 8 * i);
  ln_own : m2 (C + 8 * 510) = set_page_entry 0 C true;
  ln_zero : forall i, 0 <= i < 512 -> m2 (Q + 8 * i) = 0;
  ln_rest : forall a, (forall i, 0 <= i < 512 -> a <> C + 8 * i /\ a <> Q + 8 * i) -> m2 a = mem v a
}.

Lemma fork_frame_addr f : f ∈ F -> frame_addr f.
Proof. intros Hf. eapply frame_addr_window; [exact (fs_ready _ _ _ _ _ _ HF)|done]. Qed.

Lemma fork_slot f g i j : f ∈ F -> g ∈ F -> f <> g -> 0 <= i < 512 -> 0 <= j < 512 -> f + 8 * i <> g + 8 * j.
Proof. intros Hf Hg Hne Hi Hj E. by destruct (window_slot F v (fs_ready _ _ _ _ _ _ HF) f g i j). Qed.

Lemma linked_frame m2 f i : linked m2 -> f ∈ F -> f <> C -> f <> Q -> 0 <= i < 512 -> m2 (f + 8 * i) = mem v (f + 8 * i).
Proof.
  intros HL Hf HfC HfQ Hi. destruct fork_frames_in as (_ & _ & HC & HQ & _). apply (ln_rest _ HL).
  intros j Hj. split; apply fork_slot; done.
Qed.

Lemma linked_ready m2 k : linked m2 -> ready F (with_mem (alloc_n k v) m2).
Proof.
  intros HL. destruct fork_frames_in as (_ & _ & HC & HQ & _). unfold ready. cbn [mem with_mem].
  assert (Paging.cr3 (with_mem (alloc_n k v) m2) = c) as -> by (induction k as [|k IH]; [done|exact IH]).
  eapply windowed_write; [exact (fs_ready _ _ _ _ _ _ HF)|]. intros a Ha. apply (ln_rest _ HL).
  intros i Hi. split; intros ->; apply Ha; [exists C|exists Q]; (split; [done|lia]).
Qed.

Lemma linked_fork_ok m2 : linked m2 -> fork_ok F (with_mem (alloc_n 1 v) m2) P Q 0 d d'.
Proof.
  intros HL. destruct fork_frames_in as (HP & Hd & HC & HQ & Hd').
  pose proof (proj2 (fs_frames _ _ _ _ _ _ HF)) as Hnd. rewrite !NoDup_cons, !not_elem_of_cons in Hnd.
  destruct Hnd as ((HPd & HPC & HPQ & HPd' & _) & (HdC & HdQ & Hdd' & _) & _).
  assert (forall i, 0 <= i < 512 -> entry_at m2 d i = entry_at (mem v) d i) as Hent by (intros i Hi; by apply linked_frame).
  assert (forall i, 0 <= i < 512 -> table_at m2 d i = table_at (mem v) d i) as Htab
    by (intros i Hi; unfold table_at; by rewrite Hent).
  split; cbn [mem with_mem].
  - by apply linked_ready.
  - lia.
  - split; [by rewrite !Forall_cons|]. rewrite !NoDup_cons, !not_elem_of_cons. split_and!; try (by apply not_elem_of_nil); try done;
      try (by apply not_eq_sym); try lia. by apply NoDup_nil_2.
  - rewrite linked_frame by done. destruct (fs_path _ _ _ _ _ _ HF) as [_ W]. unfold walk in W. cbv zeta in W.
    destruct (present _); [by injection W|done].
  - change (vmmgr_alloc_page (with_mem (alloc_n 1 v) m2) 0).2 with (vmmgr_alloc_page (alloc_n 1 v) 0).2.
    rewrite (alloc_n_address v Q 1 (fs_bump _ _ _ _ _ _ HF)). f_equal. lia.
  - split; [rewrite (ln_zero _ HL) by lia; by_computation|]. intros i l Hi Hl. rewrite Hent, Htab by done. intros E0.
    destruct (fs_tables _ _ _ _ _ _ HF i Hi E0) as [H1 H2]. rewrite linked_frame; [|done|done|set_solver|set_solver|done].
    by apply (fs_words _ _ _ _ _ _ HF).
  - intros i Hi. rewrite Hent by done. by apply (fs_present _ _ _ _ _ _ HF).
  - intros i Hi. rewrite Hent, Htab by done. intros E0. destruct (fs_tables _ _ _ _ _ _ HF i Hi E0) as [H1 H2].
    split; [done|]. clear -H2. set_solver.
  - intros i k Hi Hk. rewrite !Hent, !Htab by done. by apply (fs_inj _ _ _ _ _ _ HF).
  - intros i Hi. rewrite Hent by done. intros E0. cbv zeta. rewrite (new_at_ext (mem v)) by (done || lia).
    replace (d' + 4096) with (C + 12288) by lia. destruct (fs_new _ _ _ _ _ _ HF i Hi E0) as (H1 & H2 & H3).
    split; [done|]. split; [clear -H2; set_solver|]. intros k Hk. rewrite Hent, Htab by done. by apply H3.
Qed.

(** Words the copy of the directory leaves: those of other frames of the window
    and those outside of it. *)
Lemma kept_frame m2 f i : linked m2 -> f ∈ [P; d; C] -> 0 <= i < 512 -> kept_by_copy (with_mem (alloc_n 1 v) m2) Q 0 d d' (f + 8 * i).
Proof.
  intros HL Hf Hi. pose proof (linked_fork_ok m2 HL) as HK.
  destruct (fork_frames_in) as (HP & Hd & HC & HQ & Hd').
  pose proof (proj2 (fs_frames _ _ _ _ _ _ HF)) as Hnd. rewrite !NoDup_cons, !not_elem_of_cons in Hnd.
  destruct Hnd as ((HPd & HPC & HPQ & HPd' & _) & (HdC & HdQ & Hdd' & _) & _).
  assert (f ∈ F /\ f <> Q /\ f <> d') as (HfF & HfQ & Hfd).
  { rewrite !elem_of_cons in Hf. destruct Hf as [->|[->|[->|Hf]]]; [| | |by apply elem_of_nil in Hf]; (split_and!; [done|done || lia..]). }
  split; [by apply fork_slot|]. split; [intros j Hj; by apply fork_slot|].
  intros j l Hj Hl E0. cbn [mem with_mem] in *.
  assert (entry_at m2 d j = entry_at (mem v) d j) as Ee by (by apply linked_frame). unfold table_at. rewrite Ee in E0 |- *.
  fold (table_at (mem v) d j). destruct (fs_tables _ _ _ _ _ _ HF j Hj E0) as [H1 H2].
  destruct (fs_new _ _ _ _ _ _ HF j Hj E0) as (H3 & H4 & _). rewrite (new_at_ext (mem v)) by (lia || (intros k Hk; by apply linked_frame)).
  replace (d' + 4096) with (C + 12288) by lia.
  split; apply fork_slot; try done; intros ->; set_solver.
Qed.

Lemma kept_outside m2 a : linked m2 -> ~ in_frames F a -> kept_by_copy (with_mem (alloc_n 1 v) m2) Q 0 d d' a.
Proof.
  intros HL Ha. destruct (fork_frames_in) as (HP & Hd & HC & HQ & Hd').
  pose proof (proj2 (fs_frames _ _ _ _ _ _ HF)) as Hnd. rewrite !NoDup_cons, !not_elem_of_cons in Hnd.
  destruct Hnd as ((HPd & HPC & HPQ & HPd' & _) & (HdC & HdQ & Hdd' & _) & _).
  assert (forall f i, f ∈ F -> 0 <= i < 512 -> a <> f + 8 * i) as H by (intros f i Hf Hi ->; apply Ha; exists f; split; [done|lia]).
  split; [by apply H|]. split; [intros i Hi; by apply H|].
  intros j l Hj Hl E0. cbn [mem with_mem] in *.
  assert (entry_at m2 d j = entry_at (mem v) d j) as Ee by (by apply linked_frame). unfold table_at. rewrite Ee in E0 |- *.
  fold (table_at (mem v) d j). destruct (fs_tables _ _ _ _ _ _ HF j Hj E0) as [H1 H2].
  destruct (fs_new _ _ _ _ _ _ HF j Hj E0) as (H3 & H4 & _).
  rewrite (new_at_ext (mem v)) by (lia || (intros k Hk; by apply linked_frame)).
  replace (d' + 4096) with (C + 12288) by lia. split; by apply H.
Qed.

(** The child's tables: its own recursive entry, the kernel's entries, and a path
    of its own to a directory that shares every page with the parent's. *)
Lemma copy_page_table_spec m1 :
  (forall i, 0 <= i < 512 -> i <> 510 -> m1 (C + 8 * i) = mem v (c + 8 * i)) -> m1 (C + 8 * 510) = set_page_entry 0 C true ->
  (forall a, (forall i, 0 <= i < 512 -> a <> C + 8 * i) -> m1 a = mem v a) ->
  exists k m, copy_page_table pp (u64 (C + virt_base)) true (with_mem v m1) = Ret (with_mem (alloc_n k v) m) /\
    walk m C 0 = Some Q /\ walk m Q 0 = Some d' /\ walk m C 510 = Some C /\
    (forall i, 0 < i < 512 -> i <> 510 -> m (C + 8 * i) = mem v (c + 8 * i)) /\
    (forall i, 0 <= i < 512 -> m (P + 8 * i) = mem v (P + 8 * i)) /\
    (forall a, ~ in_frames F a -> m a = mem v a) /\ shared (mem v) m d d'.
Proof.
  intros HA H510 Ho. destruct (fork_frames_in) as (HP & Hd & HC & HQ & Hd').
  pose proof (proj2 (fs_frames _ _ _ _ _ _ HF)) as Hnd. rewrite !NoDup_cons, !not_elem_of_cons in Hnd.
  destruct Hnd as ((HPd & HPC & HPQ & HPd' & _) & (HdC & HdQ & Hdd' & _) & _).
  destruct (fs_path _ _ _ _ _ _ HF) as [WP Wd]. destruct (fs_last _ _ _ _ _ _ HF) as [Hc1 HP1].
  destruct (fork_tables_linked m1 HA H510 Ho) as (m2 & E2 & Hfirst & Hcop & Hzero & Hrest).
  assert (linked m2) as HL.
  { split; try done; [intros i Hi Hne; by rewrite Hcop, HA by lia|by rewrite Hcop by lia]. }
  destruct (copy_pdpe_entry_spec F _ P Q 0 d d' true (linked_fork_ok m2 HL)) as (k & m & E & WQ & Hsh & HW & Hk).
  rewrite alloc_n_mem in E, HW. cbn [mem with_mem] in Hsh, Hk.
  assert (forall i, Paging.cr3 (alloc_n i v) = c) as Hcr by (intros i; induction i as [|i IH]; [done|exact IH]).
  assert (forall a, ~ in_frames F a -> m2 a = mem v a) as Hm2.
  { intros a Ha. apply Hrest. intros i Hi. split; intros ->; apply Ha; [exists C|exists Q]; (split; [done|lia]). }
  assert (forall a, ~ in_frames F a -> m a = mem v a) as Hm.
  { intros a Ha. rewrite Hk by (by apply kept_outside). by apply Hm2. }
  assert (forall f i, f ∈ [P; d; C] -> 0 <= i < 512 -> m (f + 8 * i) = m2 (f + 8 * i)) as Hkf.
  { intros f i Hf Hi. by apply Hk, kept_frame. }
  assert (forall i, 0 <= i < 512 -> m (P + 8 * i) = mem v (P + 8 * i)) as HmP.
  { intros i Hi. rewrite Hkf by (done || in_list). by apply linked_frame. }
  exists (k + 1)%nat, m. split; [|split; [|split; [exact WQ|split; [|split; [|split; [exact HmP|split; [exact Hm|]]]]]]].
  - unfold copy_page_table. eapply for_nonnull_one.
    + apply top_load; [|lia|done]. intros a Ha. apply Ho. intros i Hi ->. apply Ha. exists C. split; [done|lia].
    + intros E0. unfold walk in WP. cbv zeta in WP. by rewrite E0 in WP.
    + apply bind_Ret_inv in E2 as (r0 & -> & E2). rewrite bind_Ret. apply bind_Ret_inv in E2 as (st & -> & E2).
      rewrite bind_Ret. injection E2 as -> ->. unfold entry_window at 1.
      rewrite top_load, bind_Ret by (done || lia || apply Hcr).
      assert (PAGE_PHYSICAL_ADDRESS (mem v (c + 8 * 0)) = P) as ->.
      { unfold walk in WP. cbv zeta in WP. destruct (present _); [by injection WP|done]. }
      rewrite bind_Ret. eapply for_nonnull_one.
      * fold (at_window P 0). rewrite (window_load F _ (linked_ready m2 1 HL)) by (done || lia). cbn [mem with_mem].
        rewrite linked_frame by (done || lia). reflexivity.
      * intros E0. unfold walk in Wd. cbv zeta in Wd. by rewrite E0 in Wd.
      * exact E.
      * fold (at_window P 1). rewrite (window_load F _ HW) by (done || lia). cbn [mem with_mem]. by rewrite HmP, HP1 by lia.
    + rewrite top_load by (done || lia || apply Hcr). by rewrite Hc1.
  - unfold walk. cbv zeta. rewrite Hkf, Hfirst by (lia || in_list).
    rewrite set_page_entry_present, set_page_entry_phys; [done|apply (fs_words _ _ _ _ _ _ HF)|by apply fork_frame_addr
      |apply (fs_words _ _ _ _ _ _ HF)|by apply fork_frame_addr].
  - unfold walk. cbv zeta. rewrite Hkf, (ln_own _ HL) by (lia || in_list).
    rewrite set_page_entry_present, set_page_entry_phys; [done|by_computation|by apply fork_frame_addr|lia|by apply fork_frame_addr].
  - intros i Hi Hne. rewrite Hkf by (lia || in_list). by apply (ln_copied _ HL).
  - assert (forall i l, 0 <= i < 512 -> 0 <= l < 512 -> walk2 m2 d i l = walk2 (mem v) d i l) as Hw2.
    { intros i l Hi Hl. unfold walk2, walk. cbv zeta. rewrite (linked_frame m2 d i) by done.
      destruct (present (mem v (d + 8 * i))) eqn:Ep; [|done]. cbn [mbind option_bind].
      destruct (decide (entry_at (mem v) d i = 0)) as [E0|E0]; [unfold entry_at in E0; by rewrite E0 in Ep|].
      destruct (fs_tables _ _ _ _ _ _ HF i Hi E0) as [H1 H2].
      change (PAGE_PHYSICAL_ADDRESS (mem v (d + 8 * i))) with (table_at (mem v) d i).
      rewrite (linked_frame m2 (table_at (mem v) d i) l); [done|done|done| | |done]; intros E1; rewrite E1 in H2; apply H2; in_list. }
    destruct Hsh as [S1 S2 S3]. split; [intros i l Hi Hl; by rewrite S1, Hw2|intros i l Hi Hl; by rewrite S2, Hw2|done].
Qed.
End copy.

(** ** What the two address spaces translate *)

(** The entry that maps a page. *)
Definition page_entry (m : Z -> Z) (top va : Z) : option Z :=
  t3 ← walk m top (PAGE_PML4_OFFSET va);
  t2 ← walk m t3 (PAGE_POINTER_OFFSET va);
  t1 ← walk m t2 (PAGE_DIRECTORY_OFFSET va);
  Some (m (t1 + 8 * PAGE_TABLE_OFFSET va)).

(** An address below 1 GiB goes through the first entry of the two upper tables. *)
Lemma low_offsets va : 0 <= va < 2 ^ 30 -> PAGE_PML4_OFFSET va = 0 /\ PAGE_POINTER_OFFSET va = 0.
Proof. intros Hva. autorewrite with offsets. split; Z.to_euclidean_division_equations; lia. Qed.

Lemma translate_low m top P d va :
  walk m top 0 = Some P -> walk m P 0 = Some d -> 0 <= va < 2 ^ 30 ->
  translate m top va = (fun f => f + Z.land va 0xFFF) <$> walk2 m d (PAGE_DIRECTORY_OFFSET va) (PAGE_TABLE_OFFSET va).
Proof.
  intros W1 W2 Hva. destruct (low_offsets va Hva) as [E4 E3]. unfold translate, walk2. rewrite E4, E3, W1. cbn [mbind option_bind].
  rewrite W2. cbn [mbind option_bind]. destruct (walk m d _) as [t|]; [|done]. cbn [mbind option_bind]. by destruct (walk m t _).
Qed.

Lemma page_entry_cow m top P d va e :
  walk m top 0 = Some P -> walk m P 0 = Some d -> all_cow m d -> 0 <= va < 2 ^ 30 -> page_entry m top va = Some e ->
  Z.testbit e 1 = false /\ Z.testbit e 62 = true.
Proof.
  intros W1 W2 Hcow Hva. destruct (low_offsets va Hva) as [E4 E3]. unfold page_entry. rewrite E4, E3, W1. cbn [mbind option_bind].
  rewrite W2. cbn [mbind option_bind]. destruct (walk m d _) as [t|] eqn:Wt; [|done]. cbn [mbind option_bind]. intros [= <-].
  pose proof (offsets_range va) as (_ & _ & H2 & H1). by apply (Hcow _ _ t H2 H1 Wt).
Qed.

(** The memory [m] after a fork of the address space of [v], whose child has its
    top-level table in [C]: below 1 GiB both translate as the parent did, every
    page is copy-on-write and read-only in both, and the child has the kernel's
    entries and a recursive one. *)
Record forked (v : vmm) (C : Z) (m : Z -> Z) : Prop := {
  fk_pages : forall va, 0 <= va < 2 ^ 30 ->
    translate m C va = translate (mem v) (Paging.cr3 v) va /\ translate m (Paging.cr3 v) va = translate (mem v) (Paging.cr3 v) va;
  fk_cow : forall top va e, top ∈ [C; Paging.cr3 v] -> 0 <= va < 2 ^ 30 -> page_entry m top va = Some e ->
    Z.testbit e 1 = false /\ Z.testbit e 62 = true;
  fk_kernel : forall i, 256 <= i < 512 -> i <> 510 -> walk m C i = walk (mem v) (Paging.cr3 v) i;
  fk_own : walk m C 510 = Some C
}.

Lemma fork_pages F v pp C P d :
  fork_space F v pp C P d ->
  exists k m, (st ← clone_pgdir v pp (u64 (C + virt_base)); copy_page_table pp (u64 (C + virt_base)) true st) =
      Ret (with_mem (alloc_n k v) m) /\ forked v C m /\ forall a, ~ in_frames F a -> m a = mem v a.
Proof.
  intros HF. destruct (clone_pgdir_spec F v pp C P d HF) as (m1 & -> & HA & H510 & Ho). rewrite bind_Ret.
  destruct (copy_page_table_spec F v pp C P d HF m1 HA H510 Ho) as (k & m & E & WQ & Wd' & Wown & Hker & HmP & Hm & [S1 S2 [S3 S4]]).
  exists k, m. split; [exact E|]. split; [|exact Hm]. destruct (fs_path _ _ _ _ _ _ HF) as [WP Wd].
  assert (forall i, 0 <= i < 512 -> walk m (Paging.cr3 v) i = walk (mem v) (Paging.cr3 v) i) as Hc.
  { intros i Hi. unfold walk. cbv zeta. by rewrite Hm by (by apply (fs_root _ _ _ _ _ _ HF)). }
  assert (walk m (Paging.cr3 v) 0 = Some P) as WP' by (by rewrite Hc by lia).
  assert (walk m P 0 = Some d) as Wd0 by (unfold walk in *; cbv zeta in *; by rewrite HmP by lia).
  split.
  - intros va Hva. pose proof (offsets_range va) as (_ & _ & H2 & H1).
    rewrite (translate_low m C _ _ va WQ Wd' Hva), (translate_low m _ P d va WP' Wd0 Hva), (translate_low (mem v) _ P d va WP Wd Hva).
    by rewrite S1, S2.
  - intros top va e Ht Hva He. rewrite !elem_of_cons in Ht. destruct Ht as [->|[->|[]%elem_of_nil]].
    + exact (page_entry_cow m C _ _ va e WQ Wd' S3 Hva He).
    + exact (page_entry_cow m _ P d va e WP' Wd0 S4 Hva He).
  - intros i Hi Hne. unfold walk. cbv zeta. by rewrite Hker by lia.
  - exact Wown.
Qed.

(** ** The child's thread *)

(** The frame [fork_int] builds, and what it changes besides. *)
Lemma fork_int_spec k p t r :
  p <> 0 -> threads k !! p = Some t -> 176 <= krsp t < 2 ^ 64 -> 0 <= pid t < 2 ^ 31 ->
  exists m, fork_int k p r = Ret (with_stackmem (with_threads k (<[p := set_krsp (krsp t - 176) t]> (threads k))) m) /\
    frame_at m (krsp t - 176) = child_regs r (pid t).
Proof.
  intros Hp Ht Hr Hpid. destruct (fork_int_frame k p t r Hp Ht Hr Hpid) as (k' & t' & E & Ht' & Hk & Hf & _).
  pose proof E as E'. unfold fork_int in E'. rewrite (deref_eq _ _ _ Hp Ht), bind_Ret in E'.
  destruct (push_all_kept _ _ _ _ _ Ht E') as (sp & m & ->). cbn [threads stackmem with_stackmem with_threads] in *.
  rewrite lookup_insert_eq in Ht'. injection Ht' as <-. cbn [krsp set_krsp] in *. subst sp. by exists m.
Qed.

(** ** The list of children *)

(** The nodes from [a] on, each with the child it names. *)
Fixpoint join_chain (js : gmap Z joinQ) (a : Z) (l : list (Z * Z)) : Prop :=
  match l with
  | [] => a = 0
  | (x, q) :: l => a = x /\ x <> 0 /\ exists nx, js !! x = Some (JoinQ q nx) /\ join_chain js nx l
  end.

(** The list of children behind [h], the node in the parent's structure. *)
Definition children (js : gmap Z joinQ) (h : joinQ) (l : list (Z * Z)) : Prop :=
  join_chain js (jnext h) l /\ NoDup l.*1.

Lemma join_chain_insert js a l x q : join_chain js a l -> x ∉ l.*1 -> join_chain (<[x := q]> js) a l.
Proof.
  revert a. induction l as [|[y c] l IH]; intros a; [done|]. rewrite fmap_cons, not_elem_of_cons. cbn [join_chain fst].
  intros (-> & Hy & nx & Hl & Hc) [Hne Hx]. split_and!; [done|done|]. exists nx. split; [by rewrite lookup_insert_ne|by apply IH].
Qed.

Lemma join_chain_elem js a l x : join_chain js a l -> x ∈ l.*1 -> x ∈ dom js.
Proof.
  revert a. induction l as [|[y c] l IH]; intros a; [by intros _ ?%elem_of_nil|]. rewrite fmap_cons, elem_of_cons.
  intros (-> & _ & nx & Hl & Hc) [->|Hx]; [by eapply elem_of_dom_2|by eapply IH].
Qed.

Lemma join_chain_size js a l : join_chain js a l -> NoDup l.*1 -> (List.length l <= size js)%nat.
Proof.
  intros Hc Hnd. assert (list_to_set l.*1 ⊆ dom js) as Hsub%subseteq_size.
  { intros x Hx%elem_of_list_to_set. by eapply join_chain_elem. }
  by rewrite size_list_to_set, size_dom, length_fmap in Hsub.
Qed.

(** A node linked behind the last one. *)
Lemma join_chain_snoc js a l x c j p :
  join_chain js a (l ++ [(x, c)]) -> NoDup (l ++ [(x, c)]).*1 -> j ∉ (l ++ [(x, c)]).*1 -> j <> 0 -> js !! j = Some (JoinQ p 0) ->
  join_chain (<[x := JoinQ c j]> js) a (l ++ [(x, c); (j, p)]).
Proof.
  intros Hc Hnd Hj Hj0 Hjs. revert a Hc. induction l as [|[y d] l IH]; intros a.
  - cbn [app join_chain]. intros (-> & Hx & nx & _ & _). apply not_elem_of_cons in Hj as [Hne _]. split_and!; [done|done|].
    exists j. split; [apply lookup_insert_eq|]. split_and!; [done|done|]. exists 0. split; [by rewrite lookup_insert_ne|done].
  - cbn [app join_chain] in *. rewrite fmap_cons in Hnd, Hj. apply NoDup_cons in Hnd as [Hy Hnd]. apply not_elem_of_cons in Hj as [_ Hj].
    intros (-> & Hy0 & nx & Hl & Hc). split_and!; [done|done|]. exists nx. split; [|by apply IH].
    rewrite lookup_insert_ne; [done|]. intros ->. apply Hy. rewrite fmap_app. apply elem_of_app. right. apply list_elem_of_here.
Qed.

(** The walk to the last node. *)
Lemma join_last_spec l n k par crawl q :
  join_get k par crawl = Ret q -> join_chain (joins k) (jnext q) l -> (List.length l <= n)%nat ->
  join_last n k par crawl = Ret (match last l with Some (x, _) => Some x | None => crawl end).
Proof.
  revert n crawl q. induction l as [|[x c] l IH]; intros n crawl q E Hc Hn.
  - cbn in Hc. destruct n; cbn [join_last]; by rewrite E, bind_Ret, Hc.
  - destruct Hc as (Ex & Hx & nx & Hl & Hc). destruct n as [|n]; [cbn in Hn; lia|]. cbn [join_last].
    rewrite E, bind_Ret, Ex, (proj2 (Z.eqb_neq _ _) Hx), (IH n (Some x) (JoinQ c nx)); [|by cbn [join_get]; rewrite Hl|done|cbn in Hn; lia].
    rewrite list.last_cons. by destruct (last l) as [[]|].
Qed.

(** A child is entered at the end of its parent's list. *)
Lemma add_child k par p t h1 j cs :
  threads k !! par = Some t -> par <> 0 -> children (joins k) (join_head t) cs -> j <> 0 -> j ∉ cs.*1 ->
  MyAlloc.sub_malloc (kheap k) 16 false = Ret (h1, j) ->
  exists js q, add_to_joinQueue k par p =
      Ret (with_threads (with_joins (with_kheap k h1) js) (<[par := set_join_head q t]> (threads k))) /\
    children js q (cs ++ [(j, p)]).
Proof.
  intros Ht Hp [Hc Hnd] Hj0 Hj Hm. unfold add_to_joinQueue, append_join_queue. rewrite Hm, bind_Ret. cbn [fst snd].
  set (k1 := with_joins _ _). pose proof (join_chain_insert _ _ _ j (JoinQ p 0) Hc Hj) as Hc1.
  assert (join_get k1 par None = Ret (join_head t)) as E1
    by (unfold join_get; change (threads k1) with (threads k); by rewrite (deref_eq _ _ _ Hp Ht)).
  rewrite (join_last_spec cs (size (joins k1)) k1 par None _ E1 Hc1), bind_Ret by by apply (join_chain_size _ (jnext (join_head t))).
  assert (NoDup (cs ++ [(j, p)]).*1) as Hnd'.
  { rewrite fmap_app. apply NoDup_app. split_and!; [done| |apply NoDup_singleton]. by intros x Hx ->%list_elem_of_singleton. }
  destruct cs as [|[x c] l _] using rev_ind.
  - cbn [last]. rewrite E1, bind_Ret. exists (joins k1), (JoinQ (child (join_head t)) j). split.
    + cbn [join_set threads k1 with_joins with_kheap]. by rewrite (update_eq _ _ _ _ Hp Ht), bind_Ret.
    + split; [|done]. cbn. split_and!; [done|done|]. exists 0. split; [apply lookup_insert_eq|done].
  - rewrite list.last_snoc. cbn [join_get join_set].
    assert (exists nx, joins k1 !! x = Some (JoinQ c nx)) as [nx Hx].
    { revert Hc1. generalize (jnext (join_head t)). clear -l. induction l as [|[y d] l IH]; intros a; cbn [app join_chain].
      - intros (_ & _ & nx & Hl & _). by exists nx.
      - intros (_ & _ & nx & _ & Hc). by apply (IH nx). }
    rewrite Hx. cbn [defined]. rewrite bind_Ret. exists (<[x := JoinQ c j]> (joins k1)), (join_head t). split.
    + cbn [child]. assert (set_join_head (join_head t) t = t) as -> by by destruct t. by rewrite (insert_id (threads k) par t Ht).
    + split; [|done]. rewrite <- app_assoc. apply join_chain_snoc; try done. apply lookup_insert_eq.
Qed.

(** The kernel's pages for a child: its structure, its kernel stack of two pages
    and its top-level table. *)
Definition fork_heap (h : MyAlloc.kheap) : MyAlloc.kheap :=
  MyAlloc.with_vm (user_thread_pages h) (vmmgr_alloc_page (MyAlloc.vm (user_thread_pages h)) 0).1.

(** What a fork takes, for a parent [c] with the children [cs]: three pages of the
    kernel from [n] on and those for the tables, a chunk for the list of children,
    and a place in the process table. *)
Record can_fork (F : list Z) (k : kernel) (l la : list Z) (n P d : Z) (c : thread) (h1 : MyAlloc.kheap) (j : Z)
    (cs : list (Z * Z)) : Prop := {
  cf_current : currentThread k <> 0 /\ threads k !! currentThread k = Some c;
  cf_child : children (joins k) (join_head c) cs /\ j <> 0 /\ j ∉ cs.*1;
  cf_pages : (vmmgr_alloc_page (vm_of k) 0).2 = u64 (n + virt_base) /\ 0 <= n < 2 ^ 30;
  cf_space : fork_space F (MyAlloc.vm (fork_heap (kheap k))) (Queues.cr3 c) (n + 4096 * 3) P d;
  cf_chunk : forall v, MyAlloc.sub_malloc (MyAlloc.with_vm (kheap k) v) 16 false = Ret (MyAlloc.with_vm h1 v, j);
  cf_fresh : (thread_page n ∉ la) /\ (thread_page n ∉ l) /\ thread_page n <> currentThread k;
  cf_all : rep ThreadList (threads k) (allThreadList k) la;
  cf_run : rep ThreadQ (threads k) (runQueue k) l;
  cf_table : List.length (ptable k) = 100%nat /\ 0 <= nextFreePid k < 99
}.

Lemma user_byte_same F v m va pa :
  ready F v -> translate (mem v) (Paging.cr3 v) va = Some pa -> ~ in_frames F pa -> (forall a, ~ in_frames F a -> m a = mem v a) ->
  byte_of m pa = byte_of (mem v) pa.
Proof.
  intros HW Ht Hpa Hm. unfold byte_of. rewrite Hm; [done|]. intros (f & Hf & Hin). apply Hpa. exists f. split; [done|].
  destruct (win_pages _ _ _ HW f Hf) as (_ & _ & Mf). clear -Hin Mf. Z.to_euclidean_division_equations. lia.
Qed.

(** The kernel's state before the tables are copied. *)
Lemma fork_prepared F k r l la n P d c h1 j cs :
  can_fork F k l la n P d c h1 j cs ->
  exists k4 t m, let p := thread_page n in let C := n + 4096 * 3 in
    fork k r = (v ← clone_pgdir (vm_of k4) (Queues.cr3 c) (u64 (C + virt_base));
      v ← copy_page_table (Queues.cr3 c) (u64 (C + virt_base)) true v;
      k ← add_to_joinQueue (with_vm k4 v) (currentThread k4) p;
      k ← alllist_kthread k p;
      k ← runnable_kthread k p;
      Ret (k, 0)) /\
    k4 = with_stackmem (with_threads (with_kheap (with_pids k (nextFreePid k + 1) (<[Z.to_nat (nextFreePid k + 1) := p]> (ptable k)))
      (fork_heap (kheap k))) (<[p := t]> (threads k))) m /\
    frame_at m (krsp t) = child_regs r (nextFreePid k + 1) /\ pid t = nextFreePid k + 1 /\ parent t = currentThread k /\
    pcr3 t = C /\ Queues.cr3 t = u64 (C + virt_base) /\ brk t = brk c /\ mmap t = mmap c /\ Kthread.ready t = Kthread.ready c.
Proof.
  intros [[Hc0 Hc] _ [Eb Hn] HS _ (_ & _ & Hpc) _ _ [Hlen Hpid]].
  destruct (page_addresses (vm_of k) n Eb Hn) as (E1 & E2 & Ep & Es). set (p := thread_page n) in *. set (C := n + 4096 * 3) in *.
  assert (p <> 0) as Hp by (rewrite Ep; unfold virt_base; lia).
  set (v1 := (vmmgr_alloc_page (vm_of k) 0).1) in *. set (v2 := (vmmgr_alloc_page v1 1).1) in *.
  set (top := thread_page (n + 4096) + 8184). assert (u64 (thread_page (n + 4096) + 2 * VIRT_PAGE_SIZE - 0x8) = top) as Et.
  { unfold top, VIRT_PAGE_SIZE. rewrite Es. unfold virt_base. unwrap. lia. }
  set (k2 := with_kheap (with_pids k (nextFreePid k + 1) (<[Z.to_nat (nextFreePid k + 1) := p]> (ptable k)))
    (MyAlloc.with_vm (kheap k) v2)).
  set (t2 := fork_thread k p (nextFreePid k + 1) (thread_page (n + 4096)) c).
  assert (krsp t2 = top) as Ek2 by (unfold t2, fork_thread; cbn [krsp]; exact Et).
  destruct (fork_int_spec (with_threads k2 (<[p := t2]> (threads k))) p t2 r Hp) as (m & Ei & Hfr).
  { cbn [threads with_threads]. apply lookup_insert_eq. }
  { rewrite Ek2. unfold top. rewrite Es. unfold virt_base. lia. }
  { cbn [pid t2 fork_thread]. lia. }
  set (t := set_tables (u64 (C + virt_base)) C (set_krsp (krsp t2 - 176) t2)).
  eexists _, t, m. cbv zeta. split; [|split; [reflexivity|split; [exact Hfr|done]]].
  unfold fork. cbn [MyAlloc.sub_malloc]. rewrite bind_Ret. cbn [fst snd]. change (MyAlloc.vm (kheap k)) with (vm_of k).
  rewrite Eb. fold (thread_page n). fold p. rewrite (deref_eq _ _ _ Hc0 Hc), bind_Ret.
  cbn [alloc_pid fst snd ptable nextFreePid with_pids with_kheap currentThread threads]. rewrite swrap_small by lia.
  rewrite array_set_lt, bind_Ret by lia. cbn [kheap MyAlloc.vm MyAlloc.with_vm with_pids with_kheap]. fold v1. rewrite bind_Ret. cbn [fst snd].
  rewrite E1. fold v2.
  match goal with |- (fork_int ?x p r ≫= _) = _ => change x with (with_threads k2 (<[p := t2]> (threads k))) end.
  rewrite Ei, bind_Ret, (proj2 (Z.eqb_neq _ _) Hp), bind_Ret. cbn [fst snd kheap k2 with_stackmem with_threads with_kheap with_pids].
  cbn [MyAlloc.vm MyAlloc.with_vm]. rewrite E2. assert (u64 (u64 (C + virt_base) - virt_base) = C) as ->.
  { unfold C, virt_base. unwrap. lia. }
  unfold update_thread at 1. cbn [threads with_stackmem with_threads with_kheap k2].
  rewrite insert_insert_eq. erewrite update_eq by (exact Hp || apply lookup_insert_eq). rewrite !bind_Ret, insert_insert_eq. reflexivity.
Qed.

(** The child is entered into the list of all threads and the run queue. *)
Lemma enter_child k p t l la :
  rep ThreadQ (threads k) (runQueue k) l -> rep ThreadList (threads k) (allThreadList k) la -> p <> 0 -> p ∉ l -> p ∉ la ->
  threads k !! p = Some t ->
  exists k' t', (k ← alllist_kthread k p; k ← runnable_kthread k p; Ret (k, 0)) = Ret (k', 0) /\
    rep ThreadQ (threads k') (runQueue k') (l ++ [p]) /\ rep ThreadList (threads k') (allThreadList k') (la ++ [p]) /\
    threads k' !! p = Some t' /\ data t' = data t /\ joins k' = joins k /\ ptable k' = ptable k /\ currentThread k' = currentThread k /\
    kheap k' = kheap k /\ stackmem k' = stackmem k /\
    forall x c, threads k !! x = Some c -> exists c', threads k' !! x = Some c' /\ data c' = data c.
Proof.
  intros Hq Ha Hp Hpl Hpa Ht. unfold alllist_kthread, runnable_kthread, append_global_list_queue, append_run_queue.
  destruct (append_spec (F := ThreadList) (threads k) (allThreadList k) la p t) as (qa & ha & -> & Ha' & Ra); [done..|].
  rewrite !bind_Ret. cbn [fst snd threads runQueue with_threads with_allThreadList].
  destruct (relinked_data _ _ _ p t Ra Ht) as (t1 & Ht1 & Ed1).
  destruct (append_spec (F := ThreadQ) ha (runQueue k) l p t1) as (qr & hr & -> & Hr' & Rr);
    [by apply (rep_relinked (F := ThreadList) (threads k))|done..|].
  rewrite !bind_Ret. destruct (relinked_data _ _ _ p t1 Rr Ht1) as (t2 & Ht2 & Ed2).
  eexists _, t2. split; [done|]. cbn [threads runQueue allThreadList joins ptable currentThread kheap stackmem with_threads with_runQueue
    with_allThreadList fst snd]. split_and!; try done.
  - by apply (rep_relinked (F := ThreadQ) ha).
  - congruence.
  - intros x c Hx. destruct (relinked_data _ _ _ x c Ra Hx) as (c1 & Hc1 & Ec1).
    destruct (relinked_data _ _ _ x c1 Rr Hc1) as (c2 & Hc2 & Ec2). exists c2. split; [done|congruence].
Qed.

(** The state in which the child is entered into the lists: its tables are made
    and it is last in the parent's list of children. *)
Lemma fork_linked F k r l la n P d c h1 j cs :
  can_fork F k l la n P d c h1 j cs ->
  let p := thread_page n in let C := n + 4096 * 3 in
  exists k' t i m q, fork k r = (k ← alllist_kthread k' p; k ← runnable_kthread k p; Ret (k, 0)) /\
    threads k' = <[currentThread k := set_join_head q c]> (<[p := t]> (threads k)) /\
    runQueue k' = runQueue k /\ allThreadList k' = allThreadList k /\
    ptable k' = <[Z.to_nat (nextFreePid k + 1) := p]> (ptable k) /\ currentThread k' = currentThread k /\
    children (joins k') q (cs ++ [(j, p)]) /\
    (frame_at (stackmem k') (krsp t) = child_regs r (nextFreePid k + 1) /\ pid t = nextFreePid k + 1 /\ parent t = currentThread k /\
      pcr3 t = C /\ Queues.cr3 t = u64 (C + virt_base) /\ brk t = brk c /\ mmap t = mmap c /\ Kthread.ready t = Kthread.ready c) /\
    vm_of k' = with_mem (alloc_n i (MyAlloc.vm (fork_heap (kheap k)))) m /\
    forked (vm_of k) C m /\ forall a, ~ in_frames F a -> m a = mem (vm_of k) a.
Proof.
  intros HK p C. destruct (fork_prepared F k r l la n P d c h1 j cs HK) as (k4 & t & ms & E & Ek4 & Ht). fold p C in E, Ek4, Ht.
  destruct HK as [[Hc0 Hc] (Hcs & Hj0 & Hj) _ HS Hchunk (_ & _ & Hpc) _ _ _]. fold p in Hpc. fold C in HS.
  set (v3 := MyAlloc.vm (fork_heap (kheap k))) in *.
  assert (vm_of k4 = v3) as Hv4 by (by rewrite Ek4). rewrite Hv4 in E.
  destruct (fork_pages F v3 _ C P d HS) as (i & m & Em & Hfk & Hm).
  apply bind_Ret_inv in Em as (vc & Evc & Evt). rewrite Evc, bind_Ret, Evt, bind_Ret in E.
  set (k5 := with_vm k4 (with_mem (alloc_n i v3) m)) in *.
  assert (threads k5 = <[p := t]> (threads k)) as Ht5 by (unfold k5; by rewrite Ek4).
  destruct (add_child k5 (currentThread k4) p c (MyAlloc.with_vm h1 (with_mem (alloc_n i v3) m)) j cs) as (js & q & Eq & Hq).
  { rewrite Ht5, Ek4. cbn. by rewrite lookup_insert_ne. }
  { by rewrite Ek4. }
  { unfold k5. by rewrite Ek4. }
  { done. }
  { done. }
  { rewrite <- Hchunk. unfold k5. by rewrite Ek4. }
  rewrite Eq, bind_Ret in E. eexists _, t, i, m, q. split; [exact E|]. cbn [threads with_threads]. rewrite Ht5.
  split; [by rewrite Ek4|]. split; [unfold k5; by rewrite Ek4|]. split; [unfold k5; by rewrite Ek4|].
  split; [unfold k5; by rewrite Ek4|]. split; [unfold k5; by rewrite Ek4|].
  split; [exact Hq|].
  split; [unfold k5; rewrite Ek4; exact Ht|]. split; [done|]. split; [by destruct Hfk|exact Hm].
Qed.

(** C10: fork makes a child that shares the parent's memory.  The child is in the
    process table under the next number, at the end of the run queue, of the list
    of all threads and of the parent's list of children; its kernel
    stack returns to where the parent trapped, with the child's number; its own
    page tables translate every address below 1 GiB as the parent's did, so that
    it reads the parent's bytes, while the parent goes on translating them so;
    every page is read-only and copy-on-write in both; and it has the kernel's
    mappings.  The parent gets 0. *)
Theorem fork_child F k r l la n P d c h1 j cs :
  can_fork F k l la n P d c h1 j cs ->
  let p := thread_page n in let C := n + 4096 * 3 in
  exists k' t par, fork k r = Ret (k', 0) /\
    rep ThreadQ (threads k') (runQueue k') (l ++ [p]) /\ rep ThreadList (threads k') (allThreadList k') (la ++ [p]) /\
    ptable k' !! Z.to_nat (nextFreePid k + 1) = Some p /\ currentThread k' = currentThread k /\
    threads k' !! p = Some t /\ pid t = nextFreePid k + 1 /\ parent t = currentThread k /\ pcr3 t = C /\
    brk t = brk c /\ mmap t = mmap c /\ frame_at (stackmem k') (krsp t) = child_regs r (nextFreePid k + 1) /\
    threads k' !! currentThread k = Some par /\ children (joins k') (join_head par) (cs ++ [(j, p)]) /\
    Paging.cr3 (vm_of k') = Paging.cr3 (vm_of k) /\ forked (vm_of k) C (mem (vm_of k')) /\
    forall va pa, 0 <= va < 2 ^ 30 -> translate (mem (vm_of k)) (Paging.cr3 (vm_of k)) va = Some pa -> ~ in_frames F pa ->
      user_byte (set_cr3 (vm_of k') C) va = user_byte (vm_of k) va.
Proof.
  intros HK p C. destruct (fork_linked F k r l la n P d c h1 j cs HK)
    as (k6 & t & i & m & jq & E & Ht6 & Er & Ea & Ept & Ec & Ej & (Hfr & Upid & Upar & Upcr & _ & Ubrk & Ummap & _) & Ev & Hfk & Hm).
  fold p C in E, Ht6, Ept, Ej, Upcr, Hfk. destruct HK as [[Hc0 Hc] _ [Eb Hn] HS _ (Hpa & Hpl & Hpc) Ha Hq [Hlen Hpid]].
  fold p in Hpa, Hpl, Hpc. fold C in HS. destruct (page_addresses (vm_of k) n Eb Hn) as (_ & _ & Ep & _).
  assert (p <> 0) as Hp by (unfold p; rewrite Ep; unfold virt_base; lia).
  set (par := set_join_head _ c) in Ht6.
  assert (forall F q l, p ∉ l -> rep F (threads k) q l -> get_links par = get_links c -> rep F (threads k6) q l) as Hrep.
  { intros G q l0 Hpl0 Hr Hg. rewrite Ht6. apply rep_same_links with c; [by rewrite lookup_insert_ne|done|by apply seg_insert_fresh]. }
  destruct (enter_child k6 p t l la) as (k' & t' & E' & Hq' & Ha' & Ht' & Edt & Hjs & Hpt & Hcur & Hh & Hst & Hoth);
    [rewrite Er; by apply (Hrep ThreadQ)|rewrite Ea; by apply (Hrep ThreadList)|done..| |].
  { rewrite Ht6, lookup_insert_ne by done. apply lookup_insert_eq. }
  destruct (Hoth (currentThread k) par ltac:(rewrite Ht6; apply lookup_insert_eq)) as (par' & Hpar & Edp).
  assert (forall A (f : thread -> A), (forall x, f (data x) = f x) -> f t' = f t) as Hf by (intros A f Hd; by rewrite <- (Hd t'), Edt, Hd).
  assert (vm_of k' = vm_of k6) as Hv' by (unfold vm_of; by rewrite Hh).
  exists k', t', par'. rewrite Hv', Ev. cbn [mem with_mem].
  split_and!; [by rewrite E|exact Hq'|exact Ha'| |by rewrite Hcur|exact Ht'|by rewrite (Hf _ pid)|by rewrite (Hf _ parent)|by rewrite (Hf _ pcr3)
    |by rewrite (Hf _ brk)|by rewrite (Hf _ mmap)|by rewrite (Hf _ krsp), Hst|exact Hpar| |exact (alloc_n_cr3 i _)|exact Hfk|].
  - rewrite Hpt, Ept, list_lookup_insert_eq; [done|lia].
  - change (join_head par') with (join_head (data par')). by rewrite Edp, Hjs.
  - intros va pa Hva Htr Hpa'. unfold user_byte. cbn [mem Paging.cr3 set_cr3 with_mem].
    destruct (fk_pages _ _ _ Hfk va Hva) as [-> _]. rewrite Htr. cbn. f_equal.
    by apply (user_byte_same F (MyAlloc.vm (fork_heap (kheap k))) m va pa (fs_ready _ _ _ _ _ _ HS)).
Qed.

(** ** A parent *)

(** The kernel's tables are at 0x1000 to 0x4000, the parent's top-level table
    first; its directory at 0x12000 has two tables, and the first maps a page to
    frame 0x30000. *)
Definition fork_machine : vmm :=
  Vmm (fun a =>
         if a =? 0x1000 then 0x10007 else if a =? 0x1000 + 8 * 511 then 0x2003 else if a =? 0x2000 + 8 * 510 then 0x3003
         else if a =? 0x3000 then 0x4003 else if a =? 0x4008 then 0x1003
         else if (0x4080 <=? a) && (a <? 0x4180) then (a - 0x4000) / 8 * 4096 + 3
         else if a =? 0x10000 then 0x12007 else if a =? 0x12000 then 0x13007 else if a =? 0x12018 then 0x14007
         else if a =? 0x13028 then 0x30007 else if a =? 0x30000 then 0x4142434445464748 else 0)
      (Bitmap [0; 0] 0 128) 0x1000 0 0x1000 (virt_base + 0x14000) 0 0 0.
Definition fork_frames : list Z :=
  [0x10000; 0x12000; 0x13000; 0x14000; 0x18000; 0x19000; 0x1A000; 0x1B000; 0x1C000].

Lemma fork_machine_entries i :
  0 <= i < 512 -> entry_at (mem fork_machine) 0x12000 i <> 0 -> i = 0 \/ i = 3.
Proof.
  intros Hi. assert (Forall (fun i => entry_at (mem fork_machine) 0x12000 i = 0 \/ i = 0 \/ i = 3) (seqZ 0 512)) as H
    by by_computation.
  pose proof (proj1 (Forall_forall _ _) H i) as Hx. rewrite elem_of_seqZ in Hx. simpl in Hx. tauto.
Qed.

Lemma fork_machine_words i l : i = 0 \/ i = 3 -> 0 <= l < 512 -> entry_ok (mem fork_machine (table_at (mem fork_machine) 0x12000 i + 8 * l)).
Proof.
  intros Hi Hl. assert (Forall (fun l => entry_ok (mem fork_machine (0x13000 + 8 * l)) /\ entry_ok (mem fork_machine (0x14000 + 8 * l))) (seqZ 0 512)) as H
    by by_computation.
  pose proof (proj1 (Forall_forall _ _) H l) as Hx. rewrite elem_of_seqZ in Hx. destruct (Hx ltac:(lia)) as [H1 H2].
  destruct Hi as [-> | ->]; [exact H1|exact H2].
Qed.

Lemma fork_machine_space v :
  mem v = mem fork_machine -> Paging.cr3 v = 0x1000 -> (vmmgr_alloc_page v 0).2 = u64 (0x18000 + 4096 + virt_base) ->
  fork_space fork_frames v (0x1000 + virt_base) 0x18000 0x10000 0x12000.
Proof.
  intros Em Ec Eb. split; rewrite ?Em, ?Ec.
  - unfold ready. rewrite Em, Ec. apply (windowed_intro _ _ _ 0x2000 0x3000 0x4000 0); by_computation.
  - intros m' i Hm Hi. rewrite uwrap_small by (unfold virt_base; lia).
    replace (0x1000 + virt_base + 8 * i) with (virt_base + (0x1000 + 8 * i)) by lia.
    apply (seen_maps fork_frames 0x1000 (mem fork_machine) 0x2000 0x3000 0x4000 0); try by_computation; [done|lia].
  - intros i Hi. apply outside_frames. unfold outside, fork_frames. repeat constructor; lia.
  - split; by_computation.
  - exact Eb.
  - split; [by_computation|]. intros i l Hi Hl [-> | ->]%(fork_machine_entries i Hi); apply fork_machine_words; tauto.
  - split; reflexivity.
  - split; reflexivity.
  - by intros i Hi [-> | ->]%(fork_machine_entries i Hi).
  - intros i Hi [-> | ->]%(fork_machine_entries i Hi); by_computation || done.
  - intros i k Hi Hk [-> | ->]%(fork_machine_entries i Hi) [-> | ->]%(fork_machine_entries k Hk); done.
  - intros i Hi [-> | ->]%(fork_machine_entries i Hi); cbv zeta; (split; [by_computation|split; [by_computation|]]);
      intros k Hk [-> | ->]%(fork_machine_entries k Hk); by_computation || done.
Qed.

(** The parent: its table is seen through the window, one chunk is free, and it
    has a child, named by the node at 0x700. *)
Definition fork_parent : thread :=
  set_join_head (JoinQ 0 0x700) (set_tables (0x1000 + virt_base) 0x1000 (demo_thread 2 0 0)).
Definition fork_kernel : kernel :=
  with_kheap (with_joins (with_threads (kern cow_system) {[ 0x100 := fork_parent ]}) {[ 0x700 := JoinQ 0x900 0 ]})
    (MyAlloc.KHeap {[ 0x500 := MyAlloc.Block 0 16 1 ]} 0x500 0x500 fork_machine).

Lemma fork_kernel_ready :
  can_fork fork_frames fork_kernel [0x100] [0x100] 0x15000 0x10000 0x12000 fork_parent
    (MyAlloc.KHeap {[ 0x500 := MyAlloc.Block 0 16 0 ]} 0x500 0x500 fork_machine) 0x510 [(0x700, 0x900)].
Proof.
  split.
  - split; [done|reflexivity].
  - split; [|by_computation]. split; [|by_computation]. cbn. split_and!; [done|done|]. by exists 0.
  - split; [reflexivity|lia].
  - apply fork_machine_space; reflexivity.
  - intros v. reflexivity.
  - split_and!; by_computation.
  - split; [reflexivity|reflexivity|by_computation|by_computation|]. split; [by eexists|done].
  - split; [reflexivity|reflexivity|by_computation|by_computation|]. split; [by eexists|done].
  - split; by_computation.
Qed.

(** The child reads the parent's byte at 0x5001, and comes behind the child the
    parent had. *)
Example fork_child_witness :
  exists k' t par, fork fork_kernel demo_regs = Ret (k', 0) /\ threads k' !! thread_page 0x15000 = Some t /\
    frame_at (stackmem k') (krsp t) = child_regs demo_regs 3 /\
    threads k' !! 0x100 = Some par /\ children (joins k') (join_head par) [(0x700, 0x900); (0x510, thread_page 0x15000)] /\
    user_byte (set_cr3 (vm_of k') 0x18000) 0x5001 = Some 0x47.
Proof.
  destruct (fork_child fork_frames fork_kernel demo_regs _ _ _ _ _ _ _ _ _ fork_kernel_ready)
    as (k' & t & par & E & _ & _ & _ & _ & Ht & _ & _ & _ & _ & _ & Hf & Hpar & Hcs & _ & _ & HB).
  exists k', t, par. split; [exact E|]. split; [exact Ht|]. split; [exact Hf|]. split; [exact Hpar|]. split; [exact Hcs|].
  etransitivity; [apply (HB 0x5001 0x30001); [lia|reflexivity|]|reflexivity].
  apply outside_frames. unfold outside, fork_frames. repeat constructor; lia.
Defined.
