(* ===== verification/Execve.v ===== *)
(** * execve (main_execve and do_exec1 of sys/exec.c)

    The current process's areas and page tables are cleared, and its thread
    starts over as the new program. *)

From S2P Require Import Prelude CString Memory Bitmap PhysMem PageEntry Paging MapPage KHeap Queues Kthread Process.
From S2P Require Import TarFs PageFault CopyTables UserBytes AddressSpace Image Exec Fork.

(** ** Clearing the page tables *)

(** The address space to be cleared: its user half is one page directory, in
    frame [d], below the table in frame [P]; the program reaches the top-level
    table at the address [pp].  The frames [F] are these two and the page
    tables; the kernel's window shows them also when the first entry of the
    top-level table is gone. *)
Record clear_space (F : list Z) (v : vmm) (pp P d : Z) : Prop := {
  cs_ready : ready F (with_mem v (mem_set (mem v) (Paging.cr3 v + 8 * 0) 0));
  cs_top : forall m' i, (forall a, ~ in_frames F a -> a <> Paging.cr3 v + 8 * 0 -> m' a = mem v a) -> 0 <= i < 512 ->
    translate m' (Paging.cr3 v) (u64 (pp + 8 * i)) = Some (Paging.cr3 v + 8 * i);
  cs_root : forall i, 0 <= i < 512 -> ~ in_frames F (Paging.cr3 v + 8 * i);
  cs_frames : P ∈ F /\ d ∈ F /\ P <> d;
  cs_path : walk (mem v) (Paging.cr3 v) 0 = Some P /\ walk (mem v) P 0 = Some d;
  cs_last : mem v (Paging.cr3 v + 8 * 1) = 0 /\ mem v (P + 8 * 1) = 0;
  cs_tables : forall i, 0 <= i < 512 -> entry_at (mem v) d i <> 0 -> table_at (mem v) d i ∈ F /\ table_at (mem v) d i ∉ [P; d]
}.

Lemma walk_entry m t i x : walk m t i = Some x -> m (t + 8 * i) <> 0 /\ PAGE_PHYSICAL_ADDRESS (m (t + 8 * i)) = x.
Proof.
  unfold walk. cbv zeta. destruct (present (m (t + 8 * i))) eqn:E; [|done]. intros [= <-]. split; [|done].
  intros E0. by rewrite E0 in E.
Qed.

Section clear.
Context (F : list Z) (v : vmm) (pp P d : Z) (HC : clear_space F v pp P d).
#[local] Abbreviation c := (Paging.cr3 v).
#[local] Abbreviation v1 := (with_mem v (mem_set (mem v) (c + 8 * 0) 0)).

(** Memories that clearing goes through, after its first store. *)
Definition clearing (m : Z -> Z) : Prop := forall a, ~ in_frames F a -> m a = mem v1 a.

Lemma clearing_ready m : clearing m -> ready F (with_mem v m).
Proof. intros Hm. eapply windowed_write; [exact (cs_ready _ _ _ _ _ HC)|exact Hm]. Qed.

Lemma clearing_slot f g i j : f ∈ F -> g ∈ F -> 0 <= i < 512 -> 0 <= j < 512 -> f + 8 * i = g + 8 * j -> f = g /\ i = j.
Proof. apply (window_slot F v1 (cs_ready _ _ _ _ _ HC)). Qed.

Lemma clearing_set m f i w : clearing m -> f ∈ F -> 0 <= i < 512 -> clearing (mem_set m (f + 8 * i) w).
Proof.
  intros Hm Hf Hi a Ha. unfold mem_set at 1. destruct (Z.eqb_spec a (f + 8 * i)) as [->|]; [|by apply Hm].
  exfalso. apply Ha. exists f. split; [done|lia].
Qed.

(** The words of the frames are those of before, the top-level table apart. *)
Lemma cleared_word f i : f ∈ F -> 0 <= i < 512 -> mem v1 (f + 8 * i) = mem v (f + 8 * i).
Proof.
  intros Hf Hi. cbn [mem with_mem]. unfold mem_set. destruct (Z.eqb_spec (f + 8 * i) (c + 8 * 0)) as [E|]; [|done].
  exfalso. apply (cs_root _ _ _ _ _ HC 0 ltac:(lia)). exists f. split; [done|lia].
Qed.

(** The page directory: each of its tables is zeroed and its entry is removed;
    the tables above it are left alone. *)
Lemma clear_directory m :
  clearing m -> (forall i, 0 <= i < 512 -> m (d + 8 * i) = mem v (d + 8 * i)) ->
  exists m', for_loop 512 0 (clear_pd_entry (u64 (d + virt_base))) (with_mem v m) = Ret (with_mem v m') /\ clearing m' /\
    (forall i, 0 <= i < 512 -> m' (d + 8 * i) = 0) /\ (forall i, 0 <= i < 512 -> m' (P + 8 * i) = m (P + 8 * i)).
Proof.
  intros Hm Hd. destruct (cs_frames _ _ _ _ _ HC) as (HP & HdF & HPd).
  destruct (for_loop_ind (fun k s => exists m', s = with_mem v m' /\ clearing m' /\
      (forall i, 0 <= i < k -> m' (d + 8 * i) = 0) /\ (forall i, k <= i < 512 -> m' (d + 8 * i) = mem v (d + 8 * i)) /\
      (forall i, 0 <= i < 512 -> m' (P + 8 * i) = m (P + 8 * i)))
    (clear_pd_entry (u64 (d + virt_base))) 512 0 (with_mem v m)) as (s & E & m' & -> & Hm' & Hz & _ & HP').
  - exists m. split_and!; try done. lia.
  - intros k s Hk (m1 & -> & Hm1 & Hz & Ho & HP1). unfold clear_pd_entry. fold (at_window d k).
    pose proof (clearing_ready m1 Hm1) as HW. rewrite (window_load F _ HW), bind_Ret by (done || lia). cbn [mem with_mem].
    rewrite Ho by lia. destruct (Z.eqb_spec (mem v (d + 8 * k)) 0) as [E0|E0].
    { eexists. split; [done|]. exists m1. split_and!; try done.
      - intros i Hi. destruct (decide (i = k)) as [->|]; [rewrite Ho by lia; done|apply Hz; lia].
      - intros i Hi. apply Ho. lia. }
    destruct (cs_tables _ _ _ _ _ HC k ltac:(lia) E0) as [Ht Hne]. set (t := table_at (mem v) d k) in *.
    assert (t <> P /\ t <> d) as [HtP Htd] by (clear -Hne; set_solver).
    rewrite (window_entry F _ HW), bind_Ret by (done || lia). cbn [mem with_mem]. rewrite Ho by lia.
    change (PAGE_PHYSICAL_ADDRESS (mem v (d + 8 * k))) with t. change VIRT_PAGE_SIZE with (8 * 512).
    destruct (vzero_spec F _ t 512 HW Ht ltac:(lia)) as (m2 & -> & _ & Ho2). rewrite bind_Ret. cbn [mem with_mem] in Ho2.
    change (with_mem (with_mem v m1) m2) with (with_mem v m2).
    assert (clearing m2) as Hm2.
    { intros a Ha. rewrite Ho2; [by apply Hm1|]. intros i Hi ->. apply Ha. exists t. split; [done|lia]. }
    assert (forall f i, f ∈ F -> f <> t -> 0 <= i < 512 -> m2 (f + 8 * i) = m1 (f + 8 * i)) as Hk2.
    { intros f i Hf Hft Hi. apply Ho2. intros j Hj E. by apply clearing_slot in E as [-> _]. }
    rewrite (window_store F _ (clearing_ready m2 Hm2)) by (done || lia). eexists. split; [done|].
    eexists. split; [reflexivity|]. cbn [mem with_mem]. split; [apply clearing_set; (done || lia)|]. unfold mem_set. split_and!.
    + intros i Hi. destruct (Z.eqb_spec (d + 8 * i) (d + 8 * k)); [done|]. rewrite Hk2 by (done || lia). apply Hz. lia.
    + intros i Hi. rewrite (proj2 (Z.eqb_neq _ _)) by lia. rewrite Hk2 by (done || lia). apply Ho. lia.
    + intros i Hi. rewrite (proj2 (Z.eqb_neq _ _)); [rewrite Hk2 by (done || lia); by apply HP1|].
      intros E. by apply clearing_slot in E as [? _]; [|done|done|lia|lia].
  - by exists m'.
Qed.

Lemma top_word w m i :
  Paging.cr3 w = c -> (forall a, ~ in_frames F a -> a <> c + 8 * 0 -> m a = mem v a) -> 0 <= i < 512 ->
  vload (with_mem w m) (u64 (pp + 8 * i)) = Ret (m (c + 8 * i)).
Proof.
  intros Hw Hm Hi. unfold vload. change (Paging.cr3 (with_mem w m)) with (Paging.cr3 w). rewrite Hw. cbn [mem with_mem].
  by rewrite (cs_top _ _ _ _ _ HC m i Hm Hi).
Qed.

Lemma clearing_outside m a : clearing m -> ~ in_frames F a -> a <> c + 8 * 0 -> m a = mem v a.
Proof. intros Hm Ha Hne. rewrite Hm by done. cbn [mem with_mem]. unfold mem_set. by rewrite (proj2 (Z.eqb_neq _ _) Hne). Qed.

(** The entries for the user half are gone, and what is outside the tables is as
    it was. *)
Lemma clear_page_tables_spec :
  exists m, clear_page_tables pp v = Ret (with_mem v m) /\ m (c + 8 * 0) = 0 /\
    forall a, ~ in_frames F a -> a <> c + 8 * 0 -> m a = mem v a.
Proof.
  destruct (cs_frames _ _ _ _ _ HC) as (HP & Hd & HPd). destruct (cs_path _ _ _ _ _ HC) as [[Hc0 EP]%walk_entry [HP0 Ed]%walk_entry].
  destruct (cs_last _ _ _ _ _ HC) as [Hc1 HP1].
  set (m1 := mem_set (mem v) (c + 8 * 0) 0). assert (clearing m1) as H1 by (intros a _; done).
  set (m2 := mem_set m1 (P + 8 * 0) 0). assert (clearing m2) as H2 by (apply clearing_set; (done || lia)).
  destruct (clear_directory m2) as (m3 & E3 & H3 & _ & HP3); [done| |].
  { intros i Hi. unfold m2, mem_set. rewrite (proj2 (Z.eqb_neq _ _)); [by apply cleared_word|].
    intros E. by apply clearing_slot in E as [? _]; [|done|done|lia|lia]. }
  exists m3. split; [|split; [|intros a; by apply clearing_outside]].
  2:{ rewrite H3 by (apply (cs_root _ _ _ _ _ HC); lia). cbn [mem with_mem]. unfold mem_set. by rewrite Z.eqb_refl. }
  unfold clear_page_tables. eapply for_nonnull_one.
  - replace v with (with_mem v (mem v)) at 1 by (by destruct v). apply top_word; (done || lia).
  - exact Hc0.
  - assert (entry_window v (u64 (pp + 8 * 0)) = Ret (u64 (P + virt_base))) as ->.
    { unfold entry_window. enough (vload v (u64 (pp + 8 * 0)) = Ret (mem v (c + 8 * 0))) as -> by (by rewrite bind_Ret, EP).
      replace v with (with_mem v (mem v)) at 1 by (by destruct v). apply top_word; (done || lia). }
    assert (vstore v (u64 (pp + 8 * 0)) 0 = Ret (with_mem v m1)) as Es.
    { unfold vstore. by rewrite (cs_top _ _ _ _ _ HC (mem v) 0) by (done || lia). }
    rewrite bind_Ret, Es, bind_Ret.
    pose proof (clearing_ready m1 H1) as HW1. pose proof (cleared_word P) as HwP. cbn [mem with_mem] in HwP. fold m1 in HwP.
    eapply for_nonnull_one.
    + fold (at_window P 0). rewrite (window_load F _ HW1) by (done || lia). cbn [mem with_mem]. rewrite HwP by (done || lia). reflexivity.
    + exact HP0.
    + fold (at_window P 0). rewrite (window_entry F _ HW1), bind_Ret by (done || lia). cbn [mem with_mem].
      rewrite HwP, Ed by (done || lia). rewrite (window_store F _ HW1), bind_Ret by (done || lia). exact E3.
    + fold (at_window P 1). rewrite (window_load F _ (clearing_ready m3 H3)) by (done || lia). cbn [mem with_mem].
      rewrite HP3 by lia. unfold m2, mem_set. rewrite (proj2 (Z.eqb_neq _ _)) by lia. rewrite HwP by (done || lia). by rewrite HP1.
  - rewrite top_word by (done || lia || (intros a; by apply clearing_outside)). f_equal.
    rewrite (clearing_outside m3) by (done || lia || (apply (cs_root _ _ _ _ _ HC); lia)). exact Hc1.
Qed.
End clear.

(** ** The empty address space *)

(** Only the top-level table is left of the user half. *)
Definition root_lev (c x : Z) : Z := if x =? c then 4 else 0.

(** The rest of the address space of [v], which clearing leaves alone: the
    entries of the top-level table past the first, the kernel's window over the
    next [m] pages from [n] on, and the recursive entry. *)
Record kernel_half (F : list Z) (t3 t2 t1 r : Z) (v : vmm) (n m : Z) : Prop := {
  kh_words : forall t i, t = Paging.cr3 v \/ frame_addr t /\ upcoming n m t -> 0 <= i < 512 -> entry_ok (mem v (t + 8 * i));
  kh_bump : (vmmgr_alloc_page v 0).2 = u64 (n + virt_base);
  kh_next : frame_addr n /\ 0 <= m /\ n + 4096 * m < 2 ^ 30;
  kh_region : forall k, 0 <= k < m -> (n + 4096 * k) / 2 ^ 21 = r /\
    walk (mem v) t1 (((n + 4096 * k) / 2 ^ 12) mod 512) = Some (n + 4096 * k);
  kh_recursive : walk (mem v) (Paging.cr3 v) 510 = Some (Paging.cr3 v);
  kh_walk3 : walk (mem v) (Paging.cr3 v) 511 = Some t3;
  kh_walk2 : walk (mem v) t3 510 = Some t2;
  kh_walk1 : walk (mem v) t2 r = Some t1 /\ 0 <= r < 512;
  kh_tables : Forall (fun t => frame_addr t /\ ~ upcoming n m t /\ t ∉ F) [Paging.cr3 v; t3; t2; t1];
  kh_window : Paging.cr3 v ∉ [t3; t2; t1];
  kh_user : forall i, 0 < i < 256 -> present (mem v (Paging.cr3 v + 8 * i)) = false;
  kh_apart : Forall (fun f => frame_addr f /\ ~ upcoming n m f) F
}.

Section cleared.
Context (F : list Z) (t3 t2 t1 r : Z) (v : vmm) (n mm : Z) (HK : kernel_half F t3 t2 t1 r v n mm).
#[local] Abbreviation c := (Paging.cr3 v).
Context (m : Z -> Z) (Hc0 : m (c + 8 * 0) = 0) (Hm : forall a, ~ in_frames F a -> a <> c + 8 * 0 -> m a = mem v a).

Lemma not_in_frames t i : frame_addr t -> t ∉ F -> 0 <= i < 512 -> ~ in_frames F (t + 8 * i).
Proof.
  intros Ht HtF Hi (f & Hf & Hin). destruct (proj1 (Forall_forall _ _) (kh_apart _ _ _ _ _ _ _ _ HK) f Hf) as [Ff _].
  eapply (frame_slot_outside t f i); [done|done|by intros ->|done|exact Hin].
Qed.

Lemma kh_table t : t ∈ [c; t3; t2; t1] -> frame_addr t /\ ~ upcoming n mm t /\ t ∉ F.
Proof. intros Ht. exact (proj1 (Forall_forall _ _) (kh_tables _ _ _ _ _ _ _ _ HK) t Ht). Qed.

Lemma cleared_same t i :
  frame_addr t -> t ∉ F -> 0 <= i < 512 -> ~ (t = c /\ i = 0) -> m (t + 8 * i) = mem v (t + 8 * i).
Proof.
  intros Ht HtF Hi Hne. apply Hm; [by apply not_in_frames|]. destruct (kh_table c) as (Fc & _); [in_list|].
  intros E. apply frame_slot_inj in E; [done|done|done|done|lia].
Qed.

Lemma cleared_walk t i : t ∈ [c; t3; t2; t1] -> 0 <= i < 512 -> ~ (t = c /\ i = 0) -> walk m t i = walk (mem v) t i.
Proof. intros Ht Hi Hne. destruct (kh_table t Ht) as (Ft & _ & HtF). unfold walk. cbv zeta. by rewrite cleared_same. Qed.

Lemma cleared_user i : 0 <= i < 256 -> present (m (c + 8 * i)) = false.
Proof.
  intros Hi. destruct (decide (i = 0)) as [->|Hne]; [by rewrite Hc0|]. destruct (kh_table c) as (Fc & _ & HcF); [in_list|].
  rewrite cleared_same by (done || lia). apply (kh_user _ _ _ _ _ _ _ _ HK). lia.
Qed.

(** No user address translates any more. *)
Lemma cleared_translate va : 0 <= va < 2 ^ 47 -> translate m c va = None.
Proof.
  intros Hva. unfold translate. enough (walk m c (PAGE_PML4_OFFSET va) = None) as -> by done.
  unfold walk. cbv zeta. rewrite cleared_user; [done|]. autorewrite with offsets. Z.to_euclidean_division_equations. lia.
Qed.

Lemma no_branch t i : ~ user_branch (root_lev c) (with_mem v m) t i.
Proof.
  intros (Ht & Hi & Hc & Hp). unfold root_lev in Ht. destruct (Z.eqb_spec t c) as [->|]; [|lia].
  cbn [mem with_mem] in Hp. rewrite cleared_user in Hp; [done|]. specialize (Hc eq_refl). lia.
Qed.

Lemma cleared_space : space t3 t2 t1 r (root_lev c) (with_mem v m) n mm ∅.
Proof.
  destruct (kh_table c) as (Fc & Uc & HcF); [in_list|]. pose proof (kh_window _ _ _ _ _ _ _ _ HK) as Hcw.
  assert (forall t, t ∈ [t3; t2; t1] -> t <> c /\ t ∈ [c; t3; t2; t1]) as Hin.
  { intros t Ht. split; [by intros ->|by right]. }
  destruct (Hin t3) as [N3 I3]; [in_list|]. destruct (Hin t2) as [N2 I2]; [in_list|]. destruct (Hin t1) as [N1 I1]; [in_list|].
  assert (root_lev c c = 4) as Hroot by (unfold root_lev; by rewrite Z.eqb_refl).
  assert (forall x, x <> c -> root_lev c x = 0) as Hlev.
  { intros x Hx. unfold root_lev. by rewrite (proj2 (Z.eqb_neq _ _) Hx). }
  split; cbn [mem Paging.cr3 with_mem]; try (intros * H; by destruct (no_branch _ _ H)); try (intros * H; by rewrite lookup_empty in H).
  - intros t i Ht Hi. assert (t = c \/ frame_addr t /\ upcoming n mm t) as Ht'.
    { destruct Ht as [Ht|Ht]; [|by right]. left. destruct (decide (t = c)); [done|]. rewrite Hlev in Ht by done. lia. }
    destruct (decide (t = c /\ i = 0)) as [[-> ->]|Hne]; [rewrite Hc0; by_computation|].
    rewrite cleared_same; [by apply (kh_words _ _ _ _ _ _ _ _ HK)| | |done|done]; (destruct Ht' as [->|[Ft Ut]]; [done|]); [done|].
    intros HtF. by destruct (proj1 (Forall_forall _ _) (kh_apart _ _ _ _ _ _ _ _ HK) t HtF) as [_ ?].
  - exact (kh_bump _ _ _ _ _ _ _ _ HK).
  - exact (kh_next _ _ _ _ _ _ _ _ HK).
  - intros k Hk. destruct (kh_region _ _ _ _ _ _ _ _ HK k Hk) as [E W]. split; [done|].
    rewrite cleared_walk; [done|done|apply Z.mod_pos_bound; lia|by intros [? _]].
  - rewrite cleared_walk by (in_list || lia). apply HK.
  - rewrite cleared_walk by (in_list || lia). apply HK.
  - rewrite cleared_walk; [apply HK|done|lia|by intros [? _]].
  - destruct (kh_walk1 _ _ _ _ _ _ _ _ HK) as [W Hr]. split; [|done]. rewrite cleared_walk; [done|done|done|by intros [? _]].
  - apply Forall_forall. intros t Ht. destruct (Hin t Ht) as [Hne Ht']. destruct (kh_table t Ht') as (? & ? & _). by rewrite Hlev.
  - exact Hroot.
  - intros x. unfold root_lev. destruct (x =? c); lia.
  - intros t Ht. destruct (decide (t = c)) as [->|]; [done|]. rewrite Hlev in Ht by done. lia.
  - intros f Hf. apply Hlev. by intros ->.
Qed.
End cleared.

(** ** A thread that is appended twice *)

(** From [a], the [next] links lead through [l] to [z]. *)
Fixpoint leads (F : LinkField) (h : heap) (a : Z) (l : list Z) (z : Z) : Prop :=
  match l with
  | [] => a = z
  | p :: l => a = p /\ exists t, h !! p = Some t /\ leads F h (next (get_links t)) l z
  end.

Section twice.
Context {F : LinkField}.

Lemma seg_leads h b l z h' :
  seg F h b l z -> (forall p t, p ∈ l -> h !! p = Some t -> h' !! p = Some t) -> leads F h' (List.hd z l) l z.
Proof.
  revert b. induction l as [|p l IH]; intros b Hs Hh; [done|]. destruct Hs as [(t & Ht & El) Hs]. split; [done|].
  exists t. split; [apply Hh; [by apply list_elem_of_here|done]|]. rewrite El. cbn [next].
  apply (IH p Hs). intros q u Hq. apply Hh. by apply list_elem_of_further.
Qed.

Lemma leads_snoc h a l p t z : leads F h a l p -> h !! p = Some t -> next (get_links t) = z -> leads F h a (l ++ [p]) z.
Proof.
  intros Hl Ht Hz. revert a Hl. induction l as [|q l IH]; intros a Hl; cbn [app leads] in *.
  - split; [done|]. by exists t.
  - destruct Hl as [-> (u & Hu & Hl)]. split; [done|]. exists u. split; [done|]. by apply IH.
Qed.

(** What follows the thread is lost from the list; a thread that was last is
    followed by itself. *)
Lemma append_member h q l1 p l2 :
  rep F h q (l1 ++ p :: l2) ->
  exists q' h', append F q p h = Ret (q', h') /\ relinked F h h' /\ head q' = head q /\
    leads F h' (head q') (l1 ++ [p]) (if decide (l2 = []) then p else 0).
Proof.
  intros [Hh Ht Hnd H0 Hs]. pose proof (fun x => seg_elem h 0 _ 0 x Hs) as Hin.
  apply seg_app in Hs as [Hs1 [(tp & Htp & _) _]]. cbn [List.hd] in Hs1. rewrite last_behind in Ht.
  apply NoDup_app in Hnd as (_ & Hd & [Hpl2 _]%NoDup_cons).
  assert (p <> 0 /\ p ∉ l1) as [Hp Hpl1] by (split; [intros ->; apply H0; set_solver|intros H; apply (Hd p H), list_elem_of_here]).
  assert (head q = List.hd p l1) as Hhd by (rewrite Hh; by destruct l1).
  unfold append, set_next, set_prev. rewrite (update_eq h p tp), bind_Ret by done.
  set (t1 := set_links _ tp). destruct (decide (l2 = [])) as [->|Hne].
  - cbn [List.last] in Ht. rewrite Ht, (proj2 (Z.eqb_neq _ _) Hp). erewrite update_eq by (done || apply lookup_insert_eq).
    rewrite bind_Ret. erewrite update_eq by (done || apply lookup_insert_eq). rewrite bind_Ret, !insert_insert_eq.
    eexists _, _. split; [done|]. unfold t1. rewrite !set_set_links. split; [by apply relinked_insert|]. split; [done|].
    cbn [head]. rewrite Hhd. eapply leads_snoc; [eapply seg_leads; [exact Hs1|]|apply lookup_insert_eq|by rewrite !get_set_links].
    intros x t Hx E. rewrite lookup_insert_ne; [done|]. by intros ->.
  - set (z := List.last l2 p) in *. assert (z ∈ l2) as Hz by (by apply last_in).
    assert (z <> 0 /\ z <> p /\ z ∉ l1) as (Hz0 & Hzp & Hzl1).
    { split_and!; [intros E; apply H0; rewrite <- E; set_solver|by intros E; rewrite E in Hz|].
      intros H. apply (Hd z H). by apply list_elem_of_further. }
    destruct (Hin z) as [tz Htz]; [set_solver|]. rewrite Ht, (proj2 (Z.eqb_neq _ _) Hz0).
    erewrite (update_eq _ z tz) by (done || by rewrite lookup_insert_ne). rewrite bind_Ret.
    erewrite (update_eq _ p t1) by (done || (rewrite lookup_insert_ne by done; apply lookup_insert_eq)). rewrite bind_Ret.
    eexists _, _. split; [done|]. split; [|split; [done|]].
    + transitivity (<[p := t1]> h); [by apply relinked_insert|].
      transitivity (<[z := set_links (Links (prev (get_links tz)) p) tz]> (<[p := t1]> h)).
      * apply relinked_insert. by rewrite lookup_insert_ne.
      * apply relinked_insert. rewrite lookup_insert_ne by done. apply lookup_insert_eq.
    + cbn [head]. rewrite Hhd. eapply leads_snoc; [eapply seg_leads; [exact Hs1|]|apply lookup_insert_eq|].
      * intros x t Hx E. rewrite !lookup_insert_ne; [done|by intros ->..].
      * unfold t1. by rewrite !get_set_links.
Qed.
End twice.

Lemma leads_same (F : LinkField) h h' a l z :
  (forall p t, h !! p = Some t -> exists t', h' !! p = Some t' /\ get_links t' = get_links t) -> leads F h a l z -> leads F h' a l z.
Proof.
  intros Hh. revert a. induction l as [|p l IH]; intros a; [done|]. cbn [leads]. intros [-> (t & Ht & Hl)].
  destruct (Hh p t Ht) as (t' & Ht' & E). split; [done|]. exists t'. split; [done|]. rewrite E. by apply IH.
Qed.

(** The list does not depend on what else the threads have. *)
Lemma leads_relinked h h' p t t' a l z :
  h !! p = Some t -> a_links t' = a_links t -> relinked ThreadQ (<[p := t']> h) h' -> leads ThreadList h a l z -> leads ThreadList h' a l z.
Proof.
  intros Ht Et R. apply leads_same. intros x u Hu.
  assert (exists u1, (<[p := t']> h) !! x = Some u1 /\ a_links u1 = a_links u) as (u1 & Hu1 & E).
  { destruct (decide (x = p)) as [->|Hx]; [rewrite lookup_insert_eq; exists t'; split; [done|congruence]|].
    rewrite lookup_insert_ne by done. by exists u. }
  destruct (relinked_lookup ThreadQ _ _ x u1 R Hu1) as (u' & Hu' & Eu). exists u'. split; [done|].
  cbn. rewrite <- E. by apply (f_equal a_links) in Eu.
Qed.

(** ** The thread *)

Lemma clear_from_kernel n : forall s crawl s',
  clear_from n s crawl = Ret s' -> exists h, kern s' = with_kheap (kern s) h /\ MyAlloc.vm h = vm_of (kern s).
Proof.
  assert (forall s, exists h, kern s = with_kheap (kern s) h /\ MyAlloc.vm h = vm_of (kern s)) as Hrefl.
  { intros s. exists (kheap (kern s)). split; [by destruct (kern s)|done]. }
  induction n as [|n IH]; intros s crawl s' E; cbn [clear_from] in E; (destruct (crawl =? 0); [injection E as <-; apply Hrefl|]);
    apply bind_Ret_inv in E as (a & _ & E); apply bind_Ret_inv in E as (h & Eh & E); [done|].
  apply IH in E as (h' & Ek & Ev). exists h'. cbn [kern with_kern with_vmas] in *. split; [by rewrite Ek|].
  rewrite Ev. unfold vm_of. cbn. unfold MyAlloc.sub_free, MyAlloc.put_free in Eh. by apply bind_Ret_inv in Eh as (b & _ & [= <-]).
Qed.

(** Freeing the areas changes the heap's chunks and the thread's list of areas. *)
Lemma clear_vmas_kernel s p l t :
  areas_ok s p l -> (forall q, q ∈ l -> is_Some (chunk_of (kheap (kern s)) q)) -> threads (kern s) !! p = Some t ->
  exists h va, MyAlloc.vm h = vm_of (kern s) /\ (forall q, q ∈ l -> freed h q) /\
    clear_vmas s p = Ret (Sys (with_threads (with_kheap (kern s) h) (<[p := set_areas 0 0 t]> (threads (kern s)))) va).
Proof.
  intros [(t' & Hp & Ht & Hc & _) Hnd] Hch Ht'. rewrite Ht' in Ht. injection Ht as <-.
  unfold clear_vmas. rewrite (deref_eq _ _ _ Hp Ht'), bind_Ret.
  destruct (clear_from_spec l (size (vmas s)) s (mmap t)) as (s' & E & _ & Hf); [done|done|by eapply area_chain_size|done|].
  rewrite E, bind_Ret. destruct (clear_from_kernel _ _ _ _ E) as (h & Ek & Ev). exists h, (vmas s'). split; [done|].
  split; [intros q Hq; specialize (Hf q (or_intror Hq)); rewrite Ek in Hf; exact Hf|].
  unfold update_thread. rewrite Ek. cbn [threads with_kheap]. by rewrite (update_eq _ _ _ _ Hp Ht'), !bind_Ret.
Qed.

(** The thread, as a new one but for its kernel stack, its number and its place
    among the processes. *)
Definition started_over (cr nm : Z) (t : thread) : thread :=
  Thread (UserStack + VIRT_PAGE_SIZE - 8) 0 (kstack t - 8) cr (Queues.cr3 t) (kstack t) 0 10 (q_links t) UserStack (brk t) 1 0
    (parent t) (joinQueue t) 1 (join_head t) true nm (exitCode t) (pid t) (mmap t) (mmap_cache t) (a_links t).

Lemma start_over k p nm t :
  p <> 0 -> currentThread k = p -> threads k !! p = Some t -> 8 <= kstack t < 2 ^ 64 ->
  Init_Thread_user k p nm UserStack 10 true =
    Ret (with_threads k (<[p := started_over (Paging.cr3 (vm_of k)) nm t]> (threads k))).
Proof.
  intros Hp Hcur Ht Hst. unfold Init_Thread_user. rewrite Hcur, !(deref_eq _ p t), !bind_Ret by done.
  rewrite Z.eqb_refl. cbn [negb fst snd]. unfold started_over. by rewrite (uwrap_small 64 (kstack t - 8)) by lia.
Qed.

(** What a call takes, for the current thread [t]: its areas in heap chunks, an
    address space that can be cleared, kernel pages and frames for the new
    program, chunks for its areas once the old ones are freed, and its place in
    the list of all threads, behind [la1]. *)
Record can_execve (F : list Z) (t3 t2 t1 r : Z) (s : system) (t : thread) (pr : program) (P d n m : Z) (areas chs l la1 la2 : list Z)
    : Prop := {
  ce_current : currentThread (kern s) <> 0 /\ threads (kern s) !! currentThread (kern s) = Some t;
  ce_areas : areas_ok s (currentThread (kern s)) areas /\ forall q, q ∈ areas -> is_Some (chunk_of (kheap (kern s)) q);
  ce_space : clear_space F (vm_of (kern s)) (Queues.cr3 t) P d;
  ce_kernel : kernel_half F t3 t2 t1 r (vm_of (kern s)) n m;
  ce_pcr3 : pcr3 t = Paging.cr3 (vm_of (kern s));
  ce_pages : 3 * Z.of_nat (List.length (executable pr) + 2) <= m;
  ce_frames : wf (frames (vm_of (kern s))) /\ room (List.length (executable pr) + 2) (frames (vm_of (kern s)));
  ce_taken : forall x, in_use t3 t2 t1 (root_lev (Paging.cr3 (vm_of (kern s)))) n m ∅ x -> taken (frames (vm_of (kern s))) x;
  ce_chunks : (forall s', clear_vmas s (currentThread (kern s)) = Ret s' -> chunks (kheap (kern s')) chs) /\
    List.length chs = (List.length (executable pr) + 2)%nat;
  ce_distinct : NoDup chs /\ Forall (fun c => c <> 0) chs;
  ce_segments : Forall fits_page (executable pr) /\ NoDup (image_pages pr);
  ce_stack : 184 <= kstack t < 2 ^ 64;
  ce_run : rep ThreadQ (threads (kern s)) (runQueue (kern s)) l /\ currentThread (kern s) ∉ l;
  ce_all : rep ThreadList (threads (kern s)) (allThreadList (kern s)) (la1 ++ currentThread (kern s) :: la2)
}.

(** The state with the address space cleared and the thread started over. *)
Lemma execve_cleared F t3 t2 t1 r s t pr P d n m areas chs l la1 la2 nm :
  can_execve F t3 t2 t1 r s t pr P d n m areas chs l la1 la2 ->
  let p := currentThread (kern s) in let c := Paging.cr3 (vm_of (kern s)) in
  exists s1 v1 k t', clear_vmas s p = Ret s1 /\ (forall q, q ∈ areas -> freed (kheap (kern s1)) q) /\ deref (threads (kern s1)) p = Ret (set_areas 0 0 t) /\
    clear_page_tables (Queues.cr3 t) (vm_of (kern s1)) = Ret v1 /\ set_cr3 v1 (pcr3 t) = v1 /\ Paging.cr3 v1 = c /\
    (forall va, 0 <= va < 2 ^ 47 -> translate (mem v1) c va = None) /\
    (k ← Init_Thread_user (with_vm (kern s1) v1) p nm UserStack 10 true; alllist_kthread k p) = Ret k /\
    process t3 t2 t1 r p (with_kern s1 k) [] (root_lev c) n m ∅ (List.length (executable pr) + 2) chs /\
    threads k !! p = Some t' /\ data t' = data (started_over c nm (set_areas 0 0 t)) /\
    rep ThreadQ (threads k) (runQueue k) l /\
    leads ThreadList (threads k) (head (allThreadList k)) (la1 ++ [p]) (if decide (la2 = []) then p else 0) /\
    currentThread k = p /\ ptable k = ptable (kern s) /\ nextFreePid k = nextFreePid (kern s) /\ vm_of (kern s1) = vm_of (kern s) /\
    currentThread (kern s1) = p.
Proof.
  intros [[Hp Ht] [Ha Hach] HS HK Hpcr _ [Hwf Hroom] Htk [Hch _] [Hnd Hnz] _ Hst [Hq Hpl] Hall] p c.
  destruct (clear_vmas_kernel s p areas t Ha Hach Ht) as (h & va & Hv & Hfreed & E1). pose proof (Hch _ E1) as Hchs. cbn [kern kheap with_threads with_kheap] in Hchs.
  set (s1 := Sys _ va) in *. assert (vm_of (kern s1) = vm_of (kern s)) as Hv1 by exact Hv.
  destruct (clear_page_tables_spec F (vm_of (kern s)) _ P d HS) as (mm & E2 & Hc0 & Hmm). set (v1 := with_mem _ mm) in E2.
  set (t1' := started_over c nm (set_areas 0 0 t)).
  set (k1 := with_threads (with_vm (kern s1) v1) (<[p := t1']> (threads (kern s)))).
  assert (rep ThreadList (threads k1) (allThreadList k1) (la1 ++ p :: la2)) as Hall1.
  { cbn. by apply (rep_same_links ThreadList (threads (kern s)) _ _ p t). }
  destruct (append_member _ _ la1 p la2 Hall1) as (q' & h' & E3 & R & Hhd & Hleads).
  destruct (relinked_data _ _ _ p t1' R) as (t' & Ht' & Ed); [cbn; apply lookup_insert_eq|].
  exists s1, v1, (with_allThreadList (with_threads k1 h') q'), t'.
  split; [done|]. split; [exact Hfreed|]. split; [apply deref_eq; [done|apply lookup_insert_eq]|]. split; [by rewrite Hv1|]. split; [by rewrite Hpcr|].
  split; [done|]. split; [intros x Hx; by apply (cleared_translate F t3 t2 t1 r (vm_of (kern s)) n m HK mm Hc0 Hmm)|].
  assert (forall A (f : thread -> A), (forall x, f (data x) = f x) -> f t' = f t1') as Hf by (intros A f Hd; by rewrite <- (Hd t'), Ed, Hd).
  split; [|split; [|split; [done|split; [done|split; [|by split]]]]].
  - rewrite (start_over (with_vm (kern s1) v1) p nm (set_areas 0 0 t)) by (done || apply lookup_insert_eq || (cbn; lia)).
    rewrite bind_Ret. cbn [kern s1 threads with_vm with_kheap with_threads]. rewrite insert_insert_eq.
    unfold alllist_kthread, append_global_list_queue. change (append _ _ p _) with (append ThreadList (allThreadList k1) p (threads k1)).
    by rewrite E3.
  - split; cbn [kern with_kern].
    + split; [|apply NoDup_nil_2]. exists t'. cbn [area_chain]. by rewrite (Hf _ mmap), (Hf _ mmap_cache).
    + exact (cleared_space F t3 t2 t1 r (vm_of (kern s)) n m HK mm Hc0 Hmm).
    + done.
    + exact Htk.
    + by apply (chunks_vm _ h v1).
    + done.
  - apply (rep_relinked (F := ThreadList) (threads k1)); [done|]. cbn. by apply (rep_same_links ThreadQ (threads (kern s)) _ _ p t).
Qed.

(** The thread, ready for the new program, is appended to the run queue. *)
Lemma enter_again k p t l :
  rep ThreadQ (threads k) (runQueue k) l -> p <> 0 -> p ∉ l -> threads k !! p = Some t ->
  exists q h t', runnable_kthread k p = Ret (with_runQueue (with_threads k h) q) /\ rep ThreadQ h q (l ++ [p]) /\
    h !! p = Some t' /\ data t' = data t /\ relinked ThreadQ (threads k) h.
Proof.
  intros Hq Hp Hpl Ht. unfold runnable_kthread, append_run_queue.
  destruct (append_spec (F := ThreadQ) (threads k) (runQueue k) l p t) as (q & h & -> & Hr & R); [done..|].
  rewrite bind_Ret. destruct (relinked_data _ _ _ p t R Ht) as (t' & Ht' & Ed). by exists q, h, t'.
Qed.

(** C11: execve replaces the program of the current process, whose tables have one
    page directory (for the first GiB), by a program each segment of which fits
    one page, for a name of at most 30 bytes.  The chunk of every area of the old
    program is freed and its page tables are cleared: no user address
    translates.  Then its pages are those of the new program, each segment with
    the bytes of the archive, the stack and the heap; it owns the areas for
    them; its thread, under its old number and with its old parent and kernel
    stack, is at the end of the run queue, named by the copy on the stack of the
    call, and the frame on its kernel stack starts it at the program's entry, on
    the user stack, with the interrupts on.  The thread is appended to the list
    of all threads, in which it is already: the threads behind it are lost from
    the list, and if it was the last one the list has become a cycle. *)
Theorem main_execve_replaces F t3 t2 t1 r cs L mm s temp nm k t pr P d n m areas chs l la1 la2 :
  can_execve F t3 t2 t1 r s t pr P d n m areas chs l la1 la2 ->
  strlen STRING_BOUND mm nm = Ret k -> k <= 30 -> bytes_ok mm ->
  let arc := strncpy (memset 30 mm temp 0) temp nm k in let p := currentThread (kern s) in
  readelf L arc temp = Ret (Some pr) ->
  exists s1 v1 s' t' lev' n' m' U', clear_vmas s p = Ret s1 /\ (forall q, q ∈ areas -> freed (kheap (kern s1)) q) /\
    clear_page_tables (Queues.cr3 t) (vm_of (kern s1)) = Ret v1 /\
    (forall va, 0 <= va < 2 ^ 47 -> translate (mem v1) (Paging.cr3 v1) va = None) /\
    main_execve cs L mm s temp nm = Ret s' /\
    process t3 t2 t1 r p s' chs lev' n' m' U' 0 [] /\ (forall q, is_Some (U' !! q) <-> q ∈ image_pages pr) /\
    Forall (loaded arc (vm_of (kern s'))) (executable pr) /\
    threads (kern s') !! p = Some t' /\ Kthread.ready t' = true /\ pid t' = pid t /\ parent t' = parent t /\ brk t' = UserHeap /\
    name t' = temp /\ krsp t' = kstack t - 184 /\
    frame_at (stackmem (kern s')) (krsp t') = start_regs (entry_point pr) (UserStack + VIRT_PAGE_SIZE - 8) /\
    ptable (kern s') = ptable (kern s) /\ currentThread (kern s') = p /\
    rep ThreadQ (threads (kern s')) (runQueue (kern s')) (l ++ [p]) /\
    leads ThreadList (threads (kern s')) (head (allThreadList (kern s'))) (la1 ++ [p]) (if decide (la2 = []) then p else 0).
Proof.
  intros HE Hlen Hk Hmm arc p Hpr.
  destruct (execve_cleared F t3 t2 t1 r s t pr P d n m areas chs l la1 la2 temp HE)
    as (s1 & v1 & k1 & t1' & E1 & Hfreed & E2 & E3 & Ecr & Hc & Htr & E4 & HP & Ht1 & Ed1 & Hq & Hall & Hcur & Hpt & _ & Hvm & Hcur1).
  fold p in E1, E2, E4, HP, Ht1, Hall, Hcur, Hcur1. destruct HE as [[Hp _] _ _ _ _ Hm _ _ [_ Hcl] _ [Hfit Hnd] Hst [_ Hpl] _]. fold p in Hp, Hpl.
  assert (forall A (f : thread -> A), (forall x, f (data x) = f x) -> f t1' = f (started_over (Paging.cr3 (vm_of (kern s))) temp (set_areas 0 0 t)))
    as Hf1 by (intros A f Hd; by rewrite <- (Hd t1'), Ed1, Hd).
  assert (krsp t1' = kstack t - 8) as Ek1 by (by rewrite (Hf1 _ krsp)).
  destruct (build_image_spec t3 t2 t1 r cs arc p pr (with_kern s1 k1) [] _ n m ∅ chs t1' HP Hcl Hm)
    as (s3 & lev' & n' & m' & U' & a & b & h & w & E5 & HP5 & HD & HL & _ & Ek3 & Hfr); try done; [|by apply Forall_forall|lia|].
  { apply memcpy_ok, memset_ok; [done|lia]. }
  cbn [kern with_kern app] in *. set (t3' := image_thread a b t1') in *.
  assert (threads (kern s3) !! p = Some t3') as Ht3 by (rewrite Ek3; cbn; apply lookup_insert_eq).
  destruct (enter_again (kern s3) p t3' l) as (q & hq & t' & E6 & Hq6 & Ht' & Ed6 & R); [|done..|].
  { rewrite Ek3. cbn. by apply (rep_same_links ThreadQ (threads k1) (runQueue k1) l p t1'). }
  assert (forall A (f : thread -> A), (forall x, f (data x) = f x) -> f t' = f t3') as Hf by (intros A f Hd; by rewrite <- (Hd t'), Ed6, Hd).
  eexists s1, v1, _, t', lev', n', m', U'. split; [exact E1|]. split; [exact Hfreed|]. split; [exact E3|]. split; [by rewrite Hc|]. split.
  { unfold main_execve. rewrite Hlen, bind_Ret, (proj2 (Z.ltb_ge _ _)) by lia. cbv zeta. fold arc p. rewrite E1, bind_Ret, Hcur1, E2, bind_Ret.
    change (Queues.cr3 (set_areas 0 0 t)) with (Queues.cr3 t). rewrite E3, bind_Ret. change (pcr3 (set_areas 0 0 t)) with (pcr3 t). rewrite Ecr.
    unfold do_exec1. change (currentThread (kern (with_kern s1 (with_vm (kern s1) v1)))) with (currentThread (kern s1)). rewrite Hcur1.
    apply bind_Ret_inv in E4 as (k0 & E0 & E4). cbn [kern with_kern]. rewrite E0, bind_Ret, E4, bind_Ret, Hpr, bind_Ret.
    change (with_kern (with_kern s1 (with_vm (kern s1) v1)) k1) with (with_kern s1 k1). rewrite E5, bind_Ret, E6, bind_Ret. reflexivity. }
  cbn [kern with_kern threads runQueue allThreadList stackmem ptable currentThread with_runQueue with_threads].
  assert (vm_of (with_runQueue (with_threads (kern s3) hq) q) = vm_of (kern s3)) as Hv by done. rewrite Hv.
  split_and!; try done.
  - by apply (process_kernel t3 t2 t1 r p s3 _ t3' t' _ _ _ _ _ _ _ HP5 Ht3); [|rewrite (Hf _ mmap)|rewrite (Hf _ mmap_cache)|].
  - intros x. rewrite HD, lookup_empty. split; [intros [[? ?]|?]; done|by right].
  - rewrite (Hf _ Kthread.ready) by done. change (Kthread.ready t3') with (Kthread.ready t1'). by rewrite (Hf1 _ Kthread.ready).
  - rewrite (Hf _ pid) by done. cbn. by rewrite (Hf1 _ pid).
  - rewrite (Hf _ parent) by done. cbn. by rewrite (Hf1 _ parent).
  - by rewrite (Hf _ brk).
  - rewrite (Hf _ name) by done. cbn. by rewrite (Hf1 _ name).
  - rewrite (Hf _ krsp) by done. cbn. lia.
  - rewrite (Hf _ krsp) by done. rewrite Ek3. cbn. rewrite Hfr. by rewrite (Hf1 _ rsp).
  - by rewrite Ek3.
  - by rewrite Ek3.
  - rewrite Ek3 in *. cbn in *. by apply (leads_relinked (threads k1) hq p t1' t3').
Qed.

(** ** A process that executes a program *)

(** The kernel's tables are at 0x1000 to 0x4000 and its window covers the
    top-level table and the frames 0x10000 to 0x2F000, of which 0x15000 is the
    next; the program's directory at 0x12000 has two tables, and the first maps
    a page to frame 0x30000. *)
Definition running_machine : vmm :=
  Vmm (fun a =>
         if a =? 0x1000 then 0x10007 else if a =? 0x1000 + 8 * 510 then 0x1003 else if a =? 0x1000 + 8 * 511 then 0x2003
         else if a =? 0x2000 + 8 * 510 then 0x3003 else if a =? 0x3000 then 0x4003 else if a =? 0x4008 then 0x1003
         else if (0x4080 <=? a) && (a <? 0x4180) then (a - 0x4000) / 8 * 4096 + 3
         else if a =? 0x10000 then 0x12007 else if a =? 0x12000 then 0x13007 else if a =? 0x12018 then 0x14007
         else if a =? 0x13028 then 0x30007 else 0)
      (Bitmap [0xFFFFFFFFFFFFFFFF; 0] 64 128) 0x1000 0 0x1000 (virt_base + 0x14000) 0 0 0.
Definition running_frames : list Z := [0x10000; 0x12000; 0x13000; 0x14000].

(** The process has one area, in the heap's first chunk. *)
Definition running_thread : thread := set_tables (0x1000 + virt_base) 0x1000 (demo_thread 2 0x300 0x300).
Definition running_system : system :=
  Sys (with_kheap (with_runQueue (with_threads (kern cow_system) {[ 0x100 := running_thread ]}) (Queue 0 0))
         (MyAlloc.KHeap {[ 0x2F0 := MyAlloc.Block 0x500 40 0; 0x500 := MyAlloc.Block 0x600 40 1; 0x600 := MyAlloc.Block 0 40 1 ]}
            0x2F0 0x600 running_machine))
      {[ 0x300 := Vma 0 0x5000 0x6000 0 0 ]}.

Lemma running_clear : clear_space running_frames running_machine (0x1000 + virt_base) 0x10000 0x12000.
Proof.
  assert (Forall (fun i => entry_at (mem running_machine) 0x12000 i = 0 \/ i = 0 \/ i = 3) (seqZ 0 512)) as H by by_computation.
  assert (forall i, 0 <= i < 512 -> entry_at (mem running_machine) 0x12000 i <> 0 -> i = 0 \/ i = 3) as Hent.
  { intros i Hi. pose proof (proj1 (Forall_forall _ _) H i) as Hx. rewrite elem_of_seqZ in Hx. simpl in Hx. tauto. }
  split.
  - unfold ready. apply (windowed_intro _ _ _ 0x2000 0x3000 0x4000 0); by_computation.
  - intros m' i Hm Hi. rewrite uwrap_small by (unfold virt_base; lia).
    replace (0x1000 + virt_base + 8 * i) with (virt_base + (0x1000 + 8 * i)) by lia.
    assert (forall t j x, outside running_frames (t + 8 * j) -> t + 8 * j <> 0x1000 -> walk (mem running_machine) t j = Some x ->
      walk m' t j = Some x) as Hw.
    { intros t j x Ho Hne W. unfold walk in *. cbv zeta in *. rewrite Hm; [exact W|by apply outside_frames|exact Hne]. }
    assert (walk m' 0x1000 511 = Some 0x2000 /\ walk m' 0x2000 510 = Some 0x3000 /\ walk m' 0x3000 0 = Some 0x4000 /\
      walk m' 0x4000 1 = Some 0x1000) as (W3 & W2 & W1 & W0) by (split_and!; apply Hw; by_computation).
    apply (seen_maps running_frames 0x1000 m' 0x2000 0x3000 0x4000 0 W3 W2 W1); [by_computation..| |done|lia].
    unfold seen. split_and!; first [exact W0|by_computation].
  - intros i Hi. apply outside_frames. unfold outside, running_frames. repeat constructor; cbn; lia.
  - by_computation.
  - split; reflexivity.
  - split; reflexivity.
  - by intros i Hi [-> | ->]%(Hent i Hi); by_computation.
Qed.

Lemma running_half : kernel_half running_frames 0x2000 0x3000 0x4000 0 running_machine 0x15000 12.
Proof.
  split.
  - intros t i _ _. unfold running_machine. cbn [mem].
    do 6 (match goal with |- entry_ok (if ?b then _ else _) => destruct b; [by_computation|] end).
    destruct (_ && _) eqn:E; [by apply window_word_ok|].
    do 4 (match goal with |- entry_ok (if ?b then _ else _) => destruct b; [by_computation|] end). by_computation.
  - reflexivity.
  - by_computation.
  - intros k Hk. assert (k ∈ seqZ 0 12) as Hin by (apply elem_of_seqZ; lia).
    assert (Forall (fun k => (0x15000 + 4096 * k) / 2 ^ 21 = 0 /\
      walk (mem running_machine) 0x4000 ((0x15000 + 4096 * k) / 2 ^ 12 mod 512) = Some (0x15000 + 4096 * k)) (seqZ 0 12)) as HF by by_computation.
    exact (proj1 (Forall_forall _ _) HF k Hin).
  - reflexivity.
  - reflexivity.
  - reflexivity.
  - split; [reflexivity|lia].
  - unfold upcoming. repeat constructor; (by_computation || (cbn; lia)).
  - by_computation.
  - intros i Hi. assert (i ∈ seqZ 1 255) as Hin by (apply elem_of_seqZ; lia).
    assert (Forall (fun i => present (mem running_machine (0x1000 + 8 * i)) = false) (seqZ 1 255)) as HF by by_computation.
    exact (proj1 (Forall_forall _ _) HF i Hin).
  - unfold upcoming. repeat constructor; (by_computation || (cbn; lia)).
Qed.

Lemma running_taken x : in_use 0x2000 0x3000 0x4000 (root_lev 0x1000) 0x15000 12 ∅ x -> taken (frames running_machine) x.
Proof. exact (bare_taken x). Qed.

Lemma running_ready :
  can_execve running_frames 0x2000 0x3000 0x4000 0 running_system running_thread small_pr 0x10000 0x12000 0x15000 12
    [0x300] [0x300; 0x510; 0x610] [] [] [].
Proof.
  split.
  - split; [by_computation|reflexivity].
  - split; [|intros q ->%list_elem_of_singleton; vm_compute; eauto].
    split; [|apply NoDup_singleton]. exists running_thread. split_and!; [by_computation|reflexivity| |reflexivity].
    cbn. split_and!; [done|done|]. eexists. split; reflexivity.
  - exact running_clear.
  - exact running_half.
  - reflexivity.
  - cbn. lia.
  - split; by_computation.
  - exact running_taken.
  - split; [|reflexivity]. intros s' E. apply (f_equal (fun r => kheap (kern (returned running_system r)))) in E. cbn [returned] in E.
    rewrite <- E. clear. set (h := kheap _). exists (after_malloc h). split; [intros v; vm_compute; reflexivity|].
    exists (after_malloc (after_malloc h)). split; [intros v; vm_compute; reflexivity|].
    exists (after_malloc (after_malloc (after_malloc h))). split; [intros v; vm_compute; reflexivity|exact I].
  - split; by_computation.
  - split; [|by_computation]. constructor; [|constructor]. split; [by_computation|].
    exists 0xB8. split_and!; (reflexivity || by_computation).
  - cbn. lia.
  - split; [apply rep_empty|by_computation].
  - split; [reflexivity|reflexivity|by_computation|by_computation|]. split; [by eexists|done].
Qed.

(** The process executes the program of the archive, and reads its third byte;
    alone in the list of all threads, it is now followed by itself. *)
Example main_execve_replaces_witness :
  exists s' t, main_execve 0 small_layout small_archive running_system 0x500 0x800 = Ret s' /\
    threads (kern s') !! 0x100 = Some t /\ frame_at (stackmem (kern s')) (krsp t) = start_regs 0x4000B8 0xbffff8 /\
    user_byte (vm_of (kern s')) 0x4000BA = Some 3 /\ Queues.next (a_links t) = 0x100.
Proof.
  destruct (main_execve_replaces running_frames 0x2000 0x3000 0x4000 0 0 small_layout small_archive running_system 0x500 0x800 1
    running_thread small_pr 0x10000 0x12000 0x15000 12 [0x300] [0x300; 0x510; 0x610] [] [] [] running_ready)
    as (s1 & v1 & s' & t & lev' & n' & m' & U' & _ & _ & _ & _ & E & _ & _ & HL & Ht & _ & _ & _ & _ & _ & _ & Hf & _ & _ & _ & _ & t2 & Ht2 & Hn).
  - reflexivity.
  - lia.
  - unfold small_archive. cbn [fold_right]. do 11 apply store_le_ok. done.
  - vm_compute. reflexivity.
  - exists s', t. split_and!; [exact E|exact Ht|exact Hf| |].
    + apply Forall_cons in HL as [HL _]. exact (HL 2 ltac:(split; [done|reflexivity])).
    + assert (Some t = Some t2) as [= ->] by (rewrite <- Ht; exact Ht2). exact Hn.
Defined.
