(* ===== verification/Libc.v ===== *)
(** * The user library (libc/, crt/crt1.c)

    The functions that make a system call, as the registers they trap with,
    against the dispatch of PageFault.v; and the library's [printf], which
    formats into a buffer of 100 bytes. *)

From S2P Require Import Prelude CString Process PageFault.

(** ** System calls *)

(** [int $0x80] with the number in [rax] and the arguments where the calling
    convention leaves them: [rdi], [rsi], [rdx].  The other registers are the
    caller's. *)
Definition trap (n a1 a2 a3 : Z) (r : regs) : regs :=
  Regs (r15 r) (r14 r) (r13 r) (r12 r) (r11 r) (r10 r) (r9 r) (r8 r) (u64 a2) (u64 a1) (rbp r) (u64 a3) (rcx r)
    (rbx r) n 0x80 (errCode r) (rip r) (cs r) (rflags r) (user_rsp r) (ss r).
Definition trap2 (n a1 a2 : Z) (r : regs) : regs := trap n a1 a2 (rdx r) r.
Definition trap1 (n a1 : Z) (r : regs) : regs := trap2 n a1 (rsi r) r.
Definition trap0 (n : Z) (r : regs) : regs := trap1 n (rdi r) r.

Definition write (buf fd : Z) : regs -> regs := trap2 0x2 buf fd.
Definition fork_call : regs -> regs := trap0 0x3.
Definition sleep_call (time : Z) : regs -> regs := trap1 0x4 time.
Definition read (buf fd count : Z) : regs -> regs := trap 0x5 buf fd count.
Definition wait : regs -> regs := trap0 0x6.
Definition execve (buf : Z) : regs -> regs := trap1 0x7 buf.
Definition ps : regs -> regs := trap0 0x8.
Definition cls : regs -> regs := trap0 0x9.
Definition ls : regs -> regs := trap0 0xA.
Definition sbrk (size : Z) : regs -> regs := trap1 0xB size.
Definition open (buf : Z) : regs -> regs := trap1 0xC buf.
Definition close (fd : Z) : regs -> regs := trap1 0xD fd.
Definition getpid : regs -> regs := trap0 0x14.
Definition cd (buf : Z) : regs -> regs := trap1 0x15 buf.
Definition print_pwd : regs -> regs := trap0 0x16.
Definition create (buf : Z) : regs -> regs := trap1 0x17 buf.
Definition seek (fd pos : Z) : regs -> regs := trap2 0x18 fd pos.

(** [exit] asks for the process number first and passes it in [rdi]; [val] is
    what the first call returned. *)
Definition exit_first : regs -> regs := getpid.
Definition exit_second (val : Z) : regs -> regs := trap1 0x1 val.

(** ** printf *)

Inductive arg := Int (i : Z) | Str (s : list Z).

(** The buffer and [cnt]; a write past the buffer is undefined. *)
Abbreviation out := (list Z * Z)%type.
Definition put_buf (o : out) (c : Z) : outcome out :=
  b ← array_set o.1 o.2 (s8 c); Ret (b, u16 (o.2 + 1)).
Definition put_string (s : list Z) (o : out) : outcome out :=
  foldl (fun (r : outcome out) c => o ← r; put_buf o c) (Ret o) s.

(** [for (ind = 0; ind < 8; ind++) if (conv[ind] != ' ') buf[cnt++] = conv[ind];]
    in the buffer of [convert_u] from index [p]. *)
Definition number_step (conv : list Z) (p ind : Z) (o : out) : outcome out :=
  c ← array_get conv (p + ind); if c =? 32 then Ret o else put_buf o c.
Definition put_number (conv : list Z) (p : Z) (o : out) : outcome out := for_loop 8 0 (number_step conv p) o.

(** [conv] is the static buffer of [convert_u].  Both [%d] and [%x] convert to
    base 10; an unknown letter prints nothing. *)
Fixpoint format (fmt : list Z) (args : list arg) (conv : list Z) (o : out) : outcome (list Z * out) :=
  match fmt with
  | [] => Ret (conv, o)
  | p :: fmt =>
    if negb (p =? 37) then o ← put_buf o p; format fmt args conv o else
    match fmt with
    | [] => Undef
    | k :: fmt =>
      if k =? 99 then
        match args with Int i :: args => o ← put_buf o i; format fmt args conv o | _ => Undef end
      else if k =? 115 then
        match args with Str s :: args => o ← put_string s o; format fmt args conv o | _ => Undef end
      else if k =? 100 then
        match args with
        | Int i :: args => r ← convert_u conv (u64 i) 10; o ← put_number r.1 r.2 o; format fmt args r.1 o
        | _ => Undef
        end
      else if k =? 120 then
        match args with
        | Int i :: args =>
          o ← put_string [48; 120] o;
          r ← convert_u conv (u64 i) 10; o ← put_number r.1 r.2 o; format fmt args r.1 o
        | _ => Undef
        end
      else format fmt args conv o
    end
  end.

(** The bytes [printf] hands to [write]: [stack] is what the local array
    [buf[100]] held before; it gets no terminator. *)
Definition printf (fmt : list Z) (args : list arg) (conv stack : list Z) : outcome (list Z) :=
  r ← format fmt args conv (stack, 0);
  Ret r.2.1.

(** ** Dispatch *)

(** C28: every call of the library traps into the handler of its name with its
    arguments, whatever the other registers hold. *)
Theorem libc_calls_dispatched r buf fd count time pos val :
  0 <= buf < 2 ^ 64 -> 0 <= time < 2 ^ 64 -> - 2 ^ 31 <= fd < 2 ^ 31 -> - 2 ^ 31 <= count < 2 ^ 31 -> - 2 ^ 31 <= pos < 2 ^ 31 ->
  syscall_of (write buf fd r) = Write buf fd /\ syscall_of (fork_call r) = Fork /\
  syscall_of (sleep_call time r) = Sleep time /\ syscall_of (read buf fd count r) = Read buf fd count /\
  syscall_of (wait r) = Wait /\ syscall_of (execve buf r) = Execve buf /\ syscall_of (ps r) = Ps /\
  syscall_of (cls r) = Cls /\ syscall_of (ls r) = Ls /\ syscall_of (sbrk count r) = Sbrk count /\
  syscall_of (open buf r) = Open buf /\ syscall_of (close fd r) = Close fd /\ syscall_of (getpid r) = Getpid /\
  syscall_of (cd buf r) = Chdir buf /\ syscall_of (print_pwd r) = Pwd /\ syscall_of (create buf r) = Create buf /\
  syscall_of (seek fd pos r) = Seek fd pos /\ syscall_of (exit_first r) = Getpid /\
  syscall_of (exit_second val r) = Exit.
Proof.
  intros Hb Ht Hf Hc Hp.
  assert (forall i, - 2 ^ 31 <= i < 2 ^ 31 -> s32 (u64 i) = i) as Hs.
  { intros i Hi. unfold swrap, uwrap. Z.to_euclidean_division_equations. lia. }
  split_and!; unfold syscall_of; cbn -[Z.pow uwrap swrap];
    rewrite ?(Hs fd), ?(Hs count), ?(Hs pos), ?(uwrap_small 64 buf), ?(uwrap_small 64 time) by done; reflexivity.
Qed.

Example libc_calls_dispatched_witness :
  syscall_of (read 0x400100 100 (-1) demo_regs) = Read 0x400100 100 (-1) /\ syscall_of (cd 0x400100 demo_regs) = Chdir 0x400100.
Proof.
  destruct (libc_calls_dispatched demo_regs 0x400100 100 (-1) 0 0 0) as (_ & _ & _ & H & _ & _ & _ & _ & _ & _ & _ & _ & _ & H' & _);
    [lia..|].
  split; [exact H|exact H'].
Defined.

(** ** What printf writes *)

(** The text of a format of plain characters, strings and characters. *)
Inductive piece := Plain (c : Z) | Character (c : Z) | Text (s : list Z).
Definition piece_format (p : piece) : list Z :=
  match p with Plain c => [c] | Character _ => [37; 99] | Text _ => [37; 115] end.
Definition piece_args (p : piece) : list arg :=
  match p with Plain _ => [] | Character c => [Int c] | Text s => [Str s] end.
Definition piece_text (p : piece) : list Z :=
  match p with Plain c | Character c => [c] | Text s => s end.

Definition signed_char (c : Z) : Prop := - 128 <= c < 128.
Definition char (c : Z) : Prop := signed_char c /\ c <> 0.
Definition piece_ok (p : piece) : Prop :=
  Forall char (piece_text p) /\ match p with Plain c => c <> 37 | _ => True end.

#[export] Instance char_dec c : Decision (char c).
Proof. unfold char, signed_char. apply _. Defined.

Lemma char_signed l : Forall char l -> Forall signed_char l.
Proof. intros H. eapply Forall_impl; [exact H|]. by intros c [? _]. Qed.
#[export] Instance piece_ok_dec p : Decision (piece_ok p).
Proof. unfold piece_ok. destruct p; apply _. Defined.

(** Writing [l] from index [cnt] on. *)
Lemma put_string_spec l : forall b cnt,
  Forall signed_char l -> 0 <= cnt -> cnt + Z.of_nat (length l) <= Z.of_nat (length b) -> Z.of_nat (length b) < 2 ^ 16 ->
  put_string l (b, cnt) = Ret (list_inserts (Z.to_nat cnt) l b, cnt + Z.of_nat (length l)).
Proof.
  induction l as [|c l IH]; intros b cnt Hl Hc Hlen Hb; cbn [length] in Hlen.
  { unfold put_string. cbn. do 2 f_equal. lia. }
  apply Forall_cons in Hl as [Hch Hl]. unfold put_string. cbn [foldl]. rewrite bind_Ret. unfold put_buf at 2. cbn [fst snd].
  rewrite array_set_lt, bind_Ret by lia. rewrite uwrap_small by lia. rewrite (swrap_small 8 c) by (unfold signed_char in Hch; lia).
  pose proof (IH (<[Z.to_nat cnt := c]> b) (cnt + 1)) as E. unfold put_string in E. rewrite E by (done || rewrite ?length_insert; lia).
  cbn [list_inserts length]. do 2 f_equal; [|lia].
  replace (Z.to_nat (cnt + 1)) with (S (Z.to_nat cnt)) by lia.
  symmetry. apply list_insert_inserts_lt. lia.
Qed.

Lemma put_string_one c o : put_string [c] o = put_buf o c.
Proof. done. Qed.

Definition text_of (l : list piece) : list Z := concat (map piece_text l).

Lemma format_pieces conv l : forall b cnt,
  Forall piece_ok l -> 0 <= cnt -> cnt + Z.of_nat (length (text_of l)) <= Z.of_nat (length b) -> Z.of_nat (length b) < 2 ^ 16 ->
  format (concat (map piece_format l)) (concat (map piece_args l)) conv (b, cnt) =
    Ret (conv, (list_inserts (Z.to_nat cnt) (text_of l) b, cnt + Z.of_nat (length (text_of l)))).
Proof.
  induction l as [|p l IH]; intros b cnt Hl Hc Hlen Hb.
  { cbn. do 3 f_equal. lia. }
  apply Forall_cons in Hl as [[Hch Hp] Hl]. unfold text_of in *. cbn [map concat] in *. rewrite length_app in Hlen.
  assert (forall X, X = format (concat (map piece_format l)) (concat (map piece_args l)) conv
      (list_inserts (Z.to_nat cnt) (piece_text p) b, cnt + Z.of_nat (length (piece_text p))) ->
    X = Ret (conv, (list_inserts (Z.to_nat cnt) (piece_text p ++ concat (map piece_text l)) b,
      cnt + Z.of_nat (length (piece_text p ++ concat (map piece_text l)))))) as Hstep.
  { intros X ->. rewrite IH by (done || rewrite ?length_inserts; lia). do 3 f_equal.
    - rewrite list_inserts_app_l. f_equal. lia.
    - rewrite length_app. lia. }
  destruct p as [c|c|s]; cbn [piece_format piece_args piece_text app] in *.
  - cbn [format]. rewrite (proj2 (Z.eqb_neq _ _) Hp). cbn [negb].
    rewrite <- (put_string_one c), (put_string_spec [c]), bind_Ret by ((by apply char_signed) || cbn [length] in *; lia).
    apply Hstep. done.
  - cbn [format]. change (37 =? 37) with true. cbn [negb]. change (99 =? 99) with true. cbv iota.
    rewrite <- (put_string_one c), (put_string_spec [c]), bind_Ret by ((by apply char_signed) || cbn [length] in *; lia).
    apply Hstep. done.
  - cbn [format]. change (37 =? 37) with true. cbn [negb]. change (115 =? 99) with false. change (115 =? 115) with true. cbv iota.
    rewrite (put_string_spec s), bind_Ret by ((by apply char_signed) || lia). apply Hstep. done.
Qed.

(** [printf] of plain characters, [%c] and [%s] hands [write] the text
    followed by what its local buffer held before: no terminator is written, and
    a text of more than 100 bytes runs past the buffer. *)
Theorem printf_text conv stack l :
  Forall piece_ok l -> length stack = 100%nat -> (length (text_of l) <= 100)%nat ->
  printf (concat (map piece_format l)) (concat (map piece_args l)) conv stack = Ret (overlay (text_of l) stack).
Proof.
  intros Hl Hs Hlen. unfold printf. rewrite format_pieces by (done || rewrite ?Hs; lia). rewrite bind_Ret.
  cbn [fst snd]. change (Z.to_nat 0) with 0%nat. by rewrite inserts_overlay by lia.
Qed.

(** ["a%s"] with "bc", on a stack that held letters. *)
Example printf_text_witness :
  printf [97; 37; 115] [Str [98; 99]] [] (replicate 100 120) = Ret ([97; 98; 99] ++ replicate 97 120).
Proof. apply (printf_text [] (replicate 100 120) [Plain 97; Text [98; 99]]); [by_computation|reflexivity|cbn; lia]. Defined.

(** The loop over the digits, from the text [s] in the buffer of
    [convert_u]: it reads eight bytes of it, however long it is. *)
Lemma number_loop conv p s n : forall i (o : out),
  drop (Z.to_nat p) conv = s -> 0 <= p -> Forall (fun c => signed_char c /\ c <> 32) s -> 0 <= i -> 0 <= o.2 ->
  o.2 + Z.of_nat n <= Z.of_nat (length o.1) < 2 ^ 16 ->
  for_loop n i (number_step conv p) o =
    if decide (i + Z.of_nat n <= Z.of_nat (length s) \/ n = 0%nat) then put_string (take n (drop (Z.to_nat i) s)) o else Undef.
Proof.
  induction n as [|n IH]; intros i o Hs Hp Hf Hi Ho Hfit; cbn [for_loop].
  { rewrite decide_True by auto. done. }
  assert (array_get conv (p + i) = defined (s !! Z.to_nat i)) as Hget.
  { unfold array_get. rewrite (proj2 (Z.leb_le 0 (p + i))) by lia. rewrite <- Hs, lookup_drop. do 2 f_equal. lia. }
  destruct (s !! Z.to_nat i) as [c|] eqn:Ec; cbn [defined] in Hget.
  - pose proof (lookup_lt_Some _ _ _ Ec). destruct (proj1 (Forall_lookup _ _) Hf _ _ Ec) as [Hc Hc32].
    destruct o as [b cnt]. cbn [fst snd] in *.
    assert (put_buf (b, cnt) c = Ret (<[Z.to_nat cnt := c]> b, cnt + 1)) as Hput.
    { unfold put_buf. cbn [fst snd]. rewrite array_set_lt, bind_Ret by lia. rewrite uwrap_small by lia.
      by rewrite (swrap_small 8 c) by (unfold signed_char in Hc; lia). }
    assert (number_step conv p i (b, cnt) = Ret (<[Z.to_nat cnt := c]> b, cnt + 1)) as ->.
    { unfold number_step. by rewrite Hget, bind_Ret, (proj2 (Z.eqb_neq _ _) Hc32). }
    rewrite bind_Ret, IH by (done || cbn [fst snd]; rewrite ?length_insert; lia).
    replace (Z.to_nat (i + 1)) with (S (Z.to_nat i)) by lia. rewrite (drop_S s c (Z.to_nat i) Ec). cbn [take].
    assert (forall l, put_string (c :: l) (b, cnt) = put_string l (<[Z.to_nat cnt := c]> b, cnt + 1)) as ->
      by (intros l; unfold put_string; cbn [foldl]; by rewrite bind_Ret, Hput).
    destruct (decide (i + 1 + Z.of_nat n <= Z.of_nat (length s) \/ n = 0%nat)) as [Hd|Hd];
      [rewrite decide_True by lia; done|rewrite decide_False by lia; done].
  - apply lookup_ge_None in Ec. rewrite decide_False by lia. unfold number_step. by rewrite Hget.
Qed.

Lemma digit_text ds : Forall (fun d => 0 <= d < 10) ds -> Forall (fun c => signed_char c /\ c <> 32) ((digit <$> ds) ++ [0]).
Proof.
  intros H. apply Forall_app. split; [|constructor; [by vm_compute|done]].
  apply Forall_fmap. eapply Forall_impl; [exact H|]. intros d Hd. cbn in Hd |- *. unfold digit, signed_char.
  rewrite (proj2 (Z.ltb_lt d 10)) by lia. lia.
Qed.

(** [printf] of a nonnegative [%d] takes eight bytes from the digits,
    whatever their number: a number of more than eight digits is cut, one of
    seven ends the text with its terminator, and a shorter one reads past the
    buffer of [convert_u]. *)
Theorem printf_number conv stack n :
  length conv = 65%nat -> length stack = 100%nat -> 0 <= n < 2 ^ 31 ->
  exists ds, digits_of 10 n ds /\
    printf [37; 100] [Int n] conv stack =
      if decide (length ds < 7)%nat then Undef else Ret (overlay (take 8 ((digit <$> ds) ++ [0])) stack).
Proof.
  intros Hc Hs Hn. destruct (convert_spec conv n 10) as (conv' & p & ds & E & Hl & Hp & Hds & Hd); [done|lia|lia|].
  exists ds. split; [done|]. unfold printf. cbn [format]. change (37 =? 37) with true.
  change (100 =? 99) with false. change (100 =? 115) with false. change (100 =? 100) with true. cbn [negb]. cbv iota.
  unfold convert_u. rewrite (uwrap_small 64 n), (uwrap_small 16 10), E, bind_Ret by lia. cbn [fst snd].
  destruct Hds as (_ & Hdr & _). pose proof (digit_text _ Hdr) as Htext.
  unfold put_number. rewrite (number_loop conv' p _ 8 0 (stack, 0) Hd) by (done || cbn [fst snd]; rewrite ?Hs; lia).
  rewrite length_app, length_fmap. cbn [length]. change (Z.to_nat 0) with 0%nat. rewrite drop_0.
  destruct (decide (length ds < 7)%nat) as [Hlt|Hge].
  - rewrite decide_False by lia. done.
  - rewrite decide_True by lia. set (s := take 8 _).
    assert (length s = 8%nat) as Es by (unfold s; rewrite length_take, length_app, length_fmap; cbn [length]; lia).
    rewrite put_string_spec; [|apply Forall_take; eapply Forall_impl; [exact Htext|by intros c [? _]]|lia|lia|lia].
    rewrite !bind_Ret. cbn [fst snd]. change (Z.to_nat 0) with 0%nat. by rewrite inserts_overlay by lia.
Qed.

(** 2147483647 comes out as 21474836. *)
Example printf_number_witness :
  printf [37; 100] [Int 2147483647] (replicate 65 0) (replicate 100 0) =
    Ret ([50; 49; 52; 55; 52; 56; 51; 54] ++ replicate 92 0) /\
  exists ds, digits_of 10 2147483647 ds /\
    printf [37; 100] [Int 2147483647] (replicate 65 0) (replicate 100 0) =
      if decide (length ds < 7)%nat then Undef else Ret (overlay (take 8 ((digit <$> ds) ++ [0])) (replicate 100 0)).
Proof.
  split; [vm_compute; reflexivity|].
  exact (printf_number (replicate 65 0) (replicate 100 0) 2147483647 eq_refl eq_refl ltac:(lia)).
Defined.
