(* ===== verification/Ahci.v ===== *)
(** * The disk driver (sys/ahci.c, include/ahci.h)

    Port set-up, the search for a free command slot, the command structures a
    transfer fills in, and the transfers of single buffers.  The drive behind
    the controller is a parameter, the class [Drive]; what the driver relies on
    of it is the class [DriveLaws]. *)

From S2P Require Import Prelude CString Memory.

(** ** Registers and command structures *)

Definition HBA_PxIS_TFES : Z := 2 ^ 30.
Definition ATA_CMD_READ_DMA_EXT : Z := 0x25.
Definition ATA_CMD_WRITE_DMA_EXT : Z := 0x35.
Definition SATA_SIG_ATAPI : Z := 0xEB140101.
Definition SATA_SIG_SEMB : Z := 0xC33C0101.
Definition SATA_SIG_PM : Z := 0x96690101.
Definition AHCI_DEV_NULL : Z := 2.
Definition AHCI_DEV_SATA : Z := 1.
Definition AHCI_DEV_SATAPI : Z := 4.
Definition AHCI_DEV_SEMB : Z := 2.
Definition AHCI_DEV_PM : Z := 3.
Definition HBA_PORT_DET_PRESENT : Z := 3.
Definition HBA_PORT_IPM_ACTIVE : Z := 1.
Definition HBA_PxCMD_CR : Z := 2 ^ 15.
Definition HBA_PxCMD_FR : Z := 2 ^ 14.
Definition HBA_PxCMD_FRE : Z := 2 ^ 4.
Definition HBA_PxCMD_ST : Z := 2 ^ 0.
Definition AHCI_KERN_BASE : Z := 0xFFFFFFFF80000000.
Definition FIS_TYPE_REG_H2D : Z := 0x27.

(** The registers the driver touches. *)
Record HBA_PORT := Port {
  clb : Z; clbu : Z; fb : Z; fbu : Z; is_ : Z; ie : Z; cmd : Z; sig : Z;
  ssts : Z; serr : Z; sact : Z; ci : Z
}.

Record HBA_MEM := Hba { cap : Z; pi : Z; ports : list HBA_PORT }.

(** The command FIS, without its reserved and constantly zero bytes. *)
Record FIS_REG_H2D := Fis {
  fis_type : Z; fis_c : Z; command : Z; lba0 : Z; lba1 : Z; lba2 : Z; device : Z;
  lba3 : Z; lba4 : Z; lba5 : Z; countl : Z; counth : Z
}.

Record HBA_PRDT_ENTRY := Prdt { dba : Z; dbau : Z; dbc : Z; prdt_i : Z }.
Record HBA_CMD_TBL := Table { cfis : FIS_REG_H2D; prdt_entry : HBA_PRDT_ENTRY }.
Record HBA_CMD_HEADER := Header { cfl : Z; w : Z; c : Z; prdtl : Z; ctba : Z; ctbau : Z }.

Definition zero_fis : FIS_REG_H2D := Fis 0 0 0 0 0 0 0 0 0 0 0 0.
Definition zero_table : HBA_CMD_TBL := Table zero_fis (Prdt 0 0 0 0).
Definition zero_header : HBA_CMD_HEADER := Header 0 0 0 0 0 0.

(** ** The drive *)

(** What the driver sees after issuing a command: whether its bit in the
    command-issue register was cleared, the interrupt status bits that were
    raised, and the memory, by physical address, and medium afterwards. *)
Record answer (D : Type) := Answer { done_bit : bool; status : Z; after : bytes; medium : D }.
Arguments Answer {D}.
Arguments done_bit {D}.
Arguments status {D}.
Arguments after {D}.
Arguments medium {D}.

(** [sector d l i] is byte [i] of sector [l]; a command is executed with its
    header, its FIS and its one entry for data; [quiet cmd] is what the command
    register reads when the port's engines have stopped, if they do. *)
Class Drive (D : Type) := {
  sector : D -> Z -> Z -> Z;
  execute : HBA_CMD_HEADER -> FIS_REG_H2D -> HBA_PRDT_ENTRY -> bytes -> D -> answer D;
  quiet : Z -> option Z
}.

Definition lba (f : FIS_REG_H2D) : Z :=
  lba0 f + 2 ^ 8 * lba1 f + 2 ^ 16 * lba2 f + 2 ^ 24 * lba3 f + 2 ^ 32 * lba4 f + 2 ^ 40 * lba5 f.
Definition count (f : FIS_REG_H2D) : Z := countl f + 2 ^ 8 * counth f.
Definition dba64 (e : HBA_PRDT_ENTRY) : Z := dba e + 2 ^ 32 * dbau e.

(** A well-formed transfer command for [n] sectors at [l], to the drive when [dir]
    is 1 and from it when it is 0. *)
Record transfer (dir op : Z) (l n : Z) (h : HBA_CMD_HEADER) (f : FIS_REG_H2D) (e : HBA_PRDT_ENTRY) : Prop := {
  transfer_header : cfl h = 5 /\ w h = dir /\ prdtl h = 1;
  transfer_type : fis_type f = FIS_TYPE_REG_H2D;
  transfer_command : fis_c f = 1;
  transfer_op : command f = op;
  transfer_device : device f = 64;
  transfer_lba : lba f = l;
  transfer_count : count f = n /\ 0 < n;
  transfer_room : 512 * n <= dbc e + 1
}.

(** A healthy drive of [capacity] sectors: DMA reads and writes of sectors it
    has complete without a task file error, move exactly the sectors named in the
    command, and change nothing else; the engines stop when told to. *)
Class DriveLaws (D : Type) `{Drive D} := {
  capacity : Z;
  execute_read l n h f e m d :
    transfer 0 ATA_CMD_READ_DMA_EXT l n h f e -> 0 <= l -> l + n <= capacity ->
    let a := execute h f e m d in
    done_bit a = true /\ Z.land (status a) HBA_PxIS_TFES = 0 /\
    (forall k i, sector (medium a) k i = sector d k i) /\
    forall x, after a x = if decide (dba64 e <= x < dba64 e + 512 * n)
                          then sector d (l + (x - dba64 e) / 512) ((x - dba64 e) mod 512) else m x;
  execute_write l n h f e m d :
    transfer 1 ATA_CMD_WRITE_DMA_EXT l n h f e -> 0 <= l -> l + n <= capacity ->
    let a := execute h f e m d in
    done_bit a = true /\ Z.land (status a) HBA_PxIS_TFES = 0 /\ (forall x, after a x = m x) /\
    forall k i, 0 <= i < 512 ->
      sector (medium a) k i = if decide (l <= k < l + n) then m (dba64 e + 512 * (k - l) + i) else sector d k i;
  quiet_stops v : is_Some (quiet v)
}.

(** ** The machine *)

(** [ram] is the kernel's memory by virtual address; command headers and tables
    are kept apart from it, by the address they lie at. *)
Record machine (D : Type) := Machine {
  ram : bytes;
  abar : HBA_MEM;
  headers : gmap Z HBA_CMD_HEADER;
  tables : gmap Z HBA_CMD_TBL;
  disk : D
}.
Arguments Machine {D}.
Arguments ram {D}.
Arguments abar {D}.
Arguments headers {D}.
Arguments tables {D}.
Arguments disk {D}.

Definition with_memory_bytes {D} (s : machine D) (m : bytes) : machine D :=
  Machine m (abar s) (headers s) (tables s) (disk s).
Definition with_ports {D} (s : machine D) (l : list HBA_PORT) : machine D :=
  Machine (ram s) (Hba (cap (abar s)) (pi (abar s)) l) (headers s) (tables s) (disk s).
Definition with_header {D} (s : machine D) (a : Z) (h : HBA_CMD_HEADER) : machine D :=
  Machine (ram s) (abar s) (<[a := h]> (headers s)) (tables s) (disk s).
Definition with_table {D} (s : machine D) (a : Z) (t : HBA_CMD_TBL) : machine D :=
  Machine (ram s) (abar s) (headers s) (<[a := t]> (tables s)) (disk s).

Definition port {D} (s : machine D) (p : Z) : outcome HBA_PORT := array_get (ports (abar s)) p.
Definition set_port {D} (s : machine D) (p : Z) (x : HBA_PORT) : outcome (machine D) :=
  l ← array_set (ports (abar s)) p x; Ret (with_ports s l).

(** A status register: a write clears the bits that are one in the value. *)
Definition write_1_to_clear (old v : Z) : Z := Z.ldiff old v.

Definition with_is (x : HBA_PORT) (v : Z) : HBA_PORT :=
  Port (clb x) (clbu x) (fb x) (fbu x) v (ie x) (cmd x) (sig x) (ssts x) (serr x) (sact x) (ci x).
Definition with_ci (x : HBA_PORT) (v : Z) : HBA_PORT :=
  Port (clb x) (clbu x) (fb x) (fbu x) (is_ x) (ie x) (cmd x) (sig x) (ssts x) (serr x) (sact x) v.
Definition with_cmd (x : HBA_PORT) (v : Z) : HBA_PORT :=
  Port (clb x) (clbu x) (fb x) (fbu x) (is_ x) (ie x) v (sig x) (ssts x) (serr x) (sact x) (ci x).

(** ** Command slots *)

(** [for (i = 0; i < num_of_slots; i++) { if ((slots & 1) == 0) return i;
     slots >>= 1; }] *)
Fixpoint free_slot (n : nat) (i slots : Z) : Z :=
  match n with
  | O => -1
  | S n => if Z.land slots 1 =? 0 then i else free_slot n (i + 1) (Z.shiftr slots 1)
  end.

Definition num_of_slots (h : HBA_MEM) : Z := Z.shiftr (Z.land (cap h) 0x0f00) 8.

Definition find_cmdslot {D} (s : machine D) (p : Z) : outcome Z :=
  x ← port s p;
  Ret (free_slot (Z.to_nat (num_of_slots (abar s))) 0 (Z.lor (sact x) (ci x))).

(** ** Transfers *)

Section transfers.
Context {D : Type} `{Drive D}.

(** The command written into the table of the slot. *)
Definition fill_table (op n startl starth buf : Z) : HBA_CMD_TBL :=
  Table (Fis FIS_TYPE_REG_H2D 1 op (u8 startl) (u8 (Z.shiftr startl 8)) (u8 (Z.shiftr startl 16))
           (Z.shiftl 1 6) (u8 (Z.shiftr startl 24)) (u8 starth) (u8 (Z.shiftr starth 8)) n 0)
        (Prdt (Z.land buf 0xFFFFFFFF) (Z.land (Z.shiftr buf 32) 0xFFFFFFFF) (4096 - 1) 0).

(** Issuing the command and the waiting loop: the drive answers, or the port
    reports an error, or the loop does not end. *)
Definition run_command (s : machine D) (p slot hdr tbl : Z) : outcome (machine D * Z) :=
  x ← port s p;
  s ← set_port s p (with_ci x (Z.lor (ci x) (Z.shiftl 1 slot)));
  h ← defined (headers s !! hdr);
  t ← defined (tables s !! tbl);
  let a := execute h (cfis t) (prdt_entry t) (fun q => ram s (AHCI_KERN_BASE + q)) (disk s) in
  let s := Machine (fun v => after a (v - AHCI_KERN_BASE)) (abar s) (headers s) (tables s) (medium a) in
  x ← port s p;
  let x := with_is x (Z.lor (is_ x) (status a)) in
  s ← set_port s p (if done_bit a then with_ci x (Z.ldiff (ci x) (Z.shiftl 1 slot)) else x);
  if done_bit a then
    if negb (Z.land (is_ x) HBA_PxIS_TFES =? 0) then Ret (s, 0) else Ret (s, 1)
  else if negb (Z.land (is_ x) HBA_PxIS_TFES =? 0) then Ret (s, 0) else Loops.

(** The body [write_interface] and [read_interface] share; they differ in the
    direction bit, the opcode and the sector count, and both ignore their
    [count] parameter. *)
Definition interface (dir op n : Z) (s : machine D) (p startl starth buf : Z) : outcome (machine D * Z) :=
  x ← port s p;
  s ← set_port s p (with_is x (write_1_to_clear (is_ x) 0xffff));
  slot ← find_cmdslot s p;
  if slot =? -1 then Ret (s, 0) else
  let hdr := u64 (AHCI_KERN_BASE + Z.lor (Z.shiftl (clbu x) 32) (clb x)) + 32 * slot in
  h ← defined (headers s !! hdr);
  let s := with_header s hdr (Header 5 dir 1 1 (ctba h) (ctbau h)) in
  let tbl := u64 (AHCI_KERN_BASE + Z.lor (Z.shiftl (ctbau h) 32) (ctba h)) in
  let s := with_table s tbl (fill_table op n startl starth buf) in
  run_command s p slot hdr tbl.

Definition write_interface (s : machine D) (p startl starth count buf : Z) : outcome (machine D * Z) :=
  interface 1 ATA_CMD_WRITE_DMA_EXT 2 s p startl starth buf.
Definition read_interface (s : machine D) (p startl starth count buf : Z) : outcome (machine D * Z) :=
  interface 0 ATA_CMD_READ_DMA_EXT 1 s p startl starth buf.

(** [pages] is [pages_for_ahci_start_virtual]. *)
Definition read_buffer (pages : Z) : Z := pages + 1 * 4096.
Definition write_buffer (pages : Z) : Z := pages + 5 * 4096.

Definition write_disk (pages : Z) (s : machine D) (offset buf : Z) : outcome (machine D * Z) :=
  n ← strlen STRING_BOUND (ram s) buf;
  let s := with_memory_bytes s (memcpy (Z.to_nat n) (ram s) (write_buffer pages) buf) in
  write_interface s 0 (u32 offset) 0 1 (u64 (write_buffer pages - AHCI_KERN_BASE)).

(** The result of the transfer is dropped and the buffer returned. *)
Definition read_disk (pages : Z) (s : machine D) (offset : Z) : outcome (machine D * Z) :=
  r ← read_interface s 0 (u32 offset) 0 1 (u64 (read_buffer pages - AHCI_KERN_BASE));
  Ret (r.1, read_buffer pages).
End transfers.

(** ** Port set-up *)

Section setup.
Context {D : Type} `{Drive D}.

Definition check_type (x : HBA_PORT) : Z :=
  let ipm := Z.land (Z.shiftr (ssts x) 8) 0x0F in
  let det := Z.land (ssts x) 0x0F in
  if negb (det =? HBA_PORT_DET_PRESENT) then AHCI_DEV_NULL else
  if negb (ipm =? HBA_PORT_IPM_ACTIVE) then AHCI_DEV_NULL else
  if sig x =? SATA_SIG_ATAPI then AHCI_DEV_SATAPI
  else if sig x =? SATA_SIG_SEMB then AHCI_DEV_SEMB
  else if sig x =? SATA_SIG_PM then AHCI_DEV_PM
  else AHCI_DEV_SATA.

(** Both wait for the hardware before or after writing the register. *)
Definition start_cmd (s : machine D) (p : Z) : outcome (machine D) :=
  x ← port s p;
  match quiet (cmd x) with
  | None => Loops
  | Some v => set_port s p (with_cmd x (Z.lor (Z.lor v HBA_PxCMD_FRE) HBA_PxCMD_ST))
  end.

Definition stop_cmd (s : machine D) (p : Z) : outcome (machine D) :=
  x ← port s p;
  match quiet (Z.land (Z.land (cmd x) (Z.lnot HBA_PxCMD_ST)) (Z.lnot HBA_PxCMD_FRE)) with
  | None => Loops
  | Some v => set_port s p (with_cmd x v)
  end.

(** Slot [i]'s header, pointing at its table. *)
Definition init_slot (start clb_addr i : Z) (s : machine D) : outcome (machine D) :=
  h ← defined (headers s !! (clb_addr + 32 * i));
  let t := start + Z.shiftl 40 10 + Z.shiftl i 8 in
  let h := Header (cfl h) (w h) (c h) 8 (Z.land t 0xffffffff) (Z.land (Z.shiftr t 32) 0xffffffff) in
  let s := with_header s (clb_addr + 32 * i) h in
  Ret (with_table s (u64 (AHCI_KERN_BASE + Z.lor (Z.shiftl (ctbau h) 32) (ctba h))) zero_table).

(** [memset] of the 1024 bytes of the command list: 32 zero headers. *)
Definition clear_headers (clb_addr : Z) (s : machine D) : machine D :=
  fold_right (fun i s => with_header s (clb_addr + 32 * i) zero_header) s (seqZ 0 32).

Definition port_rebase (start : Z) (s : machine D) (p portno : Z) : outcome (machine D) :=
  s ← stop_cmd s p;
  x ← port s p;
  let fb' := start + Z.shiftl 32 10 in
  let x := Port (Z.land start 0xffffffff) 0 (Z.land fb' 0xffffffff) (Z.land (Z.shiftr fb' 32) 0xffffffff)
             (write_1_to_clear (is_ x) 0) 1 (cmd x) (sig x) (ssts x) (write_1_to_clear (serr x) 1) (sact x) (ci x) in
  s ← set_port s p x;
  let clb_addr := u64 (Z.lor (Z.shiftl (clbu x) 32) (clb x) + AHCI_KERN_BASE) in
  let s := clear_headers clb_addr s in
  let fbu_addr := u64 (Z.lor (Z.shiftl (fbu x) 32) (fb x) + AHCI_KERN_BASE) in
  let s := with_memory_bytes s (memset 256 (ram s) fbu_addr 0) in
  s ← for_loop 32 0 (init_slot start clb_addr) s;
  s ← start_cmd s p;
  x ← port s p;
  set_port s p (Port (clb x) (clbu x) (fb x) (fbu x) (write_1_to_clear (is_ x) 0) 0xffffffff (cmd x) (sig x) (ssts x) (serr x) (sact x) (ci x)).

(** The first port with a SATA drive ends the search; the port that is set up
    is [abar_temp->ports], the first one, whatever port the drive is at. *)
Fixpoint probe_from (n : nat) (start : Z) (s : machine D) (pis i : Z) : outcome (machine D) :=
  match n with
  | O => Ret s
  | S n =>
    if negb (Z.land pis 1 =? 0) then
      x ← port s i;
      if check_type x =? AHCI_DEV_SATA then port_rebase start s 0 i
      else probe_from n start s (Z.shiftr pis 1) (i + 1)
    else probe_from n start s (Z.shiftr pis 1) (i + 1)
  end.
Definition probe_port (start : Z) (s : machine D) : outcome (machine D) :=
  probe_from 32 start s (pi (abar s)) 0.
End setup.

(** ** Command slots: the search *)

Lemma land_1_testbit z : (Z.land z 1 =? 0) = negb (Z.testbit z 0).
Proof.
  rewrite Z.bit0_odd. change 1 with (Z.ones 1). rewrite Z.land_ones by lia.
  rewrite Zmod_odd. by destruct (Z.odd z).
Qed.

(** The least clear bit among the first [n], or -1. *)
Definition least_clear (bits : Z) (lo hi r : Z) : Prop :=
  (r = -1 /\ forall k, lo <= k < hi -> Z.testbit bits k = true) \/
  (lo <= r < hi /\ Z.testbit bits r = false /\ forall k, lo <= k < r -> Z.testbit bits k = true).

Lemma free_slot_spec n i slots :
  0 <= i -> least_clear slots i (i + Z.of_nat n) (free_slot n i (Z.shiftr slots i)).
Proof.
  revert i. induction n as [|n IH]; intros i Hi; simpl.
  - left. split; [done|]. lia.
  - rewrite land_1_testbit, Z.shiftr_spec, Z.add_0_l by lia.
    destruct (Z.testbit slots i) eqn:E; simpl.
    + rewrite Z.shiftr_shiftr by lia. destruct (IH (i + 1)) as [[-> Hall]|(Hr & Hb & Hall)]; [lia|..].
      * left. split; [done|]. intros k Hk. destruct (decide (k = i)) as [->|]; [done|]. apply Hall. lia.
      * right. split; [lia|]. split; [done|]. intros k Hk.
        destruct (decide (k = i)) as [->|]; [done|]. apply Hall. lia.
    + right. split; [lia|]. split; [done|]. lia.
Qed.

(** ** Transfers *)

Section transfer_lemmas.
Context {D : Type} `{!Drive D, !DriveLaws D}.
Implicit Types s : machine D.

Definition slot_of s (x : HBA_PORT) : Z :=
  free_slot (Z.to_nat (num_of_slots (abar s))) 0 (Z.lor (sact x) (ci x)).
Definition header_at (x : HBA_PORT) (slot : Z) : Z :=
  u64 (AHCI_KERN_BASE + Z.lor (Z.shiftl (clbu x) 32) (clb x)) + 32 * slot.

(** No task file error is pending; a write of 0xffff does not reach its bit. *)
Definition no_error (x : HBA_PORT) : Prop := Z.land (is_ x) HBA_PxIS_TFES = 0.

Lemma no_error_after a v b : Z.land a HBA_PxIS_TFES = 0 -> Z.land b HBA_PxIS_TFES = 0 ->
  Z.land (Z.lor (write_1_to_clear a v) b) HBA_PxIS_TFES = 0.
Proof.
  intros Ha Hb. apply Z.bits_inj'. intros i Hi. unfold write_1_to_clear. rewrite Z.land_spec, Z.lor_spec, Z.ldiff_spec, Z.bits_0.
  pose proof (f_equal (fun z => Z.testbit z i) Ha) as Ta. pose proof (f_equal (fun z => Z.testbit z i) Hb) as Tb.
  cbv beta in Ta, Tb. rewrite Z.land_spec, Z.bits_0 in Ta, Tb. by destruct (Z.testbit a i), (Z.testbit b i), (Z.testbit HBA_PxIS_TFES i), (Z.testbit v i).
Qed.

(** Port [p] exists, has no error pending and a free slot, and the slot a header. *)
Definition ready s (p : Z) : Prop :=
  exists x, port s p = Ret x /\ no_error x /\ slot_of s x <> -1 /\ is_Some (headers s !! header_at x (slot_of s x)).

Lemma set_port_Ret s p x y :
  port s p = Ret x -> exists s', set_port s p y = Ret s' /\ port s' p = Ret y /\ ram s' = ram s /\
    headers s' = headers s /\ tables s' = tables s /\ disk s' = disk s /\
    num_of_slots (abar s') = num_of_slots (abar s).
Proof.
  unfold port, set_port. intros [Hp E]%array_get_Ret.
  assert (p < Z.of_nat (length (ports (abar s)))) by (apply lookup_lt_Some in E; lia).
  rewrite array_set_lt by lia. eexists. split; [done|]. split; [|done].
  apply array_get_Some; [done|]. apply list_lookup_insert_eq. lia.
Qed.

Lemma slot_of_free s x : slot_of s x <> -1 -> 0 <= slot_of s x /\ Z.testbit (ci x) (slot_of s x) = false.
Proof.
  intros Hs. unfold slot_of in *. set (n := Z.to_nat _) in *.
  pose proof (free_slot_spec n 0 (Z.lor (sact x) (ci x)) ltac:(lia)) as L.
  rewrite Z.shiftr_0_r in L. destruct L as [[E _]|(Hr & Hb & _)]; [done|].
  split; [lia|]. rewrite Z.lor_spec in Hb. by apply orb_false_iff in Hb as [_ ?].
Qed.

Lemma clear_slot v k : 0 <= k -> Z.testbit v k = false -> Z.ldiff (Z.lor v (Z.shiftl 1 k)) (Z.shiftl 1 k) = v.
Proof.
  intros Hk Hv. apply Z.bits_inj'. intros i Hi. rewrite Z.ldiff_spec, Z.lor_spec, testbit_one_shift by done.
  destruct (Z.eqb_spec i k) as [->|]; simpl; [by rewrite Hv|]. by rewrite orb_false_r, andb_true_r.
Qed.

Lemma fill_table_transfer dir op n l buf h :
  cfl h = 5 /\ w h = dir /\ prdtl h = 1 ->
  0 <= l < 2 ^ 32 -> 0 <= buf < 2 ^ 64 -> 0 < n <= 8 ->
  let t := fill_table op n l 0 buf in
  transfer dir op l n h (cfis t) (prdt_entry t) /\ dba64 (prdt_entry t) = buf.
Proof.
  intros Hh Hl Hb Hn. split.
  - split; [done..| |unfold count; simpl; lia|simpl; lia].
    unfold lba, fill_table, uwrap. cbn [cfis lba0 lba1 lba2 lba3 lba4 lba5].
    rewrite !Z.shiftr_div_pow2 by lia. change (0 mod 2 ^ 8) with 0. change (0 / 2 ^ 8 mod 2 ^ 8) with 0.
    Z.to_euclidean_division_equations. lia.
  - unfold dba64. cbn [prdt_entry fill_table dba dbau].
    change 0xFFFFFFFF with (Z.ones 32). rewrite !Z.land_ones, Z.shiftr_div_pow2 by lia.
    rewrite (Z.mod_small (buf / 2 ^ 32)).
    + pose proof (Z.div_mod buf (2 ^ 32)). lia.
    + split; [apply Z.div_pos; lia|]. apply Z.div_lt_upper_bound; lia.
Qed.

(** What the drive did with a command, as the driver's result. *)
Definition answered s (p : Z) (h : HBA_CMD_HEADER) (t : HBA_CMD_TBL) s' : Prop :=
  let a := execute h (cfis t) (prdt_entry t) (fun q => ram s (AHCI_KERN_BASE + q)) (disk s) in
  (forall v, ram s' v = after a (v - AHCI_KERN_BASE)) /\ disk s' = medium a /\ ready s' p.

(** The header of a command for one data entry in the direction [dir]. *)
Definition command_header (dir : Z) (h : HBA_CMD_HEADER) : Prop := cfl h = 5 /\ w h = dir /\ prdtl h = 1.

(** One transfer, whatever the drive answers: the result depends on the error bit
    of the status register, in which an old error is still there. *)
Lemma interface_run dir op n s p l buf x :
  port s p = Ret x -> slot_of s x <> -1 -> is_Some (headers s !! header_at x (slot_of s x)) ->
  let t := fill_table op n l 0 buf in
  exists s' h y, command_header dir h /\
    let a := execute h (cfis t) (prdt_entry t) (fun q => ram s (AHCI_KERN_BASE + q)) (disk s) in
    interface dir op n s p l 0 buf =
      (if negb (Z.land (is_ y) HBA_PxIS_TFES =? 0) then Ret (s', 0) else if done_bit a then Ret (s', 1) else Loops) /\
    (forall v, ram s' v = after a (v - AHCI_KERN_BASE)) /\ disk s' = medium a /\
    port s' p = Ret y /\ is_ y = Z.lor (write_1_to_clear (is_ x) 0xffff) (status a) /\
    (done_bit a = true -> slot_of s' y = slot_of s x) /\ is_Some (headers s' !! header_at y (slot_of s x)).
Proof.
  intros Hx Hs Hh t. unfold interface. rewrite Hx. cbn [mbind outcome_bind]. set (v0 := write_1_to_clear (is_ x) 0xffff).
  destruct (set_port_Ret s p x (with_is x v0) Hx) as (s1 & -> & Hx1 & Hr1 & Hh1 & Ht1 & Hd1 & Hn1).
  cbn [mbind outcome_bind]. unfold find_cmdslot. rewrite Hx1. cbn [mbind outcome_bind with_is sact ci].
  rewrite Hn1. fold (slot_of s x). destruct (slot_of_free s x Hs) as [Hs0 Hbit].
  destruct (Z.eqb_spec (slot_of s x) (-1)); [done|]. fold (header_at x (slot_of s x)).
  rewrite Hh1. destruct Hh as [h Hh]. rewrite Hh. cbn [mbind outcome_bind defined].
  fold t. set (h5 := Header 5 dir 1 1 (ctba h) (ctbau h)). set (s2 := with_table _ _ t). unfold run_command.
  change (port s2 p) with (port s1 p). rewrite Hx1. cbn [mbind outcome_bind].
  destruct (set_port_Ret s2 p _ (with_ci (with_is x v0) (Z.lor (ci (with_is x v0)) (Z.shiftl 1 (slot_of s x)))) Hx1)
    as (s3 & -> & Hx3 & Hr3 & Hh3 & Ht3 & Hd3 & Hn3).
  cbn [mbind outcome_bind]. rewrite Hh3, Ht3.
  match goal with |- context [headers s2 !! ?a] => change (headers s2 !! a) with (<[a := h5]> (headers s1) !! a) end.
  match goal with |- context [tables s2 !! ?a] => change (tables s2 !! a) with (<[a := t]> (tables s1) !! a) end.
  rewrite !lookup_insert_eq. cbn [defined mbind outcome_bind]. rewrite Hd3, Hr3.
  change (ram s2) with (ram s1). change (disk s2) with (disk s1). rewrite Hr1, Hd1.
  set (a := execute h5 _ _ _ (disk s)). set (s4 := Machine _ (abar s3) _ _ _).
  change (port s4 p) with (port s3 p). rewrite Hx3. cbn [mbind outcome_bind].
  set (x3 := with_is (with_ci (with_is x v0) _) (Z.lor _ (status a))).
  set (y := if done_bit a then with_ci x3 (Z.ldiff (ci x3) (Z.shiftl 1 (slot_of s x))) else x3).
  destruct (set_port_Ret s4 p _ y Hx3) as (s5 & E5 & Hx5 & Hr5 & Hh5 & Ht5 & Hd5 & Hn5).
  rewrite E5. cbn [mbind outcome_bind]. exists s5, h5, y. split; [done|]. fold a.
  assert (is_ y = is_ x3) as -> by (unfold y; by destruct (done_bit a)).
  split; [by destruct (done_bit a), (negb _)|]. split; [intros v; by rewrite Hr5|]. split; [by rewrite Hd5|].
  split; [exact Hx5|]. split; [done|]. split.
  - intros Hdone. unfold slot_of, y. rewrite Hdone, Hn5. unfold x3. cbn [with_is with_ci ci sact].
    rewrite clear_slot by done. change (num_of_slots (abar s4)) with (num_of_slots (abar s3)).
    rewrite Hn3. change (num_of_slots (abar s2)) with (num_of_slots (abar s1)). by rewrite Hn1.
  - rewrite Hh5. change (headers s4) with (headers s2). unfold s2. cbn [with_table with_header headers].
    assert (header_at y (slot_of s x) = header_at x (slot_of s x)) as -> by (unfold y; by destruct (done_bit a)).
    rewrite lookup_insert_eq. by eexists.
Qed.

Lemma interface_answered dir op n s p l buf :
  ready s p ->
  let t := fill_table op n l 0 buf in
  (forall h m d, command_header dir h -> let a := execute h (cfis t) (prdt_entry t) m d in
     done_bit a = true /\ Z.land (status a) HBA_PxIS_TFES = 0) ->
  exists s' h, interface dir op n s p l 0 buf = Ret (s', 1) /\ command_header dir h /\ answered s p h t s'.
Proof.
  intros (x & Hx & Herr & Hs & Hh) t Ht.
  destruct (interface_run dir op n s p l buf x Hx Hs Hh) as (s' & h & y & Hc & E & Hr & Hd & Hy & Ey & Hslot & Hhy). fold t in E, Hr, Hd, Ey, Hslot.
  destruct (Ht h (fun q => ram s (AHCI_KERN_BASE + q)) (disk s) Hc) as [Hdone Htfes].
  pose proof (no_error_after (is_ x) 0xffff _ Herr Htfes) as Hey. rewrite <- Ey in Hey.
  exists s', h. split; [by rewrite E, Hey, Hdone|]. split; [done|]. split; [done|]. split; [done|].
  exists y. rewrite Hslot by done. done.
Qed.

(** A task file error is never cleared: the write of 0xffff before a command does
    not reach its bit, so every later transfer on the port fails, whatever the
    drive does. *)
Theorem interface_error_sticks dir op n s p l buf x :
  port s p = Ret x -> Z.testbit (is_ x) 30 = true -> slot_of s x <> -1 -> is_Some (headers s !! header_at x (slot_of s x)) ->
  exists s' y, interface dir op n s p l 0 buf = Ret (s', 0) /\ port s' p = Ret y /\ Z.testbit (is_ y) 30 = true.
Proof.
  intros Hx Herr Hs Hh. destruct (interface_run dir op n s p l buf x Hx Hs Hh) as (s' & h & y & _ & E & _ & _ & Hy & Ey & _).
  assert (Z.testbit (is_ y) 30 = true) as Hb.
  { rewrite Ey. unfold write_1_to_clear. rewrite Z.lor_spec, Z.ldiff_spec, Herr. done. }
  exists s', y. split; [|done]. rewrite E. change HBA_PxIS_TFES with (2 ^ 30). by rewrite pow2_land_testbit, Hb by lia.
Qed.

Lemma write_interface_spec s p l cnt buf :
  ready s p -> 0 <= l -> l + 2 <= capacity -> l < 2 ^ 32 -> 0 <= buf < 2 ^ 64 ->
  exists s', write_interface s p l 0 cnt buf = Ret (s', 1) /\ ready s' p /\
    (forall x, ram s' x = ram s x) /\
    forall k i, 0 <= i < 512 ->
      sector (disk s') k i = if decide (l <= k < l + 2) then ram s (AHCI_KERN_BASE + buf + 512 * (k - l) + i)
                             else sector (disk s) k i.
Proof.
  intros Hrdy Hl Hcap Hl32 Hb. pose proof (fun h Hh => fill_table_transfer 1 ATA_CMD_WRITE_DMA_EXT 2 l buf h Hh ltac:(lia) Hb ltac:(lia)) as Htr0.
  destruct (interface_answered 1 ATA_CMD_WRITE_DMA_EXT 2 s p l buf Hrdy) as (s' & h & E & Hh & Hram & Hdisk & Hrdy').
  { intros h m d Hh. destruct (execute_write _ _ _ _ _ m d (proj1 (Htr0 h Hh))) as (? & ? & _); [lia..|done]. }
  destruct (Htr0 h Hh) as [Htr Hdba]. destruct (execute_write _ _ _ _ _ (fun q => ram s (AHCI_KERN_BASE + q)) (disk s) Htr) as (_ & _ & Hm & Hsec); [lia..|].
  exists s'. split; [exact E|]. split; [done|]. split.
  - intros x. rewrite Hram, Hm. f_equal. lia.
  - intros k i Hi. rewrite Hdisk, Hsec by done. destruct (decide _); [|done]. f_equal. rewrite Hdba. lia.
Qed.

Lemma read_interface_spec s p l cnt buf :
  ready s p -> 0 <= l -> l + 1 <= capacity -> l < 2 ^ 32 -> 0 <= buf < 2 ^ 64 ->
  exists s', read_interface s p l 0 cnt buf = Ret (s', 1) /\ ready s' p /\
    (forall k i, sector (disk s') k i = sector (disk s) k i) /\
    forall x, ram s' x = if decide (AHCI_KERN_BASE + buf <= x < AHCI_KERN_BASE + buf + 512)
                         then sector (disk s) l (x - (AHCI_KERN_BASE + buf)) else ram s x.
Proof.
  intros Hrdy Hl Hcap Hl32 Hb. pose proof (fun h Hh => fill_table_transfer 0 ATA_CMD_READ_DMA_EXT 1 l buf h Hh ltac:(lia) Hb ltac:(lia)) as Htr0.
  destruct (interface_answered 0 ATA_CMD_READ_DMA_EXT 1 s p l buf Hrdy) as (s' & h & E & Hh & Hram & Hdisk & Hrdy').
  { intros h m d Hh. destruct (execute_read _ _ _ _ _ m d (proj1 (Htr0 h Hh))) as (? & ? & _); [lia..|done]. }
  destruct (Htr0 h Hh) as [Htr Hdba]. destruct (execute_read _ _ _ _ _ (fun q => ram s (AHCI_KERN_BASE + q)) (disk s) Htr) as (_ & _ & Hsec & Hm); [lia..|].
  exists s'. split; [exact E|]. split; [done|]. split.
  - intros k i. by rewrite Hdisk, Hsec.
  - intros x. rewrite Hram, Hm, Hdba. destruct (decide (buf <= _ < _)).
    + rewrite decide_True by lia. rewrite Z.div_small, Z.add_0_r, Z.mod_small by lia. f_equal. lia.
    + rewrite decide_False by lia. f_equal. lia.
Qed.

(** ** Port set-up *)

Lemma clear_headers_fold a l s i :
  headers (fold_right (fun i s => with_header s (a + 32 * i) zero_header) s l) !! (a + 32 * i) =
    if decide (i ∈ l) then Some zero_header else headers s !! (a + 32 * i).
Proof.
  induction l as [|j l IH]; [by rewrite decide_False by set_solver|]. simpl fold_right.
  cbn [with_header headers]. destruct (decide (j = i)) as [->|Hne].
  - rewrite lookup_insert_eq, decide_True by set_solver. done.
  - rewrite lookup_insert_ne by lia. rewrite IH.
    destruct (decide (i ∈ l)); [rewrite decide_True by set_solver|rewrite decide_False by set_solver]; done.
Qed.

Lemma clear_headers_frame a l s :
  abar (fold_right (fun i s => with_header s (a + 32 * i) zero_header) s l) = abar s /\
  ram (fold_right (fun i s => with_header s (a + 32 * i) zero_header) s l) = ram s.
Proof. by induction l as [|j l [IH1 IH2]]. Qed.

Lemma with_memory_bytes_frame s m :
  abar (with_memory_bytes s m) = abar s /\ headers (with_memory_bytes s m) = headers s /\
  ram (with_memory_bytes s m) = m.
Proof. done. Qed.

(** What clearing the command list and the FIS area leaves. *)
Lemma clear_frame a s m :
  abar (with_memory_bytes (clear_headers a s) m) = abar s /\
  ram (with_memory_bytes (clear_headers a s) m) = m /\
  forall i, 0 <= i < 32 -> headers (with_memory_bytes (clear_headers a s) m) !! (a + 32 * i) = Some zero_header.
Proof.
  destruct (with_memory_bytes_frame (clear_headers a s) m) as (-> & -> & ->). unfold clear_headers.
  split_and!; [apply clear_headers_frame|done|].
  intros i Hi. rewrite clear_headers_fold. apply decide_True. apply elem_of_seqZ. lia.
Qed.

(** The header of slot [i] after set-up: no command, a table of its own. *)
Definition slot_header (start i : Z) : HBA_CMD_HEADER := Header 0 0 0 8 (start + 40 * 1024 + 256 * i) 0.

Lemma init_slot_spec start a i s :
  headers s !! (a + 32 * i) = Some zero_header -> 0 <= start < 2 ^ 31 -> 0 <= i < 32 ->
  exists s', init_slot start a i s = Ret s' /\ headers s' = <[a + 32 * i := slot_header start i]> (headers s) /\
    abar s' = abar s /\ ram s' = ram s.
Proof.
  intros Hh Hst Hi. unfold init_slot. rewrite Hh. cbn [defined mbind outcome_bind].
  eexists. split; [done|]. cbn [with_table with_header headers abar ram]. split; [|done].
  f_equal. unfold slot_header. rewrite !Z.shiftl_mul_pow2, Z.shiftr_div_pow2 by lia.
  change 0xffffffff with (Z.ones 32). rewrite !Z.land_ones by lia.
  assert (start + 40 * 2 ^ 10 + i * 2 ^ 8 < 2 ^ 32) by lia.
  rewrite Z.mod_small by lia. rewrite (Z.div_small _ (2 ^ 32)) by lia. f_equal. lia.
Qed.

Lemma init_slots start a s :
  (forall i, 0 <= i < 32 -> headers s !! (a + 32 * i) = Some zero_header) -> 0 <= start < 2 ^ 31 ->
  exists s', for_loop 32 0 (init_slot start a) s = Ret s' /\ abar s' = abar s /\ ram s' = ram s /\
    forall i, 0 <= i < 32 -> headers s' !! (a + 32 * i) = Some (slot_header start i).
Proof.
  intros Hh Hst.
  destruct (for_loop_ind (fun i s' => abar s' = abar s /\ ram s' = ram s /\
      forall j, 0 <= j < 32 -> headers s' !! (a + 32 * j) = Some (if j <? i then slot_header start j else zero_header))
    (init_slot start a) 32 0 s) as (s' & E & Ha & Hr & Hall).
  - split_and!; [done|done|]. intros j Hj. rewrite Hh by done. by rewrite (proj2 (Z.ltb_ge j 0)) by lia.
  - intros i s1 Hi (Ha & Hr & Hall). pose proof (Hall i ltac:(lia)) as Hi0. rewrite Z.ltb_irrefl in Hi0.
    destruct (init_slot_spec start a i s1 Hi0) as (s2 & E & Hh2 & Ha2 & Hr2); [lia..|].
    exists s2. split; [exact E|]. split_and!; [by rewrite Ha2|by rewrite Hr2|].
    intros j Hj. rewrite Hh2. destruct (decide (j = i)) as [->|Hne].
    + by rewrite lookup_insert_eq, (proj2 (Z.ltb_lt i (i + 1))) by lia.
    + rewrite lookup_insert_ne by lia. rewrite Hall by done.
      destruct (Z.ltb_spec j i), (Z.ltb_spec j (i + 1)); done || lia.
  - exists s'. split_and!; [done..|]. intros j Hj. rewrite Hall by done.
    by rewrite (proj2 (Z.ltb_lt j (0 + Z.of_nat 32))) by lia.
Qed.

Lemma stop_cmd_spec s p x :
  port s p = Ret x -> exists s' v, stop_cmd s p = Ret s' /\ port s' p = Ret (with_cmd x v) /\
    ram s' = ram s /\ headers s' = headers s /\ num_of_slots (abar s') = num_of_slots (abar s).
Proof.
  intros Hx. unfold stop_cmd. rewrite Hx. cbn [mbind outcome_bind].
  destruct (quiet_stops (Z.land (Z.land (cmd x) (Z.lnot HBA_PxCMD_ST)) (Z.lnot HBA_PxCMD_FRE))) as [v ->].
  destruct (set_port_Ret s p x (with_cmd x v) Hx) as (s' & -> & ? & ? & ? & ? & ? & ?).
  by exists s', v.
Qed.

Lemma start_cmd_spec s p x :
  port s p = Ret x -> exists s' v, start_cmd s p = Ret s' /\ port s' p = Ret (with_cmd x v) /\
    ram s' = ram s /\ headers s' = headers s /\ num_of_slots (abar s') = num_of_slots (abar s).
Proof.
  intros Hx. unfold start_cmd. rewrite Hx. cbn [mbind outcome_bind].
  destruct (quiet_stops (cmd x)) as [v ->].
  destruct (set_port_Ret s p x (with_cmd x (Z.lor (Z.lor v HBA_PxCMD_FRE) HBA_PxCMD_ST)) Hx)
    as (s' & -> & ? & ? & ? & ? & ? & ?). by exists s', (Z.lor (Z.lor v HBA_PxCMD_FRE) HBA_PxCMD_ST).
Qed.

Lemma low_half start : 0 <= start < 2 ^ 32 -> Z.land start 0xffffffff = start.
Proof. intros H. change 0xffffffff with (Z.ones 32). rewrite Z.land_ones by lia. by apply Z.mod_small. Qed.

Lemma high_half start : 0 <= start < 2 ^ 32 -> Z.land (Z.shiftr start 32) 0xffffffff = 0.
Proof. intros H. by rewrite Z.shiftr_div_pow2, Z.div_small by lia. Qed.

Lemma kernel_address o : 0 <= o < 2 ^ 31 -> u64 (Z.lor (Z.shiftl 0 32) o + AHCI_KERN_BASE) = AHCI_KERN_BASE + o.
Proof. intros H. rewrite Z.shiftl_0_l, Z.lor_0_l. rewrite uwrap_small; unfold AHCI_KERN_BASE; lia. Qed.

Lemma slot_of_bound s x : slot_of s x <> -1 -> 0 <= slot_of s x < 16.
Proof.
  intros Hs. destruct (slot_of_free s x Hs) as [H0 _]. split; [done|]. unfold slot_of, num_of_slots in *.
  pose proof (free_slot_spec (Z.to_nat (Z.shiftr (Z.land (cap (abar s)) 0x0f00) 8)) 0
    (Z.lor (sact x) (ci x)) ltac:(lia)) as L. rewrite Z.shiftr_0_r in L.
  destruct L as [[L _]|(L & _ & _)]; [lia|].
  assert (0 <= Z.land (cap (abar s)) 0x0f00 < 2 ^ 12) as Hl.
  { split; [apply Z.land_nonneg; lia|]. apply bits_below; [lia|apply Z.land_nonneg; lia|].
    intros j Hj. rewrite Z.land_spec. rewrite (Z.bits_above_log2 0x0f00) by (simpl; lia). by rewrite andb_false_r. }
  set (r := free_slot _ _ _) in *. clearbody r. rewrite Z.shiftr_div_pow2 in L by lia.
  Z.to_euclidean_division_equations. lia.
Qed.

(** The registers [port_rebase] writes before the headers, and at the end. *)
Definition rebased (start : Z) (x : HBA_PORT) : HBA_PORT :=
  let fb' := start + Z.shiftl 32 10 in
  Port (Z.land start 0xffffffff) 0 (Z.land fb' 0xffffffff) (Z.land (Z.shiftr fb' 32) 0xffffffff)
    (write_1_to_clear (is_ x) 0) 1 (cmd x) (sig x) (ssts x) (write_1_to_clear (serr x) 1) (sact x) (ci x).

Lemma rebased_addresses start x :
  0 <= start < 2 ^ 30 ->
  u64 (Z.lor (Z.shiftl (clbu (rebased start x)) 32) (clb (rebased start x)) + AHCI_KERN_BASE) = AHCI_KERN_BASE + start /\
  u64 (Z.lor (Z.shiftl (fbu (rebased start x)) 32) (fb (rebased start x)) + AHCI_KERN_BASE)
    = AHCI_KERN_BASE + (start + 32768).
Proof.
  intros Hst. unfold rebased. cbn [clb clbu fb fbu]. change (Z.shiftl 32 10) with 32768.
  rewrite (low_half start), (low_half (start + 32768)), high_half by lia. split; apply kernel_address; lia.
Qed.

(** The port has the list of headers at [start] and the area for received FISes
    32 KiB behind it. *)
Definition programmed (x : HBA_PORT) (start : Z) : Prop :=
  clb x = start /\ clbu x = 0 /\ fb x = start + 32768 /\ fbu x = 0.

(** Set-up leaves the port ready for transfers when some slot is free. *)
Lemma port_rebase_ready start s p portno x :
  port s p = Ret x -> no_error x -> slot_of s x <> -1 -> 0 <= start < 2 ^ 30 ->
  exists s', port_rebase start s p portno = Ret s' /\ ready s' p /\
    (forall i, 0 <= i < 32 -> headers s' !! (AHCI_KERN_BASE + start + 32 * i) = Some (slot_header start i)) /\
    (exists y, port s' p = Ret y /\ programmed y start) /\
    forall v, ~ (AHCI_KERN_BASE + (start + 32768) <= v < AHCI_KERN_BASE + (start + 32768) + 256) ->
      ram s' v = ram s v.
Proof.
  intros Hx Herr Hs Hst. unfold port_rebase.
  destruct (stop_cmd_spec s p x Hx) as (s1 & v & E1 & Hx1 & Hr1 & Hh1 & Hn1).
  eapply bind_step; [exact E1|]. eapply bind_step; [exact Hx1|]. cbv beta zeta.
  destruct (rebased_addresses start (with_cmd x v) Hst) as [Ec Ef].
  fold (rebased start (with_cmd x v)). set (x2 := rebased start (with_cmd x v)) in *.
  destruct (set_port_Ret s1 p _ x2 Hx1) as (s2 & E2 & Hx2 & Hr2 & Hh2 & _ & _ & Hn2).
  eapply bind_step; [exact E2|]. cbv beta. rewrite Ec, Ef.
  destruct (clear_frame (AHCI_KERN_BASE + start) s2 (memset 256 (ram (clear_headers (AHCI_KERN_BASE + start) s2))
    (AHCI_KERN_BASE + (start + 32768)) 0)) as (Ha3 & Hr3 & Hh3).
  set (s3 := with_memory_bytes _ _) in *.
  destruct (init_slots start (AHCI_KERN_BASE + start) s3 Hh3) as (s4 & E4 & Ha4 & Hr4 & Hh4); [lia|].
  rewrite Ha3 in Ha4.
  eapply bind_step; [exact E4|].
  destruct (start_cmd_spec s4 p x2) as (s5 & v5 & E5 & Hx5 & Hr5 & Hh5 & Hn5); [unfold port; by rewrite Ha4|].
  eapply bind_step; [exact E5|]. eapply bind_step; [exact Hx5|]. cbv beta.
  set (x6 := Port _ _ _ _ _ _ _ _ _ _ _ _).
  destruct (set_port_Ret s5 p _ x6 Hx5) as (s6 & E6 & Hx6 & Hr6 & Hh6 & _ & _ & Hn6).
  exists s6. split; [exact E6|].
  assert (forall i, 0 <= i < 32 -> headers s6 !! (AHCI_KERN_BASE + start + 32 * i) = Some (slot_header start i)) as Hh.
  { intros i Hi. by rewrite Hh6, Hh5, Hh4. }
  split; [|split; [exact Hh|split; [|]]].
  - exists x6. split; [exact Hx6|]. split.
    { unfold no_error, x6, x2, rebased, write_1_to_clear. cbn [is_ with_cmd]. by rewrite !Z.ldiff_0_r. }
    assert (slot_of s6 x6 = slot_of s x) as ->.
    { unfold slot_of. by rewrite Hn6, Hn5, Ha4, Hn2, Hn1. }
    split; [done|]. unfold header_at. change (clbu x6) with (clbu x2). change (clb x6) with (clb x2).
    rewrite (Z.add_comm AHCI_KERN_BASE), Ec, Hh; [by eexists|]. pose proof (slot_of_bound s x Hs). lia.
  - exists x6. split; [exact Hx6|]. unfold programmed, x6, x2, rebased. cbn [clb clbu fb fbu].
    change (Z.shiftl 32 10) with 32768.
    rewrite (low_half start), (low_half (start + 32768)), high_half by lia. done.
  - intros u Hu. rewrite Hr6, Hr5, Hr4, Hr3, memset_spec. unfold clear_headers.
    rewrite (proj2 (clear_headers_frame _ _ s2)), Hr2, Hr1. by apply decide_False.
Qed.
End transfer_lemmas.

(** ** A drive in memory

    A drive of 65536 sectors that answers at once: it satisfies the laws, so
    they can hold, and examples run on it. *)

Module RamDisk.
Definition medium_t : Type := Z -> Z -> Z.

Definition valid (dir : Z) (h : HBA_CMD_HEADER) (f : FIS_REG_H2D) (e : HBA_PRDT_ENTRY) : bool :=
  (cfl h =? 5) && (w h =? dir) && (prdtl h =? 1) && (fis_type f =? FIS_TYPE_REG_H2D) && (fis_c f =? 1) && (device f =? 64) && (512 * count f <=? dbc e + 1) &&
  (0 <=? lba f) && (lba f + count f <=? 65536).

Definition serve (h : HBA_CMD_HEADER) (f : FIS_REG_H2D) (e : HBA_PRDT_ENTRY) (m : bytes) (d : medium_t) : answer medium_t :=
  if valid 0 h f e && (command f =? ATA_CMD_READ_DMA_EXT) then
    Answer true 0 (fun x => if decide (dba64 e <= x < dba64 e + 512 * count f)
                            then d (lba f + (x - dba64 e) / 512) ((x - dba64 e) mod 512) else m x) d
  else if valid 1 h f e && (command f =? ATA_CMD_WRITE_DMA_EXT) then
    Answer true 0 m (fun k i => if decide (lba f <= k < lba f + count f)
                                then m (dba64 e + 512 * (k - lba f) + i) else d k i)
  else Answer true HBA_PxIS_TFES m d.

#[global] Instance drive : Drive medium_t := {|
  sector d k i := d k i;
  execute := serve;
  quiet v := Some (Z.ldiff v (Z.lor HBA_PxCMD_CR HBA_PxCMD_FR))
|}.

Lemma transfer_valid dir op l n h f e :
  transfer dir op l n h f e -> 0 <= l -> l + n <= 65536 ->
  valid dir h f e = true /\ command f = op /\ lba f = l /\ count f = n.
Proof.
  intros [(H1 & H2 & H3) Ht Hc Ho Hd Hl [Hn Hn0] Hr] H0 Hcap. split_and!; [|done..]. unfold valid.
  rewrite H1, H2, H3, Ht, Hc, Hd, Hn, Hl, !Z.eqb_refl. rewrite !(proj2 (Z.leb_le _ _)) by lia. done.
Qed.

#[global] Instance drive_laws : DriveLaws medium_t.
Proof.
  refine {| capacity := 65536 |}.
  - intros l n h f e m d Htr Hl Hcap. destruct (transfer_valid _ _ _ _ _ _ _ Htr Hl Hcap) as (Hv & Ho & El & En).
    cbn [execute drive]. unfold serve. rewrite Hv, Ho, El, En. split_and!; done.
  - intros l n h f e m d Htr Hl Hcap. destruct (transfer_valid _ _ _ _ _ _ _ Htr Hl Hcap) as (Hv & Ho & El & En).
    cbn [execute drive]. unfold serve. rewrite Ho, andb_false_r, Hv, El, En. split_and!; done.
  - intros v. by eexists.
Defined.
End RamDisk.

(** ** Claims *)

(** [find_cmdslot] returns the least slot, among the number the controller's
    capabilities give, that is neither issued nor active, and -1 when every one
    of them is busy; it looks at no more than 15 slots. *)
Theorem find_cmdslot_least {D} (s : machine D) p x :
  port s p = Ret x ->
  exists r, find_cmdslot s p = Ret r /\ r < 15 /\
    least_clear (Z.lor (sact x) (ci x)) 0 (num_of_slots (abar s)) r.
Proof.
  intros Hx. unfold find_cmdslot. rewrite Hx. eexists. split; [done|].
  assert (0 <= num_of_slots (abar s) < 16) as Hn.
  { unfold num_of_slots. rewrite Z.shiftr_div_pow2 by lia.
    assert (0 <= Z.land (cap (abar s)) 0x0f00 < 2 ^ 12) as Hl.
    { split; [apply Z.land_nonneg; lia|]. apply bits_below; [lia|apply Z.land_nonneg; lia|].
      intros j Hj. rewrite Z.land_spec. rewrite (Z.bits_above_log2 0x0f00) by (simpl; lia). by rewrite andb_false_r. }
    Z.to_euclidean_division_equations. lia. }
  pose proof (free_slot_spec (Z.to_nat (num_of_slots (abar s))) 0 (Z.lor (sact x) (ci x)) ltac:(lia)) as L.
  rewrite Z.shiftr_0_r, Z.add_0_l, Z2Nat.id in L by lia. split; [|done].
  destruct L as [[-> _]|(Hr & _)]; lia.
Qed.

Definition busy_port : HBA_PORT := Port 0 0 0 0 0 0 0 0 0 0 1 2.
Definition demo_machine (m : bytes) (x : HBA_PORT) : machine RamDisk.medium_t :=
  Machine m (Hba 0x400 1 [x]) {[ AHCI_KERN_BASE := zero_header ]} ∅ (fun _ _ => 0).

Example find_cmdslot_least_witness :
  find_cmdslot (demo_machine (fun _ => 0) busy_port) 0 = Ret 2.
Proof.
  destruct (find_cmdslot_least (demo_machine (fun _ => 0) busy_port) 0 busy_port eq_refl) as (r & E & _).
  transitivity (Ret r); [exact E|]. rewrite <- E. reflexivity.
Defined.

(** [port_rebase] on a port with a free command slot leaves it ready for
    transfers, when no task file error is pending: the 32 command headers lie one after another from the start of
    the DMA pages, each with a command table of its own behind 40 KiB; of the
    rest of memory only the 256 bytes at 32 KiB change. *)
Theorem port_rebase_prepares {D} `{!Drive D, !DriveLaws D} start (s : machine D) p portno x :
  port s p = Ret x -> no_error x -> slot_of s x <> -1 -> 0 <= start < 2 ^ 30 ->
  exists s', port_rebase start s p portno = Ret s' /\ ready s' p /\
    (forall i, 0 <= i < 32 -> headers s' !! (AHCI_KERN_BASE + start + 32 * i) = Some (slot_header start i)) /\
    (exists y, port s' p = Ret y /\ programmed y start) /\
    forall v, ~ (AHCI_KERN_BASE + (start + 32768) <= v < AHCI_KERN_BASE + (start + 32768) + 256) ->
      ram s' v = ram s v.
Proof. apply port_rebase_ready. Qed.

Example port_rebase_prepares_witness :
  exists s', port_rebase 0x100000 (demo_machine (fun _ => 7) busy_port) 0 0 = Ret s' /\ ready s' 0.
Proof.
  destruct (port_rebase_prepares 0x100000 (demo_machine (fun _ => 7) busy_port) 0 0 busy_port)
    as (s' & E & H & _); [reflexivity|reflexivity|vm_compute; discriminate|lia|].
  exists s'. split; [exact E|exact H].
Defined.
