(* ===== verification/DiskText.v ===== *)
(** * Appending to a disk block (append_disk and strlen_disk in sys/ahci.c)

    No other function calls these two; what they write is stated all the same:
    the text of block 0 is kept, but what stands between it and the appended
    text is whatever the transfer page held before. *)

From S2P Require Import Prelude CString Memory Ahci.

(** Up to the first carriage return; a zero byte does not end the text. *)
Fixpoint strlen_disk_from (n : nat) (m : bytes) (buf count : Z) : outcome Z :=
  if m buf =? 13 then Ret count else
  match n with
  | O => Loops
  | S n => strlen_disk_from n m (buf + 1) (s32 (count + 1))
  end.
Definition strlen_disk (n : nat) (m : bytes) (buf : Z) : outcome Z := strlen_disk_from n m buf 0.

Lemma strlen_disk_spec n m s : forall buf count,
  (forall i c, (s ++ [13]) !! i = Some c -> m (buf + Z.of_nat i) = c) -> 13 ∉ s -> (length s <= n)%nat ->
  0 <= count -> count + Z.of_nat (length s) < 2 ^ 31 ->
  strlen_disk_from n m buf count = Ret (count + Z.of_nat (length s)).
Proof.
  revert n. induction s as [|c s IH]; intros n buf count Hm Hs Hn Hc Hb.
  - pose proof (Hm 0%nat 13 eq_refl) as H0. rewrite Z.add_0_r in H0. destruct n; simpl; rewrite H0; simpl; f_equal; lia.
  - apply not_elem_of_cons in Hs as [Hc13 Hs]. simpl in Hn, Hb. destruct n as [|n]; [lia|].
    pose proof (Hm 0%nat c eq_refl) as H0. rewrite Z.add_0_r in H0. simpl. rewrite H0, (proj2 (Z.eqb_neq _ _)) by congruence.
    rewrite swrap_small by lia. rewrite IH; [f_equal; lia| |done|lia..].
    intros i d Hi. specialize (Hm (S i) d Hi). rewrite <- Hm. f_equal. lia.
Qed.

Section append.
Context {D : Type} `{!Drive D}.

(** The lines printed meanwhile are left out. *)
Definition append_disk (pages : Z) (s : machine D) (buf offset : Z) : outcome (machine D * Z) :=
  r ← read_disk pages s 0;
  let s := r.1 in
  let write_str := r.2 in
  count ← strlen_disk STRING_BOUND (ram s) write_str;
  let m := memcpy (Z.to_nat count) (ram s) (write_buffer pages) write_str in
  len ← strlen STRING_BOUND m write_str;
  n ← strlen STRING_BOUND m buf;
  let m := memcpy (Z.to_nat n) m (write_buffer pages + len) buf in
  r ← write_interface (with_memory_bytes s m) 0 (u32 offset) 0 1 (u64 (write_buffer pages - AHCI_KERN_BASE));
  Ret (r.1, 1).
End append.

Section append_lemmas.
Context {D : Type} `{!Drive D, !DriveLaws D}.
Implicit Types s : machine D.

(** The byte [i] of what is written, where block 0 held [old] and a carriage
    return and the transfer page [stale]. *)
Definition appended (old new : list Z) (stale : Z -> Z) (i : Z) : Z :=
  if i <? Z.of_nat (length old) then default 0 (old !! Z.to_nat i)
  else if i =? Z.of_nat (length old) then stale i
  else default (stale i) (new !! Z.to_nat (i - Z.of_nat (length old) - 1)).

(** The transfer pages are in the kernel's half of memory. *)
Definition pages_ok (pages : Z) : Prop := AHCI_KERN_BASE <= pages < AHCI_KERN_BASE + 2 ^ 30.

(** The page that is written, after both copies. *)
Lemma appended_bytes pages m buf old new stale :
  cstr m (read_buffer pages) (old ++ [13]) -> cstr m buf new -> (length old + length new < 1000)%nat ->
  apart buf (Z.of_nat (length new) + 1) (write_buffer pages) 4096 -> (forall i, 0 <= i < 1024 -> m (write_buffer pages + i) = stale i) ->
  let m1 := memcpy (length old) m (write_buffer pages) (read_buffer pages) in
  cstr m1 (read_buffer pages) (old ++ [13]) /\ cstr m1 buf new /\
  forall i, 0 <= i < 1024 ->
    memcpy (length new) m1 (write_buffer pages + Z.of_nat (length (old ++ [13]))) buf (write_buffer pages + i) =
      appended old new stale i.
Proof.
  intros Ho Hn Hlen Hap Hst m1. unfold read_buffer, write_buffer in *.
  assert (forall x, m1 x = if decide (pages + 5 * 4096 <= x < pages + 5 * 4096 + Z.of_nat (length old))
    then m (x + (pages + 1 * 4096 - (pages + 5 * 4096))) else m x) as Hm1
    by (intros x; apply memcpy_apart; unfold apart; lia). clearbody m1.
  assert (cstr m1 buf new) as Hn1.
  { eapply cstr_same; [exact Hn|]. intros x Hx. rewrite Hm1, decide_False; [done|]. unfold apart in Hap. lia. }
  split; [|split; [done|]].
  - eapply cstr_same; [exact Ho|]. intros x Hx. rewrite length_app in Hx. simpl in Hx. rewrite Hm1, decide_False by lia. done.
  - intros i Hi. rewrite length_app. simpl (length [13]). rewrite memcpy_apart by (unfold apart in *; lia). unfold appended.
    destruct Ho as (Ho & _). destruct Hn1 as (Hn1 & _).
    destruct (Z.ltb_spec i (Z.of_nat (length old))) as [Hlt|Hge].
    + rewrite decide_False, Hm1, decide_True by lia. destruct (lookup_lt_is_Some_2 old (Z.to_nat i)) as [c Hc]; [lia|].
      rewrite Hc. specialize (Ho (Z.to_nat i) c (lookup_app_l_Some _ _ _ _ Hc)). cbn [default from_option id]. rewrite <- Ho. f_equal. lia.
    + destruct (Z.eqb_spec i (Z.of_nat (length old))) as [->|Hne].
      * rewrite decide_False, Hm1, decide_False by lia. by apply Hst.
      * destruct (new !! _) as [c|] eqn:Hc.
        -- pose proof (lookup_lt_Some _ _ _ Hc). rewrite decide_True by lia. specialize (Hn1 _ _ Hc). rewrite <- Hn1. simpl. f_equal. lia.
        -- apply lookup_ge_None_1 in Hc. rewrite decide_False, Hm1, decide_False by lia. by apply Hst.
Qed.

(** [append_disk] keeps the text of block 0 in front of the new one, but writes
    both to the block it is given, drops the carriage return that ended the old
    text and leaves in its place, and behind the new text, what the transfer
    page held. *)
Theorem append_disk_leaves_gap pages s buf offset old new :
  ready s 0 -> pages_ok pages -> 0 <= offset -> offset + 2 <= capacity -> offset < 2 ^ 32 -> 
  (forall i c, (old ++ [13; 0]) !! i = Some c -> sector (disk s) 0 (Z.of_nat i) = c) ->
  Forall (fun c => 0 < c < 256 /\ c <> 13) old -> (length old < 500)%nat ->
  cstr (ram s) buf new -> (length new < 500)%nat ->
  apart buf (Z.of_nat (length new) + 1) (read_buffer pages) 512 -> apart buf (Z.of_nat (length new) + 1) (write_buffer pages) 4096 ->
  exists s', append_disk pages s buf offset = Ret (s', 1) /\
    forall k i, offset <= k < offset + 2 -> 0 <= i < 512 ->
      sector (disk s') k i = appended old new (fun j => ram s (write_buffer pages + j)) (512 * (k - offset) + i).
Proof.
  intros Hr Hp Ho Hcap Ho32 Hold Hf Hlo Hnew Hln Har Haw. unfold append_disk, read_disk. unfold pages_ok, AHCI_KERN_BASE in Hp.
  destruct (read_interface_spec s 0 (u32 0) 1 (u64 (read_buffer pages - AHCI_KERN_BASE)) Hr)
    as (s1 & E1 & Hr1 & _ & Hm1); [reflexivity|change (u32 0) with 0; lia|reflexivity|apply (uwrap_range 64); lia|].
  rewrite E1, !bind_Ret. cbn [fst snd]. clear E1. rewrite uwrap_small in Hm1 by (unfold read_buffer, AHCI_KERN_BASE; lia).
  change (u32 0) with 0 in Hm1.
  replace (AHCI_KERN_BASE + (read_buffer pages - AHCI_KERN_BASE)) with (read_buffer pages) in Hm1 by lia.
  assert (forall i c, (old ++ [13; 0]) !! i = Some c -> ram s1 (read_buffer pages + Z.of_nat i) = c) as Hb.
  { intros i c Hi. pose proof (lookup_lt_Some _ _ _ Hi) as Hl. rewrite length_app in Hl. simpl in Hl.
    rewrite Hm1, decide_True by lia. rewrite <- (Hold i c Hi). f_equal. lia. }
  assert (cstr (ram s1) (read_buffer pages) (old ++ [13])) as Hc.
  { change [13; 0] with ([13] ++ [0]) in Hb. rewrite app_assoc in Hb. split_and!.
    - intros i c Hi. apply Hb. by apply lookup_app_l_Some.
    - apply Forall_app. split; [|by_computation]. eapply Forall_impl; [exact Hf|]. simpl. lia.
    - apply Hb. rewrite lookup_app_r by lia. by rewrite Nat.sub_diag. }
  pose proof STRING_BOUND_eq as HSB. unfold strlen_disk. rewrite (strlen_disk_spec STRING_BOUND (ram s1) old), bind_Ret; cycle 1.
  { apply Hc. } { intros H13. rewrite Forall_forall in Hf. destruct (Hf _ H13) as [_ Hne]. exact (Hne eq_refl). } { lia. } { lia. } { lia. }
  rewrite Z.add_0_l, Nat2Z.id.
  assert (cstr (ram s1) buf new) as Hn1.
  { eapply cstr_same; [exact Hnew|]. intros x Hx. rewrite Hm1, decide_False; [done|]. unfold apart in Har. lia. }
  destruct (appended_bytes pages (ram s1) buf old new (fun j => ram s (write_buffer pages + j)) Hc Hn1 ltac:(lia) Haw)
    as (Hc1 & Hn2 & Hw).
  { intros i Hi. rewrite Hm1, decide_False; [done|]. unfold read_buffer, write_buffer. lia. }
  rewrite (strlen_bounded _ _ (old ++ [13]) Hc1), bind_Ret by (rewrite length_app; simpl; lia).
  rewrite (strlen_bounded _ _ new Hn2), bind_Ret by lia. rewrite Nat2Z.id.
  set (m2 := memcpy (length new) _ _ _) in Hw |- *. clearbody m2.
  destruct (write_interface_spec (with_memory_bytes s1 m2) 0 (u32 offset) 1 (u64 (write_buffer pages - AHCI_KERN_BASE)))
    as (s2 & E2 & _ & _ & Hsec); try (rewrite (uwrap_small 32 offset) by lia; lia); [exact Hr1|apply (uwrap_range 64); lia|].
  rewrite E2, bind_Ret. eexists. split; [done|]. cbn [fst]. intros k i Hk Hi.
  rewrite Hsec, (uwrap_small 32 offset), decide_True by lia. rewrite <- Hw by lia.
  rewrite uwrap_small by (unfold write_buffer, AHCI_KERN_BASE; lia). cbn [ram with_memory_bytes]. f_equal. lia.
Qed.
End append_lemmas.
