(* ===== verification/FileSys.v ===== *)
(** * The file system (sys/fs.c, include/fs.h)

    A superblock, the block bitmap and a table of 100 inodes, kept in memory
    and copied to and from the disk as a whole by [rsync]; files of one block.
    Memory is the kernel's byte memory with the C layout of the structures,
    the disk the one of Ahci.v, the block bitmap the one of FsBlocks.v. *)

From S2P Require Import Prelude Bitmap FsBlocks CString Memory Ahci.

Definition INODE_COUNT : Z := 100.
Definition BITMAP_COUNT : Z := 1100 * 8.
Definition INFLATE_CONSTANT : Z := 100.
Definition TYPE_FILE : Z := 1.
Definition TYPE_DIR : Z := 0.

(** ** Structures *)

(** Where the linker and [init_ahci] put the DMA pages and the three globals
    [sb], [file_mmgr_memory_map] and [inode_list]. *)
Record layout := Layout { pages : Z; sb_at : Z; map_at : Z; inodes_at : Z }.

(** [struct super_block] has five 64-bit fields; [struct inodes] a name of 100
    bytes, two 32-bit numbers, a 64-bit number and two flags that are 32-bit
    enumerations: 128 bytes with padding. *)
Definition SUPER_SIZE : Z := 40.
Definition INODE_SIZE : Z := 128.
Definition TABLE_SIZE : Z := INODE_COUNT * INODE_SIZE.

Record fsys (D : Type) := Fsys { mc : machine D; fs_used : Z; fs_max : Z }.
Arguments Fsys {D}.
Arguments mc {D}.
Arguments fs_used {D}.
Arguments fs_max {D}.

Section files.
Context {D : Type} `{!Drive D} (L : layout).
Implicit Types st : fsys D.

Definition mem st : bytes := ram (mc st).
Definition set_mem st (m : bytes) : fsys D := Fsys (with_memory_bytes (mc st) m) (fs_used st) (fs_max st).
Definition set_mc st (s : machine D) : fsys D := Fsys s (fs_used st) (fs_max st).

(** The address of [inode_list[i]]; an index outside the array is undefined. *)
Definition inode_ptr (i : Z) : outcome Z :=
  if (0 <=? i) && (i <? INODE_COUNT) then Ret (inodes_at L + INODE_SIZE * i) else Undef.

Definition get_position (m : bytes) (p : Z) : Z := load32 m (p + 100).
Definition get_size (m : bytes) (p : Z) : Z := load32 m (p + 104).
Definition get_start_block (m : bytes) (p : Z) : Z := load64 m (p + 112).
Definition get_usage (m : bytes) (p : Z) : Z := load32 m (p + 120).
Definition get_type (m : bytes) (p : Z) : Z := load32 m (p + 124).
Definition set_position st (p v : Z) : fsys D := set_mem st (store32 (mem st) (p + 100) (u32 v)).
Definition set_size st (p v : Z) : fsys D := set_mem st (store32 (mem st) (p + 104) (u32 v)).
Definition set_start_block st (p v : Z) : fsys D := set_mem st (store64 (mem st) (p + 112) (u64 v)).
Definition set_usage st (p v : Z) : fsys D := set_mem st (store32 (mem st) (p + 120) v).
Definition set_type st (p v : Z) : fsys D := set_mem st (store32 (mem st) (p + 124) v).

(** [file_mmgr_memory_map] as the words of Bitmap.v, and back. *)
Definition read_map (m : bytes) : list Z := (fun i => load64 m (map_at L + 8 * i)) <$> seqZ 0 1100.
Definition write_map (m : bytes) (l : list Z) : bytes := fun a =>
  if (map_at L <=? a) && (a <? map_at L + BITMAP_COUNT) then
    default 0 (l !! Z.to_nat ((a - map_at L) / 8)) / 256 ^ ((a - map_at L) mod 8) mod 256
  else m a.
Definition blocks st : bitmap := Bitmap (read_map (mem st)) (fs_used st) (fs_max st).
Definition with_blocks st (b : bitmap) : fsys D :=
  Fsys (with_memory_bytes (mc st) (write_map (mem st) (memory_map b))) (used_blocks b) (max_blocks b).

(** ** File descriptors *)

Definition inflate (fd : Z) : Z := s32 (fd + INFLATE_CONSTANT).
Definition deflate (fd : Z) : Z := s32 (fd - INFLATE_CONSTANT).

(** ** Metadata and the disk *)

(** The three functions copy [size] bytes into the write buffer and write two
    sectors of it; their results are not used. *)
Definition write_meta st (offset buf size : Z) : outcome (fsys D) :=
  let m := memcpy (Z.to_nat size) (mem st) (write_buffer (pages L)) buf in
  r ← write_interface (with_memory_bytes (mc st) m) 0 offset 0 1 (u64 (write_buffer (pages L) - AHCI_KERN_BASE));
  Ret (set_mc st r.1).
Definition write_disk_superblock st (offset buf : Z) : outcome (fsys D) := write_meta st offset buf SUPER_SIZE.
Definition write_disk_memory_map st (offset buf : Z) : outcome (fsys D) := write_meta st offset buf BITMAP_COUNT.
Definition write_disk_inode st (offset buf : Z) : outcome (fsys D) := write_meta st offset buf TABLE_SIZE.

(** Reads a sector and copies [size] bytes from the read buffer on. *)
Definition read_meta st (offset dest size : Z) : outcome (fsys D) :=
  r ← read_disk (pages L) (mc st) offset;
  let st := set_mc st r.1 in
  Ret (set_mem st (memcpy (Z.to_nat size) (mem st) dest r.2)).

(** The two offsets are read from the buffer before it is overwritten. *)
Definition update_structures st : outcome (fsys D) :=
  st ← read_meta st 0 (sb_at L) SUPER_SIZE;
  let bitmap_offset := load64 (mem st) (read_buffer (pages L) + 16) in
  let node_offset := load64 (mem st) (read_buffer (pages L) + 24) in
  st ← read_meta st bitmap_offset (map_at L) BITMAP_COUNT;
  read_meta st node_offset (inodes_at L) TABLE_SIZE.

Definition rsync st : outcome (fsys D) :=
  st ← write_disk_superblock st 0 (sb_at L);
  st ← write_disk_memory_map st 1 (map_at L);
  st ← write_disk_inode st 3 (inodes_at L);
  update_structures st.

Definition create_superblock st : fsys D :=
  let m := mem st in
  let m := store64 m (sb_at L) 65536 in
  let m := store64 m (sb_at L + 8) 124 in
  let m := store64 m (sb_at L + 16) 1 in
  let m := store64 m (sb_at L + 24) 3 in
  let m := store64 m (sb_at L + 32) 6 in
  let m := memset (Z.to_nat BITMAP_COUNT) m (map_at L) 0 in
  set_mem st (memset (Z.to_nat TABLE_SIZE) m (inodes_at L) 0).

(** ** Inodes and blocks *)

(** [for (i = 0; i < INODE_COUNT; i++) if (inode_list[i].usage != TRUE) { ... }] *)
Fixpoint free_inode_from (n : nat) st (i : Z) : outcome (fsys D * Z) :=
  match n with
  | O => Ret (st, -1)
  | S n =>
    p ← inode_ptr i;
    if negb (get_usage (mem st) p =? 1) then Ret (set_usage st p 1, i)
    else free_inode_from n st (i + 1)
  end.
Definition get_free_inode st : outcome (fsys D * Z) := free_inode_from (Z.to_nat INODE_COUNT) st 0.

Definition get_free_block st : outcome (fsys D * Z) :=
  r ← file_mmgr_alloc_block (blocks st); Ret (with_blocks st r.1, r.2).

(** The first inode of type [ty] with the name at [nm]. *)
Fixpoint find_from (n : nat) st (nm ty i : Z) : outcome Z :=
  match n with
  | O => Ret (-1)
  | S n =>
    p ← inode_ptr i;
    r ← strcmp STRING_BOUND (mem st) p nm;
    if (r =? 0) && (get_type (mem st) p =? ty) then Ret i else find_from n st nm ty (i + 1)
  end.
Definition find_file st (nm : Z) : outcome Z := find_from (Z.to_nat INODE_COUNT) st nm TYPE_FILE 0.
Definition find_directory st (nm : Z) : outcome Z := find_from (Z.to_nat INODE_COUNT) st nm TYPE_DIR 0.

(** [strncpy(inode_list[inode].name, name, strlen(name))]: no terminator is
    copied. *)
Definition copy_name st (p nm : Z) : outcome (fsys D) :=
  n ← strlen STRING_BOUND (mem st) nm;
  Ret (set_mem st (strncpy (mem st) p nm (u32 n))).

(** ** Operations on files *)

Definition flush_blocks st (block_number contents : Z) : outcome (fsys D) :=
  r ← write_disk (pages L) (mc st) block_number contents; Ret (set_mc st r.1).

(** When one of the two allocations fails the other is not undone. *)
Definition create_file st (nm : Z) : outcome (fsys D * Z) :=
  f ← find_file st nm;
  if negb (f =? -1) then Ret (st, -1) else
  r ← get_free_inode st;
  let inode := r.2 in
  b ← get_free_block r.1;
  let sector_block := b.2 in
  if (inode =? -1) || (sector_block =? -1) then Ret (b.1, -1) else
  p ← inode_ptr inode;
  st ← copy_name b.1 p nm;
  let st := set_start_block st p sector_block in
  let st := set_type st p TYPE_FILE in
  st ← rsync st;
  Ret (st, inflate inode).

Definition write_file st (contents fd : Z) : outcome (fsys D * Z) :=
  let inode := deflate fd in
  if inode =? -1 then Ret (st, -1) else
  n ← strlen STRING_BOUND (mem st) contents;
  p ← inode_ptr inode;
  let st := set_size st p n in
  st ← rsync st;
  st ← flush_blocks st (s32 (get_start_block (mem st) p)) contents;
  Ret (st, 1).

Definition create_write_file st (nm contents : Z) : outcome (fsys D) :=
  r ← create_file st nm;
  r ← write_file r.1 contents r.2;
  Ret r.1.

Definition make_directory st (nm : Z) : outcome (fsys D * Z) :=
  f ← find_directory st nm;
  if negb (f =? -1) then Ret (st, -1) else
  r ← get_free_inode st;
  let inode := r.2 in
  p ← inode_ptr inode;
  st ← copy_name r.1 p nm;
  let st := set_size st p 0 in
  let st := set_start_block st p 0 in
  let st := set_usage st p 1 in
  let st := set_type st p TYPE_DIR in
  st ← rsync st;
  Ret (st, inode).

Definition get_file_descriptor st (nm : Z) : outcome Z := find_file st nm.

(** [position % size] of unsigned numbers; a size of 0 traps. *)
Definition seek_file st (fd position : Z) : outcome (fsys D) :=
  p ← inode_ptr (deflate fd);
  let size := get_size (mem st) p in
  if size =? 0 then Undef else
  Ret (set_position st p (s32 (u32 (position + get_position (mem st) p) mod size))).

(** Eight bytes of [buf] are cleared, [sizeof] of the pointer, then [count]
    bytes copied; 0 is the null pointer. *)
Definition read_file st (fd count buf : Z) : outcome (fsys D * Z) :=
  let inode := deflate fd in
  if inode =? -1 then Ret (st, 0) else
  p ← inode_ptr inode;
  r ← read_disk (pages L) (mc st) (s32 (get_start_block (mem st) p));
  let st := set_mc st r.1 in
  let position := s32 (get_position (mem st) p) in
  if position <? 0 then Undef else
  let m := memset 8 (mem st) buf 0 in
  let st := set_mem st (memcpy (Z.to_nat (u32 count)) m buf (r.2 + position)) in
  let size := get_size (mem st) p in
  if size =? 0 then Undef else
  Ret (set_position st p (s32 (u32 (s32 (get_position (mem st) p) + count) mod size)), buf).

(** The buffer is a local array of 100 bytes. *)
Definition read_file_by_name st (nm buf : Z) : outcome (fsys D * Z) :=
  fd ← get_file_descriptor st nm; read_file st fd 100 buf.

Definition set_sb st : outcome (fsys D * Z) :=
  st ← rsync (create_superblock st);
  b ← for_loop 6 0 (fun i b => file_mmgr_set_block b i) (blocks st);
  st ← rsync (with_blocks st b);
  Ret (st, 1).
End files.

(** Conversion unfolds the recursive functions last: their fuel is large. *)
Strategy 100 [find_from free_inode_from strlen_from strcmp_from memcpy memset].

(** ** Where things lie *)

(** The DMA pages lie in the kernel window, and the three globals outside them
    and each other. *)
Record layout_ok (L : layout) : Prop := {
  pages_low : AHCI_KERN_BASE <= pages L;
  pages_high : pages L + 29 * 4096 <= AHCI_KERN_BASE + 2 ^ 30;
  pages_sb : apart (pages L) (29 * 4096) (sb_at L) SUPER_SIZE;
  pages_map : apart (pages L) (29 * 4096) (map_at L) BITMAP_COUNT;
  pages_inodes : apart (pages L) (29 * 4096) (inodes_at L) TABLE_SIZE;
  sb_map : apart (sb_at L) SUPER_SIZE (map_at L) BITMAP_COUNT;
  sb_inodes : apart (sb_at L) SUPER_SIZE (inodes_at L) TABLE_SIZE;
  map_inodes : apart (map_at L) BITMAP_COUNT (inodes_at L) TABLE_SIZE
}.

(** Unfolds the layout facts for [lia]. *)
Ltac layout H :=
  let H1 := fresh in let H2 := fresh in let H3 := fresh in let H4 := fresh in
  let H5 := fresh in let H6 := fresh in let H7 := fresh in let H8 := fresh in
  pose proof H as [H1 H2 H3 H4 H5 H6 H7 H8];
  unfold apart, SUPER_SIZE, BITMAP_COUNT, TABLE_SIZE, INODE_COUNT, INODE_SIZE, read_buffer, write_buffer in *.

(** Rewrites a memory read and settles which regions it lies in. *)
Ltac regions H := rewrite H; repeat (case_decide; try lia).

Section metadata.
Context {D : Type} `{!Drive D, !DriveLaws D} (L : layout) (HL : layout_ok L).
Implicit Types st : fsys D.

Lemma set_mc_frame st s : mc (set_mc st s) = s /\ fs_used (set_mc st s) = fs_used st /\ fs_max (set_mc st s) = fs_max st.
Proof. done. Qed.

Lemma set_mem_frame st m :
  mem (set_mem st m) = m /\ disk (mc (set_mem st m)) = disk (mc st) /\
  fs_used (set_mem st m) = fs_used st /\ fs_max (set_mem st m) = fs_max st.
Proof. done. Qed.

Lemma ready_set_mem st m p : ready (mc (set_mem st m)) p <-> ready (mc st) p.
Proof. done. Qed.

Lemma ready_with_memory (s : machine D) m p : ready (with_memory_bytes s m) p <-> ready s p.
Proof. done. Qed.

(** What [write_meta] leaves: the bytes in the write buffer and in two
    sectors. *)
Lemma write_meta_spec st offset buf size :
  ready (mc st) 0 -> 0 <= offset -> offset + 2 <= capacity -> offset < 2 ^ 32 -> 0 <= size ->
  apart (write_buffer (pages L)) size buf size ->
  exists st', write_meta L st offset buf size = Ret st' /\ ready (mc st') 0 /\
    fs_used st' = fs_used st /\ fs_max st' = fs_max st /\
    (forall x, mem st' x = if decide (write_buffer (pages L) <= x < write_buffer (pages L) + size)
                           then mem st (x + (buf - write_buffer (pages L))) else mem st x) /\
    forall k i, 0 <= i < 512 ->
      sector (disk (mc st')) k i =
        if decide (offset <= k < offset + 2) then mem st' (write_buffer (pages L) + 512 * (k - offset) + i)
        else sector (disk (mc st)) k i.
Proof.
  intros Hrdy Ho Hc Ho32 Hsz Hap. unfold write_meta.
  set (m := memcpy (Z.to_nat size) (mem st) (write_buffer (pages L)) buf).
  assert (forall x, m x = if decide (write_buffer (pages L) <= x < write_buffer (pages L) + size)
                          then mem st (x + (buf - write_buffer (pages L))) else mem st x) as Hm.
  { intros x. unfold m. rewrite memcpy_apart by (rewrite Z2Nat.id by done; exact Hap). by rewrite Z2Nat.id by done. }
  clearbody m. apply (ready_with_memory (mc st) m) in Hrdy. layout HL.
  destruct (write_interface_spec (with_memory_bytes (mc st) m) 0 offset 1
    (u64 (pages L + 5 * 4096 - AHCI_KERN_BASE))) as (s' & E & Hrdy' & Hram & Hsec); try done.
  { apply (uwrap_range 64). lia. }
  eapply bind_step; [exact E|]. eexists. split; [done|].
  destruct (with_memory_bytes_frame (mc st) m) as (_ & _ & Hr). rewrite Hr in Hram, Hsec.
  split_and!; [done|done|done| |].
  - intros x. unfold mem at 1. simpl mc. by rewrite Hram, Hm.
  - intros k i Hi. simpl mc. rewrite Hsec by done. destruct (decide _) as [Hk|Hk]; [|done].
    unfold mem at 1. simpl mc. rewrite Hram. rewrite uwrap_small by (unfold AHCI_KERN_BASE in *; lia).
    f_equal. lia.
Qed.

(** The memory after a sector was read into the read buffer. *)
Definition after_read (m : bytes) (d : D) (offset x : Z) : Z :=
  if decide (read_buffer (pages L) <= x < read_buffer (pages L) + 512)
  then sector d offset (x - read_buffer (pages L)) else m x.

Lemma read_disk_spec (s : machine D) offset :
  ready s 0 -> 0 <= offset -> offset + 1 <= capacity -> offset < 2 ^ 32 ->
  exists s', read_disk (pages L) s offset = Ret (s', read_buffer (pages L)) /\ ready s' 0 /\
    (forall x, ram s' x = after_read (ram s) (disk s) offset x) /\
    forall k i, sector (disk s') k i = sector (disk s) k i.
Proof.
  intros Hrdy Ho Hc Ho32. unfold read_disk. rewrite (uwrap_small 32 offset) by lia. layout HL.
  destruct (read_interface_spec s 0 offset 1 (u64 (pages L + 1 * 4096 - AHCI_KERN_BASE)))
    as (s' & E & Hrdy' & Hsec & Hram); try done.
  { apply (uwrap_range 64). lia. }
  rewrite E. eexists. split; [done|]. split; [done|]. split; [|done]. intros x. simpl.
  rewrite Hram. unfold after_read, read_buffer.
  rewrite uwrap_small by (unfold AHCI_KERN_BASE in *; lia).
  replace (AHCI_KERN_BASE + (pages L + 1 * 4096 - AHCI_KERN_BASE)) with (pages L + 1 * 4096) by lia. done.
Qed.

Lemma read_meta_spec st offset dest size :
  ready (mc st) 0 -> 0 <= offset -> offset + 1 <= capacity -> offset < 2 ^ 32 -> 0 <= size ->
  apart dest size (read_buffer (pages L)) size ->
  exists st', read_meta L st offset dest size = Ret st' /\ ready (mc st') 0 /\
    fs_used st' = fs_used st /\ fs_max st' = fs_max st /\
    (forall x, mem st' x = if decide (dest <= x < dest + size)
       then after_read (mem st) (disk (mc st)) offset (x + (read_buffer (pages L) - dest))
       else after_read (mem st) (disk (mc st)) offset x) /\
    forall k i, sector (disk (mc st')) k i = sector (disk (mc st)) k i.
Proof.
  intros Hrdy Ho Hc Ho32 Hsz Hap. unfold read_meta.
  destruct (read_disk_spec (mc st) offset) as (s' & E & Hrdy' & Hram & Hsec); try done.
  eapply bind_step; [exact E|]. cbv beta. eexists. split; [done|].
  cbn [fst snd]. set (m := memcpy _ _ _ _).
  assert (forall x, m x = if decide (dest <= x < dest + size) then ram s' (x + (read_buffer (pages L) - dest)) else ram s' x) as Hm.
  { intros x. unfold m. rewrite memcpy_apart by (rewrite Z2Nat.id by done; exact Hap). by rewrite Z2Nat.id by done. }
  clearbody m. split_and!; [done..| |done].
  intros x. transitivity (m x); [done|]. by rewrite Hm, !Hram.
Qed.

(** The geometry [create_superblock] writes: bitmap at sector 1, inodes at 3. *)
Definition geometry st : Prop := load64 (mem st) (sb_at L + 16) = 1 /\ load64 (mem st) (sb_at L + 24) = 3.

(** A region after [rsync]: its first sector survives, the rest is whatever lay
    in the read buffer behind the sector. *)
Definition truncated (m m' : bytes) (a size : Z) : Prop :=
  forall i, 0 <= i < size -> m' (a + i) = if i <? 512 then m (a + i) else m (read_buffer (pages L) + i).

(** Everything [rsync] does. *)
Record synced st st' : Prop := {
  synced_ready : ready (mc st') 0;
  synced_used : fs_used st' = fs_used st;
  synced_max : fs_max st' = fs_max st;
  synced_sb : same_bytes (mem st) (mem st') (sb_at L) SUPER_SIZE;
  synced_map : truncated (mem st) (mem st') (map_at L) BITMAP_COUNT;
  synced_inodes : truncated (mem st) (mem st') (inodes_at L) TABLE_SIZE;
  synced_read : forall i, 512 <= i < 4 * 4096 -> mem st' (read_buffer (pages L) + i) = mem st (read_buffer (pages L) + i);
  synced_write : forall i, 0 <= i < TABLE_SIZE -> mem st' (write_buffer (pages L) + i) = mem st (inodes_at L + i);
  synced_frame : forall x, apart x 1 (pages L) (29 * 4096) -> apart x 1 (sb_at L) SUPER_SIZE ->
    apart x 1 (map_at L) BITMAP_COUNT -> apart x 1 (inodes_at L) TABLE_SIZE -> mem st' x = mem st x;
  synced_disk : forall k i, 0 <= i < 512 -> k < 0 \/ 5 <= k -> sector (disk (mc st')) k i = sector (disk (mc st)) k i
}.

(** The three writes. *)
Lemma write_phase st :
  ready (mc st) 0 -> 5 <= capacity ->
  exists st', (s1 ← write_disk_superblock L st 0 (sb_at L); s2 ← write_disk_memory_map L s1 1 (map_at L);
               write_disk_inode L s2 3 (inodes_at L)) = Ret st' /\ ready (mc st') 0 /\
    fs_used st' = fs_used st /\ fs_max st' = fs_max st /\
    (forall x, apart x 1 (write_buffer (pages L)) TABLE_SIZE -> mem st' x = mem st x) /\
    (forall i, 0 <= i < TABLE_SIZE -> mem st' (write_buffer (pages L) + i) = mem st (inodes_at L + i)) /\
    (forall i, 0 <= i < SUPER_SIZE -> sector (disk (mc st')) 0 i = mem st (sb_at L + i)) /\
    (forall i, 0 <= i < 512 -> sector (disk (mc st')) 1 i = mem st (map_at L + i)) /\
    (forall i, 0 <= i < 512 -> sector (disk (mc st')) 3 i = mem st (inodes_at L + i)) /\
    forall k i, 0 <= i < 512 -> k < 0 \/ 5 <= k -> sector (disk (mc st')) k i = sector (disk (mc st)) k i.
Proof.
  intros Hrdy Hc. unfold write_disk_superblock, write_disk_memory_map, write_disk_inode.
  destruct (write_meta_spec st 0 (sb_at L) SUPER_SIZE) as (s1 & E1 & Hr1 & Hu1 & Hx1 & Hm1 & Hd1);
    [done|lia|lia|lia|done|layout HL; lia|].
  eapply bind_step; [exact E1|].
  destruct (write_meta_spec s1 1 (map_at L) BITMAP_COUNT) as (s2 & E2 & Hr2 & Hu2 & Hx2 & Hm2 & Hd2);
    [done|lia|lia|lia|done|layout HL; lia|].
  eapply bind_step; [exact E2|].
  destruct (write_meta_spec s2 3 (inodes_at L) TABLE_SIZE) as (s3 & E3 & Hr3 & Hu3 & Hx3 & Hm3 & Hd3);
    [done|lia|lia|lia|done|layout HL; lia|].
  exists s3. split; [exact E3|]. layout HL.
  split_and!; [done|congruence|congruence| | | | | |].
  - intros x Hx. rewrite Hm3, decide_False, Hm2, decide_False, Hm1, decide_False by lia. done.
  - intros i Hi. rewrite Hm3, decide_True by lia. rewrite Hm2, decide_False, Hm1, decide_False by lia.
    f_equal. lia.
  - intros i Hi. rewrite Hd3, decide_False, Hd2, decide_False, Hd1, decide_True by lia.
    rewrite Hm1, decide_True by lia. f_equal. lia.
  - intros i Hi. rewrite Hd3, decide_False, Hd2, decide_True by lia.
    rewrite Hm2, decide_True, Hm1, decide_False by lia. f_equal. lia.
  - intros i Hi. rewrite Hd3, decide_True by lia.
    rewrite Hm3, decide_True, Hm2, decide_False, Hm1, decide_False by lia. f_equal. lia.
  - intros k i Hi Hk. rewrite Hd3, decide_False, Hd2, decide_False, Hd1, decide_False by lia. done.
Qed.

(** The three reads, on a disk whose sector 0 holds the geometry. *)
Lemma read_phase st :
  ready (mc st) 0 -> 5 <= capacity ->
  load64 (sector (disk (mc st)) 0) 16 = 1 -> load64 (sector (disk (mc st)) 0) 24 = 3 ->
  exists st', update_structures L st = Ret st' /\ ready (mc st') 0 /\
    fs_used st' = fs_used st /\ fs_max st' = fs_max st /\
    (forall i, 0 <= i < SUPER_SIZE -> mem st' (sb_at L + i) = sector (disk (mc st)) 0 i) /\
    (forall i, 0 <= i < BITMAP_COUNT -> mem st' (map_at L + i) =
       if i <? 512 then sector (disk (mc st)) 1 i else mem st (read_buffer (pages L) + i)) /\
    (forall i, 0 <= i < TABLE_SIZE -> mem st' (inodes_at L + i) =
       if i <? 512 then sector (disk (mc st)) 3 i else mem st (read_buffer (pages L) + i)) /\
    (forall x, apart x 1 (read_buffer (pages L)) 512 -> apart x 1 (sb_at L) SUPER_SIZE ->
       apart x 1 (map_at L) BITMAP_COUNT -> apart x 1 (inodes_at L) TABLE_SIZE -> mem st' x = mem st x) /\
    forall k i, sector (disk (mc st')) k i = sector (disk (mc st)) k i.
Proof.
  intros Hrdy Hc H16 H24. unfold update_structures. pose proof HL as HL0.
  destruct (read_meta_spec st 0 (sb_at L) SUPER_SIZE) as (s1 & E1 & Hr1 & Hu1 & Hx1 & Hm1 & Hd1);
    [done|lia|lia|lia|done|layout HL; lia|].
  assert (forall i, 0 <= i < 512 -> mem s1 (read_buffer (pages L) + i) = sector (disk (mc st)) 0 i) as Hbuf.
  { intros i Hi. layout HL. rewrite Hm1, decide_False by lia. unfold after_read, read_buffer.
    rewrite decide_True by lia. f_equal. lia. }
  assert (forall o, 0 <= o < 500 -> load64 (mem s1) (read_buffer (pages L) + o) = load64 (sector (disk (mc st)) 0) o) as Hld.
  { intros o Ho. apply load_le_shift. intros i Hi. rewrite <- Z.add_assoc. apply Hbuf. lia. }
  eapply bind_step; [exact E1|]. cbv beta zeta. rewrite !Hld, H16, H24 by lia.
  destruct (read_meta_spec s1 1 (map_at L) BITMAP_COUNT) as (s2 & E2 & Hr2 & Hu2 & Hx2 & Hm2 & Hd2);
    [done|lia|lia|lia|done|layout HL; lia|].
  eapply bind_step; [exact E2|].
  destruct (read_meta_spec s2 3 (inodes_at L) TABLE_SIZE) as (s3 & E3 & Hr3 & Hu3 & Hx3 & Hm3 & Hd3);
    [done|lia|lia|lia|done|layout HL; lia|].
  exists s3. split; [exact E3|].
  assert (forall k i, sector (disk (mc s3)) k i = sector (disk (mc st)) k i) as Hdisk.
  { intros k i. by rewrite Hd3, Hd2, Hd1. }
  unfold after_read in *. layout HL.
  split_and!; [done|congruence|congruence| | | | |done].
  - intros i Hi. regions Hm3. regions Hm2. regions Hm1. f_equal. lia.
  - intros i Hi. regions Hm3. regions Hm2; destruct (Z.ltb_spec i 512); try lia.
    + rewrite Hd1. f_equal. lia.
    + regions Hm1. f_equal. lia.
  - intros i Hi. regions Hm3; destruct (Z.ltb_spec i 512); try lia.
    + rewrite Hd2, Hd1. f_equal. lia.
    + regions Hm2. regions Hm1. f_equal. lia.
  - intros x Ha Hb Hd He. regions Hm3. regions Hm2. by regions Hm1.
Qed.

Lemma rsync_spec st :
  ready (mc st) 0 -> 5 <= capacity -> geometry st -> exists st', rsync L st = Ret st' /\ synced st st'.
Proof.
  intros Hrdy Hc [H16 H24]. unfold rsync.
  destruct (write_phase st Hrdy Hc) as (s1 & E1 & Hr1 & Hu1 & Hx1 & Hm1 & Hw1 & Hs0 & Hs1 & Hs3 & Hd1).
  assert (forall o, 0 <= o -> o + 8 <= SUPER_SIZE ->
    load64 (sector (disk (mc s1)) 0) o = load64 (mem st) (sb_at L + o)) as Hld.
  { intros o Ho Ho'. apply load_le_shift. intros i Hi. rewrite Hs0 by lia. f_equal. lia. }
  destruct (read_phase s1 Hr1 Hc) as (s2 & E2 & Hr2 & Hu2 & Hx2 & Hsb & Hmap & Hino & Hm2 & Hd2);
    [rewrite Hld by (unfold SUPER_SIZE; lia); done..|].
  exists s2. split.
  { apply bind_Ret_inv in E1 as (a & Ea & E1). apply bind_Ret_inv in E1 as (b & Eb & E1).
    rewrite Ea. simpl. rewrite Eb. simpl. rewrite E1. exact E2. }
  split; [done|congruence|congruence| | | | | | |].
  - intros x Hx. layout HL. replace x with (sb_at L + (x - sb_at L)) by lia. rewrite Hsb by lia. apply Hs0. lia.
  - intros i Hi. layout HL. rewrite Hmap by lia. destruct (Z.ltb_spec i 512); [apply Hs1|apply Hm1]; lia.
  - intros i Hi. layout HL. rewrite Hino by lia. destruct (Z.ltb_spec i 512); [apply Hs3|apply Hm1]; lia.
  - intros i Hi. layout HL. rewrite Hm2, Hm1 by lia. done.
  - intros i Hi. layout HL. rewrite Hm2 by lia. apply Hw1. lia.
  - intros x Ha Hb Hd He. layout HL. rewrite Hm2, Hm1 by lia. done.
  - intros k i Hi Hk. rewrite Hd2. by apply Hd1.
Qed.
End metadata.

(** ** The bitmap in memory *)

Section bitmap_memory.
Context (L : layout).

Lemma read_map_lookup m (k : nat) : (k < 1100)%nat -> read_map L m !! k = Some (load64 m (map_at L + 8 * Z.of_nat k)).
Proof.
  intros Hk. unfold read_map. rewrite list_lookup_fmap, lookup_seqZ_lt by lia. done.
Qed.

Lemma read_map_length m : length (read_map L m) = 1100%nat.
Proof. unfold read_map. by rewrite length_fmap, length_seqZ. Qed.

Lemma read_map_same m m' : same_bytes m m' (map_at L) BITMAP_COUNT -> read_map L m' = read_map L m.
Proof.
  intros H. apply list_eq. intros k. destruct (decide (k < 1100)%nat).
  - rewrite !read_map_lookup by done. f_equal. apply load_le_agree.
    eapply same_bytes_sub; [exact H|lia|]. unfold BITMAP_COUNT. lia.
  - rewrite !lookup_ge_None_2 by (rewrite read_map_length; lia). done.
Qed.

Lemma write_map_out m l x : apart x 1 (map_at L) BITMAP_COUNT -> write_map L m l x = m x.
Proof.
  intros H. unfold apart in H. unfold write_map.
  destruct (Z.leb_spec (map_at L) x), (Z.ltb_spec x (map_at L + BITMAP_COUNT)); simpl; done || lia.
Qed.

Lemma write_map_in m l (k : nat) w i :
  (k < 1100)%nat -> l !! k = Some w -> 0 <= i < 8 ->
  write_map L m l (map_at L + 8 * Z.of_nat k + i) = w / 256 ^ i mod 256.
Proof.
  intros Hk Hw Hi. unfold write_map, BITMAP_COUNT.
  rewrite (proj2 (Z.leb_le _ _)), (proj2 (Z.ltb_lt _ _)) by lia. simpl.
  replace (map_at L + 8 * Z.of_nat k + i - map_at L) with (i + Z.of_nat k * 8) by lia.
  rewrite Z.div_add, (Z.div_small i), Z_mod_plus_full, (Z.mod_small i) by lia.
  by rewrite Z.add_0_l, Nat2Z.id, Hw.
Qed.

Lemma read_write_map m l :
  length l = 1100%nat -> Forall word_ok l -> read_map L (write_map L m l) = l.
Proof.
  intros Hl Hok. apply list_eq. intros k.
  destruct (decide (k < 1100)%nat) as [Hk|Hk].
  - destruct (lookup_lt_is_Some_2 l k) as [w Hw]; [lia|]. rewrite Hw, read_map_lookup by done. f_equal.
    pose proof (Forall_lookup_1 _ _ _ _ Hok Hw) as Hwo. cbv beta in Hwo. unfold word_ok in Hwo.
    rewrite (load_le_digits 8 _ _ w); [by apply Z.mod_small|lia|].
    intros i Hi. by apply write_map_in.
  - rewrite !lookup_ge_None_2 by (rewrite ?read_map_length; lia). done.
Qed.

Lemma wf_map_ok l : wf_map l -> Forall word_ok l.
Proof. intros H. eapply Forall_impl; [exact H|]. apply wf_word_ok. Qed.
End bitmap_memory.

(** ** The first four inodes

    A sector holds four inodes, so these are the ones [rsync] keeps. *)

(** An inode as its fields. *)
Record inode := Inode {
  i_name : list Z; i_position : Z; i_size : Z; i_start : Z; i_usage : Z; i_type : Z
}.

Definition holds (m : bytes) (p : Z) (r : inode) : Prop :=
  cstr m p (i_name r) /\ (length (i_name r) < 100)%nat /\ get_position m p = i_position r /\
  get_size m p = i_size r /\ get_start_block m p = i_start r /\ get_usage m p = i_usage r /\
  get_type m p = i_type r.

Definition replace (f : Z -> inode) (i : Z) (r : inode) : Z -> inode := fun j => if j =? i then r else f j.

Section inodes.
Context {D : Type} `{!Drive D, !DriveLaws D} (L : layout) (HL : layout_ok L).
Implicit Types st : fsys D.

Definition inode_at (i : Z) : Z := inodes_at L + INODE_SIZE * i.

(** Bytes outside everything the file system owns. *)
Definition outside (a n : Z) : Prop :=
  apart a n (pages L) (29 * 4096) /\ apart a n (sb_at L) SUPER_SIZE /\
  apart a n (map_at L) BITMAP_COUNT /\ apart a n (inodes_at L) TABLE_SIZE.

(** The invariant between calls: the port is ready, the superblock in place and
    the first four inodes hold [f 0] to [f 3]. *)
Record fs_ok st (f : Z -> inode) : Prop := {
  fs_ready : ready (mc st) 0;
  fs_geometry : geometry L st;
  fs_inodes : forall i, 0 <= i < 4 -> holds (mem st) (inode_at i) (f i)
}.

Lemma inode_ptr_eq i : 0 <= i < 100 -> inode_ptr L i = Ret (inode_at i).
Proof.
  intros Hi. unfold inode_ptr, INODE_COUNT. by rewrite (proj2 (Z.leb_le _ _)), (proj2 (Z.ltb_lt _ _)) by lia.
Qed.

Lemma holds_same m m' p r : holds m p r -> same_bytes m m' p INODE_SIZE -> holds m' p r.
Proof.
  intros (Hn & Hl & Hp & Hs & Hb & Hu & Ht) H. unfold INODE_SIZE in H.
  unfold holds, get_position, get_size, get_start_block, get_usage, get_type in *.
  rewrite (load_le_agree 4 m m' (p + 100)), (load_le_agree 4 m m' (p + 104)), (load_le_agree 8 m m' (p + 112)),
    (load_le_agree 4 m m' (p + 120)), (load_le_agree 4 m m' (p + 124))
    by (eapply same_bytes_sub; [exact H|lia|lia]).
  split_and!; try done. eapply cstr_same; [exact Hn|]. eapply same_bytes_sub; [exact H|lia|lia].
Qed.

(** A change confined to one inode. *)
Definition confined (m m' : bytes) (i : Z) : Prop := forall x, apart x 1 (inode_at i) INODE_SIZE -> m' x = m x.

Lemma confined_trans m1 m2 m3 i : confined m1 m2 i -> confined m2 m3 i -> confined m1 m3 i.
Proof. intros H1 H2 x Hx. by rewrite H2, H1. Qed.

Lemma confined_same m m' i a n :
  confined m m' i -> 0 <= i < 100 -> apart a n (inode_at i) INODE_SIZE -> same_bytes m m' a n.
Proof. intros H Hi Ha x Hx. apply H. unfold apart in *. lia. Qed.

Lemma store_confined n m i o v :
  0 <= o -> 0 <= n -> o + n <= 128 -> confined m (store_le n m (inode_at i + o) v) i.
Proof.
  intros Ho Hn Hon x Hx. apply store_le_out. unfold apart, INODE_SIZE in Hx. lia.
Qed.

(** [rsync] keeps the invariant, the first four inodes and the outside. *)
Lemma synced_keeps st st' f :
  synced L st st' -> geometry L st -> (forall i, 0 <= i < 4 -> holds (mem st) (inode_at i) (f i)) ->
  fs_ok st' f /\ (forall i, 0 <= i < 4 -> same_bytes (mem st) (mem st') (inode_at i) INODE_SIZE) /\
  (forall a n, outside a n -> same_bytes (mem st) (mem st') a n) /\
  forall k, (k < 64)%nat -> read_map L (mem st') !! k = read_map L (mem st) !! k.
Proof.
  intros Hs [H16 H24] Hf. pose proof Hs as [Hr _ _ Hsb Hmap Hino _ _ Hfr _].
  assert (forall i, 0 <= i < 4 -> same_bytes (mem st) (mem st') (inode_at i) INODE_SIZE) as Hin.
  { intros i Hi x Hx. unfold inode_at, INODE_SIZE in Hx. replace x with (inodes_at L + (x - inodes_at L)) by lia.
    rewrite Hino by (unfold TABLE_SIZE, INODE_COUNT, INODE_SIZE; lia).
    by destruct (Z.ltb_spec (x - inodes_at L) 512); [|lia]. }
  assert (forall o, 0 <= o -> o + 8 <= SUPER_SIZE ->
    load64 (mem st') (sb_at L + o) = load64 (mem st) (sb_at L + o)) as Hsb8.
  { intros o Ho Ho'. apply load_le_agree. eapply same_bytes_sub; [exact Hsb|lia|lia]. }
  split_and!; [| done | |].
  - split; [done| |].
    + split; rewrite Hsb8 by (unfold SUPER_SIZE; lia); done.
    + intros i Hi. eapply holds_same; [by apply Hf|by apply Hin].
  - intros a n (H1 & H2 & H3 & H4) x Hx. apply Hfr; unfold apart in *; lia.
  - intros k Hk. rewrite !read_map_lookup by lia. f_equal. apply load_le_agree. intros x Hx.
    replace x with (map_at L + (x - map_at L)) by lia. rewrite Hmap by (unfold BITMAP_COUNT; lia).
    by destruct (Z.ltb_spec (x - map_at L) 512); [|lia].
Qed.

(** A change confined to one inode leaves the rest of the invariant alone. *)
Lemma confined_geometry st m i :
  confined (mem st) m i -> 0 <= i < 100 -> geometry L st -> geometry L (set_mem st m).
Proof.
  intros Hc Hi [H16 H24].
  assert (same_bytes (mem st) m (sb_at L) SUPER_SIZE) as Hs.
  { eapply confined_same; [exact Hc|done|]. layout HL. unfold inode_at, INODE_SIZE. lia. }
  split; [rewrite <- H16|rewrite <- H24]; apply load_le_agree; (eapply same_bytes_sub; [exact Hs|lia|]);
    unfold SUPER_SIZE; lia.
Qed.

Lemma confined_holds m m' i f r :
  confined m m' i -> 0 <= i < 4 -> (forall j, 0 <= j < 4 -> holds m (inode_at j) (f j)) ->
  holds m' (inode_at i) r -> forall j, 0 <= j < 4 -> holds m' (inode_at j) (replace f i r j).
Proof.
  intros Hc Hi Hf Hr j Hj. unfold replace. destruct (Z.eqb_spec j i) as [->|Hne]; [done|].
  eapply holds_same; [by apply Hf|]. eapply confined_same; [exact Hc|lia|].
  unfold apart, inode_at, INODE_SIZE. lia.
Qed.

(** Metadata written back after a change to inode [i]. *)
Lemma rsync_inode st m i f r :
  ready (mc st) 0 -> 5 <= capacity -> geometry L st -> 0 <= i < 4 ->
  (forall j, 0 <= j < 4 -> holds (mem st) (inode_at j) (f j)) ->
  confined (mem st) m i -> holds m (inode_at i) r ->
  exists st', rsync L (set_mem st m) = Ret st' /\ synced L (set_mem st m) st' /\ fs_ok st' (replace f i r).
Proof.
  intros Hr Hc Hg Hi Hf Hm Hh.
  assert (geometry L (set_mem st m)) as Hg' by (apply (confined_geometry st m i); [done|lia|done]).
  destruct (rsync_spec L HL (set_mem st m)) as (st' & E & Hs); [done..|].
  exists st'. split; [done|]. split; [done|]. eapply synced_keeps; [exact Hs|exact Hg'|].
  by apply (confined_holds (mem st)).
Qed.

(** Stores into a field, as updates of the record. *)
Definition with_size (r : inode) (v : Z) : inode := Inode (i_name r) (i_position r) v (i_start r) (i_usage r) (i_type r).
Definition with_position (r : inode) (v : Z) : inode := Inode (i_name r) v (i_size r) (i_start r) (i_usage r) (i_type r).

Lemma store_name m p n o v s :
  100 <= o -> cstr m p s -> (length s < 100)%nat -> cstr (store_le n m (p + o) v) p s.
Proof. intros Ho Hs Hl. eapply cstr_same; [exact Hs|]. intros x Hx. apply store_le_out. lia. Qed.

Ltac other_field := rewrite load_store_le_other by (unfold apart; lia); done.

Lemma holds_size m p r v :
  holds m p r -> 0 <= v < 2 ^ 32 -> holds (store32 m (p + 104) v) p (with_size r v).
Proof.
  intros (Hn & Hl & Hp & Hs & Hb & Hu & Ht) Hv.
  unfold holds, get_position, get_size, get_start_block, get_usage, get_type in *. cbn [with_size i_name i_position i_size i_start i_usage i_type].
  split_and!; [by apply store_name|done|other_field| |other_field..].
  rewrite (load_store_le 4) by lia. apply Z.mod_small. lia.
Qed.

Lemma holds_position m p r v :
  holds m p r -> 0 <= v < 2 ^ 32 -> holds (store32 m (p + 100) v) p (with_position r v).
Proof.
  intros (Hn & Hl & Hp & Hs & Hb & Hu & Ht) Hv.
  unfold holds, get_position, get_size, get_start_block, get_usage, get_type in *. cbn [with_position i_name i_position i_size i_start i_usage i_type].
  split_and!; [by apply store_name|done| |other_field..].
  rewrite (load_store_le 4) by lia. apply Z.mod_small. lia.
Qed.

(** The invariant does not depend on the DMA pages. *)
Lemma fs_ok_frame st st' f :
  fs_ok st f -> ready (mc st') 0 -> (forall x, apart x 1 (pages L) (29 * 4096) -> mem st' x = mem st x) -> fs_ok st' f.
Proof.
  intros [_ [H16 H24] Hf] Hr Hm. layout HL. split; [done| |].
  - split; [rewrite <- H16|rewrite <- H24]; apply load_le_agree; intros x Hx; apply Hm; unfold apart; lia.
  - intros i Hi. eapply holds_same; [by apply Hf|]. intros x Hx. apply Hm.
    unfold inode_at, INODE_SIZE, apart in *. lia.
Qed.

(** ** Writing *)

Lemma write_disk_spec (s : machine D) offset buf str :
  ready s 0 -> 0 <= offset -> offset + 2 <= capacity -> offset < 2 ^ 32 ->
  cstr (ram s) buf str -> (length str <= 512)%nat -> apart buf 512 (write_buffer (pages L)) 512 ->
  exists s', write_disk (pages L) s offset buf = Ret (s', 1) /\ ready s' 0 /\
    (forall x, ram s' x = if decide (write_buffer (pages L) <= x < write_buffer (pages L) + Z.of_nat (length str))
                          then ram s (x + (buf - write_buffer (pages L))) else ram s x) /\
    forall k i, 0 <= i < 512 ->
      sector (disk s') k i = if decide (offset <= k < offset + 2)
        then ram s' (write_buffer (pages L) + 512 * (k - offset) + i) else sector (disk s) k i.
Proof.
  intros Hrdy Ho Hc Ho32 Hstr Hlen Hap. unfold write_disk.
  assert (strlen STRING_BOUND (ram s) buf = Ret (Z.of_nat (length str))) as E.
  { apply strlen_spec; [done| |lia]. unfold STRING_BOUND. lia. }
  step E. clear E. cbv zeta. rewrite (uwrap_small 32 offset) by lia. rewrite Nat2Z.id.
  set (m := memcpy (length str) (ram s) (write_buffer (pages L)) buf).
  assert (forall x, m x = if decide (write_buffer (pages L) <= x < write_buffer (pages L) + Z.of_nat (length str))
                          then ram s (x + (buf - write_buffer (pages L))) else ram s x) as Hm.
  { intros x. unfold m. apply memcpy_apart. unfold apart in *. lia. }
  clearbody m. apply (ready_with_memory s m) in Hrdy. layout HL.
  destruct (write_interface_spec (with_memory_bytes s m) 0 offset 1 (u64 (pages L + 5 * 4096 - AHCI_KERN_BASE)))
    as (s' & -> & Hrdy' & Hram & Hsec); try done.
  { apply (uwrap_range 64). lia. }
  exists s'. split; [done|]. split; [done|].
  destruct (with_memory_bytes_frame s m) as (_ & _ & Hr). rewrite Hr in Hram, Hsec. split.
  - intros x. by rewrite Hram, Hm.
  - intros k i Hi. rewrite Hsec by done. destruct (decide _); [|done]. rewrite Hram.
    rewrite uwrap_small by (unfold AHCI_KERN_BASE in *; lia). f_equal. lia.
Qed.

(** [write_file] of a string of at most 512 bytes to one of the first four
    inodes. *)
Lemma write_file_spec st f i p s :
  fs_ok st f -> 5 <= capacity -> 0 <= i < 4 -> cstr (mem st) p s -> (length s <= 512)%nat -> outside p 513 ->
  5 <= i_start (f i) -> i_start (f i) + 2 <= capacity -> i_start (f i) < 2 ^ 31 ->
  exists st', write_file L st p (100 + i) = Ret (st', 1) /\
    fs_ok st' (replace f i (with_size (f i) (Z.of_nat (length s)))) /\
    (forall a n, outside a n -> same_bytes (mem st) (mem st') a n) /\
    (forall k c, s !! k = Some c -> sector (disk (mc st')) (i_start (f i)) (Z.of_nat k) = c) /\
    (forall k, 0 <= k < 512 ->
       sector (disk (mc st')) (i_start (f i) + 1) k = mem st (inodes_at L + 512 + k)) /\
    forall k j, 0 <= j < 512 -> 5 <= k -> k <> i_start (f i) -> k <> i_start (f i) + 1 ->
      sector (disk (mc st')) k j = sector (disk (mc st)) k j.
Proof.
  intros [Hrdy Hg Hf] Hcap Hi Hs Hlen Hout Hb5 Hbc Hb31. unfold write_file.
  assert (deflate (100 + i) = i) as ->.
  { unfold deflate, INFLATE_CONSTANT. rewrite swrap_small; lia. }
  destruct (Z.eqb_spec i (-1)); [lia|].
  assert (strlen STRING_BOUND (mem st) p = Ret (Z.of_nat (length s))) as E1.
  { apply strlen_spec; [done| |lia]. unfold STRING_BOUND. lia. }
  step E1. step (inode_ptr_eq i ltac:(lia)). clear E1. cbv zeta. unfold set_size. rewrite (uwrap_small 32) by lia.
  set (m := store32 (mem st) (inode_at i + 104) (Z.of_nat (length s))).
  assert (confined (mem st) m i) as Hconf by (apply store_confined; lia).
  assert (holds m (inode_at i) (with_size (f i) (Z.of_nat (length s)))) as Hh.
  { apply holds_size; [by apply Hf|lia]. }
  destruct (rsync_inode st m i f _ Hrdy Hcap Hg Hi Hf Hconf Hh) as (s1 & E1 & Hsync & Hok1).
  step E1. pose proof (fs_inodes _ _ Hok1 i Hi) as (_ & _ & _ & _ & Hst & _).
  unfold replace in Hst. rewrite Z.eqb_refl in Hst. cbn [with_size i_start] in Hst. rewrite Hst.
  rewrite swrap_small by lia. unfold flush_blocks.
  assert (forall a n, outside a n -> same_bytes (mem st) (mem s1) a n) as Hout1.
  { intros a k Ho x Hx. destruct Ho as (H1 & H2 & H3 & H4).
    rewrite (synced_frame _ _ _ Hsync) by (unfold apart in *; lia).
    apply Hconf. unfold apart, inode_at, TABLE_SIZE, INODE_COUNT, INODE_SIZE in *. lia. }
  destruct (write_disk_spec (mc s1) (i_start (f i)) p s) as (s2 & E2 & Hr2 & Hm2 & Hd2);
    [apply Hok1|lia|lia|lia| |done| |].
  { eapply cstr_same; [exact Hs|]. eapply same_bytes_sub; [apply Hout1; exact Hout|lia|lia]. }
  { destruct Hout as (H1 & _). layout HL. unfold apart in *. lia. }
  step E2. rewrite bind_Ret. cbv beta. eexists. split; [done|].
  assert (forall x, mem (set_mc s1 s2) x = ram s2 x) as Hms by done.
  split_and!.
  - eapply fs_ok_frame; [exact Hok1|done|]. intros x Hx. rewrite Hms, Hm2. layout HL. by rewrite decide_False by lia.
  - intros a k Ho x Hx. rewrite Hms, Hm2. rewrite decide_False; [exact (Hout1 a k Ho x Hx)|].
    destruct Ho as (H1 & _). layout HL. unfold apart in *. lia.
  - intros k c Hk. pose proof (lookup_lt_Some _ _ _ Hk). cbn [set_mc mc].
    rewrite Hd2, decide_True, Hm2, decide_True by lia. rewrite <- (proj1 Hs k c Hk).
    rewrite <- (Hout1 p 513 Hout) by lia. f_equal. lia.
  - intros k Hk. cbn [set_mc mc]. rewrite Hd2, decide_True, Hm2, decide_False by lia.
    change (ram (mc s1)) with (mem s1).
    replace (write_buffer (pages L) + 512 * (i_start (f i) + 1 - i_start (f i)) + k)
      with (write_buffer (pages L) + (512 + k)) by lia.
    rewrite (synced_write _ _ _ Hsync) by (unfold TABLE_SIZE, INODE_COUNT, INODE_SIZE; lia).
    change (mem (set_mem st m)) with m. rewrite Hconf; [f_equal; lia|].
    unfold apart, inode_at, INODE_SIZE. lia.
  - intros k j Hj Hk H1 H2. cbn [set_mc mc]. rewrite Hd2, decide_False by lia.
    rewrite (synced_disk _ _ _ Hsync) by lia. done.
Qed.

(** ** Reading *)

(** [read_file] of [count] bytes, at least 8, from the position on, inside the
    first sector. *)
Lemma read_file_spec st f i count buf :
  fs_ok st f -> 0 <= i < 4 -> 8 <= count -> 0 <= i_position (f i) -> i_position (f i) + count <= 512 ->
  0 < i_size (f i) < 2 ^ 31 -> outside buf count ->
  0 <= i_start (f i) -> i_start (f i) + 1 <= capacity -> i_start (f i) < 2 ^ 31 ->
  exists st', read_file L st (100 + i) count buf = Ret (st', buf) /\
    fs_ok st' (replace f i (with_position (f i) ((i_position (f i) + count) mod i_size (f i)))) /\
    (forall k, 0 <= k < count ->
       mem st' (buf + k) = sector (disk (mc st)) (i_start (f i)) (i_position (f i) + k)) /\
    (forall a n, outside a n -> apart a n buf count -> same_bytes (mem st) (mem st') a n) /\
    forall k j, sector (disk (mc st')) k j = sector (disk (mc st)) k j.
Proof.
  intros Hok Hi Hcount Hp0 Hp512 Hsz Hout Hb0 Hbc Hb31. unfold read_file.
  assert (deflate (100 + i) = i) as ->.
  { unfold deflate, INFLATE_CONSTANT. rewrite swrap_small; lia. }
  destruct (Z.eqb_spec i (-1)); [lia|].
  step (inode_ptr_eq i ltac:(lia)).
  pose proof (fs_inodes _ _ Hok i Hi) as (_ & _ & _ & _ & Hst & _). rewrite Hst, swrap_small by lia. clear Hst.
  destruct (read_disk_spec L HL (mc st) (i_start (f i))) as (s1 & E1 & Hr1 & Hm1 & Hd1); [apply Hok|lia|lia|lia|].
  step E1. cbv zeta. cbn [fst snd].
  assert (fs_ok (set_mc st s1) f) as Hok1.
  { eapply fs_ok_frame; [exact Hok|done|]. intros x Hx. transitivity (ram s1 x); [done|].
    rewrite Hm1. unfold after_read. layout HL. by rewrite decide_False by lia. }
  pose proof (fs_inodes _ _ Hok1 i Hi) as (_ & _ & Hpos & _). rewrite Hpos, swrap_small by lia.
  destruct (Z.ltb_spec (i_position (f i)) 0); [lia|].
  set (m := memcpy (Z.to_nat (u32 count)) _ _ _).
  assert (forall x, m x = if decide (buf <= x < buf + count)
            then ram s1 (x + (read_buffer (pages L) + i_position (f i) - buf)) else ram s1 x) as Hm.
  { intros x. destruct Hout as (H1 & _). unfold m. layout HL. rewrite (uwrap_small 32) by lia.
    rewrite memcpy_apart by (unfold apart; lia). rewrite Z2Nat.id by lia. rewrite !memset_spec.
    change (mem (set_mc st s1)) with (ram s1). repeat (case_decide; try lia); done. }
  clearbody m.
  assert (fs_ok (set_mem (set_mc st s1) m) f) as Hok2.
  { destruct Hok1 as [_ [H16 H24] Hf]. destruct Hout as (H1 & H2 & H3 & H4). layout HL.
    assert (forall a n, apart buf count a n -> same_bytes (mem (set_mc st s1)) m a n) as Hs.
    { intros a k Ha x Hx. rewrite Hm, decide_False by (unfold apart in Ha; lia). done. }
    split; [done| |].
    - split; [rewrite <- H16|rewrite <- H24]; apply load_le_agree; apply Hs; unfold apart; lia.
    - intros j Hj. eapply holds_same; [by apply Hf|]. apply Hs. unfold inode_at, apart, INODE_SIZE. lia. }
  pose proof (fs_inodes _ _ Hok2 i Hi) as (_ & _ & Hpos2 & Hsz2 & _). rewrite Hsz2, Hpos2.
  destruct (Z.eqb_spec (i_size (f i)) 0); [lia|]. rewrite (swrap_small 32 (i_position (f i))) by lia.
  rewrite (uwrap_small 32) by lia.
  assert (0 <= (i_position (f i) + count) mod i_size (f i) < i_size (f i)) as Hmod by (apply Z.mod_pos_bound; lia).
  rewrite (swrap_small 32) by lia. eexists. split; [done|]. unfold set_position.
  rewrite (uwrap_small 32) by lia. set (q := _ mod _) in *.
  change (mem (set_mem (set_mc st s1) m)) with m.
  set (m' := store32 m (inode_at i + 100) q).
  assert (confined m m' i) as Hconf by (apply store_confined; lia).
  split_and!.
  - split; [by apply Hok2|by eapply (confined_geometry (set_mem (set_mc st s1) m)); [exact Hconf|lia|apply Hok2]|].
    eapply confined_holds; [exact Hconf|done|apply Hok2|]. apply holds_position; [by apply Hok2|lia].
  - intros k Hk. transitivity (m (buf + k)).
    { apply Hconf. destruct Hout as (_ & _ & _ & H4). unfold apart, inode_at, TABLE_SIZE, INODE_COUNT, INODE_SIZE in *. lia. }
    rewrite Hm, decide_True by lia. rewrite Hm1. unfold after_read. rewrite decide_True by lia. f_equal. lia.
  - intros a k Ho Ha x Hx. transitivity (m x).
    { apply Hconf. destruct Ho as (_ & _ & _ & H4). unfold apart, inode_at, TABLE_SIZE, INODE_COUNT, INODE_SIZE in *. lia. }
    rewrite Hm, decide_False by (unfold apart in Ha; lia). rewrite Hm1. unfold after_read.
    rewrite decide_False; [done|]. destruct Ho as (H1 & _). layout HL. lia.
  - done.
Qed.

(** ** Searching *)

(** Inode [j] is not of type [ty] with the name at [nm]. *)
Definition unlike st (nm ty j : Z) : Prop :=
  exists r, strcmp STRING_BOUND (mem st) (inode_at j) nm = Ret r /\
    (r =? 0) && (get_type (mem st) (inode_at j) =? ty) = false.

Lemma find_none n st nm ty i :
  0 <= i -> i + Z.of_nat n <= 100 -> find_from L n st nm ty i = Ret (-1) ->
  forall j, i <= j < i + Z.of_nat n -> unlike st nm ty j.
Proof.
  revert i. induction n as [|n IH]; intros i Hi Hn E j Hj; [lia|].
  simpl in E. rewrite inode_ptr_eq, bind_Ret in E by lia. apply bind_Ret_inv in E as (r & Er & E).
  destruct (_ && _) eqn:Em; [injection E as ->; lia|].
  destruct (decide (j = i)) as [->|Hne]; [by exists r|]. apply (IH (i + 1)); (done || lia).
Qed.

Lemma find_hit n st nm ty i j :
  0 <= i -> i <= j < i + Z.of_nat n -> j < 100 -> (forall k, i <= k < j -> unlike st nm ty k) ->
  strcmp STRING_BOUND (mem st) (inode_at j) nm = Ret 0 -> get_type (mem st) (inode_at j) = ty ->
  find_from L n st nm ty i = Ret j.
Proof.
  revert i. induction n as [|n IH]; intros i Hi Hj Hj100 Hun Hs Ht; [lia|].
  simpl. rewrite inode_ptr_eq, bind_Ret by lia. destruct (decide (j = i)) as [->|Hne].
  - by rewrite Hs, bind_Ret, Ht, !Z.eqb_refl.
  - destruct (Hun i ltac:(lia)) as (r & -> & Hr). rewrite bind_Ret, Hr.
    apply IH; [lia|lia|done| |done|done]. intros k Hk. apply Hun. lia.
Qed.

Lemma find_miss n st nm ty i :
  0 <= i -> i + Z.of_nat n <= 100 -> (forall k, i <= k < i + Z.of_nat n -> unlike st nm ty k) ->
  find_from L n st nm ty i = Ret (-1).
Proof.
  revert i. induction n as [|n IH]; intros i Hi Hn Hun; [done|].
  simpl. rewrite inode_ptr_eq, bind_Ret by lia. destruct (Hun i ltac:(lia)) as (r & -> & Hr).
  rewrite bind_Ret, Hr. apply IH; [lia|lia|]. intros k Hk. apply Hun. lia.
Qed.

Lemma free_inode_hit n st i j :
  0 <= i -> i <= j < i + Z.of_nat n -> j < 100 -> (forall k, i <= k < j -> get_usage (mem st) (inode_at k) = 1) ->
  get_usage (mem st) (inode_at j) <> 1 -> free_inode_from L n st i = Ret (set_usage st (inode_at j) 1, j).
Proof.
  revert i. induction n as [|n IH]; intros i Hi Hj Hj100 Hall Hu; [lia|].
  simpl. rewrite inode_ptr_eq, bind_Ret by lia. destruct (decide (j = i)) as [->|Hne].
  - by rewrite (proj2 (Z.eqb_neq _ _) Hu).
  - rewrite (Hall i), Z.eqb_refl by lia. simpl. apply IH; [lia|lia|done| |done]. intros k Hk. apply Hall. lia.
Qed.

(** ** Creating *)

(** The inode of a new file. *)
Definition fresh_inode (r : inode) (s : list Z) (b : Z) : inode := Inode s (i_position r) (i_size r) b 1 TYPE_FILE.

(** The bytes of inode [i] after its fields are filled in: the name is copied
    into zeros. *)
Lemma holds_fresh m i r s b nm :
  holds m (inode_at i) r -> i_usage r = 1 -> cstr m nm s -> (length s < 100)%nat -> 0 <= b < 2 ^ 64 ->
  (forall k, 0 <= k < 100 -> m (inode_at i + k) = 0) -> apart nm 101 (inode_at i) 128 ->
  let m' := store32 (store64 (memcpy (length s) m (inode_at i) nm) (inode_at i + 112) b) (inode_at i + 124) TYPE_FILE in
  holds m' (inode_at i) (fresh_inode r s b) /\ confined m m' i.
Proof.
  intros (Hn & Hl & Hp & Hs & Hb & Hu & Ht) Hu1 Hstr Hlen Hb64 Hz Hap m'.
  set (m1 := memcpy (length s) m (inode_at i) nm) in *.
  assert (forall x, m1 x = if decide (inode_at i <= x < inode_at i + Z.of_nat (length s))
            then m (x + (nm - inode_at i)) else m x) as Hm1.
  { intros x. apply memcpy_apart. unfold apart in *. lia. }
  clearbody m1.
  assert (forall x, x < inode_at i + 112 -> m' x = m1 x) as Hlow.
  { intros x Hx. unfold m'. rewrite !store_le_out by lia. done. }
  assert (forall o, 100 <= o -> o + 4 <= 112 -> load32 m' (inode_at i + o) = load32 m (inode_at i + o)) as Hkeep.
  { intros o Ho Ho'. apply load_le_agree. intros x Hx. rewrite Hlow, Hm1, decide_False by lia. done. }
  unfold holds, get_position, get_size, get_start_block, get_usage, get_type in *.
  cbn [fresh_inode i_name i_position i_size i_start i_usage i_type]. split; [split_and!|].
  - destruct Hstr as (Hb0 & Hfa & He). split_and!; [|done|].
    + intros k x Hk. pose proof (lookup_lt_Some _ _ _ Hk). rewrite Hlow, Hm1, decide_True by lia.
      rewrite <- (Hb0 k x Hk). f_equal. lia.
    + rewrite Hlow, Hm1, decide_False by lia. apply Hz. lia.
  - done.
  - by rewrite Hkeep by lia.
  - by rewrite Hkeep by lia.
  - unfold m'. rewrite load_store_le_other by (unfold apart; lia). rewrite (load_store_le 8) by lia.
    apply Z.mod_small. lia.
  - unfold m'. rewrite !load_store_le_other by (unfold apart; lia). rewrite <- Hu1, <- Hu.
    apply load_le_agree. intros x Hx. rewrite Hm1, decide_False by lia. done.
  - unfold m'. by rewrite (load_store_le 4).
  - intros x Hx. unfold apart, INODE_SIZE in Hx. unfold m'. rewrite !store_le_out by lia.
    rewrite Hm1, decide_False by lia. done.
Qed.

Lemma holds_ext m i f g : f i = g i -> holds m (inode_at i) (f i) -> holds m (inode_at i) (g i).
Proof. by intros ->. Qed.

Lemma inode_apart i j : i <> j -> apart (inode_at j) INODE_SIZE (inode_at i) INODE_SIZE.
Proof. unfold apart, inode_at, INODE_SIZE. lia. Qed.

(** The two allocations of [create_file]: inode [i] is taken and the block
    bitmap written back. *)
Definition taken st (i : Z) : fsys D := set_usage st (inode_at i) 1.

Lemma taken_confined st i : confined (mem st) (mem (taken st i)) i.
Proof. unfold taken, set_usage. apply (store_confined 4); lia. Qed.

Lemma taken_blocks st i : 0 <= i < 100 -> blocks L (taken st i) = blocks L st.
Proof.
  intros Hi. unfold blocks. f_equal. apply read_map_same. eapply confined_same; [apply taken_confined|done|].
  layout HL. unfold inode_at, INODE_SIZE. lia.
Qed.

Lemma mem_with_blocks st b x : mem (with_blocks L st b) x = write_map L (mem st) (memory_map b) x.
Proof. done. Qed.

(** Outside the bitmap and inode [i] the allocations change nothing. *)
Lemma allocated_same st i bm a n :
  0 <= i < 100 -> apart a n (map_at L) BITMAP_COUNT -> apart a n (inode_at i) INODE_SIZE ->
  same_bytes (mem st) (mem (with_blocks L (taken st i) bm)) a n.
Proof.
  intros Hi Ha Hb x Hx. rewrite mem_with_blocks, write_map_out by (unfold apart in *; lia).
  apply taken_confined. unfold apart in *. lia.
Qed.

Lemma allocated_usage st i bm r :
  0 <= i < 4 -> holds (mem st) (inode_at i) r ->
  holds (mem (with_blocks L (taken st i) bm)) (inode_at i)
    (Inode (i_name r) (i_position r) (i_size r) (i_start r) 1 (i_type r)).
Proof.
  intros Hi (Hn & Hl & Hp & Hs & Hb & Hu & Ht).
  assert (same_bytes (mem (taken st i)) (mem (with_blocks L (taken st i) bm)) (inode_at i) INODE_SIZE) as H.
  { intros x Hx. rewrite mem_with_blocks. apply write_map_out. layout HL. unfold inode_at, INODE_SIZE in Hx. lia. }
  eapply holds_same; [|exact H]. unfold taken, set_usage. change (mem (set_mem st ?m)) with m.
  unfold holds, get_position, get_size, get_start_block, get_usage, get_type in *.
  cbn [i_name i_position i_size i_start i_usage i_type].
  split_and!; [by apply store_name|done|other_field..| |other_field]. by rewrite (load_store_le 4).
Qed.

(** The state [rsync] is called in: the fields of the new file filled in. *)
Lemma create_file_fields st f i r bm b nm s :
  fs_ok st f -> 0 <= i < 4 -> f i = r -> cstr (mem st) nm s -> (length s < 100)%nat -> outside nm 101 ->
  (forall k, 0 <= k < 100 -> mem st (inode_at i + k) = 0) -> 0 <= b < 2 ^ 31 -> 5 <= capacity ->
  let st1 := with_blocks L (taken st i) bm in
  exists st2 st', copy_name st1 (inode_at i) nm = Ret st2 /\
    rsync L (set_type (set_start_block st2 (inode_at i) b) (inode_at i) TYPE_FILE) = Ret st' /\
    fs_ok st' (replace f i (fresh_inode r s b)) /\
    (forall j, 0 <= j < 4 -> j <> i -> same_bytes (mem st) (mem st') (inode_at j) INODE_SIZE) /\
    (forall a n, outside a n -> same_bytes (mem st) (mem st') a n) /\
    (forall k, (k < 64)%nat -> read_map L (mem st') !! k = read_map L (mem st1) !! k) /\
    (forall k j, 0 <= j < 512 -> 5 <= k -> sector (disk (mc st')) k j = sector (disk (mc st)) k j) /\
    fs_used st' = used_blocks bm /\ fs_max st' = max_blocks bm.
Proof.
  intros Hok Hi Hr Hstr Hlen Hout Hz Hb Hcap st1. pose proof Hok as [Hrdy Hg Hf].
  destruct Hout as (O1 & O2 & O3 & O4).
  assert (apart nm 101 (inode_at i) 128) as Hap.
  { unfold apart, inode_at, TABLE_SIZE, INODE_COUNT, INODE_SIZE in *. lia. }
  assert (forall a n, outside a n -> same_bytes (mem st) (mem st1) a n) as Hout1.
  { intros a n (H1 & H2 & H3 & H4). apply allocated_same; [lia|done|].
    unfold apart, inode_at, TABLE_SIZE, INODE_COUNT, INODE_SIZE in *. lia. }
  assert (cstr (mem st1) nm s) as Hstr1.
  { eapply cstr_same; [exact Hstr|]. eapply same_bytes_sub; [apply (Hout1 nm 101); done|lia|lia]. }
  assert (forall j, 0 <= j < 4 -> j <> i -> same_bytes (mem st) (mem st1) (inode_at j) INODE_SIZE) as Hoth1.
  { intros j Hj Hne. apply allocated_same; [lia| |apply inode_apart; lia].
    layout HL. unfold inode_at, INODE_SIZE. lia. }
  pose proof (allocated_usage st i bm (f i) Hi (Hf i Hi)) as Hh1. fold st1 in Hh1. set (r1 := Inode _ _ _ _ _ _) in Hh1.
  assert (forall k, 0 <= k < 100 -> mem st1 (inode_at i + k) = 0) as Hz1.
  { intros k Hk. unfold st1. rewrite mem_with_blocks, write_map_out.
    - unfold taken, set_usage. change (mem (set_mem st ?m)) with m. rewrite store_le_out by lia. by apply Hz.
    - layout HL. unfold inode_at, INODE_SIZE in *. lia. }
  assert (geometry L st1) as Hg1.
  { destruct Hg as [H16 H24].
    assert (same_bytes (mem st) (mem st1) (sb_at L) SUPER_SIZE) as Hs.
    { apply allocated_same; [lia|apply HL|]. layout HL. unfold inode_at, INODE_SIZE. lia. }
    split; [rewrite <- H16|rewrite <- H24]; apply load_le_agree;
      (eapply same_bytes_sub; [exact Hs|lia|]); unfold SUPER_SIZE; lia. }
  assert (forall j, 0 <= j < 4 -> holds (mem st1) (inode_at j) (replace f i r1 j)) as Hf1.
  { intros j Hj. unfold replace. destruct (Z.eqb_spec j i) as [->|Hne]; [done|].
    eapply holds_same; [by apply Hf|]. by apply Hoth1. }
  unfold copy_name. assert (strlen STRING_BOUND (mem st1) nm = Ret (Z.of_nat (length s))) as El.
  { apply strlen_spec; [done| |lia]. unfold STRING_BOUND. lia. }
  rewrite El, bind_Ret, (uwrap_small 32) by lia. unfold strncpy. rewrite Nat2Z.id.
  exists (set_mem st1 (memcpy (length s) (mem st1) (inode_at i) nm)). unfold set_type, set_start_block.
  change (mem (set_mem st1 ?m)) with m. change (mem (set_mem _ ?m)) with m. rewrite (uwrap_small 64) by lia.
  set (m' := store32 _ _ TYPE_FILE).
  destruct (holds_fresh (mem st1) i r1 s b nm Hh1 eq_refl Hstr1 Hlen) as [Hh2 Hconf]; [lia|done|done|].
  fold m' in Hh2, Hconf.
  destruct (rsync_inode st1 m' i (replace f i r1) (fresh_inode r1 s b)) as (st' & E & Hsync & Hok');
    [exact Hrdy|done|done|done|done|done|done|].
  assert (geometry L (set_mem st1 m')) as Hg2 by (apply (confined_geometry st1 m' i); [done|lia|done]).
  destruct (synced_keeps (set_mem st1 m') st' (replace (replace f i r1) i (fresh_inode r1 s b)) Hsync Hg2)
    as (_ & Hin & Hfr & Hmap); [by apply (confined_holds (mem st1))|].
  exists st'. split; [done|]. split; [exact E|]. split_and!.
  - destruct Hok' as [? ? Hf']. split; [done..|]. intros j Hj. eapply holds_ext; [|by apply Hf'].
    unfold replace. destruct (j =? i); [|done]. unfold fresh_inode, r1. cbn [i_position i_size]. by rewrite Hr.
  - intros j Hj Hne. eapply same_bytes_trans; [by apply Hoth1|]. eapply same_bytes_trans; [|by apply Hin].
    eapply confined_same; [exact Hconf|lia|]. by apply inode_apart.
  - intros a n Ho. eapply same_bytes_trans; [by apply Hout1|]. eapply same_bytes_trans; [|by apply Hfr].
    eapply confined_same; [exact Hconf|lia|]. destruct Ho as (_ & _ & _ & H4).
    unfold apart, inode_at, TABLE_SIZE, INODE_COUNT, INODE_SIZE in *. lia.
  - intros k Hk. rewrite Hmap by done. f_equal. apply read_map_same.
    eapply confined_same; [exact Hconf|lia|]. layout HL. unfold inode_at, INODE_SIZE. lia.
  - intros k j Hj Hk. rewrite (synced_disk _ _ _ Hsync) by lia. done.
  - by rewrite (synced_used _ _ _ Hsync).
  - by rewrite (synced_max _ _ _ Hsync).
Qed.
End inodes.

Definition empty_inode : inode := Inode [] 0 0 0 0 0.

Lemma holds_zero m p : (forall k, 0 <= k < 128 -> m (p + k) = 0) -> holds m p empty_inode.
Proof.
  intros H. assert (forall n o, 0 <= o -> o + Z.of_nat n <= 128 -> load_le n m (p + o) = 0) as Hl.
  { intros n o Ho Hn. apply load_le_zero. intros k Hk. rewrite <- Z.add_assoc. apply H. lia. }
  unfold holds, get_position, get_size, get_start_block, get_usage, get_type.
  cbn [empty_inode i_name i_position i_size i_start i_usage i_type].
  split_and!; [|simpl; lia|apply Hl; lia..]. split_and!; [done|by constructor|]. apply H. simpl. lia.
Qed.

(** ** Names and descriptors *)

Section names.
Context {D : Type} `{!Drive D, !DriveLaws D} (L : layout) (HL : layout_ok L).
Implicit Types st : fsys D.

Lemma strcmp_inode st j r nm s :
  holds (mem st) (inode_at L j) r -> cstr (mem st) nm s -> (length s < 100)%nat ->
  strcmp STRING_BOUND (mem st) (inode_at L j) nm = Ret (if decide (i_name r = s) then 0 else 1).
Proof.
  intros (Hn & Hl & _) Hs Hlen. apply strcmp_spec; [done|done| | |]; unfold STRING_BOUND; lia.
Qed.

Lemma unlike_iff st j r nm s ty :
  holds (mem st) (inode_at L j) r -> cstr (mem st) nm s -> (length s < 100)%nat ->
  unlike L st nm ty j <-> ~ (i_name r = s /\ i_type r = ty).
Proof.
  intros Hr Hs Hl. pose proof (strcmp_inode st j r nm s Hr Hs Hl) as E.
  destruct Hr as (_ & _ & _ & _ & _ & _ & Ht). unfold unlike. rewrite E, Ht. split.
  - intros (x & [= <-] & Hx) [Hn Hty]. rewrite decide_True, Hty, !Z.eqb_refl in Hx by done. done.
  - intros Hne. eexists. split; [done|]. destruct (decide (i_name r = s)); [|done].
    simpl. apply Z.eqb_neq. tauto.
Qed.

(** A search that fails says so for each of the first four inodes. *)
Lemma find_file_none st f nm s :
  fs_ok L st f -> cstr (mem st) nm s -> (length s < 100)%nat -> find_file L st nm = Ret (-1) ->
  forall j, 0 <= j < 4 -> ~ (i_name (f j) = s /\ i_type (f j) = TYPE_FILE).
Proof.
  intros Hok Hs Hl E j Hj.
  apply (proj1 (unlike_iff st j (f j) nm s TYPE_FILE (fs_inodes L st f Hok j Hj) Hs Hl)).
  unfold find_file in E. apply (find_none L (Z.to_nat INODE_COUNT) st nm TYPE_FILE 0); [lia| |exact E|];
    unfold INODE_COUNT; lia.
Qed.

Lemma find_file_hit st f nm s i :
  fs_ok L st f -> cstr (mem st) nm s -> (length s < 100)%nat -> 0 <= i < 4 ->
  (forall j, 0 <= j < i -> ~ (i_name (f j) = s /\ i_type (f j) = TYPE_FILE)) ->
  i_name (f i) = s -> i_type (f i) = TYPE_FILE -> find_file L st nm = Ret i.
Proof.
  intros Hok Hs Hl Hi Hun Hn Ht. pose proof (fs_inodes _ _ _ Hok i Hi) as Hh.
  unfold find_file. apply (find_hit L (Z.to_nat INODE_COUNT)); [lia|unfold INODE_COUNT; lia|lia| | |].
  - intros k Hk.
    apply (proj2 (unlike_iff st k (f k) nm s TYPE_FILE (fs_inodes L st f Hok k ltac:(lia)) Hs Hl)). by apply Hun.
  - rewrite (strcmp_inode st i (f i) nm s Hh Hs Hl). by rewrite decide_True.
  - by destruct Hh as (_ & _ & _ & _ & _ & _ & ->).
Qed.

Lemma get_free_inode_hit st f i :
  fs_ok L st f -> 0 <= i < 4 -> (forall j, 0 <= j < i -> i_usage (f j) = 1) -> i_usage (f i) <> 1 ->
  get_free_inode L st = Ret (taken L st i, i).
Proof.
  intros [_ _ Hf] Hi Hall Hu. unfold get_free_inode. apply (free_inode_hit L (Z.to_nat INODE_COUNT)); [lia|unfold INODE_COUNT; lia|lia| |].
  - intros k Hk. destruct (Hf k ltac:(lia)) as (_ & _ & _ & _ & _ & -> & _). by apply Hall.
  - by destruct (Hf i Hi) as (_ & _ & _ & _ & _ & -> & _).
Qed.

Lemma create_file_spec st f nm s i bm b :
  5 <= capacity -> fs_ok L st f -> wf (blocks L st) ->
  file_mmgr_alloc_block (blocks L st) = Ret (bm, b) -> b <> -1 ->
  cstr (mem st) nm s -> (length s < 100)%nat -> outside L nm 101 -> find_file L st nm = Ret (-1) ->
  0 <= i < 4 -> (forall j, 0 <= j < i -> i_usage (f j) = 1) -> i_usage (f i) <> 1 ->
  (forall k, 0 <= k < 100 -> mem st (inode_at L i + k) = 0) ->
  exists st', create_file L st nm = Ret (st', 100 + i) /\
    fs_ok L st' (replace f i (fresh_inode (f i) s b)) /\ find_file L st' nm = Ret i /\
    (forall j, 0 <= j < 4 -> j <> i -> same_bytes (mem st) (mem st') (inode_at L j) INODE_SIZE) /\
    (forall c, 0 <= c < 4096 ->
       marked (read_map L (mem st')) c = marked (read_map L (mem st)) c || same_cell b c) /\
    (forall k j, 0 <= j < 512 -> 5 <= k -> sector (disk (mc st')) k j = sector (disk (mc st)) k j) /\
    forall a n, outside L a n -> same_bytes (mem st) (mem st') a n.
Proof.
  intros Hcap Hok Hwf Ea Hb Hs Hl Hout Hfind Hi Hall Hu Hz.
  destruct (file_mmgr_alloc_cases (blocks L st) Hwf) as (bm' & b' & Ea' & Hcases).
  rewrite Ea in Ea'. injection Ea' as <- <-. destruct Hcases as [[? _]|(Hlu & Hwf' & Hw & _ & Hlen & Hmk)]; [done|].
  assert (0 <= b < 2 ^ 31) as Hb31.
  { destruct Hlu as (Hr & _). destruct Hwf as (_ & _ & Hmax). lia. }
  unfold create_file. rewrite Hfind, bind_Ret, Z.eqb_refl. cbn [negb].
  rewrite (get_free_inode_hit st f i Hok Hi Hall Hu), bind_Ret. cbn [fst snd]. cbv zeta.
  unfold get_free_block. rewrite taken_blocks, Ea, !bind_Ret by (done || lia). cbn [fst snd].
  destruct (Z.eqb_spec i (-1)), (Z.eqb_spec b (-1)); [lia..|]. cbn [orb].
  rewrite inode_ptr_eq, bind_Ret by lia.
  destruct (create_file_fields L HL st f i (f i) bm b nm s Hok Hi eq_refl Hs Hl Hout Hz Hb31 Hcap)
    as (st2 & st' & E2 & E' & Hok' & Hin & Hfr & Hmap & Hd & _).
  rewrite E2, bind_Ret, E', bind_Ret. exists st'. split.
  { f_equal. f_equal. unfold inflate, INFLATE_CONSTANT. rewrite swrap_small; lia. }
  assert (cstr (mem st') nm s) as Hs'.
  { eapply cstr_same; [exact Hs|]. eapply same_bytes_sub; [by apply (Hfr nm 101)|lia|lia]. }
  split_and!; [done| |done| |done|done].
  - eapply find_file_hit; [exact Hok'|done|done|done| | |]; unfold replace; rewrite ?Z.eqb_refl; [|done..].
    intros j Hj. destruct (Z.eqb_spec j i); [lia|]. eapply find_file_none; [exact Hok|done..|lia].
  - intros c Hc. transitivity (marked (memory_map bm) c); [|by apply Hmk; lia].
    assert (0 <= c / 64 < 64) by (Z.to_euclidean_division_equations; lia).
    unfold marked. rewrite Hmap by lia. rewrite (read_map_same L (write_map L (mem (taken L st i)) (memory_map bm))) by done.
    rewrite read_write_map; [done| |].
    + rewrite Hlen. apply read_map_length.
    + apply wf_map_ok. by destruct Hwf' as [? _].
Qed.
(** Filling in the name, the block and the type changes only that inode. *)
Lemma fill_confined m i nm n b :
  0 <= i < 100 -> (n < 100)%nat -> apart nm 101 (inode_at L i) 128 ->
  confined L m (store32 (store64 (memcpy n m (inode_at L i) nm) (inode_at L i + 112) b) (inode_at L i + 124) TYPE_FILE) i.
Proof.
  intros Hi Hn Hap x Hx. unfold apart, INODE_SIZE in *. rewrite !store_le_out by lia.
  rewrite memcpy_apart, decide_False by (unfold apart; lia). done.
Qed.

(** The read buffer from its second sector on reads as zeros. *)
Definition clear_tail st : Prop := forall k, 512 <= k < TABLE_SIZE -> mem st (read_buffer (pages L) + k) = 0.

(** After an [rsync] over a cleared tail the inodes from the fifth on are
    empty, and a search sees the first four only. *)
Lemma find_file_tail st st' f nm s :
  synced L st st' -> fs_ok L st' f -> clear_tail st -> cstr (mem st') nm s -> (length s < 100)%nat ->
  (forall j, 0 <= j < 4 -> ~ (i_name (f j) = s /\ i_type (f j) = TYPE_FILE)) -> find_file L st' nm = Ret (-1).
Proof.
  intros Hsync Hok Htail Hs Hl Hun. unfold find_file.
  apply (find_miss L (Z.to_nat INODE_COUNT)); [lia|unfold INODE_COUNT; lia|]. intros j Hj.
  destruct (decide (j < 4)) as [Hj4|Hj4].
  { apply (proj2 (unlike_iff st' j (f j) nm s TYPE_FILE (fs_inodes L st' f Hok j ltac:(lia)) Hs Hl)). apply Hun. lia. }
  assert (holds (mem st') (inode_at L j) empty_inode) as Hh.
  { apply holds_zero. intros k Hk. unfold INODE_COUNT in Hj. unfold inode_at. rewrite <- Z.add_assoc.
    rewrite (synced_inodes _ _ _ Hsync) by (unfold TABLE_SIZE, INODE_COUNT, INODE_SIZE; lia).
    unfold INODE_SIZE. rewrite (proj2 (Z.ltb_ge _ _)) by lia. apply Htail.
    unfold TABLE_SIZE, INODE_COUNT, INODE_SIZE. lia. }
  apply (proj2 (unlike_iff st' j empty_inode nm s TYPE_FILE Hh Hs Hl)). by intros [_ ?].
Qed.

(** With the first four inodes in use the fifth is taken. *)
Lemma get_free_inode_fifth st f :
  fs_ok L st f -> (forall j, 0 <= j < 4 -> i_usage (f j) = 1) -> get_usage (mem st) (inode_at L 4) <> 1 ->
  get_free_inode L st = Ret (taken L st 4, 4).
Proof.
  intros [_ _ Hf] Hall Hu. unfold get_free_inode.
  apply (free_inode_hit L (Z.to_nat INODE_COUNT)); [lia|unfold INODE_COUNT; lia|lia| |done].
  intros k Hk. destruct (Hf k ltac:(lia)) as (_ & _ & _ & _ & _ & -> & _). by apply Hall; lia.
Qed.

Lemma create_fifth_spec st f nm s bm b :
  5 <= capacity -> fs_ok L st f -> wf (blocks L st) ->
  file_mmgr_alloc_block (blocks L st) = Ret (bm, b) -> b <> -1 ->
  cstr (mem st) nm s -> (length s < 100)%nat -> outside L nm 101 -> find_file L st nm = Ret (-1) ->
  (forall j, 0 <= j < 4 -> i_usage (f j) = 1) -> get_usage (mem st) (inode_at L 4) <> 1 -> clear_tail st ->
  exists st', create_file L st nm = Ret (st', 104) /\ fs_ok L st' f /\ find_file L st' nm = Ret (-1).
Proof.
  intros Hcap Hok Hwf Ea Hb Hs Hl Hout Hfind Hall Hu Htail. pose proof Hok as [Hrdy Hg Hf].
  set (st1 := with_blocks L (taken L st 4) bm).
  assert (forall a n, apart a n (map_at L) BITMAP_COUNT -> apart a n (inode_at L 4) INODE_SIZE ->
    same_bytes (mem st) (mem st1) a n) as Hsame1 by (intros; by apply allocated_same).
  pose proof Hout as (_ & _ & O3 & O4). layout HL.
  assert (cstr (mem st1) nm s) as Hs1.
  { eapply cstr_same; [exact Hs|]. eapply same_bytes_sub; [apply (Hsame1 nm 101)|lia|lia]; [done|].
    unfold inode_at, apart, INODE_SIZE. lia. }
  set (m := store32 (store64 (memcpy (length s) (mem st1) (inode_at L 4) nm) (inode_at L 4 + 112) (u64 b))
    (inode_at L 4 + 124) TYPE_FILE).
  assert (confined L (mem st1) m 4) as Hc.
  { apply fill_confined; [lia|lia|]. unfold apart, inode_at, INODE_SIZE. lia. }
  assert (forall a n, apart a n (map_at L) BITMAP_COUNT -> apart a n (inode_at L 4) INODE_SIZE ->
    same_bytes (mem st) m a n) as Hsame2.
  { intros a n Ha Hi. eapply same_bytes_trans; [by apply Hsame1|]. by eapply confined_same; [exact Hc|lia|]. }
  assert (geometry L (set_mem st1 m)) as Hg2.
  { destruct Hg as [H16 H24]. assert (same_bytes (mem st) m (sb_at L) 40) as Hsb.
    { apply Hsame2; unfold apart, inode_at, INODE_SIZE, BITMAP_COUNT; lia. }
    split; [rewrite <- H16|rewrite <- H24]; apply load_le_agree; (eapply same_bytes_sub; [exact Hsb|lia|]); lia. }
  destruct (rsync_spec L HL (set_mem st1 m)) as (st' & E & Hsync); [done..|].
  destruct (synced_keeps L (set_mem st1 m) st' f Hsync Hg2) as (Hok' & _ & Hfr & _).
  { intros j Hj. eapply holds_same; [by apply Hf|].
    apply Hsame2; unfold apart, inode_at, INODE_SIZE, BITMAP_COUNT; lia. }
  exists st'. split; [|split; [done|]].
  - assert (b <> -1 -> (4 =? -1) || (b =? -1) = false) as Hne by (intros; simpl; by apply Z.eqb_neq).
    unfold create_file. rewrite Hfind, bind_Ret, Z.eqb_refl. cbn [negb].
    rewrite (get_free_inode_fifth st f Hok Hall Hu), bind_Ret. cbn [fst snd]. cbv zeta.
    unfold get_free_block. rewrite taken_blocks, Ea, !bind_Ret by (done || lia). cbn [fst snd].
    rewrite Hne by done. rewrite inode_ptr_eq, bind_Ret by lia. unfold copy_name. fold st1.
    rewrite (strlen_spec STRING_BOUND (mem st1) nm s), bind_Ret, bind_Ret, (uwrap_small 32)
      by (done || lia || (unfold STRING_BOUND; lia)).
    unfold strncpy. rewrite Nat2Z.id.
    match goal with |- rsync L ?x ≫= _ = _ => change x with (set_mem st1 m) end. by rewrite E, bind_Ret.
  - apply (find_file_tail (set_mem st1 m) st' f nm s Hsync Hok'); [| |done|exact (find_file_none st f nm s Hok Hs Hl Hfind)].
    + intros k Hk. change (m (read_buffer (pages L) + k) = 0). rewrite <- (Htail k Hk).
      unfold TABLE_SIZE, INODE_COUNT, INODE_SIZE in Hk. unfold read_buffer.
      apply (Hsame2 (pages L + 1 * 4096 + k) 1); [| |lia]; unfold apart, inode_at, INODE_SIZE, BITMAP_COUNT; lia.
    + eapply cstr_same; [exact Hs1|].
      assert (outside L nm 101 -> same_bytes m (mem st') nm 101) as Hmm by exact (Hfr nm 101).
      assert (same_bytes (mem st1) m nm 101) as Hm1.
      { apply (confined_same L (mem st1) m 4); [done|lia|]. unfold apart, inode_at, INODE_SIZE. lia. }
      intros x Hx. rewrite (Hmm Hout x) by lia. apply Hm1. lia.
Qed.
End names.
