(* ===== verification/FileSysProps.v ===== *)
(** * Properties of the file system

    What [rsync], [create_file], [write_file] and [read_file] of FileSys.v do
    on a disk that keeps what is written to it, and a small file system in
    memory on which the properties are instantiated. *)

From S2P Require Import Prelude Bitmap FsBlocks CString Memory Ahci FileSys.

(** C25: [rsync] writes the superblock, the block bitmap and the inode table and
    reads them back one sector each: the superblock, the first 512 bytes of the
    bitmap and the first four inodes survive; everything behind is replaced by
    whatever lay in the read buffer. *)
Theorem rsync_keeps_one_sector {D} `{!Drive D, !DriveLaws D} L (st : fsys D) :
  layout_ok L -> ready (mc st) 0 -> 5 <= capacity -> geometry L st ->
  exists st', rsync L st = Ret st' /\ ready (mc st') 0 /\
    same_bytes (mem st) (mem st') (sb_at L) SUPER_SIZE /\
    (forall i, 0 <= i < 4 -> same_bytes (mem st) (mem st') (inode_at L i) INODE_SIZE) /\
    (forall i k, 4 <= i < 100 -> 0 <= k < INODE_SIZE ->
       mem st' (inode_at L i + k) = mem st (read_buffer (pages L) + (INODE_SIZE * i + k))) /\
    (forall i, (i < 64)%nat -> read_map L (mem st') !! i = read_map L (mem st) !! i) /\
    (forall i, (64 <= i < 1100)%nat ->
       read_map L (mem st') !! i = Some (load64 (mem st) (read_buffer (pages L) + 8 * Z.of_nat i))).
Proof.
  intros HL Hrdy Hcap Hg. destruct (rsync_spec L HL st Hrdy Hcap Hg) as (st' & E & Hs).
  exists st'. split; [exact E|]. pose proof Hs as [Hr _ _ Hsb Hmap Hino _ _ _ _].
  assert (forall i k, 0 <= i < 100 -> 0 <= k < INODE_SIZE -> mem st' (inode_at L i + k) =
    if INODE_SIZE * i + k <? 512 then mem st (inode_at L i + k)
    else mem st (read_buffer (pages L) + (INODE_SIZE * i + k))) as Hi.
  { intros i k Hi Hk. unfold inode_at. rewrite <- Z.add_assoc. apply Hino.
    unfold TABLE_SIZE, INODE_COUNT, INODE_SIZE in *. lia. }
  split_and!; [done|done| | | |].
  - intros i Hi4 x Hx. replace x with (inode_at L i + (x - inode_at L i)) by lia. rewrite Hi by lia.
    unfold INODE_SIZE in *. by rewrite (proj2 (Z.ltb_lt _ _)) by lia.
  - intros i k Hi4 Hk. rewrite Hi by lia. unfold INODE_SIZE in *. by rewrite (proj2 (Z.ltb_ge _ _)) by lia.
  - intros i Hi64. rewrite !read_map_lookup by lia. f_equal. apply load_le_agree. intros x Hx.
    replace x with (map_at L + (x - map_at L)) by lia. rewrite Hmap by (unfold BITMAP_COUNT; lia).
    by rewrite (proj2 (Z.ltb_lt _ _)) by lia.
  - intros i Hi64. rewrite read_map_lookup by lia. f_equal. apply load_le_shift. intros k Hk.
    rewrite <- !Z.add_assoc. rewrite Hmap by (unfold BITMAP_COUNT; lia).
    by rewrite (proj2 (Z.ltb_ge _ _)) by lia.
Qed.

(** ** A small file system to run on *)

Definition demo_layout : layout :=
  Layout (AHCI_KERN_BASE + 0x400000) (AHCI_KERN_BASE + 0x200000) (AHCI_KERN_BASE + 0x201000)
    (AHCI_KERN_BASE + 0x210000).

Lemma demo_layout_ok : layout_ok demo_layout.
Proof. split; (vm_compute; done) || by_computation. Qed.

(** The names ["ab"] and ["cd"], a text of 12 characters and a buffer lie here. *)
Definition NAME_AB : Z := AHCI_KERN_BASE + 0x300000.
Definition TEXT : Z := AHCI_KERN_BASE + 0x301000.
Definition BUFFER : Z := AHCI_KERN_BASE + 0x302000.
Definition demo_text : list Z := [72; 101; 108; 108; 111; 32; 87; 111; 114; 108; 100; 33].

(** Zeros but for the geometry and the strings. *)
Definition demo_bytes : bytes :=
  patch (patch (patch (patch (fun _ => 0) (sb_at demo_layout + 16) [1]) (sb_at demo_layout + 24) [3])
    NAME_AB [97; 98; 0]) TEXT (demo_text ++ [0]).

Definition idle_port : HBA_PORT := Port 0 0 0 0 0 0 0 0 0 0 0 0.
Definition demo_fs (m : bytes) : fsys RamDisk.medium_t := Fsys (demo_machine m idle_port) 6 65536.

Lemma demo_ready m : ready (mc (demo_fs m)) 0.
Proof. exists idle_port. split; [done|]. split; [done|]. split; [vm_compute; discriminate|]. by eexists. Qed.

Lemma demo_bytes_zero x :
  apart x 1 (sb_at demo_layout) SUPER_SIZE -> apart x 1 NAME_AB 3 -> apart x 1 TEXT 13 -> demo_bytes x = 0.
Proof.
  unfold apart, SUPER_SIZE. intros H1 H2 H3. unfold demo_bytes.
  by rewrite !patch_out by (unfold apart; cbn [length app demo_text]; lia).
Qed.

Lemma demo_inode_zero i k : 0 <= i < 100 -> 0 <= k < 128 -> demo_bytes (inode_at demo_layout i + k) = 0.
Proof.
  intros Hi Hk. unfold inode_at, INODE_SIZE.
  apply demo_bytes_zero; unfold apart, NAME_AB, TEXT, SUPER_SIZE, AHCI_KERN_BASE;
    cbn [demo_layout sb_at inodes_at]; unfold AHCI_KERN_BASE; lia.
Qed.

Lemma demo_fs_ok : fs_ok demo_layout (demo_fs demo_bytes) (fun _ => empty_inode).
Proof.
  split; [apply demo_ready|split; vm_compute; reflexivity|].
  intros i Hi. apply holds_zero. intros k Hk. by apply demo_inode_zero; [lia|].
Qed.

Example rsync_keeps_one_sector_witness :
  exists st', rsync demo_layout (demo_fs demo_bytes) = Ret st' /\
    same_bytes demo_bytes (mem st') (sb_at demo_layout) SUPER_SIZE.
Proof.
  destruct (rsync_keeps_one_sector demo_layout (demo_fs demo_bytes) demo_layout_ok (demo_ready _))
    as (st' & E & _ & H & _); [vm_compute; discriminate|apply demo_fs_ok|].
  exists st'. split; [exact E|exact H].
Defined.

(** C24: [create_file] of a name of less than 100 characters no file has, with
    one of the first four inodes, its name zeroed, and a block free, returns the
    inode's descriptor; the inode then holds the name, the block and the file
    type, [find_file] finds it, the other three inodes keep their bytes, the
    block is marked and no data sector changes. *)
Theorem create_file_creates {D} `{!Drive D, !DriveLaws D} L (st : fsys D) f nm s i bm b :
  layout_ok L -> 5 <= capacity -> fs_ok L st f -> wf (blocks L st) ->
  file_mmgr_alloc_block (blocks L st) = Ret (bm, b) -> b <> -1 ->
  cstr (mem st) nm s -> (length s < 100)%nat -> outside L nm 101 -> find_file L st nm = Ret (-1) ->
  0 <= i < 4 -> (forall j, 0 <= j < i -> i_usage (f j) = 1) -> i_usage (f i) <> 1 ->
  (forall k, 0 <= k < 100 -> mem st (inode_at L i + k) = 0) ->
  exists st', create_file L st nm = Ret (st', 100 + i) /\
    fs_ok L st' (replace f i (fresh_inode (f i) s b)) /\ find_file L st' nm = Ret i /\
    (forall j, 0 <= j < 4 -> j <> i -> same_bytes (mem st) (mem st') (inode_at L j) INODE_SIZE) /\
    (forall c, 0 <= c < 4096 ->
       marked (read_map L (mem st')) c = marked (read_map L (mem st)) c || same_cell b c) /\
    forall k j, 0 <= j < 512 -> 5 <= k -> sector (disk (mc st')) k j = sector (disk (mc st)) k j.
Proof.
  intros HL Hcap Hok Hwf Ea Hb Hs Hl Hout Hfind Hi Hall Hu Hz.
  destruct (create_file_spec L HL st f nm s i bm b) as (st' & E & H1 & H2 & H3 & H4 & H5 & _); [done..|].
  by exists st'.
Qed.

(** The first six blocks are taken, as [set_sb] leaves them. *)
Definition ready_bytes : bytes := patch demo_bytes (map_at demo_layout) [63].

Ltac outside_demo := unfold outside, apart, NAME_AB, TEXT, BUFFER, SUPER_SIZE, BITMAP_COUNT, TABLE_SIZE, INODE_COUNT,
  INODE_SIZE; cbn [demo_layout pages sb_at map_at inodes_at]; unfold AHCI_KERN_BASE; lia.

Lemma demo_name_cstr m a l : apart NAME_AB 3 a (Z.of_nat (length l)) ->
  cstr (patch m a l) NAME_AB [97; 98] <-> cstr m NAME_AB [97; 98].
Proof.
  intros H. split; intros Hc; (eapply cstr_same; [exact Hc|]); intros x Hx; simpl in Hx;
    rewrite patch_out; done || (unfold apart in *; lia).
Qed.

Lemma demo_name : cstr demo_bytes NAME_AB [97; 98].
Proof.
  unfold demo_bytes. apply demo_name_cstr; [by_computation|].
  apply cstr_patch; [by_computation|lia|simpl; lia|].
  intros [|[|[|k]]] Hk; simpl in Hk; [vm_compute; reflexivity..|lia].
Qed.

Lemma ready_inode_zero i k : 0 <= i < 100 -> 0 <= k < 128 -> ready_bytes (inode_at demo_layout i + k) = 0.
Proof.
  intros Hi Hk. unfold ready_bytes. rewrite patch_out; [by apply demo_inode_zero|].
  unfold inode_at, INODE_SIZE, apart. cbn [length demo_layout map_at inodes_at]. lia.
Qed.

Lemma ready_fs_ok : fs_ok demo_layout (demo_fs ready_bytes) (fun _ => empty_inode).
Proof.
  split; [apply demo_ready|split; vm_compute; reflexivity|].
  intros i Hi. apply holds_zero. intros k Hk. by apply ready_inode_zero; [lia|].
Qed.

Definition demo_blocks : bitmap := Bitmap (63 :: replicate 1099 0) 6 65536.

Lemma ready_blocks : blocks demo_layout (demo_fs ready_bytes) = demo_blocks.
Proof. vm_compute. reflexivity. Qed.

Example create_file_creates_witness :
  exists st', create_file demo_layout (demo_fs ready_bytes) NAME_AB = Ret (st', 100 + 0) /\
    find_file demo_layout st' NAME_AB = Ret 0.
Proof.
  destruct (create_file_creates demo_layout (demo_fs ready_bytes) (fun _ => empty_inode) NAME_AB [97; 98] 0
    (returned (demo_blocks, 0) (file_mmgr_alloc_block demo_blocks)).1 6) as (st' & E & _ & H & _).
  - apply demo_layout_ok.
  - vm_compute. discriminate.
  - apply ready_fs_ok.
  - rewrite ready_blocks. by_computation.
  - rewrite ready_blocks. vm_compute. reflexivity.
  - lia.
  - apply demo_name_cstr; [by_computation|apply demo_name].
  - simpl. lia.
  - outside_demo.
  - vm_compute. reflexivity.
  - lia.
  - intros j Hj. lia.
  - simpl. lia.
  - intros k Hk. apply ready_inode_zero; lia.
  - exists st'. split; [exact E|exact H].
Defined.

(** C23: in the first four inodes, the ones [rsync] keeps, what [write_file]
    wrote, [read_file] reads back: for a text of at most 512 characters in a
    file at position 0, whose two sectors are on the disk, and a [count] from 8
    to the length of the text, the buffer holds the first [count] characters,
    and the position advances modulo the file's new size. *)
Theorem write_read_file {D} `{!Drive D, !DriveLaws D} L (st : fsys D) f i p s count buf :
  layout_ok L -> fs_ok L st f -> 0 <= i < 4 -> i_position (f i) = 0 ->
  5 <= i_start (f i) -> i_start (f i) + 2 <= capacity -> i_start (f i) < 2 ^ 31 ->
  cstr (mem st) p s -> (length s <= 512)%nat -> outside L p 513 -> outside L buf count ->
  8 <= count <= Z.of_nat (length s) ->
  exists st1 st2, write_file L st p (100 + i) = Ret (st1, 1) /\ read_file L st1 (100 + i) count buf = Ret (st2, buf) /\
    (forall k c, s !! k = Some c -> Z.of_nat k < count -> mem st2 (buf + Z.of_nat k) = c) /\
    fs_ok L st2 (replace f i (with_position (with_size (f i) (Z.of_nat (length s))) (count mod Z.of_nat (length s)))).
Proof.
  intros HL Hok Hi Hpos Hb5 Hbc Hb31 Hs Hlen Hout Hbuf Hcount.
  destruct (write_file_spec L HL st f i p s) as (st1 & E1 & Hok1 & _ & Hsec & _ & _); [done|lia|done..|].
  set (f1 := replace f i _) in Hok1.
  assert (f1 i = with_size (f i) (Z.of_nat (length s))) as Hf1 by (unfold f1, replace; by rewrite Z.eqb_refl).
  destruct (read_file_spec L HL st1 f1 i count buf) as (st2 & E2 & Hok2 & Hbytes & _);
    rewrite ?Hf1; cbn [with_size i_position i_size i_start]; [done|done|lia|lia|lia|lia|done|lia|lia|lia|].
  rewrite ?Hf1 in *. cbn [with_size i_position i_size i_start] in *. rewrite Hpos in *.
  exists st1, st2. split_and!; [done|done| |].
  - intros k c Hk Hkc. rewrite Hbytes, Z.add_0_l by lia. by apply Hsec.
  - destruct Hok2 as [? ? Hf2]. split; [done..|]. intros j Hj. eapply holds_ext; [|by apply Hf2].
    unfold f1, replace. by destruct (j =? i).
Qed.

(** Files 0 to 3 at blocks 6 to 9, each of one character. *)
Definition file_bytes (b : Z) : list Z :=
  [65] ++ replicate 103 0 ++ [1; 0; 0; 0] ++ replicate 4 0 ++ [b; 0; 0; 0; 0; 0; 0; 0] ++ [1; 0; 0; 0] ++ [1; 0; 0; 0].
Definition table_bytes : list Z := concat (file_bytes <$> [6; 7; 8; 9]).
Definition four_files_bytes : bytes := patch ready_bytes (inodes_at demo_layout) table_bytes.
Definition four_files (j : Z) : inode := Inode [65] 0 1 (6 + j) 1 1.

Lemma file_bytes_holds m a l o b :
  (forall k, (k < 128)%nat -> l !! (Z.to_nat o + k)%nat = file_bytes b !! k) -> 0 <= o -> o + 128 <= Z.of_nat (length l) ->
  0 <= b < 256 -> holds (patch m a l) (a + o) (Inode [65] 0 1 b 1 1).
Proof.
  intros Hl Ho Hlen Hb.
  assert (forall k, 0 <= k < 128 -> patch m a l (a + o + k) = default 0 (file_bytes b !! Z.to_nat k)) as Hk.
  { intros k Hk. unfold patch. rewrite (proj2 (Z.leb_le _ _)), (proj2 (Z.ltb_lt _ _)) by lia. simpl.
    rewrite <- Hl by lia. do 2 f_equal. lia. }
  assert (forall n v o', 0 <= o' -> o' + Z.of_nat n <= 128 -> load_le n (fun x => default 0 (file_bytes b !! Z.to_nat x)) o' = v ->
    load_le n (patch m a l) (a + o + o') = v) as Hld.
  { intros n v o' Ho' Hn <-. apply load_le_shift. intros k Hk'. rewrite <- Z.add_assoc. apply Hk. lia. }
  unfold holds, get_position, get_size, get_start_block, get_usage, get_type.
  cbn [i_name i_position i_size i_start i_usage i_type].
  split_and!; [|simpl; lia|apply Hld; [lia|lia|]..].
  - split_and!; [|by_computation|].
    + intros [|k] c Hc; [|done]. injection Hc as <-. rewrite Hk by lia. done.
    + rewrite Hk by (simpl; lia). done.
  - reflexivity.
  - reflexivity.
  - cbn [load_le].
    repeat match goal with |- context [default 0 (file_bytes b !! ?n)] =>
      let v := eval vm_compute in (default 0 (file_bytes b !! n)) in
      change (default 0 (file_bytes b !! n)) with v end. lia.
  - reflexivity.
  - reflexivity.
Qed.

Lemma table_bytes_lookup i k : 0 <= i < 4 -> (k < 128)%nat ->
  table_bytes !! (Z.to_nat (128 * i) + k)%nat = file_bytes (6 + i) !! k.
Proof.
  intros Hi Hk. assert (forall b, length (file_bytes b) = 128%nat) as Hl by done.
  unfold table_bytes. cbn [fmap list_fmap concat]. revert Hl. generalize file_bytes as l. intros l Hl.
  assert (i = 0 \/ i = 1 \/ i = 2 \/ i = 3) as [-> | [-> | [-> | ->]]] by lia;
    repeat (rewrite lookup_app_r by (rewrite !Hl; lia)); rewrite lookup_app_l by (rewrite ?Hl; lia);
    rewrite ?Hl; f_equal; lia.
Qed.

Lemma four_files_ok : fs_ok demo_layout (demo_fs four_files_bytes) four_files.
Proof.
  split; [apply demo_ready|split; vm_compute; reflexivity|].
  intros i Hi. unfold inode_at, INODE_SIZE, four_files. apply file_bytes_holds; [|lia| |lia].
  - intros k Hk. by apply table_bytes_lookup.
  - change (Z.of_nat (length table_bytes)) with 512. lia.
Qed.

Lemma demo_text_cstr : cstr four_files_bytes TEXT demo_text.
Proof.
  eapply cstr_same with (m := demo_bytes); [|].
  - apply cstr_patch; [by_computation|lia|simpl; lia|].
    intros k Hk. by rewrite Z.sub_diag.
  - intros x Hx. unfold four_files_bytes, ready_bytes. simpl in Hx.
    rewrite !patch_out; [done|..]; unfold apart, TEXT in *; cbn [demo_layout map_at inodes_at length];
      [|change (Z.of_nat (length table_bytes)) with 512]; unfold AHCI_KERN_BASE in *; lia.
Qed.

Example write_read_file_witness :
  exists st1 st2, write_file demo_layout (demo_fs four_files_bytes) TEXT (100 + 0) = Ret (st1, 1) /\
    read_file demo_layout st1 (100 + 0) 12 BUFFER = Ret (st2, BUFFER) /\ mem st2 (BUFFER + 0) = 72.
Proof.
  destruct (write_read_file demo_layout (demo_fs four_files_bytes) four_files 0 TEXT demo_text 12 BUFFER)
    as (st1 & st2 & E1 & E2 & H & _).
  - apply demo_layout_ok.
  - apply four_files_ok.
  - lia.
  - done.
  - vm_compute. discriminate.
  - vm_compute. discriminate.
  - vm_compute. reflexivity.
  - apply demo_text_cstr.
  - simpl. lia.
  - outside_demo.
  - outside_demo.
  - simpl. lia.
  - exists st1, st2. split; [exact E1|]. split; [exact E2|]. by apply (H 0%nat).
Defined.

(** [write_file] always writes two sectors: the one after the file's own,
    the data of the file created next, is overwritten with the bytes of the
    inode table behind its first sector. *)
Theorem write_file_clobbers_next {D} `{!Drive D, !DriveLaws D} L (st : fsys D) f i j p s :
  layout_ok L -> fs_ok L st f -> 5 <= capacity -> 0 <= i < 4 -> 5 <= i_start (f i) ->
  i_start (f i) + 2 <= capacity -> i_start (f i) < 2 ^ 31 -> i_start (f j) = i_start (f i) + 1 ->
  cstr (mem st) p s -> (length s <= 512)%nat -> outside L p 513 ->
  exists st', write_file L st p (100 + i) = Ret (st', 1) /\
    (forall k, 0 <= k < 512 -> sector (disk (mc st')) (i_start (f j)) k = mem st (inode_at L 4 + k)) /\
    forall k c, 0 <= c < 512 -> 5 <= k -> k <> i_start (f i) -> k <> i_start (f j) ->
      sector (disk (mc st')) k c = sector (disk (mc st)) k c.
Proof.
  intros HL Hok Hcap Hi Hb5 Hbc Hb31 Hj Hs Hlen Hout.
  destruct (write_file_spec L HL st f i p s) as (st' & E & _ & _ & _ & Hnext & Hrest); [done..|].
  exists st'. split; [exact E|]. rewrite Hj. split; [|exact Hrest].
  intros k Hk. by apply Hnext.
Qed.

Example write_file_clobbers_next_witness :
  exists st', write_file demo_layout (demo_fs four_files_bytes) TEXT (100 + 0) = Ret (st', 1) /\
    forall k, 0 <= k < 512 -> sector (disk (mc st')) 7 k = four_files_bytes (inode_at demo_layout 4 + k).
Proof.
  destruct (write_file_clobbers_next demo_layout (demo_fs four_files_bytes) four_files 0 1 TEXT demo_text)
    as (st' & E & H & _).
  - apply demo_layout_ok.
  - apply four_files_ok.
  - vm_compute. discriminate.
  - lia.
  - vm_compute. discriminate.
  - vm_compute. discriminate.
  - vm_compute. reflexivity.
  - vm_compute. reflexivity.
  - apply demo_text_cstr.
  - simpl. lia.
  - outside_demo.
  - exists st'. split; [exact E|exact H].
Defined.

(** [create_write_file] of a name that exists has undefined behaviour:
    [create_file] returns -1, [write_file] subtracts 100 before it compares with
    -1, and the inode written to is [inode_list[-101]]. *)
Theorem create_write_file_existing {D} `{!Drive D, !DriveLaws D} L (st : fsys D) f i nm s p t :
  layout_ok L -> fs_ok L st f -> 0 <= i < 4 -> i_name (f i) = s -> i_type (f i) = TYPE_FILE ->
  (forall j, 0 <= j < i -> ~ (i_name (f j) = s /\ i_type (f j) = TYPE_FILE)) ->
  cstr (mem st) nm s -> cstr (mem st) p t -> (length t <= STRING_BOUND)%nat ->
  create_file L st nm = Ret (st, -1) /\ inode_ptr L (deflate (-1)) = Undef /\
  create_write_file L st nm p = Undef.
Proof.
  intros HL Hok Hi Hn Ht Hun Hs Hp Hlen.
  assert (length s < 100)%nat as Hl.
  { rewrite <- Hn. by destruct (fs_inodes _ _ _ Hok i Hi) as (_ & Hl & _). }
  assert (create_file L st nm = Ret (st, -1)) as E.
  { unfold create_file. rewrite (find_file_hit L st f nm s i) by done. rewrite bind_Ret.
    destruct (Z.eqb_spec i (-1)); [lia|done]. }
  split_and!; [exact E|done|]. unfold create_write_file. rewrite E, bind_Ret. unfold write_file.
  change (deflate (snd (st, -1))) with (-101). cbn [fst]. change (-101 =? -1) with false.
  rewrite (strlen_spec STRING_BOUND (mem st) p t) by (done || (unfold STRING_BOUND in *; lia)). done.
Qed.

(** The strings ["A"], the name of both demo files. *)
Definition NAME_A : Z := inodes_at demo_layout.

Example create_write_file_existing_witness :
  create_write_file demo_layout (demo_fs four_files_bytes) NAME_A TEXT = Undef.
Proof.
  apply (create_write_file_existing demo_layout (demo_fs four_files_bytes) four_files 0 NAME_A [65] TEXT demo_text).
  - apply demo_layout_ok.
  - apply four_files_ok.
  - lia.
  - done.
  - done.
  - intros j Hj. lia.
  - apply (fs_inodes demo_layout _ _ four_files_ok 0). lia.
  - apply demo_text_cstr.
  - simpl. unfold STRING_BOUND. lia.
Defined.

(** The table has room for 100 inodes but four survive on disk: with four in
    use and zeros in the read buffer behind its first sector, [create_file]
    reports success with the descriptor of the fifth, and a search for the name
    right after it finds nothing. *)
Theorem fifth_file_lost {D} `{!Drive D, !DriveLaws D} L (st : fsys D) f nm s bm b :
  layout_ok L -> 5 <= capacity -> fs_ok L st f -> wf (blocks L st) ->
  file_mmgr_alloc_block (blocks L st) = Ret (bm, b) -> b <> -1 ->
  cstr (mem st) nm s -> (length s < 100)%nat -> outside L nm 101 -> find_file L st nm = Ret (-1) ->
  (forall j, 0 <= j < 4 -> i_usage (f j) = 1) -> get_usage (mem st) (inode_at L 4) <> 1 -> clear_tail L st ->
  exists st', create_file L st nm = Ret (st', 104) /\ find_file L st' nm = Ret (-1).
Proof.
  intros HL Hcap Hok Hwf Ea Hb Hs Hl Hout Hfind Hall Hu Htail.
  destruct (create_fifth_spec L HL st f nm s bm b) as (st' & E & _ & H); [done..|]. by exists st'.
Qed.

Lemma four_blocks : blocks demo_layout (demo_fs four_files_bytes) = demo_blocks.
Proof. vm_compute. reflexivity. Qed.

Lemma four_files_out x : apart x 1 (inodes_at demo_layout) 512 -> apart x 1 (map_at demo_layout) 1 ->
  four_files_bytes x = demo_bytes x.
Proof. intros H1 H2. unfold four_files_bytes, ready_bytes. by rewrite !patch_out. Qed.

Lemma four_files_name : cstr four_files_bytes NAME_AB [97; 98].
Proof. do 2 (apply demo_name_cstr; [by_computation|]). apply demo_name. Qed.

Lemma four_files_tail : clear_tail demo_layout (demo_fs four_files_bytes).
Proof.
  intros k Hk. unfold TABLE_SIZE, INODE_COUNT, INODE_SIZE in Hk.
  change (four_files_bytes (read_buffer (pages demo_layout) + k) = 0). unfold read_buffer.
  rewrite four_files_out, demo_bytes_zero;
    [done|unfold apart, SUPER_SIZE, NAME_AB, TEXT; cbn [demo_layout pages sb_at map_at inodes_at];
          unfold AHCI_KERN_BASE; lia..].
Qed.

Example fifth_file_lost_witness :
  exists st', create_file demo_layout (demo_fs four_files_bytes) NAME_AB = Ret (st', 104) /\
    find_file demo_layout st' NAME_AB = Ret (-1).
Proof.
  apply (fifth_file_lost demo_layout (demo_fs four_files_bytes) four_files NAME_AB [97; 98]
    (returned (demo_blocks, 0) (file_mmgr_alloc_block demo_blocks)).1 6).
  - apply demo_layout_ok.
  - vm_compute. discriminate.
  - apply four_files_ok.
  - rewrite four_blocks. by_computation.
  - rewrite four_blocks. vm_compute. reflexivity.
  - lia.
  - apply four_files_name.
  - simpl. lia.
  - outside_demo.
  - vm_compute. reflexivity.
  - intros j Hj. done.
  - vm_compute. discriminate.
  - apply four_files_tail.
Defined.
