(* ===== verification/Screen.v ===== *)
(** * The text screen and console input (sys/stdfns.c)

    Characters, strings and [printf] on the 80 by 25 video memory with its
    scrolling cursor, the clock's digits in the bottom row, and the buffer the
    keyboard fills for a reading process. *)

From S2P Require Import Prelude CString.

(** ** State *)

Definition START_MEMORY : Z := 0xFFFFFFFF80100000.
Definition TIMER_MEMORY : Z := 0xFFFFFFFF80100F90.
Definition KEYBOARD_WARMUP_MEMORY : Z := 0xB8F8A.
Definition MAX_ROWS : Z := 25.
Definition MAX_COLUMNS : Z := 80.
Definition TEXT_COLOR : Z := 0x1F.

(** [ram] is the byte memory the video buffer and [iobuff] lie in; [cursor] the
    position last sent to the display controller. *)
Record console := Console {
  ram : bytes;
  video_memory : Z;
  cursor : Z;
  digits : list Z;
  io_buff : Z;
  reading : Z;
  first_char : Z
}.

Definition with_ram (c : console) (m : bytes) : console :=
  Console m (video_memory c) (cursor c) (digits c) (io_buff c) (reading c) (first_char c).
Definition with_video (c : console) (v : Z) : console :=
  Console (ram c) v (cursor c) (digits c) (io_buff c) (reading c) (first_char c).
Definition with_cursor (c : console) (p : Z) : console :=
  Console (ram c) (video_memory c) p (digits c) (io_buff c) (reading c) (first_char c).
Definition with_digits (c : console) (d : list Z) : console :=
  Console (ram c) (video_memory c) (cursor c) d (io_buff c) (reading c) (first_char c).
Definition with_io (c : console) (b r f : Z) : console :=
  Console (ram c) (video_memory c) (cursor c) (digits c) b r f.

(** A character cell: the character and its attribute. *)
Definition put_cell (m : bytes) (a ch color : Z) : bytes := store8 (store8 m a (u8 ch)) (a + 1) (u8 color).

(** ** The cursor and scrolling *)

(** [for (i = 0; i < 80; i++) { *p++ = 0x20; *p++ = 0; }] *)
Fixpoint blank_cells (n : nat) (m : bytes) (a : Z) : bytes :=
  match n with
  | O => m
  | S n => blank_cells n (put_cell m a 0x20 0) (a + 2)
  end.

(** The length given to [memcpy], an unsigned 32-bit number. *)
Definition scroll_bytes (temp_row : Z) : Z := u32 ((24 - temp_row) * 80 * 2).

Definition update_cursor (c : console) : console :=
  let diff := u64 (video_memory c - START_MEMORY) in
  let row1 := u32 (diff / 80 / 2) in
  let col1 := u32 (u64 (diff - u32 (row1 * 80 * 2)) / 2 mod 80) in
  if 24 <=? row1 then
    let temp_row := s32 (row1 - 24 + 1) in
    let pos := u64 (temp_row * 80 * 2 + START_MEMORY) in
    let m := memcpy (Z.to_nat (scroll_bytes temp_row)) (ram c) START_MEMORY pos in
    let v := 23 * 80 * 2 + START_MEMORY in
    with_cursor (with_video (with_ram c (blank_cells 80 m v)) v) (23 * 80 + 0)
  else with_cursor c (u16 (row1 * 80 + col1)).

(** The start of the row below [v]. *)
Definition next_row (v : Z) : Z :=
  let video := u64 (v + 0xA0) in
  u64 (START_MEMORY + 0xA0 * (u64 (video - START_MEMORY) / 0xA0)).

Definition write_char (color ch : Z) (c : console) : console :=
  if (ch =? 10) || (ch =? 13) then update_cursor (with_video c (next_row (video_memory c)))
  else update_cursor (with_video (with_ram c (put_cell (ram c) (video_memory c) ch color))
                                 (u64 (video_memory c + 2))).

(** The cursor is updated, and the screen scrolled, once at the end. *)
Definition write_string (color : Z) (s : list Z) (c : console) : console :=
  update_cursor (fold_left (fun c ch =>
    if ch =? 10 then with_video c (next_row (video_memory c))
    else with_video (with_ram c (put_cell (ram c) (video_memory c) ch color)) (u64 (video_memory c + 2))) s c).

Definition cls (c : console) : console :=
  update_cursor (with_video (with_ram c (blank_cells (Z.to_nat (MAX_ROWS * MAX_COLUMNS)) (ram c) START_MEMORY))
                            START_MEMORY).

Definition write_key (color ch : Z) (c : console) : console :=
  with_ram c (put_cell (ram c) KEYBOARD_WARMUP_MEMORY ch color).

(** [convert(d, 10)] and its first character. *)
Definition show_digit (d a : Z) (c : console) : outcome console :=
  r ← convert (digits c) d 10;
  ch ← array_get r.1 r.2;
  Ret (with_ram (with_digits c r.1) (put_cell (ram c) a ch TEXT_COLOR)).

Definition write_time (su st mu mt hu ht : Z) (c : console) : outcome console :=
  c ← show_digit ht TIMER_MEMORY c;
  c ← show_digit hu (TIMER_MEMORY + 2) c;
  let c := with_ram c (put_cell (ram c) (TIMER_MEMORY + 4) 58 TEXT_COLOR) in
  c ← show_digit mt (TIMER_MEMORY + 6) c;
  c ← show_digit mu (TIMER_MEMORY + 8) c;
  let c := with_ram c (put_cell (ram c) (TIMER_MEMORY + 10) 58 TEXT_COLOR) in
  c ← show_digit st (TIMER_MEMORY + 12) c;
  show_digit su (TIMER_MEMORY + 14) c.

(** ** Formatted output *)

Inductive arg := AInt (i : Z) | AStr (s : list Z) | APtr (a : Z).

(** The text of [convert], which [write_string] prints up to the terminator. *)
Fixpoint up_to_nul (l : list Z) : list Z :=
  match l with
  | [] => []
  | x :: l => if x =? 0 then [] else x :: up_to_nul l
  end.
Definition write_number (num base : Z) (c : console) : outcome console :=
  r ← convert (digits c) (u64 num) base;
  Ret (write_string 0x1F (up_to_nul (drop (Z.to_nat r.2) r.1)) (with_digits c r.1)).

(** A missing argument, one of the wrong kind, and a [%] at the end of the
    format (the loop then steps over the terminator) are undefined. *)
Fixpoint printf (fmt : list Z) (args : list arg) (c : console) : outcome console :=
  match fmt with
  | [] => Ret c
  | p :: fmt =>
    if negb (p =? 37) then printf fmt args (write_char 0x1F p c) else
    match fmt with
    | [] => Undef
    | k :: fmt =>
      if k =? 99 then
        match args with AInt i :: args => printf fmt args (write_char 0x1F (s8 i) c) | _ => Undef end
      else if k =? 115 then
        match args with AStr s :: args => printf fmt args (write_string 0x1F s c) | _ => Undef end
      else if k =? 100 then
        match args with AInt i :: args => c ← write_number i 10 c; printf fmt args c | _ => Undef end
      else if k =? 120 then
        match args with
        | AInt i :: args => c ← write_number i 16 (write_string 0x1F [48; 120] c); printf fmt args c
        | _ => Undef
        end
      else if k =? 112 then
        match args with APtr a :: args => c ← write_number a 16 c; printf fmt args c | _ => Undef end
      else printf fmt args c
    end
  end.

(** The message, then an endless loop. *)
Definition PANIC (func : list Z) (line : Z) (reason : list Z) (c : console) : outcome console := Panic.

(** ** Console input *)

Definition write_io_buff (ch : Z) (c : console) : console :=
  if (ch =? 10) || (ch =? 13) then
    if negb (first_char c =? 0) then
      with_io (with_ram c (store8 (ram c) (io_buff c) (u8 ch))) (u64 (io_buff c + 1)) 0 1
    else with_io c (io_buff c) (reading c) 1
  else with_io (with_ram c (store8 (ram c) (io_buff c) (u8 ch))) (u64 (io_buff c + 1)) (reading c) 1.

(** ** Positions on the screen *)

(** The offset of the write position from the start of video memory. *)
Definition offset (c : console) : Z := video_memory c - START_MEMORY.

(** The write position is a cell of the upper 24 rows. *)
Definition on_screen (c : console) : Prop := 0 <= offset c < 24 * 160 /\ offset c mod 2 = 0.

#[export] Instance on_screen_dec c : Decision (on_screen c).
Proof. unfold on_screen. apply _. Defined.

Lemma put_cell_other m a ch color x : x <> a -> x <> a + 1 -> put_cell m a ch color x = m x.
Proof.
  intros H1 H2. unfold put_cell, store8.
  destruct (Z.eqb_spec x (a + 1)), (Z.eqb_spec x a); done.
Qed.

Lemma put_cell_char m a ch color : put_cell m a ch color a = u8 ch.
Proof.
  unfold put_cell, store8. destruct (Z.eqb_spec a (a + 1)); [lia|]. by rewrite Z.eqb_refl.
Qed.

Lemma blank_cells_spec n m a x :
  blank_cells n m a x =
    if decide (a <= x < a + 2 * Z.of_nat n) then (if (x - a) mod 2 =? 0 then 0x20 else 0) else m x.
Proof.
  revert m a. induction n as [|n IH]; intros m a.
  - simpl. by rewrite decide_False by lia.
  - simpl blank_cells. rewrite IH. destruct (decide (a + 2 <= x < a + 2 + 2 * Z.of_nat n)) as [Hin|Hout].
    + rewrite decide_True by lia. replace (x - a) with (x - (a + 2) + 1 * 2) by lia.
      by rewrite Z_mod_plus_full.
    + destruct (decide (x = a)) as [->|H1].
      * rewrite decide_True, put_cell_char by lia. by rewrite Z.sub_diag.
      * destruct (decide (x = a + 1)) as [->|H2].
        -- rewrite decide_True by lia. replace (a + 1 - a) with 1 by lia.
           unfold put_cell, store8. by rewrite Z.eqb_refl.
        -- rewrite decide_False by lia. by apply put_cell_other.
Qed.

(** The row and column of an offset. *)
Lemma row_eq off : 0 <= off -> off / 80 / 2 = off / 160.
Proof. intros. by rewrite Z.div_div. Qed.

(** Within the first 24 rows, [update_cursor] only tells the controller. *)
Lemma update_cursor_stay c :
  on_screen c -> update_cursor c = with_cursor c (offset c / 2).
Proof.
  intros [Hr Hm]. unfold update_cursor. unfold offset in *.
  rewrite (uwrap_small 64 (video_memory c - START_MEMORY)) by lia.
  set (off := video_memory c - START_MEMORY) in *. rewrite row_eq by lia.
  assert (0 <= off / 160 < 24) as Hrow by (split; [apply Z.div_pos|apply Z.div_lt_upper_bound]; lia).
  rewrite (uwrap_small 32 (off / 160)) by lia. destruct (Z.leb_spec 24 (off / 160)); [lia|].
  f_equal. pose proof (Z.div_mod off 160). pose proof (Z.mod_pos_bound off 160).
  rewrite (uwrap_small 32 (off / 160 * 80 * 2)), (uwrap_small 64) by lia.
  replace (off - off / 160 * 80 * 2) with (off mod 160) by lia.
  assert (0 <= off mod 160 / 2 < 80) by (split; [apply Z.div_pos|apply Z.div_lt_upper_bound]; lia).
  rewrite (Z.mod_small (off mod 160 / 2)) by lia.
  rewrite (uwrap_small 32), (uwrap_small 16) by lia.
  replace off with (off mod 160 + off / 160 * 80 * 2) at 3 by lia.
  rewrite Z.div_add by lia. lia.
Qed.

(** Moving past row 23 by one row scrolls everything up by one row. *)
Lemma update_cursor_scroll c :
  24 * 160 <= offset c < 25 * 160 ->
  let c' := update_cursor c in
  offset c' = 23 * 160 /\ cursor c' = 23 * 80 /\
  forall x, ram c' x =
    if decide (START_MEMORY <= x < START_MEMORY + 23 * 160) then ram c (x + 160)
    else if decide (START_MEMORY + 23 * 160 <= x < START_MEMORY + 24 * 160)
         then (if (x - START_MEMORY) mod 2 =? 0 then 0x20 else 0)
    else ram c x.
Proof.
  intros Hr. unfold update_cursor. unfold offset in Hr.
  rewrite (uwrap_small 64 (video_memory c - START_MEMORY)) by lia.
  set (off := video_memory c - START_MEMORY) in *. rewrite row_eq by lia.
  assert (off / 160 = 24) as Hrow by (symmetry; apply Z.div_unique_pos with (off - 24 * 160); lia).
  rewrite Hrow. change (u32 24) with 24. cbn [Z.leb Z.compare Pos.compare Pos.compare_cont].
  change (24 <=? 24) with true. change (s32 (24 - 24 + 1)) with 1. cbn [cursor with_cursor].
  split; [unfold offset; cbn [video_memory with_cursor with_video]; lia|]. split; [done|].
  intros x. cbn [ram with_cursor with_video with_ram].
  change (Z.to_nat (scroll_bytes 1)) with (Z.to_nat 3680).
  change (u64 (1 * 80 * 2 + START_MEMORY)) with (START_MEMORY + 160).
  rewrite blank_cells_spec. change (2 * Z.of_nat 80) with 160.
  replace (23 * 80 * 2 + START_MEMORY) with (START_MEMORY + 23 * 160) by lia.
  destruct (decide (START_MEMORY + 23 * 160 <= x < START_MEMORY + 23 * 160 + 160)).
  - rewrite decide_False, decide_True by lia.
    replace (x - START_MEMORY) with (x - (START_MEMORY + 23 * 160) + (23 * 80) * 2) by lia.
    by rewrite Z_mod_plus_full.
  - rewrite memcpy_down by lia. rewrite Z2Nat.id by lia.
    destruct (decide (START_MEMORY <= x < START_MEMORY + 3680)).
    + rewrite decide_True by lia.
      by replace (x + (START_MEMORY + 160 - START_MEMORY)) with (x + 160) by lia.
    + rewrite !decide_False by lia. done.
Qed.

Lemma next_row_offset c :
  on_screen c -> offset (with_video c (next_row (video_memory c))) = (offset c / 160 + 1) * 160.
Proof.
  intros [Hr _]. unfold next_row, offset in *. cbn [video_memory with_video].
  rewrite (uwrap_small 64 (video_memory c + 0xA0)), (uwrap_small 64 (_ - START_MEMORY))
    by (unfold START_MEMORY in *; lia).
  replace (video_memory c + 160 - START_MEMORY) with (video_memory c - START_MEMORY + 1 * 160) by lia.
  rewrite Z.div_add by lia.
  assert (0 <= (video_memory c - START_MEMORY) / 160 < 24)
    by (split; [apply Z.div_pos|apply Z.div_lt_upper_bound]; lia).
  rewrite uwrap_small by (unfold START_MEMORY in *; lia). lia.
Qed.

(** After one character: still on the screen, the cursor at the write position,
    nothing changed outside the 24 rows. *)
Definition within_rows (c c' : console) : Prop :=
  on_screen c' /\ cursor c' = offset c' / 2 /\
  (forall x, x < START_MEMORY \/ START_MEMORY + 24 * 160 <= x -> ram c' x = ram c x).

Lemma update_cursor_within c m :
  0 <= offset c <= 24 * 160 -> offset c mod 2 = 0 ->
  (forall x, x < START_MEMORY \/ START_MEMORY + 24 * 160 <= x -> ram c x = m x) ->
  let c' := update_cursor c in on_screen c' /\ cursor c' = offset c' / 2 /\
    (forall x, x < START_MEMORY \/ START_MEMORY + 24 * 160 <= x -> ram c' x = m x).
Proof.
  intros Hr Hm Hram. destruct (decide (offset c = 24 * 160)) as [E|E].
  - destruct (update_cursor_scroll c) as (Ho & Hc & Hx); [lia|]. cbv zeta. split_and!.
    + split; rewrite Ho; [lia|done].
    + by rewrite Hc, Ho.
    + intros x Hx'. rewrite Hx, !decide_False by lia. by apply Hram.
  - rewrite update_cursor_stay by (split; [lia|done]). cbv zeta.
    split_and!; [change (on_screen c); split; [lia|done]|done|].
    intros x Hx'. by apply Hram.
Qed.

Lemma write_char_within color ch c : on_screen c -> within_rows c (write_char color ch c).
Proof.
  intros Hs. pose proof Hs as [Hr Hm]. unfold within_rows, write_char.
  destruct ((ch =? 10) || (ch =? 13)).
  - pose proof (next_row_offset c Hs) as Ho.
    assert (0 <= offset c / 160 < 24) by (split; [apply Z.div_pos|apply Z.div_lt_upper_bound]; lia).
    apply update_cursor_within; rewrite ?Ho; [lia| |done].
    replace ((offset c / 160 + 1) * 160) with ((offset c / 160 + 1) * 80 * 2) by lia. apply Z_mod_mult.
  - assert (u64 (video_memory c + 2) = video_memory c + 2) as E
      by (apply uwrap_small; unfold offset, START_MEMORY in *; lia).
    pose proof (Z.div_mod (offset c) 2) as Hd.
    apply update_cursor_within; unfold offset in *; cbn [video_memory ram with_video with_ram]; rewrite ?E.
    + lia.
    + replace (video_memory c + 2 - START_MEMORY) with (video_memory c - START_MEMORY + 1 * 2) by lia.
      by rewrite Z_mod_plus_full.
    + intros x Hx. apply put_cell_other; lia.
Qed.

(** ** Claims *)

(** C38: however many characters are written with [write_char], from a position
    in the upper 24 rows, the write position stays there, the display
    controller is always told that position, and no byte outside those rows is
    touched; in particular the clock in row 25 survives all scrolling. *)
Theorem write_char_stays_on_screen color chs c :
  on_screen c ->
  let c' := fold_left (fun c ch => write_char color ch c) chs c in
  on_screen c' /\ (chs <> [] -> cursor c' = offset c' / 2) /\
  (forall x, x < START_MEMORY \/ START_MEMORY + 24 * 160 <= x -> ram c' x = ram c x) /\
  (forall i, 0 <= i < 16 -> ram c' (TIMER_MEMORY + i) = ram c (TIMER_MEMORY + i)).
Proof.
  intros Hs c'. subst c'.
  assert (START_MEMORY + 24 * 160 <= TIMER_MEMORY) as Ht by (vm_compute; congruence).
  revert c Hs. induction chs as [|ch chs IH]; intros c Hs; [done|]. simpl fold_left.
  destruct (write_char_within color ch c Hs) as (Hs1 & Hc1 & Hx1).
  destruct (IH _ Hs1) as (Hs2 & Hc2 & Hx2 & Ht2). split_and!; [done| | |].
  - intros _. destruct chs; [done|]. by apply Hc2.
  - intros x Hx. by rewrite Hx2, Hx1.
  - intros i Hi. rewrite Ht2, Hx1 by lia. done.
Qed.

Definition blank_console : console := Console (fun _ => 0) START_MEMORY 0 (replicate 65 0) 0 0 0.

Example write_char_stays_on_screen_witness :
  on_screen (fold_left (fun c ch => write_char 0x1F ch c) [72; 10; 105] blank_console) /\
  offset (fold_left (fun c ch => write_char 0x1F ch c) [72; 10; 105] blank_console) = 162.
Proof.
  destruct (write_char_stays_on_screen 0x1F [72; 10; 105] blank_console) as (H & _); [by_computation|].
  split; [exact H|]. vm_compute. reflexivity.
Defined.

(** Writing past the last cell of row 24 scrolls: every row shows what the
    row below showed, the last one is blank, and writing goes on at its start. *)
Theorem write_char_scrolls color ch c :
  offset c = 24 * 160 - 2 -> ch <> 10 -> ch <> 13 ->
  let c' := write_char color ch c in
  offset c' = 23 * 160 /\
  (forall row col, 0 <= row < 22 -> 0 <= col < 160 ->
     ram c' (START_MEMORY + row * 160 + col) = ram c (START_MEMORY + (row + 1) * 160 + col)) /\
  ram c' (START_MEMORY + 23 * 160 - 2) = u8 ch /\
  (forall col, 0 <= col < 80 -> ram c' (START_MEMORY + 23 * 160 + 2 * col) = 0x20).
Proof.
  intros Ho H1 H2. unfold write_char.
  destruct (Z.eqb_spec ch 10), (Z.eqb_spec ch 13); try done. cbn [orb].
  assert (u64 (video_memory c + 2) = video_memory c + 2) as E
    by (apply uwrap_small; unfold offset, START_MEMORY in *; lia).
  rewrite E. set (c1 := with_video _ _).
  destruct (update_cursor_scroll c1) as (Ho1 & _ & Hx).
  { unfold offset in *. cbn [video_memory with_video c1]. lia. }
  cbv zeta. unfold offset in Ho. split_and!; [done| | |].
  - intros row col Hrow Hcol. rewrite Hx, decide_True by lia. cbn [ram with_video with_ram c1].
    rewrite put_cell_other by lia. f_equal. lia.
  - rewrite Hx, decide_True by lia. cbn [ram with_video with_ram c1].
    replace (START_MEMORY + 23 * 160 - 2 + 160) with (video_memory c) by lia. apply put_cell_char.
  - intros col Hcol. rewrite Hx, decide_False, decide_True by lia.
    replace (START_MEMORY + 23 * 160 + 2 * col - START_MEMORY) with ((23 * 80 + col) * 2) by lia.
    by rewrite Z_mod_mult.
Qed.

Example write_char_scrolls_witness :
  offset (write_char 0x1F 65 (with_video blank_console (START_MEMORY + 24 * 160 - 2))) = 23 * 160.
Proof.
  exact (proj1 (write_char_scrolls 0x1F 65 (with_video blank_console (START_MEMORY + 24 * 160 - 2))
    eq_refl ltac:(lia) ltac:(lia))).
Defined.

(** ** What the formats do not handle *)

(** [write_string] scrolls once, at the end: after 48 line feeds from the top the
    number of bytes to move is negative, and [memcpy] is asked for almost
    4 GiB. *)
Lemma write_string_scroll_overflows :
  let c := fold_left (fun c ch => if ch =? 10 then with_video c (next_row (video_memory c)) else c)
             (replicate 48 10) blank_console in
  u64 (video_memory c - START_MEMORY) / 80 / 2 = 48 /\ scroll_bytes (48 - 24 + 1) = 2 ^ 32 - 160.
Proof. split; vm_compute; reflexivity. Qed.

(** [%d] of -1 prints 18446744073709551615. *)
Lemma printf_d_is_unsigned :
  (fun r => up_to_nul (drop (Z.to_nat r.2) r.1)) <$> convert (replicate 65 0) (u64 (-1)) 10 =
  Ret [49; 56; 52; 52; 54; 55; 52; 52; 48; 55; 51; 55; 48; 57; 53; 53; 49; 54; 49; 53].
Proof. vm_compute. reflexivity. Qed.
