(* ===== verification/Keyboard.v ===== *)
(** * The keyboard (sys/kb.c, include/sys/kb.h)

    The handler of the keyboard interrupt: scan codes to key codes, the state
    of the modifier keys, and the characters passed to the screen and to the
    buffer of a reading process; the commands to the keyboard controller. *)

From S2P Require Import Prelude CString Screen.

(** ** Key codes *)

Definition KEY_SPACE : Z := 32.
Definition KEY_0 : Z := 48.
Definition KEY_1 : Z := 49.
Definition KEY_2 : Z := 50.
Definition KEY_3 : Z := 51.
Definition KEY_4 : Z := 52.
Definition KEY_5 : Z := 53.
Definition KEY_6 : Z := 54.
Definition KEY_7 : Z := 55.
Definition KEY_8 : Z := 56.
Definition KEY_9 : Z := 57.
Definition KEY_A : Z := 97.
Definition KEY_B : Z := 98.
Definition KEY_C : Z := 99.
Definition KEY_D : Z := 100.
Definition KEY_E : Z := 101.
Definition KEY_F : Z := 102.
Definition KEY_G : Z := 103.
Definition KEY_H : Z := 104.
Definition KEY_I : Z := 105.
Definition KEY_J : Z := 106.
Definition KEY_K : Z := 107.
Definition KEY_L : Z := 108.
Definition KEY_M : Z := 109.
Definition KEY_N : Z := 110.
Definition KEY_O : Z := 111.
Definition KEY_P : Z := 112.
Definition KEY_Q : Z := 113.
Definition KEY_R : Z := 114.
Definition KEY_S : Z := 115.
Definition KEY_T : Z := 116.
Definition KEY_U : Z := 117.
Definition KEY_V : Z := 118.
Definition KEY_W : Z := 119.
Definition KEY_X : Z := 120.
Definition KEY_Y : Z := 121.
Definition KEY_Z : Z := 122.
Definition KEY_RETURN : Z := 13.
Definition KEY_ESCAPE : Z := 0x1001.
Definition KEY_BACKSPACE : Z := 8.
Definition KEY_F1 : Z := 0x1201.
Definition KEY_F2 : Z := 0x1202.
Definition KEY_F3 : Z := 0x1203.
Definition KEY_F4 : Z := 0x1204.
Definition KEY_F5 : Z := 0x1205.
Definition KEY_F6 : Z := 0x1206.
Definition KEY_F7 : Z := 0x1207.
Definition KEY_F8 : Z := 0x1208.
Definition KEY_F9 : Z := 0x1209.
Definition KEY_F10 : Z := 0x120a.
Definition KEY_F11 : Z := 0x120b.
Definition KEY_F12 : Z := 0x120b.
Definition KEY_DOT : Z := 46.
Definition KEY_COMMA : Z := 44.
Definition KEY_COLON : Z := 58.
Definition KEY_SEMICOLON : Z := 59.
Definition KEY_SLASH : Z := 47.
Definition KEY_BACKSLASH : Z := 92.
Definition KEY_PLUS : Z := 43.
Definition KEY_MINUS : Z := 45.
Definition KEY_ASTERISK : Z := 42.
Definition KEY_EXCLAMATION : Z := 33.
Definition KEY_QUESTION : Z := 63.
Definition KEY_QUOTEDOUBLE : Z := 34.
Definition KEY_QUOTE : Z := 39.
Definition KEY_EQUAL : Z := 61.
Definition KEY_HASH : Z := 35.
Definition KEY_PERCENT : Z := 37.
Definition KEY_AMPERSAND : Z := 38.
Definition KEY_UNDERSCORE : Z := 95.
Definition KEY_LEFTPARENTHESIS : Z := 40.
Definition KEY_RIGHTPARENTHESIS : Z := 41.
Definition KEY_LEFTBRACKET : Z := 91.
Definition KEY_RIGHTBRACKET : Z := 93.
Definition KEY_LEFTCURL : Z := 123.
Definition KEY_RIGHTCURL : Z := 125.
Definition KEY_DOLLAR : Z := 36.
Definition KEY_LESS : Z := 60.
Definition KEY_GREATER : Z := 62.
Definition KEY_BAR : Z := 124.
Definition KEY_GRAVE : Z := 96.
Definition KEY_TILDE : Z := 126.
Definition KEY_AT : Z := 64.
Definition KEY_CARRET : Z := 94.
Definition KEY_KP_0 : Z := 48.
Definition KEY_KP_2 : Z := 50.
Definition KEY_KP_3 : Z := 51.
Definition KEY_KP_8 : Z := 56.
Definition KEY_KP_DECIMAL : Z := 46.
Definition KEY_KP_ASTERISK : Z := 42.
Definition KEY_KP_NUMLOCK : Z := 0x300f.
Definition KEY_TAB : Z := 0x4000.
Definition KEY_CAPSLOCK : Z := 0x4001.
Definition KEY_LSHIFT : Z := 0x4002.
Definition KEY_LCTRL : Z := 0x4003.
Definition KEY_LALT : Z := 0x4004.
Definition KEY_RSHIFT : Z := 0x4006.
Definition KEY_RCTRL : Z := 0x4007.
Definition KEY_RALT : Z := 0x4008.
Definition KEY_HOME : Z := 0x400c.
Definition KEY_PAGEUP : Z := 0x400e.
Definition KEY_SCROLLLOCK : Z := 0x4010.
Definition KEY_UNKNOWN : Z := 0x4012.

Definition scan_code : list Z := [
  KEY_UNKNOWN; KEY_ESCAPE; KEY_1; KEY_2; KEY_3; KEY_4; KEY_5; KEY_6;
  KEY_7; KEY_8; KEY_9; KEY_0; KEY_MINUS; KEY_EQUAL; KEY_BACKSPACE; KEY_TAB;
  KEY_Q; KEY_W; KEY_E; KEY_R; KEY_T; KEY_Y; KEY_U; KEY_I;
  KEY_O; KEY_P; KEY_LEFTBRACKET; KEY_RIGHTBRACKET; KEY_RETURN; KEY_LCTRL; KEY_A; KEY_S;
  KEY_D; KEY_F; KEY_G; KEY_H; KEY_J; KEY_K; KEY_L; KEY_SEMICOLON;
  KEY_QUOTE; KEY_GRAVE; KEY_LSHIFT; KEY_BACKSLASH; KEY_Z; KEY_X; KEY_C; KEY_V;
  KEY_B; KEY_N; KEY_M; KEY_COMMA; KEY_DOT; KEY_SLASH; KEY_RSHIFT; KEY_KP_ASTERISK;
  KEY_RALT; KEY_SPACE; KEY_CAPSLOCK; KEY_F1; KEY_F2; KEY_F3; KEY_F4; KEY_F5;
  KEY_F6; KEY_F7; KEY_F8; KEY_F9; KEY_F10; KEY_KP_NUMLOCK; KEY_SCROLLLOCK; KEY_HOME;
  KEY_KP_8; KEY_PAGEUP; KEY_KP_2; KEY_KP_3; KEY_KP_0; KEY_KP_DECIMAL; KEY_UNKNOWN; KEY_UNKNOWN;
  KEY_UNKNOWN; KEY_F11; KEY_F12].

(** What lies in memory after the 83 entries of the table: scan codes beyond them
    are read from there. *)
Definition scan_entry (beyond : Z -> Z) (code : Z) : Z :=
  match scan_code !! Z.to_nat code with Some k => k | None => beyond code end.

(** ** State *)

Record keyboard := Keyboard { _shift : bool; _ctrl : bool; _caps : bool; _alt : bool }.

#[export] Instance keyboard_eq_dec : EqDecision keyboard.
Proof. solve_decision. Defined.

Definition KYBRD_ENC_INPUT_BUF : Z := 0x60.
Definition KYBRD_ENC_CMD_REG : Z := 0x60.
Definition KYBRD_CTRL_STATS_REG : Z := 0x64.
Definition KYBRD_CTRL_CMD_REG : Z := 0x64.
Definition KYBRD_CTRL_STATS_MASK_OUT_BUF : Z := 1.
Definition KYBRD_CTRL_STATS_MASK_IN_BUF : Z := 2.

Definition in_list (k : Z) (l : list Z) : bool := existsb (Z.eqb k) l.

Definition shifted_digit (key : Z) : Z :=
  if key =? 48 then KEY_RIGHTPARENTHESIS else if key =? 49 then KEY_EXCLAMATION
  else if key =? 50 then KEY_AT else if key =? 51 then KEY_HASH
  else if key =? 52 then KEY_DOLLAR else if key =? 53 then KEY_PERCENT
  else if key =? 54 then KEY_CARRET else if key =? 55 then KEY_AMPERSAND
  else if key =? 56 then KEY_ASTERISK else if key =? 57 then KEY_LEFTPARENTHESIS else key.

Definition shifted_symbol (key : Z) : Z :=
  if key =? KEY_COMMA then KEY_LESS else if key =? KEY_DOT then KEY_GREATER
  else if key =? KEY_SLASH then KEY_QUESTION else if key =? KEY_SEMICOLON then KEY_COLON
  else if key =? KEY_QUOTE then KEY_QUOTEDOUBLE else if key =? KEY_LEFTBRACKET then KEY_LEFTCURL
  else if key =? KEY_RIGHTBRACKET then KEY_RIGHTCURL else if key =? KEY_MINUS then KEY_UNDERSCORE
  else if key =? KEY_PLUS then KEY_EQUAL else if key =? KEY_BACKSLASH then KEY_BAR
  else if key =? KEY_GRAVE then KEY_TILDE else key.

(** The parameter is a byte, the result a [char]. *)
Definition keycode_to_ascii (kb : keyboard) (code : Z) : Z :=
  let key := u8 code in
  s8 (if _shift kb || _caps kb then
        if (97 <=? key) && (key <=? 122) then key - 32
        else if (48 <=? key) && (key <=? 57) then shifted_digit key
        else shifted_symbol key
      else key).

(** [status] and [scancode] are what the controller's two ports read. *)
Definition keyboard_handler (beyond : Z -> Z) (status scancode : Z) (kb : keyboard) (c : console)
    : keyboard * console :=
  if Z.land status KYBRD_CTRL_STATS_MASK_OUT_BUF =? 0 then (kb, c) else
  if (scancode =? 0xE0) || (scancode =? 0xE1) then (kb, c) else
  if negb (Z.land scancode 0x80 =? 0) then
    let key := scan_entry beyond (u8 (scancode - 0x80)) in
    if in_list key [KEY_LCTRL; KEY_RCTRL] then
      (Keyboard (_shift kb) false (_caps kb) (_alt kb), c)
    else if in_list key [KEY_LSHIFT; KEY_RSHIFT] then
      (Keyboard false (_ctrl kb) (_caps kb) (_alt kb), c)
    else if in_list key [KEY_LALT; KEY_RALT] then
      (Keyboard (_shift kb) (_ctrl kb) (_caps kb) false, c)
    else (kb, c)
  else
    let key := scan_entry beyond scancode in
    if in_list key [KEY_LCTRL; KEY_RCTRL] then
      (Keyboard (_shift kb) true (_caps kb) (_alt kb), c)
    else if in_list key [KEY_LSHIFT; KEY_RSHIFT] then
      (Keyboard true (_ctrl kb) (_caps kb) (_alt kb), c)
    else if in_list key [KEY_LALT; KEY_RALT] then
      (Keyboard (_shift kb) (_ctrl kb) (_caps kb) true, c)
    else if key =? KEY_CAPSLOCK then
      (Keyboard (_shift kb) (_ctrl kb) (negb (_caps kb)) (_alt kb), c)
    else
      let c := write_char TEXT_COLOR (keycode_to_ascii kb key) c in
      (kb, if negb (reading c =? 0) then write_io_buff (keycode_to_ascii kb key) c else c).

(** A sequence of scan codes, each with its interrupt. *)
Definition type_codes (beyond : Z -> Z) (codes : list Z) (s : keyboard * console) : keyboard * console :=
  fold_left (fun s code => keyboard_handler beyond 1 code s.1 s.2) codes s.

(** ** The keys of a line *)

(** Make codes whose table entry is a character other than Return. *)
Definition char_code (code : Z) : bool :=
  (0 <=? code) && (code <? 83) &&
  (let k := scan_entry (fun _ => 0) code in (32 <=? k) && (k <? 127)).

Lemma char_code_range code : char_code code = true -> 0 <= code < 83.
Proof.
  unfold char_code. destruct (Z.leb_spec 0 code), (Z.ltb_spec code 83); simpl; done || lia.
Qed.

(** A property of the table checked on all its entries. *)
Lemma table_forall (P : Z -> bool) :
  forallb P (seqZ 0 83) = true -> forall code, 0 <= code < 83 -> P code = true.
Proof.
  intros H code Hc. rewrite List.forallb_forall in H. apply H. apply list_elem_of_In, elem_of_seqZ. lia.
Qed.

(** The handler on such a key prints and records its character. *)
Lemma handler_char beyond code kb c :
  char_code code = true ->
  let ch := keycode_to_ascii kb (scan_entry beyond code) in
  keyboard_handler beyond 1 code kb c =
    (kb, let c := write_char TEXT_COLOR ch c in if negb (reading c =? 0) then write_io_buff ch c else c) /\
  32 <= ch < 127.
Proof.
  intros Hcc. pose proof (char_code_range code Hcc) as Hr.
  set (P := fun code : Z => implb (char_code code)
    (negb ((code =? 0xE0) || (code =? 0xE1)) && (Z.land code 0x80 =? 0) &&
     negb (in_list (scan_entry (fun _ => 0) code)
       [KEY_LCTRL; KEY_RCTRL; KEY_LSHIFT; KEY_RSHIFT; KEY_LALT; KEY_RALT; KEY_CAPSLOCK]) &&
     forallb (fun kb => let ch := keycode_to_ascii kb (scan_entry (fun _ => 0) code) in
                (32 <=? ch) && (ch <? 127))
       [Keyboard false false false false; Keyboard true false false false])).
  assert (P code = true) as HP by (apply table_forall; [vm_compute; reflexivity|done]).
  unfold P in HP. rewrite Hcc in HP. cbn [implb] in HP.
  apply andb_true_iff in HP as [HP Hch]. apply andb_true_iff in HP as [HP Hmod].
  apply andb_true_iff in HP as [He0 H80].
  assert (scan_entry beyond code = scan_entry (fun _ => 0) code) as Hbe.
  { unfold scan_entry. destruct (lookup_lt_is_Some_2 scan_code (Z.to_nat code)) as [k ->]; [|done].
    change (length scan_code) with 83%nat. lia. }
  cbv zeta. rewrite !Hbe. set (k := scan_entry (fun _ => 0) code) in *.
  apply negb_true_iff in Hmod. unfold in_list in Hmod. cbn [existsb] in Hmod.
  repeat (apply orb_false_iff in Hmod as [? Hmod]).
  assert (forall kb', keycode_to_ascii kb k = keycode_to_ascii kb' k \/ _shift kb || _caps kb <> _shift kb' || _caps kb')
    as Hkb.
  { intros kb'. unfold keycode_to_ascii. destruct (_shift kb || _caps kb), (_shift kb' || _caps kb'); auto. }
  cbv zeta. split.
  - unfold keyboard_handler. change (Z.land 1 KYBRD_CTRL_STATS_MASK_OUT_BUF =? 0) with false.
    apply negb_true_iff in He0. rewrite He0, H80, Hbe. cbn [negb]. unfold in_list. cbn [existsb].
    repeat match goal with H : (_ =? _) = false |- _ => rewrite H; clear H end. done.
  - cbn [forallb] in Hch. apply andb_true_iff in Hch as [Hc1 Hc2].
    apply andb_true_iff in Hc2 as [Hc2 _].
    destruct (_shift kb || _caps kb) eqn:E.
    + destruct (Hkb (Keyboard true false false false)) as [->|Hn]; [|exfalso; by apply Hn].
      apply andb_true_iff in Hc2 as [?%Z.leb_le ?%Z.ltb_lt]. lia.
    + destruct (Hkb (Keyboard false false false false)) as [->|Hn]; [|exfalso; by apply Hn].
      apply andb_true_iff in Hc1 as [?%Z.leb_le ?%Z.ltb_lt]. lia.
Qed.

Lemma write_char_io color ch c :
  io_buff (write_char color ch c) = io_buff c /\ reading (write_char color ch c) = reading c /\
  first_char (write_char color ch c) = first_char c.
Proof.
  unfold write_char, update_cursor. cbv zeta.
  destruct ((ch =? 10) || (ch =? 13)); destruct (24 <=? _); done.
Qed.

(** The bytes of the buffer are off the screen. *)
Definition off_screen (a : Z) : Prop := a < START_MEMORY \/ START_MEMORY + 24 * 160 <= a.

(** One key, echoed on the screen and recorded in the buffer. *)
Lemma echo_and_record ch c :
  on_screen c -> reading c <> 0 -> 32 <= ch < 127 -> off_screen (io_buff c) -> 0 <= io_buff c < 2 ^ 64 - 1 ->
  let c' := (let c := write_char TEXT_COLOR ch c in if negb (reading c =? 0) then write_io_buff ch c else c) in
  on_screen c' /\ reading c' = reading c /\ first_char c' = 1 /\ io_buff c' = io_buff c + 1 /\
  ram c' (io_buff c) = ch /\
  (forall a, off_screen a -> a <> io_buff c -> ram c' a = ram c a).
Proof.
  intros Hs Hrd Hch Hoff Hfit. cbv zeta. destruct (write_char_io TEXT_COLOR ch c) as (Ei & Er & Ef).
  destruct (write_char_within TEXT_COLOR ch c Hs) as (Hs1 & _ & Hx).
  rewrite Er. destruct (Z.eqb_spec (reading c) 0); [done|]. cbn [negb].
  unfold write_io_buff. destruct (Z.eqb_spec ch 10), (Z.eqb_spec ch 13); try lia. cbn [orb].
  cbn [on_screen reading first_char io_buff ram with_io with_ram]. rewrite Ei, Er.
  split_and!; [exact Hs1|done|done|apply uwrap_small; lia| |].
  - unfold store8. rewrite Z.eqb_refl. apply uwrap_small. lia.
  - intros a Ha Hne. unfold store8. destruct (Z.eqb_spec a (io_buff c)); [done|]. by apply Hx.
Qed.

(** The characters of a row of keys land in the buffer in their order. *)
Lemma type_chars beyond codes kb c :
  Forall (fun code => char_code code = true) codes -> on_screen c -> reading c <> 0 ->
  (forall i, 0 <= i < Z.of_nat (length codes) -> off_screen (io_buff c + i)) -> 0 <= io_buff c ->
  io_buff c + Z.of_nat (length codes) < 2 ^ 64 ->
  exists c', type_codes beyond codes (kb, c) = (kb, c') /\ on_screen c' /\ reading c' = reading c /\
    io_buff c' = io_buff c + Z.of_nat (length codes) /\ (codes <> [] -> first_char c' = 1) /\
    (forall i code, codes !! i = Some code ->
       ram c' (io_buff c + Z.of_nat i) = keycode_to_ascii kb (scan_entry beyond code)) /\
    (forall a, off_screen a -> a < io_buff c \/ io_buff c + Z.of_nat (length codes) <= a -> ram c' a = ram c a).
Proof.
  revert c. induction codes as [|code codes IH]; intros c Hall Hs Hrd Hoff Hpos Hfit.
  - exists c. split_and!; try done. simpl. lia.
  - apply Forall_cons in Hall as [Hc Hall]. simpl length in *.
    destruct (handler_char beyond code kb c Hc) as [E Hch]. cbv zeta in E.
    set (ch := keycode_to_ascii kb (scan_entry beyond code)) in *.
    assert (off_screen (io_buff c)) as Hoff0 by (rewrite <- (Z.add_0_r (io_buff c)); apply Hoff; lia).
    destruct (echo_and_record ch c Hs Hrd Hch Hoff0) as (Hs1 & Hr1 & Hf1 & Hi1 & Hm1 & Hk1); [lia|].
    cbv zeta in Hs1, Hr1, Hf1, Hi1, Hm1, Hk1. set (c1 := if negb _ then _ else _) in *.
    destruct (IH c1) as (c' & E' & Hs' & Hr' & Hi' & Hf' & Hm' & Hk'); rewrite ?Hi1, ?Hr1; try done; try lia.
    { intros i Hi. replace (io_buff c + 1 + i) with (io_buff c + (i + 1)) by lia. apply Hoff. lia. }
    exists c'. unfold type_codes in *. simpl fold_left. rewrite E. split_and!; [done|done|congruence|lia| | |].
    + intros _. destruct codes; [|by apply Hf']. simpl in E'. by injection E' as <-.
    + intros [|i] x Hx; simpl in Hx.
      * injection Hx as <-. rewrite Z.add_0_r. rewrite Hk' by (done || lia). exact Hm1.
      * rewrite <- (Hm' i x Hx), Hi1. f_equal. lia.
    + intros a Ha Hlt. rewrite Hk' by (done || lia). apply Hk1; [done|lia].
Qed.

(** A line: its characters and the carriage return fill the buffer from its
    start, the other bytes off the screen stay, and the reading ends. *)
Lemma type_line beyond codes kb c :
  Forall (fun code => char_code code = true) codes -> codes <> [] -> on_screen c -> reading c <> 0 ->
  (forall i, 0 <= i <= Z.of_nat (length codes) -> off_screen (io_buff c + i)) -> 0 <= io_buff c ->
  io_buff c + Z.of_nat (length codes) + 1 < 2 ^ 64 ->
  exists c', type_codes beyond (codes ++ [0x1c]) (kb, c) = (kb, c') /\ reading c' = 0 /\
    io_buff c' = io_buff c + Z.of_nat (length codes) + 1 /\
    (forall i code, codes !! i = Some code ->
       ram c' (io_buff c + Z.of_nat i) = keycode_to_ascii kb (scan_entry beyond code)) /\
    ram c' (io_buff c + Z.of_nat (length codes)) = 13 /\ on_screen c' /\
    (forall a, off_screen a -> ~ (io_buff c <= a <= io_buff c + Z.of_nat (length codes)) -> ram c' a = ram c a).
Proof.
  intros Hall Hne Hs Hrd Hoff Hpos Hfit.
  destruct (type_chars beyond codes kb c) as (c1 & E1 & Hs1 & Hr1 & Hi1 & Hf1 & Hm1 & Hk1); try done.
  { intros i Hi. apply Hoff. lia. }
  { lia. }
  unfold type_codes in *. rewrite fold_left_app, E1. simpl fold_left.
  assert (keycode_to_ascii kb (scan_entry beyond 0x1c) = 13) as Ek.
  { unfold keycode_to_ascii. change (scan_entry beyond 0x1c) with 13. destruct (_shift kb || _caps kb); done. }
  unfold keyboard_handler. change (Z.land 1 KYBRD_CTRL_STATS_MASK_OUT_BUF =? 0) with false.
  change (scan_entry beyond 28) with 13. change ((28 =? 224) || (28 =? 225)) with false.
  change (negb (Z.land 28 128 =? 0)) with false. cbn [in_list existsb].
  change (scan_entry beyond 28) with 13 in Ek.
  change (13 =? KEY_CAPSLOCK) with false.
  change (in_list 13 [KEY_LCTRL; KEY_RCTRL]) with false. change (in_list 13 [KEY_LSHIFT; KEY_RSHIFT]) with false.
  change (in_list 13 [KEY_LALT; KEY_RALT]) with false. rewrite Ek.
  destruct (write_char_io TEXT_COLOR 13 c1) as (Ei & Er & Ef).
  destruct (write_char_within TEXT_COLOR 13 c1 Hs1) as (Hs2 & _ & Hx).
  rewrite Er, Hr1. destruct (Z.eqb_spec (reading c) 0); [done|]. cbn [negb].
  unfold write_io_buff. change ((13 =? 10) || (13 =? 13)) with true. rewrite Ef, (Hf1 Hne). cbn [negb Z.eqb].
  eexists. split; [done|]. cbn [reading io_buff ram with_io with_ram]. rewrite Ei, Hi1.
  split_and!; [done|apply uwrap_small; lia| | |exact Hs2|].
  - intros i code Hi. pose proof (lookup_lt_Some _ _ _ Hi). unfold store8.
    destruct (Z.eqb_spec (io_buff c + Z.of_nat i) (io_buff c + Z.of_nat (length codes))); [lia|].
    rewrite Hx by (apply Hoff; lia). by apply Hm1.
  - unfold store8. by rewrite Z.eqb_refl.
  - intros a Ha Hne'. unfold store8.
    destruct (Z.eqb_spec a (io_buff c + Z.of_nat (length codes))); [lia|].
    rewrite Hx by done. apply Hk1; [done|lia].
Qed.

(** ** Claims *)

(** C39: typing a line while a process waits for input: the characters of the
    keys, in order and with the case the modifiers give, then the carriage
    return, fill the process's buffer from its start; the return ends the
    reading, and the modifiers are as before. *)
Theorem keyboard_line beyond codes kb c :
  Forall (fun code => char_code code = true) codes -> codes <> [] -> on_screen c -> reading c <> 0 ->
  (forall i, 0 <= i <= Z.of_nat (length codes) -> off_screen (io_buff c + i)) -> 0 <= io_buff c ->
  io_buff c + Z.of_nat (length codes) + 1 < 2 ^ 64 ->
  exists c', type_codes beyond (codes ++ [0x1c]) (kb, c) = (kb, c') /\ reading c' = 0 /\
    io_buff c' = io_buff c + Z.of_nat (length codes) + 1 /\
    (forall i code, codes !! i = Some code ->
       ram c' (io_buff c + Z.of_nat i) = keycode_to_ascii kb (scan_entry beyond code)) /\
    ram c' (io_buff c + Z.of_nat (length codes)) = 13.
Proof.
  intros Hall Hne Hs Hrd Hoff Hpos Hfit.
  destruct (type_line beyond codes kb c) as (c' & E & Hr & Hi & Hm & H13 & _); [done..|]. by exists c'.
Qed.

Definition waiting_console : console := Console (fun _ => 0) START_MEMORY 0 (replicate 65 0) 0x5000 1 0.

(** The keys H and I with Shift held, then Return. *)
Example keyboard_line_witness :
  exists c', type_codes (fun _ => 0) [0x23; 0x17; 0x1c] (Keyboard true false false false, waiting_console) =
      (Keyboard true false false false, c') /\
    reading c' = 0 /\ ram c' 0x5000 = 72 /\ ram c' 0x5002 = 13.
Proof.
  destruct (keyboard_line (fun _ => 0) [0x23; 0x17] (Keyboard true false false false) waiting_console)
    as (c' & E & Hr & _ & Hm & H13).
  - by_computation.
  - discriminate.
  - by_computation.
  - discriminate.
  - intros i Hi. left. simpl in Hi |- *. unfold START_MEMORY. lia.
  - simpl. lia.
  - simpl. lia.
  - exists c'. split; [exact E|]. split; [exact Hr|]. split; [exact (Hm 0%nat 0x23 eq_refl)|exact H13].
Defined.

(** A break code prints nothing and records nothing, leaves the caps state,
    and releases exactly the modifier its key belongs to; the left and the right
    key of a pair share one flag. *)
Theorem keyboard_break beyond code kb c :
  0 <= code < 83 ->
  let key := scan_entry beyond code in
  keyboard_handler beyond 1 (code + 0x80) kb c =
    (Keyboard (_shift kb && negb (in_list key [KEY_LSHIFT; KEY_RSHIFT]))
              (_ctrl kb && negb (in_list key [KEY_LCTRL; KEY_RCTRL]))
              (_caps kb)
              (_alt kb && negb (in_list key [KEY_LALT; KEY_RALT])), c).
Proof.
  intros Hc key.
  set (P := fun code : Z => negb ((code + 0x80 =? 0xE0) || (code + 0x80 =? 0xE1)) &&
    negb (Z.land (code + 0x80) 0x80 =? 0) && (u8 (code + 0x80 - 0x80) =? code)).
  assert (P code = true) as HP by (apply table_forall; [vm_compute; reflexivity|done]).
  unfold P in HP. apply andb_true_iff in HP as [HP Hu%Z.eqb_eq].
  apply andb_true_iff in HP as [He%negb_true_iff H80].
  unfold keyboard_handler. change (Z.land 1 KYBRD_CTRL_STATS_MASK_OUT_BUF =? 0) with false.
  rewrite He, H80, Hu. fold key. destruct kb as [s ct ca al]. cbn [_shift _ctrl _caps _alt].
  destruct (in_list key [KEY_LCTRL; KEY_RCTRL]) eqn:E1.
  - assert (in_list key [KEY_LSHIFT; KEY_RSHIFT] = false /\ in_list key [KEY_LALT; KEY_RALT] = false) as [-> ->].
    { unfold in_list in E1 |- *. cbn [existsb] in *.
      destruct (Z.eqb_spec key KEY_LCTRL) as [->|]; [done|].
      destruct (Z.eqb_spec key KEY_RCTRL) as [->|]; [done|done]. }
    by rewrite ?andb_true_r, ?andb_false_r.
  - destruct (in_list key [KEY_LSHIFT; KEY_RSHIFT]) eqn:E2.
    + assert (in_list key [KEY_LALT; KEY_RALT] = false) as ->.
      { unfold in_list in E2 |- *. cbn [existsb] in *.
        destruct (Z.eqb_spec key KEY_LSHIFT) as [->|]; [done|].
        destruct (Z.eqb_spec key KEY_RSHIFT) as [->|]; [done|done]. }
      by rewrite ?andb_true_r, ?andb_false_r.
    + destruct (in_list key [KEY_LALT; KEY_RALT]); by rewrite ?andb_true_r, ?andb_false_r.
Qed.

Example keyboard_break_witness :
  keyboard_handler (fun _ => 0) 1 0xAA (Keyboard true true false true) waiting_console =
    (Keyboard false true false true, waiting_console).
Proof. exact (keyboard_break (fun _ => 0) 0x2a (Keyboard true true false true) waiting_console ltac:(lia)). Defined.

(** ** What the tables hold *)

(** With Shift the key marked = gives =, not +: the case tests for [KEY_PLUS],
    which no scan code yields. *)
Lemma shift_equal_gives_equal :
  keycode_to_ascii (Keyboard true false false false) (scan_entry (fun _ => 0) 0x0d) = 61 /\
  Forall (fun k => k <> KEY_PLUS) scan_code.
Proof. split; [vm_compute; reflexivity|by_computation]. Qed.

(** The six codes 0x4a to 0x4f have no entries, so the entries the comments give
    for 0x50 to 0x58 are found six codes earlier. *)
Lemma table_shifted :
  scan_code !! Z.to_nat 0x4a = Some KEY_KP_2 /\ scan_code !! Z.to_nat 0x50 = Some KEY_UNKNOWN /\
  scan_code !! Z.to_nat 0x58 = None.
Proof. split_and!; reflexivity. Qed.

(** ** Commands to the controller

    Port 0x64 gives the status when it is read and takes a command when it is
    written, port 0x60 the same for data.  What the device answers is a sequence
    for each port, and a run that asks for more than the sequence holds is still
    waiting. *)
Record ports := Ports { statuses : list Z; inputs : list Z; outputs : list (Z * Z) }.

Definition inb (port : Z) (d : ports) : outcome (ports * Z) :=
  if port =? KYBRD_CTRL_STATS_REG then
    match statuses d with
    | [] => Loops
    | s :: l => Ret (Ports l (inputs d) (outputs d), s)
    end
  else
    match inputs d with
    | [] => Loops
    | b :: l => Ret (Ports (statuses d) l (outputs d), b)
    end.

Definition outb (port value : Z) (d : ports) : ports :=
  Ports (statuses d) (inputs d) (outputs d ++ [(port, value)]).

Definition kybrd_ctrl_read_status (d : ports) : outcome (ports * Z) := inb KYBRD_CTRL_STATS_REG d.

Definition keybrd_enc_read_buf (d : ports) : outcome (ports * Z) := inb KYBRD_ENC_INPUT_BUF d.

(** [while (1)]: the status is read until the input buffer is clear; [n] is the
    number of answers there are. *)
Fixpoint wait_input_clear (n : nat) (d : ports) : outcome ports :=
  r ← kybrd_ctrl_read_status d;
  if Z.land r.2 KYBRD_CTRL_STATS_MASK_IN_BUF =? 0 then Ret r.1 else
  match n with
  | O => Loops
  | S n => wait_input_clear n r.1
  end.

Definition kybrd_ctrl_send_cmd (cmd : Z) (d : ports) : outcome ports :=
  d ← wait_input_clear (List.length (statuses d)) d; Ret (outb KYBRD_CTRL_CMD_REG cmd d).

Definition kybrd_enc_send_cmd (cmd : Z) (d : ports) : outcome ports :=
  d ← wait_input_clear (List.length (statuses d)) d; Ret (outb KYBRD_ENC_CMD_REG cmd d).

(** The interrupt with the ports it reads: the data port only when the status
    says there is a code. *)
Definition keyboard_interrupt (beyond : Z -> Z) (d : ports) (kb : keyboard) (c : console)
  : outcome (ports * (keyboard * console)) :=
  r ← kybrd_ctrl_read_status d;
  if Z.land r.2 KYBRD_CTRL_STATS_MASK_OUT_BUF =? 0 then Ret (r.1, (kb, c)) else
  b ← keybrd_enc_read_buf r.1;
  Ret (b.1, keyboard_handler beyond r.2 b.2 kb c).

Definition input_full (s : Z) : Prop := Z.testbit s 1 = true.

Lemma land_bit s n : 0 <= n -> (Z.land s (2 ^ n) =? 0) = negb (Z.testbit s n).
Proof.
  intros Hn. destruct (Z.testbit s n) eqn:E; cbn [negb].
  - apply Z.eqb_neq. intros H. apply (f_equal (fun z => Z.testbit z n)) in H.
    by rewrite Z.land_spec, E, Z.pow2_bits_true, Z.bits_0 in H.
  - apply Z.eqb_eq. bitwise i Hi. rewrite Z.pow2_bits_eqb by done.
    destruct (Z.eqb_spec n i) as [<-|]; [by rewrite E|apply andb_false_r].
Qed.

Lemma input_full_test s : (Z.land s KYBRD_CTRL_STATS_MASK_IN_BUF =? 0) = negb (Z.testbit s 1).
Proof. by apply (land_bit s 1). Qed.

(** The wait takes the statuses up to the first that is clear. *)
Lemma wait_input_clear_spec busy s l i o n :
  Forall input_full busy -> ~ input_full s -> (List.length busy <= n)%nat ->
  wait_input_clear n (Ports (busy ++ s :: l) i o) = Ret (Ports l i o).
Proof.
  intros Hb Hs. apply not_true_is_false in Hs. revert n.
  induction Hb as [|b busy Hb Hbs IH]; intros n Hn; cbn in Hn.
  - destruct n; cbn; by rewrite input_full_test, Hs.
  - destruct n as [|n]; [lia|]. cbn. rewrite input_full_test, Hb. apply IH. lia.
Qed.

(** Both commands: nothing is written while the controller's input buffer is
    full, and the command is written, once and to its port, when it is clear. *)
Lemma send_cmd_waits busy s l i o cmd :
  Forall input_full busy -> ~ input_full s ->
  kybrd_ctrl_send_cmd cmd (Ports (busy ++ s :: l) i o) = Ret (Ports l i (o ++ [(KYBRD_CTRL_CMD_REG, cmd)])) /\
  kybrd_enc_send_cmd cmd (Ports (busy ++ s :: l) i o) = Ret (Ports l i (o ++ [(KYBRD_ENC_CMD_REG, cmd)])).
Proof.
  intros Hb Hs. unfold kybrd_ctrl_send_cmd, kybrd_enc_send_cmd.
  rewrite (wait_input_clear_spec busy s l i o) by (done || (cbn; rewrite length_app; lia)). done.
Qed.

(** A controller that never takes its input leaves the kernel waiting, whatever
    the number of answers. *)
Lemma send_cmd_stuck busy i o cmd :
  Forall input_full busy -> kybrd_ctrl_send_cmd cmd (Ports busy i o) = Loops.
Proof.
  intros Hb. unfold kybrd_ctrl_send_cmd. enough (forall n, wait_input_clear n (Ports busy i o) = Loops) as -> by done.
  induction Hb as [|b busy Hb Hbs IH]; intros n; [by destruct n|].
  destruct n as [|n]; cbn; rewrite input_full_test, Hb; [done|]. apply IH.
Qed.

(** With a code waiting the interrupt is the handler on it; without one it reads
    no data and changes nothing. *)
Lemma keyboard_interrupt_spec beyond s l i o kb c :
  keyboard_interrupt beyond (Ports (s :: l) i o) kb c =
    if Z.testbit s 0 then
      match i with
      | [] => Loops
      | b :: i => Ret (Ports l i o, keyboard_handler beyond s b kb c)
      end
    else Ret (Ports l i o, (kb, c)).
Proof.
  rewrite <- (negb_involutive (Z.testbit s 0)), <- (land_bit s 0) by lia.
  change (2 ^ 0) with KYBRD_CTRL_STATS_MASK_OUT_BUF. unfold keyboard_interrupt. cbn.
  destruct (_ =? 0); [|destruct i]; done.
Qed.
