(* ===== verification/Input.v ===== *)
(** * Reading from the terminal (doread in sys/isr.c)

    The [read] system call on the keyboard: it claims the input buffer, waits
    for the keyboard of Keyboard.v to end the line on the console of Screen.v,
    and copies the buffer to the process. *)

From S2P Require Import Prelude CString Memory Screen Keyboard.

(** ** State *)

(** [reading_finished] is 0 while a process reads; [reading] is in the
    console. *)
Record input := Input { keys : keyboard; con : console; reading_finished : Z }.

(** [char iobuff[1024]] *)
Definition IOBUFF_SIZE : Z := 1024.

(** ** Operations *)

(** [-1], here [None], while another process reads. *)
Definition claim_buffer (iobuff : Z) (s : input) : option input :=
  if (reading (con s) =? 1) || (reading_finished s =? 0) then None
  else Some (Input (keys s) (with_io (con s) iobuff 1 (first_char (con s))) 0).

(** After the loop on [reading]: the copy, without a terminator, and the length
    of what the process's buffer now holds. *)
Definition take_line (iobuff buf : Z) (s : input) : outcome (input * Z) :=
  let c := con s in
  n ← strlen STRING_BOUND (ram c) iobuff;
  let c := with_ram c (memcpy (Z.to_nat n) (ram c) buf iobuff) in
  k ← strlen STRING_BOUND (ram c) buf;
  Ret (Input (keys s) (with_io c (io_buff c) 0 (first_char c)) 1, k).

(** [doread(buf, STDIN, cnt)]: [codes] are the keys typed while it waits. *)
Definition doread (beyond : Z -> Z) (iobuff : Z) (codes : list Z) (s : input) (buf : Z) : outcome (input * Z) :=
  match claim_buffer iobuff s with
  | None => Ret (s, -1)
  | Some s =>
    let r := type_codes beyond codes (keys s, con s) in
    if reading r.2 =? 1 then Loops else take_line iobuff buf (Input r.1 r.2 (reading_finished s))
  end.

(** ** Buffers *)

(** A buffer of [n] bytes with the string [s] and zeros after it. *)
Definition buffer (m : bytes) (p n : Z) (s : list Z) : Prop :=
  forall i, 0 <= i < n -> m (p + i) = List.nth (Z.to_nat i) s 0.

Definition text (s : list Z) : Prop := Forall (fun c => 0 < c < 256) s.

#[export] Instance text_dec s : Decision (text s).
Proof. unfold text. apply _. Defined.

Lemma zeroed_buffer_cstr m p n s : buffer m p n s -> text s -> Z.of_nat (length s) < n -> cstr m p s.
Proof.
  intros Hb Ht Hn. split_and!; [|done|].
  - intros i c Hi. pose proof (lookup_lt_Some _ _ _ Hi). rewrite Hb, Nat2Z.id by lia.
    by apply nth_lookup_Some.
  - rewrite Hb, Nat2Z.id by lia. by apply List.nth_overflow.
Qed.

(** ** Copying the line *)

Lemma take_line_spec iobuff buf s l :
  buffer (ram (con s)) iobuff IOBUFF_SIZE l -> text l -> Z.of_nat (length l) < IOBUFF_SIZE ->
  buffer (ram (con s)) buf IOBUFF_SIZE [] -> apart buf IOBUFF_SIZE iobuff IOBUFF_SIZE ->
  exists s', take_line iobuff buf s = Ret (s', Z.of_nat (length l)) /\
    cstr (ram (con s')) buf l /\ buffer (ram (con s')) iobuff IOBUFF_SIZE l /\
    keys s' = keys s /\ reading (con s') = 0 /\ reading_finished s' = 1.
Proof.
  intros Hb Ht Hl Hz Hap. unfold take_line, IOBUFF_SIZE, apart in *. pose proof STRING_BOUND_eq.
  step (strlen_bounded _ _ _ (zeroed_buffer_cstr _ _ _ _ Hb Ht Hl) ltac:(lia)).
  rewrite Nat2Z.id. set (m := memcpy _ _ _ _).
  assert (forall x, m x = if decide (buf <= x < buf + Z.of_nat (length l)) then ram (con s) (x + (iobuff - buf)) else ram (con s) x) as Hm.
  { intros x. unfold m. apply memcpy_apart. unfold apart. lia. }
  assert (buffer m buf 1024 l) as Hbuf.
  { intros i Hi. rewrite Hm. destruct (decide _) as [Hin|Hout].
    - rewrite <- Hb by lia. f_equal. lia.
    - rewrite Hz, !List.nth_overflow by (simpl; lia). done. }
  assert (buffer m iobuff 1024 l) as Hio.
  { intros i Hi. rewrite Hm, decide_False by lia. by apply Hb. }
  cbn [ram with_ram]. step (strlen_bounded _ _ _ (zeroed_buffer_cstr _ _ _ _ Hbuf Ht Hl) ltac:(lia)).
  eexists. split; [done|]. split_and!; [|exact Hio|done..]. exact (zeroed_buffer_cstr _ _ _ _ Hbuf Ht Hl).
Qed.

(** ** Claims *)

(** C29: [read] from the terminal returns the line typed, with its carriage
    return, followed by what an earlier longer line left in the input buffer:
    the buffer is not cleared and gets no terminator.  The buffer must be off
    the screen, the line shorter than it, and the process's own buffer, which
    gets no terminator either, zeroed. *)
Theorem doread_line beyond iobuff codes s buf old :
  Forall (fun code => char_code code = true) codes -> codes <> [] -> on_screen (con s) ->
  reading (con s) = 0 -> reading_finished s = 1 ->
  (forall i, 0 <= i < IOBUFF_SIZE -> off_screen (iobuff + i) /\ off_screen (buf + i)) ->
  0 <= iobuff -> iobuff + IOBUFF_SIZE < 2 ^ 64 -> Z.of_nat (length codes) + 1 < IOBUFF_SIZE ->
  buffer (ram (con s)) iobuff IOBUFF_SIZE old -> text old -> Z.of_nat (length old) < IOBUFF_SIZE ->
  buffer (ram (con s)) buf IOBUFF_SIZE [] -> apart buf IOBUFF_SIZE iobuff IOBUFF_SIZE ->
  let line := map (fun code => keycode_to_ascii (keys s) (scan_entry beyond code)) codes ++ [13] in
  exists s', doread beyond iobuff (codes ++ [0x1c]) s buf = Ret (s', Z.of_nat (length (overlay line old))) /\
    cstr (ram (con s')) buf (overlay line old) /\
    buffer (ram (con s')) iobuff IOBUFF_SIZE (overlay line old) /\
    keys s' = keys s /\ reading (con s') = 0 /\ reading_finished s' = 1.
Proof.
  intros Hc Hne Hs Hr Hf Hoff Hio Hfit Hlen Hold Htext Hlold Hz Hap line. unfold IOBUFF_SIZE, apart in *.
  assert (length line = (length codes + 1)%nat) as El by (unfold line; by rewrite length_app, length_map).
  unfold doread, claim_buffer. rewrite Hr, Hf. cbn [Z.eqb orb keys con reading_finished].
  set (c0 := with_io _ _ _ _).
  destruct (type_line beyond codes (keys s) c0) as (c' & -> & Hr' & _ & Hm & H13 & _ & Hk);
    [done|done|done|done|intros i Hi; cbn; apply Hoff; lia|cbn; lia|cbn; lia|].
  cbn [fst snd]. rewrite Hr'. cbn [Z.eqb]. cbn [io_buff with_io c0] in Hm, H13, Hk. change (ram c0) with (ram (con s)) in Hk.
  assert (buffer (ram c') iobuff 1024 (overlay line old)) as Hb.
  { intros i Hi. rewrite overlay_nth. destruct (decide _) as [Hlt|Hge].
    - unfold line in *. rewrite nth_lookup. destruct (decide (i = Z.of_nat (length codes))) as [->|].
      + rewrite H13, Nat2Z.id, lookup_app_r, length_map, Nat.sub_diag by (rewrite length_map; lia). done.
      + destruct (lookup_lt_is_Some_2 codes (Z.to_nat i)) as [code Ec]; [lia|].
        rewrite lookup_app_l, list_lookup_fmap, Ec by (rewrite length_map; lia). cbn.
        rewrite <- (Hm _ _ Ec). f_equal. lia.
    - rewrite Hk by (try apply Hoff; lia). by apply Hold. }
  assert (buffer (ram c') buf 1024 []) as Hz'.
  { intros i Hi. rewrite Hk by (try apply Hoff; lia). by apply Hz. }
  assert (text (overlay line old)) as Ht.
  { apply Forall_overlay; [|done]. unfold line, text. apply Forall_app. split; [|by constructor; [lia|]].
    apply Forall_map. eapply Forall_impl; [exact Hc|]. intros code Hcode. simpl.
    pose proof (proj2 (handler_char beyond code (keys s) c0 Hcode)). lia. }
  pose proof (overlay_length line old 1024 ltac:(lia) ltac:(lia)).
  destruct (take_line_spec iobuff buf (Input (keys s) c' 0) (overlay line old)) as (s' & E & H');
    [exact Hb|exact Ht|unfold IOBUFF_SIZE; lia|exact Hz'|exact Hap|].
  exists s'. split; [exact E|]. exact H'.
Qed.

(** A line "ABCD" was read before. *)
Definition second_read : input :=
  Input (Keyboard true false false false)
    (Console (patch (fun _ => 0) 0x5000 [65; 66; 67; 68; 13]) START_MEMORY 0 (replicate 65 0) 0x5005 0 1) 1.

(** The keys H and I, then Return: the process gets "HI", the carriage return
    and the "D" of the line before. *)
Example doread_line_witness :
  exists s', doread (fun _ => 0) 0x5000 [0x23; 0x17; 0x1c] second_read 0x9000 = Ret (s', 5) /\
    cstr (ram (con s')) 0x9000 [72; 73; 13; 68; 13].
Proof.
  destruct (doread_line (fun _ => 0) 0x5000 [0x23; 0x17] second_read 0x9000 [65; 66; 67; 68; 13])
    as (s' & E & Hs & _).
  - by_computation.
  - discriminate.
  - by_computation.
  - reflexivity.
  - reflexivity.
  - intros i Hi. unfold IOBUFF_SIZE in Hi. split; left; unfold START_MEMORY; lia.
  - lia.
  - unfold IOBUFF_SIZE. lia.
  - vm_compute. reflexivity.
  - intros i Hi. unfold second_read, patch. cbn [con ram]. cbn [length].
    destruct (Z.leb_spec 0x5000 (0x5000 + i)), (Z.ltb_spec (0x5000 + i) (0x5000 + Z.of_nat 5)); try lia; simpl andb; cbv iota.
    + rewrite nth_lookup. do 2 f_equal. lia.
    + by rewrite List.nth_overflow by (cbn; lia).
  - by_computation.
  - vm_compute. reflexivity.
  - intros i Hi. unfold IOBUFF_SIZE in Hi. unfold second_read. cbn [con ram]. rewrite patch_out; [by destruct (Z.to_nat i)|].
    unfold apart. cbn [length]. lia.
  - unfold apart, IOBUFF_SIZE. lia.
  - exists s'. split; [exact E|exact Hs].
Defined.
