(* ===== verification/Interrupts.v ===== *)
(** * Descriptor tables and hardware interrupts (sys/idt.c, sys/irq.c,
      sys/irq.s, sys/gdt.c)

    Gates of the interrupt descriptor table, the remapped interrupt
    controllers, the dispatch of hardware interrupts to their handlers, and the
    task-state descriptor. *)

From S2P Require Import Prelude.

(** ** Interrupt gates *)

Record idtE := IdtE {
  baseLow : Z; selector : Z; reservedIst : Z; flags : Z; baseMid : Z; baseHigh : Z; reserved : Z
}.

#[export] Instance idtE_eq_dec : EqDecision idtE.
Proof. solve_decision. Defined.

Definition MAX_IDT : Z := 256.
Definition null_gate : idtE := IdtE 0 0 0 0 0 0 0.

Definition idt_set_gate (idt : list idtE) (number base sel fl : Z) : outcome (list idtE) :=
  array_set idt (u8 number)
    (IdtE (Z.land base 0xFFFF) (u16 sel) 0 (u8 fl) (Z.land (Z.shiftr base 16) 0xFFFF)
          (Z.land (Z.shiftr base 32) 0xFFFFFFFF) 0).

(** The addresses of the five exception stubs. *)
Record isr_stubs := IsrStubs { _isr0 : Z; _isr1 : Z; _isr13 : Z; _isr14 : Z; _isr80 : Z }.

(** The table is cleared first. *)
Definition reload_idt (s : isr_stubs) (idt : list idtE) : outcome (list idtE) :=
  idt ← idt_set_gate (replicate (length idt) null_gate) 0 (_isr0 s) 0x08 0x8E;
  idt ← idt_set_gate idt 1 (_isr1 s) 0x08 0x8E;
  idt ← idt_set_gate idt 0xD (_isr13 s) 0x08 0x8E;
  idt ← idt_set_gate idt 0xE (_isr14 s) 0x08 0x8E;
  idt_set_gate idt 0x80 (_isr80 s) 0x08 0xEE.

(** ** Hardware interrupts *)

(** Bytes sent to ports. *)
Definition irq_remap : list (Z * Z) :=
  [(0x20, 0x11); (0xA0, 0x11); (0x21, 0x20); (0xA1, 0x28); (0x21, 0x04); (0xA1, 0x02);
   (0x21, 0x01); (0xA1, 0x01); (0x21, 0x0); (0xA1, 0x0)].

(** The gates of the sixteen stubs [irq i], from number 32. *)
Definition irq_install (irq : Z -> Z) (idt : list idtE) : outcome (list idtE) :=
  for_loop 16 0 (fun i idt => idt_set_gate idt (32 + i) (irq i) 0x08 0x8E) idt.

(** [irq_routines]: sixteen function pointers. *)
Definition irq_install_handler (routines : list Z) (irq handler : Z) : outcome (list Z) :=
  array_set routines irq handler.
Definition irq_uninstall_handler (routines : list Z) (irq : Z) : outcome (list Z) :=
  array_set routines irq 0.

(** The number each stub pushes (sys/irq.s). *)
Definition pushed_number (irq : Z) : Z :=
  if irq =? 15 then 0x36 else if irq <? 8 then 0x32 + irq else 0x40 + (irq - 8).

(** The handler called, if any, and the end-of-interrupt commands. *)
Definition irq_handler (routines : list Z) (intNo : Z) : outcome (option Z * list (Z * Z)) :=
  handler ← array_get routines (u64 (intNo - 0x32));
  Ret (if negb (handler =? 0) then Some handler else None,
       (if 40 <=? intNo then [(0xA0, 0x20)] else []) ++ [(0x20, 0x20)]).

(** Interrupt line [irq] with its stub. *)
Definition take_irq (routines : list Z) (irq : Z) : outcome (option Z * list (Z * Z)) :=
  irq_handler routines (pushed_number irq).

(** ** The task-state descriptor *)

(** A bit-field of [len] bits at [lo]. *)
Definition get_field (w lo len : Z) : Z := Z.land (Z.shiftr w lo) (Z.ones len).
Definition set_field (w lo len v : Z) : Z :=
  Z.lor (Z.ldiff w (Z.shiftl (Z.ones len) lo)) (Z.shiftl (uwrap len v) lo).

Definition TSS_SIZE : Z := 56.

(** [struct sys_segment_descriptor] over words 5 and 6 of the table, as one
    128-bit number: limit 0..15, base 16..39, type 40..44, privilege 45..46,
    present 47, limit 48..51, granularity 55, base 56..95. *)
Definition setup_tss (sd tss : Z) : Z :=
  let sd := set_field sd 0 16 (TSS_SIZE - 1) in
  let sd := set_field sd 16 24 tss in
  let sd := set_field sd 40 5 9 in
  let sd := set_field sd 45 2 0 in
  let sd := set_field sd 47 1 1 in
  let sd := set_field sd 48 4 0 in
  let sd := set_field sd 55 1 0 in
  set_field sd 56 40 (Z.shiftr tss 24).

(** ** Bit-fields *)

Lemma set_field_bits w lo len v i :
  0 <= lo -> 0 <= len -> 0 <= i ->
  Z.testbit (set_field w lo len v) i =
    if (lo <=? i) && (i <? lo + len) then Z.testbit v (i - lo) else Z.testbit w i.
Proof.
  intros Hlo Hlen Hi. unfold set_field.
  rewrite Z.lor_spec, Z.ldiff_spec, !Z.shiftl_spec by lia.
  destruct (Z.leb_spec lo i); simpl.
  - rewrite Z.testbit_ones_nonneg, uwrap_testbit by lia.
    destruct (Z.ltb_spec (i - lo) len), (Z.ltb_spec i (lo + len)); try lia; simpl.
    + by rewrite andb_false_r.
    + by rewrite andb_true_r, orb_false_r.
  - rewrite !(Z.testbit_neg_r _ (i - lo)) by lia. by rewrite andb_true_r, orb_false_r.
Qed.

Lemma get_field_bits w lo len i :
  0 <= lo -> 0 <= len -> 0 <= i ->
  Z.testbit (get_field w lo len) i = (i <? len) && Z.testbit w (i + lo).
Proof.
  intros Hlo Hlen Hi. unfold get_field. rewrite Z.land_spec, Z.shiftr_spec, Z.testbit_ones_nonneg by lia.
  by rewrite andb_comm.
Qed.

(** Reading back a field, and reading one beside it. *)
Lemma get_set_same w lo len v :
  0 <= lo -> 0 <= len -> get_field (set_field w lo len v) lo len = uwrap len v.
Proof.
  intros Hlo Hlen. apply Z.bits_inj'. intros i Hi.
  rewrite get_field_bits, set_field_bits, uwrap_testbit by lia.
  destruct (Z.ltb_spec i len), (Z.leb_spec lo (i + lo)), (Z.ltb_spec (i + lo) (lo + len)); try lia; simpl; try done.
  by replace (i + lo - lo) with i by lia.
Qed.

Lemma get_set_other w lo len lo' len' v :
  0 <= lo -> 0 <= len -> 0 <= lo' -> 0 <= len' -> lo + len <= lo' \/ lo' + len' <= lo ->
  get_field (set_field w lo' len' v) lo len = get_field w lo len.
Proof.
  intros H1 H2 H3 H4 Hd. apply Z.bits_inj'. intros i Hi.
  rewrite !get_field_bits by lia. destruct (Z.ltb_spec i len); simpl; [|done].
  rewrite set_field_bits by lia.
  destruct (Z.leb_spec lo' (i + lo)), (Z.ltb_spec (i + lo) (lo' + len')); try lia; done.
Qed.

(** A 64-bit value and its three parts. *)
Lemma split_base b :
  0 <= b < 2 ^ 64 ->
  Z.land b 0xFFFF + Z.shiftl (Z.land (Z.shiftr b 16) 0xFFFF) 16 +
    Z.shiftl (Z.land (Z.shiftr b 32) 0xFFFFFFFF) 32 = b.
Proof.
  intros Hb. change 0xFFFF with (Z.ones 16). change 0xFFFFFFFF with (Z.ones 32).
  rewrite !Z.land_ones, !Z.shiftl_mul_pow2, !Z.shiftr_div_pow2 by lia.
  rewrite (Z.mod_small (b / 2 ^ 32)).
  2:{ split; [apply Z.div_pos|apply Z.div_lt_upper_bound]; lia. }
  replace (b / 2 ^ 32) with (b / 2 ^ 16 / 2 ^ 16) by (by rewrite Z.div_div).
  pose proof (Z.div_mod b (2 ^ 16)). pose proof (Z.div_mod (b / 2 ^ 16) (2 ^ 16)). lia.
Qed.

(** ** Claims *)

(** The address the processor assembles from a gate. *)
Definition gate_base (e : idtE) : Z :=
  baseLow e + Z.shiftl (baseMid e) 16 + Z.shiftl (baseHigh e) 32.

Lemma idt_set_gate_spec idt number base sel fl :
  length idt = Z.to_nat MAX_IDT -> 0 <= number < 256 -> 0 <= base < 2 ^ 64 ->
  exists idt' e, idt_set_gate idt number base sel fl = Ret idt' /\ length idt' = Z.to_nat MAX_IDT /\
    idt' !! Z.to_nat number = Some e /\ gate_base e = base /\ selector e = u16 sel /\ flags e = u8 fl /\
    (forall n, 0 <= n -> n <> number -> idt' !! Z.to_nat n = idt !! Z.to_nat n).
Proof.
  intros Hl Hn Hb. unfold idt_set_gate. rewrite (uwrap_small 8 number) by lia.
  unfold MAX_IDT in *. rewrite array_set_lt by lia. eexists _, _. split; [done|].
  split; [by rewrite length_insert|]. split; [apply list_lookup_insert_eq; lia|].
  split; [by apply split_base|]. split; [done|]. split; [done|].
  intros n Hn0 Hne. apply list_lookup_insert_ne. lia.
Qed.

(** [irq_install] points the gates 32 to 47 at the sixteen stubs, in ring 0
    as interrupt gates of the kernel's code segment, and leaves every other gate
    as [reload_idt] made it. *)
Theorem irq_install_gates irq idt :
  length idt = Z.to_nat MAX_IDT -> (forall i, 0 <= i < 16 -> 0 <= irq i < 2 ^ 64) ->
  exists idt', irq_install irq idt = Ret idt' /\
    (forall i, 0 <= i < 16 -> exists e, idt' !! Z.to_nat (32 + i) = Some e /\
       gate_base e = irq i /\ selector e = 8 /\ flags e = 0x8E) /\
    (forall n, 0 <= n -> n < 32 \/ 48 <= n -> idt' !! Z.to_nat n = idt !! Z.to_nat n).
Proof.
  intros Hl Hirq. unfold irq_install.
  destruct (for_loop_ind (fun k t => length t = Z.to_nat MAX_IDT /\
      (forall i, 0 <= i < k -> exists e, t !! Z.to_nat (32 + i) = Some e /\
         gate_base e = irq i /\ selector e = 8 /\ flags e = 0x8E) /\
      (forall n, 0 <= n -> n < 32 \/ 32 + k <= n -> t !! Z.to_nat n = idt !! Z.to_nat n))
    (fun i t => idt_set_gate t (32 + i) (irq i) 8 0x8E) 16 0 idt) as (idt' & -> & Hl' & H1 & H2).
  - split_and!; [done|lia|done].
  - intros k t Hk (Hlt & Hin & Hout).
    destruct (idt_set_gate_spec t (32 + k) (irq k) 8 0x8E) as (t' & e & -> & Hlt' & He & Hb & Hs & Hf & Ho);
      [done|lia|by apply Hirq|].
    exists t'. split; [done|]. split_and!; [done| |].
    + intros i Hi. destruct (decide (i = k)) as [->|Hne]; [by exists e|].
      rewrite Ho by lia. apply Hin. lia.
    + intros n Hn Hor. rewrite Ho by lia. apply Hout; lia.
  - exists idt'. split; [done|]. split; [exact H1|exact H2].
Qed.

Example irq_install_gates_witness :
  exists idt', irq_install (fun i => 0xFFFFFFFF80201000 + 16 * i) (replicate 256 null_gate) = Ret idt' /\
    exists e, idt' !! 33%nat = Some e /\ gate_base e = 0xFFFFFFFF80201010.
Proof.
  destruct (irq_install_gates (fun i => 0xFFFFFFFF80201000 + 16 * i) (replicate 256 null_gate))
    as (idt' & E & H & _); [reflexivity|intros i Hi; lia|].
  exists idt'. split; [exact E|]. destruct (H 1 ltac:(lia)) as (e & He & Hb & _).
  exists e. split; [exact He|exact Hb].
Defined.

(** C40: which handler a hardware interrupt reaches: lines 0 to 7 reach the one
    installed for them, but line 8 reaches that of line 14 and line 9 that of
    line 15, lines 10 to 14 read past the sixteen entries, and line 15 reaches
    the handler of line 4; and every interrupt, also one of the first
    controller, sends the end-of-interrupt command to both. *)
Theorem irq_dispatch routines h irq :
  length routines = 16%nat -> 0 <= irq < 16 ->
  let slot := if irq <? 8 then irq else if irq =? 15 then 4 else irq + 6 in
  match routines !! Z.to_nat slot with
  | Some handler => slot < 16 /\ take_irq routines irq =
      Ret (if negb (handler =? 0) then Some handler else None, [(0xA0, 0x20); (0x20, 0x20)])
  | None => 10 <= irq < 15 /\ take_irq routines irq = Undef
  end /\
  (irq < 8 -> h <> 0 -> exists r, irq_install_handler routines irq h = Ret r /\
     take_irq r irq = Ret (Some h, [(0xA0, 0x20); (0x20, 0x20)])).
Proof.
  intros Hl Hirq slot.
  assert (u64 (pushed_number irq - 0x32) = slot /\ 40 <= pushed_number irq) as [Es E40].
  { unfold slot, pushed_number. destruct (Z.ltb_spec irq 8), (Z.eqb_spec irq 15); try lia;
      rewrite uwrap_small by lia; lia. }
  assert (0 <= slot) as Hs by (unfold slot; destruct (irq <? 8), (irq =? 15); lia).
  assert (slot < 16 \/ 10 <= irq < 15 /\ 16 <= slot) as Hslot
    by (unfold slot; destruct (Z.ltb_spec irq 8), (Z.eqb_spec irq 15); lia).
  split.
  - unfold take_irq, irq_handler. rewrite Es.
    destruct (Z.leb_spec 40 (pushed_number irq)); [|lia].
    destruct (routines !! Z.to_nat slot) as [handler|] eqn:E.
    + rewrite (array_get_Some _ _ handler) by done. pose proof (lookup_lt_Some _ _ _ E). split; [lia|done].
    + apply lookup_ge_None in E. split; [lia|]. unfold array_get.
      destruct (Z.leb_spec 0 slot); [|lia]. by rewrite lookup_ge_None_2.
  - intros H8 Hh. assert (slot = irq) as Ei by (unfold slot; destruct (Z.ltb_spec irq 8); lia).
    unfold irq_install_handler. rewrite array_set_lt by lia. eexists. split; [done|].
    unfold take_irq, irq_handler. rewrite Es, Ei. destruct (Z.leb_spec 40 (pushed_number irq)); [|lia].
    rewrite (array_get_Some _ _ h) by (lia || (apply list_lookup_insert_eq; lia)).
    cbn [mbind outcome_bind]. by destruct (Z.eqb_spec h 0).
Qed.

Example irq_dispatch_witness :
  exists r, irq_install_handler (replicate 16 0) 1 0x777 = Ret r /\
    take_irq r 1 = Ret (Some 0x777, [(0xA0, 0x20); (0x20, 0x20)]).
Proof.
  destruct (irq_dispatch (replicate 16 0) 0x777 1 eq_refl ltac:(lia)) as [_ H].
  apply H; lia.
Defined.

(** The descriptor [setup_tss] writes over any old contents is a present
    64-bit task-state segment of privilege 0 whose base, read back from its two
    parts, is the address given and whose limit covers the structure. *)
Theorem setup_tss_descriptor sd tss :
  0 <= tss < 2 ^ 64 ->
  let d := setup_tss sd tss in
  get_field d 16 24 + Z.shiftl (get_field d 56 40) 24 = tss /\
  get_field d 0 16 + Z.shiftl (get_field d 48 4) 16 = TSS_SIZE - 1 /\
  get_field d 40 5 = 9 /\ get_field d 45 2 = 0 /\ get_field d 47 1 = 1 /\ get_field d 55 1 = 0.
Proof.
  intros Ht d. unfold d, setup_tss.
  assert (0 <= tss / 2 ^ 24 < 2 ^ 40) by (split; [apply Z.div_pos|apply Z.div_lt_upper_bound]; lia).
  split_and!; repeat ((rewrite get_set_same by lia) || (rewrite get_set_other by lia)); try done.
  rewrite Z.shiftr_div_pow2, Z.shiftl_mul_pow2 by lia. rewrite (uwrap_small 40) by lia.
  unfold uwrap. pose proof (Z.div_mod tss (2 ^ 24)). lia.
Qed.

Example setup_tss_descriptor_witness :
  get_field (setup_tss 0 0xFFFFFFFF80212340) 16 24 +
    Z.shiftl (get_field (setup_tss 0 0xFFFFFFFF80212340) 56 40) 24 = 0xFFFFFFFF80212340.
Proof. exact (proj1 (setup_tss_descriptor 0 0xFFFFFFFF80212340 ltac:(lia))). Defined.
