(* ===== verification/Boot.v ===== *)
(** * Start-up (boot in sys/main.c)

    The order of the initialisation calls, and what they leave together: the
    kernel mapped, its frames reserved, the interrupt gates installed and the
    first thread about to run.  Then the collision of the kernel's pages with
    its page tables. *)

From S2P Require Import Prelude CString Bitmap PhysMem VirtPages PageEntry Paging MapPage KHeap Queues Kthread Timer Screen.
From S2P Require Import Interrupts.

(** ** State *)

(** The C globals that [boot] initialises, and the bytes sent to ports so far,
    in order. *)
Record machine := Machine {
  task_segment : Z; idt : list idtE; irq_routines : list Z; ports : list (Z * Z);
  physical : mmgr; paging : vmm; pages : vmmgr; screen : console; kernel_of : kernel
}.

(** Addresses the linker gives to the stubs, handlers and the task-state
    segment; [bootsp] is the stack pointer that the first switch saves. *)
Record linked_image := Linked {
  stubs : isr_stubs; irq_stub : Z -> Z; timer_handler_at : Z; keyboard_handler_at : Z; tss_at : Z;
  threads_image : image; bootsp : Z; physbase_at : Z
}.

Definition timer_install_handler (routines : list Z) (h : Z) : outcome (list Z) := irq_install_handler routines 0 h.
Definition keyboard_install (routines : list Z) (h : Z) : outcome (list Z) := irq_install_handler routines 1 h.

(** The processor's interrupt flag is set before the memory is initialised.
    [modulep] is the loader's memory map, [physfree] the end of what it
    loaded.  [boot] does not return: the last switch continues in the first
    thread. *)
Definition boot (L : linked_image) (modulep : list Z) (physfree : Z) (w : machine) : outcome machine :=
  let sd := setup_tss (task_segment w) (tss_at L) in
  idt ← reload_idt (stubs L) (idt w);
  idt ← irq_install (irq_stub L) idt;
  routines ← timer_install_handler (irq_routines w) (timer_handler_at L);
  routines ← keyboard_install routines (keyboard_handler_at L);
  let k := enable_interrupts (kernel_of w) in
  g ← mm_phy_init modulep (physical w);
  v ← vmmgr_init (with_frames (paging w) (mmgr_memory g)) (physbase_at L) physfree;
  let vp := vmmgr_page_allocator_init (pages w) in
  let c := cls (screen w) in
  k ← scheduler_init (threads_image L) (bootsp L) (with_kheap k (MyAlloc.with_vm (kheap k) v));
  Ret (Machine sd idt routines (ports w ++ irq_remap ++ timer_install) (with_memory g (frames (MyAlloc.vm (kheap k))))
    (MyAlloc.vm (kheap k)) vp c k).

(** The globals as the loader leaves them, with [m] in physical memory and [c]
    on the screen. *)
Definition cold_paging (m : Z -> Z) : vmm := Vmm m (Bitmap [] 0 0) 0 0 0 0 0 0 0.
Definition cold_kernel (m : Z -> Z) : kernel :=
  Kernel ∅ ∅ (Queue 0 0) (Queue 0 0) 0 0 (replicate 100 0) (MyAlloc.KHeap ∅ 0 0 (cold_paging m)) (fun _ => 0) false false.
Definition cold (m : Z -> Z) (c : console) : machine :=
  Machine 0 (replicate (Z.to_nat MAX_IDT) null_gate) (replicate 16 0) [] mmgr_start (cold_paging m) vmmgr_start c
    (cold_kernel m).

(** ** The frames of a mapped kernel *)

(** Only allocations: marks stay. *)
Definition marks_kept (b b' : bitmap) : Prop :=
  wf b -> wf b' /\ words_in_use b' = words_in_use b /\
    forall c, 0 <= c -> marked (memory_map b) c = true -> marked (memory_map b') c = true.

Lemma marks_kept_refl b : marks_kept b b.
Proof. by intros Hwf. Qed.

Lemma marks_kept_trans b1 b2 b3 : marks_kept b1 b2 -> marks_kept b2 b3 -> marks_kept b1 b3.
Proof.
  intros H12 H23 Hwf. destruct (H12 Hwf) as (W2 & S2 & M2). destruct (H23 W2) as (W3 & S3 & M3).
  split; [done|]. split; [congruence|]. eauto.
Qed.

Lemma alloc_block_marks b b' p : alloc_block b = Ret (b', p) -> marks_kept b b'.
Proof.
  intros E Hwf. destruct (alloc_block_cases b Hwf) as (b2 & p2 & E2 & Hr). rewrite E in E2. injection E2 as <- <-.
  split; [by eapply alloc_result_wf|].
  inversion Hr as [| |r b2 _ _ _ Hw _ _ Hmk]; subst; (split; [done|]); intros c Hc Hm; [done..|]. by rewrite Hmk, Hm.
Qed.

(** What mapping does beside the tables: it allocates frames. *)
Record allocates (s s' : vmm) : Prop := {
  al_marks : marks_kept (frames s) (frames s');
  al_pages : prev_no_pages s' = prev_no_pages s
}.

#[export] Instance allocates_preorder : PreOrder allocates.
Proof.
  split; [intros s; split; [apply marks_kept_refl|done]|]. intros s1 s2 s3 [A1 B1] [A2 B2].
  split; [by eapply marks_kept_trans|congruence].
Qed.

Lemma ensure_table_allocates set n st e st' : ensure_table set n st e = Ret st' -> allocates st st'.
Proof.
  unfold ensure_table, store, load. intros E. apply bind_Ret_inv in E as (v & _ & E).
  destruct (present v); [by injection E as <-|].
  apply bind_Ret_inv in E as ([b p] & Ea & E). cbn [fst snd] in E.
  destruct (p =? 0); [done|]. apply bind_Ret_inv in E as (v' & _ & E). destruct (e =? 0); [done|].
  injection E as <-. split; [by eapply alloc_block_marks|done].
Qed.

Lemma vmmgr_map_page_allocates st phys virt st' : vmmgr_map_page st phys virt = Ret st' -> allocates st st'.
Proof.
  unfold vmmgr_map_page. intros E. cbv zeta in E. apply bind_Ret_inv in E as (s1 & E1 & E).
  apply bind_Ret_inv in E as (v1 & _ & E). apply bind_Ret_inv in E as (s2 & E2 & E).
  apply bind_Ret_inv in E as (v2 & _ & E). apply bind_Ret_inv in E as (s3 & E3 & E).
  apply bind_Ret_inv in E as (v3 & _ & E). apply bind_Ret_inv in E as (v4 & _ & E).
  apply ensure_table_allocates in E1, E2, E3. unfold store in E. destruct (_ =? 0) in E; [done|]. injection E as <-.
  transitivity s1; [done|]. transitivity s2; [done|]. by destruct E3.
Qed.

Lemma for_loop_allocates (body : Z -> vmm -> outcome vmm) n :
  (forall i s s', body i s = Ret s' -> allocates s s') -> forall lo s s', for_loop n lo body s = Ret s' -> allocates s s'.
Proof.
  intros Hb. induction n as [|n IH]; intros lo s s' E; cbn [for_loop] in E; [by injection E as <-|].
  apply bind_Ret_inv in E as (s1 & E1 & E). transitivity s1; [by eapply Hb|by eapply IH].
Qed.

(** The kernel's blocks are reserved when [vmmgr_init] is done. *)
Lemma vmmgr_init_frames st physbase kphysfree st' :
  vmmgr_init st physbase kphysfree = Ret st' -> wf (frames st) -> 160 <= words_in_use (frames st) ->
  (forall c, 0 <= c < 512 -> marked (memory_map (frames st)) c = true) ->
  wf (frames st') /\ PhysMem.reserved (frames st') /\ prev_no_pages st' = prev_no_pages st.
Proof.
  intros E Hwf Hw H512. unfold vmmgr_init in E. apply bind_Ret_inv in E as ([b p] & Ea & E). cbn [fst snd] in E.
  cbv zeta in E. destruct (p =? 0); [done|]. apply bind_Ret_inv in E as (v & _ & E). apply bind_Ret_inv in E as (s0 & E0 & E).
  apply bind_Ret_inv in E as (s1 & E1 & E). apply bind_Ret_inv in E as (s2 & E2 & E).
  assert (forall i s s', map_kernel_page physbase i s = Ret s' -> allocates s s') as Hbody
    by (intros i s s'; apply vmmgr_map_page_allocates).
  apply (for_loop_allocates _ _ Hbody) in E1, E2. unfold activate_tables in E.
  apply bind_Ret_inv in E as (s3 & E3 & E). apply bind_Ret_inv in E as (s4 & E4 & E).
  apply vmmgr_map_page_allocates in E3, E4. apply bind_Ret_inv in E as (s5 & E5 & E).
  apply bind_Ret_inv in E as (f & Ef & E). injection E as <-. cbn [frames prev_no_pages with_bump_start init_bump_addr with_bump with_frames].
  unfold vmmgr_switch_pml4_directory in E5. destruct (p =? 0); [done|]. injection E5 as <-.
  cbn [frames prev_no_pages with_kernel_pgd] in Ef |- *.
  unfold store in E0. destruct (_ =? 0) in E0; [done|]. injection E0 as <-.
  assert (allocates (with_frames st b) s4) as [HM HP].
  { transitivity s1; [by destruct E1|]. transitivity s2; [done|]. by transitivity s3. }
  cbn [frames prev_no_pages with_frames] in HM, HP.
  destruct (marks_kept_trans _ _ _ (alloc_block_marks _ _ _ Ea) HM Hwf) as (Hwf4 & Hw4 & HM4).
  destruct (syncwith_kernel_spec (frames s4)) as (f' & Ef' & Hwf' & Hr).
  - done.
  - pose proof Hwf4 as (_ & _ & ? & _). lia.
  - intros c Hc. apply HM4; [lia|by apply H512].
  - rewrite Ef in Ef'. by injection Ef' as <-.
Qed.

(** ** The first switch *)

(** The page tables the switch loads. *)
Definition loaded (v : vmm) (p : Z) : vmm :=
  Vmm (mem v) (frames v) p (cur_pml4_directory v) (cur_pml4_base_pointer v) (bump_addr v) (prev_no_pages v)
    (bump_start v) (kernel_pgd v).

Lemma Schedule_single sp k p tp :
  rep ThreadQ (threads k) (runQueue k) [p] -> threads k !! p = Some tp -> ready tp = true ->
  currentThread k <> 0 -> currentThread k <> p -> is_Some (threads k !! currentThread k) ->
  exists k', Schedule sp k = Ret k' /\ rep ThreadQ (threads k') (runQueue k') [] /\ currentThread k' = p /\
    switched k k' /\ interrupts k' = true /\ (exists t, threads k' !! p = Some t /\ rsp t = rsp tp) /\
    stackmem k' = stackmem k /\ ptable k' = ptable k /\ is_scheduler_on k' = is_scheduler_on k /\
    MyAlloc.vm (kheap k') = loaded (MyAlloc.vm (kheap k)) (pcr3 tp).
Proof.
  intros Hr Ht Hrdy Hc0 Hcp Hc. pose proof (Schedule_spec sp k [p] Hr Hc0 Hc) as HS.
  pose proof (next_runnable_spec (disable_interrupts k) [p] Hr) as Hn.
  assert (pick (is_ready (threads k)) [p] = Some (p, [])) as Ep by (cbn [pick]; unfold is_ready; by rewrite Ht, Hrdy).
  change (threads (disable_interrupts k)) with (threads k) in Hn. rewrite Ep in HS, Hn.
  destruct HS as (k' & E & Hr' & Hcur & Hp0 & _ & SW & Hi). exists k'. split; [done|].
  destruct Hn as (q' & h' & En & _ & R & _). unfold Schedule in E. rewrite En, bind_Ret in E. cbn [fst snd] in E.
  unfold Switch_To_Thread in E. apply bind_Ret_inv in E as (k2 & E2 & E). apply bind_Ret_inv in E2 as (h2 & Eh & E2).
  apply bind_Ret_inv in E2 as (t2 & Et & E2). injection E2 as <-. injection E as <-.
  destruct (relinked_data _ _ _ _ _ R Ht) as (tp' & Htp' & Ed).
  destruct Hc as [tc Htc]. destruct (relinked_lookup _ _ _ _ _ R Htc) as (tc' & Htc' & _).
  cbn [threads currentThread with_threads with_runQueue disable_interrupts with_interrupts] in Eh.
  rewrite (update_eq _ _ _ _ Hc0 Htc') in Eh. injection Eh as <-.
  assert (<[currentThread k := set_rsp sp tc']> h' !! p = Some tp') as Hp' by (by rewrite lookup_insert_ne).
  rewrite (deref_eq _ _ _ Hp0 Hp') in Et. injection Et as <-.
  assert (pcr3 tp' = pcr3 tp /\ rsp tp' = rsp tp) as [Hpc Hrs].
  { change (pcr3 tp') with (pcr3 (data tp')). change (rsp tp') with (rsp (data tp')). by rewrite Ed. }
  split_and!; try done; [by exists tp'|]. unfold loaded. by rewrite <- Hpc.
Qed.

(** ** The scheduler's start *)

(** The three pages [scheduler_init] takes: the structures of the two threads
    and the second one's stack. *)
Definition page (v : vmm) (n : Z) : Z := u64 (bump_addr v + 4096 * n).

Lemma alloc_page_next v m : prev_no_pages v = 0 ->
  (vmmgr_alloc_page (with_bump v (page v m) 0) 0) = (with_bump v (page v (m + 1)) 0, page v (m + 1)).
Proof.
  intros _. unfold vmmgr_alloc_page, page, VIRT_PAGE_SIZE. cbn [bump_addr prev_no_pages with_bump].
  change (u16 0) with 0. assert (u64 (u64 (bump_addr v + 4096 * m) + 4096 + 4096 * 0) = u64 (bump_addr v + 4096 * (m + 1))) as ->.
  { unfold uwrap. rewrite <- Z.add_assoc, Zplus_mod_idemp_l. f_equal. lia. }
  reflexivity.
Qed.

Lemma alloc_page_first v : prev_no_pages v = 0 -> vmmgr_alloc_page v 0 = (with_bump v (page v 1) 0, page v 1).
Proof.
  intros Hp. unfold vmmgr_alloc_page, page, VIRT_PAGE_SIZE. rewrite Hp. change (u16 0) with 0.
  by replace (bump_addr v + 4096 + 4096 * 0) with (bump_addr v + 4096 * 1) by lia.
Qed.

(** A kernel without threads. *)
Record threadless (k : kernel) : Prop := {
  tl_threads : threads k = ∅;
  tl_lists : runQueue k = Queue 0 0 /\ allThreadList k = Queue 0 0;
  tl_pids : nextFreePid k = 0 /\ List.length (ptable k) = 100%nat;
  tl_vm : prev_no_pages (MyAlloc.vm (kheap k)) = 0
}.

(** What [scheduler_init] leaves: the thread at page 2 of the bump allocator runs,
    from a stack that starts it at [start]; the thread at page 1 is the boot
    code. *)
Record first_thread (im : image) (v : vmm) (k' : kernel) : Prop := {
  ft_current : currentThread k' = page v 2;
  ft_run : rep ThreadQ (threads k') (runQueue k') [];
  ft_all : rep ThreadList (threads k') (allThreadList k') [page v 1; page v 2];
  ft_table : ptable k' !! 2%nat = Some (page v 2);
  ft_flags : interrupts k' = true /\ is_scheduler_on k' = true;
  ft_stack : exists t, threads k' !! page v 2 = Some t /\ rsp t = page v 3 + 4096 - 200 /\
    iretq_frame (stackmem k') (rsp t) = Frame (Launch_Thread im) KERN_CS 0 (page v 3 + 4096 - 24) KERN_DS /\
    stackmem k' (page v 3 + 4096 - 24) = start im /\ stackmem k' (page v 3 + 4096 - 16) = thread_exit im;
  ft_vm : MyAlloc.vm (kheap k') = loaded (with_bump v (page v 3) 0) (Paging.cr3 v)
}.

Lemma rep_nil F h : rep F h (Queue 0 0) [].
Proof. split; [done|done|constructor|apply not_elem_of_nil|done]. Qed.

Lemma scheduler_init_spec im sp k :
  let v := MyAlloc.vm (kheap k) in
  threadless k -> 0 < bump_addr v -> bump_addr v + 5 * 4096 < 2 ^ 64 ->
  exists k', scheduler_init im sp k = Ret k' /\ first_thread im v k'.
Proof.
  intros v [Hth [Hrq Hal] [Hnf Hpt] Hpv] Hb0 Hb. fold v in Hpv.
  assert (forall n, 0 <= n <= 4 -> page v n = bump_addr v + 4096 * n) as Hpage.
  { intros n Hn. unfold page. apply uwrap_small; lia. }
  pose proof (Hpage 1 ltac:(lia)) as P1. pose proof (Hpage 2 ltac:(lia)) as P2. pose proof (Hpage 3 ltac:(lia)) as P3.
  unfold scheduler_init, new_thread_page. cbn [MyAlloc.sub_malloc]. fold v. rewrite (alloc_page_first v Hpv).
  cbn [fst snd]. rewrite !bind_Ret. cbn [fst snd].
  unfold Init_Thread. cbn [threads with_threads with_kheap]. rewrite Hth.
  erewrite deref_eq by (lia || apply lookup_insert_eq). rewrite !bind_Ret. cbn [alloc_pid fst snd].
  cbn [nextFreePid kheap ptable threads with_threads with_kheap with_pids with_current allThreadList].
  rewrite insert_insert_eq. set (t0 := Thread _ _ _ _ _ _ _ _ _ _ _ _ _ _ _ _ _ _ _ _ _ _ _ _).
  unfold alllist_kthread, append_global_list_queue. cbn [threads allThreadList with_current with_threads with_pids with_kheap].
  rewrite Hal. set (h0 := <[page v 1 := t0]> ∅).
  destruct (append_spec (F := ThreadList) h0 (Queue 0 0) [] (page v 1) t0) as (qa & h1 & Ea & Ra & RL);
    [apply rep_nil|lia|apply not_elem_of_nil|apply lookup_insert_eq|].
  rewrite Ea, !bind_Ret. cbn [fst snd app] in Ra |- *.
  set (k1 := with_threads _ h1).
  assert (MyAlloc.vm (kheap k1) = with_bump v (page v 1) 0) as Hv1 by reflexivity.
  assert (first_page k1 = page v 2) as F1.
  { unfold first_page. rewrite Hv1, alloc_page_next by done. reflexivity. }
  assert (second_page k1 = page v 3) as F2.
  { unfold second_page. rewrite Hv1, alloc_page_next by done. cbn [fst]. by rewrite alloc_page_next. }
  assert (after_two_pages k1 = with_bump v (page v 3) 0) as F3.
  { unfold after_two_pages. rewrite Hv1, alloc_page_next by done. cbn [fst]. by rewrite alloc_page_next. }
  assert (u64 (second_page k1 + VIRT_PAGE_SIZE) = page v 3 + 4096) as Htop.
  { rewrite F2. unfold VIRT_PAGE_SIZE. apply uwrap_small. lia. }
  assert (runQueue k1 = Queue 0 0) as Hrq1 by exact Hrq.
  assert (can_create k1 [] [page v 1]) as HC.
  { split.
    - rewrite F1. lia.
    - rewrite Htop, F2. lia.
    - rewrite F1. split; [rewrite list_elem_of_singleton; lia|apply not_elem_of_nil].
    - exact Ra.
    - rewrite Hrq1. apply rep_nil.
    - exact Hpt. }
  assert (nextFreePid k1 = 1) as Hpid by (unfold k1; cbn; by rewrite Hnf).
  destruct (start_kthread_spec im k1 (start im) (name_start im) 0 PRIORITY_NORMAL true [] [page v 1] HC)
    as (k2 & E2 & Hq2 & Ha2 & Hpt2 & _ & Hrdy & Hcur & Hi & _ & Hvm & (t2 & Ht2 & Hrsp & Hcr) & Hst & Hdom); [lia|].
  rewrite F1, Hpid in *. rewrite Htop, F3 in *. rewrite E2, bind_Ret. cbn [fst app] in *.
  assert (currentThread k2 = page v 1) as Hcur2 by (rewrite Hcur; reflexivity).
  destruct (Schedule_single sp (with_scheduler_on k2 true) (page v 2) t2) as
    (k3 & E3 & Hr3 & Hc3 & SW & Hi3 & (t3 & Ht3 & Hrs3) & Hst3 & Hpt3 & Hon & Hvm3); cbn [currentThread with_scheduler_on];
    [exact Hq2|exact Ht2|by unfold is_ready in Hrdy; rewrite Ht2 in Hrdy|rewrite Hcur2; lia|rewrite Hcur2; lia| |].
  { rewrite Hcur2. apply Hdom; [lia|]. destruct (relinked_data _ _ _ (page v 1) t0 RL) as (t1 & Ht1 & _);
      [apply lookup_insert_eq|by exists t1]. }
  exists k3. split; [exact E3|]. cbn [stackmem ptable with_scheduler_on] in Hst3, Hpt3.
  assert (forall i x a, initial_stack im (page v 3 + 4096) (start im) 0 !! i = Some x ->
    a = page v 3 + 4096 - 8 * (Z.of_nat i + 1) -> stackmem k3 a = x) as Hw by (intros i x a Hx ->; rewrite Hst3; by apply Hst).
  split; [done|done|by apply (sw_all _ _ SW)|by rewrite Hpt3|by split| |].
  - exists t3. rewrite Hrs3, Hrsp. split; [done|]. split; [done|]. split_and!.
    + unfold iretq_frame. rewrite (Hw 7%nat (Launch_Thread im)), (Hw 6%nat KERN_CS), (Hw 5%nat 0),
        (Hw 4%nat (page v 3 + 4096 - 24)), (Hw 3%nat KERN_DS) by (done || lia). done.
    + apply (Hw 2%nat); [done|lia].
    + apply (Hw 1%nat); [done|lia].
  - rewrite Hvm3, Hcr. cbn [kheap with_scheduler_on]. rewrite Hvm, Hv1. reflexivity.
Qed.

(** ** All of it *)

Lemma reload_idt_returns s idt :
  List.length idt = Z.to_nat MAX_IDT -> exists idt', reload_idt s idt = Ret idt' /\ List.length idt' = Z.to_nat MAX_IDT.
Proof.
  intros Hl. unfold reload_idt, idt_set_gate. change (u8 0) with 0. change (u8 1) with 1. change (u8 0xD) with 13.
  change (u8 0xE) with 14. change (u8 0x80) with 128. unfold MAX_IDT in *. change (Z.to_nat 256) with 256%nat in *.
  repeat (rewrite array_set_lt by (rewrite ?length_insert, length_replicate, Hl; lia); rewrite ?bind_Ret).
  eexists. split; [done|]. by rewrite !length_insert, length_replicate.
Qed.

(** What [boot] leaves for the first thread. *)
Record booted (L : linked_image) (physfree : Z) (w : machine) : Prop := {
  bo_gates : forall i, 0 <= i < 16 -> exists e, idt w !! Z.to_nat (32 + i) = Some e /\ gate_base e = irq_stub L i /\
    selector e = 8 /\ flags e = 0x8E;
  bo_timer : take_irq (irq_routines w) 0 = Ret (Some (timer_handler_at L), [(0xA0, 0x20); (0x20, 0x20)]);
  bo_keyboard : take_irq (irq_routines w) 1 = Ret (Some (keyboard_handler_at L), [(0xA0, 0x20); (0x20, 0x20)]);
  bo_window : forall x, 0 <= x < 10752 * 4096 ->
    translate (mem (paging w)) (Paging.cr3 (paging w)) (virt_base + physbase_at L + x) = Some (0x200000 + x);
  bo_frames : forall b own p, rtc step (frames (paging w), ∅) (b, own) -> p ∈ own -> 40 * MEGA_BYTE <= p;
  bo_thread : exists v, bump_addr v = virt_base + physfree /\ first_thread (threads_image L) v (kernel_of w);
  bo_tables : MyAlloc.vm (kheap (kernel_of w)) = paging w
}.

(** What [boot] needs: a memory map that covers the words of the bitmap it
    fills, with 26 frames to spare; a kernel at a page boundary in the first
    GiB; addresses of 64 bits. *)
Record bootable (L : linked_image) (modulep : list Z) (physfree : Z) (m : Z -> Z) (g : mmgr) : Prop := {
  ba_map : mm_phy_init modulep mmgr_start = Ret g;
  ba_cover : forall k, 16 <= k -> 8 * k < max_blocks (mmgr_memory g) / 64 -> in_usable_region g (64 * k + 31);
  ba_size : 10240 <= max_blocks (mmgr_memory g) < 64 * 1201;
  ba_room : room 26 (mmgr_memory g);
  ba_words : forall a, entry_ok (m a);
  ba_base : physbase_at L mod 4096 = 0 /\ 0x101000 <= physbase_at L /\ physbase_at L + 10752 * 4096 <= 2 ^ 30;
  ba_free : 0 <= physfree < 2 ^ 30;
  ba_stubs : forall i, 0 <= i < 16 -> 0 <= irq_stub L i < 2 ^ 64;
  ba_handlers : timer_handler_at L <> 0 /\ keyboard_handler_at L <> 0
}.

Lemma boot_frames modulep g :
  mm_phy_init modulep mmgr_start = Ret g ->
  (forall k, 16 <= k -> 8 * k < max_blocks (mmgr_memory g) / 64 -> in_usable_region g (64 * k + 31)) ->
  10240 <= max_blocks (mmgr_memory g) < 64 * 1201 ->
  wf (mmgr_memory g) /\ 160 <= words_in_use (mmgr_memory g) /\
    forall c, 0 <= c < 512 -> marked (memory_map (mmgr_memory g)) c = true.
Proof.
  intros E Hc Hs. destruct (mm_phy_init_spec _ _ E) as (_ & H1024 & Hwf). split; [apply Hwf; [done|lia]|]. split.
  - unfold words_in_use. assert (160 <= max_blocks (mmgr_memory g) / 64) by (apply Z.div_le_lower_bound; lia). lia.
  - intros c Hc'. apply H1024. lia.
Qed.

Lemma irq_lines routines t k :
  List.length routines = 16%nat -> t <> 0 -> k <> 0 ->
  exists r1 r2, timer_install_handler routines t = Ret r1 /\ keyboard_install r1 k = Ret r2 /\
    take_irq r2 0 = Ret (Some t, [(0xA0, 0x20); (0x20, 0x20)]) /\ take_irq r2 1 = Ret (Some k, [(0xA0, 0x20); (0x20, 0x20)]).
Proof.
  intros Hl Ht Hk. unfold timer_install_handler, keyboard_install, irq_install_handler. eexists _, _.
  split; [by rewrite array_set_lt by lia|]. split; [by rewrite array_set_lt by (rewrite ?length_insert; lia)|].
  unfold take_irq, irq_handler. change (u64 (pushed_number 0 - 0x32)) with 0. change (u64 (pushed_number 1 - 0x32)) with 1.
  change (40 <=? pushed_number 0) with true. change (40 <=? pushed_number 1) with true. cbv iota.
  rewrite (array_get_Some _ _ t), (array_get_Some _ _ k); try lia.
  - rewrite !bind_Ret, !(proj2 (Z.eqb_neq _ 0)) by done. done.
  - apply list_lookup_insert_eq. rewrite length_insert. simpl. lia.
  - change (Z.to_nat 0) with 0%nat. rewrite list_lookup_insert_ne by done. apply list_lookup_insert_eq. simpl. lia.
Qed.

(** C4: on a cold machine whose memory map [mm_phy_init] accepts with between 40
    and about 300 MiB of usable memory (more would overrun the 1200 words of the
    frame bitmap), every word of the bitmap partly in a usable region, 26 frames
    free and all memory words with bits 44 to 51 clear, and with a kernel loaded
    as for [vmmgr_init], its image ending below 1 GiB, [boot] runs through: the
    processor then runs the first thread, on a stack that starts it at [start];
    the timer and the keyboard reach their handlers; the 42 MiB from the
    kernel's base on are mapped to the frames from 2 MiB; and whatever is
    allocated and released from then on, no frame below 40 MiB is handed out. *)
Theorem boot_runs_first_thread L modulep physfree m c g :
  bootable L modulep physfree m g ->
  exists w, boot L modulep physfree (cold m c) = Ret w /\ booted L physfree w.
Proof.
  intros [Emap Hcov Hsize Hroom Hwords (Hb1 & Hb2 & Hb3) Hfree Hstubs [Ht Hk]].
  destruct (boot_frames _ _ Emap Hcov Hsize) as (Hwf & Hw & H512). unfold boot. cbn [cold idt irq_routines physical paging kernel_of].
  destruct (reload_idt_returns (stubs L) (replicate (Z.to_nat MAX_IDT) null_gate)) as (i1 & -> & Hl1); [by rewrite length_replicate|].
  rewrite bind_Ret. destruct (irq_install_gates (irq_stub L) i1 Hl1 Hstubs) as (i2 & -> & Hgates & _). rewrite bind_Ret.
  destruct (irq_lines (replicate 16 0) (timer_handler_at L) (keyboard_handler_at L)) as (r1 & r2 & -> & E2 & L0 & L1); [done..|].
  rewrite bind_Ret, E2, bind_Ret, Emap, bind_Ret.
  destruct (vmmgr_init_returns (with_frames (cold_paging m) (mmgr_memory g)) (physbase_at L) physfree)
    as (v & f & Ev & (Hrec & Hmap & Hvga & Hbump) & _); [done..|].
  destruct (vmmgr_init_frames _ _ _ _ Ev Hwf Hw H512) as (Hwf' & Hres & Hprev). cbn [prev_no_pages with_frames cold_paging] in Hprev.
  pose proof (window_maps v (physbase_at L) Hb1 Hb2 Hb3 Hmap) as Hwin.
  rewrite Ev, bind_Ret. rewrite uwrap_small in Hbump by (unfold virt_base; lia).
  set (k0 := with_kheap _ _). assert (MyAlloc.vm (kheap k0) = v) as Hv by done.
  destruct (scheduler_init_spec (threads_image L) (bootsp L) k0) as (k1 & Ek & HF).
  { split; [done|done|done|by rewrite Hv]. }
  { rewrite Hv, Hbump. unfold virt_base. lia. }
  { rewrite Hv, Hbump. unfold virt_base. lia. }
  rewrite Ek, bind_Ret. eexists. split; [done|]. rewrite Hv in HF. pose proof (ft_vm _ _ _ HF) as Hvm.
  split; cbn [idt irq_routines paging kernel_of]; try done.
  - rewrite Hvm. exact Hwin.
  - rewrite Hvm. cbn [frames loaded with_bump]. intros b own p Hrtc Hp.
    assert (kernel_inv (b, own)) as (_ & _ & Hab); [|by apply Hab].
    assert (kernel_inv (frames v, ∅)) as Hinit by (split_and!; [split; set_solver|done|set_solver]).
    clear Hp. remember (frames v, ∅) as s0. remember (b, own) as s1. clear Heqs0 Heqs1 Hvm HF. induction Hrtc; eauto using step_kernel_inv.
  - by exists v.
Qed.

(** ** The machine of the memory map in PhysMem.v *)

Definition qemu_linked : linked_image :=
  Linked (IsrStubs 1 2 3 4 5) (fun i => 0xFFFFFFFF80201000 + 16 * i) 0xFFFFFFFF80202000 0xFFFFFFFF80203000 0xFFFFFFFF80204000
    (Image 0x1111 0x2222 0x3333 0x4000 0 0 (fun _ => demo_thread (Links 7 7) (Links 9 9) 3)) 0x8000 0x200000.

Lemma qemu_bootable : bootable qemu_linked qemu_48M 0x280000 (fun _ => 0) qemu_state.
Proof.
  assert (max_blocks (mmgr_memory qemu_state) = 12159) as Hmax by (vm_compute; reflexivity).
  split.
  - vm_compute. reflexivity.
  - rewrite Hmax. change (12159 / 64) with 189. intros k Hk1 Hk2. exists 1, (Smap 0x100000 0x2ee0000 1).
    split; [vm_compute; split; congruence|]. split; [vm_compute; reflexivity|].
    cbn [PhysMem.length PhysMem.base]. split; [lia|]. change (0x100000 / BLOCK_SIZE) with 256.
    change (0x2ee0000 / BLOCK_SIZE) with 12000. lia.
  - rewrite Hmax. lia.
  - by_computation.
  - intros a. exact entry_ok_0.
  - by_computation.
  - lia.
  - intros i Hi. cbn [irq_stub qemu_linked]. lia.
  - cbn [timer_handler_at keyboard_handler_at qemu_linked]. lia.
Qed.

Definition blank_screen : console := Console (fun _ => 0) START_MEMORY START_MEMORY (replicate 65 0) 0 0 0.

Example boot_runs_first_thread_witness :
  exists w, boot qemu_linked qemu_48M 0x280000 (cold (fun _ => 0) blank_screen) = Ret w /\ currentThread (kernel_of w) = 0xFFFFFFFF80282000.
Proof.
  destruct (boot_runs_first_thread qemu_linked qemu_48M 0x280000 (fun _ => 0) blank_screen qemu_state qemu_bootable)
    as (w & E & [_ _ _ _ _ (v & Hv & HF) _]).
  exists w. split; [exact E|]. rewrite (ft_current _ _ _ HF). unfold page. rewrite Hv. reflexivity.
Defined.

(** ** Kernel pages and page tables *)

(** The page that the [n]-th call of [vmmgr_alloc_page(0)] from here returns,
    counted from 1. *)
Fixpoint nth_page (n : nat) (v : vmm) : Z :=
  match n with
  | O => bump_addr v
  | S n => let r := vmmgr_alloc_page v 0 in match n with O => r.2 | S _ => nth_page n r.1 end
  end.

Lemma nth_page_eq n : forall v, prev_no_pages v = 0 -> 0 < Z.of_nat n -> nth_page n v = page v (Z.of_nat n).
Proof.
  induction n as [|n IH]; intros v Hp Hn; [lia|]. cbn [nth_page]. cbv zeta. rewrite alloc_page_first by done. cbn [fst snd].
  destruct n as [|n]; [done|]. rewrite IH by (done || lia). unfold page. cbn [bump_addr with_bump].
  unfold uwrap. rewrite Zplus_mod_idemp_l. f_equal. lia.
Qed.

(** C7: the pages of the kernel come from the same frames as its page tables.
    [mm_phy_init] marks 4 MiB used, so the root table is the first free frame
    behind; the bump allocator starts at the end of the loaded image, goes up
    page by page without asking the bitmap, and the window maps the root's
    frame: on a machine that boots, where the image ends at a page boundary
    below the root's frame and the window reaches it, one of the pages it hands
    out is the root table itself. *)
Theorem kernel_page_is_root_table L modulep physfree m g f p :
  bootable L modulep physfree m g -> physfree mod 4096 = 0 -> physbase_at L <= physfree ->
  alloc_block (mmgr_memory g) = Ret (f, p) ->
  0x200000 + (physfree - physbase_at L) < p < 0x200000 + 10752 * 4096 ->
  exists v n, vmmgr_init (with_frames (cold_paging m) (mmgr_memory g)) (physbase_at L) physfree = Ret v /\
    (0 < n)%nat /\ Z.of_nat n * 4096 = p - 0x200000 - (physfree - physbase_at L) /\
    Paging.cr3 v = p /\ translate (mem v) (Paging.cr3 v) (nth_page n v) = Some (Paging.cr3 v).
Proof.
  intros [Emap Hcov Hsize Hroom Hwords (Hb1 & Hb2 & Hb3) Hfree _ _] Hpf Hbf Ea Hp.
  destruct (boot_frames _ _ Emap Hcov Hsize) as (Hwf & Hw & H512).
  destruct (vmmgr_init_returns (with_frames (cold_paging m) (mmgr_memory g)) (physbase_at L) physfree)
    as (v & f' & Ev & (_ & Hmap & _ & Hbump) & Ef); [done..|].
  destruct (vmmgr_init_frames _ _ _ _ Ev Hwf Hw H512) as (_ & _ & Hprev). cbn [prev_no_pages frames with_frames cold_paging] in Hprev, Ef.
  rewrite Ea in Ef. injection Ef as <- Ep.
  pose proof (window_maps v (physbase_at L) Hb1 Hb2 Hb3 Hmap) as Hwin.
  assert (p mod 4096 = 0) as Hpm.
  { destruct (alloc_block_cases _ Hwf) as (b2 & p2 & E2 & Hr). rewrite Ea in E2. injection E2 as <- <-.
    inversion Hr as [| |q b2 _ _ _ _ _ _ _]; subst; [lia|lia|]. unfold BLOCK_SIZE. by apply Z_mod_mult. }
  set (d := p - 0x200000 - (physfree - physbase_at L)).
  assert (d mod 4096 = 0) as Hd by (unfold d; Z.to_euclidean_division_equations; lia).
  pose proof (Z.div_mod d 4096) as Ed. exists v, (Z.to_nat (d / 4096)).
  split; [done|]. split; [lia|]. split; [lia|]. split; [done|].
  rewrite nth_page_eq by (done || lia). unfold page. rewrite Hbump, Z2Nat.id by lia.
  rewrite uwrap_small by (unfold virt_base; rewrite ?uwrap_small by lia; unfold d in *; lia).
  rewrite uwrap_small by (unfold virt_base; lia).
  replace (virt_base + physfree + 4096 * (d / 4096)) with (virt_base + physbase_at L + (p - 0x200000)) by (unfold d in *; lia).
  rewrite Hwin by lia. rewrite <- Ep. f_equal. lia.
Qed.

(** With an image that ends at 2.5 MiB it is the 384th page. *)
Example kernel_page_is_root_table_witness :
  exists v, vmmgr_init (with_frames (cold_paging (fun _ => 0)) (mmgr_memory qemu_state)) 0x200000 0x280000 = Ret v /\
    translate (mem v) (Paging.cr3 v) (nth_page 384 v) = Some 0x400000.
Proof.
  destruct (kernel_page_is_root_table qemu_linked qemu_48M 0x280000 (fun _ => 0) qemu_state
    (returned (Bitmap [] 0 0, 0) (alloc_block (mmgr_memory qemu_state))).1 0x400000 qemu_bootable)
    as (v & n & E & Hn & En & Er & Ht).
  - reflexivity.
  - cbn [physbase_at qemu_linked]. lia.
  - vm_compute. reflexivity.
  - cbn [physbase_at qemu_linked]. lia.
  - exists v. split; [exact E|]. cbn [physbase_at qemu_linked] in En. assert (n = 384%nat) as -> by lia.
    rewrite Ht, Er. reflexivity.
Defined.
