(* ===== verification/Syscalls.v ===== *)
(** * The system calls in one state (sys/isr.c and fault_handler of sys/idt.c)

    The calls on files join the disk files of FileSys.v, the archive of
    TarFs.v, the terminal of Input.v and the console; the calls on processes
    are those of Process.v and PageFault.v.  All the byte memories are one: each
    component is handed the current bytes and hands them back. *)

From Stdlib Require Import Ascii String.
From S2P Require Import Prelude CString Memory Screen Keyboard Input Ahci FileSys TarFs Queues Kthread Process PageFault.

(** ** State *)

(** What the linker and the switch of stacks decide: [temp] is the address of
    the local copy of a name in [main_execve], [switch_sp] the stack pointer that
    [Schedule] saves. *)
Record environment := Env {
  code_section : Z; switch_sp : Z; tar_at : tar_layout; fs_at : layout; iobuff : Z; temp : Z; beyond : Z -> Z
}.

Definition STDIN : Z := 0.
Definition STDOUT : Z := 1.

(** [memory] is the byte memory; those inside the components are the bytes as
    the component left them last. *)
Record world (D : Type) := World {
  memory : bytes; disk_files : fsys D; archive_files : tarfs; terminal : input; processes : system
}.
Arguments World {D}.
Arguments memory {D}.
Arguments disk_files {D}.
Arguments archive_files {D}.
Arguments terminal {D}.
Arguments processes {D}.

(** A string literal of the source. *)
Definition chars (s : string) : list Z := map (fun a => Z.of_N (N_of_ascii a)) (list_ascii_of_string s).

(** The characters [write_string] reads from [p] on, up to the terminator. *)
Fixpoint string_at (n : nat) (m : bytes) (p : Z) : outcome (list Z) :=
  if m p =? 0 then Ret [] else
  match n with
  | O => Loops
  | S n => s ← string_at n m (p + 1); Ret (m p :: s)
  end.

Section calls.
Context {D : Type} `{!Drive D} (E : environment).
Implicit Types w : world D.

(** ** The components' views of the memory *)

Definition fs_view w : fsys D := FileSys.set_mem (disk_files w) (memory w).
Definition with_fs w (st : fsys D) : world D :=
  World (FileSys.mem st) st (archive_files w) (terminal w) (processes w).
Definition tar_view w : tarfs := with_tar_mem (archive_files w) (memory w).
Definition with_tar w (st : tarfs) : world D := World (tar_mem st) (disk_files w) st (terminal w) (processes w).
Definition term_view w : input :=
  Input (keys (terminal w)) (with_ram (con (terminal w)) (memory w)) (reading_finished (terminal w)).
Definition with_term w (t : input) : world D :=
  World (Screen.ram (con t)) (disk_files w) (archive_files w) t (processes w).
Definition with_processes w (s : system) : world D :=
  World (memory w) (disk_files w) (archive_files w) (terminal w) s.

(** [printf] with strings that are off the screen. *)
Definition print (fmt : list Z) (args : list Screen.arg) w : outcome (world D) :=
  let t := term_view w in
  c ← Screen.printf fmt args (con t);
  Ret (with_term w (Input (keys t) c (reading_finished t))).

(** [printf(fmt, p)] of one string at the address [p]. *)
Definition print_str (fmt : list Z) (p : Z) w : outcome (world D) :=
  s ← string_at STRING_BOUND (memory w) p; print fmt [AStr s] w.

Fixpoint print_names (l : list Z) w : outcome (world D) :=
  match l with [] => Ret w | p :: l => w ← print_str (chars "%s ") p w; print_names l w end.

(** ** Calls on files *)

Definition write w (str fd : Z) : outcome (world D) :=
  if fd =? STDOUT then print_str (chars "%s") str w
  else r ← write_file (fs_at E) (fs_view w) str fd; Ret (with_fs w r.1).

(** [file_used[fd]], an array of 50. *)
Definition used_slot (fd : Z) : outcome Z :=
  if (0 <=? fd) && (fd <? 50) then Ret (file_used (tar_at E) + 4 * fd) else Undef.

(** [codes] are the keys typed while the call waits for the terminal. *)
Definition doread (codes : list Z) w (buf fd cnt : Z) : outcome (world D * Z) :=
  if fd =? STDIN then
    r ← Input.doread (beyond E) (iobuff E) codes (term_view w) buf; Ret (with_term w r.1, r.2)
  else if 100 <=? fd then
    r ← read_file (fs_at E) (fs_view w) fd cnt buf;
    w ← print_str (chars "read: %s" ++ [10]) buf (with_fs w r.1);
    Ret (w, 0)
  else
    u ← used_slot fd;
    if load32 (memory w) u =? 1 then
      p ← file_ptr (tar_at E) fd;
      src ← tarfs_read (tar_at E) (memory w) p;
      if src =? 0 then Undef else
      Ret (with_tar w (with_tar_mem (tar_view w) (memcpy (Z.to_nat (u32 cnt)) (memory w) buf src)), 0)
    else
      w ← print (chars "File is already open by another process" ++ [10]) [] w;
      Ret (w, -1).

Definition do_open w (name : Z) : outcome (world D * Z) :=
  r ← tarfs_open (tar_at E) (tar_view w) name; Ret (with_tar w r.1, r.2).

Definition close_file w (fd : Z) : outcome (world D) :=
  t ← do_close (tar_at E) (tar_view w) fd; Ret (with_tar w t).

Definition do_create w (name : Z) : outcome (world D * Z) :=
  r ← create_file (fs_at E) (fs_view w) name; Ret (with_fs w r.1, r.2).

Definition do_seek w (fd pos : Z) : outcome (world D * Z) :=
  st ← seek_file (fs_at E) (fs_view w) fd pos; Ret (with_fs w st, 0).

Definition changed w (name : Z) : outcome (world D * Z) :=
  r ← do_cd (tar_at E) (tar_view w) name; Ret (with_tar w r.1, r.2).

(** ** Listings *)

Definition do_pwd w : outcome (world D) :=
  p ← print_pwd (tar_view w); print_str (chars "%s" ++ [10]) p w.

(** The first five inodes, [INODE_COUNT - 95]. *)
Fixpoint ls_inodes (n : nat) (inode : Z) w : outcome (world D) :=
  match n with
  | O => Ret w
  | S n =>
    p ← inode_ptr (fs_at E) inode;
    w ← (if get_usage (memory w) p =? 1 then
           print_str (if FileSys.get_size (memory w) p =? 0 then chars "| %s\ " ++ [10] else chars "| %s " ++ [10]) p w
         else Ret w);
    ls_inodes n (inode + 1) w
  end.
Definition ls_fs w : outcome (world D) :=
  w ← print (chars "-------Disk Contents:-----" ++ [10]) [] w;
  st ← update_structures (fs_at E) (fs_view w);
  ls_inodes (Z.to_nat (INODE_COUNT - 95)) 0 (with_fs w st).

Definition do_ls w : outcome (world D) :=
  l ← print_ls (tar_at E) (tar_view w);
  w ← print_names l w;
  w ← print [10] [] w;
  ls_fs w.

Definition do_ll w : outcome (world D) :=
  l ← print_ll (tar_at E) (memory w); print_names l w.

Definition do_cls w : outcome (world D) :=
  let t := term_view w in Ret (with_term w (Input (keys t) (cls (con t)) (reading_finished t))).

(** One line of [ps]; the last number is [nextFreePid]. *)
Fixpoint print_lines (next : Z) (l : list ps_line) w : outcome (world D) :=
  match l with
  | [] => Ret w
  | x :: l =>
    s ← string_at STRING_BOUND (memory w) (ps_name x);
    w ← print (chars "%s %d %s %d" ++ [10])
          [AStr s; AInt (ps_pid x); AStr (if ps_kernel x then chars "Kernel" else chars "User"); AInt next] w;
    print_lines next l w
  end.
Definition ps w : outcome (world D) :=
  w ← print (chars "Name PID Mode" ++ [10]) [] w;
  l ← print_process (kern (processes w));
  print_lines (nextFreePid (kern (processes w))) l w.

(** ** fault_handler *)

(** An interrupt or system call with the registers [r] and the faulting address
    [cr2]; the result is the number for [rax].  [wait] goes on while the thread
    has a child: only other threads end it, so here it loops. *)
Definition fault_handler (codes : list Z) w (r : regs) (cr2 : Z) : outcome (world D * Z) :=
  match syscall_of r with
  | Write str fd => w ← write w str fd; Ret (w, 1)
  | Read buf fd cnt => doread codes w buf fd cnt
  | Wait => b ← wait_again (kern (processes w)); if (b : bool) then Loops else Ret (w, 1)
  | Execve name =>
    x ← do_execve (code_section E) (switch_sp E) (tar_at E) (memory w) (processes w) (temp E) name;
    Ret (with_processes w x.1, x.2)
  | Ps => w ← ps w; Ret (w, 1)
  | Cls => w ← do_cls w; Ret (w, 1)
  | Ls => w ← do_ls w; Ret (w, 1)
  | Open name => do_open w name
  | Close fd => w ← close_file w fd; Ret (w, 1)
  | Chdir name => changed w name
  | Pwd => w ← do_pwd w; Ret (w, 1)
  | Create name => do_create w name
  | Seek fd pos => do_seek w fd pos
  | _ =>
    x ← process_call (code_section E) (processes w) r cr2;
    match x with Some (s, v) => Ret (with_processes w s, v) | None => Undef end
  end.
End calls.
