(* ===== verification/FileCalls.v ===== *)
(** * Properties of the system calls

    Calls of Libc.v answered by [fault_handler] of Syscalls.v: from the registers
    a program traps with to the bytes it gets. *)

From Stdlib Require Import Ascii String.
From S2P Require Import Prelude Bitmap FsBlocks CString Memory Screen Keyboard Input Ahci FileSys FileSysProps.
From S2P Require Import TarFs KHeap Queues Kthread Process PageFault Libc Syscalls.

(** ** Printing *)

(** Outside the 25 rows of the screen. *)
Definition unseen (x : Z) : Prop := x < START_MEMORY \/ START_MEMORY + 25 * 160 <= x.

(** The console still prints within the rows, and kept all other bytes. *)
Definition printed (c c' : console) : Prop :=
  on_screen c' /\ forall x, unseen x -> Screen.ram c' x = Screen.ram c x.

Lemma printed_trans c1 c2 c3 : printed c1 c2 -> printed c2 c3 -> printed c1 c3.
Proof. intros [_ H1] [Hs H2]. split; [done|]. intros x Hx. by rewrite H2, H1. Qed.

Lemma write_char_printed color ch c : on_screen c -> printed c (write_char color ch c).
Proof.
  intros Hs. destruct (write_char_within color ch c Hs) as (Hs' & _ & H). split; [done|].
  intros x Hx. apply H. unfold unseen in Hx. lia.
Qed.

Lemma write_chars_printed color l c :
  on_screen c -> printed c (fold_left (fun c ch => write_char color ch c) l c).
Proof.
  revert c. induction l as [|ch l IH]; intros c Hs; [done|]. simpl. pose proof (write_char_printed color ch c Hs) as H.
  eapply printed_trans; [exact H|]. apply IH, H.
Qed.




Lemma printf_plain l fmt args c :
  Forall (fun ch => ch <> 37) l ->
  Screen.printf (l ++ fmt) args c = Screen.printf fmt args (fold_left (fun c ch => write_char 0x1F ch c) l c).
Proof.
  revert c. induction l as [|ch l IH]; intros c Hl; [done|]. apply Forall_cons in Hl as [Hch Hl].
  rewrite <- app_comm_cons. cbn [Screen.printf fold_left]. rewrite (proj2 (Z.eqb_neq _ _) Hch). cbn [negb]. by apply IH.
Qed.


(** What a call that prints leaves: the screen and the cursor aside, all is as
    it was. *)
Record displayed {D} (w w' : world D) : Prop := {
  displayed_screen : on_screen (con (term_view w'));
  displayed_bytes : forall x, unseen x -> memory w' x = memory w x;
  displayed_files : disk_files w' = disk_files w /\ archive_files w' = archive_files w /\ processes w' = processes w
}.

Lemma print_displayed {D} (w : world D) fmt args c :
  Screen.printf fmt args (con (term_view w)) = Ret c -> printed (con (term_view w)) c ->
  exists w', print fmt args w = Ret w' /\ displayed w w' /\ con (term_view w') = c.
Proof.
  intros Hc [Hs Hx]. eexists. split; [unfold print; rewrite Hc; reflexivity|]. split; [by split|]. by destruct c.
Qed.



(** ** From the registers to the call *)

Lemma s32_u64 i : - 2 ^ 31 <= i < 2 ^ 31 -> s32 (u64 i) = i.
Proof. intros Hi. unfold swrap, uwrap. Z.to_euclidean_division_equations. lia. Qed.

Section registers.
Context (r : regs) (p fd count : Z) (Hp : 0 <= p < 2 ^ 64) (Hf : - 2 ^ 31 <= fd < 2 ^ 31) (Hc : - 2 ^ 31 <= count < 2 ^ 31).

Ltac call_of :=
  unfold syscall_of; cbn -[Z.pow uwrap swrap];
  rewrite ?(s32_u64 fd), ?(s32_u64 count), ?(uwrap_small 64 p) by done; reflexivity.


Lemma write_dispatched : syscall_of (Libc.write p fd r) = Write p fd.
Proof. call_of. Qed.

Lemma read_dispatched : syscall_of (Libc.read p fd count r) = Read p fd count.
Proof. call_of. Qed.

Lemma open_dispatched : syscall_of (Libc.open p r) = Open p.
Proof. call_of. Qed.

Lemma close_dispatched : syscall_of (Libc.close fd r) = Close fd.
Proof. call_of. Qed.

Lemma execve_dispatched : syscall_of (Libc.execve p r) = Execve p.
Proof. call_of. Qed.
End registers.

(** ** A file on the disk *)



(** The calls [create], [write] and [read] on a name no file has: the space for
    the file is there, and the name, the text and the buffer lie apart from the
    file system's own memory; the byte behind the buffer is zero. *)
Record file_session {D} `{!Drive D, !DriveLaws D} (E : environment) (w : world D) (f : Z -> inode) (nm : Z) (s : list Z) (i : Z)
    (bm : bitmap) (b p : Z) (t : list Z) (buf cnt : Z) : Prop := {
  session_layout : layout_ok (fs_at E);
  session_fs : fs_ok (fs_at E) (fs_view w) f;
  session_block : wf (blocks (fs_at E) (fs_view w)) /\ file_mmgr_alloc_block (blocks (fs_at E) (fs_view w)) = Ret (bm, b) /\
    5 <= b /\ b + 2 <= capacity /\ b < 2 ^ 31;
  session_name : 0 <= nm < 2 ^ 64 /\ cstr (memory w) nm s /\ (length s < 100)%nat /\ outside (fs_at E) nm 101;
  session_new : find_file (fs_at E) (fs_view w) nm = Ret (-1);
  session_inode : 0 <= i < 4 /\ (forall j, 0 <= j < i -> i_usage (f j) = 1) /\ i_usage (f i) <> 1 /\ i_position (f i) = 0 /\
    forall k, 0 <= k < 100 -> memory w (inode_at (fs_at E) i + k) = 0;
  session_text : 0 <= p < 2 ^ 64 /\ cstr (memory w) p t /\ (length t <= 512)%nat /\ outside (fs_at E) p 513 /\
    Forall (fun c => c <> 10) t;
  session_count : 8 <= cnt <= Z.of_nat (length t) /\ cnt < 80;
  session_buffer : 0 <= buf < 2 ^ 64 /\ outside (fs_at E) buf (cnt + 1) /\ memory w (buf + cnt) = 0 /\
    forall k, 0 <= k < cnt -> unseen (buf + k);
  session_screen : on_screen (con (terminal w))
}.


(** ** A file of the archive *)

(** The boot archive is in memory, the table of open files holds its names, as
    [tarfs_dir] leaves it, and a name is at [nm]. *)
Record archive_ready {D} (E : environment) (w : world D) (l : list entry) (nm : Z) (s : list Z) : Prop := {
  archive_there : archive (memory w) (binary_tarfs_end (tar_at E)) (binary_tarfs_start (tar_at E)) l /\ Forall unpadded l;
  archive_bounds : binary_tarfs_start (tar_at E) <= binary_tarfs_end (tar_at E) < 2 ^ 63;
  archive_table : table (tar_at E) (memory w) (nonempty l) /\
    file_count (archive_files w) = 1 + Z.of_nat (length (nonempty l)) /\ (length (nonempty l) < 50)%nat;
  archive_name : 0 <= nm < 2 ^ 64 /\ cstr (memory w) nm s /\ (length s < 100)%nat
}.

Lemma tarfs_read_bounded L m l name s :
  archive m (binary_tarfs_end L) (binary_tarfs_start L) l -> Forall unpadded l ->
  binary_tarfs_start L <= binary_tarfs_end L < 2 ^ 63 -> cstr m name s -> (length s < 100)%nat ->
  tarfs_read L m name = Ret (first_contents (binary_tarfs_start L) l s).
Proof.
  intros Ha Hu Hr Hs Hl. pose proof STRING_BOUND_eq. unfold tarfs_read.
  apply search_from_spec; [done|done|done|lia|lia|]. eapply walk_bound; [done|lia].
Qed.

Lemma first_contents_some m last h l s :
  archive m last h l -> s ∈ e_name <$> l -> h + USTAR_SIZE <= first_contents h l s <= last + USTAR_SIZE.
Proof.
  revert h. induction l as [|e l IH]; intros h; [by intros _ ?%elem_of_nil|].
  intros (Hh & _ & _ & _ & Hsz & Ha) Hin. cbn [first_contents]. destruct (decide (e_name e = s)) as [|Hne]; [lia|].
  rewrite fmap_cons, elem_of_cons in Hin. destruct Hin as [->|Hin]; [done|].
  pose proof (padded_range (e_size e) ltac:(lia)). pose proof (IH _ Ha Hin). unfold USTAR_SIZE in *. lia.
Qed.

Lemma first_contents_none h l s : s ∉ e_name <$> l -> first_contents h l s = 0.
Proof.
  revert h. induction l as [|e l IH]; intros h Hn; [done|]. rewrite fmap_cons, not_elem_of_cons in Hn.
  destruct Hn as [Hne Hn]. cbn [first_contents]. rewrite decide_False by congruence. by apply IH.
Qed.

Lemma nonempty_names l s : s ∈ nonempty l -> s ∈ e_name <$> l.
Proof.
  unfold nonempty. rewrite !list_elem_of_fmap. intros (e & E & He). apply list_elem_of_filter in He as [_ He]. by exists e.
Qed.

Lemma used_slot_eq E fd : 0 <= fd < 50 -> used_slot E fd = Ret (file_used (tar_at E) + 4 * fd).
Proof. intros. unfold used_slot. by rewrite (proj2 (Z.leb_le _ _)), (proj2 (Z.ltb_lt _ _)) by lia. Qed.

(** [open] finds the file and marks its descriptor. *)
Lemma do_open_found {D} E (w : world D) l nm s j :
  archive_ready E w l nm s -> list_find (.= s) (nonempty l) = Some (j, s) ->
  do_open E w nm = Ret (with_tar w (with_tar_mem (tar_view w)
    (store32 (memory w) (file_used (tar_at E) + 4 * (1 + Z.of_nat j)) 1)), 1 + Z.of_nat j).
Proof.
  intros [[Ha Hu] Hb (Ht & Hcount & Hlen) (_ & Hs & Hsl)] Hj. unfold do_open, tarfs_open.
  pose proof (open_from_spec 50 (tar_at E) (tar_view w) nm s (nonempty l) 0 Ht Hcount Hlen Hs Hsl) as Eo.
  change (1 + Z.of_nat 0) with 1 in Eo. rewrite Eo by (lia || (intros; lia)). rewrite bind_Ret, Hj.
  rewrite (proj2 (Z.eqb_neq _ _)) by lia. done.
Qed.

(** The archive, the table of names and the table of marks lie apart, and the
    buffers of the reads [qs], for [cnt] bytes each, apart from them. *)
Record archive_session {D} (E : environment) (w : world D) (l : list entry) (nm : Z) (s : list Z) (j : nat)
    (qs : list (Z * Z * regs)) : Prop := {
  opening_ready : archive_ready E w l nm s;
  opening_found : list_find (.= s) (nonempty l) = Some (j, s);
  opening_marks :
    apart (binary_tarfs_start (tar_at E)) (binary_tarfs_end (tar_at E) + USTAR_SIZE - binary_tarfs_start (tar_at E))
      (file_used (tar_at E)) 200 /\
    apart (files (tar_at E)) 5000 (file_used (tar_at E)) 200;
  opening_buffers : forall buf cnt r, (buf, cnt, r) ∈ qs ->
    0 <= buf < 2 ^ 64 /\ 0 <= cnt < 2 ^ 31 /\
    apart buf cnt (binary_tarfs_start (tar_at E)) (binary_tarfs_end (tar_at E) + USTAR_SIZE - binary_tarfs_start (tar_at E)) /\
    apart buf cnt (files (tar_at E)) 5000 /\ apart buf cnt (file_used (tar_at E)) 200 /\
    first_contents (binary_tarfs_start (tar_at E)) l s + cnt <= binary_tarfs_end (tar_at E) + USTAR_SIZE;
  opening_screen : on_screen (con (terminal w))
}.

(** The file with the rank [fd] is open: the archive and the tables are as they
    were in the memory [m] but for the mark. *)
Record file_open {D} (E : environment) (m : bytes) (fd : Z) (w : world D) : Prop := {
  open_mark : load32 (memory w) (file_used (tar_at E) + 4 * fd) = 1;
  open_archive : forall x, binary_tarfs_start (tar_at E) <= x < binary_tarfs_end (tar_at E) + USTAR_SIZE -> memory w x = m x;
  open_names : forall x, files (tar_at E) <= x < files (tar_at E) + 5000 -> memory w x = m x
}.

(** A read of an open file copies the file's first bytes. *)
Lemma doread_open {D} `{!Drive D} E (w0 w : world D) l nm s j qs buf cnt r codes :
  archive_session E w0 l nm s j qs -> (buf, cnt, r) ∈ qs -> file_open E (memory w0) (1 + Z.of_nat j) w ->
  let src := first_contents (binary_tarfs_start (tar_at E)) l s in
  exists w', doread E codes w buf (1 + Z.of_nat j) cnt = Ret (w', 0) /\
    (forall k, 0 <= k < cnt -> memory w' (buf + k) = memory w0 (src + k)) /\
    file_open E (memory w0) (1 + Z.of_nat j) w' /\ terminal w' = terminal w.
Proof.
  intros [[[Ha Hu] Hb (Ht & Hcount & Hlen) (_ & Hs & Hsl)] Hj [Hap1 Hap2] Hq _] Hin [Hmark Har Hnames] src.
  set (fd := 1 + Z.of_nat j) in *. destruct (Hq _ _ _ Hin) as (Hbuf & Hc & Hb1 & Hb2 & Hb3 & Hb4). fold src in Hb4.
  destruct (list_find_Some (.= s) (nonempty l) j s) as [Hf _]. destruct (Hf Hj) as (Hjs & _ & _).
  pose proof (lookup_lt_Some _ _ _ Hjs). destruct (proj1 Ht j s Hjs) as [Hname _]. fold fd in Hname.
  pose proof (first_contents_some _ _ _ _ s Ha (nonempty_names _ _ (list_elem_of_lookup_2 _ _ _ Hjs))) as Hsrc. fold src in Hsrc.
  assert (tarfs_read (tar_at E) (memory w) (files (tar_at E) + 100 * fd) = Ret src) as Er.
  { apply tarfs_read_bounded; [eapply archive_same; [exact Ha|]; intros x Hx; apply Har; lia|done|done| |done].
    eapply cstr_same; [exact Hname|]. intros x Hx. apply Hnames. unfold fd in *. lia. }
  assert (src <> 0) as Hsrc0.
  { destruct l as [|e l0]; [by rewrite nonempty_nil in Hjs || done|]. destruct Ha as (Hh & _). unfold USTAR_SIZE in *. lia. }
  unfold doread. rewrite (proj2 (Z.eqb_neq _ _)), (proj2 (Z.leb_gt _ _)) by (unfold STDIN, fd; lia).
  rewrite used_slot_eq, bind_Ret by (unfold fd; lia). rewrite Hmark.
  cbn [Z.eqb Pos.eqb]. rewrite file_ptr_eq, bind_Ret by (unfold fd; lia). rewrite Er, bind_Ret, (proj2 (Z.eqb_neq _ _) Hsrc0).
  rewrite uwrap_small by lia. eexists. split; [reflexivity|]. set (w' := with_tar _ _).
  assert (forall x, memory w' x = if decide (buf <= x < buf + cnt) then memory w (x + (src - buf)) else memory w x) as Hw'.
  { intros x. cbn [memory with_tar tar_mem with_tar_mem w']. rewrite memcpy_apart; rewrite Z2Nat.id by lia; [done|].
    unfold apart, USTAR_SIZE in *. lia. }
  assert (forall x, ~ (buf <= x < buf + cnt) -> memory w' x = memory w x) as Hout
    by (intros x Hx; rewrite Hw'; by apply decide_False).
  split; [|split; [|done]].
  - intros k Hk. unfold USTAR_SIZE in *. rewrite Hw', decide_True by lia. rewrite Har by lia. f_equal. lia.
  - unfold apart in *. split; [|intros x Hx; rewrite Hout by lia; auto..].
    rewrite <- Hmark. apply (load_le_agree 4). intros x Hx. apply Hout. unfold fd in *. lia.
Qed.

(** The reads one after another: each returns 0 and finds the bytes from [src] on
    as they were in [m] in its buffer. *)
Fixpoint reads_served {D} `{!Drive D} (E : environment) (codes : list Z) (cr2 fd src : Z) (m : bytes) (w : world D)
    (qs : list (Z * Z * regs)) (post : world D -> Prop) : Prop :=
  match qs with
  | [] => post w
  | (buf, cnt, r) :: qs => exists w', fault_handler E codes w (Libc.read buf fd cnt r) cr2 = Ret (w', 0) /\
      (forall k, 0 <= k < cnt -> memory w' (buf + k) = m (src + k)) /\ reads_served E codes cr2 fd src m w' qs post
  end.

(** [close] clears the mark, after which [read] prints that the file is open and
    fails. *)
Lemma closed_read {D} `{!Drive D} E (w : world D) fd buf cnt codes :
  1 <= fd < 50 -> on_screen (con (terminal w)) ->
  exists w1 w2, close_file E w fd = Ret w1 /\ doread E codes w1 buf fd cnt = Ret (w2, -1) /\ displayed w1 w2.
Proof.
  intros Hfd Hs.
  set (w1 := with_tar w (with_tar_mem (tar_view w) (store32 (memory w) (file_used (tar_at E) + 4 * fd) 0))).
  set (msg := chars "File is already open by another process" ++ [10]).
  destruct (print_displayed w1 msg [] (fold_left (fun c ch => write_char 0x1F ch c) msg (con (term_view w1)))) as (w2 & Ep & Hw2 & _).
  { rewrite <- (app_nil_r msg) at 1. rewrite printf_plain by by_computation. done. }
  { by apply write_chars_printed. }
  exists w1, w2. split.
  { unfold close_file, do_close. by rewrite (proj2 (Z.ltb_lt _ _)), (proj2 (Z.ltb_ge _ _)) by lia. }
  split; [|exact Hw2]. unfold doread.
  rewrite (proj2 (Z.eqb_neq _ _)), (proj2 (Z.leb_gt _ _)) by (unfold STDIN; lia).
  rewrite used_slot_eq, bind_Ret by lia.
  assert (load32 (memory w1) (file_used (tar_at E) + 4 * fd) = 0) as ->
    by (cbn [memory with_tar tar_mem with_tar_mem w1]; by rewrite (load_store_le 4)).
  cbn [Z.eqb]. fold msg. by rewrite Ep.
Qed.

Lemma reads_serve {D} `{!Drive D} E (w0 : world D) l nm s j codes cr2 (post : world D -> Prop) : forall qs w,
  archive_session E w0 l nm s j qs -> file_open E (memory w0) (1 + Z.of_nat j) w -> on_screen (con (terminal w)) ->
  (forall w', on_screen (con (terminal w')) -> post w') ->
  reads_served E codes cr2 (1 + Z.of_nat j) (first_contents (binary_tarfs_start (tar_at E)) l s) (memory w0) w qs post.
Proof.
  induction qs as [|[[buf cnt] r] qs IH]; intros w HS Ho Hscr Hpost; [by apply Hpost|]. cbn [reads_served].
  destruct (doread_open E w0 w l nm s j _ buf cnt r codes HS (list_elem_of_here _ _) Ho) as (w' & E' & Hbytes & Ho' & Ht).
  destruct HS as [Hr Hj Hm Hq Hs]. destruct (Hq _ _ _ (list_elem_of_here _ _)) as (Hbuf & Hc & _).
  exists w'. split; [|split; [exact Hbytes|]].
  - destruct Hr as [_ _ (_ & _ & Hlen) _]. apply list_find_Some in Hj as (Hj%lookup_lt_Some & _).
    unfold fault_handler. by rewrite read_dispatched by lia.
  - apply IH; [|done|by rewrite Ht|done]. split; [done..| |done]. intros b c q Hin. eapply Hq. by apply list_elem_of_further.
Qed.

(** C22: a program opens a file of an archive none of whose file sizes is a positive
    multiple of 512 and fewer than 50 of whose files are not empty, with the
    table of names as [tarfs_dir] leaves it: the descriptor is the file's rank
    among these.  It then reads through it any number of times, for any numbers
    of bytes up to the end of the archive, into any buffers that lie apart from
    the archive and the two tables: each read returns 0 and copies the first
    bytes of the file, since no position is kept.  After [close], [read] fails. *)
Theorem archive_calls {D} `{!Drive D} E (w : world D) l nm s j qs r r' codes cr2 :
  archive_session E w l nm s j qs ->
  let fd := 1 + Z.of_nat j in
  exists w1, fault_handler E codes w (Libc.open nm r) cr2 = Ret (w1, fd) /\
    reads_served E codes cr2 fd (first_contents (binary_tarfs_start (tar_at E)) l s) (memory w) w1 qs (fun w2 =>
      exists w3, fault_handler E codes w2 (Libc.close fd r') cr2 = Ret (w3, 1) /\
        forall buf cnt r'', 0 <= buf < 2 ^ 64 -> 0 <= cnt < 2 ^ 31 ->
          exists w4, fault_handler E codes w3 (Libc.read buf fd cnt r'') cr2 = Ret (w4, -1)).
Proof.
  intros HS fd. pose proof HS as [Hready Hj [Hap1 Hap2] _ Hscr]. pose proof Hready as [_ _ (_ & _ & Hlen) (Hnm & _)].
  assert (1 <= fd < 50) as Hfd.
  { apply list_find_Some in Hj as (Hj%lookup_lt_Some & _). unfold fd. lia. }
  eexists. split.
  - unfold fault_handler. rewrite open_dispatched by done. by apply (do_open_found E w l nm s j Hready).
  - eapply reads_serve; [exact HS| |done|].
    + split; cbn [memory with_tar tar_mem with_tar_mem]; [by rewrite (load_store_le 4)|..];
        intros x Hx; apply store_le_out; unfold apart, fd in *; lia.
    + intros w2 Hs2. destruct (closed_read E w2 fd 0 0 codes Hfd Hs2) as (w3 & _ & E3 & _). exists w3. split.
      { unfold fault_handler. rewrite close_dispatched by lia. by rewrite E3. }
      intros buf cnt r'' Hb Hc. destruct (closed_read E w2 fd buf cnt codes Hfd Hs2) as (w3' & w4 & E3' & E4 & _).
      exists w4. unfold fault_handler. rewrite read_dispatched by lia. rewrite E3 in E3'. injection E3' as <-. exact E4.
Qed.

(** ** Errors *)

(** [write] to any descriptor below 99 but the console's indexes the inode
    table below its start: the descriptors of [open], which begin at 1, and
    standard error among them.  The subtraction of 100 is tested against -1
    only. *)
Theorem write_low_descriptor {D} `{!Drive D} E (w : world D) str fd s r codes cr2 :
  0 <= str < 2 ^ 64 -> cstr (memory w) str s -> (length s <= STRING_BOUND)%nat ->
  - 2 ^ 31 + 100 <= fd < 99 -> fd <> STDOUT ->
  fault_handler E codes w (Libc.write str fd r) cr2 = Undef.
Proof.
  intros Hp Hs Hl Hfd Hne. unfold fault_handler. rewrite write_dispatched by (done || lia).
  unfold write. rewrite (proj2 (Z.eqb_neq _ _) Hne). unfold write_file, deflate, INFLATE_CONSTANT.
  rewrite swrap_small, (proj2 (Z.eqb_neq _ _)) by lia. step (strlen_bounded (FileSys.mem (fs_view w)) _ _ Hs Hl).
  unfold inode_ptr. by rewrite (proj2 (Z.leb_gt _ _)) by lia.
Qed.

(** C34: execve of a name of less than 100 characters that is not in the
    archive, none of whose file sizes is a positive multiple of 512, returns -1
    to the caller and changes nothing: the test comes before the caller's memory
    is given up. *)
Theorem execve_missing {D} `{!Drive D} E (w : world D) l nm s r codes cr2 :
  archive_ready E w l nm s -> s ∉ e_name <$> l ->
  fault_handler E codes w (Libc.execve nm r) cr2 = Ret (w, -1).
Proof.
  intros [[Ha Hu] Hb _ (Hnm & Hs & Hsl)] Hn. unfold fault_handler. rewrite execve_dispatched by done.
  unfold do_execve. step (tarfs_read_bounded _ _ _ _ _ Ha Hu Hb Hs Hsl). rewrite first_contents_none by done.
  rewrite Z.eqb_refl, bind_Ret. by destruct w.
Qed.

(** ** Small instances *)

Definition demo_env : environment := Env 0 0 demo_tar demo_layout 0x5000 0x5800 (fun _ => 0).
Definition demo_terminal : input := Input (Keyboard true false false false) blank_console 1.

Definition disk_world : world RamDisk.medium_t :=
  World ready_bytes (demo_fs ready_bytes) demo_tarfs demo_terminal cow_system.

Lemma ready_string p s :
  cstr demo_bytes p s -> apart p (Z.of_nat (length s) + 1) (map_at demo_layout) 1 -> cstr ready_bytes p s.
Proof.
  intros Hs Hp. eapply cstr_same; [exact Hs|]. intros x Hx. unfold ready_bytes. apply patch_out. unfold apart in *. simpl length.
  lia.
Qed.

Lemma disk_session :
  file_session demo_env disk_world (fun _ => empty_inode) NAME_AB [97; 98] 0
    (returned (demo_blocks, 0) (file_mmgr_alloc_block demo_blocks)).1 6 TEXT demo_text BUFFER 12.
Proof.
  split; change (fs_view disk_world) with (demo_fs ready_bytes); change (fs_at demo_env) with demo_layout;
    change (memory disk_world) with ready_bytes.
  - apply demo_layout_ok.
  - apply ready_fs_ok.
  - rewrite ready_blocks. split; [by_computation|]. split; [vm_compute; reflexivity|].
    split; [lia|]. split; [vm_compute; discriminate|lia].
  - split; [unfold NAME_AB, AHCI_KERN_BASE; lia|]. split; [|split; [simpl; lia|outside_demo]].
    apply ready_string; [apply demo_name|by_computation].
  - vm_compute. reflexivity.
  - split; [lia|]. split; [intros j Hj; lia|]. split; [simpl; lia|]. split; [done|].
    intros k Hk. apply ready_inode_zero; lia.
  - split; [unfold TEXT, AHCI_KERN_BASE; lia|]. split; [|split; [simpl; lia|split; [outside_demo|by_computation]]].
    apply ready_string; [|by_computation].
    apply cstr_patch; [by_computation|lia|simpl; lia|]. intros k Hk. by rewrite Z.sub_diag.
  - simpl. lia.
  - split; [unfold BUFFER, AHCI_KERN_BASE; lia|]. split; [outside_demo|]. split; [vm_compute; reflexivity|].
    intros k Hk. right. unfold BUFFER, START_MEMORY, AHCI_KERN_BASE. lia.
  - by_computation.
Qed.


(** The archive of TarFs.v with its table of names. *)
Definition opened_bytes : bytes := patch (patch demo_tar_bytes 0x8064 [97]) 0x80C8 [98].
Definition archive_world : world RamDisk.medium_t :=
  World opened_bytes (demo_fs ready_bytes) (Tarfs opened_bytes 0x6000 3 MyAlloc.demo_heap) demo_terminal cow_system.

Lemma opened_bytes_out x : x < 0x8064 \/ 0x80C9 <= x -> opened_bytes x = demo_tar_bytes x.
Proof. intros Hx. unfold opened_bytes. by rewrite !patch_out by (unfold apart; simpl; lia). Qed.

Lemma archive_world_ready nm s :
  0 <= nm < 0x8000 -> cstr demo_tar_bytes nm s -> (length s < 4)%nat -> archive_ready demo_env archive_world demo_entries nm s.
Proof.
  intros Hnm Hs Hl. split.
  - split; [|by_computation]. eapply archive_same; [apply demo_archive|].
    intros x Hx. unfold USTAR_SIZE in Hx. cbn [tar_at demo_env demo_tar binary_tarfs_start binary_tarfs_end] in Hx.
    apply opened_bytes_out. lia.
  - simpl. lia.
  - split; [split|split; [reflexivity|simpl; lia]].
    + intros i t Hi. change (nonempty demo_entries) with [[97]; [98]] in Hi.
      destruct i as [|[|i]]; [injection Hi as <-..|done];
        (split; [apply cstr_check_sound; vm_compute; reflexivity|simpl; lia]).
    + intros x Hx. change (length (nonempty demo_entries)) with 2%nat in Hx. cbn [tar_at demo_env demo_tar files] in Hx.
      change (memory archive_world) with opened_bytes. rewrite opened_bytes_out by lia. unfold demo_tar_bytes.
      rewrite !patch_out; [done|unfold apart; simpl; lia..].
  - split; [lia|]. split; [|lia]. eapply cstr_same; [exact Hs|]. intros x Hx. apply opened_bytes_out. lia.
Qed.

(** The same file read twice, first three bytes and then five. *)
Definition two_reads : list (Z * Z * regs) := [(0x3000, 3, demo_regs); (0x3800, 5, demo_regs)].

Lemma archive_world_session : archive_session demo_env archive_world demo_entries 0x5000 [98] 1 two_reads.
Proof.
  split.
  - apply archive_world_ready; [lia|apply cstr_check_sound; reflexivity|simpl; lia].
  - reflexivity.
  - split; by_computation.
  - intros buf cnt r Hin. unfold two_reads in Hin. rewrite !elem_of_cons, elem_of_nil in Hin.
    replace (first_contents (binary_tarfs_start (tar_at demo_env)) demo_entries [98]) with 0x1600 by reflexivity.
    destruct Hin as [[= -> -> ->]|[[= -> -> ->]|[]]]; (split; [lia|]); (split; [lia|]); split_and!; by_computation.
  - by_computation.
Qed.

Example archive_calls_witness :
  exists w1 w2 w3,
    fault_handler demo_env [] archive_world (Libc.open 0x5000 demo_regs) 0 = Ret (w1, 2) /\
    fault_handler demo_env [] w1 (Libc.read 0x3000 2 3 demo_regs) 0 = Ret (w2, 0) /\
    fault_handler demo_env [] w2 (Libc.read 0x3800 2 5 demo_regs) 0 = Ret (w3, 0) /\
    memory w2 0x3000 = demo_tar_bytes 0x1600 /\ memory w3 0x3804 = demo_tar_bytes 0x1604.
Proof.
  destruct (archive_calls demo_env archive_world demo_entries 0x5000 [98] 1 two_reads demo_regs demo_regs [] 0 archive_world_session)
    as (w1 & E1 & w2 & E2 & H2 & w3 & E3 & H3 & _).
  exists w1, w2, w3. split; [exact E1|]. split; [exact E2|]. split; [exact E3|]. split; [exact (H2 0 ltac:(lia))|exact (H3 4 ltac:(lia))].
Defined.

(** Standard error. *)
Example write_low_descriptor_witness :
  fault_handler demo_env [] disk_world (Libc.write TEXT 2 demo_regs) 0 = Undef.
Proof.
  apply (write_low_descriptor demo_env disk_world TEXT 2 demo_text).
  - unfold TEXT, AHCI_KERN_BASE. lia.
  - apply disk_session.
  - simpl. pose proof STRING_BOUND_eq. lia.
  - lia.
  - discriminate.
Defined.

(** No file has the name at the first header's size field, [3]. *)
Example execve_missing_witness :
  fault_handler demo_env [] archive_world (Libc.execve 0x107C demo_regs) 0 = Ret (archive_world, -1).
Proof.
  apply (execve_missing demo_env archive_world demo_entries 0x107C [51]).
  - apply archive_world_ready.
    + lia.
    + apply cstr_check_sound. reflexivity.
    + simpl. lia.
  - by_computation.
Defined.
