(* ===== verification/Start.v ===== *)
(** * The first thread (start in sys/main.c, init_ahci in sys/ahci.c)

    The disk controller is mapped and set up over pages of the kernel; then
    start reads the file system and the archive and starts the shell. *)

From Stdlib Require Import Ascii String.
From S2P Require Import Prelude CString Memory Ahci FileSys TarFs Screen Keyboard Input Syscalls FileCalls.
From S2P Require Import Bitmap PhysMem PageEntry Paging MapPage KHeap Queues Kthread Process PageFault CopyTables UserBytes Boot.

(** ** init_ahci *)

(** The physical address of the controller's registers, written into the
    function. *)
Definition paddr : Z := 0xFEBF0000.

Section ahci.
Context {D : Type} `{!Drive D}.

(** The page [virtAddr] is taken from the kernel's and its entry redirected to
    the registers; then thirty pages for the transfers, whose physical
    addresses the code computes by subtraction.  The result is the heap, the
    machine and the two addresses. *)
Definition init_ahci (h : MyAlloc.kheap) (s : Ahci.machine D) : outcome (MyAlloc.kheap * Ahci.machine D * Z * Z) :=
  r ← MyAlloc.sub_malloc h 0 true;
  let virtAddr := r.2 in
  v ← vmmgr_map_page_after_paging (MyAlloc.vm r.1) paddr virtAddr false;
  r ← MyAlloc.sub_malloc (MyAlloc.with_vm r.1 v) 29 true;
  let pages_for_ahci_start_virtual := r.2 in
  let pages_for_ahci_start := u64 (pages_for_ahci_start_virtual - 0xFFFFFFFF80000000) in
  s ← probe_port pages_for_ahci_start s;
  Ret (r.1, s, virtAddr, pages_for_ahci_start_virtual).
End ahci.

(** ** The search for the drive *)

Section probe.
Context {D : Type} `{!Drive D, !DriveLaws D}.
Implicit Types s : Ahci.machine D.




End probe.

(** ** Mapping the registers *)



(** ** Later allocations *)






(** ** start *)

(** The addresses of the literals ["rootfs/"] and ["bin/shell"], and what the
    creation of threads needs of the image. *)
Record start_image := StartImage { rootfs_literal : Z; shell_literal : Z; linked : image }.

Section start.
Context {D : Type} `{!Drive D} (SI : start_image).
Implicit Types w : world D.

(** The pages [init_ahci] took are those of the driver from then on. *)
Definition with_dma_pages (E : environment) (p : Z) : environment :=
  Env (code_section E) (switch_sp E) (tar_at E) (Layout p (sb_at (fs_at E)) (map_at (fs_at E)) (inodes_at (fs_at E)))
    (Syscalls.iobuff E) (temp E) (beyond E).

Definition heap_of w : MyAlloc.kheap := kheap (kern (processes w)).
Definition with_heap w (h : MyAlloc.kheap) : world D :=
  with_processes w (with_kern (processes w) (with_kheap (kern (processes w)) h)).

(** Up to [tarfs_dir]; [get_sb] returns 1. *)
Definition prepare (E : environment) w : outcome (environment * world D) :=
  let t := tar_view w in
  t ← init_tarfs (tar_at E) (rootfs_literal SI) (Tarfs (tar_mem t) (pwd t) (file_count t) (heap_of w));
  let w := with_heap (with_tar w t) (tar_heap t) in
  let st := fs_view w in
  r ← init_ahci (heap_of w) (mc st);
  let w := with_heap (with_fs w (Fsys r.1.1.2 (fs_used st) (fs_max st))) r.1.1.1 in
  let E := with_dma_pages E r.2 in
  r ← set_sb (fs_at E) (fs_view w);
  st ← update_structures (fs_at E) r.1;
  let w := with_fs w st in
  t ← tarfs_dir (tar_at E) (tar_view w);
  Ret (E, with_tar w t).

(** The loop of [Yield] goes on as long as [sps] has stack pointers; what
    [do_exec] returns is not looked at. *)
Definition start (E : environment) (sps : list Z) w : outcome (world D) :=
  r ← prepare E w;
  let E := r.1 in
  let w := r.2 in
  x ← do_exec (linked SI) (code_section E) (tar_at E) (memory w) (processes w) (shell_literal SI);
  k ← yields sps (kern x.1);
  Ret (with_processes w (with_kern x.1 k)).

(** The preparations change the threads' kernel in its heap alone. *)
Lemma prepare_processes E w E' w' :
  prepare E w = Ret (E', w') -> exists h, processes w' = with_kern (processes w) (with_kheap (kern (processes w)) h).
Proof.
  unfold prepare. cbv zeta. intros H. apply bind_Ret_inv in H as (t & _ & H). apply bind_Ret_inv in H as (r & _ & H).
  apply bind_Ret_inv in H as (r2 & _ & H). apply bind_Ret_inv in H as (st & _ & H). apply bind_Ret_inv in H as (t2 & _ & H).
  injection H as _ <-. eexists. reflexivity.
Qed.
End start.

Lemma yields_alone sps : forall k p,
  scheduled k p [] -> is_ready (threads k) p = true ->
  exists k', yields sps k = Ret k' /\ scheduled k' p [] /\ switched k k'.
Proof.
  induction sps as [|sp sps IH]; intros k p HS Hp.
  - by exists k.
  - pose proof (Yield_spec sp k p [] HS) as HY. cbn [app pick] in HY. rewrite Hp in HY.
    destruct HY as (k1 & E & HS1 & SW & _). cbn [yields]. rewrite E, bind_Ret.
    destruct (IH k1 p HS1) as (k' & E' & HS' & SW'); [by rewrite (sw_ready _ _ SW)|].
    exists k'. split; [done|]. split; [done|]. by eapply switched_trans.
Qed.

(** Without a shell in the archive the first thread never finds out: it yields to
    itself for ever, and nothing stops. *)
Theorem start_without_shell {D} `{!Drive D} SI E (w : world D) E' w' l s sps p :
  prepare SI E w = Ret (E', w') -> scheduled (kern (processes w)) p [] -> is_ready (threads (kern (processes w))) p = true ->
  archive_ready E' w' l (shell_literal SI) s -> s ∉ e_name <$> l ->
  exists w2, start SI E sps w = Ret w2 /\ currentThread (kern (processes w2)) = p /\ memory w2 = memory w'.
Proof.
  intros Ep HS Hp [[Ha Hu] Hb _ (Hnm & Hs & Hsl)] Hn. unfold start. rewrite Ep, bind_Ret. cbn [fst snd].
  destruct (prepare_processes SI E w E' w' Ep) as (h & Eh).
  unfold do_exec, readelf. rewrite (tarfs_read_bounded _ _ _ _ _ Ha Hu Hb Hs Hsl), !bind_Ret, first_contents_none by done.
  rewrite Z.eqb_refl, !bind_Ret. cbn [fst].
  destruct (yields_alone sps (kern (processes w')) p) as (k' & Ek & HS' & _).
  - rewrite Eh. destruct HS as [H1 H2 H3 H4 H5]. by split.
  - by rewrite Eh.
  - rewrite Ek, bind_Ret. eexists. split; [done|]. split; [apply HS'|done].
Qed.

(** ** A small instance *)



