(* ===== verification/ListHead.v ===== *)
(** * The circular lists of include/sys/list.h

    A head and its elements are [list_head] cells in a store, linked in a ring.
    The file gives each operation on that store, and shows that they are the
    operations on lists that their comments promise: first for one ring, then
    for any sequence of operations on many lists at once. *)

From S2P Require Import Prelude.

(** ** Cells *)

Record list_head := Head { next : Z; prev : Z }.
Abbreviation store := (gmap Z list_head).

Definition LIST_POISON1 : Z := 0x00100100.
Definition LIST_POISON2 : Z := 0x00200200.

Definition cell (s : store) (p : Z) : outcome list_head := defined (s !! p).

Definition set_next (s : store) (p v : Z) : outcome store := c ← cell s p; Ret (<[p := Head v (prev c)]> s).
Definition set_prev (s : store) (p v : Z) : outcome store := c ← cell s p; Ret (<[p := Head (next c) v]> s).

(** ** Operations *)

Definition INIT_LIST_HEAD (s : store) (ptr : Z) : outcome store :=
  s ← set_next s ptr ptr;
  set_prev s ptr ptr.

Definition list_empty (s : store) (head : Z) : outcome bool := c ← cell s head; Ret (next c =? head).

Definition __list_add (s : store) (new prev next : Z) : outcome store :=
  s ← set_prev s next new;
  s ← set_next s new next;
  s ← set_prev s new prev;
  set_next s prev new.

Definition list_add (s : store) (new head : Z) : outcome store :=
  c ← cell s head;
  __list_add s new head (next c).

Definition list_add_tail (s : store) (new head : Z) : outcome store :=
  c ← cell s head;
  __list_add s new (prev c) head.

Definition __list_del (s : store) (prev next : Z) : outcome store :=
  s ← set_prev s next prev;
  set_next s prev next.

Definition list_del (s : store) (entry : Z) : outcome store :=
  c ← cell s entry;
  s ← __list_del s (prev c) (next c);
  s ← set_next s entry LIST_POISON1;
  set_prev s entry LIST_POISON2.

Definition list_del_init (s : store) (entry : Z) : outcome store :=
  c ← cell s entry;
  s ← __list_del s (prev c) (next c);
  INIT_LIST_HEAD s entry.

Definition list_move (s : store) (list head : Z) : outcome store :=
  c ← cell s list;
  s ← __list_del s (prev c) (next c);
  list_add s list head.

Definition list_move_tail (s : store) (list head : Z) : outcome store :=
  c ← cell s list;
  s ← __list_del s (prev c) (next c);
  list_add_tail s list head.

Definition list_empty_careful (s : store) (head : Z) : outcome bool :=
  c ← cell s head;
  Ret ((next c =? head) && (next c =? prev c)).

Definition __list_splice (s : store) (list head : Z) : outcome store :=
  c ← cell s list;
  h ← cell s head;
  let first := next c in
  let last := prev c in
  let at_ := next h in
  s ← set_prev s first head;
  s ← set_next s head first;
  s ← set_next s last at_;
  set_prev s at_ last.

Definition list_splice (s : store) (list head : Z) : outcome store :=
  b ← list_empty s list;
  if negb b then __list_splice s list head else Ret s.

Definition list_splice_init (s : store) (list head : Z) : outcome store :=
  b ← list_empty s list;
  if negb b then
    s ← __list_splice s list head;
    INIT_LIST_HEAD s list
  else Ret s.

(** The values [pos] takes in [for (pos = head->next; pos != head; pos =
    pos->next)], for a body that leaves the links alone. *)
Fixpoint for_each_from (n : nat) (s : store) (pos head : Z) : outcome (list Z) :=
  if pos =? head then Ret [] else
  match n with
  | O => Loops
  | S n => c ← cell s pos; l ← for_each_from n s (next c) head; Ret (pos :: l)
  end.
Definition __list_for_each (s : store) (head : Z) : outcome (list Z) :=
  c ← cell s head;
  for_each_from (size s) s (next c) head.

(** ** Links *)

(** Membership in lists that are written out. *)
Ltac members :=
  repeat match goal with
    | H : context [_ ∈ _] |- _ => first [rewrite elem_of_app in H|rewrite elem_of_cons in H|rewrite elem_of_nil in H]
    end;
  repeat first [rewrite elem_of_app|rewrite elem_of_cons|rewrite elem_of_nil]; tauto.

Definition nxt (s : store) (p : Z) : option Z := next <$> s !! p.
Definition prv (s : store) (p : Z) : option Z := prev <$> s !! p.

Definition linked (s : store) (a b : Z) : Prop := nxt s a = Some b /\ prv s b = Some a.

(** From [a] through [l] to [z]. *)
Fixpoint path (s : store) (a : Z) (l : list Z) (z : Z) : Prop :=
  match l with [] => linked s a z | x :: l => linked s a x /\ path s x l z end.

Record ring (s : store) (head : Z) (l : list Z) : Prop := {
  ring_nodup : NoDup (head :: l);
  ring_path : path s head l head
}.

Lemma cell_nxt s p q : nxt s p = Some q -> exists c, cell s p = Ret c /\ next c = q /\ s !! p = Some c.
Proof. unfold nxt, cell. destruct (s !! p) as [c|]; [|done]. intros [= <-]. by exists c. Qed.

Lemma cell_prv s p q : prv s p = Some q -> exists c, cell s p = Ret c /\ prev c = q /\ s !! p = Some c.
Proof. unfold prv, cell. destruct (s !! p) as [c|]; [|done]. intros [= <-]. by exists c. Qed.

(** Links that differ between two stores: [next] at most in [N], [prev] at most
    in [P]. *)
Record touched (s s' : store) (N P : list Z) : Prop := {
  touched_next : forall q, q ∉ N -> nxt s' q = nxt s q;
  touched_prev : forall q, q ∉ P -> prv s' q = prv s q;
  touched_cells : forall q, is_Some (s' !! q) <-> is_Some (s !! q)
}.

Lemma touched_trans s1 s2 s3 N1 P1 N2 P2 :
  touched s1 s2 N1 P1 -> touched s2 s3 N2 P2 -> touched s1 s3 (N1 ++ N2) (P1 ++ P2).
Proof.
  intros [A1 B1 C1] [A2 B2 C2]. split.
  - intros q [H1 H2]%not_elem_of_app. by rewrite A2, A1.
  - intros q [H1 H2]%not_elem_of_app. by rewrite B2, B1.
  - intros q. by rewrite C2.
Qed.

Lemma touched_mono s s' N P N' P' :
  touched s s' N P -> (forall q, q ∈ N -> q ∈ N') -> (forall q, q ∈ P -> q ∈ P') -> touched s s' N' P'.
Proof. intros [A B C] HN HP. split; [intros q Hq; apply A; auto|intros q Hq; apply B; auto|exact C]. Qed.

Lemma touched_refl s N P : touched s s N P.
Proof. by split. Qed.

(** A cell outside both is the same cell. *)
Lemma touched_cell s s' N P q : touched s s' N P -> q ∉ N -> q ∉ P -> s' !! q = s !! q.
Proof.
  intros [A B _] HN HP. specialize (A q HN). specialize (B q HP). unfold nxt, prv in *.
  destruct (s' !! q) as [[]|], (s !! q) as [[]|]; simpl in *; congruence.
Qed.

(** What one store of a link does. *)
Lemma set_next_spec s p v :
  is_Some (s !! p) -> exists s', set_next s p v = Ret s' /\ nxt s' p = Some v /\ touched s s' [p] [].
Proof.
  intros [c E]. unfold set_next, cell, nxt, prv. rewrite E. eexists. split; [reflexivity|].
  split; [by rewrite lookup_insert_eq|].
  split; intros q; unfold nxt, prv; (destruct (decide (q = p)) as [->|Hne]; [|intros; by rewrite lookup_insert_ne]); rewrite lookup_insert_eq, E.
  - intros Hq. destruct Hq. members.
  - done.
  - split; by eexists.
Qed.

Lemma set_prev_spec s p v :
  is_Some (s !! p) -> exists s', set_prev s p v = Ret s' /\ prv s' p = Some v /\ touched s s' [] [p].
Proof.
  intros [c E]. unfold set_prev, cell, nxt, prv. rewrite E. eexists. split; [reflexivity|].
  split; [by rewrite lookup_insert_eq|].
  split; intros q; unfold nxt, prv; (destruct (decide (q = p)) as [->|Hne]; [|intros; by rewrite lookup_insert_ne]); rewrite lookup_insert_eq, E.
  - done.
  - intros Hq. destruct Hq. members.
  - split; by eexists.
Qed.

(** ** Paths *)

Lemma path_app s l1 : forall a x l2 z, path s a (l1 ++ x :: l2) z <-> path s a l1 x /\ path s x l2 z.
Proof.
  induction l1 as [|y l1 IH]; intros a x l2 z; [done|]. cbn [app path]. rewrite IH. tauto.
Qed.

Lemma path_snoc s l a x z : path s a (l ++ [x]) z <-> path s a l x /\ linked s x z.
Proof. apply (path_app s l a x []). Qed.

Lemma path_first s a l z : path s a l z -> nxt s a = Some (List.hd z l).
Proof. destruct l; [by intros [? _]|by intros [[? _] _]]. Qed.

Lemma path_last s l a z : path s a l z -> prv s z = Some (List.last l a).
Proof.
  destruct l as [|x k _] using rev_ind; [by intros [_ ?]|]. intros [_ [_ ?]]%path_snoc. by rewrite List.last_last.
Qed.

Lemma path_frame s s' N P l : forall a z,
  touched s s' N P -> (forall q, q ∈ a :: l -> q ∉ N) -> (forall q, q ∈ l ++ [z] -> q ∉ P) -> path s a l z -> path s' a l z.
Proof.
  intros a z HT. revert a z. assert (forall a b, a ∉ N -> b ∉ P -> linked s a b -> linked s' a b) as Hl.
  { intros a b Ha Hb [E1 E2]. split; [by rewrite (touched_next _ _ _ _ HT)|by rewrite (touched_prev _ _ _ _ HT)]. }
  induction l as [|x l IH]; intros a z HN HP; cbn [path].
  - apply Hl; [apply HN|apply HP]; apply list_elem_of_here.
  - intros [H1 H2]. split; [apply Hl; [apply HN|apply HP|done]; apply list_elem_of_here|].
    apply IH; [|intros q Hq; apply HP; by right|done]. intros q Hq. apply HN. by right.
Qed.

(** A path whose start is replaced. *)
Lemma path_restart s s' N P a b l z :
  touched s s' N P -> path s a l z -> linked s' b (List.hd z l) -> NoDup (l ++ [z]) ->
  (forall q, q ∈ l -> q ∉ N) -> (forall q, q ∈ l ++ [z] -> q <> List.hd z l -> q ∉ P) -> path s' b l z.
Proof.
  intros HT Hp Hb Hnd HN HP. destruct l as [|x l]; [done|]. destruct Hp as [_ Hp]. split; [done|].
  apply (path_frame s s' N P); [done..| |done]. intros q Hq. apply HP; [by right|]. intros ->.
  apply NoDup_cons in Hnd as [Hx _]. done.
Qed.

Lemma path_cells s l : forall a z, path s a l z -> forall q, q ∈ a :: l ++ [z] -> is_Some (s !! q).
Proof.
  assert (forall p, is_Some (nxt s p) -> is_Some (s !! p)) as Hn by (unfold nxt; intros p; by rewrite fmap_is_Some).
  assert (forall p, is_Some (prv s p) -> is_Some (s !! p)) as Hp by (unfold prv; intros p; by rewrite fmap_is_Some).
  assert (forall a b, linked s a b -> is_Some (s !! a) /\ is_Some (s !! b)) as Hl.
  { intros a b [E1 E2]. split; [apply Hn; by eexists|apply Hp; by eexists]. }
  induction l as [|x l IH]; intros a z; cbn [path].
  - intros [Ha Hz]%Hl q [->|[->|[]%not_elem_of_nil]%elem_of_cons]%elem_of_cons; done.
  - intros [[Ha Hx]%Hl Hr] q [->|Hq]%elem_of_cons; [done|]. by eapply IH.
Qed.

(** What lies outside a ring does not matter to it. *)
Lemma ring_frame s s' N P h l :
  touched s s' N P -> (forall q, q ∈ h :: l -> q ∉ N) -> (forall q, q ∈ h :: l -> q ∉ P) -> ring s h l -> ring s' h l.
Proof.
  intros HT HN HP [Hnd Hp]. split; [done|]. apply (path_frame s s' N P); [done|done| |done].
  intros q Hq. apply HP. members.
Qed.

Lemma ring_cells s h l q : ring s h l -> q ∈ h :: l -> is_Some (s !! q).
Proof. intros [_ Hp] Hq. eapply path_cells; [exact Hp|]. members. Qed.

(** ** One link in, one link out *)

Lemma __list_add_spec s new a b :
  linked s a b -> is_Some (s !! new) -> new <> a -> new <> b ->
  exists s', __list_add s new a b = Ret s' /\ linked s' a new /\ linked s' new b /\ touched s s' [a; new] [b; new].
Proof.
  intros [Ea Eb] Hn Ha Hb. apply cell_nxt in Ea as (ca & _ & _ & Ea). apply cell_prv in Eb as (cb & _ & _ & Eb).
  unfold __list_add. destruct (set_prev_spec s b new) as (s1 & -> & P1 & T1); [by eexists|]. rewrite bind_Ret.
  destruct (set_next_spec s1 new b) as (s2 & -> & N2 & T2); [by apply (touched_cells _ _ _ _ T1)|]. rewrite bind_Ret.
  pose proof (touched_trans _ _ _ _ _ _ _ T1 T2) as T12.
  destruct (set_prev_spec s2 new a) as (s3 & -> & P3 & T3); [by apply (touched_cells _ _ _ _ T12)|]. rewrite bind_Ret.
  pose proof (touched_trans _ _ _ _ _ _ _ T12 T3) as T13.
  destruct (set_next_spec s3 a new) as (s4 & -> & N4 & T4); [apply (touched_cells _ _ _ _ T13); by eexists|].
  exists s4. split; [done|]. split; [|split].
  - split; [done|]. rewrite (touched_prev _ _ _ _ T4) by apply not_elem_of_nil. exact P3.
  - split.
    + rewrite (touched_next _ _ _ _ T4), (touched_next _ _ _ _ T3) by (rewrite ?list_elem_of_singleton; (done || apply not_elem_of_nil)).
      exact N2.
    + rewrite (touched_prev _ _ _ _ T4), (touched_prev _ _ _ _ T3), (touched_prev _ _ _ _ T2)
        by (rewrite ?list_elem_of_singleton; (by apply not_eq_sym) || apply not_elem_of_nil). exact P1.
  - eapply touched_mono; [exact (touched_trans _ _ _ _ _ _ _ T13 T4)|..]; intros q; members.
Qed.

Lemma __list_del_spec s a b :
  is_Some (s !! a) -> is_Some (s !! b) ->
  exists s', __list_del s a b = Ret s' /\ linked s' a b /\ touched s s' [a] [b].
Proof.
  intros Ha Hb. unfold __list_del. destruct (set_prev_spec s b a Hb) as (s1 & -> & P1 & T1). rewrite bind_Ret.
  destruct (set_next_spec s1 a b) as (s2 & -> & N2 & T2); [by apply (touched_cells _ _ _ _ T1)|].
  exists s2. split; [done|]. split.
  - split; [done|]. rewrite (touched_prev _ _ _ _ T2) by apply not_elem_of_nil. exact P1.
  - eapply touched_mono; [exact (touched_trans _ _ _ _ _ _ _ T1 T2)|..]; intros q; members.
Qed.

(** ** One ring *)

Lemma hd_member (a : Z) l : List.hd a l ∈ a :: l.
Proof. destruct l; simpl; members. Qed.

Lemma last_member l (a : Z) : List.last l a ∈ a :: l.
Proof. destruct l as [|x k _] using rev_ind; [simpl; members|]. rewrite List.last_last. members. Qed.

Lemma nodup_turn (h : Z) l : NoDup (h :: l) -> NoDup (l ++ [h]).
Proof. by rewrite Permutation_cons_append. Qed.

Lemma path_head s a l z : path s a l z -> linked s a (List.hd z l).
Proof. by destruct l as [|x l]; [|intros [? _]]. Qed.

Lemma path_end s l a z : path s a l z -> linked s (List.last l a) z.
Proof. destruct l as [|x k _] using rev_ind; [done|]. intros [_ ?]%path_snoc. by rewrite List.last_last. Qed.

(** A path up to its last node. *)
Lemma path_before s l a z : path s a l z -> l = [] \/ exists k, l = k ++ [List.last l a] /\ path s a k (List.last l a).
Proof.
  destruct l as [|x k _] using rev_ind; [by left|]. intros [Hp _]%path_snoc. right. exists k. by rewrite List.last_last.
Qed.

Lemma ring_start s h : linked s h h -> ring s h [].
Proof. intros Hl. split; [apply NoDup_singleton|exact Hl]. Qed.

Lemma INIT_LIST_HEAD_ring s x :
  is_Some (s !! x) -> exists s', INIT_LIST_HEAD s x = Ret s' /\ ring s' x [] /\ touched s s' [x] [x].
Proof.
  intros Hx. unfold INIT_LIST_HEAD. destruct (set_next_spec s x x Hx) as (s1 & -> & N1 & T1). rewrite bind_Ret.
  destruct (set_prev_spec s1 x x) as (s2 & -> & P2 & T2); [by apply (touched_cells _ _ _ _ T1)|].
  exists s2. split; [done|]. split; [apply ring_start; split; [|done]|].
  - rewrite (touched_next _ _ _ _ T2) by apply not_elem_of_nil. exact N1.
  - eapply touched_mono; [exact (touched_trans _ _ _ _ _ _ _ T1 T2)|..]; intros q; members.
Qed.

Lemma ring_list_empty s h l : ring s h l -> list_empty s h = Ret (bool_decide (l = [])).
Proof.
  intros [Hnd Hp]. unfold list_empty. apply path_first, cell_nxt in Hp as (c & -> & E & _). rewrite bind_Ret, E.
  destruct l as [|x l]; simpl; [by rewrite Z.eqb_refl|]. apply NoDup_cons in Hnd as [Hx _].
  destruct (Z.eqb_spec x h) as [->|]; [exfalso; apply Hx; members|done].
Qed.

Lemma ring_list_empty_careful s h l : ring s h l -> list_empty_careful s h = list_empty s h.
Proof.
  intros Hr. rewrite (ring_list_empty s h l Hr). destruct Hr as [Hnd Hp]. unfold list_empty_careful.
  pose proof (path_last _ _ _ _ Hp) as (c & -> & El & Ec)%cell_prv. rewrite bind_Ret.
  apply path_first in Hp. unfold nxt in Hp. rewrite Ec in Hp. injection Hp as En. rewrite En, El.
  destruct l as [|x l]; simpl; [by rewrite Z.eqb_refl|]. apply NoDup_cons in Hnd as [Hx _].
  destruct (Z.eqb_spec x h) as [->|]; [exfalso; apply Hx; members|done].
Qed.

Section one_ring.
Context (s : store) (h : Z) (l : list Z) (HR : ring s h l).

Lemma list_add_ring x :
  is_Some (s !! x) -> x ∉ h :: l ->
  exists s', list_add s x h = Ret s' /\ ring s' h (x :: l) /\ touched s s' (x :: h :: l) (x :: h :: l).
Proof.
  intros Hx Hn. destruct HR as [Hnd Hp]. pose proof (hd_member h l) as Hhd. unfold list_add.
  pose proof (path_first _ _ _ _ Hp) as (c & -> & Ec & _)%cell_nxt. rewrite bind_Ret, Ec.
  destruct (__list_add_spec s x h (List.hd h l)) as (s' & -> & L1 & L2 & T);
    [by apply path_head|done|intros ->; apply Hn; members|intros ->; done|].
  pose proof (nodup_turn h l Hnd) as Ht. apply NoDup_cons in Hnd as [Hhl Hnd].
  exists s'. split; [done|]. split; [split; [|split; [done|]]|].
  - apply NoDup_cons. split; [intros Hin; apply Hhl; apply elem_of_cons in Hin as [->|]; [destruct Hn; members|done]|].
    apply NoDup_cons. split; [|done]. intros Hin. apply Hn. members.
  - apply (path_restart s s' [h; x] [List.hd h l; x] h x); [done..| |].
    + intros q Hq Hin. assert (q = h \/ q = x) as [->| ->] by members; [done|]. apply Hn. members.
    + intros q Hq Hne Hin. assert (q = x) as -> by members. apply Hn. members.
  - eapply touched_mono; [exact T|..]; intros q [->|Hq]%elem_of_cons; members.
Qed.

Lemma list_add_tail_ring x :
  is_Some (s !! x) -> x ∉ h :: l ->
  exists s', list_add_tail s x h = Ret s' /\ ring s' h (l ++ [x]) /\ touched s s' (x :: h :: l) (x :: h :: l).
Proof.
  intros Hx Hn. destruct HR as [Hnd Hp]. pose proof (last_member l h) as Hlast. unfold list_add_tail.
  pose proof (path_last _ _ _ _ Hp) as (c & -> & Ec & _)%cell_prv. rewrite bind_Ret, Ec.
  destruct (__list_add_spec s x (List.last l h) h) as (s' & -> & L1 & L2 & T);
    [by apply path_end|done|intros ->; done|intros ->; apply Hn; members|].
  exists s'. split; [done|]. split; [split|].
  - pose proof (proj2 (NoDup_cons _ _) (conj Hn Hnd)) as Hall. by rewrite perm_swap, (Permutation_cons_append l x) in Hall.
  - apply path_snoc. split; [|done]. destruct (path_before _ _ _ _ Hp) as [El|(k & El & Hk)]; [by rewrite El in *|].
    rewrite El at 1. apply path_snoc. split; [|done].
    rewrite El in Hnd. apply NoDup_cons in Hnd as [Hhk Hnd]. apply NoDup_app in Hnd as (_ & Hke & _).
    assert (forall q, q ∈ k -> q <> List.last l h /\ q <> h /\ q <> x) as Hkq.
    { intros q Hq. split_and!; intros ->; [by apply (Hke _ Hq), list_elem_of_here|apply Hhk; members|].
      apply Hn. rewrite El. members. }
    assert (List.last l h <> h) as Hlh by (intros E; apply Hhk; rewrite E; members).
    assert (List.last l h <> x) as Hlx by (intros E; apply Hn; rewrite <- E; done).
    apply (path_frame s s' [List.last l h; x] [h; x]); [done| | |done]; intros q Hq Hin.
    + assert (q = h \/ q ∈ k) as [->|Hqk] by members; [|destruct (Hkq q Hqk) as (? & ? & ?); members].
      assert (h = List.last l h \/ h = x) as [E|E] by members; [by rewrite <- E in Hlh|]. apply Hn. rewrite E. members.
    + assert (q ∈ k \/ q = List.last l h) as [Hqk| ->] by members; [destruct (Hkq q Hqk) as (? & ? & ?)|]; members.
  - eapply touched_mono; [exact T|..]; intros q [->|Hq]%elem_of_cons; members.
Qed.
End one_ring.

(** ** Taking a node out *)

(** The node's neighbours are linked to each other; its own cell stays. *)
Lemma unlink_ring s h l1 x l2 :
  ring s h (l1 ++ x :: l2) ->
  exists c s', cell s x = Ret c /\ __list_del s (prev c) (next c) = Ret s' /\ ring s' h (l1 ++ l2) /\
    touched s s' (h :: l1 ++ l2) (h :: l1 ++ l2) /\ x ∉ h :: l1 ++ l2.
Proof.
  intros HR. destruct HR as [Hnd Hp]. rewrite <- Permutation_middle, perm_swap in Hnd.
  apply NoDup_cons in Hnd as [Hx Hnd]. pose proof (hd_member h l2) as Hhd. pose proof (last_member l1 h) as Hlast.
  apply path_app in Hp as [Hp1 Hp2].
  pose proof (path_first _ _ _ _ Hp2) as (c & Ec & En & Ex)%cell_nxt.
  pose proof (path_last _ _ _ _ Hp1) as Ep. unfold prv in Ep. rewrite Ex in Ep. injection Ep as Ep.
  destruct (__list_del_spec s (List.last l1 h) (List.hd h l2)) as (s' & E & L & T).
  { eapply path_cells; [exact Hp1|]. members. }
  { eapply path_cells; [exact Hp2|]. members. }
  exists c, s'. split; [done|]. rewrite Ep, En. split; [exact E|]. split; [|split; [|exact Hx]].
  - split; [done|]. pose proof (nodup_turn h _ Hnd) as Ht. rewrite <- app_assoc in Ht. apply NoDup_app in Ht as (H1 & H12 & H2).
    destruct (path_before _ _ _ _ Hp1) as [->|(k & El & Hk)].
    + apply (path_restart s s' [h] [List.hd h l2] x); [done..| |].
      * intros q Hq ->%list_elem_of_singleton. apply NoDup_cons in Hnd as [Hh _]. done.
      * intros q _ Hne ->%list_elem_of_singleton. done.
    + set (e := List.last l1 h) in *. clearbody e. rewrite El, <- app_assoc. cbn [app]. rewrite El in H1, H12, Hnd.
      assert (forall q, q ∈ k -> q <> e /\ q <> h /\ q ∉ l2 ++ [h]) as Hkq.
      { intros q Hq. split_and!.
        - intros ->. apply NoDup_app in H1 as (_ & Hke & _). by apply (Hke e Hq), list_elem_of_here.
        - intros ->. apply NoDup_cons in Hnd as [Hh _]. apply Hh. members.
        - apply H12. members. }
      assert (e ∉ l2 ++ [h]) as He by (apply H12; members).
      apply path_app. split.
      * apply (path_frame s s' [e] [List.hd h l2]); [done| | |done].
        -- intros q [->|Hq]%elem_of_cons ->%list_elem_of_singleton; [apply He; members|by destruct (Hkq e Hq)].
        -- intros q Hq ->%list_elem_of_singleton. assert (List.hd h l2 ∈ l2 ++ [h]) as Hin by members.
           apply elem_of_app in Hq as [Hq|E'%list_elem_of_singleton]; [by destruct (Hkq _ Hq) as (_ & _ & ?)|by rewrite E' in Hin].
      * apply (path_restart s s' [e] [List.hd h l2] x); [done..| |].
        -- intros q Hq ->%list_elem_of_singleton. apply He. members.
        -- intros q _ Hne ->%list_elem_of_singleton. done.
  - eapply touched_mono; [exact T|..]; intros q ->%list_elem_of_singleton; members.
Qed.

(** ** Joining two rings *)

Lemma __list_splice_ring s a la h lh :
  ring s a la -> ring s h lh -> la <> [] -> (forall q, q ∈ a :: la -> q ∉ h :: lh) ->
  exists s', __list_splice s a h = Ret s' /\ ring s' h (la ++ lh) /\ touched s s' (h :: la ++ lh) (h :: la ++ lh).
Proof.
  intros HA HH Hne Hdis. pose proof (fun q => ring_cells s a la q HA) as Hca. pose proof (fun q => ring_cells s h lh q HH) as Hch.
  destruct HA as [Hna Hpa], HH as [Hnh Hph].
  destruct (path_before _ _ _ _ Hpa) as [?|(k & El & Hk)]; [done|]. set (e := List.last la a) in *.
  set (f := List.hd a la). set (t := List.hd h lh).
  assert (f ∈ la) as Hf by (unfold f; destruct la; [done|simpl; members]).
  assert (e ∈ la) as He by (rewrite El; members). assert (t ∈ h :: lh) as Ht by apply hd_member.
  assert (f <> t /\ e <> h /\ a ∉ la) as (Hft & Heh & Haa).
  { split_and!; [intros E; apply (Hdis f); [members|by rewrite E]|intros E; apply (Hdis e); [members|rewrite E; members]|].
    by apply NoDup_cons in Hna as [? _]. }
  assert (List.hd e k = f) as Hhd by (unfold f; rewrite El; by destruct k).
  unfold __list_splice. pose proof (path_first _ _ _ _ Hpa) as (ca & -> & Na & Ca)%cell_nxt. rewrite bind_Ret.
  pose proof (path_last _ _ _ _ Hpa) as Pa. unfold prv in Pa. rewrite Ca in Pa. injection Pa as Pa.
  pose proof (path_first _ _ _ _ Hph) as (ch & -> & Nh & _)%cell_nxt. rewrite bind_Ret. cbv zeta.
  fold f in Na. fold e in Pa. fold t in Nh. rewrite Na, Pa, Nh. assert (t = List.hd h lh) as Eht by done. clearbody e f t.
  destruct (set_prev_spec s f h) as (s1 & -> & P1 & T1); [apply Hca; members|]. rewrite bind_Ret.
  destruct (set_next_spec s1 h f) as (s2 & -> & N2 & T2); [apply (touched_cells _ _ _ _ T1), Hch; members|]. rewrite bind_Ret.
  pose proof (touched_trans _ _ _ _ _ _ _ T1 T2) as T12.
  destruct (set_next_spec s2 e t) as (s3 & -> & N3 & T3); [apply (touched_cells _ _ _ _ T12), Hca; members|]. rewrite bind_Ret.
  pose proof (touched_trans _ _ _ _ _ _ _ T12 T3) as T13.
  destruct (set_prev_spec s3 t e) as (s4 & -> & P4 & T4); [by apply (touched_cells _ _ _ _ T13), Hch|].
  pose proof (touched_trans _ _ _ _ _ _ _ T13 T4) as T. exists s4. split; [done|].
  assert (linked s4 h f) as Lf.
  { split.
    - rewrite (touched_next _ _ _ _ T4), (touched_next _ _ _ _ T3); [done|rewrite list_elem_of_singleton; congruence|apply not_elem_of_nil].
    - rewrite (touched_prev _ _ _ _ T4), (touched_prev _ _ _ _ T3), (touched_prev _ _ _ _ T2);
        [done|apply not_elem_of_nil|apply not_elem_of_nil|by rewrite list_elem_of_singleton]. }
  assert (linked s4 e t) as Le.
  { split; [|done]. rewrite (touched_next _ _ _ _ T4); [done|apply not_elem_of_nil]. }
  apply (touched_mono _ _ _ _ [h; e] [f; t]) in T; [|intros q; members|intros q; members].
  split; [split|].
  - cbn [app]. apply NoDup_cons in Hna as [_ Hna]. apply NoDup_cons in Hnh as [Hhh Hnh]. apply NoDup_cons. split.
    + intros [Hin|Hin]%elem_of_app; [|done]. apply (Hdis h); members.
    + apply NoDup_app. split; [done|]. split; [|done]. intros q Hq Hin. apply (Hdis q); members.
  - rewrite El, <- app_assoc. cbn [app]. apply path_app. apply NoDup_cons in Hna as [_ Hna]. rewrite El in Hna.
    assert (e ∉ k) as Hke by (intros Hin; apply NoDup_app in Hna as (_ & Hd & _); apply (Hd e Hin); members).
    assert (forall q, q ∈ k -> q ∈ la) as Hkl by (intros q Hq; rewrite El; members).
    split.
    + apply (path_restart s s4 [h; e] [f; t] a); [done|done|by rewrite Hhd|done| |].
      * intros q Hq [->|[->|[]%not_elem_of_nil]%elem_of_cons]%elem_of_cons; [|done]. apply (Hdis h); [|members].
        specialize (Hkl h Hq). members.
      * intros q Hq Hnq [->|[->|[]%not_elem_of_nil]%elem_of_cons]%elem_of_cons; [congruence|]. apply (Hdis t); [|done].
        apply elem_of_app in Hq as [Hq| ->%list_elem_of_singleton]; [specialize (Hkl t Hq)|]; members.
    + apply (path_restart s s4 [h; e] [f; t] h); rewrite <- ?Eht; [done|done|done|by apply nodup_turn| |].
      * intros q Hq [->|[->|[]%not_elem_of_nil]%elem_of_cons]%elem_of_cons.
        -- apply NoDup_cons in Hnh as [Hh _]. done.
        -- apply (Hdis e); members.
      * intros q Hq Hnq [->|[->|[]%not_elem_of_nil]%elem_of_cons]%elem_of_cons; [|done]. apply (Hdis f); members.
  - eapply touched_mono; [exact T|..]; intros q [->|[->|[]%not_elem_of_nil]%elem_of_cons]%elem_of_cons; members.
Qed.

(** ** Many lists at once *)

(** The lists of the cells in [D]: a list for each head. *)
Record lists_ok (D : gset Z) (s : store) (M : gmap Z (list Z)) : Prop := {
  lists_cells : forall q, q ∈ D -> is_Some (s !! q);
  lists_rings : forall h l, M !! h = Some l -> ring s h l;
  lists_apart : forall h1 l1 h2 l2 q, M !! h1 = Some l1 -> M !! h2 = Some l2 -> q ∈ h1 :: l1 -> q ∈ h2 :: l2 -> h1 = h2
}.

(** [q] is in no list, as a head or as a node. *)
Definition unused (M : gmap Z (list Z)) (q : Z) : Prop := forall h l, M !! h = Some l -> q ∉ h :: l.

(** No list but that of [h] has [q]. *)
Definition only_in (M : gmap Z (list Z)) (h q : Z) : Prop := forall h' l', M !! h' = Some l' -> q ∈ h' :: l' -> h' = h.

Inductive op :=
  | Init (x : Z) | Add (x h : Z) | AddTail (x h : Z) | Del (x : Z) | DelInit (x : Z)
  | Move (x h : Z) | MoveTail (x h : Z) | Splice (a h : Z) | SpliceInit (a h : Z).

Definition run_op (s : store) (o : op) : outcome store :=
  match o with
  | Init x => INIT_LIST_HEAD s x
  | Add x h => list_add s x h
  | AddTail x h => list_add_tail s x h
  | Del x => list_del s x
  | DelInit x => list_del_init s x
  | Move x h => list_move s x h
  | MoveTail x h => list_move_tail s x h
  | Splice a h => list_splice s a h
  | SpliceInit a h => list_splice_init s a h
  end.

Definition run_ops (s : store) (os : list op) : outcome store :=
  foldl (fun (r : outcome store) o => s ← r; run_op s o) (Ret s) os.

(** What an operation promises of the lists, when it may be called. *)
Inductive promises (D : gset Z) : gmap Z (list Z) -> op -> gmap Z (list Z) -> Prop :=
  | promises_init M x : x ∈ D -> unused M x -> promises D M (Init x) (<[x := []]> M)
  | promises_add M x h l : x ∈ D -> unused M x -> M !! h = Some l -> promises D M (Add x h) (<[h := x :: l]> M)
  | promises_add_tail M x h l : x ∈ D -> unused M x -> M !! h = Some l -> promises D M (AddTail x h) (<[h := l ++ [x]]> M)
  | promises_del M x h l1 l2 : M !! h = Some (l1 ++ x :: l2) -> promises D M (Del x) (<[h := l1 ++ l2]> M)
  | promises_del_init M x h l1 l2 : M !! h = Some (l1 ++ x :: l2) ->
      promises D M (DelInit x) (<[x := []]> (<[h := l1 ++ l2]> M))
  | promises_move M x h l1 l2 h' l : M !! h = Some (l1 ++ x :: l2) -> <[h := l1 ++ l2]> M !! h' = Some l ->
      promises D M (Move x h') (<[h' := x :: l]> (<[h := l1 ++ l2]> M))
  | promises_move_tail M x h l1 l2 h' l : M !! h = Some (l1 ++ x :: l2) -> <[h := l1 ++ l2]> M !! h' = Some l ->
      promises D M (MoveTail x h') (<[h' := l ++ [x]]> (<[h := l1 ++ l2]> M))
  | promises_splice M a la h lh : a <> h -> M !! a = Some la -> M !! h = Some lh ->
      promises D M (Splice a h) (<[h := la ++ lh]> (delete a M))
  | promises_splice_init M a la h lh : a <> h -> M !! a = Some la -> M !! h = Some lh ->
      promises D M (SpliceInit a h) (<[a := []]> (<[h := la ++ lh]> M)).

Inductive promises_all (D : gset Z) : gmap Z (list Z) -> list op -> gmap Z (list Z) -> Prop :=
  | promises_none M : promises_all D M [] M
  | promises_more M o M' os M'' : promises D M o M' -> promises_all D M' os M'' -> promises_all D M (o :: os) M''.

(** One list changes, and cells that no other list has. *)
Lemma lists_update D s s' M X h l :
  lists_ok D s M -> touched s s' X X -> ring s' h l ->
  (forall q, q ∈ X -> only_in M h q) -> (forall q, q ∈ h :: l -> only_in M h q) -> lists_ok D s' (<[h := l]> M).
Proof.
  intros [HD HR HA] HT Hr HX Hl. split.
  - intros q Hq. by apply (touched_cells _ _ _ _ HT), HD.
  - intros h' l' [[<- <-]|[Hne E]]%lookup_insert_Some; [done|]. assert (forall q, q ∈ h' :: l' -> q ∉ X) as Hq.
    { intros q Hq HinX. by destruct Hne; apply symmetry, (HX q HinX h' l'). }
    by apply (ring_frame s s' X X); [| | |apply HR].
  - intros h1 l1 h2 l2 q [[<- <-]|[N1 E1]]%lookup_insert_Some [[<- <-]|[N2 E2]]%lookup_insert_Some H1 H2; [done| | |].
    + symmetry. by apply (Hl q H1 h2 l2).
    + by apply (Hl q H2 h1 l1).
    + by apply (HA h1 l1 h2 l2 q).
Qed.

Lemma unused_only_in M h q : unused M q -> only_in M h q.
Proof. intros H h' l' E Hq. by destruct (H h' l' E). Qed.

Lemma lists_only_in D s M h l q : lists_ok D s M -> M !! h = Some l -> q ∈ h :: l -> only_in M h q.
Proof. intros HL E Hq h' l' E' Hq'. by eapply (lists_apart _ _ _ HL). Qed.

Lemma lists_init D s M x :
  lists_ok D s M -> x ∈ D -> unused M x ->
  exists s', INIT_LIST_HEAD s x = Ret s' /\ lists_ok D s' (<[x := []]> M) /\ touched s s' [x] [x].
Proof.
  intros HL Hx Hu. destruct (INIT_LIST_HEAD_ring s x) as (s' & E & Hr & HT); [by apply (lists_cells _ _ _ HL)|].
  exists s'. split; [done|]. split; [|done].
  apply (lists_update D s s' M [x]); [done..| |]; intros q ->%list_elem_of_singleton; by apply unused_only_in.
Qed.

Lemma lists_add D s M x h l :
  lists_ok D s M -> is_Some (s !! x) -> unused M x -> M !! h = Some l ->
  exists s', list_add s x h = Ret s' /\ lists_ok D s' (<[h := x :: l]> M).
Proof.
  intros HL Hx Hu E. destruct (list_add_ring s h l (lists_rings _ _ _ HL h l E) x) as (s' & Es & Hr & HT);
    [done|by apply Hu|]. exists s'. split; [done|].
  assert (forall q, q ∈ x :: h :: l -> only_in M h q) as Ho.
  { intros q [->|Hq]%elem_of_cons; [by apply unused_only_in|by eapply lists_only_in]. }
  apply (lists_update D s s' M _ h _ HL HT Hr Ho). intros q Hq. apply Ho. members.
Qed.

Lemma lists_add_tail D s M x h l :
  lists_ok D s M -> is_Some (s !! x) -> unused M x -> M !! h = Some l ->
  exists s', list_add_tail s x h = Ret s' /\ lists_ok D s' (<[h := l ++ [x]]> M).
Proof.
  intros HL Hx Hu E. destruct (list_add_tail_ring s h l (lists_rings _ _ _ HL h l E) x) as (s' & Es & Hr & HT);
    [done|by apply Hu|]. exists s'. split; [done|].
  assert (forall q, q ∈ x :: h :: l -> only_in M h q) as Ho.
  { intros q [->|Hq]%elem_of_cons; [by apply unused_only_in|by eapply lists_only_in]. }
  apply (lists_update D s s' M _ h _ HL HT Hr Ho). intros q Hq. apply Ho. members.
Qed.

(** After its node is taken out, the node is in no list. *)
Lemma lists_unlink D s M x h l1 l2 :
  lists_ok D s M -> M !! h = Some (l1 ++ x :: l2) ->
  exists c s', cell s x = Ret c /\ __list_del s (prev c) (next c) = Ret s' /\ lists_ok D s' (<[h := l1 ++ l2]> M) /\
    is_Some (s' !! x) /\ unused (<[h := l1 ++ l2]> M) x.
Proof.
  intros HL E. pose proof (lists_rings _ _ _ HL _ _ E) as HR.
  destruct (unlink_ring s h l1 x l2 HR) as (c & s' & Ec & Ed & Hr & HT & Hx).
  exists c, s'. split; [done|]. split; [done|].
  assert (forall q, q ∈ h :: l1 ++ l2 -> only_in M h q) as Ho.
  { intros q Hq. eapply lists_only_in; [done..|]. members. }
  split; [by apply (lists_update D s s' M _ h _ HL HT Hr Ho)|]. split.
  - apply (touched_cells _ _ _ _ HT). eapply ring_cells; [exact HR|]. members.
  - intros h' l' [[<- <-]|[Hne E']]%lookup_insert_Some; [done|]. intros Hin. apply Hne.
    eapply (lists_apart _ _ _ HL h _ h' l' x); [done..| |done]. members.
Qed.

(** Writes to a cell that no list has. *)
Lemma lists_touch_unused D s s' M x :
  lists_ok D s M -> touched s s' [x] [x] -> unused M x -> lists_ok D s' M.
Proof.
  intros [HD HR HA] HT Hu. split; [intros q Hq; by apply (touched_cells _ _ _ _ HT), HD| |done].
  intros h l E. assert (forall q, q ∈ h :: l -> q ∉ [x]) as Hq by (intros q Hq ->%list_elem_of_singleton; by apply (Hu h l E)).
  by apply (ring_frame s s' [x] [x]); [| | |apply HR].
Qed.

Lemma lists_delete D s M a : lists_ok D s M -> lists_ok D s (delete a M).
Proof.
  intros [HD HR HA]. split; [done|by intros h l [_ E]%lookup_delete_Some; apply HR|].
  intros h1 l1 h2 l2 q [_ E1]%lookup_delete_Some [_ E2]%lookup_delete_Some. by apply HA.
Qed.

Lemma lists_del D s M x h l1 l2 :
  lists_ok D s M -> M !! h = Some (l1 ++ x :: l2) ->
  exists s', list_del s x = Ret s' /\ lists_ok D s' (<[h := l1 ++ l2]> M).
Proof.
  intros HL E. destruct (lists_unlink D s M x h l1 l2 HL E) as (c & s1 & Ec & Ed & HL1 & Hx & Hu).
  unfold list_del. rewrite Ec, bind_Ret, Ed, bind_Ret.
  destruct (set_next_spec s1 x LIST_POISON1 Hx) as (s2 & -> & _ & T2). rewrite bind_Ret.
  destruct (set_prev_spec s2 x LIST_POISON2) as (s3 & -> & _ & T3); [by apply (touched_cells _ _ _ _ T2)|].
  exists s3. split; [done|]. apply (lists_touch_unused D s1 s3 _ x); [done|exact (touched_trans _ _ _ _ _ _ _ T2 T3)|done].
Qed.

Lemma lists_splice_full D s M a la h lh :
  lists_ok D s M -> a <> h -> M !! a = Some la -> M !! h = Some lh -> la <> [] ->
  exists s', __list_splice s a h = Ret s' /\ lists_ok D s' (<[h := la ++ lh]> (delete a M)) /\
    is_Some (s' !! a) /\ unused (<[h := la ++ lh]> (delete a M)) a.
Proof.
  intros HL Hah Ea Eh Hne. pose proof (lists_rings _ _ _ HL _ _ Ea) as Ra. pose proof (lists_rings _ _ _ HL _ _ Eh) as Rh.
  destruct (__list_splice_ring s a la h lh Ra Rh Hne) as (s' & E & Hr & HT).
  { intros q Hq Hq'. apply Hah. by eapply (lists_apart _ _ _ HL). }
  exists s'. split; [done|].
  assert (forall q, q ∈ h :: la ++ lh -> only_in (delete a M) h q) as Ho.
  { intros q Hq h' l' [Hna E']%lookup_delete_Some Hq'. apply elem_of_cons in Hq as [->|[Hq|Hq]%elem_of_app].
    - eapply (lists_apart _ _ _ HL); [done..|members].
    - destruct Hna. eapply (lists_apart _ _ _ HL a la h' l' q); [done..|members|done].
    - eapply (lists_apart _ _ _ HL); [done..|members]. }
  split; [by apply (lists_update D s s' _ _ h _ (lists_delete D s M a HL) HT Hr Ho)|]. split.
  - apply (touched_cells _ _ _ _ HT). eapply ring_cells; [exact Ra|]. members.
  - intros h' l' [[<- <-]|[Hne' [Hna E']%lookup_delete_Some]]%lookup_insert_Some Hin.
    + apply elem_of_cons in Hin as [->|[Hin|Hin]%elem_of_app]; [done| |].
      * destruct Ra as [Hnd _]. by apply NoDup_cons in Hnd as [? _].
      * apply Hah. eapply (lists_apart _ _ _ HL a la h lh a); [done..|members|members].
    + destruct Hna. eapply (lists_apart _ _ _ HL a la h' l' a); [done..|members|done].
Qed.

Lemma lists_splice D s M a la h lh :
  lists_ok D s M -> a <> h -> M !! a = Some la -> M !! h = Some lh ->
  exists s', list_splice s a h = Ret s' /\ lists_ok D s' (<[h := la ++ lh]> (delete a M)).
Proof.
  intros HL Hah Ea Eh. unfold list_splice. rewrite (ring_list_empty s a la) by (by apply (lists_rings _ _ _ HL)).
  rewrite bind_Ret. destruct (bool_decide_reflect (la = [])) as [->|Hne]; cbn [negb app].
  - exists s. split; [done|]. rewrite insert_id by (by rewrite lookup_delete_ne). by apply lists_delete.
  - destruct (lists_splice_full D s M a la h lh) as (s' & E & HL' & _); [done..|]. by exists s'.
Qed.

Lemma lists_splice_init D s M a la h lh :
  lists_ok D s M -> a <> h -> M !! a = Some la -> M !! h = Some lh ->
  exists s', list_splice_init s a h = Ret s' /\ lists_ok D s' (<[a := []]> (<[h := la ++ lh]> M)).
Proof.
  intros HL Hah Ea Eh. unfold list_splice_init. rewrite (ring_list_empty s a la) by (by apply (lists_rings _ _ _ HL)).
  rewrite bind_Ret. destruct (bool_decide_reflect (la = [])) as [->|Hne]; cbn [negb app].
  - exists s. split; [done|]. rewrite (insert_id M h) by done. by rewrite insert_id.
  - destruct (lists_splice_full D s M a la h lh) as (s1 & -> & HL1 & Hx & Hu); [done..|]. rewrite bind_Ret.
    destruct (INIT_LIST_HEAD_ring s1 a Hx) as (s2 & E & Hr & HT). exists s2. split; [done|].
    replace (<[a := []]> (<[h := la ++ lh]> M)) with (<[a := []]> (<[h := la ++ lh]> (delete a M))).
    2:{ rewrite !(insert_insert_ne _ a h) by done. by rewrite insert_delete_eq. }
    apply (lists_update D s1 s2 _ [a]); [done..| |]; intros q ->%list_elem_of_singleton; by apply unused_only_in.
Qed.

(** Every operation keeps its promise. *)
Lemma run_op_promises D s M o M' :
  lists_ok D s M -> promises D M o M' -> exists s', run_op s o = Ret s' /\ lists_ok D s' M'.
Proof.
  intros HL HP. destruct HP; cbn [run_op].
  - destruct (lists_init D s M x) as (s' & E & H' & _); [done..|]. by exists s'.
  - by apply lists_add; [|apply (lists_cells _ _ _ HL)|..].
  - by apply lists_add_tail; [|apply (lists_cells _ _ _ HL)|..].
  - by apply lists_del.
  - destruct (lists_unlink D s M x h l1 l2 HL H) as (c & s1 & Ec & Ed & HL1 & Hx & Hu).
    unfold list_del_init. rewrite Ec, bind_Ret, Ed, bind_Ret. destruct (INIT_LIST_HEAD_ring s1 x Hx) as (s2 & E & Hr & HT).
    exists s2. split; [done|]. apply (lists_update D s1 s2 _ [x]); [done..| |]; intros q ->%list_elem_of_singleton;
      by apply unused_only_in.
  - destruct (lists_unlink D s M x h l1 l2 HL H) as (c & s1 & Ec & Ed & HL1 & Hx & Hu).
    unfold list_move. rewrite Ec, bind_Ret, Ed, bind_Ret. by apply lists_add.
  - destruct (lists_unlink D s M x h l1 l2 HL H) as (c & s1 & Ec & Ed & HL1 & Hx & Hu).
    unfold list_move_tail. rewrite Ec, bind_Ret, Ed, bind_Ret. by apply lists_add_tail.
  - by apply lists_splice.
  - by apply lists_splice_init.
Qed.

(** ** Iteration *)

Lemma for_each_path s h l : forall x n,
  path s x l h -> h ∉ x :: l -> (List.length l < n)%nat -> for_each_from n s x h = Ret (x :: l).
Proof.
  induction l as [|y l IH]; intros x n Hp Hh Hn; (destruct n as [|n]; [simpl in Hn; lia|]); cbn [for_each_from];
    apply not_elem_of_cons in Hh as [Hhx Hh]; (destruct (Z.eqb_spec x h) as [->|_]; [done|]).
  - apply path_first, cell_nxt in Hp as (c & -> & Ec & _). rewrite bind_Ret, Ec. simpl. destruct n; simpl; by rewrite Z.eqb_refl.
  - destruct Hp as [[Hx _] Hp]. apply cell_nxt in Hx as (c & -> & Ec & _). rewrite bind_Ret, Ec.
    by rewrite (IH y n) by (simpl in Hn; (done || lia)).
Qed.

Lemma ring_size s h l : ring s h l -> (List.length l < size s)%nat.
Proof.
  intros HR. assert (list_to_set (h :: l) ⊆ dom s) as Hsub.
  { intros q Hq%elem_of_list_to_set. apply elem_of_dom. by eapply ring_cells. }
  apply subseteq_size in Hsub. rewrite size_list_to_set, size_dom in Hsub by apply HR. simpl in Hsub. lia.
Qed.

Lemma __list_for_each_ring s h l : ring s h l -> __list_for_each s h = Ret l.
Proof.
  intros HR. pose proof (ring_size _ _ _ HR) as Hs. destruct HR as [Hnd Hp]. unfold __list_for_each.
  pose proof (path_first _ _ _ _ Hp) as (c & -> & Ec & _)%cell_nxt. rewrite bind_Ret, Ec.
  destruct l as [|x l]; simpl.
  - destruct (size s); simpl; by rewrite Z.eqb_refl.
  - destruct Hp as [_ Hp]. apply NoDup_cons in Hnd as [Hh _]. apply for_each_path; [done..|simpl in Hs; lia].
Qed.

(** C15: any sequence of list operations, each called where its comment allows,
    runs to its end; the rings it leaves are the lists the operations promise,
    on any number of heads at once, and a loop over each visits exactly its
    nodes in order. *)
Theorem lists_refine D os : forall s M M',
  lists_ok D s M -> promises_all D M os M' ->
  exists s', run_ops s os = Ret s' /\ lists_ok D s' M' /\
    forall h l, M' !! h = Some l ->
      __list_for_each s' h = Ret l /\ list_empty s' h = Ret (bool_decide (l = [])) /\ list_empty_careful s' h = list_empty s' h.
Proof.
  unfold run_ops. induction os as [|o os IH]; intros s M M' HL HP; inversion HP; subst.
  - exists s. split; [done|]. split; [done|]. intros h l E. pose proof (lists_rings _ _ _ HL _ _ E) as HR.
    split; [by apply __list_for_each_ring|]. split; [by apply ring_list_empty|by eapply ring_list_empty_careful].
  - destruct (run_op_promises D s M o _ HL H2) as (s1 & E & HL1). cbn [foldl]. rewrite bind_Ret, E.
    by apply (IH s1 _ M' HL1).
Qed.

(** Two heads and three nodes: add, add at the tail, move, join. *)
Definition five_cells : store := list_to_map ((fun p => (p, Head 0 0)) <$> [0x10; 0x20; 0x30; 0x40; 0x50]).
Definition five_nodes : gset Z := list_to_set [0x10; 0x20; 0x30; 0x40; 0x50].

Example lists_refine_witness :
  exists s', run_ops five_cells [Init 0x10; Init 0x20; Add 0x30 0x10; AddTail 0x40 0x10; Add 0x50 0x20; Move 0x40 0x20;
      SpliceInit 0x20 0x10] = Ret s' /\
    __list_for_each s' 0x10 = Ret [0x40; 0x50; 0x30] /\ list_empty s' 0x20 = Ret true.
Proof.
  assert (forall (M : gmap Z (list Z)) q, map_Forall (fun h l => q ∉ h :: l) M -> unused M q) as Hu
    by (intros M q HM h l E; by apply HM).
  edestruct (lists_refine five_nodes [Init 0x10; Init 0x20; Add 0x30 0x10; AddTail 0x40 0x10; Add 0x50 0x20; Move 0x40 0x20;
      SpliceInit 0x20 0x10] five_cells ∅) as (s' & E & _ & H).
  - split; [|done|done]. intros q Hq. assert (set_Forall (fun q => is_Some (five_cells !! q)) five_nodes) as HF by by_computation.
    by apply HF.
  - eapply promises_more; [apply promises_init; [by_computation|apply Hu; by_computation]|].
    eapply promises_more; [apply promises_init; [by_computation|apply Hu; by_computation]|].
    eapply promises_more; [eapply promises_add; [by_computation|apply Hu; by_computation|reflexivity]|].
    eapply promises_more; [eapply promises_add_tail; [by_computation|apply Hu; by_computation|reflexivity]|].
    eapply promises_more; [eapply promises_add; [by_computation|apply Hu; by_computation|reflexivity]|].
    eapply promises_more; [eapply (promises_move _ _ 0x40 0x10 [0x30] []); reflexivity|].
    eapply promises_more; [eapply promises_splice_init; [done|reflexivity|reflexivity]|]. apply promises_none.
  - exists s'. split; [exact E|]. split; [apply (H 0x10); reflexivity|]. apply (H 0x20 []). reflexivity.
Defined.
